(* ===== verification/_CoqProject ===== *)
-Q . S2P
Prelude.v
PyMonad.v
PyText.v
PyDict.v
Cuda.v
Allocator.v
NodeState.v
Stage.v
Unstage.v
Names.v
FdServer.v
Notify.v
Target.v
Propagate.v
Rpc.v
DriverGrpc.v
ClientGrpc.v
PluginGrpc.v
Serve.v
Generated.v
Files.v
Lifecycle.v
Client.v
PluginClient.v
Engine.v
Consumer.v
Steps.v
Cluster.v
Workers.v
Threads.v
Trainer.v
