(* ===== verification/Prelude.v ===== *)
(** * Weight Propagation Interface: verification library (root file)

    ** The program

    A node driver (src/driver/main.py) keeps model weights in shared GPU memory. It
    allocates VRAM for a buffer when a claim is staged (NodeStageWeight), hands the file
    descriptor of the allocation to local processes over a UNIX socket (pass_fd_server),
    copying the buffer to another GPU when a process asks for one, collects the sockets of
    the processes that want to hear of updates (notify_server), sends a buffer to other
    nodes over NCCL (NodePropagate on the source, handle_target_connection on a target),
    and frees it when its last claim is unstaged (NodeUnstageWeight). Consumers use a client
    library (src/consumer/wpi_client/client.py; src/consumer/wpi_verl_plugin/client.py is a
    copy of it), the checkpoint engine of a training job (engine.py of the plugin) is built
    on that library, and src/consumer/consumer_pytorch.py is a consumer without it. The
    library reaches the driver by gRPC, through one of three copies of the generated module
    wpi_pb2_grpc.py; the messages are those of src/proto/wpi.proto. Two example trainers
    (src/consumer/wpi_vllm/examples) drive a vLLM server and the weight transfer of vLLM.

    ** The library

    - [Prelude]: 64-bit truncation, rounding to a granularity, the tactics and hint
      databases of the development, lemmas on lists and strings.
    - [PyMonad]: Python effects. A statement is a function [S -> outcome A * S]; the outcome
      is a value, an exception (mutations made before it stay) or [Stuck]. Loops, [try],
      [finally], [assert]; [preserves I m] (m keeps the invariant I, whatever its outcome)
      and [keeps I m] (m also returns or raises) with the tactics [preserves_tac] and
      [keeps_tac] that derive both along the structure of a program.
    - [PyText]: text and bytes: split, strip, int, str, UTF-8 decoding, repr of bytes.
    - [PyDict]: dictionaries with insertion order, their equivalence and its [Proper]
      instances.
    - [Cuda]: the CUDA driver API as a class [CudaApi] over an abstract state, its documented
      behaviour as the class [CudaLaws] over an observation (allocations, reservations,
      mappings), device memory as bytes, and a simulated driver [Sim] that satisfies the
      laws and on which the witnesses run.
    - [Allocator]: class CudaAllocator of main.py; [allocate_and_export], [free],
      [get_or_create_context], the constructor and the module-level instance.
    - [NodeState]: the state of the driver: ALLOCATED_BUFFERS and KNOWN_CLAIMS, the entries,
      the ids and paths derived from a buffer id; sockets as queues of received chunks with
      what was sent on them and the room that is left for more (a send beyond it waits for the
      peer, [conn_send]); calls of the file system that may fail ([fs_do]); the gRPC context
      as the class [GrpcContext] with its laws; [rpc], the run of a handler as a client
      observes it; the machine around the driver ([Env]): CuPy, NCCL, safetensors, the
      errors of the file system.
    - [Names]: the ids and the socket paths of two requests compared.
    - [Stage], [Unstage]: NodeStageWeight; NodeUnstageWeight, NodeRegisterWeight,
      NodeTranslateAndMap and the identity service.
    - [FdServer]: pass_fd_server and notify_server, over the sequence of the connections
      that they accept.
    - [Notify]: send_pre_update_signal and the READY loops.
    - [Target], [Propagate]: handle_target_connection and NodePropagate.
    - [Rpc]: the messages of wpi.proto and the widths of their fields; the protobuf and gRPC
      runtimes as the classes [Protobuf] and [ServerApi] with their laws, and a call from a
      stub to a handler; [GrpcSim], concrete runtimes for the witnesses.
    - [DriverGrpc], [ClientGrpc], [PluginGrpc]: the three copies of wpi_pb2_grpc.py.
    - [Serve]: the servicer classes, serve() and start_nccl_target_server().
    - [Files]: the files that the driver creates; verify_driver.py and consumer.py, which look
      for one.
    - [Generated]: what the three copies of the generated module have in common.
    - [Lifecycle]: the driver as a transition system ([step]: every stage and unstage with its
      reply, every served connection), the registry of counts and claims that it implements,
      and the store of buffers and holders that the registry is in an orderly history.
    - [Client], [PluginClient]: class WPIClient and its copy; the copy is the same program
      with another metadata line. A file that is passed over a socket gets a new number in
      the process that receives it ([deliver_rights], [fd_table]).
    - [Engine]: class WPICheckpointEngine, on top of [Client] as in the source.
    - [Consumer]: consumer_pytorch.py.
    - [Steps]: a worker over the steps of a job, for every order in which tables,
      notifications and parts of transfers arrive and its thread runs.
    - [Cluster]: a trainer, its driver, the drivers of the targets and a worker together: the
      calls of the client library as gRPC calls, the connections of a source as those that
      the targets accept, and the bytes that matching NCCL calls move.
    - [Workers]: the engines of the processes of one node, which share a claim, and its driver.
    - [Threads]: handlers as processes of atomic segments on the threads of the gRPC server.
    - [Trainer]: trainer_http.py and trainer_ray.py.

    A definition has the name of the function or method it translates; a block of a longer
    function that has a definition of its own is named in that definition's comment. A
    handler threads the whole state of the driver ([Driver]), the client and the engine
    theirs ([WPIClient], [WPICheckpointEngine]); a call into the other part of the system is
    an observable of the state ([calls], [outbox], [nccl_log], [zmq_sent]), and the theorems
    about two parts connect the observables of one to the inputs of the other.

    ** What the theorems show

    - The whole chain: [weights_reach_workers] (from the trainer's engine over client, gRPC,
      NodePropagate, the targets and NCCL to the weights that a worker yields, with every
      call of the chain returning) and [failed_transfer_yields_previous] (what the worker
      yields when the transfer fails after PRE_UPDATE). [worker_reads_or_lags]: what a worker
      reads, and when, in a job of many steps.
    - The server: [serve_answers] (each method of each stub reaches its handler),
      [controller_not_served], [target_server_serves] (every accepted source is served,
      whatever its neighbours do), [base_servicers_unimplemented], [check_version_run].
    - Sharing: [shared_claim_leaks] (more than one worker on a node), [effective_ids_collide],
      [socket_paths_collide], [translate_names_the_claim].
    - Files: [driver_creates_sockets_only], [verify_driver_finds_no_file], [file_consumed].
    - Threads: [stage_proc_run] (the segments make the handler),
      [concurrent_stages_independent], [concurrent_stage_leaks].
    - Life of a buffer: [Lifecycle.lifecycle_refines] (every step of the handlers, failed
      ones too, is a step of the registry) and [Lifecycle.lifecycle_safe] (in an orderly
      history no buffer is freed under a claim that holds it and none outlives its claims;
      a claim whose stage failed is registered without one). Orderly means that no id in use
      starts with another one followed by [_gpu], that a holder is not staged again, and that
      a refused claim is not unstaged while others hold its buffer;
      [unstage_frees_other_buffer], [restage_inflates] and [failed_claim_frees_buffer] show
      what happens without these conditions. The branches of
      the handlers one by one: [stage_new_success], [stage_known_counts],
      [stage_missing_source_strands_buffer], [stage_status_ok_or_internal],
      [unstage_last_frees], [unstage_shared_keeps], [unstage_unknown_noop].
    - Memory: [allocate_and_export_spec], [allocate_free_roundtrip],
      [stage_unstage_restores]; sizes that are no multiple of the granularity are leaked
      ([stage_unstage_unaligned_leaks]), and so is an allocation that cannot be mapped
      ([allocate_map_failure_leaks]). [load_tensors_layout]: where the bytes of a file go.
    - Descriptors: [receive_fd_delivers] and [import_maps_allocation] (from the driver's
      allocation, over the descriptor that the kernel installs in the client, to the range that
      the client maps of the same allocation), [fd_client_relocation_cached],
      [fd_server_survives], [fd_server_silent_client], [consumer_deadlocks].
    - Propagation: [propagate_success] (what a source sends and calls),
      [target_serves_request] (what a target does with it), [propagate_ends_meet] (the two
      NCCL calls match), and the requests for which they do not.
    - Notifications: [pre_update_spec], [full_consumer_blocks] (a consumer that does not read
      stops the propagation), [wait_for_ready_returns_early].
    - Engine: [weights_roundtrip] (what the trainer packs is what a worker yields),
      [topology_complete], [send_overflow_raises], [receive_misaligned_raises],
      [shutdown_idempotent].
    - Trainers: [trainers_keep_protocol] (both programs are one protocol),
      [failed_send_leaves_paused], [compute_buffer_size_bounds] (the rounding of binary64).

    Every theorem with hypotheses has a witness ([..._witness]) that applies it to a
    concrete run on the simulated machine.

    ** Bounds and fuel

    Two loops of the driver and one of the consumer have no bound in the source and run with
    fuel here: [read_header] and [read_nccl_id] (a read per round; a round that reads
    something empties a chunk or completes the id, so the number of chunks is enough, which
    [target_serves_request] shows; [target_short_id_never_returns] shows the case in which
    no fuel is enough) and [wait_for_socket] (one poll per round, enough for the poll at
    which the directory shows a socket). The waits of the client have the source's own
    bounds: 60 polls, 30 attempts to connect. The accept loop of the target server runs over
    the list of its turns so far. Processes on threads need no fuel: [pool_sn] shows that
    every pool ends. Sizes and handles passed to CUDA are truncated
    to 64 bits ([wrap64]), as ctypes does; Python integers are unbounded.

    ** What is not modelled

    - Interleaving inside a segment: [Threads] interleaves NodeStageWeight at two points (after
      the test for the buffer and after the allocation) and runs the other handlers in one
      step; the statements between two points are taken as atomic. [Lifecycle] takes whole
      handlers and served connections as steps.
    - Logging and the time measured for it.
    - The gRPC and protobuf runtimes, HTTP, Ray, vLLM, torch: parameters of the definitions.
    - The contents that NCCL moves: a transfer is the list of calls on the communicators;
      that both ends of a call that meets hold the same bytes afterwards is a hypothesis
      of [weights_reach_workers] ([nccl_delivers]). Messages of ZMQ that a subscriber misses are not modelled.
    - Text is bytes in UTF-8; spaces and digits outside ASCII are not recognised by [strip]
      and [int].
    - The serialised descriptors of wpi_pb2.py, the Kubernetes operator and the DRA plugin
      (Go), tests and benchmarks.

    ** Plan

    Next: interleaving of FD clients with staging and unstaging; several transfers of
    one buffer at a time; the NCCL benchmark scripts. *)

From Stdlib Require Export ZArith Lia Ascii.
From stdpp Require Export base list gmap strings.

#[global] Open Scope Z_scope.
Declare Scope wpi_scope.
Delimit Scope wpi_scope with wpi.
#[global] Open Scope wpi_scope.

(** ** Machine integers and rounding *)

(** The value [ctypes.c_size_t(z)] and [ctypes.c_ulonglong(z)] hold: ctypes
    does no overflow checking, it keeps the low 64 bits. *)
Definition wrap64 (z : Z) : Z := z mod 2 ^ 64.

(** The rounding that both ends of the program write out. *)
Definition round_up (size g : Z) : Z :=
  if negb (size mod g =? 0) then (size / g + 1) * g else size.

(** ** Tactics *)

(** Case analysis on the scrutinee of the first conditional of the goal. *)
Ltac case_goal_if :=
  match goal with
  | |- context [if ?b then _ else _] => destruct b eqn:?
  end.

(** Turns boolean tests of [Z] in the hypotheses into propositions. *)
Ltac zify_bools :=
  repeat match goal with
  | H : (_ && _) = true |- _ => apply andb_true_iff in H; destruct H
  | H : (_ || _) = false |- _ => apply orb_false_iff in H; destruct H
  | H : negb _ = true |- _ => apply negb_true_iff in H
  | H : negb _ = false |- _ => apply negb_false_iff in H
  | H : (_ =? _) = true |- _ => apply Z.eqb_eq in H
  | H : (_ =? _) = false |- _ => apply Z.eqb_neq in H
  | H : (_ <=? _) = true |- _ => apply Z.leb_le in H
  | H : (_ <=? _) = false |- _ => apply Z.leb_gt in H
  | H : (_ <? _) = true |- _ => apply Z.ltb_lt in H
  | H : (_ <? _) = false |- _ => apply Z.ltb_ge in H
  end.

Create HintDb wpi discriminated.
Create Rewrite HintDb wpi.

Lemma wrap64_small z : 0 <= z < 2 ^ 64 -> wrap64 z = z.
Proof. intros H. by apply Z.mod_small. Qed.

Lemma wrap64_range z : 0 <= wrap64 z < 2 ^ 64.
Proof. by apply Z.mod_pos_bound. Qed.

(** ** Rounding *)

Section rounding.
Context (size g : Z) (Hg : 0 < g).

Lemma round_up_mod : round_up size g mod g = 0.
Proof.
  unfold round_up. case_goal_if; zify_bools; [apply Z.mod_mul|]; lia.
Qed.

Lemma round_up_ge : size <= round_up size g.
Proof.
  unfold round_up. case_goal_if; zify_bools; [|lia].
  pose proof (Z.div_mod size g). pose proof (Z.mod_pos_bound size g Hg). nia.
Qed.

Lemma round_up_lt : round_up size g < size + g.
Proof.
  unfold round_up. case_goal_if; zify_bools; [|lia].
  pose proof (Z.div_mod size g). pose proof (Z.mod_pos_bound size g Hg). nia.
Qed.

Lemma round_up_id : size mod g = 0 -> round_up size g = size.
Proof.
  intros E. unfold round_up. by rewrite E.
Qed.

Lemma round_up_neq : size mod g <> 0 -> round_up size g <> size.
Proof.
  intros E Eq. apply E. rewrite <- Eq at 1. apply round_up_mod.
Qed.

(** The rounding is the least multiple of the granularity that is enough. *)
Lemma round_up_least k : k mod g = 0 -> size <= k -> round_up size g <= k.
Proof.
  intros Hk Hle.
  pose proof round_up_lt as Hlt. pose proof round_up_mod as Hr.
  apply Z.div_exact in Hk; [|lia]. apply Z.div_exact in Hr; [|lia].
  generalize dependent (round_up size g / g). generalize dependent (k / g).
  intros q Hk r Hr. assert (r < q + 1) by nia. nia.
Qed.
End rounding.

#[export] Hint Resolve round_up_mod round_up_ge round_up_lt : wpi.

(** ** Lists *)

Lemma filter_all_eq {A} (P : A -> Prop) `{!forall x, Decision (P x)} (l : list A) :
  Forall P l -> filter P l = l.
Proof.
  induction 1; [done|]. rewrite filter_cons_True by done. by f_equal.
Qed.

Lemma seq_lookup_rank (n i : nat) : (i < n)%nat -> seq 1 n !! i = Some (S i).
Proof. intros. rewrite lookup_seq_lt by done. done. Qed.

(** ** Strings *)

#[global] Arguments String.append !_ _ / : simpl nomatch.

Lemma string_app_assoc (a b c : string) : (a +:+ b) +:+ c = a +:+ (b +:+ c).
Proof. induction a; simpl; congruence. Qed.

Lemma string_app_nil_r (a : string) : a +:+ "" = a.
Proof. induction a; simpl; congruence. Qed.

Lemma string_length_app (a b : string) :
  String.length (a +:+ b) = (String.length a + String.length b)%nat.
Proof. induction a; simpl; congruence. Qed.

Lemma string_app_inj_r (a b c : string) : a +:+ c = b +:+ c -> a = b.
Proof.
  revert b. induction a as [|x a IH]; intros [|y b]; simpl; intros H; try done.
  - apply (f_equal String.length) in H. simpl in H.
    rewrite string_length_app in H. lia.
  - apply (f_equal String.length) in H. simpl in H.
    rewrite string_length_app in H. lia.
  - injection H as -> H. f_equal. by apply IH.
Qed.

Lemma string_app_cons (x : Ascii.ascii) (a : string) : String x a = String x "" +:+ a.
Proof. done. Qed.

#[export] Hint Rewrite string_app_assoc string_app_nil_r string_length_app : wpi.
