(* ===== verification/PyMonad.v ===== *)
(** * Python effects: exceptions, mutable state, blocking

    A Python statement sequence is a function of the state it mutates; it ends
    by returning, by raising, or not at all ([Stuck]: it waits for a peer that
    never answers, or the fuel of a loop was used up). A raised exception keeps
    the mutations made before it, as in Python. *)

From S2P Require Import Prelude.

(** ** Exceptions *)

Inductive exn_kind : Type :=
  | ExceptionK
  | ValueError | UnicodeDecodeError
  | IndexError | KeyError | ZeroDivisionError
  | AssertionError | AttributeError | NameError | TypeError
  | RuntimeError | NotImplementedError | OSError | TimeoutError | OverflowError
  | ImportError
  | RpcError.

Record exn : Type := mk_exn { exn_kind_of : exn_kind; exn_str : string }.

#[global] Instance exn_kind_eq_dec : EqDecision exn_kind.
Proof. solve_decision. Defined.

#[global] Instance exn_eq_dec : EqDecision exn.
Proof. solve_decision. Defined.

(** The classes that a handler [except OSError], [except ValueError] or [except ImportError]
    matches:
    [TimeoutError] derives from [OSError], [UnicodeDecodeError] from [ValueError]. *)
Definition is_OSError (e : exn) : bool :=
  match exn_kind_of e with OSError | TimeoutError => true | _ => false end.

Definition is_ValueError (e : exn) : bool :=
  match exn_kind_of e with ValueError | UnicodeDecodeError => true | _ => false end.

Definition is_ImportError (e : exn) : bool :=
  match exn_kind_of e with ImportError => true | _ => false end.

(** [except Exception]. *)
Definition is_Exception (e : exn) : bool := true.

(** ** Outcomes and the monad *)

Inductive outcome (A : Type) : Type :=
  | Ret (a : A)
  | Raise (e : exn)
  | Stuck.
Arguments Ret {A} _.
Arguments Raise {A} _.
Arguments Stuck {A}.

#[global] Instance outcome_eq_dec {A} `{EqDecision A} : EqDecision (outcome A).
Proof. solve_decision. Defined.

Definition py (S A : Type) : Type := S -> outcome A * S.

#[global] Instance py_ret S : MRet (py S) := fun A a s => (Ret a, s).

#[global] Instance py_bind S : MBind (py S) := fun A B k m s =>
  match m s with
  | (Ret a, s') => k a s'
  | (Raise e, s') => (Raise e, s')
  | (Stuck, s') => (Stuck, s')
  end.

Section operations.
Context {S : Type}.

Definition py_raise {A} (k : exn_kind) (msg : string) : py S A :=
  fun s => (Raise (mk_exn k msg), s).

Definition py_reraise {A} (e : exn) : py S A := fun s => (Raise e, s).

Definition py_stuck {A} : py S A := fun s => (Stuck, s).

Definition py_get {A} (f : S -> A) : py S A := fun s => (Ret (f s), s).

Definition py_modify (f : S -> S) : py S unit := fun s => (Ret tt, f s).

(** [try: m except <class> as e: h e]. *)
Definition py_except {A} (m : py S A) (catches : exn -> bool) (h : exn -> py S A) : py S A :=
  fun s =>
    match m s with
    | (Raise e, s') => if catches e then h e s' else (Raise e, s')
    | r => r
    end.

(** [try: m finally: f]: an exception of [f] replaces the outcome of [m]. *)
Definition py_finally {A} (m : py S A) (f : py S unit) : py S A :=
  fun s =>
    match m s with
    | (Stuck, s') => (Stuck, s')
    | (r, s') =>
        match f s' with
        | (Ret _, s'') => (r, s'')
        | (Raise e, s'') => (Raise e, s'')
        | (Stuck, s'') => (Stuck, s'')
        end
    end.

(** [if b: m] without an else branch. *)
Definition py_when (b : bool) (m : py S unit) : py S unit :=
  if b then m else mret tt.

(** [assert b, msg]. *)
Definition py_assert (b : bool) (msg : string) : py S unit :=
  if b then mret tt else py_raise AssertionError msg.

(** [for x in l: body x]. *)
Fixpoint py_for {A} (l : list A) (body : A -> py S unit) : py S unit :=
  match l with
  | [] => mret tt
  | x :: l' => body x ;; py_for l' body
  end.

(** A loop that threads a local variable: [for x in l: acc = body acc x]. *)
Fixpoint py_fold {A B} (l : list A) (acc : B) (body : B -> A -> py S B) : py S B :=
  match l with
  | [] => mret acc
  | x :: l' => acc' ← body acc x ; py_fold l' acc' body
  end.

(** An optional value, with the exception raised when it is absent. *)
Definition py_some {A} (o : option A) (k : exn_kind) (msg : string) : py S A :=
  match o with Some a => mret a | None => py_raise k msg end.
End operations.

(** [try: m except c as e: h]. *)
Notation "'try:' m 'except:' c 'as' e => h" := (py_except m c (fun e => h))
  (at level 99, m at level 98, c at level 9, e name, h at level 98, only parsing) : wpi_scope.

(** [try: m finally: f]. *)
Notation "'try:' m 'finally:' f" := (py_finally m f)
  (at level 99, m at level 98, f at level 98, only parsing) : wpi_scope.

(** Runs code over a part of the state. *)
Definition py_zoom {S T A} (get : S -> T) (set : T -> S -> S) (m : py T A) : py S A :=
  fun s => let '(r, t) := m (get s) in (r, set t s).

(** ** Evaluation lemmas *)

Section laws.
Context {S : Type}.

Lemma bind_unfold {A B} (m : py S A) (k : A -> py S B) s :
  (m ≫= k) s = match m s with
               | (Ret a, s') => k a s'
               | (Raise e, s') => (Raise e, s')
               | (Stuck, s') => (Stuck, s')
               end.
Proof. done. Qed.

Lemma bind_ret_l {A B} (a : A) (k : A -> py S B) s : (mret a ≫= k) s = k a s.
Proof. done. Qed.

Lemma bind_assoc {A B C} (m : py S A) (k : A -> py S B) (h : B -> py S C) s :
  ((m ≫= k) ≫= h) s = (m ≫= (fun a => k a ≫= h)) s.
Proof. rewrite !bind_unfold. by destruct (m s) as [[] ?]. Qed.

Lemma bind_run_ret {A B} (m : py S A) (k : A -> py S B) s a s' :
  m s = (Ret a, s') -> (m ≫= k) s = k a s'.
Proof. intros E. by rewrite bind_unfold, E. Qed.

Lemma bind_run_raise {A B} (m : py S A) (k : A -> py S B) s e s' :
  m s = (Raise e, s') -> (m ≫= k) s = (Raise e, s').
Proof. intros E. by rewrite bind_unfold, E. Qed.

Lemma bind_ret_inv {A B} (m : py S A) (k : A -> py S B) s b s' :
  (m ≫= k) s = (Ret b, s') -> exists a s1, m s = (Ret a, s1) /\ k a s1 = (Ret b, s').
Proof. rewrite bind_unfold. destruct (m s) as [[a|e|] s1]; intros H; by eauto. Qed.

Lemma bind_raise_inv {A B} (m : py S A) (k : A -> py S B) s e s' :
  (m ≫= k) s = (Raise e, s') ->
  m s = (Raise e, s') \/ exists a s1, m s = (Ret a, s1) /\ k a s1 = (Raise e, s').
Proof. rewrite bind_unfold. destruct (m s) as [[a|e'|] s1]; intros H; simplify_eq; eauto. Qed.

Lemma except_run_ret {A} (m : py S A) c h s a s' :
  m s = (Ret a, s') -> py_except m c h s = (Ret a, s').
Proof. intros E. unfold py_except. by rewrite E. Qed.

Lemma except_run_raise {A} (m : py S A) c h s e s' :
  m s = (Raise e, s') -> c e = true -> py_except m c h s = h e s'.
Proof. intros E Hc. unfold py_except. by rewrite E, Hc. Qed.

Lemma for_app {A} (l1 l2 : list A) (body : A -> py S unit) s :
  py_for (l1 ++ l2) body s = (py_for l1 body ;; py_for l2 body) s.
Proof.
  revert s. induction l1 as [|x l1 IH]; intros s; [done|].
  simpl. rewrite bind_assoc, !bind_unfold.
  destruct (body x s) as [[] ?]; [apply IH|done|done].
Qed.

Lemma fold_app {A B} (l1 l2 : list A) (acc : B) body s :
  py_fold (S:=S) (l1 ++ l2) acc body s = (py_fold l1 acc body ≫= (fun a => py_fold l2 a body)) s.
Proof.
  revert acc s. induction l1 as [|x l1 IH]; intros acc s; [done|].
  simpl. rewrite bind_assoc, !bind_unfold.
  destruct (body acc x s) as [[] ?]; [apply IH|done|done].
Qed.
End laws.

(** Inverts the hypothesis that a sequence of statements returned. *)
Ltac ret_inv H :=
  repeat match type of H with
  | (_ ≫= _) _ = (Ret _, _) =>
      let a := fresh "a" in let s := fresh "s" in let E := fresh "E" in
      apply bind_ret_inv in H as (a & s & E & H)
  end.

#[export] Hint Rewrite @bind_ret_l @bind_assoc : wpi.

(** ** State invariants of code

    [preserves I m]: whatever the outcome of [m], a state that satisfies [I]
    is left in a state that satisfies it. The rules follow the constructs. *)

Definition preserves {S A} (I : S -> Prop) (m : py S A) : Prop :=
  forall s, I s -> I (m s).2.

Section preserves.
Context {S : Type} (I : S -> Prop).

Lemma preserves_ret {A} (a : A) : preserves I (mret a).
Proof. by intros s. Qed.

Lemma preserves_raise {A} k msg : preserves I (py_raise (A:=A) k msg).
Proof. by intros s. Qed.

Lemma preserves_reraise {A} e : preserves I (py_reraise (A:=A) e).
Proof. by intros s. Qed.

Lemma preserves_stuck {A} : preserves I (py_stuck (A:=A)).
Proof. by intros s. Qed.

Lemma preserves_get {A} (f : S -> A) : preserves I (py_get f).
Proof. by intros s. Qed.

Lemma preserves_modify f : (forall s, I s -> I (f s)) -> preserves I (py_modify f).
Proof. intros H s. apply H. Qed.

Lemma preserves_some {A} (o : option A) k msg : preserves I (py_some o k msg).
Proof. destruct o; by intros s. Qed.

Lemma preserves_assert b msg : preserves I (py_assert b msg).
Proof. destruct b; by intros s. Qed.

Lemma preserves_bind {A B} (m : py S A) (k : A -> py S B) :
  preserves I m -> (forall a, preserves I (k a)) -> preserves I (m ≫= k).
Proof.
  intros Hm Hk s Hs. rewrite bind_unfold. specialize (Hm s Hs).
  destruct (m s) as [[] ?]; simpl in *; [by apply Hk|done|done].
Qed.

Lemma preserves_when b m : preserves I m -> preserves I (py_when b m).
Proof. destruct b; [done|intros; apply preserves_ret]. Qed.

Lemma preserves_except {A} (m : py S A) c h :
  preserves I m -> (forall e, preserves I (h e)) -> preserves I (py_except m c h).
Proof.
  intros Hm Hh s Hs. unfold py_except. specialize (Hm s Hs).
  destruct (m s) as [[] ?]; simpl in *; [done| |done].
  destruct (c e); [by apply Hh|done].
Qed.

Lemma preserves_finally {A} (m : py S A) f :
  preserves I m -> preserves I f -> preserves I (py_finally m f).
Proof.
  intros Hm Hf s Hs. unfold py_finally. specialize (Hm s Hs).
  destruct (m s) as [[] s']; simpl in *; [| |done];
    specialize (Hf s' Hm); by destruct (f s') as [[] ?].
Qed.

Lemma preserves_for {A} (l : list A) body :
  (forall x, x ∈ l -> preserves I (body x)) -> preserves I (py_for l body).
Proof.
  induction l as [|x l IH]; intros H; simpl; [apply preserves_ret|].
  apply preserves_bind; [apply H; set_solver|]. intros _. apply IH. set_solver.
Qed.

Lemma preserves_fold {A B} (l : list A) (acc : B) body :
  (forall b x, x ∈ l -> preserves I (body b x)) -> preserves I (py_fold l acc body).
Proof.
  revert acc. induction l as [|x l IH]; intros acc H; simpl; [apply preserves_ret|].
  apply preserves_bind; [apply H; set_solver|]. intros b. apply IH. set_solver.
Qed.
End preserves.

Lemma preserves_zoom {S T A} (I : S -> Prop) (get : S -> T) set (m : py T A) :
  (forall s t, I s -> I (set t s)) -> preserves I (py_zoom get set m).
Proof.
  intros H s Hs. unfold py_zoom. destruct (m (get s)) as [r t]. simpl. auto.
Qed.

#[export] Hint Resolve preserves_ret preserves_raise preserves_reraise preserves_stuck
  preserves_get preserves_some preserves_assert : wpi.

(** Decomposes a [preserves] goal along the structure of the program. *)
Ltac preserves_step :=
  match goal with
  | |- preserves _ (mbind _ _) => apply preserves_bind; [|intros ?]
  | |- preserves _ (py_when _ _) => apply preserves_when
  | |- preserves _ (py_except _ _ _) => apply preserves_except; [|intros ?]
  | |- preserves _ (py_finally _ _) => apply preserves_finally
  | |- preserves _ (py_for _ _) => apply preserves_for; intros ? ?
  | |- preserves _ (py_fold _ _ _) => apply preserves_fold; intros ? ? ?
  | |- preserves _ (if ?b then _ else _) => destruct b eqn:?
  | |- preserves _ (match ?o with _ => _ end) => destruct o eqn:?
  | |- preserves _ _ => solve [eauto with wpi]
  end.
Ltac preserves_tac := repeat preserves_step.

(** ** Total code that keeps an invariant when it returns

    [keeps I m]: from a state of [I], [m] is never stuck, and if it returns, the
    state is in [I] again; nothing is said of the state an exception leaves. *)

Definition keeps {S A} (I : S -> Prop) (m : py S A) : Prop :=
  forall s, I s ->
    match m s with
    | (Ret _, s') => I s'
    | (Raise _, _) => True
    | (Stuck, _) => False
    end.

(** Code that always raises. *)
Definition raises {S A} (m : py S A) : Prop := forall s, exists e s', m s = (Raise e, s').

Section keeps.
Context {S : Type} (I : S -> Prop).

Lemma keeps_ret {A} (a : A) : keeps I (mret a).
Proof. by intros s. Qed.

Lemma keeps_get {A} (f : S -> A) : keeps I (py_get f).
Proof. by intros s. Qed.

Lemma keeps_modify f : (forall s, I s -> I (f s)) -> keeps I (py_modify f).
Proof. intros H s. apply H. Qed.

Lemma raises_raise {A} k msg : raises (S:=S) (py_raise (A:=A) k msg).
Proof. intros s. unfold py_raise. eauto. Qed.

Lemma raises_keeps {A} (m : py S A) : raises m -> keeps I m.
Proof. intros H s Hs. by destruct (H s) as (e & s' & ->). Qed.

Lemma keeps_raise {A} k msg : keeps I (py_raise (A:=A) k msg).
Proof. by intros s. Qed.

Lemma keeps_some {A} (o : option A) k msg : keeps I (py_some o k msg).
Proof. destruct o; by intros s. Qed.

Lemma keeps_bind {A B} (m : py S A) (k : A -> py S B) :
  keeps I m -> (forall a, keeps I (k a)) -> keeps I (m ≫= k).
Proof.
  intros Hm Hk s Hs. rewrite bind_unfold. specialize (Hm s Hs).
  destruct (m s) as [[a|e|] s']; [by apply Hk|done|done].
Qed.

Lemma keeps_when b m : keeps I m -> keeps I (py_when b m).
Proof. destruct b; [done|intros; apply keeps_ret]. Qed.

(** The handler runs in a state of the invariant... *)
Lemma keeps_except {A} (m : py S A) c h :
  keeps I m -> preserves I m -> (forall e, keeps I (h e)) -> keeps I (py_except m c h).
Proof.
  intros Hm Hp Hh s Hs. unfold py_except. specialize (Hm s Hs). specialize (Hp s Hs).
  destruct (m s) as [[a|e|] s']; [done| |done]. destruct (c e); [by apply Hh|done].
Qed.

(** ... or it raises again. *)
Lemma keeps_except_raises {A} (m : py S A) c h :
  keeps I m -> (forall e, raises (h e)) -> keeps I (py_except m c h).
Proof.
  intros Hm Hh s Hs. unfold py_except. specialize (Hm s Hs).
  destruct (m s) as [[a|e|] s']; [done| |done].
  destruct (c e); [|done]. by destruct (Hh e s') as (e' & s'' & ->).
Qed.

Lemma keeps_for {A} (l : list A) body :
  (forall x, x ∈ l -> keeps I (body x)) -> keeps I (py_for l body).
Proof.
  induction l as [|x l IH]; intros H; simpl; [apply keeps_ret|].
  apply keeps_bind; [apply H; set_solver|]. intros _. apply IH. set_solver.
Qed.

Lemma keeps_fold {A B} (l : list A) (acc : B) body :
  (forall b x, x ∈ l -> keeps I (body b x)) -> keeps I (py_fold l acc body).
Proof.
  revert acc. induction l as [|x l IH]; intros acc H; simpl; [apply keeps_ret|].
  apply keeps_bind; [apply H; set_solver|]. intros b. apply IH. set_solver.
Qed.
End keeps.

Lemma keeps_not_stuck {S A} (m : py S A) s : keeps (fun _ => True) m -> (m s).1 <> Stuck.
Proof. intros Hm. specialize (Hm s I). by destruct (m s) as [[] ?]. Qed.

#[export] Hint Resolve keeps_ret keeps_get keeps_raise keeps_some raises_raise : wpi.

Ltac keeps_step :=
  match goal with
  | |- keeps _ (mbind _ _) => apply keeps_bind; [|intros ?]
  | |- keeps _ (py_when _ _) => apply keeps_when
  | |- keeps _ (py_for _ _) => apply keeps_for; intros ? ?
  | |- keeps _ (py_fold _ _ _) => apply keeps_fold; intros ? ? ?
  | |- keeps _ (if ?b then _ else _) => destruct b eqn:?
  | |- keeps _ (match ?o with _ => _ end) => destruct o eqn:?
  | |- keeps _ (let '_ := ?o in _) => destruct o eqn:?
  | |- keeps _ _ => solve [eauto with wpi]
  end.
Ltac keeps_tac := repeat keeps_step.
