(* ===== verification/PyText.v ===== *)
(** * Python strings, bytes and integers in text

    A [str] is represented by its UTF-8 encoding and a [bytes] by its bytes, both
    as Rocq strings of 8-bit characters: [str.encode('utf-8')] is the identity and
    [bytes.decode('utf-8')] is the identity on well-formed input and raises
    [UnicodeDecodeError] otherwise. [int(s)] is modelled on ASCII text: digits and
    spaces outside ASCII, which Python also accepts, are rejected here. *)

From Stdlib Require Import DecimalString DecimalZ DecimalFacts DecimalPos.
From S2P Require Import Prelude PyMonad.

(** ** Characters *)

Definition NL : ascii := "010"%char.

(** The whitespace that [str.strip()] removes, its ASCII part. *)
Definition is_space (c : ascii) : bool :=
  match c with
  | "009" | "010" | "011" | "012" | "013" | "028" | "029" | "030" | "031" | " " => true
  | _ => false
  end%char.

Definition byte_val (c : ascii) : Z := Z.of_N (N_of_ascii c).

(** The value of a decimal digit. *)
Definition digit_of (c : ascii) : option Z :=
  let b := byte_val c in
  if (48 <=? b) && (b <=? 57) then Some (b - 48) else None.

(** ** Substrings *)

(** [s.startswith(p)]. *)
Fixpoint startswith (p s : string) : bool :=
  match p, s with
  | EmptyString, _ => true
  | String a p', String b s' => Ascii.eqb a b && startswith p' s'
  | String _ _, EmptyString => false
  end.

(** [sub in s]. *)
Fixpoint contains (sub s : string) : bool :=
  startswith sub s ||
  match s with
  | EmptyString => false
  | String _ s' => contains sub s'
  end.

(** [c in s] for one character. *)
Fixpoint has_char (c : ascii) (s : string) : bool :=
  match s with
  | EmptyString => false
  | String a s' => Ascii.eqb a c || has_char c s'
  end.

(** [s[:n]] and [s[n:]]. *)
Fixpoint str_take (n : nat) (s : string) : string :=
  match n, s with
  | S n', String a s' => String a (str_take n' s')
  | _, _ => EmptyString
  end.

Fixpoint str_drop (n : nat) (s : string) : string :=
  match n, s with
  | S n', String _ s' => str_drop n' s'
  | O, _ => s
  | _, EmptyString => EmptyString
  end.

(** ** Splitting *)

(** [s.split(sep, n)] for a one-character separator: at most [n] splits, always
    at least one part. *)
Fixpoint split_max (sep : ascii) (n : nat) (s : string) {struct s} : list string :=
  match n with
  | O => [s]
  | S n' =>
      match s with
      | EmptyString => [EmptyString]
      | String a s' =>
          if Ascii.eqb a sep then EmptyString :: split_max sep n' s'
          else match split_max sep n s' with
               | h :: t => String a h :: t
               | [] => [String a EmptyString]
               end
      end
  end.

(** [s.split(sep)]: there are at most [len(s)] separators. *)
Definition split (sep : ascii) (s : string) : list string :=
  split_max sep (String.length s) s.

(** [s.split(sep)[0]] for a separator of any length: the text before its first
    occurrence. *)
Fixpoint before_first (sep s : string) : string :=
  if startswith sep s then EmptyString
  else match s with
       | EmptyString => EmptyString
       | String a s' => String a (before_first sep s')
       end.

(** ** Stripping *)

Fixpoint lstrip (s : string) : string :=
  match s with
  | String a s' => if is_space a then lstrip s' else s
  | EmptyString => EmptyString
  end.

Fixpoint rstrip (s : string) : string :=
  match s with
  | EmptyString => EmptyString
  | String a s' =>
      match rstrip s' with
      | EmptyString => if is_space a then EmptyString else String a EmptyString
      | r => String a r
      end
  end.

(** [s.strip()]. *)
Definition strip (s : string) : string := rstrip (lstrip s).

(** ** UTF-8 *)

Definition is_cont (c : ascii) : bool := (128 <=? byte_val c) && (byte_val c <=? 191).

(** How many continuation bytes a leading byte asks for, and the range of the
    first of them (which excludes overlong forms, surrogates and values above
    U+10FFFF). *)
Definition utf8_lead (c : ascii) : option (nat * Z * Z) :=
  let b := byte_val c in
  if b <=? 127 then Some (0%nat, 128, 191)
  else if (194 <=? b) && (b <=? 223) then Some (1%nat, 128, 191)
  else if b =? 224 then Some (2%nat, 160, 191)
  else if b =? 237 then Some (2%nat, 128, 159)
  else if (225 <=? b) && (b <=? 239) then Some (2%nat, 128, 191)
  else if b =? 240 then Some (3%nat, 144, 191)
  else if (241 <=? b) && (b <=? 243) then Some (3%nat, 128, 191)
  else if b =? 244 then Some (3%nat, 128, 143)
  else None.

(** [k] continuation bytes are still expected, the next one within [lo, hi]. *)
Fixpoint utf8_go (k : nat) (lo hi : Z) (s : string) : bool :=
  match s, k with
  | EmptyString, O => true
  | EmptyString, S _ => false
  | String c s', O =>
      match utf8_lead c with
      | Some (n, l, h) => utf8_go n l h s'
      | None => false
      end
  | String c s', S k' =>
      (lo <=? byte_val c) && (byte_val c <=? hi) && utf8_go k' 128 191 s'
  end.

Definition valid_utf8 (s : string) : bool := utf8_go 0 128 191 s.

(** [b.decode('utf-8')]. *)
Definition decode_utf8 {S} (b : string) : py S string :=
  if valid_utf8 b then mret b
  else py_raise UnicodeDecodeError "'utf-8' codec can't decode bytes".

(** ** Integers *)

(** [str(z)], and what an f-string prints for an integer. *)
Definition str_of_Z (z : Z) : string := NilZero.string_of_int (Z.to_int z).

(** The digits of [int(s)] after the sign: [acc] is the value so far, [us] tells
    whether an underscore may come next (it must stand between two digits). *)
Fixpoint parse_digits (acc : Z) (us : bool) (s : string) : option Z :=
  match s with
  | EmptyString => if us then Some acc else None
  | String c s' =>
      match digit_of c with
      | Some d => parse_digits (10 * acc + d) true s'
      | None => if Ascii.eqb c "_" && us then parse_digits acc false s' else None
      end
  end.

Definition int_of_str (s : string) : option Z :=
  match strip s with
  | String "-" s' => Z.opp <$> parse_digits 0 false s'
  | String "+" s' => parse_digits 0 false s'
  | s' => parse_digits 0 false s'
  end.

(** [int(s)]. *)
Definition py_int {S} (s : string) : py S Z :=
  py_some (int_of_str s) ValueError ("invalid literal for int() with base 10: '" +:+ s +:+ "'").

(** [repr] of a bytes object, which is what an f-string prints for one. *)
Definition hex_digit (n : Z) : ascii := ascii_of_N (Z.to_N (if n <? 10 then 48 + n else 87 + n)).

Definition repr_byte (quote c : ascii) : string :=
  let b := byte_val c in
  if Ascii.eqb c quote || Ascii.eqb c "\" then String "\" (String c "")
  else if b =? 9 then "\t"
  else if b =? 10 then "\n"
  else if b =? 13 then "\r"
  else if (b <? 32) || (126 <? b) then
    "\x" +:+ String (hex_digit (b / 16)) (String (hex_digit (b mod 16)) "")
  else String c "".

Definition single_quote : ascii := "039"%char.
Definition double_quote : ascii := "034"%char.

Definition bytes_repr (bs : string) : string :=
  let quote := if has_char single_quote bs && negb (has_char double_quote bs)
               then double_quote else single_quote in
  "b" +:+ String quote
    (String.concat "" (repr_byte quote <$> String.list_ascii_of_string bs) +:+ String quote "").

(** All characters satisfy a test. *)
Fixpoint str_forall (P : ascii -> bool) (s : string) : bool :=
  match s with
  | EmptyString => true
  | String c s' => P c && str_forall P s'
  end.

Definition is_digit (c : ascii) : bool := bool_decide (is_Some (digit_of c)).

(** The characters of a printed integer. *)
Definition int_char (c : ascii) : bool := Ascii.eqb c "-" || is_digit c.

(** Visible ASCII characters and the space. *)
Definition is_ascii (c : ascii) : bool := byte_val c <=? 127.

(** A text and the newline that ends it. *)
Definition line (s : string) : string := s +:+ String NL "".

(** ** Lemmas: substrings *)

Lemma startswith_app p s : startswith p (p +:+ s) = true.
Proof. induction p; simpl; [done|]. by rewrite Ascii.eqb_refl. Qed.

Lemma startswith_inv p s : startswith p s = true -> exists r, s = p +:+ r.
Proof.
  revert s. induction p as [|a p IH]; intros s; simpl; [eauto|].
  destruct s as [|b s]; [done|]. intros [E H]%andb_true_iff.
  apply Ascii.eqb_eq in E as ->. destruct (IH _ H) as [r ->]. by exists r.
Qed.

Lemma startswith_spec p s : startswith p s = true <-> exists r, s = p +:+ r.
Proof. split; [apply startswith_inv|]. intros [r ->]. apply startswith_app. Qed.

Lemma contains_intro a sub b : contains sub (a +:+ sub +:+ b) = true.
Proof.
  induction a as [|x a IH]; simpl.
  - destruct (sub +:+ b) eqn:E; simpl; rewrite <- E, startswith_app; done.
  - rewrite IH. by rewrite orb_true_r.
Qed.

Lemma contains_spec sub s : contains sub s = true <-> exists a b, s = a +:+ sub +:+ b.
Proof.
  split; [|by intros (a & b & ->); apply contains_intro].
  induction s as [|x s IH]; simpl; rewrite orb_true_iff; intros [H|H].
  - apply startswith_inv in H as [r ->]. by exists "", r.
  - done.
  - apply startswith_inv in H as [r ->]. by exists "", r.
  - destruct (IH H) as (a & b & ->). by exists (String x a), b.
Qed.

Lemma has_char_app c a b : has_char c (a +:+ b) = has_char c a || has_char c b.
Proof. induction a; simpl; [done|]. by rewrite IHa, orb_assoc. Qed.

Lemma str_take_app_le n a b : (n <= String.length a)%nat -> str_take n (a +:+ b) = str_take n a.
Proof.
  revert a. induction n; intros [|x a]; simpl; intros; try lia; [done..|].
  f_equal. apply IHn. lia.
Qed.

Lemma str_take_all n a : (String.length a <= n)%nat -> str_take n a = a.
Proof. revert n. induction a; intros [|n]; simpl; intros; try lia; [done..|]. f_equal. apply IHa. lia. Qed.

Lemma str_take_drop n a : str_take n a +:+ str_drop n a = a.
Proof. revert a. induction n; intros [|x a]; simpl; [done..|]. by rewrite IHn. Qed.

Lemma str_take_length n a : String.length (str_take n a) = Nat.min n (String.length a).
Proof. revert a. induction n; intros [|x a]; simpl; [done..|]. by rewrite IHn. Qed.

Lemma str_drop_length n a : String.length (str_drop n a) = (String.length a - n)%nat.
Proof. revert a. induction n; intros [|x a]; simpl; [done..|]. by rewrite IHn. Qed.

Lemma str_take_app n a b :
  (String.length a <= n)%nat -> str_take n (a +:+ b) = a +:+ str_take (n - String.length a) b.
Proof.
  revert n. induction a; intros n; simpl; intros; [by rewrite Nat.sub_0_r|].
  destruct n; [lia|]. simpl. f_equal. apply IHa. lia.
Qed.

(** ** Lemmas: splitting *)

Lemma split_max_0 sep s : split_max sep 0 s = [s].
Proof. by destruct s. Qed.

Lemma split_max_cons sep n a s :
  has_char sep a = false ->
  split_max sep (S n) (a +:+ String sep s) = a :: split_max sep n s.
Proof.
  induction a as [|x a IH]; simpl; intros H.
  - by rewrite Ascii.eqb_refl.
  - apply orb_false_iff in H as [-> H]. by rewrite (IH H).
Qed.

Lemma split_max_none sep n s : has_char sep s = false -> split_max sep n s = [s].
Proof.
  destruct n; [intros; apply split_max_0|].
  induction s as [|x s IH]; simpl; [done|].
  intros [-> H]%orb_false_iff. by rewrite (IH H).
Qed.

Lemma split_pair sep a b :
  has_char sep a = false -> has_char sep b = false ->
  split sep (a +:+ String sep b) = [a; b].
Proof.
  intros Ha Hb. unfold split. rewrite string_length_app. simpl.
  replace (String.length a + S (String.length b))%nat
    with (S (String.length a + String.length b)) by lia.
  rewrite split_max_cons by done. by rewrite split_max_none.
Qed.

Lemma split_max_length sep n s : (1 <= length (split_max sep n s) <= S n)%nat.
Proof.
  revert n. induction s as [|x s IH]; intros [|n]; simpl; [lia..|].
  destruct (Ascii.eqb x sep); [simpl; specialize (IH n); lia|].
  specialize (IH (S n)). destruct (split_max sep (S n) s); simpl in *; lia.
Qed.

Lemma before_first_app sep a s :
  (forall x y, a = x +:+ y -> y <> "" -> startswith sep (y +:+ sep +:+ s) = false) ->
  before_first sep (a +:+ sep +:+ s) = a.
Proof.
  induction a as [|x a IH]; intros H.
  - simpl. destruct (sep +:+ s) eqn:E; simpl; rewrite <- E, startswith_app; done.
  - change (String x a +:+ sep +:+ s) with (String x (a +:+ sep +:+ s)). cbn [before_first].
    pose proof (H "" (String x a) eq_refl) as H0. simpl in H0.
    rewrite H0 by done. f_equal. apply IH.
    intros u v -> Hv. by apply (H (String x u)).
Qed.

Lemma before_first_none sep s : contains sep s = false -> before_first sep s = s.
Proof.
  induction s as [|x s IH]; simpl; intros [H1 H2]%orb_false_iff; rewrite H1; [done|].
  by rewrite IH.
Qed.

(** ** Lemmas: characters of printed integers *)

Lemma str_forall_app P a b : str_forall P (a +:+ b) = str_forall P a && str_forall P b.
Proof. induction a; simpl; [done|]. by rewrite IHa, andb_assoc. Qed.

Lemma str_forall_impl (P Q : ascii -> bool) s :
  (forall c, P c = true -> Q c = true) -> str_forall P s = true -> str_forall Q s = true.
Proof.
  intros H. induction s; simpl; [done|]. rewrite !andb_true_iff.
  intros [??]; auto.
Qed.

Lemma has_char_forall P c s : P c = false -> str_forall P s = true -> has_char c s = false.
Proof.
  intros Hc. induction s as [|x s IH]; simpl; [done|]. intros [Hx Hs]%andb_true_iff.
  rewrite IH by done. rewrite orb_false_r. apply Ascii.eqb_neq. congruence.
Qed.

Lemma string_of_uint_digits (u : Decimal.uint) :
  str_forall is_digit (NilEmpty.string_of_uint u) = true.
Proof. by induction u. Qed.

Lemma string_of_uint0_digits (u : Decimal.uint) :
  str_forall is_digit (NilZero.string_of_uint u) = true.
Proof. destruct u; try apply string_of_uint_digits; done. Qed.

Lemma str_of_Z_chars z : str_forall int_char (str_of_Z z) = true.
Proof.
  unfold str_of_Z, NilZero.string_of_int.
  assert (forall u, str_forall int_char (NilZero.string_of_uint u) = true) as Hu.
  { intros u. eapply str_forall_impl; [|apply string_of_uint0_digits].
    intros c Hc. unfold int_char. by rewrite Hc, orb_true_r. }
  destruct (Z.to_int z); [apply Hu|]. simpl. apply Hu.
Qed.

Lemma str_of_Z_no_char c z : int_char c = false -> has_char c (str_of_Z z) = false.
Proof. intros Hc. eapply has_char_forall; [exact Hc|apply str_of_Z_chars]. Qed.

Lemma str_of_Z_no_NL z : has_char NL (str_of_Z z) = false.
Proof. by apply str_of_Z_no_char. Qed.

Lemma str_of_Z_no_comma z : has_char "," (str_of_Z z) = false.
Proof. by apply str_of_Z_no_char. Qed.

#[export] Hint Resolve str_of_Z_no_NL str_of_Z_no_comma : wpi.

(** ** Lemmas: UTF-8 *)

Lemma valid_utf8_app_ascii s t :
  str_forall is_ascii s = true -> valid_utf8 (s +:+ t) = valid_utf8 t.
Proof.
  unfold valid_utf8. induction s as [|c s IH]; [done|]. simpl.
  intros [Hc Hs]%andb_true_iff. unfold is_ascii in Hc. unfold utf8_lead. rewrite Hc.
  by apply IH.
Qed.

Lemma valid_utf8_app s t : valid_utf8 s = true -> valid_utf8 t = true -> valid_utf8 (s +:+ t) = true.
Proof.
  unfold valid_utf8. intros Hs Ht. revert Hs.
  cut (forall k lo hi, utf8_go k lo hi s = true -> utf8_go k lo hi (s +:+ t) = true); [auto|].
  induction s as [|c s IH]; intros k lo hi; simpl.
  - destruct k; [|done]. intros _. by destruct t.
  - destruct k as [|k].
    + destruct (utf8_lead c) as [[[n l] h]|]; [apply IH|done].
    + intros [-> Hs]%andb_true_iff. by apply IH.
Qed.

Lemma valid_utf8_ascii s : str_forall is_ascii s = true -> valid_utf8 s = true.
Proof.
  intros H. rewrite <- (string_app_nil_r s). by rewrite valid_utf8_app_ascii.
Qed.

Lemma int_char_ascii c : int_char c = true -> is_ascii c = true.
Proof. by destruct c as [[] [] [] [] [] [] [] []]; vm_compute. Qed.

Lemma int_char_not_space c : int_char c = true -> is_space c = false.
Proof. by destruct c as [[] [] [] [] [] [] [] []]; vm_compute. Qed.

Lemma str_of_Z_ascii z : str_forall is_ascii (str_of_Z z) = true.
Proof. eapply str_forall_impl; [apply int_char_ascii|apply str_of_Z_chars]. Qed.

Lemma valid_utf8_str_of_Z z : valid_utf8 (str_of_Z z) = true.
Proof. apply valid_utf8_ascii, str_of_Z_ascii. Qed.

#[export] Hint Resolve valid_utf8_str_of_Z str_of_Z_ascii : wpi.

(** ** Lemmas: stripping *)

Lemma lstrip_none s : str_forall (fun c => negb (is_space c)) s = true -> lstrip s = s.
Proof. destruct s as [|c s]; [done|]. simpl. by intros [->%negb_true_iff _]%andb_true_iff. Qed.

Lemma rstrip_none s : str_forall (fun c => negb (is_space c)) s = true -> rstrip s = s.
Proof.
  induction s as [|c s IH]; [done|]. simpl. intros [Hc%negb_true_iff Hs]%andb_true_iff.
  rewrite IH by done. destruct s; [by rewrite Hc|done].
Qed.

Lemma strip_none s : str_forall (fun c => negb (is_space c)) s = true -> strip s = s.
Proof. intros H. unfold strip. by rewrite lstrip_none, rstrip_none. Qed.

Lemma rstrip_snoc_space s c :
  is_space c = true -> rstrip (s +:+ String c "") = rstrip s.
Proof. intros Hc. induction s as [|x s IH]; simpl; [by rewrite Hc|]. by rewrite IH. Qed.

Lemma str_of_Z_not_space z : str_forall (fun c => negb (is_space c)) (str_of_Z z) = true.
Proof.
  eapply str_forall_impl; [|apply str_of_Z_chars].
  intros c ->%int_char_not_space. done.
Qed.

(** ** Lemmas: parsing back a printed integer *)

(** Reading the digits of [u] after the value [acc]. *)
Definition horner (acc : Z) (u : Decimal.uint) : Z :=
  match acc with
  | Z0 => Z.of_N (Pos.of_uint u)
  | Zpos p => Z.pos (Pos.of_uint_acc u p)
  | Zneg _ => 0
  end.

Lemma horner_pos acc u p : acc = Z.pos p -> horner acc u = Z.pos (Pos.of_uint_acc u p).
Proof. by intros ->. Qed.

Ltac eval_digit :=
  match goal with
  | |- context [digit_of ?c] =>
      let v := eval vm_compute in (digit_of c) in change (digit_of c) with v; cbv iota beta
  end.

Lemma parse_digits_true u acc :
  0 <= acc -> parse_digits acc true (NilEmpty.string_of_uint u) = Some (horner acc u).
Proof.
  revert acc.
  induction u; intros acc Hacc; cbn [NilEmpty.string_of_uint parse_digits];
    [by destruct acc|..]; eval_digit; rewrite IHu by lia; f_equal;
    (destruct acc as [|p|p]; [done| |lia]); unfold horner at 2;
    cbn [Pos.of_uint_acc]; apply horner_pos; lia.
Qed.

Lemma parse_digits_false u acc :
  0 <= acc -> u <> Decimal.Nil ->
  parse_digits acc false (NilEmpty.string_of_uint u) = Some (horner acc u).
Proof. intros Hacc Hu. rewrite <- parse_digits_true by done. by destruct u. Qed.

Lemma parse_digits_uint0 u :
  parse_digits 0 false (NilZero.string_of_uint u) = Some (Z.of_N (Pos.of_uint u)).
Proof.
  destruct u; [done|..]; unfold NilZero.string_of_uint;
    by rewrite parse_digits_false.
Qed.

(** [int(str(z)) = z]. *)
Lemma int_of_str_of_Z z : int_of_str (str_of_Z z) = Some z.
Proof.
  unfold int_of_str. rewrite strip_none by apply str_of_Z_not_space.
  pose proof (DecimalZ.of_to z) as Hz. unfold str_of_Z.
  pose proof (string_of_uint0_digits) as Hd.
  destruct (Z.to_int z) as [u|u]; simpl in *.
  - specialize (Hd u). pose proof (parse_digits_uint0 u) as Hp.
    destruct (NilZero.string_of_uint u) as [|c s]; [done|].
    apply andb_true_iff in Hd as [Hc _].
    assert (c <> "-"%char /\ c <> "+"%char) as [H1 H2] by (split; intros ->; done).
    unfold Z.of_uint in Hz. rewrite Hz in Hp. clear -H1 H2 Hp.
    destruct c as [[] [] [] [] [] [] [] []]; try exact Hp; done.
  - rewrite parse_digits_uint0. simpl. f_equal. done.
Qed.

Lemma str_of_Z_inj z z' : str_of_Z z = str_of_Z z' -> z = z'.
Proof.
  intros H. apply (f_equal int_of_str) in H. rewrite !int_of_str_of_Z in H. by injection H.
Qed.

Lemma str_of_Z_nonempty z : str_of_Z z <> "".
Proof. intros H. pose proof (int_of_str_of_Z z) as E. rewrite H in E. done. Qed.

#[export] Instance str_of_Z_injective : Inj (=) (=) str_of_Z := str_of_Z_inj.
