(* ===== verification/PyDict.v ===== *)
(** * Python dictionaries with string keys

    A dict keeps its keys in insertion order: assigning an existing key keeps its
    place, a new key goes last, and iteration follows this order. Two dicts with
    the same lookups are equivalent ([dict_equiv]); only iteration tells them apart. *)

From S2P Require Import Prelude.

Section dict.
Context {V : Type}.

(** ** Operations *)

Definition dict : Type := list (string * V).

(** [d.get(k)], [k in d]. *)
Fixpoint dict_get (k : string) (d : dict) : option V :=
  match d with
  | [] => None
  | (k', v) :: d' => if decide (k = k') then Some v else dict_get k d'
  end.

Definition dict_mem (k : string) (d : dict) : bool := bool_decide (is_Some (dict_get k d)).

(** [d[k] = v]. *)
Fixpoint dict_set (k : string) (v : V) (d : dict) : dict :=
  match d with
  | [] => [(k, v)]
  | (k', v') :: d' => if decide (k = k') then (k', v) :: d' else (k', v') :: dict_set k v d'
  end.

(** [d.pop(k, None)]. *)
Fixpoint dict_pop (k : string) (d : dict) : dict :=
  match d with
  | [] => []
  | (k', v') :: d' => if decide (k = k') then d' else (k', v') :: dict_pop k d'
  end.

(** Mutation of the value under [k], when there is one. *)
Definition dict_alter (f : V -> V) (k : string) (d : dict) : dict :=
  match dict_get k d with
  | Some v => dict_set k (f v) d
  | None => d
  end.

(** [list(d.keys())]. *)
Definition dict_keys (d : dict) : list string := fst <$> d.

(** The keys of a dict are distinct. *)
Definition dict_wf (d : dict) : Prop := NoDup (dict_keys d).

(** The same lookups. *)
Definition dict_equiv (d1 d2 : dict) : Prop := forall k, dict_get k d1 = dict_get k d2.

(** The finite map that a dict implements. *)
Definition dict_to_map (d : dict) : gmap string V :=
  foldr (fun kv m => <[kv.1 := kv.2]> m) ∅ d.

(** ** Lookups *)

Lemma dict_get_set_eq k v d : dict_get k (dict_set k v d) = Some v.
Proof.
  induction d as [|[k' v'] d IH]; simpl; [by rewrite decide_True|].
  destruct (decide (k = k')) as [->|]; simpl; [by rewrite decide_True|].
  by rewrite decide_False.
Qed.

Lemma dict_get_set_ne k k' v d : k <> k' -> dict_get k' (dict_set k v d) = dict_get k' d.
Proof.
  intros Hne. induction d as [|[k'' v'] d IH]; simpl; [by rewrite decide_False|].
  destruct (decide (k = k'')) as [->|]; simpl; [by rewrite !decide_False by done|].
  by rewrite IH.
Qed.

Lemma dict_get_set k k' v d :
  dict_get k' (dict_set k v d) = if decide (k = k') then Some v else dict_get k' d.
Proof.
  destruct (decide (k = k')) as [->|]; [apply dict_get_set_eq|by apply dict_get_set_ne].
Qed.

Lemma dict_get_In k v d : dict_get k d = Some v -> (k, v) ∈ d.
Proof.
  induction d as [|[k' v'] d IH]; simpl; [done|].
  destruct (decide (k = k')) as [->|]; [intros [= ->]; left|right; auto].
Qed.

Lemma dict_In_get k v d : dict_wf d -> (k, v) ∈ d -> dict_get k d = Some v.
Proof.
  unfold dict_wf. induction d as [|[k' v'] d IH]; simpl; [set_solver|].
  intros [Hk Hd]%NoDup_cons [[= -> ->]|Hin]%elem_of_cons; [by rewrite decide_True|].
  rewrite decide_False; [by apply IH|]. intros ->. apply Hk.
  apply list_elem_of_fmap. by exists (k', v).
Qed.

Lemma dict_get_None k d : dict_get k d = None <-> k ∉ dict_keys d.
Proof.
  induction d as [|[k' v'] d IH]; simpl; [set_solver|].
  destruct (decide (k = k')) as [->|]; [set_solver|]. rewrite IH. set_solver.
Qed.

Lemma dict_get_is_Some k d : is_Some (dict_get k d) <-> k ∈ dict_keys d.
Proof.
  rewrite <- not_eq_None_Some, dict_get_None.
  destruct (decide (k ∈ dict_keys d)); tauto.
Qed.

Lemma dict_get_pop_ne k k' d : k <> k' -> dict_get k' (dict_pop k d) = dict_get k' d.
Proof.
  intros Hne. induction d as [|[k'' v'] d IH]; simpl; [done|].
  destruct (decide (k = k'')) as [->|]; simpl; [by rewrite decide_False by done|].
  by rewrite IH.
Qed.

Lemma dict_keys_pop_sublist k d : dict_keys (dict_pop k d) `sublist_of` dict_keys d.
Proof.
  induction d as [|[k'' v'] d IH]; simpl; [done|].
  destruct (decide (k = k'')); simpl; [by apply sublist_cons|by apply sublist_skip].
Qed.

Lemma dict_get_pop_eq k d : dict_wf d -> dict_get k (dict_pop k d) = None.
Proof.
  unfold dict_wf. induction d as [|[k'' v'] d IH]; simpl; [done|].
  intros [Hk Hd]%NoDup_cons.
  destruct (decide (k = k'')) as [->|]; simpl; [by apply dict_get_None|].
  rewrite decide_False by done. auto.
Qed.

Lemma dict_get_pop k k' d :
  dict_wf d -> dict_get k' (dict_pop k d) = if decide (k = k') then None else dict_get k' d.
Proof.
  intros Hwf. destruct (decide (k = k')) as [->|];
    [by apply dict_get_pop_eq|by apply dict_get_pop_ne].
Qed.

Lemma dict_pop_absent k d : dict_get k d = None -> dict_pop k d = d.
Proof.
  induction d as [|[k' v'] d IH]; simpl; [done|].
  destruct (decide (k = k')); [done|]. intros H. by rewrite IH.
Qed.

(** ** Key order and well-formedness *)

Lemma dict_keys_set_old k v d : is_Some (dict_get k d) -> dict_keys (dict_set k v d) = dict_keys d.
Proof.
  induction d as [|[k' v'] d IH]; simpl; [by intros [??]|].
  destruct (decide (k = k')) as [->|]; [done|]. intros H. simpl. by rewrite IH.
Qed.

Lemma dict_set_new k v d : dict_get k d = None -> dict_set k v d = d ++ [(k, v)].
Proof.
  induction d as [|[k' v'] d IH]; simpl; [done|].
  destruct (decide (k = k')) as [->|]; [done|]. intros H. by rewrite IH.
Qed.

Lemma dict_keys_set_new k v d :
  dict_get k d = None -> dict_keys (dict_set k v d) = dict_keys d ++ [k].
Proof. intros H. rewrite dict_set_new by done. unfold dict_keys. by rewrite fmap_app. Qed.

Lemma dict_set_set k v v' d : dict_set k v (dict_set k v' d) = dict_set k v d.
Proof.
  induction d as [|[k0 v0] d IH]; simpl; [by rewrite decide_True|].
  destruct (decide (k = k0)) as [->|Hk]; simpl; [by rewrite decide_True|].
  rewrite decide_False by done. by f_equal.
Qed.

Lemma dict_pop_set k v d : dict_get k d = None -> dict_pop k (dict_set k v d) = d.
Proof.
  intros Hn. rewrite dict_set_new by done. apply dict_get_None in Hn.
  induction d as [|[k' v'] d IH]; simpl; [by rewrite decide_True|].
  simpl in Hn. rewrite decide_False by set_solver. f_equal. apply IH. set_solver.
Qed.

Lemma dict_set_wf k v d : dict_wf d -> dict_wf (dict_set k v d).
Proof.
  unfold dict_wf. intros Hwf. destruct (dict_get k d) eqn:E.
  - by rewrite dict_keys_set_old by eauto.
  - rewrite dict_keys_set_new by done. apply NoDup_app.
    apply dict_get_None in E. split_and!; [done|set_solver|apply NoDup_singleton].
Qed.

Lemma dict_pop_wf k d : dict_wf d -> dict_wf (dict_pop k d).
Proof. unfold dict_wf. intros H. eapply sublist_NoDup; [exact H|apply dict_keys_pop_sublist]. Qed.

Lemma dict_nil_wf : dict_wf [].
Proof. constructor. Qed.

Lemma dict_alter_wf f k d : dict_wf d -> dict_wf (dict_alter f k d).
Proof. unfold dict_alter. destruct (dict_get k d); auto using dict_set_wf. Qed.

Lemma dict_get_alter f k k' d :
  dict_get k' (dict_alter f k d) = if decide (k = k') then f <$> dict_get k' d else dict_get k' d.
Proof.
  unfold dict_alter. destruct (dict_get k d) eqn:E.
  - rewrite dict_get_set. destruct (decide (k = k')) as [->|]; [by rewrite E|done].
  - destruct (decide (k = k')) as [->|]; [by rewrite E|done].
Qed.

Lemma dict_keys_alter f k d : dict_keys (dict_alter f k d) = dict_keys d.
Proof. unfold dict_alter. destruct (dict_get k d) eqn:E; [|done]. by rewrite dict_keys_set_old. Qed.

(** ** Equivalence *)

#[global] Instance dict_equiv_equivalence : Equivalence dict_equiv.
Proof.
  split.
  - intros d k. done.
  - intros d1 d2 H k. by rewrite (H k).
  - intros d1 d2 d3 H1 H2 k. by rewrite (H1 k), (H2 k).
Qed.

#[global] Instance dict_get_proper : Proper ((=) ==> dict_equiv ==> (=)) dict_get.
Proof. intros k ? <- d1 d2 H. apply H. Qed.

#[global] Instance dict_mem_proper : Proper ((=) ==> dict_equiv ==> (=)) dict_mem.
Proof. intros k ? <- d1 d2 H. unfold dict_mem. by rewrite H. Qed.

#[global] Instance dict_set_proper : Proper ((=) ==> (=) ==> dict_equiv ==> dict_equiv) dict_set.
Proof.
  intros k ? <- v ? <- d1 d2 H k'. rewrite !dict_get_set.
  destruct (decide (k = k')); [done|apply H].
Qed.

#[global] Instance dict_alter_proper :
  Proper ((=) ==> (=) ==> dict_equiv ==> dict_equiv) dict_alter.
Proof. intros f ? <- k ? <- d1 d2 H k'. rewrite !dict_get_alter. by rewrite H. Qed.

Lemma dict_to_map_lookup k d : dict_to_map d !! k = dict_get k d.
Proof.
  induction d as [|[k' v'] d IH]; simpl; [done|].
  destruct (decide (k = k')) as [->|]; [by rewrite lookup_insert_eq|].
  by rewrite lookup_insert_ne.
Qed.

Lemma dict_equiv_map d1 d2 : dict_equiv d1 d2 <-> dict_to_map d1 = dict_to_map d2.
Proof.
  split; intros H.
  - apply map_eq. intros k. by rewrite !dict_to_map_lookup.
  - intros k. by rewrite <- !dict_to_map_lookup, H.
Qed.

Lemma dict_to_map_set k v d : dict_to_map (dict_set k v d) = <[k := v]> (dict_to_map d).
Proof.
  apply map_eq. intros k'. rewrite dict_to_map_lookup, dict_get_set, lookup_insert.
  by rewrite dict_to_map_lookup.
Qed.

Lemma dict_to_map_pop k d : dict_wf d -> dict_to_map (dict_pop k d) = delete k (dict_to_map d).
Proof.
  intros Hwf. apply map_eq. intros k'. rewrite dict_to_map_lookup, dict_get_pop by done.
  rewrite lookup_delete, dict_to_map_lookup. done.
Qed.

Lemma dict_mem_true k d : dict_mem k d = true <-> is_Some (dict_get k d).
Proof. apply bool_decide_eq_true. Qed.

Lemma dict_mem_false k d : dict_mem k d = false <-> dict_get k d = None.
Proof. unfold dict_mem. rewrite bool_decide_eq_false. symmetry. apply eq_None_not_Some. Qed.
End dict.

Arguments dict : clear implicits.

#[export] Hint Resolve dict_set_wf dict_pop_wf dict_nil_wf dict_alter_wf dict_get_set_eq : wpi.
