(* ===== verification/Cuda.v ===== *)
(** * The CUDA driver API

    [libcuda] is not part of the program: its entry points are the fields of a
    type class over an abstract state [W] of the GPU and of its driver. A call
    returns a status (0 is CUDA_SUCCESS) and the value it writes through its out
    parameter. What the program relies on is the class [CudaLaws], over an
    observation of the state: physical allocations, address reservations and
    mappings. [Sim] is a concrete instance, used to run the code. *)

From S2P Require Import Prelude PyMonad.

(** ** Structures passed to the driver *)

Record CUmemLocation : Type := { loc_type : Z; loc_id : Z }.

Record CUmemAccessDesc : Type := { desc_location : CUmemLocation; desc_flags : Z }.

Record AllocFlags : Type :=
  { compressionType : Z; gpuDirectRDMACapable : Z; usage : Z; reserved_bytes : list Z }.

Record CUmemAllocationProp : Type :=
  { prop_type : Z;
    requestedHandleTypes : Z;
    prop_location : CUmemLocation;
    win32HandleMetaData : Z;
    allocFlags : AllocFlags }.

(** ** Device memory, byte-addressed *)

Definition vram : Type := Z -> Z.

(** The bytes [bs] stored from address [p] on. *)
Definition vram_write (p : Z) (bs : list Z) (m : vram) : vram := fun a =>
  if (p <=? a) && (a <? p + Z.of_nat (length bs)) then nth (Z.to_nat (a - p)) bs 0 else m a.

(** The [n] bytes at address [p]. *)
Definition vram_read (p : Z) (n : nat) (m : vram) : list Z :=
  (fun i : nat => m (p + Z.of_nat i)) <$> seq 0 n.

(** ** Entry points *)

Class CudaApi (W : Type) : Type := {
  cuInit : Z -> W -> Z * W;
  cuDeviceGet : Z -> W -> Z * Z * W;
  cuCtxCreate_v2 : Z -> Z -> W -> Z * Z * W;
  cuCtxSetCurrent : Z -> W -> Z * W;
  cuMemGetAllocationGranularity : CUmemAllocationProp -> Z -> W -> Z * Z * W;
  cuMemCreate : Z -> CUmemAllocationProp -> Z -> W -> Z * Z * W;
  cuMemExportToShareableHandle : Z -> Z -> Z -> W -> Z * Z * W;
  cuMemAddressReserve : Z -> Z -> Z -> Z -> W -> Z * Z * W;
  cuMemMap : Z -> Z -> Z -> Z -> Z -> W -> Z * W;
  cuMemSetAccess : Z -> Z -> CUmemAccessDesc -> Z -> W -> Z * W;
  cuMemUnmap : Z -> Z -> W -> Z * W;
  cuMemAddressFree : Z -> Z -> W -> Z * W;
  cuMemRelease : Z -> W -> Z * W;
  cuda_memory : W -> vram;
  cuda_set_memory : vram -> W -> W
}.

(** ** Observations and documented behaviour *)

Record cuda_obs : Type := {
  live : gmap Z Z;             (** handle of a physical allocation, its size *)
  reservations : gmap Z Z;     (** start of a reserved address range, its size *)
  mapped : gmap Z (Z * Z)      (** start of a mapped range, its size and handle *)
}.

Definition obs_set_live f (o : cuda_obs) : cuda_obs :=
  {| live := f (live o); reservations := reservations o; mapped := mapped o |}.

Definition obs_set_reservations f (o : cuda_obs) : cuda_obs :=
  {| live := live o; reservations := f (reservations o); mapped := mapped o |}.

Definition obs_set_mapped f (o : cuda_obs) : cuda_obs :=
  {| live := live o; reservations := reservations o; mapped := f (mapped o) |}.

Class CudaLaws (W : Type) `{CudaApi W} (obs : W -> cuda_obs) : Prop := {
  law_ctx_set c w : obs (cuCtxSetCurrent c w).2 = obs w;
  law_device_get d w : obs (cuDeviceGet d w).2 = obs w;
  law_ctx_create f d w : obs (cuCtxCreate_v2 f d w).2 = obs w;
  law_granularity p f w : obs (cuMemGetAllocationGranularity p f w).2 = obs w;
  (** A new handle, a 64-bit value, stands for a new allocation. *)
  law_create sz p f w st h w' :
    cuMemCreate sz p f w = (st, h, w') ->
    if st =? 0
    then 0 <= h < 2 ^ 64 /\ live (obs w) !! h = None /\
         obs w' = obs_set_live (<[h := sz]>) (obs w)
    else obs w' = obs w;
  law_export h k f w : obs (cuMemExportToShareableHandle h k f w).2 = obs w;
  law_reserve sz al hint f w st p w' :
    cuMemAddressReserve sz al hint f w = (st, p, w') ->
    if st =? 0
    then 0 <= p < 2 ^ 64 /\ reservations (obs w) !! p = None /\ mapped (obs w) !! p = None /\
         obs w' = obs_set_reservations (<[p := sz]>) (obs w)
    else obs w' = obs w;
  law_map p sz off h f w st w' :
    cuMemMap p sz off h f w = (st, w') ->
    if st =? 0 then obs w' = obs_set_mapped (<[p := (sz, h)]>) (obs w) else obs w' = obs w;
  law_access p sz d n w : obs (cuMemSetAccess p sz d n w).2 = obs w;
  (** cuMemUnmap: the range must be the entire range that was mapped. *)
  law_unmap_exact p sz h w :
    mapped (obs w) !! p = Some (sz, h) ->
    (cuMemUnmap p sz w).1 = 0 /\ obs (cuMemUnmap p sz w).2 = obs_set_mapped (delete p) (obs w);
  law_unmap_other p sz w :
    (forall h, mapped (obs w) !! p <> Some (sz, h)) ->
    (cuMemUnmap p sz w).1 <> 0 /\ obs (cuMemUnmap p sz w).2 = obs w;
  (** cuMemAddressFree: the range must be the one given to cuMemAddressReserve. *)
  law_addrfree_exact p sz w :
    reservations (obs w) !! p = Some sz -> mapped (obs w) !! p = None ->
    (cuMemAddressFree p sz w).1 = 0 /\
    obs (cuMemAddressFree p sz w).2 = obs_set_reservations (delete p) (obs w);
  law_release h w :
    is_Some (live (obs w) !! h) ->
    (cuMemRelease h w).1 = 0 /\ obs (cuMemRelease h w).2 = obs_set_live (delete h) (obs w);
  (** A copy changes the contents of device memory only. *)
  law_memory_obs m w : obs (cuda_set_memory m w) = obs w;
  law_memory_set m w : cuda_memory (cuda_set_memory m w) = m
}.

(** The descriptors of a process that stand for physical allocations: the number, and the
    handle of the allocation. An export adds one; the calls that reserve and map addresses
    leave them alone. *)
Class CudaExports (W : Type) `{CudaApi W} (exported : W -> gmap Z Z) : Prop := {
  law_export_table h k f w st fd w' :
    cuMemExportToShareableHandle h k f w = (st, fd, w') ->
    exported w' = if st =? 0 then <[fd := h]> (exported w) else exported w;
  law_reserve_table sz al hint f w : exported (cuMemAddressReserve sz al hint f w).2 = exported w;
  law_map_table p sz off h f w : exported (cuMemMap p sz off h f w).2 = exported w;
  law_access_table p sz d n w : exported (cuMemSetAccess p sz d n w).2 = exported w
}.

(** ** A concrete driver *)

Module Sim.

Record sim : Type := mk_sim {
  sim_obs : cuda_obs;
  sim_next : Z;                 (** the next handle, address or descriptor *)
  sim_devices : Z;              (** devices 0 .. n-1 exist *)
  sim_capacity : Z;             (** bytes of device memory left *)
  sim_map_fails : bool;         (** cuMemMap reports an error *)
  sim_memory : vram;
  sim_exported : gmap Z Z       (** descriptors of allocations *)
}.

(** The granularity of current GPUs: 2 MiB. *)
Definition granule : Z := 2 * 1024 * 1024.

Definition fail {A} (a : A) (w : sim) : Z * A * sim := (1, a, w).

Definition set_obs (f : cuda_obs -> cuda_obs) (w : sim) : sim :=
  mk_sim (f (sim_obs w)) (sim_next w) (sim_devices w) (sim_capacity w) (sim_map_fails w)
    (sim_memory w) (sim_exported w).

Definition tick (w : sim) : sim :=
  mk_sim (sim_obs w) (sim_next w + 1) (sim_devices w) (sim_capacity w) (sim_map_fails w)
    (sim_memory w) (sim_exported w).

Definition export (h : Z) (w : sim) : sim :=
  mk_sim (sim_obs w) (sim_next w) (sim_devices w) (sim_capacity w) (sim_map_fails w)
    (sim_memory w) (<[sim_next w := h]> (sim_exported w)).

Definition set_memory (m : vram) (w : sim) : sim :=
  mk_sim (sim_obs w) (sim_next w) (sim_devices w) (sim_capacity w) (sim_map_fails w) m
    (sim_exported w).

(** Handles are numbered; a fresh one avoids every handle in use. *)
Definition fresh_handle (w : sim) : Z := fresh (dom (live (sim_obs w))).

(** Addresses are 2^40 apart, so that ranges do not overlap. *)
Definition fresh_range (w : sim) : Z :=
  2 ^ 40 * (1 + fresh (set_map (C:=gset Z) (D:=gset Z) (fun p => p / 2 ^ 40 - 1)
    (dom (reservations (sim_obs w)) ∪ dom (mapped (sim_obs w))))).

Definition is_u64 (z : Z) : bool := (0 <=? z) && (z <? 2 ^ 64).

#[global] Instance sim_api : CudaApi sim := {
  cuInit _ w := (0, w);
  cuDeviceGet d w := if (0 <=? d) && (d <? sim_devices w) then (0, d, w) else fail 0 w;
  cuCtxCreate_v2 _ d w := (0, 1000 + d, w);
  cuCtxSetCurrent _ w := (0, w);
  cuMemGetAllocationGranularity _ _ w := (0, granule, w);
  cuMemCreate sz _ _ w :=
    if (sz <=? sim_capacity w) && is_u64 (fresh_handle w) then
      (0, fresh_handle w,
       mk_sim (obs_set_live (<[fresh_handle w := sz]>) (sim_obs w)) (sim_next w) (sim_devices w)
         (sim_capacity w - sz) (sim_map_fails w) (sim_memory w) (sim_exported w))
    else fail 0 w;
  cuMemExportToShareableHandle h _ _ w := (0, sim_next w, tick (export h w));
  cuMemAddressReserve sz _ _ _ w :=
    if is_u64 (fresh_range w) then
      (0, fresh_range w, set_obs (obs_set_reservations (<[fresh_range w := sz]>)) w)
    else fail 0 w;
  cuMemMap p sz _ h _ w :=
    if sim_map_fails w then (1, w) else (0, set_obs (obs_set_mapped (<[p := (sz, h)]>)) w);
  cuMemSetAccess _ _ _ _ w := (0, w);
  cuMemUnmap p sz w :=
    match mapped (sim_obs w) !! p with
    | Some (sz', _) =>
        if sz =? sz' then (0, set_obs (obs_set_mapped (delete p)) w) else (1, w)
    | None => (1, w)
    end;
  cuMemAddressFree p sz w :=
    match reservations (sim_obs w) !! p, mapped (sim_obs w) !! p with
    | Some sz', None =>
        if sz =? sz' then (0, set_obs (obs_set_reservations (delete p)) w) else (1, w)
    | _, _ => (1, w)
    end;
  cuMemRelease h w :=
    match live (sim_obs w) !! h with
    | Some _ => (0, set_obs (obs_set_live (delete h)) w)
    | None => (1, w)
    end;
  cuda_memory := sim_memory;
  cuda_set_memory := set_memory
}.

(** A machine with [n] GPUs, and one whose address mapping fails. *)
Definition machine (n : Z) : sim :=
  mk_sim {| live := ∅; reservations := ∅; mapped := ∅ |} 3 n (2 ^ 40) false (fun _ => 0) ∅.

Definition broken_machine : sim :=
  mk_sim {| live := ∅; reservations := ∅; mapped := ∅ |} 3 1 (2 ^ 40) true (fun _ => 0) ∅.

End Sim.

(** ** Lemmas: device memory *)

Lemma vram_read_length p n m : length (vram_read p n m) = n.
Proof. unfold vram_read. by rewrite length_fmap, length_seq. Qed.

Lemma vram_read_lookup p n m i :
  (i < n)%nat -> vram_read p n m !! i = Some (m (p + Z.of_nat i)).
Proof.
  intros Hi. unfold vram_read. rewrite list_lookup_fmap, lookup_seq_lt by done. done.
Qed.

Lemma vram_read_ext p q n m m' :
  (forall i, (i < n)%nat -> m (p + Z.of_nat i) = m' (q + Z.of_nat i)) ->
  vram_read p n m = vram_read q n m'.
Proof.
  intros H. apply list_eq_same_length with (n := n); rewrite ?vram_read_length; [done..|].
  intros i x y Hi. rewrite !vram_read_lookup by done. intros [= <-] [= <-]. auto.
Qed.

(** Reading back what was written, at any window inside it. *)
Lemma vram_read_write p q bs n m :
  p <= q -> q + Z.of_nat n <= p + Z.of_nat (length bs) ->
  vram_read q n (vram_write p bs m) = take n (drop (Z.to_nat (q - p)) bs).
Proof.
  intros Hp Hn. apply list_eq_same_length with (n := n).
  - rewrite length_take, length_drop. lia.
  - apply vram_read_length.
  - intros i x y Hi. rewrite vram_read_lookup by done.
    rewrite lookup_take_lt, lookup_drop by done. intros [= <-] Hy.
    unfold vram_write. rewrite (proj2 (andb_true_iff _ _)) by (split; lia).
    apply nth_lookup_Some with (d := 0) in Hy. rewrite <- Hy. f_equal. lia.
Qed.

(** A window disjoint from the written range is unchanged. *)
Lemma vram_read_write_other p q bs n m :
  q + Z.of_nat n <= p \/ p + Z.of_nat (length bs) <= q ->
  vram_read q n (vram_write p bs m) = vram_read q n m.
Proof.
  intros Hd. apply vram_read_ext. intros i Hi. unfold vram_write.
  destruct (_ && _) eqn:E; [|done]. zify_bools. lia.
Qed.

(** ** The simulation satisfies the laws *)

Lemma sim_fresh_range_free w :
  reservations (Sim.sim_obs w) !! Sim.fresh_range w = None /\
  mapped (Sim.sim_obs w) !! Sim.fresh_range w = None.
Proof.
  set (X := dom (reservations (Sim.sim_obs w)) ∪ dom (mapped (Sim.sim_obs w))).
  assert (Sim.fresh_range w ∉ X) as Hf.
  { intros Hin. unfold Sim.fresh_range in Hin. fold X in Hin.
    pose proof (is_fresh (set_map (C:=gset Z) (D:=gset Z) (fun p => p / 2 ^ 40 - 1) X)) as Hn.
    set (r := fresh _) in *. apply Hn. apply elem_of_map. eexists; split; [|exact Hin].
    rewrite Z.mul_comm, Z.div_mul by done. lia. }
  unfold X in Hf. rewrite not_elem_of_union, !not_elem_of_dom in Hf. done.
Qed.

#[global] Instance sim_laws : CudaLaws Sim.sim Sim.sim_obs.
Proof.
  split; try done; simpl.
  - intros d w. by destruct (_ && _).
  - intros sz p f w st h w'. unfold Sim.is_u64.
    destruct (_ && _) eqn:E; intros [= <- <- <-]; simpl; [|done]. zify_bools.
    split; [done|]. split; [|done]. unfold Sim.fresh_handle. apply not_elem_of_dom.
    apply (is_fresh (dom (live _))).
  - intros sz al hint f w st p w'. unfold Sim.is_u64.
    destruct (_ && _) eqn:E; intros [= <- <- <-]; simpl; [|done]. zify_bools.
    pose proof (sim_fresh_range_free w) as [??]. done.
  - intros p sz off h f w st w'. destruct (Sim.sim_map_fails w); intros [= <- <-]; done.
  - intros p sz h w ->. by rewrite Z.eqb_refl.
  - intros p sz w Hne. destruct (mapped _ !! p) as [[sz' h]|] eqn:E; [|done].
    destruct (sz =? sz') eqn:E'; [|done]. zify_bools. subst. by destruct (Hne h).
  - intros p sz w -> ->. by rewrite Z.eqb_refl.
  - intros h w [sz ->]. done.
Qed.

#[global] Instance sim_exports : CudaExports Sim.sim Sim.sim_exported.
Proof.
  split; simpl.
  - by intros h k f w st fd w' [= <- <- <-].
  - intros sz al hint f w. by destruct (Sim.is_u64 _).
  - intros p sz off h f w. by destruct (Sim.sim_map_fails w).
  - done.
Qed.
