(* ===== verification/Allocator.v ===== *)
(** * CudaAllocator (driver/main.py)

    The allocator keeps one CUDA context per GPU and hands out shareable VRAM
    allocations: [allocate_and_export] rounds the size up to the granularity of
    the device, [free] gives an allocation back. *)

From S2P Require Import Prelude PyMonad PyText Cuda.

Definition CU_MEM_ALLOCATION_TYPE_PINNED : Z := 1.
Definition CU_MEM_HANDLE_TYPE_POSIX_FILE_DESCRIPTOR : Z := 1.
Definition CU_MEM_LOCATION_TYPE_DEVICE : Z := 1.
Definition CU_MEM_ALLOC_GRANULARITY_MINIMUM : Z := 0.
Definition CU_MEM_ACCESS_FLAGS_PROT_READWRITE : Z := 3.

(** [self.contexts], [self.devices], and the driver behind [self.libcuda]. *)
Record CudaAllocator (W : Type) : Type := mk_CudaAllocator {
  contexts : gmap Z Z;
  devices : gmap Z Z;
  libcuda : W
}.
Arguments mk_CudaAllocator {W}.
Arguments contexts {W}.
Arguments devices {W}.
Arguments libcuda {W}.

(** [CUmemAllocationProp()] zero-initialised, then the four assigned fields. *)
Definition allocation_prop (dev : Z) : CUmemAllocationProp :=
  {| prop_type := CU_MEM_ALLOCATION_TYPE_PINNED;
     requestedHandleTypes := CU_MEM_HANDLE_TYPE_POSIX_FILE_DESCRIPTOR;
     prop_location := {| loc_type := CU_MEM_LOCATION_TYPE_DEVICE; loc_id := dev |};
     win32HandleMetaData := 0;
     allocFlags := {| compressionType := 0; gpuDirectRDMACapable := 0; usage := 0;
                      reserved_bytes := [0; 0; 0; 0] |} |}.

Definition access_desc (dev : Z) : CUmemAccessDesc :=
  {| desc_location := {| loc_type := CU_MEM_LOCATION_TYPE_DEVICE; loc_id := dev |};
     desc_flags := CU_MEM_ACCESS_FLAGS_PROT_READWRITE |}.

(** [if size % g != 0: size = ((size // g) + 1) * g], with the division by zero
    that a zero granularity causes. *)
Definition align_size {S} (size g : Z) : py S Z :=
  if g =? 0 then py_raise ZeroDivisionError "integer modulo by zero"
  else mret (round_up size g).

Section allocator.
Context {W : Type} `{CudaApi W}.

Definition set_libcuda (w : W) (s : CudaAllocator W) : CudaAllocator W :=
  mk_CudaAllocator (contexts s) (devices s) w.

(** A call whose only result is its status, and a call with an out parameter. *)
Definition cuda_call (f : W -> Z * W) : py (CudaAllocator W) Z := fun s =>
  let '(st, w) := f (libcuda s) in (Ret st, set_libcuda w s).

Definition cuda_call_out (f : W -> Z * Z * W) : py (CudaAllocator W) (Z * Z) := fun s =>
  let '(st, v, w) := f (libcuda s) in
  (Ret (st, if st =? 0 then v else 0), set_libcuda w s).

(** [if call(...) != 0: raise Exception(msg)]. *)
Definition checked (msg : string) (f : W -> Z * W) : py (CudaAllocator W) unit :=
  st ← cuda_call f ;
  if negb (st =? 0) then py_raise ExceptionK msg else mret tt.

Definition checked_out (msg : string) (f : W -> Z * Z * W) : py (CudaAllocator W) Z :=
  r ← cuda_call_out f ;
  if negb (r.1 =? 0) then py_raise ExceptionK msg else mret r.2.

Definition get_or_create_context (device_id : Z) : py (CudaAllocator W) Z :=
  known ← py_get (fun s => contexts s !! device_id) ;
  match known with
  | Some ctx => mret ctx
  | None =>
      dev ← checked_out ("cuDeviceGet failed for device " +:+ str_of_Z device_id)
              (cuDeviceGet device_id) ;
      ctx ← checked_out ("cuCtxCreate failed for device " +:+ str_of_Z device_id)
              (cuCtxCreate_v2 0 dev) ;
      py_modify (fun s => mk_CudaAllocator (<[device_id := ctx]> (contexts s)) (devices s) (libcuda s)) ;;
      py_modify (fun s => mk_CudaAllocator (contexts s) (<[device_id := dev]> (devices s)) (libcuda s)) ;;
      mret ctx
  end.

(** The first half of [allocate_and_export]: the context, the properties and the
    rounded size. *)
Definition allocate_prepare (size_bytes device_id : Z) : py (CudaAllocator W) (Z * Z) :=
  ctx ← get_or_create_context device_id ;
  _ ← cuda_call (cuCtxSetCurrent ctx) ;
  odev ← py_get (fun s => devices s !! device_id) ;
  dev ← py_some odev KeyError (str_of_Z device_id) ;
  g ← cuda_call_out (cuMemGetAllocationGranularity (allocation_prop dev)
                       CU_MEM_ALLOC_GRANULARITY_MINIMUM) ;
  size ← align_size size_bytes g.2 ;
  mret (dev, size).

(** The second half: create, export, reserve, map, set access. *)
Definition allocate_commit (dev size : Z) : py (CudaAllocator W) (Z * Z * Z) :=
  handle ← checked_out "cuMemCreate failed" (cuMemCreate (wrap64 size) (allocation_prop dev) 0) ;
  fd ← checked_out "cuMemExportToShareableHandle failed"
         (cuMemExportToShareableHandle handle CU_MEM_HANDLE_TYPE_POSIX_FILE_DESCRIPTOR 0) ;
  device_ptr ← checked_out "cuMemAddressReserve failed"
                 (cuMemAddressReserve (wrap64 size) 0 0 0) ;
  checked "cuMemMap failed" (cuMemMap device_ptr (wrap64 size) 0 handle 0) ;;
  checked "cuMemSetAccess failed" (cuMemSetAccess device_ptr (wrap64 size) (access_desc dev) 1) ;;
  mret (fd, handle, device_ptr).

Definition allocate_and_export (size_bytes device_id : Z) : py (CudaAllocator W) (Z * Z * Z) :=
  r ← allocate_prepare size_bytes device_id ;
  allocate_commit r.1 r.2.

Definition free (handle device_ptr size_bytes : Z) : py (CudaAllocator W) unit :=
  checked "cuMemUnmap failed" (cuMemUnmap (wrap64 device_ptr) (wrap64 size_bytes)) ;;
  checked "cuMemAddressFree failed" (cuMemAddressFree (wrap64 device_ptr) (wrap64 size_bytes)) ;;
  checked "cuMemRelease failed" (cuMemRelease (wrap64 handle)).

(** [CudaAllocator()]: [lib_found] tells whether [ctypes.CDLL] finds the library. *)
Definition CudaAllocator_init (lib_found : bool) : py (CudaAllocator W) unit :=
  py_when (negb lib_found) (py_raise OSError "libcuda.so.1: cannot open shared object file") ;;
  checked "cuInit failed" (cuInit 0) ;;
  py_modify (fun s => mk_CudaAllocator ∅ ∅ (libcuda s)) ;;
  _ ← get_or_create_context 0 ;
  odev ← py_get (fun s => devices s !! 0) ;
  _ ← py_some odev KeyError "0" ;
  octx ← py_get (fun s => contexts s !! 0) ;
  _ ← py_some octx KeyError "0" ;
  mret tt.

(** The module-level [try: cuda_allocator = CudaAllocator() except Exception]. *)
Definition make_cuda_allocator (lib_found : bool) (w : W) : option (CudaAllocator W) :=
  match CudaAllocator_init lib_found (mk_CudaAllocator ∅ ∅ w) with
  | (Ret _, s) => Some s
  | _ => None
  end.

(** ** Invariant: a device handle is known for every context *)

Definition allocator_wf (s : CudaAllocator W) : Prop :=
  forall d, is_Some (contexts s !! d) -> is_Some (devices s !! d).

End allocator.

(** ** Lemmas: one call *)

Section calls.
Context {W : Type} `{CudaApi W}.
Implicit Types (s : CudaAllocator W).

Lemma checked_ret msg f s a s' :
  checked msg f s = (Ret a, s') -> exists w', f (libcuda s) = (0, w') /\ s' = set_libcuda w' s.
Proof.
  unfold checked, cuda_call. rewrite bind_unfold. destruct (f (libcuda s)) as [st w'].
  destruct (st =? 0) eqn:E; simpl; intros [=]; subst. apply Z.eqb_eq in E as ->. eauto.
Qed.

Lemma checked_raise msg f s e s' :
  checked msg f s = (Raise e, s') ->
  exists st w', f (libcuda s) = (st, w') /\ st <> 0 /\ s' = set_libcuda w' s /\
    e = mk_exn ExceptionK msg.
Proof.
  unfold checked, cuda_call. rewrite bind_unfold. destruct (f (libcuda s)) as [st w'].
  destruct (st =? 0) eqn:E; simpl; intros [=]; subst. apply Z.eqb_neq in E. eauto 8.
Qed.

Lemma checked_run msg f s st w' :
  f (libcuda s) = (st, w') ->
  checked msg f s =
    (if st =? 0 then Ret tt else Raise (mk_exn ExceptionK msg), set_libcuda w' s).
Proof. unfold checked, cuda_call. rewrite bind_unfold. intros ->. by destruct (st =? 0). Qed.

Lemma checked_out_ret msg f s v s' :
  checked_out msg f s = (Ret v, s') ->
  exists w', f (libcuda s) = (0, v, w') /\ s' = set_libcuda w' s.
Proof.
  unfold checked_out, cuda_call_out. rewrite bind_unfold. destruct (f (libcuda s)) as [[st u] w'].
  destruct (st =? 0) eqn:E; simpl; rewrite E; simpl; intros [=]; subst.
  apply Z.eqb_eq in E as ->. eauto.
Qed.

Lemma checked_out_raise msg f s e s' :
  checked_out msg f s = (Raise e, s') ->
  exists st v w', f (libcuda s) = (st, v, w') /\ st <> 0 /\ s' = set_libcuda w' s /\
    e = mk_exn ExceptionK msg.
Proof.
  unfold checked_out, cuda_call_out. rewrite bind_unfold. destruct (f (libcuda s)) as [[st u] w'].
  destruct (st =? 0) eqn:E; simpl; rewrite E; simpl; intros [=]; subst.
  apply Z.eqb_neq in E. eauto 8.
Qed.

Lemma checked_out_not_stuck msg f s s' : checked_out msg f s <> (Stuck, s').
Proof.
  unfold checked_out, cuda_call_out. rewrite bind_unfold. destruct (f (libcuda s)) as [[st v] w'].
  by destruct (st =? 0) eqn:E; simpl; rewrite E.
Qed.

Lemma align_size_ret size g s x s' :
  align_size size g s = (Ret x, s') -> g <> 0 /\ x = round_up size g /\ s' = s.
Proof.
  unfold align_size. destruct (g =? 0) eqn:E; intros [=]; subst. by apply Z.eqb_neq in E.
Qed.
End calls.

(** ** Lemmas: no method of the allocator waits *)

Section total.
Context {W : Type} `{CudaApi W}.

Lemma keeps_cuda_call f : keeps (S:=CudaAllocator W) (fun _ => True) (cuda_call f).
Proof. intros s _. unfold cuda_call. by destruct (f _). Qed.

Lemma keeps_cuda_call_out f : keeps (S:=CudaAllocator W) (fun _ => True) (cuda_call_out f).
Proof. intros s _. unfold cuda_call_out. by destruct (f _) as [[??]?]. Qed.

#[local] Hint Resolve keeps_cuda_call keeps_cuda_call_out : wpi.

Lemma keeps_checked msg f : keeps (S:=CudaAllocator W) (fun _ => True) (checked msg f).
Proof. unfold checked. keeps_tac. Qed.

Lemma keeps_checked_out msg f : keeps (S:=CudaAllocator W) (fun _ => True) (checked_out msg f).
Proof. unfold checked_out. keeps_tac. Qed.

#[local] Hint Resolve keeps_checked keeps_checked_out : wpi.

Lemma keeps_get_or_create_context d : keeps (S:=CudaAllocator W) (fun _ => True) (get_or_create_context d).
Proof. unfold get_or_create_context. keeps_tac; by apply keeps_modify. Qed.

#[local] Hint Resolve keeps_get_or_create_context : wpi.

Lemma keeps_allocate_and_export size d :
  keeps (S:=CudaAllocator W) (fun _ => True) (allocate_and_export size d).
Proof.
  unfold allocate_and_export, allocate_prepare, allocate_commit, align_size. keeps_tac.
Qed.

Lemma keeps_free h p size : keeps (S:=CudaAllocator W) (fun _ => True) (free h p size).
Proof. unfold free. keeps_tac. Qed.
End total.

#[export] Hint Resolve keeps_cuda_call keeps_cuda_call_out keeps_get_or_create_context
  keeps_allocate_and_export keeps_free : wpi.

(** ** Lemmas: what the calls leave unchanged *)

Section observation.
Context {W : Type} `{CudaApi W} (obs : W -> cuda_obs) `{!CudaLaws W obs}.
Implicit Types (s : CudaAllocator W) (o : cuda_obs).

Definition observes (o : cuda_obs) (s : CudaAllocator W) : Prop := obs (libcuda s) = o.

Lemma preserves_cuda_call o f :
  (forall w, obs (f w).2 = obs w) -> preserves (observes o) (cuda_call f).
Proof.
  intros Hf s Hs. unfold cuda_call, observes in *. specialize (Hf (libcuda s)).
  destruct (f (libcuda s)) as [st w']. simpl in *. congruence.
Qed.

Lemma preserves_cuda_call_out o f :
  (forall w, obs (f w).2 = obs w) -> preserves (observes o) (cuda_call_out f).
Proof.
  intros Hf s Hs. unfold cuda_call_out, observes in *. specialize (Hf (libcuda s)).
  destruct (f (libcuda s)) as [[st v] w']. simpl in *. congruence.
Qed.

Lemma preserves_checked o msg f :
  (forall w, obs (f w).2 = obs w) -> preserves (observes o) (checked msg f).
Proof. intros Hf. unfold checked. preserves_tac. by apply preserves_cuda_call. Qed.

Lemma preserves_checked_out o msg f :
  (forall w, obs (f w).2 = obs w) -> preserves (observes o) (checked_out msg f).
Proof. intros Hf. unfold checked_out. preserves_tac. by apply preserves_cuda_call_out. Qed.

(** Creating a context allocates no memory. *)
Lemma preserves_get_or_create_context o d :
  preserves (observes o) (get_or_create_context d).
Proof.
  unfold get_or_create_context. preserves_tac.
  - apply preserves_checked_out. intros w. apply law_device_get.
  - apply preserves_checked_out. intros w. apply law_ctx_create.
  - by apply preserves_modify.
  - by apply preserves_modify.
Qed.

Lemma preserves_allocator_wf d : preserves allocator_wf (get_or_create_context (W:=W) d).
Proof.
  intros s Hwf. unfold get_or_create_context. rewrite bind_unfold. simpl.
  destruct (contexts s !! d); [done|]. rewrite bind_unfold.
  destruct (checked_out _ (cuDeviceGet d) s) as [[dev|e|] s1] eqn:E1; simpl.
  - apply checked_out_ret in E1 as (w1 & _ & ->). rewrite bind_unfold.
    destruct (checked_out _ _ _) as [[ctx|e|] s2] eqn:E2; simpl.
    + apply checked_out_ret in E2 as (w2 & _ & ->). intros d' [c Hc]. simpl in *.
      destruct (decide (d = d')) as [->|]; [rewrite lookup_insert_eq; eauto|].
      rewrite lookup_insert_ne in Hc by done. rewrite lookup_insert_ne by done.
      apply Hwf. eauto.
    + by apply checked_out_raise in E2 as (? & ? & ? & _ & _ & -> & _).
    + by apply checked_out_not_stuck in E2.
  - by apply checked_out_raise in E1 as (? & ? & ? & _ & _ & -> & _).
  - by apply checked_out_not_stuck in E1.
Qed.

(** ** What an allocation is *)

(** The allocation [handle] of [size] bytes is mapped at [ptr]. *)
Definition allocated (o : cuda_obs) (handle ptr size : Z) : Prop :=
  live o !! handle = Some size /\ reservations o !! ptr = Some size /\
  mapped o !! ptr = Some (size, handle).

(** The three observations an allocation adds. *)
Definition obs_allocate (handle ptr size : Z) (o : cuda_obs) : cuda_obs :=
  obs_set_mapped (<[ptr := (size, handle)]>)
    (obs_set_reservations (<[ptr := size]>) (obs_set_live (<[handle := size]>) o)).

Section granularity.
(** The driver reports the granularity [g]. *)
Context (g : Z) (Hg : 0 < g).
Context (Hgran : forall p f w, (cuMemGetAllocationGranularity p f w).1 = (0, g)).

(** A call that leaves the observation unchanged, run. *)
Lemma observed_call f s a s' :
  (forall w, obs (f w).2 = obs w) -> cuda_call f s = (Ret a, s') ->
  obs (libcuda s') = obs (libcuda s).
Proof.
  intros Hf E. pose proof (preserves_cuda_call _ f Hf s eq_refl) as P. by rewrite E in P.
Qed.

Lemma observed_context d s c s' :
  get_or_create_context d s = (Ret c, s') -> obs (libcuda s') = obs (libcuda s).
Proof.
  intros E. pose proof (preserves_get_or_create_context _ d s eq_refl) as P. by rewrite E in P.
Qed.

Lemma granularity_run prop f s r s' :
  cuda_call_out (cuMemGetAllocationGranularity prop f) s = (Ret r, s') ->
  r = (0, g) /\ obs (libcuda s') = obs (libcuda s).
Proof.
  unfold cuda_call_out. pose proof (Hgran prop f (libcuda s)) as Hg1.
  pose proof (law_granularity prop f (libcuda s)) as Ho.
  destruct (cuMemGetAllocationGranularity _ _ _) as [[st v] w']. simpl in *.
  injection Hg1 as -> ->. intros [= <- <-]. done.
Qed.

(** Every step before the reservation reports its own message. *)
Lemma context_raise d s e s' :
  get_or_create_context d s = (Raise e, s') -> e <> mk_exn ExceptionK "cuMemMap failed".
Proof.
  unfold get_or_create_context. intros E.
  apply bind_raise_inv in E as [E|(o & s1 & E1 & E)]; [done|].
  destruct o as [c|]; [done|].
  apply bind_raise_inv in E as [E|(dev & s2 & E2 & E)].
  { apply checked_out_raise in E as (?&?&?&_&_&_&->). done. }
  apply bind_raise_inv in E as [E|(c & s3 & E3 & E)]; [|done].
  apply checked_out_raise in E as (?&?&?&_&_&_&->). done.
Qed.

(** The first half creates no allocation, and its size is the rounded one. *)
Lemma prepare_inv size d s r s' :
  allocate_prepare size d s = (Ret r, s') ->
  r.2 = round_up size g /\ obs (libcuda s') = obs (libcuda s).
Proof.
  intros E. unfold allocate_prepare in E. ret_inv E.
  apply observed_context in E0. apply observed_call in E1; [|apply law_ctx_set].
  injection E2 as <- <-. injection E as <- <-.
  unfold py_some in E3. destruct (devices s1 !! d) as [dev|]; [|done]. injection E3 as <- <-.
  apply granularity_run in E4 as [-> E4]. apply align_size_ret in E5 as (_ & -> & ->).
  split; [done|]. congruence.
Qed.

Lemma prepare_raise size d s e s' :
  allocate_prepare size d s = (Raise e, s') -> e <> mk_exn ExceptionK "cuMemMap failed".
Proof.
  intros E. unfold allocate_prepare in E.
  apply bind_raise_inv in E as [E|(c & s0 & E0 & E)]; [by apply context_raise in E|].
  apply bind_raise_inv in E as [E|(c' & s1 & E1 & E)].
  { unfold cuda_call in E. by destruct (cuCtxSetCurrent _ _). }
  apply bind_raise_inv in E as [E|(odev & s2 & E2 & E)]; [done|]. injection E2 as <- <-.
  apply bind_raise_inv in E as [E|(dev & s3 & E3 & E)]; unfold py_some in *;
    destruct (devices s1 !! d) as [dv|]; try done.
  { by injection E as <- <-. }
  apply bind_raise_inv in E as [E|(gr & s4 & E4 & E)].
  { unfold cuda_call_out in E. by destruct (cuMemGetAllocationGranularity _ _ _) as [[??]?]. }
  apply bind_raise_inv in E as [E|(sz & s5 & E5 & E)]; [|done].
  unfold align_size in E. destruct (_ =? 0); [|done]. by injection E as <- <-.
Qed.

(** The calls of the second half before cuMemMap. *)
Lemma commit_reserved dev sz s h s1 fd s2 p s3 :
  checked_out "cuMemCreate failed" (cuMemCreate sz (allocation_prop dev) 0) s = (Ret h, s1) ->
  checked_out "cuMemExportToShareableHandle failed"
    (cuMemExportToShareableHandle h CU_MEM_HANDLE_TYPE_POSIX_FILE_DESCRIPTOR 0) s1 = (Ret fd, s2) ->
  checked_out "cuMemAddressReserve failed" (cuMemAddressReserve sz 0 0 0) s2 = (Ret p, s3) ->
  0 <= h < 2 ^ 64 /\ 0 <= p < 2 ^ 64 /\
  live (obs (libcuda s)) !! h = None /\ reservations (obs (libcuda s)) !! p = None /\
  mapped (obs (libcuda s)) !! p = None /\
  obs (libcuda s3) = obs_set_reservations (<[p := sz]>) (obs_set_live (<[h := sz]>) (obs (libcuda s))).
Proof.
  intros E6 E7 E8.
  apply checked_out_ret in E6 as (w2 & E6 & ->). apply law_create in E6 as (Hh & Hlive & Hw2).
  apply checked_out_ret in E7 as (w3 & E7 & ->). simpl in E7.
  pose proof (law_export h CU_MEM_HANDLE_TYPE_POSIX_FILE_DESCRIPTOR 0 w2) as Hw3.
  rewrite E7 in Hw3. simpl in Hw3.
  apply checked_out_ret in E8 as (w4 & E8 & ->). apply law_reserve in E8 as (Hp & Hres & Hmap & Hw4).
  simpl in *. rewrite Hw3, Hw2 in *. simpl in *. done.
Qed.

Lemma allocate_inv size d s fd h p s' :
  allocate_and_export size d s = (Ret (fd, h, p), s') ->
  let sz := wrap64 (round_up size g) in
  0 <= h < 2 ^ 64 /\ 0 <= p < 2 ^ 64 /\
  live (obs (libcuda s)) !! h = None /\ reservations (obs (libcuda s)) !! p = None /\
  mapped (obs (libcuda s)) !! p = None /\
  obs (libcuda s') = obs_allocate h p sz (obs (libcuda s)).
Proof.
  intros E. unfold allocate_and_export in E. ret_inv E.
  apply prepare_inv in E0 as [Hsz Ho]. unfold allocate_commit in E. ret_inv E.
  rewrite Hsz in *. injection E as <- <- <- <-.
  destruct (commit_reserved _ _ _ _ _ _ _ _ _ E0 E1 E2) as (?&?&?&?&?&Hw).
  apply checked_ret in E3 as (w5 & E3 & ->). apply law_map in E3. simpl in E3.
  apply checked_ret in E4 as (w6 & E4 & ->). simpl in E4.
  pose proof (law_access a2 (wrap64 (round_up size g)) (access_desc a.1) 1 w5) as Hw6.
  rewrite E4 in Hw6. simpl in *. rewrite Ho in *. split_and!; try done; try lia.
  by rewrite Hw6, E3, Hw.
Qed.

(** The descriptor of a new allocation stands for it. *)
Lemma allocate_exported (exported : W -> gmap Z Z) `{!CudaExports W exported} size d s fd h p s' :
  allocate_and_export size d s = (Ret (fd, h, p), s') -> exported (libcuda s') !! fd = Some h.
Proof.
  intros E. unfold allocate_and_export in E. ret_inv E. unfold allocate_commit in E. ret_inv E.
  injection E as <- <- <- <-.
  apply checked_out_ret in E2 as (w2 & E2 & ->). apply law_export_table in E2. simpl in E2.
  apply checked_out_ret in E3 as (w3 & E3 & ->). simpl in E3.
  pose proof (law_reserve_table (exported:=exported) (wrap64 a.2) 0 0 0 w2) as Hw3.
  rewrite E3 in Hw3. simpl in Hw3.
  apply checked_ret in E4 as (w4 & E4 & ->). simpl in E4.
  pose proof (law_map_table (exported:=exported) a2 (wrap64 a.2) 0 a0 0 w3) as Hw4.
  rewrite E4 in Hw4. simpl in Hw4.
  apply checked_ret in E5 as (w5 & E5 & ->). simpl in E5.
  pose proof (law_access_table (exported:=exported) a2 (wrap64 a.2) (access_desc a.1) 1 w4) as Hw5.
  rewrite E5 in Hw5. simpl in *. rewrite Hw5, Hw4, Hw3, E2. apply lookup_insert_eq.
Qed.

(** What [free] does to an allocation when it is given its exact size. *)
Lemma free_exact h p sz s :
  allocated (obs (libcuda s)) h p (wrap64 sz) -> 0 <= h < 2 ^ 64 -> 0 <= p < 2 ^ 64 ->
  exists s', free h p sz s = (Ret tt, s') /\
    obs (libcuda s') =
      obs_set_live (delete h) (obs_set_reservations (delete p)
        (obs_set_mapped (delete p) (obs (libcuda s)))).
Proof.
  intros (Hl & Hr & Hm) Hh Hp. unfold free. rewrite !(wrap64_small h), !(wrap64_small p) by done.
  destruct (law_unmap_exact p (wrap64 sz) h (libcuda s) Hm) as [S1 O1].
  destruct (cuMemUnmap p (wrap64 sz) (libcuda s)) as [st1 w1] eqn:E1. simpl in S1, O1. subst st1.
  rewrite bind_unfold, (checked_run _ _ _ _ _ E1). simpl.
  destruct (law_addrfree_exact p (wrap64 sz) w1) as [S2 O2].
  { by rewrite O1. } { rewrite O1. simpl. apply lookup_delete_eq. }
  destruct (cuMemAddressFree p (wrap64 sz) w1) as [st2 w2] eqn:E2. simpl in S2, O2. subst st2.
  rewrite bind_unfold.
  rewrite (checked_run _ _ (set_libcuda w1 s) _ _ E2). simpl.
  destruct (law_release h w2) as [S3 O3].
  { rewrite O2, O1. simpl. eauto. }
  destruct (cuMemRelease h w2) as [st3 w3] eqn:E3. simpl in S3, O3. subst st3.
  rewrite (checked_run _ _ (set_libcuda w2 (set_libcuda w1 s)) _ _ E3). simpl.
  eexists. split; [done|]. simpl. by rewrite O3, O2, O1.
Qed.

(** [free] with another size fails at its first step and gives nothing back. *)
Lemma free_mismatch h p sz sz' s :
  mapped (obs (libcuda s)) !! p = Some (sz', h) -> 0 <= p < 2 ^ 64 -> wrap64 sz <> sz' ->
  exists s', free h p sz s = (Raise (mk_exn ExceptionK "cuMemUnmap failed"), s') /\
    obs (libcuda s') = obs (libcuda s).
Proof.
  intros Hm Hp Hne. unfold free. rewrite (wrap64_small p) by done.
  destruct (law_unmap_other p (wrap64 sz) (libcuda s)) as [S1 O1].
  { intros h' E. rewrite Hm in E. congruence. }
  destruct (cuMemUnmap p (wrap64 sz) (libcuda s)) as [st1 w1] eqn:E1. simpl in S1, O1.
  rewrite bind_unfold, (checked_run _ _ _ _ _ E1).
  apply Z.eqb_neq in S1. rewrite S1. simpl. eexists. split; [done|]. done.
Qed.
End granularity.
End observation.

(** ** Properties *)

Section properties.
Context {W : Type} `{CudaApi W} (obs : W -> cuda_obs) `{!CudaLaws W obs}.
Context (g : Z) (Hg : 0 < g).
Context (Hgran : forall p f w, (cuMemGetAllocationGranularity p f w).1 = (0, g)).
Implicit Types (s : CudaAllocator W).

Lemma obs_free_allocate h p sz o :
  live o !! h = None -> reservations o !! p = None -> mapped o !! p = None ->
  obs_set_live (delete h) (obs_set_reservations (delete p)
    (obs_set_mapped (delete p) (obs_allocate h p sz o))) = o.
Proof.
  intros Hl Hr Hm. destruct o as [l r m]. simpl in *.
  unfold obs_allocate, obs_set_live, obs_set_reservations, obs_set_mapped. simpl.
  by rewrite !delete_insert_id.
Qed.

Lemma obs_allocate_allocated h p sz o : allocated (obs_allocate h p sz o) h p sz.
Proof. split; [|split]; simpl; apply lookup_insert_eq. Qed.

(** C15: a successful [allocate_and_export] leaves exactly one new allocation: new
    handle, new address range and mapping, all of the requested size rounded up to
    the least multiple of the granularity that holds it. *)
Theorem allocate_and_export_spec size d s fd h p s' :
  0 <= size -> size + g <= 2 ^ 64 ->
  allocate_and_export size d s = (Ret (fd, h, p), s') ->
  exists sz,
    (sz mod g = 0 /\ size <= sz < size + g /\ (forall k, k mod g = 0 -> size <= k -> sz <= k)) /\
    live (obs (libcuda s)) !! h = None /\
    allocated (obs (libcuda s')) h p sz /\
    obs (libcuda s') = obs_allocate h p sz (obs (libcuda s)).
Proof using CudaLaws0 Hg Hgran.
  intros Hs Hb E. pose proof (allocate_inv obs g Hgran _ _ _ _ _ _ _ E) as (?&?&?&?&?&Ho).
  pose proof (round_up_lt size g Hg). pose proof (round_up_ge size g Hg).
  rewrite wrap64_small in Ho by lia. exists (round_up size g). split_and!; try done.
  - by apply round_up_mod.
  - intros k. by apply round_up_least.
  - rewrite Ho. apply obs_allocate_allocated.
Qed.

(** C14: when the size is a multiple of the granularity, [free] with the handle, the
    pointer and the size of an allocation succeeds and gives everything back. *)
Theorem allocate_free_roundtrip size d s fd h p s' :
  0 <= size < 2 ^ 64 -> size mod g = 0 ->
  allocate_and_export size d s = (Ret (fd, h, p), s') ->
  exists s'', free h p size s' = (Ret tt, s'') /\ obs (libcuda s'') = obs (libcuda s).
Proof using CudaLaws0 Hg Hgran.
  intros Hs Hmod E. pose proof (allocate_inv obs g Hgran _ _ _ _ _ _ _ E) as (?&?&?&?&?&Ho).
  rewrite round_up_id in Ho by done.
  destruct (free_exact obs h p size s') as (s'' & Ef & Hf); [|done..|].
  { rewrite Ho, wrap64_small by done. apply obs_allocate_allocated. }
  exists s''. split; [done|]. rewrite Hf, Ho. by apply obs_free_allocate.
Qed.

(** When the size is not a multiple of the granularity, [free] with the size
    that was asked for, which is what the driver records, raises at cuMemUnmap: the
    allocation stays live, reserved and mapped. *)
Theorem free_unaligned_leaks size d s fd h p s' :
  0 <= size -> size + g <= 2 ^ 64 -> size mod g <> 0 ->
  allocate_and_export size d s = (Ret (fd, h, p), s') ->
  exists s'',
    free h p size s' = (Raise (mk_exn ExceptionK "cuMemUnmap failed"), s'') /\
    allocated (obs (libcuda s'')) h p (round_up size g).
Proof using CudaLaws0 Hg Hgran.
  intros Hs Hb Hmod E. pose proof (allocate_inv obs g Hgran _ _ _ _ _ _ _ E) as (?&?&?&?&?&Ho).
  pose proof (round_up_lt size g Hg). pose proof (round_up_ge size g Hg).
  pose proof (round_up_neq size g Hg Hmod). rewrite (wrap64_small (round_up size g)) in Ho by lia.
  destruct (free_mismatch obs h p size (round_up size g) s') as (s'' & Ef & Hf); [|done|..].
  { rewrite Ho. apply lookup_insert_eq. }
  { rewrite wrap64_small by lia. congruence. }
  exists s''. split; [done|]. rewrite Hf, Ho. apply obs_allocate_allocated.
Qed.

(** When cuMemMap fails, [allocate_and_export] raises and the physical allocation
    it created is neither released nor returned to the caller. *)
Theorem allocate_map_failure_leaks size d s s' :
  allocate_and_export size d s = (Raise (mk_exn ExceptionK "cuMemMap failed"), s') ->
  exists h p,
    live (obs (libcuda s)) !! h = None /\
    live (obs (libcuda s')) !! h = Some (wrap64 (round_up size g)) /\
    reservations (obs (libcuda s')) !! p = Some (wrap64 (round_up size g)) /\
    mapped (obs (libcuda s')) = mapped (obs (libcuda s)).
Proof using CudaLaws0 Hgran.
  intros E. unfold allocate_and_export in E.
  apply bind_raise_inv in E as [E|(r & s0 & E0 & E)]; [by apply prepare_raise in E|].
  apply (prepare_inv obs g Hgran) in E0 as [Hsz Ho]. unfold allocate_commit in E.
  rewrite Hsz in E.
  apply bind_raise_inv in E as [E|(h & s1 & E1 & E)].
  { by apply checked_out_raise in E as (?&?&?&_&_&_&[=]). }
  apply bind_raise_inv in E as [E|(fd & s2 & E2 & E)].
  { by apply checked_out_raise in E as (?&?&?&_&_&_&[=]). }
  apply bind_raise_inv in E as [E|(p & s3 & E3 & E)].
  { by apply checked_out_raise in E as (?&?&?&_&_&_&[=]). }
  destruct (commit_reserved obs _ _ _ _ _ _ _ _ _ E1 E2 E3) as (_&_&Hl&_&_&Hw).
  apply bind_raise_inv in E as [E|(u & s4 & E4 & E)].
  - apply checked_raise in E as (st & w & Em & Hst & -> & _). apply law_map in Em.
    apply Z.eqb_neq in Hst. rewrite Hst in Em. simpl. rewrite Em, Hw, Ho in *. simpl.
    exists h, p. by rewrite !lookup_insert_eq.
  - apply bind_raise_inv in E as [E|(u' & s5 & E5 & E)]; [|done].
    by apply checked_raise in E as (?&?&_&_&_&[=]).
Qed.
End properties.

(** ** Witnesses, on the simulated driver *)

Definition MiB : Z := 1024 * 1024.

Definition demo_allocator (w : Sim.sim) : CudaAllocator Sim.sim := mk_CudaAllocator ∅ ∅ w.

Definition demo_run (w : Sim.sim) (size : Z) : outcome (Z * Z * Z) * CudaAllocator Sim.sim :=
  allocate_and_export size 0 (demo_allocator w).

Lemma sim_granularity p f (w : Sim.sim) :
  (cuMemGetAllocationGranularity p f w).1 = (0, Sim.granule).
Proof. done. Qed.

Lemma allocate_and_export_spec_witness :
  exists sz,
    (sz mod Sim.granule = 0 /\ 3 * MiB <= sz < 3 * MiB + Sim.granule /\
     (forall k, k mod Sim.granule = 0 -> 3 * MiB <= k -> sz <= k)) /\
    live (Sim.sim_obs (Sim.machine 1)) !! 0 = None /\
    allocated (Sim.sim_obs (libcuda (demo_run (Sim.machine 1) (3 * MiB)).2)) 0 (2 ^ 40) sz /\
    Sim.sim_obs (libcuda (demo_run (Sim.machine 1) (3 * MiB)).2) =
      obs_allocate 0 (2 ^ 40) sz (Sim.sim_obs (Sim.machine 1)).
Proof.
  apply (allocate_and_export_spec Sim.sim_obs Sim.granule ltac:(done) sim_granularity
           (3 * MiB) 0 (demo_allocator (Sim.machine 1)) 3 0 (2 ^ 40)).
  - done.
  - done.
  - vm_compute. reflexivity.
Defined.

Lemma allocate_free_roundtrip_witness :
  exists s'', free 0 (2 ^ 40) (4 * MiB) (demo_run (Sim.machine 1) (4 * MiB)).2 = (Ret tt, s'') /\
    Sim.sim_obs (libcuda s'') = Sim.sim_obs (Sim.machine 1).
Proof.
  apply (allocate_free_roundtrip Sim.sim_obs Sim.granule ltac:(done) sim_granularity
           (4 * MiB) 0 (demo_allocator (Sim.machine 1)) 3 0 (2 ^ 40)).
  - done.
  - done.
  - vm_compute. reflexivity.
Defined.

Lemma free_unaligned_leaks_witness :
  exists s'',
    free 0 (2 ^ 40) (3 * MiB) (demo_run (Sim.machine 1) (3 * MiB)).2 =
      (Raise (mk_exn ExceptionK "cuMemUnmap failed"), s'') /\
    allocated (Sim.sim_obs (libcuda s'')) 0 (2 ^ 40) (round_up (3 * MiB) Sim.granule).
Proof.
  apply (free_unaligned_leaks Sim.sim_obs Sim.granule ltac:(done) sim_granularity
           (3 * MiB) 0 (demo_allocator (Sim.machine 1)) 3 0 (2 ^ 40)).
  - done.
  - done.
  - done.
  - vm_compute. reflexivity.
Defined.

Lemma allocate_map_failure_leaks_witness :
  exists h p,
    live (Sim.sim_obs Sim.broken_machine) !! h = None /\
    live (Sim.sim_obs (libcuda (demo_run Sim.broken_machine (3 * MiB)).2)) !! h =
      Some (wrap64 (round_up (3 * MiB) Sim.granule)) /\
    reservations (Sim.sim_obs (libcuda (demo_run Sim.broken_machine (3 * MiB)).2)) !! p =
      Some (wrap64 (round_up (3 * MiB) Sim.granule)) /\
    mapped (Sim.sim_obs (libcuda (demo_run Sim.broken_machine (3 * MiB)).2)) =
      mapped (Sim.sim_obs Sim.broken_machine).
Proof.
  apply (allocate_map_failure_leaks Sim.sim_obs Sim.granule sim_granularity
           (3 * MiB) 0 (demo_allocator Sim.broken_machine)).
  vm_compute. reflexivity.
Defined.
