(* ===== verification/NodeState.v ===== *)
(** * State of the node driver (driver/main.py)

    The module-level dictionaries, the allocator, the sockets and the files that the
    handlers share, and the interfaces of what is not part of the program: the gRPC
    context of a request ([GrpcContext]) and the machine the driver runs on ([Env]).
    Handlers are [py] programs over this state. A property that says nothing of the
    allocator, of the request's context, of the sockets or of the files declares it with an
    instance of [AllocatorFrame], [ContextFrame], [ConnsFrame] or [FilesFrame]; the
    primitives then keep it. *)

From S2P Require Import Prelude PyMonad PyText PyDict Cuda Allocator.

Definition SOCKET_DIR : string := "/run/wpi/sockets".

(** Its parent directories below the root, by repeated [os.path.split]. *)
Definition SOCKET_DIR_PARENTS : list string := ["/run/wpi"; "/run"].

(** ** Names *)

(** [os.path.join(a, b)]. *)
Definition os_path_join (a b : string) : string :=
  if startswith "/" b then b
  else if bool_decide (a = "") then b
  else if bool_decide (last (String.list_ascii_of_string a) = Some "/"%char) then a +:+ b
  else a +:+ "/" +:+ b.

(** [f"{buffer_id}__shard_{shard_index}"]. *)
Definition shard_id (buffer_id : string) (shard_index : Z) : string :=
  buffer_id +:+ "__shard_" +:+ str_of_Z shard_index.

Definition is_sharded (shard_index total_shards : Z) : bool :=
  (0 <=? shard_index) && (0 <? total_shards).

(** The id under which the driver tracks a staged buffer. *)
Definition effective_buffer_id (buffer_id : string) (shard_index total_shards : Z) : string :=
  if is_sharded shard_index total_shards then shard_id buffer_id shard_index else buffer_id.

(** The key of the copy of a buffer on another GPU. *)
Definition relocate_key (buffer_id : string) (gpu : Z) : string :=
  buffer_id +:+ "_gpu" +:+ str_of_Z gpu.

Definition fd_sock_path (buffer_id : string) : string :=
  os_path_join SOCKET_DIR (buffer_id +:+ ".sock").

Definition notify_sock_path_of (buffer_id : string) : string :=
  os_path_join SOCKET_DIR (buffer_id +:+ "_notify.sock").

(** ** Entries of ALLOCATED_BUFFERS *)

(** An entry is a dict. Two sites build one: staging fills every key, relocation
    only the first six; the others are optional here. *)
Record BufferInfo : Type := mk_BufferInfo {
  bi_device_ptr : Z;
  bi_size_bytes : Z;
  bi_handle : Z;
  bi_fd : Z;
  bi_gpu_id : Z;
  bi_notify_sockets : list nat;
  bi_ref_count : option Z;
  bi_source_path : option string;
  bi_shard_index : option Z;
  bi_total_shards : option Z;
  bi_parent_buffer : option string;
  bi_notify_sock_path : option string
}.

Definition set_notify_sockets (l : list nat) (b : BufferInfo) : BufferInfo :=
  mk_BufferInfo (bi_device_ptr b) (bi_size_bytes b) (bi_handle b) (bi_fd b) (bi_gpu_id b) l
    (bi_ref_count b) (bi_source_path b) (bi_shard_index b) (bi_total_shards b)
    (bi_parent_buffer b) (bi_notify_sock_path b).

Definition set_ref_count (n : Z) (b : BufferInfo) : BufferInfo :=
  mk_BufferInfo (bi_device_ptr b) (bi_size_bytes b) (bi_handle b) (bi_fd b) (bi_gpu_id b)
    (bi_notify_sockets b) (Some n) (bi_source_path b) (bi_shard_index b) (bi_total_shards b)
    (bi_parent_buffer b) (bi_notify_sock_path b).

Definition set_notify_sock_path (p : string) (b : BufferInfo) : BufferInfo :=
  mk_BufferInfo (bi_device_ptr b) (bi_size_bytes b) (bi_handle b) (bi_fd b) (bi_gpu_id b)
    (bi_notify_sockets b) (bi_ref_count b) (bi_source_path b) (bi_shard_index b)
    (bi_total_shards b) (bi_parent_buffer b) (Some p).

(** ** Stream sockets *)

(** One end of a stream socket: the chunks that the peer sent and that are not read
    yet, whether the peer has shut its side down, how many bytes can still be sent before
    its buffer is full ([None] when the peer is gone), what was sent so far, the file
    descriptors passed along, and whether it was closed here. *)
Record Conn : Type := mk_Conn {
  inbox : list string;
  eof : bool;
  room : option Z;
  outbox : string;
  passed_fds : list Z;
  closed : bool
}.

(** [recv(n)] on the queue of a socket: at most [n] bytes of the first chunk, the
    empty string at end of file, no answer while the peer is silent. *)
Definition conn_recv (n : nat) (c : Conn) : outcome string * Conn :=
  match inbox c with
  | chunk :: rest =>
      (Ret (str_take n chunk),
       mk_Conn (if bool_decide (String.length chunk <= n)%nat then rest
                else str_drop n chunk :: rest)
         (eof c) (room c) (outbox c) (passed_fds c) (closed c))
  | [] => (if eof c then Ret "" else Stuck, c)
  end.

(** The number of bytes of a text. *)
Definition blen (b : string) : Z := Z.of_nat (String.length b).

(** What is left of the peer's buffer after [b]. *)
Definition spend (b : string) (c : Conn) : option Z := (fun n => n - blen b) <$> room c.

(** [b] can be sent without waiting for the peer to read. *)
Definition has_room (b : string) (c : Conn) : bool :=
  match room c with Some n => blen b <=? n | None => true end.

(** [sendall(b)], and [sendmsg] with descriptors: when the buffer of the peer is full, the
    call waits for the peer to read. *)
Definition conn_send (b : string) (fds : list Z) (c : Conn) : outcome unit * Conn :=
  if closed c then (Raise (mk_exn OSError "[Errno 9] Bad file descriptor"), c)
  else
    match room c with
    | None => (Raise (mk_exn OSError "[Errno 32] Broken pipe"), c)
    | Some n =>
        if blen b <=? n then
          (Ret tt, mk_Conn (inbox c) (eof c) (Some (n - blen b)) (outbox c +:+ b) (passed_fds c ++ fds)
             (closed c))
        else
          (Stuck, mk_Conn (inbox c) (eof c) (Some 0) (outbox c +:+ str_take (Z.to_nat n) b)
             (passed_fds c ++ (if 0 <? n then fds else [])) (closed c))
    end.

(** A send finds the peer. *)
Definition conn_alive (c : Conn) : bool := bool_decide (is_Some (room c)) && negb (closed c).

(** The socket after a send. *)
Definition sent_on (b : string) (fds : list Z) (c : Conn) : Conn :=
  mk_Conn (inbox c) (eof c) (spend b c) (outbox c +:+ b) (passed_fds c ++ fds) (closed c).

Definition send_error (c : Conn) : string :=
  if closed c then "[Errno 9] Bad file descriptor" else "[Errno 32] Broken pipe".

Lemma conn_send_run b fds c :
  has_room b c = true ->
  conn_send b fds c =
    if conn_alive c then (Ret tt, sent_on b fds c) else (Raise (mk_exn OSError (send_error c)), c).
Proof.
  unfold has_room, conn_send, conn_alive, sent_on, send_error, spend. destruct (room c) as [n|], (closed c); simpl; try done.
  by intros ->.
Qed.

Definition conn_close (c : Conn) : Conn :=
  mk_Conn (inbox c) (eof c) (room c) (outbox c) (passed_fds c) true.

(** ** Threads, transfers *)

Inductive server_thread : Type :=
  | PassFdServer (sock_path buffer_id : string)
  | NotifyServer (sock_path buffer_id : string)
  | NcclTargetServer
  | TargetConnection (conn : nat).

(** Calls on an NCCL communicator: device address, number of float16 elements, and
    the rank of the peer or of the root. *)
Inductive nccl_op : Type :=
  | NcclInit (world_size : Z) (nccl_id : string) (rank : Z)
  | NcclBcast (ptr count root : Z)
  | NcclSend (ptr count peer : Z)
  | NcclRecv (ptr count peer : Z).

#[global] Instance nccl_op_eq_dec : EqDecision nccl_op.
Proof. solve_decision. Defined.

(** ** gRPC *)

Inductive status_code : Type :=
  | INVALID_ARGUMENT | NOT_FOUND | UNIMPLEMENTED | INTERNAL | UNAVAILABLE | UNKNOWN.

#[global] Instance status_code_eq_dec : EqDecision status_code.
Proof. solve_decision. Defined.

(** [context.abort(code, details)] always raises; what it leaves in the context is
    the status of the call. [context.set_code] and [context.set_details] set the status
    and return. *)
Class GrpcContext (C : Type) : Type := {
  ctx_abort : status_code -> string -> C -> exn * C;
  ctx_set_code : status_code -> C -> C;
  ctx_set_details : string -> C -> C;
  ctx_status : C -> option (status_code * string);
  ctx_new : C
}.

Class GrpcLaws (C : Type) `{GrpcContext C} : Prop := {
  law_abort_status code details c : ctx_status (ctx_abort code details c).2 = Some (code, details);
  law_abort_message code details c : exn_str (ctx_abort code details c).1 = "";
  law_set_status code details c :
    ctx_status (ctx_set_details details (ctx_set_code code c)) = Some (code, details);
  law_new_status : ctx_status ctx_new = None
}.

(** What a client of the call observes. *)
Inductive rpc_result (A : Type) : Type :=
  | RpcOk (a : A)
  | RpcFailed (code : status_code) (details : string)
  | RpcPending.
Arguments RpcOk {A}.
Arguments RpcFailed {A}.
Arguments RpcPending {A}.

(** ** The machine *)

(** A host tensor: its element count, and the host memory from [data_ptr()] on, of
    which the first [numel * itemsize] bytes are the tensor. *)
Record HostTensor : Type := { numel : Z; itemsize : Z; host_bytes : Z -> Z }.

(** Calls on the file system. *)
Inductive fs_call : Type := FsMkdir | FsChmod | FsRemove | FsBind.

Record Env : Type := {
  CUPY_AVAILABLE : bool;
  (** [cupy.cuda.runtime.getDeviceCount()]; [None] when the call raises. *)
  getDeviceCount : option Z;
  (** The exception that a call on a path raises, if it does: [mkdir], [os.chmod],
      [os.remove], [bind]. *)
  fs_error : fs_call -> string -> option exn;
  (** [os.path.exists] on source paths. *)
  source_exists : string -> bool;
  (** The tensors of a safetensors file, in the order of [f.keys()]; [None] when the
      libraries are missing or the file cannot be read. *)
  safe_open : string -> option (list (string * HostTensor));
  (** A copy to the given device range succeeds. *)
  memcpy_ok : Z -> Z -> bool;
  (** An NCCL call completes; [None] means that it does, [Some msg] that it raises. *)
  nccl_result : nccl_op -> option string;
  (** [cupy.cuda.nccl.get_unique_id()]. *)
  nccl_unique_id : string
}.

(** ** The driver state *)

Record Driver (W C : Type) : Type := mk_Driver {
  ALLOCATED_BUFFERS : dict BufferInfo;
  KNOWN_CLAIMS : gmap string string;
  cuda_allocator : option (CudaAllocator W);
  files : gset string;
  threads : list server_thread;
  conns : gmap nat Conn;
  closed_fds : list Z;
  nccl_log : list nccl_op;
  rpc_context : C
}.
Arguments mk_Driver {W C}.
Arguments ALLOCATED_BUFFERS {W C}.
Arguments KNOWN_CLAIMS {W C}.
Arguments cuda_allocator {W C}.
Arguments files {W C}.
Arguments threads {W C}.
Arguments conns {W C}.
Arguments closed_fds {W C}.
Arguments nccl_log {W C}.
Arguments rpc_context {W C}.

Section driver.
Context {W C : Type} `{CudaApi W} `{GrpcContext C}.
#[local] Abbreviation state := (Driver W C).

Definition set_buffers (f : dict BufferInfo -> dict BufferInfo) (s : state) : state :=
  mk_Driver (f (ALLOCATED_BUFFERS s)) (KNOWN_CLAIMS s) (cuda_allocator s) (files s) (threads s)
    (conns s) (closed_fds s) (nccl_log s) (rpc_context s).

Definition set_claims (f : gmap string string -> gmap string string) (s : state) : state :=
  mk_Driver (ALLOCATED_BUFFERS s) (f (KNOWN_CLAIMS s)) (cuda_allocator s) (files s) (threads s)
    (conns s) (closed_fds s) (nccl_log s) (rpc_context s).

Definition set_allocator (a : option (CudaAllocator W)) (s : state) : state :=
  mk_Driver (ALLOCATED_BUFFERS s) (KNOWN_CLAIMS s) a (files s) (threads s)
    (conns s) (closed_fds s) (nccl_log s) (rpc_context s).

Definition set_files (f : gset string -> gset string) (s : state) : state :=
  mk_Driver (ALLOCATED_BUFFERS s) (KNOWN_CLAIMS s) (cuda_allocator s) (f (files s)) (threads s)
    (conns s) (closed_fds s) (nccl_log s) (rpc_context s).

Definition add_thread (t : server_thread) (s : state) : state :=
  mk_Driver (ALLOCATED_BUFFERS s) (KNOWN_CLAIMS s) (cuda_allocator s) (files s) (threads s ++ [t])
    (conns s) (closed_fds s) (nccl_log s) (rpc_context s).

Definition set_conns (f : gmap nat Conn -> gmap nat Conn) (s : state) : state :=
  mk_Driver (ALLOCATED_BUFFERS s) (KNOWN_CLAIMS s) (cuda_allocator s) (files s) (threads s)
    (f (conns s)) (closed_fds s) (nccl_log s) (rpc_context s).

Definition add_closed_fd (fd : Z) (s : state) : state :=
  mk_Driver (ALLOCATED_BUFFERS s) (KNOWN_CLAIMS s) (cuda_allocator s) (files s) (threads s)
    (conns s) (closed_fds s ++ [fd]) (nccl_log s) (rpc_context s).

Definition add_nccl (op : nccl_op) (s : state) : state :=
  mk_Driver (ALLOCATED_BUFFERS s) (KNOWN_CLAIMS s) (cuda_allocator s) (files s) (threads s)
    (conns s) (closed_fds s) (nccl_log s ++ [op]) (rpc_context s).

Definition set_context (c : C) (s : state) : state :=
  mk_Driver (ALLOCATED_BUFFERS s) (KNOWN_CLAIMS s) (cuda_allocator s) (files s) (threads s)
    (conns s) (closed_fds s) (nccl_log s) c.

(** *** Elementary statements *)

(** [ALLOCATED_BUFFERS[k]]. *)
Definition get_buffer (k : string) : py state BufferInfo :=
  o ← py_get (fun s => dict_get k (ALLOCATED_BUFFERS s)) ;
  py_some o KeyError ("'" +:+ k +:+ "'").

(** [k in ALLOCATED_BUFFERS]. *)
Definition buffer_known (k : string) : py state bool :=
  py_get (fun s => dict_mem k (ALLOCATED_BUFFERS s)).

Definition put_buffer (k : string) (b : BufferInfo) : py state unit :=
  py_modify (set_buffers (dict_set k b)).

(** A method of [cuda_allocator]; the attribute access fails when it is [None]. *)
Definition with_allocator {A} (m : py (CudaAllocator W) A) : py state A := fun s =>
  match cuda_allocator s with
  | Some a => let '(r, a') := m a in (r, set_allocator (Some a') s)
  | None => (Raise (mk_exn AttributeError "'NoneType' object has no attribute"), s)
  end.

(** [context.abort(code, details)]. *)
Definition abort {A} (code : status_code) (details : string) : py state A := fun s =>
  let '(e, c) := ctx_abort code details (rpc_context s) in (Raise e, set_context c s).

(** [context.set_code(code)] and [context.set_details(details)]. *)
Definition set_code (code : status_code) : py state unit :=
  py_modify (fun s => set_context (ctx_set_code code (rpc_context s)) s).

Definition set_details (details : string) : py state unit :=
  py_modify (fun s => set_context (ctx_set_details details (rpc_context s)) s).

(** An operation on socket [i]; a number without a socket is not reachable. *)
Definition on_conn {A} (i : nat) (f : Conn -> outcome A * Conn) : py state A := fun s =>
  match conns s !! i with
  | Some c => let '(r, c') := f c in (r, set_conns (<[i := c']>) s)
  | None => (Raise (mk_exn OSError "[Errno 9] Bad file descriptor"), s)
  end.

Definition sock_recv (i n : nat) : py state string := on_conn i (conn_recv n).
Definition sock_sendall (i : nat) (b : string) : py state unit := on_conn i (conn_send b []).
Definition sock_sendmsg (i : nat) (b : string) (fds : list Z) : py state unit :=
  on_conn i (conn_send b fds).
Definition sock_close (i : nat) : py state unit :=
  py_modify (set_conns (alter conn_close i)).

(** A call on the file system, which changes the files unless it raises. *)
Definition fs_do (env : Env) (k : fs_call) (path : string) (f : gset string -> gset string) : py state unit :=
  match fs_error env k path with
  | Some e => py_reraise e
  | None => py_modify (set_files f)
  end.

(** One request: a fresh context, the handler, and the status the client gets. *)
Definition rpc {A} (handler : py state A) (s : state) : rpc_result A * state :=
  match handler (set_context ctx_new s) with
  | (Ret a, s') =>
      (match ctx_status (rpc_context s') with
       | None => RpcOk a
       | Some (code, details) => RpcFailed code details
       end, s')
  | (Raise e, s') =>
      (match ctx_status (rpc_context s') with
       | Some (code, details) => RpcFailed code details
       | None => RpcFailed UNKNOWN ("Exception calling application: " +:+ exn_str e)
       end, s')
  | (Stuck, s') => (RpcPending, s')
  end.
End driver.

(** ** Concrete context *)

(** The context of grpc: the last status set; [abort] raises [Exception()]. *)
#[global] Instance plain_context : GrpcContext (option (status_code * string)) := {
  ctx_abort code details _ := (mk_exn ExceptionK "", Some (code, details));
  ctx_set_code code c := Some (code, default "" (snd <$> c));
  ctx_set_details details c := (fun st => (st.1, details)) <$> c;
  ctx_status c := c;
  ctx_new := None
}.

#[global] Instance plain_context_laws : GrpcLaws (option (status_code * string)).
Proof. by split. Qed.

(** ** Lemmas: properties that do not look at a part of the state *)

Section insensitive.
Context {W C : Type} `{CudaApi W} `{GrpcContext C}.
#[local] Abbreviation state := (Driver W C).

(** [I] says nothing of the allocator, of the context of the request, of the sockets, of
    the files. *)
Class AllocatorFrame (I : state -> Prop) : Prop := allocator_frame o s : I s -> I (set_allocator o s).
Class ContextFrame (I : state -> Prop) : Prop := context_frame c s : I s -> I (set_context c s).
Class ConnsFrame (I : state -> Prop) : Prop := conns_frame f s : I s -> I (set_conns f s).
Class FilesFrame (I : state -> Prop) : Prop := files_frame f s : I s -> I (set_files f s).

Lemma preserves_with_allocator I `{!AllocatorFrame I} {A} (m : py (CudaAllocator W) A) :
  preserves I (with_allocator m).
Proof.
  intros s Hs. unfold with_allocator. destruct (cuda_allocator s) as [a|]; [|done].
  destruct (m a). by apply allocator_frame.
Qed.

Lemma preserves_abort I `{!ContextFrame I} {A} code details :
  preserves I (abort (A:=A) code details).
Proof. intros s Hs. unfold abort. destruct (ctx_abort _ _ _). by apply context_frame. Qed.

Lemma preserves_on_conn I `{!ConnsFrame I} {A} i (f : Conn -> outcome A * Conn) :
  preserves I (on_conn i f).
Proof.
  intros s Hs. unfold on_conn. destruct (conns s !! i) as [c|]; [|done]. destruct (f c).
  by apply conns_frame.
Qed.

Lemma preserves_sock_close I `{!ConnsFrame I} i : preserves I (sock_close i).
Proof. apply preserves_modify. intros s. apply conns_frame. Qed.

(** [os.mkdir], [os.chmod], [os.remove] and [bind] fail or change the files. *)
Lemma preserves_fs I `{!FilesFrame I} (env : Env) k p f :
  preserves I (fs_do env k p f).
Proof.
  unfold fs_do. destruct (fs_error env k p); [apply preserves_reraise|]. apply preserves_modify. intros s. apply files_frame.
Qed.

Lemma preserves_rpc I `{!ContextFrame I} {A} (m : py state A) s :
  preserves I m -> I s -> I (rpc m s).2.
Proof.
  intros Hm Hs. unfold rpc. specialize (Hm (set_context ctx_new s) (context_frame _ _ Hs)).
  destruct (m _) as [[a|e|] s']; simpl in *; [by destruct (ctx_status (rpc_context s')) as [[]|]..|done].
Qed.
End insensitive.

#[export] Hint Extern 1 (preserves _ (with_allocator _)) => apply preserves_with_allocator; exact _ : wpi.
#[export] Hint Extern 1 (preserves _ (abort _ _)) => apply preserves_abort; exact _ : wpi.
#[export] Hint Extern 1 (preserves _ (on_conn _ _)) => apply preserves_on_conn; exact _ : wpi.
#[export] Hint Extern 1 (preserves _ (fs_do _ _ _ _)) => apply preserves_fs; exact _ : wpi.
#[export] Hint Extern 1 (preserves _ (sock_close _)) => apply preserves_sock_close; exact _ : wpi.

(** ** Lemmas: code that leaves the context of the request alone *)

Section context.
Context {W C : Type} `{CudaApi W} `{GrpcContext C} `{!GrpcLaws C}.
#[local] Abbreviation state := (Driver W C).

(** No status was set yet. *)
Definition no_status (s : state) : Prop := ctx_status (rpc_context s) = None.

#[export] Instance no_status_allocator : AllocatorFrame no_status.
Proof. by intros o s. Qed.

Lemma keeps_get_buffer (I : state -> Prop) k : keeps I (get_buffer k).
Proof. unfold get_buffer. keeps_tac. Qed.

Lemma keeps_put_buffer k b : keeps no_status (put_buffer k b).
Proof. by apply keeps_modify. Qed.

Lemma keeps_fs env k p f : keeps no_status (fs_do (W:=W) env k p f).
Proof. intros s Hs. unfold fs_do. by destruct (fs_error env k p). Qed.

Lemma keeps_with_allocator {A} (m : py (CudaAllocator W) A) :
  keeps (fun _ => True) m -> keeps no_status (with_allocator m).
Proof.
  intros Hm s Hs. unfold with_allocator. destruct (cuda_allocator s) as [a|]; [|done].
  specialize (Hm a I). destruct (m a) as [[x|e|] a']; done.
Qed.

Lemma raises_abort {A} code details : raises (abort (W:=W) (A:=A) code details).
Proof. intros s. unfold abort. destruct (ctx_abort _ _ _). eauto. Qed.

Lemma keeps_abort {A} (I : state -> Prop) code details : keeps I (abort (A:=A) code details).
Proof. apply raises_keeps, raises_abort. Qed.

(** A handler of the shape [try: body except Exception as e: context.abort(INTERNAL,
    str(e))] replies OK or INTERNAL, whatever the status its body aborted with. *)
Lemma rpc_internal_only {A} (body : py state A) s :
  keeps no_status body ->
  (exists a, (rpc (py_except body is_Exception (fun e => abort INTERNAL (exn_str e))) s).1 = RpcOk a) \/
  (exists details,
    (rpc (py_except body is_Exception (fun e => abort INTERNAL (exn_str e))) s).1 =
      RpcFailed INTERNAL details).
Proof.
  intros Hk. specialize (Hk (set_context ctx_new s)).
  unfold rpc, py_except, is_Exception, no_status in *. simpl in Hk.
  specialize (Hk law_new_status).
  destruct (body (set_context ctx_new s)) as [[a|e|] s1]; [rewrite Hk; eauto| |done].
  unfold abort. pose proof (law_abort_status INTERNAL (exn_str e) (rpc_context s1)) as Hl.
  destruct (ctx_abort _ _ _) as [e' c']. simpl in *. rewrite Hl. eauto.
Qed.
End context.

#[export] Hint Resolve keeps_get_buffer keeps_put_buffer keeps_with_allocator keeps_fs
  keeps_abort raises_abort : wpi.
