(* ===== verification/Stage.v ===== *)
(** * NodeStageWeight (driver/main.py)

    Staging registers the claim, then either counts one more reference of a buffer
    that is already staged or allocates VRAM, records it, loads a safetensors file
    into it when a source path is given, and starts the two socket servers. *)

From S2P Require Import Prelude PyMonad PyText PyDict Cuda Allocator NodeState.

Record NodeStageWeightRequest : Type := {
  st_claim_id : string;
  st_buffer_id : string;
  st_source_path : string;
  st_size_bytes : Z;
  st_shard_index : Z;
  st_total_shards : Z
}.

(** The fallback size when the operator gave none. *)
Definition DEFAULT_SIZE : Z := 10 * 1024 * 1024 * 1024.

Definition weight_size_bytes (size_bytes : Z) : Z :=
  if size_bytes =? 0 then DEFAULT_SIZE else size_bytes.

(** The GPU a shard goes to: round robin, 0 when the count is not available. *)
Definition stage_gpu_id (env : Env) (sharded : bool) (shard_index : Z) : Z :=
  if sharded then
    match getDeviceCount env with
    | Some num_gpus => if num_gpus =? 0 then 0 else shard_index mod num_gpus
    | None => 0
    end
  else 0.

Definition stage_effective_id (request : NodeStageWeightRequest) : string :=
  effective_buffer_id (st_buffer_id request) (st_shard_index request) (st_total_shards request).

Definition stage_sharded (request : NodeStageWeightRequest) : bool :=
  is_sharded (st_shard_index request) (st_total_shards request).

(** The entry of a newly staged buffer. *)
Definition staged_entry (request : NodeStageWeightRequest) (size gpu_id fd handle device_ptr : Z)
    : BufferInfo :=
  let sharded := stage_sharded request in
  {| bi_device_ptr := device_ptr;
     bi_size_bytes := size;
     bi_source_path := Some (st_source_path request);
     bi_handle := handle;
     bi_fd := fd;
     bi_notify_sockets := [];
     bi_ref_count := Some 1;
     bi_gpu_id := gpu_id;
     bi_shard_index := Some (if sharded then st_shard_index request else -1);
     bi_total_shards := Some (if sharded then st_total_shards request else 0);
     bi_parent_buffer := Some (st_buffer_id request);
     bi_notify_sock_path := None |}.

(** The host memory that a copy of [n] bytes reads. *)
Definition host_read (t : HostTensor) (n : nat) : list Z :=
  (fun i : nat => host_bytes t (Z.of_nat i)) <$> seq 0 n.

Section stage.
Context {W C : Type} `{CudaApi W} `{GrpcContext C} (env : Env).
#[local] Abbreviation state := (Driver W C).

(** [os.makedirs(path, exist_ok=True)]: the missing parents first. *)
Fixpoint os_makedirs (path : string) (parents : list string) : py state unit :=
  match parents with
  | [] => mret tt
  | head :: parents' =>
      exists_ ← py_get (fun s => bool_decide (head ∈ files s)) ;
      py_when (negb exists_) (os_makedirs head parents')
  end ;;
  fs_do env FsMkdir path (fun fs => {[path]} ∪ fs).

(** [if not os.path.exists(SOCKET_DIR): os.makedirs(...)], then [os.chmod]. *)
Definition prepare_socket_dir : py state unit :=
  exists_ ← py_get (fun s => bool_decide (SOCKET_DIR ∈ files s)) ;
  py_when (negb exists_) (os_makedirs SOCKET_DIR SOCKET_DIR_PARENTS) ;;
  fs_do env FsChmod SOCKET_DIR id.

(** The context of the GPU made current, then the allocation. *)
Definition stage_allocate (size gpu_id : Z) : py (CudaAllocator W) (Z * Z * Z) :=
  gpu_ctx ← get_or_create_context gpu_id ;
  _ ← cuda_call (cuCtxSetCurrent gpu_ctx) ;
  allocate_and_export size gpu_id.

(** [cupy.cuda.runtime.memcpy(dst, src, n, HostToDevice)]. *)
Definition memcpy_host_to_device (dst : Z) (t : HostTensor) (n : Z) : py state unit :=
  if memcpy_ok env dst n then
    with_allocator (py_modify (fun a =>
      let w := libcuda a in
      set_libcuda (cuda_set_memory (vram_write dst (host_read t (Z.to_nat n)) (cuda_memory w)) w) a))
  else py_raise ExceptionK "cudaErrorInvalidValue: invalid argument".

(** The loop over the tensors of the file; [offset] counts elements of 2 bytes. *)
Definition load_tensors (device_ptr : Z) (tensors : list (string * HostTensor)) : py state unit :=
  _ ← py_fold tensors 0 (fun offset kt =>
        let elements := numel kt.2 in
        memcpy_host_to_device (device_ptr + offset * 2) kt.2 (elements * 2) ;;
        mret (offset + elements)) ;
  mret tt.

(** The [if source_path:] block. *)
Definition load_source (source_path : string) (device_ptr : Z) : py state unit :=
  if bool_decide (source_path = "") then mret tt
  else if source_exists env source_path then
    py_except
      (py_when (negb (CUPY_AVAILABLE env)) (py_raise NameError "name 'cupy' is not defined") ;;
       tensors ← py_some (safe_open env source_path) ExceptionK "cannot open safetensors file" ;
       load_tensors device_ptr tensors)
      is_Exception
      (fun e => abort INTERNAL ("Failed to load safetensors: " +:+ exn_str e))
  else abort NOT_FOUND ("Source path " +:+ source_path +:+ " specified but does not exist!").

(** The FD server thread, the notify path in the entry, the notify server thread. *)
Definition start_servers (id : string) : py state unit :=
  py_modify (add_thread (PassFdServer (fd_sock_path id) id)) ;;
  b ← get_buffer id ;
  put_buffer id (set_notify_sock_path (notify_sock_path_of id) b) ;;
  py_modify (add_thread (NotifyServer (notify_sock_path_of id) id)).

(** [ALLOCATED_BUFFERS[id]["ref_count"] += 1]. *)
Definition add_reference (id : string) : py state unit :=
  b ← get_buffer id ;
  n ← py_some (bi_ref_count b) KeyError "'ref_count'" ;
  put_buffer id (set_ref_count (n + 1) b).

(** The [try] block for a buffer that is not staged yet. *)
Definition stage_new (request : NodeStageWeightRequest) : py state unit :=
  let id := stage_effective_id request in
  prepare_socket_dir ;;
  let size := weight_size_bytes (st_size_bytes request) in
  allocator ← py_get cuda_allocator ;
  match allocator with
  | None => abort UNAVAILABLE "CUDA allocator failed to initialize. Cannot allocate VRAM."
  | Some _ =>
      let gpu_id := stage_gpu_id env (stage_sharded request) (st_shard_index request) in
      r ← with_allocator (stage_allocate size gpu_id) ;
      let '(fd, handle, device_ptr) := r in
      put_buffer id (staged_entry request size gpu_id fd handle device_ptr) ;;
      load_source (st_source_path request) device_ptr ;;
      start_servers id
  end.

Definition stage_body (request : NodeStageWeightRequest) : py state unit :=
  let id := stage_effective_id request in
  py_modify (set_claims (<[st_claim_id request := id]>)) ;;
  staged ← buffer_known id ;
  if (staged : bool) then add_reference id else stage_new request.

Definition NodeStageWeight (request : NodeStageWeightRequest) : py state unit :=
  try: stage_body request except: is_Exception as e => abort INTERNAL (exn_str e).
End stage.

(** ** Lemmas: steps *)

Section lemmas.
Context {W C : Type} `{CudaApi W} `{GrpcContext C} `{!GrpcLaws C} (env : Env).
Implicit Types (s : Driver W C) (request : NodeStageWeightRequest).

Lemma buffer_known_run id s :
  buffer_known id s = (Ret (dict_mem id (ALLOCATED_BUFFERS s)), s).
Proof. done. Qed.

Lemma get_buffer_run id b s :
  dict_get id (ALLOCATED_BUFFERS s) = Some b -> get_buffer id s = (Ret b, s).
Proof. intros E. unfold get_buffer. rewrite bind_unfold. simpl. by rewrite E. Qed.

Lemma abort_run {A} code details s :
  abort (A:=A) code details s =
    (Raise (ctx_abort code details (rpc_context s)).1,
     set_context (ctx_abort code details (rpc_context s)).2 s).
Proof. unfold abort. by destruct (ctx_abort _ _ _). Qed.

(** A second stage of a buffer adds one reference and does nothing else to it. *)
Lemma stage_known_run request b n s :
  dict_get (stage_effective_id request) (ALLOCATED_BUFFERS s) = Some b ->
  bi_ref_count b = Some n ->
  NodeStageWeight env request s =
    (Ret tt,
     set_buffers (dict_set (stage_effective_id request) (set_ref_count (n + 1) b))
       (set_claims (<[st_claim_id request := stage_effective_id request]>) s)).
Proof.
  intros Eb En. unfold NodeStageWeight, py_except, stage_body.
  rewrite bind_unfold. simpl. rewrite bind_unfold. simpl.
  assert (dict_mem (stage_effective_id request) (ALLOCATED_BUFFERS s) = true) as ->.
  { apply dict_mem_true. eauto. }
  unfold add_reference. rewrite bind_unfold, (get_buffer_run _ b) by done.
  rewrite bind_unfold. by rewrite En.
Qed.

(** No call on the socket directory fails. *)
Definition socket_dir_permitted : bool :=
  forallb (fun d => bool_decide (fs_error env FsMkdir d = None)) (SOCKET_DIR :: SOCKET_DIR_PARENTS) &&
  bool_decide (fs_error env FsChmod SOCKET_DIR = None).

(** The files after [os.makedirs]. *)
Fixpoint made (path : string) (parents : list string) (fs : gset string) : gset string :=
  {[path]} ∪ match parents with
             | [] => fs
             | head :: parents' => if decide (head ∈ fs) then fs else made head parents' fs
             end.

(** The files once the socket directory was prepared. *)
Definition with_socket_dir (fs : gset string) : gset string :=
  if decide (SOCKET_DIR ∈ fs) then fs else made SOCKET_DIR SOCKET_DIR_PARENTS fs.

(** The state in which a new buffer is loaded. *)
Definition staged_state (request : NodeStageWeightRequest) (gpu_id fd handle device_ptr : Z)
    (a' : CudaAllocator W) (s : Driver W C) : Driver W C :=
  set_buffers (dict_set (stage_effective_id request)
      (staged_entry request (weight_size_bytes (st_size_bytes request)) gpu_id fd handle device_ptr))
    (set_allocator (Some a')
      (set_files with_socket_dir
        (set_claims (<[st_claim_id request := stage_effective_id request]>) s))).

Lemma os_makedirs_run path parents s :
  Forall (fun d => fs_error env FsMkdir d = None) (path :: parents) ->
  os_makedirs env path parents s = (Ret tt, set_files (made path parents) s).
Proof.
  revert path s. induction parents as [|p parents IH]; intros path s Hok;
    apply Forall_cons in Hok as [Hp Hps]; simpl; rewrite bind_unfold.
  - unfold fs_do. by rewrite Hp.
  - rewrite bind_unfold. simpl. unfold fs_do.
    destruct (decide (p ∈ files s)) as [Hin|Hin].
    + rewrite bool_decide_eq_true_2 by done. simpl. rewrite Hp. unfold py_modify, set_files. by rewrite decide_True.
    + rewrite bool_decide_eq_false_2 by done. simpl. rewrite IH by done. rewrite Hp.
      unfold py_modify, set_files. simpl. by rewrite decide_False.
Qed.

Lemma prepare_socket_dir_run s :
  socket_dir_permitted = true ->
  prepare_socket_dir env s = (Ret tt, set_files with_socket_dir s).
Proof.
  intros [Hm Hc]%andb_true_iff. apply bool_decide_eq_true in Hc.
  assert (Forall (fun d => fs_error env FsMkdir d = None) (SOCKET_DIR :: SOCKET_DIR_PARENTS)) as Hm'.
  { apply Forall_forall. intros d Hd. rewrite forallb_forall in Hm.
    apply (bool_decide_eq_true_1 _), Hm. by apply list_elem_of_In. }
  unfold prepare_socket_dir. rewrite bind_unfold. unfold py_get. rewrite bind_unfold.
  unfold with_socket_dir.
  destruct (decide (SOCKET_DIR ∈ files s)) as [Hin|Hin].
  - rewrite bool_decide_eq_true_2 by done. simpl. unfold fs_do, py_modify, set_files. rewrite Hc. simpl.
    by rewrite decide_True.
  - rewrite bool_decide_eq_false_2 by done.
    unfold py_when. cbn [negb]. rewrite os_makedirs_run by done. unfold fs_do, py_modify, set_files. rewrite Hc. simpl.
    by rewrite (decide_False (P:=SOCKET_DIR ∈ files s)).
Qed.

Lemma with_allocator_run {A} (m : py (CudaAllocator W) A) a r a' s :
  cuda_allocator s = Some a -> m a = (r, a') ->
  with_allocator m s = (r, set_allocator (Some a') s).
Proof. intros Ea Em. unfold with_allocator. by rewrite Ea, Em. Qed.

Lemma preserves_makedirs (I : Driver W C -> Prop) `{!FilesFrame I} path parents :
  preserves I (os_makedirs env path parents).
Proof. revert path. induction parents as [|p parents IH]; intros path; simpl; preserves_tac. Qed.

Lemma preserves_prepare_socket_dir (I : Driver W C -> Prop) `{!FilesFrame I} :
  preserves I (prepare_socket_dir env).
Proof. pose proof (preserves_makedirs I). unfold prepare_socket_dir. preserves_tac. Qed.

(** Staging up to the record of the new entry. *)
Lemma stage_body_new request gpu_id a a' fd handle device_ptr s :
  dict_get (stage_effective_id request) (ALLOCATED_BUFFERS s) = None ->
  socket_dir_permitted = true ->
  cuda_allocator s = Some a ->
  gpu_id = stage_gpu_id env (stage_sharded request) (st_shard_index request) ->
  stage_allocate (weight_size_bytes (st_size_bytes request)) gpu_id a =
    (Ret (fd, handle, device_ptr), a') ->
  stage_body env request s =
    (load_source env (st_source_path request) device_ptr ;;
     start_servers (stage_effective_id request))
      (staged_state request gpu_id fd handle device_ptr a' s).
Proof.
  intros Hnew Hdir Ha -> Halloc. unfold stage_body. rewrite bind_unfold. simpl.
  rewrite bind_unfold. simpl. rewrite (proj2 (dict_mem_false _ _) Hnew).
  unfold stage_new. rewrite bind_unfold, prepare_socket_dir_run by done.
  rewrite bind_unfold. simpl. rewrite Ha.
  rewrite bind_unfold. erewrite with_allocator_run by (try apply Ha; apply Halloc).
  rewrite bind_unfold. done.
Qed.

Lemma start_servers_run id b s :
  dict_get id (ALLOCATED_BUFFERS s) = Some b ->
  start_servers id s =
    (Ret tt, add_thread (NotifyServer (notify_sock_path_of id) id)
       (set_buffers (dict_set id (set_notify_sock_path (notify_sock_path_of id) b))
         (add_thread (PassFdServer (fd_sock_path id) id) s))).
Proof.
  intros Hb. unfold start_servers. rewrite bind_unfold. simpl.
  rewrite bind_unfold. rewrite (get_buffer_run _ b) by done. done.
Qed.
End lemmas.

#[export] Hint Extern 1 (preserves _ (prepare_socket_dir _)) =>
  apply preserves_prepare_socket_dir; exact _ : wpi.

(** ** Lemmas: loading a file *)

Section load.
Context {W C : Type} `{CudaApi W} `{GrpcContext C} (obs : W -> cuda_obs) `{!CudaLaws W obs}.
Context (env : Env).
Implicit Types (s : Driver W C).

(** The elements of the first tensors of a file. *)
Definition total_elements (l : list (string * HostTensor)) : Z :=
  foldr (fun kt n => numel kt.2 + n) 0 l.

(** The device memory after the copies, tensor after tensor. *)
Fixpoint load_memory (p : Z) (l : list (string * HostTensor)) (m : vram) : vram :=
  match l with
  | [] => m
  | kt :: l' =>
      load_memory (p + numel kt.2 * 2) l'
        (vram_write p (host_read kt.2 (Z.to_nat (numel kt.2 * 2))) m)
  end.

Definition all_copies_ok (p : Z) (l : list (string * HostTensor)) : Prop :=
  forall l1 kt l2, l = l1 ++ kt :: l2 ->
    memcpy_ok env (p + total_elements l1 * 2) (numel kt.2 * 2) = true.

Lemma host_read_length t n : length (host_read t n) = n.
Proof. unfold host_read. by rewrite length_fmap, length_seq. Qed.

Lemma load_memory_below p q n l m :
  Forall (fun kt => 0 <= numel kt.2) l -> q + Z.of_nat n <= p ->
  vram_read q n (load_memory p l m) = vram_read q n m.
Proof.
  intros Hl. revert p m. induction Hl as [|kt l Hkt Hl IH]; intros p m Hq; simpl; [done|].
  rewrite IH by lia. rewrite vram_read_write_other; [done|]. left. lia.
Qed.

Lemma load_memory_slice p l l1 kt l2 m :
  Forall (fun kt => 0 <= numel kt.2) l -> l = l1 ++ kt :: l2 ->
  vram_read (p + total_elements l1 * 2) (Z.to_nat (numel kt.2 * 2)) (load_memory p l m) =
    host_read kt.2 (Z.to_nat (numel kt.2 * 2)).
Proof.
  intros Hl ->. revert p m. induction l1 as [|kt' l1 IH]; intros p m; simpl.
  - inversion Hl; subst. rewrite Z.add_0_r, load_memory_below by (done || lia).
    rewrite vram_read_write by (rewrite ?host_read_length; lia).
    rewrite Z.sub_diag. simpl. rewrite drop_0. apply take_ge. by rewrite host_read_length.
  - inversion Hl; subst.
    replace (p + (numel kt'.2 + total_elements l1) * 2)
      with (p + numel kt'.2 * 2 + total_elements l1 * 2) by lia.
    by apply IH.
Qed.

Lemma set_allocator_twice a a' s : set_allocator a (set_allocator a' s) = set_allocator a s.
Proof. done. Qed.

Lemma memcpy_run dst t n a s :
  cuda_allocator s = Some a -> memcpy_ok env dst n = true ->
  memcpy_host_to_device env dst t n s =
    (Ret tt, set_allocator (Some (set_libcuda
      (cuda_set_memory (vram_write dst (host_read t (Z.to_nat n)) (cuda_memory (libcuda a)))
        (libcuda a)) a)) s).
Proof.
  intros Ha Hok. unfold memcpy_host_to_device. rewrite Hok.
  by erewrite with_allocator_run by (done || reflexivity).
Qed.

Lemma load_fold_run p offset l a s :
  cuda_allocator s = Some a -> all_copies_ok (p + offset * 2) l ->
  exists w,
    py_fold l offset (fun offset kt =>
        memcpy_host_to_device env (p + offset * 2) kt.2 (numel kt.2 * 2) ;;
        mret (offset + numel kt.2)) s =
      (Ret (offset + total_elements l), set_allocator (Some (set_libcuda w a)) s) /\
    cuda_memory w = load_memory (p + offset * 2) l (cuda_memory (libcuda a)).
Proof.
  revert offset a s. induction l as [|kt l IH]; intros offset a s Ha Hok; simpl.
  - exists (libcuda a). rewrite Z.add_0_r. split; [|done].
    destruct s, a; simpl in *. by rewrite Ha.
  - pose proof (Hok [] kt l eq_refl) as Hc. simpl in Hc. rewrite Z.add_0_r in Hc.
    rewrite !bind_unfold, (memcpy_run _ _ _ a) by done. simpl.
    set (w1 := cuda_set_memory _ _).
    destruct (IH (offset + numel kt.2) (set_libcuda w1 a)
                (set_allocator (Some (set_libcuda w1 a)) s)) as (w & Er & Em); [done| |].
    { intros l1 kt' l2 ->. specialize (Hok (kt :: l1) kt' l2 eq_refl). simpl in Hok.
      rewrite <- Hok. f_equal. lia. }
    exists w. rewrite Er, set_allocator_twice. split.
    + by replace (offset + numel kt.2 + total_elements l)
        with (offset + (numel kt.2 + total_elements l)) by lia.
    + rewrite Em. simpl. unfold w1. rewrite (law_memory_set (obs:=obs)). f_equal. lia.
Qed.
End load.

(** ** Properties *)

Section properties.
Context {W C : Type} `{CudaApi W} `{GrpcContext C} `{!GrpcLaws C} (env : Env).
Implicit Types (s : Driver W C) (request : NodeStageWeightRequest).

Lemma keeps_stage_allocate size gpu_id :
  keeps (S:=CudaAllocator W) (fun _ => True) (stage_allocate size gpu_id).
Proof. unfold stage_allocate. keeps_tac. Qed.

Lemma keeps_load_source path p : keeps (no_status (W:=W) (C:=C)) (load_source env path p).
Proof.
  unfold load_source. keeps_tac. apply keeps_except_raises; [|intros; apply raises_abort].
  unfold load_tensors, memcpy_host_to_device. keeps_tac.
  apply keeps_with_allocator. by apply keeps_modify.
Qed.

#[local] Hint Resolve keeps_stage_allocate keeps_load_source : wpi.

Lemma keeps_makedirs path parents : keeps (no_status (W:=W) (C:=C)) (os_makedirs env path parents).
Proof. revert path. induction parents as [|p parents IH]; intros path; simpl; keeps_tac. Qed.

Lemma keeps_stage_body request : keeps (no_status (W:=W) (C:=C)) (stage_body env request).
Proof.
  unfold stage_body, add_reference, stage_new, prepare_socket_dir, start_servers.
  keeps_tac; try (by apply keeps_modify). apply keeps_makedirs.
Qed.

(** The two statuses of a stage. *)
Lemma stage_status_cases request s :
  (rpc (NodeStageWeight env request) s).1 = RpcOk tt \/
  exists details, (rpc (NodeStageWeight env request) s).1 = RpcFailed INTERNAL details.
Proof.
  destruct (rpc_internal_only (stage_body env request) s (keeps_stage_body request))
    as [[[] Hr]|Hr]; [by left|by right].
Qed.

(** A call of NodeStageWeight always completes, and its client sees OK or INTERNAL:
    the NOT_FOUND and UNAVAILABLE statuses that the body sets are overwritten by the
    handler's own [except Exception]. *)
Theorem stage_status_ok_or_internal request s :
  (rpc (NodeStageWeight env request) s).1 = RpcOk tt \/
  exists details, (rpc (NodeStageWeight env request) s).1 = RpcFailed INTERNAL details.
Proof. apply stage_status_cases. Qed.

(** Staging a new buffer without a source path, run. *)
Lemma stage_new_run request a a' fd handle device_ptr s :
  let id := stage_effective_id request in
  let gpu_id := stage_gpu_id env (stage_sharded request) (st_shard_index request) in
  let size := weight_size_bytes (st_size_bytes request) in
  dict_get id (ALLOCATED_BUFFERS s) = None ->
  socket_dir_permitted env = true ->
  st_source_path request = "" ->
  cuda_allocator s = Some a ->
  stage_allocate size gpu_id a = (Ret (fd, handle, device_ptr), a') ->
  exists s',
    rpc (NodeStageWeight env request) s = (RpcOk tt, s') /\
    ALLOCATED_BUFFERS s' = dict_set id
      (set_notify_sock_path (notify_sock_path_of id)
         (staged_entry request size gpu_id fd handle device_ptr)) (ALLOCATED_BUFFERS s) /\
    KNOWN_CLAIMS s' = <[st_claim_id request := id]> (KNOWN_CLAIMS s) /\
    cuda_allocator s' = Some a' /\
    threads s' = threads s ++ [PassFdServer (fd_sock_path id) id;
                               NotifyServer (notify_sock_path_of id) id].
Proof.
  intros id gpu_id size Hnew Hdir Hsrc Ha Halloc.
  unfold rpc, NodeStageWeight, py_except.
  erewrite stage_body_new; try done. rewrite Hsrc. unfold load_source. simpl.
  rewrite bind_unfold. simpl. erewrite start_servers_run by apply dict_get_set_eq.
  simpl. rewrite law_new_status. eexists. split; [done|]. simpl. split_and!.
  - apply dict_set_set.
  - done.
  - done.
  - by rewrite <- app_assoc.
Qed.

(** C17: staging a buffer that is not staged yet, without a source path, allocates it
    once, records it with what was allocated, one reference and no consumer, starts its FD server and its
    notify server on the paths of its id, and touches no other buffer. *)
Theorem stage_new_success request a a' fd handle device_ptr s :
  let id := stage_effective_id request in
  let gpu_id := stage_gpu_id env (stage_sharded request) (st_shard_index request) in
  let size := weight_size_bytes (st_size_bytes request) in
  dict_get id (ALLOCATED_BUFFERS s) = None ->
  socket_dir_permitted env = true ->
  st_source_path request = "" ->
  cuda_allocator s = Some a ->
  stage_allocate size gpu_id a = (Ret (fd, handle, device_ptr), a') ->
  exists s',
    rpc (NodeStageWeight env request) s = (RpcOk tt, s') /\
    (exists b, dict_get id (ALLOCATED_BUFFERS s') = Some b /\
       bi_ref_count b = Some 1 /\ bi_notify_sockets b = [] /\
       bi_fd b = fd /\ bi_handle b = handle /\ bi_device_ptr b = device_ptr /\
       bi_size_bytes b = size /\ bi_gpu_id b = gpu_id /\
       bi_parent_buffer b = Some (st_buffer_id request) /\
       bi_notify_sock_path b = Some (notify_sock_path_of id)) /\
    dict_keys (ALLOCATED_BUFFERS s') = dict_keys (ALLOCATED_BUFFERS s) ++ [id] /\
    (forall k, k <> id -> dict_get k (ALLOCATED_BUFFERS s') = dict_get k (ALLOCATED_BUFFERS s)) /\
    KNOWN_CLAIMS s' = <[st_claim_id request := id]> (KNOWN_CLAIMS s) /\
    cuda_allocator s' = Some a' /\
    threads s' = threads s ++ [PassFdServer (fd_sock_path id) id;
                               NotifyServer (notify_sock_path_of id) id].
Proof.
  intros id gpu_id size Hnew Hdir Hsrc Ha Halloc.
  destruct (stage_new_run request a a' fd handle device_ptr s) as (s' & E & Hb & Hk & Ha' & Ht);
    [by auto..|].
  exists s'. rewrite Hb. split_and!; try done.
  - eexists. split; [apply dict_get_set_eq|done].
  - by apply dict_keys_set_new.
  - intros k Hk'. by rewrite dict_get_set_ne.
Qed.

(** Staging a buffer that is already staged counts one more reference on its entry
    and leaves every other buffer, the allocator and the threads as they were. *)
Theorem stage_known_counts request b n s :
  let id := stage_effective_id request in
  dict_get id (ALLOCATED_BUFFERS s) = Some b -> bi_ref_count b = Some n ->
  exists s',
    rpc (NodeStageWeight env request) s = (RpcOk tt, s') /\
    dict_get id (ALLOCATED_BUFFERS s') = Some (set_ref_count (n + 1) b) /\
    (forall k, k <> id -> dict_get k (ALLOCATED_BUFFERS s') = dict_get k (ALLOCATED_BUFFERS s)) /\
    KNOWN_CLAIMS s' = <[st_claim_id request := id]> (KNOWN_CLAIMS s) /\
    cuda_allocator s' = cuda_allocator s /\ threads s' = threads s.
Proof.
  intros id Hb Hn. unfold rpc. rewrite (stage_known_run env request b n) by done.
  simpl. rewrite law_new_status. eexists. split; [done|]. simpl. split_and!; try done.
  - apply dict_get_set_eq.
  - intros k Hk. by rewrite dict_get_set_ne.
Qed.

(** When the source path does not exist, the client sees INTERNAL without details;
    the VRAM stays allocated and the buffer and the claim registered, but no socket
    server runs. A second attempt then succeeds with a second reference, and still no
    server is started: the buffer can never be mapped by a consumer. *)
Theorem stage_missing_source_strands_buffer request a a' fd handle device_ptr s :
  let id := stage_effective_id request in
  let gpu_id := stage_gpu_id env (stage_sharded request) (st_shard_index request) in
  let size := weight_size_bytes (st_size_bytes request) in
  dict_get id (ALLOCATED_BUFFERS s) = None ->
  socket_dir_permitted env = true ->
  st_source_path request <> "" -> source_exists env (st_source_path request) = false ->
  cuda_allocator s = Some a ->
  stage_allocate size gpu_id a = (Ret (fd, handle, device_ptr), a') ->
  exists s' s'',
    rpc (NodeStageWeight env request) s = (RpcFailed INTERNAL "", s') /\
    KNOWN_CLAIMS s' !! st_claim_id request = Some id /\
    dict_get id (ALLOCATED_BUFFERS s') = Some (staged_entry request size gpu_id fd handle device_ptr) /\
    cuda_allocator s' = Some a' /\ threads s' = threads s /\
    rpc (NodeStageWeight env request) s' = (RpcOk tt, s'') /\
    dict_get id (ALLOCATED_BUFFERS s'') =
      Some (set_ref_count 2 (staged_entry request size gpu_id fd handle device_ptr)) /\
    threads s'' = threads s.
Proof.
  intros id gpu_id size Hnew Hdir Hsrc Hex Ha Halloc.
  destruct (rpc (NodeStageWeight env request) s) as [r s'] eqn:E1.
  unfold rpc, NodeStageWeight, py_except in E1.
  erewrite stage_body_new in E1; try done.
  unfold load_source in E1. rewrite bool_decide_eq_false_2, Hex in E1 by done.
  rewrite bind_unfold, abort_run in E1. unfold is_Exception in E1. rewrite abort_run in E1.
  simpl in E1. rewrite law_abort_status, law_abort_message in E1. injection E1 as <- <-.
  eexists _, _. split; [done|]. simpl.
  split; [apply lookup_insert_eq|]. split; [apply dict_get_set_eq|]. do 2 (split; [done|]).
  unfold rpc. erewrite stage_known_run; [|apply dict_get_set_eq|done]. simpl.
  rewrite law_new_status. split; [done|]. split; [apply dict_get_set_eq|done].
Qed.

(** A shard is staged on an existing GPU, and among [num_gpus] consecutive shards no
    two share a GPU. *)
Theorem stage_gpu_round_robin shard_index num_gpus :
  getDeviceCount env = Some num_gpus -> 0 < num_gpus ->
  0 <= stage_gpu_id env true shard_index < num_gpus /\
  (forall j, shard_index <= j < shard_index + num_gpus ->
     stage_gpu_id env true j = stage_gpu_id env true shard_index -> j = shard_index).
Proof.
  intros Hn Hpos. unfold stage_gpu_id. rewrite Hn.
  destruct (num_gpus =? 0) eqn:E; zify_bools; [lia|].
  split; [by apply Z.mod_pos_bound|]. intros j Hj Hmod.
  assert ((j - shard_index) mod num_gpus = 0) as Hd.
  { rewrite Zminus_mod, Hmod, Z.sub_diag. by apply Z.mod_0_l. }
  rewrite Z.mod_small in Hd; lia.
Qed.

(** C18: loading a safetensors file packs the tensors one after the other: when the
    copies are in range, the window of each tensor starts two bytes per element of the
    tensors before it and holds the [2 * numel] bytes at the tensor's address, which
    for a 16-bit type is the whole tensor and for a wider one a prefix of it. *)
Theorem load_tensors_layout (obs : W -> cuda_obs) `{!CudaLaws W obs} p tensors a s :
  cuda_allocator s = Some a ->
  Forall (fun kt => 0 <= numel kt.2) tensors ->
  all_copies_ok env p tensors ->
  exists w,
    load_tensors env p tensors s = (Ret tt, set_allocator (Some (set_libcuda w a)) s) /\
    (forall l1 kt l2, tensors = l1 ++ kt :: l2 ->
       vram_read (p + total_elements l1 * 2) (Z.to_nat (numel kt.2 * 2)) (cuda_memory w) =
         host_read kt.2 (Z.to_nat (numel kt.2 * 2))) /\
    (forall q n, q + Z.of_nat n <= p ->
       vram_read q n (cuda_memory w) = vram_read q n (cuda_memory (libcuda a))).
Proof.
  intros Ha Hl Hok. unfold load_tensors. rewrite bind_unfold.
  destruct (load_fold_run obs env p 0 tensors a s) as (w & Er & Em); [done| |].
  { by replace (p + 0 * 2) with p by lia. }
  rewrite Er. exists w. split; [done|].
  replace (p + 0 * 2) with p in Em by lia. rewrite Em. split.
  - intros l1 kt l2 El. by eapply load_memory_slice.
  - intros q n Hq. by apply load_memory_below.
Qed.
End properties.

(** ** Lemmas: the allocator after staging *)

Section allocator_after.
Context {W : Type} `{CudaApi W}.
Implicit Types (a : CudaAllocator W).

Definition has_context (d : Z) a : Prop := is_Some (contexts a !! d).

Lemma preserves_call_context d f : preserves (has_context d) (cuda_call (W:=W) f).
Proof. intros s Hs. unfold cuda_call. by destruct (f _). Qed.

Lemma preserves_call_out_context d f : preserves (has_context d) (cuda_call_out (W:=W) f).
Proof. intros s Hs. unfold cuda_call_out. by destruct (f _) as [[??]?]. Qed.

#[local] Hint Resolve preserves_call_context preserves_call_out_context : wpi.

Lemma preserves_checked_context d msg f : preserves (has_context d) (checked (W:=W) msg f).
Proof. unfold checked. preserves_tac. Qed.

Lemma preserves_checked_out_context d msg f : preserves (has_context d) (checked_out (W:=W) msg f).
Proof. unfold checked_out. preserves_tac. Qed.

#[local] Hint Resolve preserves_checked_context preserves_checked_out_context : wpi.

Lemma preserves_get_or_create d d' :
  preserves (has_context d) (get_or_create_context (W:=W) d').
Proof.
  unfold get_or_create_context. preserves_tac; apply preserves_modify; [|done].
  intros s Hs. unfold has_context. simpl. destruct (decide (d' = d)) as [->|].
  - rewrite lookup_insert_eq. eauto.
  - by rewrite lookup_insert_ne.
Qed.

Lemma preserves_allocate_context d size d' :
  preserves (has_context d) (allocate_and_export (W:=W) size d').
Proof.
  unfold allocate_and_export, allocate_prepare, allocate_commit, align_size.
  pose proof (preserves_get_or_create d d'). preserves_tac.
Qed.

Lemma get_or_create_has_context d s c s' :
  get_or_create_context (W:=W) d s = (Ret c, s') -> has_context d s'.
Proof.
  unfold get_or_create_context. intros E. rewrite bind_unfold in E. cbn [py_get] in E.
  destruct (contexts s !! d) as [c'|] eqn:Ec.
  - injection E as <- <-. unfold has_context. rewrite Ec. eauto.
  - ret_inv E. injection E as <- <-. injection E2 as <- <-. injection E3 as <- <-.
    unfold has_context. simpl. rewrite lookup_insert_eq. eauto.
Qed.

Context (obs : W -> cuda_obs) `{!CudaLaws W obs}.

(** A successful staging allocation: the allocation proper, after calls that only
    made the context of the GPU exist. *)
Lemma stage_allocate_inv size gpu_id a r a' :
  stage_allocate size gpu_id a = (Ret r, a') ->
  has_context gpu_id a' /\
  exists a1, allocate_and_export size gpu_id a1 = (Ret r, a') /\
    obs (libcuda a1) = obs (libcuda a).
Proof.
  unfold stage_allocate. intros E.
  apply bind_ret_inv in E as (a0 & s0 & E0 & E). apply bind_ret_inv in E as (a2 & s1 & E1 & E).
  pose proof (get_or_create_has_context _ _ _ _ E0) as Hc.
  pose proof (preserves_call_context gpu_id (cuCtxSetCurrent a0) _ Hc) as Hc1.
  rewrite E1 in Hc1. pose proof (preserves_allocate_context gpu_id size gpu_id s1 Hc1) as Hc2.
  rewrite E in Hc2. split; [done|]. exists s1. split; [done|].
  apply (observed_call obs) in E1; [|intros; apply law_ctx_set].
  apply (observed_context obs) in E0. congruence.
Qed.
End allocator_after.

(** ** Witnesses *)

Module Demo.

Definition nccl_id : string := String.concat "" (repeat "01234567" 16).

(** A machine on which everything works, with eight GPUs and no file. *)
Definition env : Env :=
  {| CUPY_AVAILABLE := true;
     getDeviceCount := Some 8;
     fs_error _ _ := None;
     source_exists _ := false;
     safe_open _ := None;
     memcpy_ok _ _ := true;
     nccl_result _ := None;
     nccl_unique_id := nccl_id |}.

Definition driver : Type := Driver Sim.sim (option (status_code * string)).

(** The driver after start. *)
Definition start : driver :=
  mk_Driver [] ∅ (make_cuda_allocator true (Sim.machine 8)) ∅ [] ∅ [] [] None.

Definition request (claim id : string) (size : Z) : NodeStageWeightRequest :=
  {| st_claim_id := claim; st_buffer_id := id; st_source_path := ""; st_size_bytes := size;
     st_shard_index := -1; st_total_shards := 0 |}.

Definition file_request (claim id path : string) : NodeStageWeightRequest :=
  {| st_claim_id := claim; st_buffer_id := id; st_source_path := path; st_size_bytes := 4 * MiB;
     st_shard_index := 3; st_total_shards := 4 |}.

Definition allocator0 : CudaAllocator Sim.sim :=
  default (mk_CudaAllocator ∅ ∅ (Sim.machine 8)) (make_cuda_allocator true (Sim.machine 8)).

(** The driver after one stage of a buffer of 4 MiB. *)
Definition staged (claim id : string) (size : Z) : driver :=
  (rpc (NodeStageWeight env (request claim id size)) start).2.

Definition staged_info (size : Z) (s : driver) (id : string) : BufferInfo :=
  default (staged_entry (request "" "" 0) 0 0 0 0 0) (dict_get id (ALLOCATED_BUFFERS s)).

Definition tensors : list (string * HostTensor) :=
  [("a", {| numel := 2; itemsize := 2; host_bytes i := 10 + i |});
   ("b", {| numel := 3; itemsize := 2; host_bytes i := 20 + i |})].
End Demo.

Lemma stage_new_success_witness :
  exists s', rpc (NodeStageWeight Demo.env (Demo.request "c1" "m" (4 * MiB))) Demo.start = (RpcOk tt, s') /\
    dict_keys (ALLOCATED_BUFFERS s') = ["m"] /\
    threads s' = [PassFdServer "/run/wpi/sockets/m.sock" "m";
                  NotifyServer "/run/wpi/sockets/m_notify.sock" "m"].
Proof.
  destruct (stage_new_success Demo.env (Demo.request "c1" "m" (4 * MiB)) Demo.allocator0
    (stage_allocate (4 * MiB) 0 Demo.allocator0).2 3 0 (2 ^ 40) Demo.start)
    as (s' & H1 & _ & H3 & _ & _ & _ & H7);
    [vm_compute; reflexivity..|].
  exists s'. split; [exact H1|]. split; [exact H3|exact H7].
Defined.

Lemma stage_known_counts_witness :
  exists s',
    rpc (NodeStageWeight Demo.env (Demo.request "c2" "m" (4 * MiB))) (Demo.staged "c1" "m" (4 * MiB)) =
      (RpcOk tt, s') /\
    bi_ref_count <$> dict_get "m" (ALLOCATED_BUFFERS s') = Some (Some 2).
Proof.
  destruct (stage_known_counts Demo.env (Demo.request "c2" "m" (4 * MiB))
    (Demo.staged_info (4 * MiB) (Demo.staged "c1" "m" (4 * MiB)) "m") 1
    (Demo.staged "c1" "m" (4 * MiB))) as (s' & H1 & H2 & _);
    [vm_compute; reflexivity..|].
  exists s'. split; [exact H1|].
  change (dict_get (stage_effective_id (Demo.request "c2" "m" (4 * MiB))))
    with (dict_get (V:=BufferInfo) "m") in H2.
  rewrite H2. reflexivity.
Defined.

Lemma stage_missing_source_strands_buffer_witness :
  exists s' s'',
    rpc (NodeStageWeight Demo.env (Demo.file_request "c1" "m" "/w.safetensors")) Demo.start =
      (RpcFailed INTERNAL "", s') /\
    threads s' = [] /\
    rpc (NodeStageWeight Demo.env (Demo.file_request "c1" "m" "/w.safetensors")) s' = (RpcOk tt, s'') /\
    threads s'' = [].
Proof.
  destruct (stage_missing_source_strands_buffer Demo.env (Demo.file_request "c1" "m" "/w.safetensors")
    Demo.allocator0 (stage_allocate (4 * MiB) 3 Demo.allocator0).2 3 0 (2 ^ 40) Demo.start)
    as (s' & s'' & H1 & _ & _ & _ & H5 & H6 & _ & H8);
    [vm_compute; reflexivity|reflexivity|discriminate|reflexivity|vm_compute; reflexivity..|].
  exists s', s''. split; [exact H1|]. split; [exact H5|]. split; [exact H6|exact H8].
Defined.

Lemma stage_gpu_round_robin_witness :
  0 <= stage_gpu_id Demo.env true 11 < 8.
Proof. apply (stage_gpu_round_robin Demo.env 11 8); reflexivity. Defined.

Lemma load_tensors_layout_witness :
  exists w,
    vram_read 104 6 (cuda_memory w) = [20; 21; 22; 23; 24; 25] /\
    vram_read 0 3 (cuda_memory w) = [0; 0; 0].
Proof.
  destruct (load_tensors_layout Demo.env Sim.sim_obs 100 Demo.tensors Demo.allocator0 Demo.start)
    as (w & _ & H2 & H3).
  - reflexivity.
  - repeat constructor; simpl; lia.
  - intros l1 kt l2 _. reflexivity.
  - exists w. split.
    + apply (H2 [("a", {| numel := 2; itemsize := 2; host_bytes i := 10 + i |})]
                ("b", {| numel := 3; itemsize := 2; host_bytes i := 20 + i |}) []). reflexivity.
    + rewrite (H3 0 3%nat) by (simpl; lia). reflexivity.
Defined.
