(* ===== verification/Unstage.v ===== *)
(** * NodeUnstageWeight, NodeRegisterWeight and the small handlers (driver/main.py)

    Unstaging forgets a claim and drops one reference of its buffer; the last
    reference frees the buffer together with every entry whose key starts with the
    buffer's id and [_gpu], the copies that relocation made of it. *)

From S2P Require Import Prelude PyMonad PyText PyDict Cuda Allocator NodeState Stage.

(** The prefix of the keys that are freed along with a buffer. *)
Definition gpu_prefix (buffer_id : string) : string := buffer_id +:+ "_gpu".

(** [[k for k in ALLOCATED_BUFFERS.keys() if k.startswith(f"{buffer_id}_gpu")]]. *)
Definition relocated_keys (buffer_id : string) (d : dict BufferInfo) : list string :=
  filter (fun k => startswith (gpu_prefix buffer_id) k = true) (dict_keys d).

(** [[(k, ALLOCATED_BUFFERS[k]) for k in relocated_keys]]. *)
Definition relocated_items (buffer_id : string) (d : dict BufferInfo) : list (string * BufferInfo) :=
  omap (fun k => pair k <$> dict_get k d) (relocated_keys buffer_id d).

Section unstage.
Context {W C : Type} `{CudaApi W} `{GrpcContext C}.
#[local] Abbreviation state := (Driver W C).

(** [os.close(fd)]: an [OSError] is ignored by the caller. *)
Definition os_close (fd : Z) : py state unit := py_modify (add_closed_fd fd).

(** One turn of the loop over [all_to_free]. *)
Definition free_item (buffer_id : string) (kv : string * BufferInfo) : py state unit :=
  let '(k, item) := kv in
  allocator ← py_get cuda_allocator ;
  py_when (bool_decide (is_Some allocator))
    (py_except
       (with_allocator
          (gpu_ctx ← get_or_create_context (bi_gpu_id item) ;
           _ ← cuda_call (cuCtxSetCurrent gpu_ctx) ;
           free (bi_handle item) (bi_device_ptr item) (bi_size_bytes item)))
       is_Exception (fun _ => mret tt) ;;
     os_close (bi_fd item)) ;;
  py_when (negb (bool_decide (k = buffer_id))) (py_modify (set_buffers (dict_pop k))).

(** The block that runs when the count reached zero. *)
Definition free_all (buffer_id : string) (info : BufferInfo) : py state unit :=
  items ← py_get (fun s => relocated_items buffer_id (ALLOCATED_BUFFERS s)) ;
  py_for ((buffer_id, info) :: items) (free_item buffer_id) ;;
  py_modify (set_buffers (dict_pop buffer_id)).

(** [info["ref_count"] -= 1], then the freeing of the last reference. *)
Definition drop_reference (buffer_id : string) : py state unit :=
  info ← get_buffer buffer_id ;
  n ← py_some (bi_ref_count info) KeyError "'ref_count'" ;
  put_buffer buffer_id (set_ref_count (n - 1) info) ;;
  py_when (n - 1 <=? 0) (free_all buffer_id (set_ref_count (n - 1) info)).

Definition unstage_body (claim_id : string) : py state unit :=
  claim ← py_get (fun s => KNOWN_CLAIMS s !! claim_id) ;
  match claim with
  | None => mret tt
  | Some buffer_id =>
      py_modify (set_claims (delete claim_id)) ;;
      staged ← buffer_known buffer_id ;
      if (staged : bool) then drop_reference buffer_id else mret tt
  end.

Definition NodeUnstageWeight (claim_id : string) : py state unit :=
  try: unstage_body claim_id except: is_Exception as e => abort INTERNAL (exn_str e).

(** The handle of a staged buffer, as text. *)
Definition NodeRegisterWeight (buffer_id : string) : py state string :=
  staged ← buffer_known buffer_id ;
  py_when (negb staged) (abort NOT_FOUND ("Buffer " +:+ buffer_id +:+ " not found")) ;;
  b ← get_buffer buffer_id ;
  mret (str_of_Z (bi_handle b)).

(** The path of the FD socket, computed from the claim. *)
Definition NodeTranslateAndMap (claim_id : string) : py state string :=
  mret (os_path_join SOCKET_DIR (claim_id +:+ ".sock")).
End unstage.

(** IdentityService. *)
Record PluginInfo : Type := { pi_name : string; pi_vendor_version : string }.

Inductive Capability : Type :=
  | CAP_UNKNOWN | CROSS_VENDOR_TRANSFER | ON_THE_FLY_RESHAPING | PRE_STAGING_SUPPORT.

Definition GetPluginInfo : PluginInfo :=
  {| pi_name := "wpi-driver"; pi_vendor_version := "v0.1.0" |}.

Definition GetPluginCapabilities : list Capability := [ON_THE_FLY_RESHAPING].

(** ** Lemmas: freeing *)

Section lemmas.
Context {W C : Type} `{CudaApi W} `{GrpcContext C}.
Implicit Types (s : Driver W C).

Lemma elem_of_relocated_keys id k d :
  k ∈ relocated_keys id d <-> startswith (gpu_prefix id) k = true /\ k ∈ dict_keys d.
Proof. unfold relocated_keys. by rewrite list_elem_of_filter. Qed.

Lemma relocated_items_fst id d : (relocated_items id d).*1 = relocated_keys id d.
Proof.
  unfold relocated_items.
  assert (forall l : list string, (forall k, k ∈ l -> is_Some (dict_get k d)) ->
    (omap (fun k => pair k <$> dict_get k d) l).*1 = l) as Hgo.
  { induction l as [|k l IH]; intros Hl; [done|]. simpl.
    destruct (Hl k) as [v Hv]; [set_solver|]. rewrite Hv. simpl. f_equal. apply IH.
    intros k' Hk'. apply Hl. set_solver. }
  apply Hgo. intros k Hk. apply elem_of_relocated_keys in Hk as [_ Hk].
  by apply dict_get_is_Some.
Qed.

(** The key of a buffer is not among the keys freed along with it. *)
Lemma gpu_prefix_not_self id : startswith (gpu_prefix id) id = false.
Proof.
  destruct (startswith _ _) eqn:E; [|done]. apply startswith_inv in E as [r Hr].
  apply (f_equal String.length) in Hr. unfold gpu_prefix in Hr.
  rewrite !string_length_app in Hr. simpl in Hr. lia.
Qed.

Lemma relocated_items_nil id d :
  (forall k, startswith (gpu_prefix id) k = true -> dict_get k d = None) ->
  relocated_items id d = [].
Proof.
  intros Hn. destruct (relocated_items id d) as [|[k v] l] eqn:E; [done|].
  assert (k ∈ relocated_keys id d) as Hk.
  { rewrite <- relocated_items_fst, E. simpl. set_solver. }
  apply elem_of_relocated_keys in Hk as [Hp Hk].
  apply dict_get_None in Hk; [done|]. by apply Hn.
Qed.

Lemma startswith_relocate_key id gpu : startswith (gpu_prefix id) (relocate_key id gpu) = true.
Proof.
  apply startswith_spec. exists (str_of_Z gpu). unfold relocate_key, gpu_prefix.
  by rewrite string_app_assoc.
Qed.

(** What a turn of the loop does to the dictionaries. *)
Lemma free_item_buffers id k item s :
  exists s', free_item id (k, item) s = (Ret tt, s') /\
    ALLOCATED_BUFFERS s' =
      (if bool_decide (k = id) then ALLOCATED_BUFFERS s else dict_pop k (ALLOCATED_BUFFERS s)) /\
    KNOWN_CLAIMS s' = KNOWN_CLAIMS s /\ threads s' = threads s /\ conns s' = conns s /\
    rpc_context s' = rpc_context s /\
    (is_Some (cuda_allocator s') <-> is_Some (cuda_allocator s)).
Proof.
  unfold free_item. rewrite bind_unfold. simpl. unfold with_allocator, py_except.
  destruct (cuda_allocator s) as [a|] eqn:Ea; simpl.
  - rewrite !bind_unfold. rewrite Ea.
    set (m := (_ ≫= _) : py (CudaAllocator W) unit).
    assert (keeps (fun _ => True) m) as Hm.
    { unfold m. keeps_tac. }
    specialize (Hm a I). destruct (m a) as [[[]|e|] a']; [| |done]; simpl;
      destruct (bool_decide (k = id)); simpl; eexists; (split; [done|]); split_and!; try done; simpl;
      rewrite Ea; by split; eauto.
  - rewrite bind_unfold. simpl. destruct (bool_decide (k = id)); simpl; eexists; (split; [done|]);
      split_and!; try done; simpl; by rewrite Ea.
Qed.

(** Freeing a list of items removes their keys, the buffer's own excepted. *)
Lemma free_items_buffers id items s :
  dict_wf (ALLOCATED_BUFFERS s) ->
  exists s', py_for items (free_item id) s = (Ret tt, s') /\
    dict_wf (ALLOCATED_BUFFERS s') /\
    (forall k, dict_get k (ALLOCATED_BUFFERS s') =
       if bool_decide (k ∈ items.*1 /\ k <> id) then None else dict_get k (ALLOCATED_BUFFERS s)) /\
    KNOWN_CLAIMS s' = KNOWN_CLAIMS s /\ threads s' = threads s /\ conns s' = conns s /\
    rpc_context s' = rpc_context s /\
    (is_Some (cuda_allocator s') <-> is_Some (cuda_allocator s)).
Proof.
  revert s. induction items as [|[k item] items IH]; intros s Hwf.
  - eexists. split; [done|]. by split_and!.
  - cbn [py_for]. destruct (free_item_buffers id k item s) as (s1 & E1 & Hb & Hc & Ht & Hn & Hr & Ha).
    rewrite bind_unfold, E1.
    destruct (IH s1) as (s2 & E2 & Hwf2 & Hg & Hc2 & Ht2 & Hn2 & Hr2 & Ha2).
    { rewrite Hb. case_bool_decide; auto with wpi. }
    exists s2. split; [done|]. split; [done|].
    split; [|repeat (split; [congruence|]); by rewrite Ha2, Ha]. intros k'.
    rewrite Hg, Hb. simpl.
    destruct (decide (k = id)) as [->|Hk].
    + rewrite (bool_decide_eq_true_2 (id = id)) by done.
      repeat case_bool_decide; try done; set_solver.
    + rewrite (bool_decide_eq_false_2 (k = id)) by done. rewrite dict_get_pop by done.
      destruct (decide (k = k')) as [->|Hk'];
        repeat case_bool_decide; try done; set_solver.
Qed.

(** The last reference removes the buffer and the entries with its prefix. *)
Lemma free_all_run id info s :
  dict_wf (ALLOCATED_BUFFERS s) ->
  exists s', free_all id info s = (Ret tt, s') /\
    dict_wf (ALLOCATED_BUFFERS s') /\
    (forall k, dict_get k (ALLOCATED_BUFFERS s') =
       if bool_decide (k = id \/ startswith (gpu_prefix id) k = true) then None
       else dict_get k (ALLOCATED_BUFFERS s)) /\
    KNOWN_CLAIMS s' = KNOWN_CLAIMS s /\ threads s' = threads s /\ conns s' = conns s /\
    rpc_context s' = rpc_context s /\
    (is_Some (cuda_allocator s') <-> is_Some (cuda_allocator s)).
Proof.
  intros Hwf. unfold free_all. rewrite bind_unfold. cbn [py_get].
  destruct (free_items_buffers id ((id, info) :: relocated_items id (ALLOCATED_BUFFERS s)) s Hwf)
    as (s1 & E1 & Hwf1 & Hg & Hc & Ht & Hn & Hr & Ha).
  rewrite bind_unfold, E1. eexists. split; [done|]. simpl. split_and!; try done.
  { auto with wpi. }
  intros k. rewrite dict_get_pop, Hg by done. rewrite fmap_cons, relocated_items_fst. simpl.
  destruct (decide (id = k)) as [->|Hk]; [by rewrite bool_decide_eq_true_2 by eauto|].
  destruct (dict_get k (ALLOCATED_BUFFERS s)) as [b|] eqn:Eb; [|by repeat case_bool_decide].
  assert (k ∈ dict_keys (ALLOCATED_BUFFERS s)) as Hin by (apply dict_get_is_Some; eauto).
  assert (k ∈ id :: relocated_keys id (ALLOCATED_BUFFERS s) /\ k <> id <->
          k = id \/ startswith (gpu_prefix id) k = true) as Hiff.
  { rewrite !elem_of_cons, elem_of_relocated_keys. naive_solver. }
  by rewrite (bool_decide_ext _ _ Hiff).
Qed.
End lemmas.

(** ** Lemmas: the handler *)

Section handler.
Context {W C : Type} `{CudaApi W} `{GrpcContext C} `{!GrpcLaws C}.
Implicit Types (s : Driver W C).

Lemma drop_reference_last id b n s :
  dict_wf (ALLOCATED_BUFFERS s) ->
  dict_get id (ALLOCATED_BUFFERS s) = Some b -> bi_ref_count b = Some n -> n <= 1 ->
  drop_reference id s =
    free_all id (set_ref_count (n - 1) b)
      (set_buffers (dict_set id (set_ref_count (n - 1) b)) s).
Proof.
  intros Hwf Hb Hn Hle. unfold drop_reference.
  rewrite bind_unfold, (get_buffer_run _ b) by done. rewrite bind_unfold, Hn. cbn [py_some].
  simpl. rewrite bind_unfold. simpl.
  assert ((n - 1 <=? 0) = true) as -> by (apply Z.leb_le; lia). done.
Qed.

Lemma drop_reference_shared id b n s :
  dict_get id (ALLOCATED_BUFFERS s) = Some b -> bi_ref_count b = Some n -> 1 < n ->
  drop_reference id s = (Ret tt, set_buffers (dict_set id (set_ref_count (n - 1) b)) s).
Proof.
  intros Hb Hn Hle. unfold drop_reference.
  rewrite bind_unfold, (get_buffer_run _ b) by done. rewrite bind_unfold, Hn. cbn [py_some].
  simpl. rewrite bind_unfold. simpl.
  assert ((n - 1 <=? 0) = false) as -> by (apply Z.leb_gt; lia). done.
Qed.

Lemma unstage_body_known claim id b s :
  KNOWN_CLAIMS s !! claim = Some id -> dict_get id (ALLOCATED_BUFFERS s) = Some b ->
  unstage_body claim s = drop_reference id (set_claims (delete claim) s).
Proof.
  intros Hc Hb. unfold unstage_body. rewrite bind_unfold. simpl. rewrite Hc.
  rewrite bind_unfold. simpl. rewrite bind_unfold. simpl.
  rewrite (proj2 (dict_mem_true _ _)) by eauto. done.
Qed.

(** A body that returns without touching the context is an OK reply. *)
Lemma rpc_except_ret {A} (body : py (Driver W C) A) a s s' :
  body (set_context ctx_new s) = (Ret a, s') -> rpc_context s' = ctx_new ->
  rpc (py_except body is_Exception (fun e => abort INTERNAL (exn_str e))) s = (RpcOk a, s').
Proof. intros E Hc. unfold rpc, py_except. rewrite E, Hc. by rewrite law_new_status. Qed.

Lemma unstage_last_run claim id b n s :
  dict_wf (ALLOCATED_BUFFERS s) ->
  KNOWN_CLAIMS s !! claim = Some id ->
  dict_get id (ALLOCATED_BUFFERS s) = Some b -> bi_ref_count b = Some n -> n <= 1 ->
  exists s',
    rpc (NodeUnstageWeight claim) s = (RpcOk tt, s') /\
    KNOWN_CLAIMS s' = delete claim (KNOWN_CLAIMS s) /\
    dict_wf (ALLOCATED_BUFFERS s') /\
    (forall k, dict_get k (ALLOCATED_BUFFERS s') =
       if bool_decide (k = id \/ startswith (gpu_prefix id) k = true) then None
       else dict_get k (ALLOCATED_BUFFERS s)).
Proof.
  intros Hwf Hc Hb Hn Hle. set (s0 := set_claims (delete claim) (set_context ctx_new s)).
  destruct (free_all_run id (set_ref_count (n - 1) b)
              (set_buffers (dict_set id (set_ref_count (n - 1) b)) s0))
    as (s' & E & Hwf' & Hg & Hk & _ & _ & Hr & _); [simpl; auto with wpi|].
  exists s'. split; [|split; [|split; [done|]]].
  - apply rpc_except_ret; [|by rewrite Hr]. rewrite (unstage_body_known claim id b) by done.
    by rewrite (drop_reference_last id b n) by done.
  - by rewrite Hk.
  - intros k. rewrite Hg. simpl. case_bool_decide as Hd; [done|].
    rewrite dict_get_set_ne; [done|]. intros ->. apply Hd. by left.
Qed.

Lemma unstage_shared_run claim id b n s :
  KNOWN_CLAIMS s !! claim = Some id ->
  dict_get id (ALLOCATED_BUFFERS s) = Some b -> bi_ref_count b = Some n -> 1 < n ->
  exists s',
    rpc (NodeUnstageWeight claim) s = (RpcOk tt, s') /\
    KNOWN_CLAIMS s' = delete claim (KNOWN_CLAIMS s) /\
    (dict_wf (ALLOCATED_BUFFERS s) -> dict_wf (ALLOCATED_BUFFERS s')) /\
    dict_get id (ALLOCATED_BUFFERS s') = Some (set_ref_count (n - 1) b) /\
    (forall k, k <> id -> dict_get k (ALLOCATED_BUFFERS s') = dict_get k (ALLOCATED_BUFFERS s)) /\
    cuda_allocator s' = cuda_allocator s.
Proof.
  intros Hc Hb Hn Hlt. set (s0 := set_claims (delete claim) (set_context ctx_new s)).
  exists (set_buffers (dict_set id (set_ref_count (n - 1) b)) s0). split.
  - apply rpc_except_ret; [|done]. rewrite (unstage_body_known claim id b) by done.
    by apply drop_reference_shared.
  - simpl. split_and!; try done; [auto with wpi|apply dict_get_set_eq|].
    intros k Hk. by rewrite dict_get_set_ne.
Qed.
End handler.

(** ** Lemmas: staging, then unstaging *)

Section stage_unstage.
Context {W C : Type} `{CudaApi W} `{GrpcContext C} `{!GrpcLaws C}.
Context (obs : W -> cuda_obs) `{!CudaLaws W obs}.
Implicit Types (s : Driver W C) (b : BufferInfo).

(** The allocation of an item is given back when its recorded size is the mapped one. *)
Lemma free_item_run id b s a r a' :
  cuda_allocator s = Some a ->
  has_context (bi_gpu_id b) a ->
  (forall a1, obs (libcuda a1) = obs (libcuda a) ->
     exists a2, free (bi_handle b) (bi_device_ptr b) (bi_size_bytes b) a1 = (r, a2) /\
       obs (libcuda a2) = a' /\ r <> Stuck) ->
  exists a2, free_item id (id, b) s =
      (Ret tt, add_closed_fd (bi_fd b) (set_allocator (Some a2) s)) /\
    obs (libcuda a2) = a'.
Proof.
  intros Ha [ctx Hctx] Hfree. unfold free_item. rewrite bind_unfold. simpl. rewrite Ha.
  rewrite bind_unfold. simpl. rewrite bind_unfold.
  unfold py_except, with_allocator. rewrite Ha. rewrite bind_unfold.
  unfold get_or_create_context. rewrite bind_unfold. cbn [py_get]. rewrite Hctx. simpl.
  rewrite bind_unfold. pose proof (law_ctx_set ctx (libcuda a)) as Hset.
  unfold cuda_call. destruct (cuCtxSetCurrent ctx (libcuda a)) as [st w]. simpl in Hset.
  destruct (Hfree (set_libcuda w a) Hset) as (a2 & Ef & Ho & Hr). rewrite Ef.
  exists a2. split; [|done]. rewrite bool_decide_eq_true_2 by done.
  destruct r as [[]|e|]; [done|done|done].
Qed.

(** The unstage of the only claim of a buffer without copies. *)
Lemma unstage_only_claim claim id b s a r o :
  KNOWN_CLAIMS s !! claim = Some id ->
  dict_wf (ALLOCATED_BUFFERS s) ->
  dict_get id (ALLOCATED_BUFFERS s) = Some b -> bi_ref_count b = Some 1 ->
  (forall k, startswith (gpu_prefix id) k = true -> dict_get k (ALLOCATED_BUFFERS s) = None) ->
  cuda_allocator s = Some a -> has_context (bi_gpu_id b) a ->
  (forall a1, obs (libcuda a1) = obs (libcuda a) ->
     exists a2, free (bi_handle b) (bi_device_ptr b) (bi_size_bytes b) a1 = (r, a2) /\
       obs (libcuda a2) = o /\ r <> Stuck) ->
  exists s' a2, rpc (NodeUnstageWeight claim) s = (RpcOk tt, s') /\
    cuda_allocator s' = Some a2 /\ obs (libcuda a2) = o /\
    closed_fds s' = closed_fds s ++ [bi_fd b] /\
    KNOWN_CLAIMS s' = delete claim (KNOWN_CLAIMS s) /\
    ALLOCATED_BUFFERS s' = dict_pop id (dict_set id (set_ref_count 0 b) (ALLOCATED_BUFFERS s)).
Proof.
  intros Hc Hwf Hb Hn Hno Ha Hctx Hfree.
  set (s1 := set_buffers (dict_set id (set_ref_count 0 b))
               (set_claims (delete claim) (set_context ctx_new s))).
  destruct (free_item_run id (set_ref_count 0 b) s1 a r o Ha Hctx Hfree) as (a2 & Ef & Ho).
  eexists (set_buffers (dict_pop id) (add_closed_fd (bi_fd b) (set_allocator (Some a2) s1))), a2.
  split.
  - apply rpc_except_ret; [|done]. rewrite (unstage_body_known claim id b) by done.
    rewrite (drop_reference_last id b 1) by done. change (1 - 1) with 0. fold s1.
    unfold free_all. rewrite bind_unfold. cbn [py_get]. rewrite relocated_items_nil.
    2: { intros k Hk. simpl. rewrite dict_get_set_ne; [by apply Hno|].
         intros ->. by rewrite gpu_prefix_not_self in Hk. }
    rewrite bind_unfold. cbn [py_for]. rewrite bind_unfold, Ef. done.
  - done.
Qed.
End stage_unstage.

(** ** Properties *)

Section properties.
Context {W C : Type} `{CudaApi W} `{GrpcContext C} `{!GrpcLaws C}.
Implicit Types (s : Driver W C).

(** C16: unstaging the claim that holds the last reference removes the buffer and every
    entry whose key has its [_gpu] prefix, keeps all others, and forgets the claim. *)
Theorem unstage_last_frees claim id b n s :
  dict_wf (ALLOCATED_BUFFERS s) ->
  KNOWN_CLAIMS s !! claim = Some id ->
  dict_get id (ALLOCATED_BUFFERS s) = Some b -> bi_ref_count b = Some n -> n <= 1 ->
  exists s',
    rpc (NodeUnstageWeight claim) s = (RpcOk tt, s') /\
    KNOWN_CLAIMS s' = delete claim (KNOWN_CLAIMS s) /\
    (forall k, dict_get k (ALLOCATED_BUFFERS s') =
       if bool_decide (k = id \/ startswith (gpu_prefix id) k = true) then None
       else dict_get k (ALLOCATED_BUFFERS s)).
Proof.
  intros Hwf Hc Hb Hn Hle.
  destruct (unstage_last_run claim id b n s) as (s' & E & Hk & _ & Hg); eauto.
Qed.

(** Unstaging a claim of a buffer with more references only drops one of them. *)
Theorem unstage_shared_keeps claim id b n s :
  KNOWN_CLAIMS s !! claim = Some id ->
  dict_get id (ALLOCATED_BUFFERS s) = Some b -> bi_ref_count b = Some n -> 1 < n ->
  exists s',
    rpc (NodeUnstageWeight claim) s = (RpcOk tt, s') /\
    KNOWN_CLAIMS s' = delete claim (KNOWN_CLAIMS s) /\
    dict_get id (ALLOCATED_BUFFERS s') = Some (set_ref_count (n - 1) b) /\
    (forall k, k <> id -> dict_get k (ALLOCATED_BUFFERS s') = dict_get k (ALLOCATED_BUFFERS s)) /\
    cuda_allocator s' = cuda_allocator s.
Proof.
  intros Hc Hb Hn Hlt.
  destruct (unstage_shared_run claim id b n s) as (s' & E & Hk & _ & Hg); eauto.
Qed.

(** Unstaging a claim that is not registered, in particular a second time, replies
    OK and changes nothing but the context of the request. *)
Theorem unstage_unknown_noop claim s :
  KNOWN_CLAIMS s !! claim = None ->
  rpc (NodeUnstageWeight claim) s = (RpcOk tt, set_context ctx_new s).
Proof.
  intros Hc. apply rpc_except_ret; [|done]. unfold unstage_body.
  rewrite bind_unfold. simpl. by rewrite Hc.
Qed.

(** NodeRegisterWeight replies with the printed handle of a staged buffer and with
    NOT_FOUND otherwise; it changes nothing but the context. *)
Theorem register_weight_spec id s :
  match dict_get id (ALLOCATED_BUFFERS s) with
  | Some b => rpc (NodeRegisterWeight id) s = (RpcOk (str_of_Z (bi_handle b)), set_context ctx_new s)
  | None => exists s', rpc (NodeRegisterWeight id) s =
              (RpcFailed NOT_FOUND ("Buffer " +:+ id +:+ " not found"), s') /\
              ALLOCATED_BUFFERS s' = ALLOCATED_BUFFERS s
  end.
Proof.
  unfold rpc, NodeRegisterWeight. rewrite bind_unfold. simpl.
  destruct (dict_get id (ALLOCATED_BUFFERS s)) as [b|] eqn:Eb.
  - rewrite (proj2 (dict_mem_true _ _)) by eauto. rewrite bind_unfold. simpl.
    rewrite bind_unfold, (get_buffer_run _ b) by done. simpl. by rewrite law_new_status.
  - rewrite (proj2 (dict_mem_false _ _)) by done. simpl. rewrite bind_unfold, abort_run. simpl.
    rewrite law_abort_status. by eexists.
Qed.
End properties.

Section roundtrip.
Context {W C : Type} `{CudaApi W} `{GrpcContext C} `{!GrpcLaws C} (env : Env).
Context (obs : W -> cuda_obs) `{!CudaLaws W obs}.
Context (g : Z) (Hg : 0 < g).
Context (Hgran : forall p f w, (cuMemGetAllocationGranularity p f w).1 = (0, g)).
Implicit Types (s : Driver W C) (request : NodeStageWeightRequest).

(** A fresh claim for a fresh buffer without source file, and an allocation that
    succeeds. *)
Definition fresh_stage request a a' fd handle device_ptr s : Prop :=
  let id := stage_effective_id request in
  let gpu_id := stage_gpu_id env (stage_sharded request) (st_shard_index request) in
  KNOWN_CLAIMS s !! st_claim_id request = None /\
  dict_wf (ALLOCATED_BUFFERS s) /\
  (forall k, k = id \/ startswith (gpu_prefix id) k = true -> dict_get k (ALLOCATED_BUFFERS s) = None) /\
  socket_dir_permitted env = true /\
  st_source_path request = "" /\
  cuda_allocator s = Some a /\
  stage_allocate (weight_size_bytes (st_size_bytes request)) gpu_id a =
    (Ret (fd, handle, device_ptr), a').

(** Stage then unstage, when [free] of the recorded size ends with the observation [o]. *)
Lemma stage_then_unstage request a a' fd handle device_ptr s r o :
  fresh_stage request a a' fd handle device_ptr s ->
  (forall a1, obs (libcuda a1) = obs (libcuda a') ->
     exists a2, free handle device_ptr (weight_size_bytes (st_size_bytes request)) a1 = (r, a2) /\
       obs (libcuda a2) = o /\ r <> Stuck) ->
  exists s1 s2 a2,
    rpc (NodeStageWeight env request) s = (RpcOk tt, s1) /\
    rpc (NodeUnstageWeight (st_claim_id request)) s1 = (RpcOk tt, s2) /\
    ALLOCATED_BUFFERS s2 = ALLOCATED_BUFFERS s /\
    KNOWN_CLAIMS s2 = KNOWN_CLAIMS s /\
    cuda_allocator s2 = Some a2 /\ obs (libcuda a2) = o.
Proof.
  intros (Hc & Hwf & Hno & Hdir & Hsrc & Ha & Halloc) Hfree.
  destruct (stage_new_run env request a a' fd handle device_ptr s) as (s1 & E1 & Hb & Hk & Ha1 & _);
    [by auto..|].
  destruct (stage_allocate_inv obs _ _ _ _ _ Halloc) as [Hctx _].
  edestruct (unstage_only_claim obs (st_claim_id request) (stage_effective_id request))
    as (s2 & a2 & E2 & Ha2 & Ho & _ & Hc2 & Hb2);
    [rewrite Hk; apply lookup_insert_eq|rewrite Hb; auto with wpi|rewrite Hb; apply dict_get_set_eq
    |done| |apply Ha1|apply Hctx|apply Hfree|].
  { intros k Hpre. rewrite Hb, dict_get_set_ne; [apply Hno; by right|].
    intros <-. by rewrite gpu_prefix_not_self in Hpre. }
  exists s1, s2, a2. split_and!; try done.
  - rewrite Hb2, Hb, dict_set_set. apply dict_pop_set. apply Hno. by left.
  - rewrite Hc2, Hk. by apply delete_insert_id.
Qed.

(** C4: staging a fresh buffer of a size that is a multiple of the granularity and then
    unstaging its claim restores the dictionaries and all the device memory. *)
Theorem stage_unstage_restores request a a' fd handle device_ptr s :
  let size := weight_size_bytes (st_size_bytes request) in
  fresh_stage request a a' fd handle device_ptr s ->
  0 <= size < 2 ^ 64 -> size mod g = 0 ->
  exists s1 s2 a2,
    rpc (NodeStageWeight env request) s = (RpcOk tt, s1) /\
    rpc (NodeUnstageWeight (st_claim_id request)) s1 = (RpcOk tt, s2) /\
    ALLOCATED_BUFFERS s2 = ALLOCATED_BUFFERS s /\ KNOWN_CLAIMS s2 = KNOWN_CLAIMS s /\
    cuda_allocator s2 = Some a2 /\ obs (libcuda a2) = obs (libcuda a).
Proof using CudaLaws0 GrpcLaws0 Hg Hgran.
  intros size Hf Hs Hmod. eapply (stage_then_unstage request a a' fd handle device_ptr s); [done|]. intros a1 Ho1.
  destruct Hf as (_ & _ & _ & _ & _ & _ & Halloc).
  destruct (stage_allocate_inv obs _ _ _ _ _ Halloc) as (_ & a0 & E & Ho0).
  destruct (allocate_inv obs g Hgran _ _ _ _ _ _ _ E) as (Hh & Hp & Hl & Hr & Hm & Ho).
  fold size in Ho. rewrite round_up_id in Ho by done.
  destruct (free_exact obs handle device_ptr size a1) as (a2 & Ef & Hf); [|done..|].
  { rewrite Ho1, Ho. apply obs_allocate_allocated. }
  exists a2. split; [exact Ef|]. split; [|done].
  rewrite Hf, Ho1, Ho, Ho0. apply obs_free_allocate; by rewrite <- Ho0.
Qed.

(** C35: when the size is not a multiple of the granularity, both requests still reply OK
    and the driver forgets the buffer, but [free] failed: the rounded allocation stays
    live, reserved and mapped for the life of the process. *)
Theorem stage_unstage_unaligned_leaks request a a' fd handle device_ptr s :
  let size := weight_size_bytes (st_size_bytes request) in
  fresh_stage request a a' fd handle device_ptr s ->
  0 <= size -> size + g <= 2 ^ 64 -> size mod g <> 0 ->
  exists s1 s2 a2,
    rpc (NodeStageWeight env request) s = (RpcOk tt, s1) /\
    rpc (NodeUnstageWeight (st_claim_id request)) s1 = (RpcOk tt, s2) /\
    ALLOCATED_BUFFERS s2 = ALLOCATED_BUFFERS s /\ KNOWN_CLAIMS s2 = KNOWN_CLAIMS s /\
    cuda_allocator s2 = Some a2 /\
    obs (libcuda a2) = obs_allocate handle device_ptr (round_up size g) (obs (libcuda a)).
Proof using CudaLaws0 GrpcLaws0 Hg Hgran.
  intros size Hf Hs Hb Hmod. eapply (stage_then_unstage request a a' fd handle device_ptr s); [done|]. intros a1 Ho1.
  destruct Hf as (_ & _ & _ & _ & _ & _ & Halloc).
  destruct (stage_allocate_inv obs _ _ _ _ _ Halloc) as (_ & a0 & E & Ho0).
  destruct (allocate_inv obs g Hgran _ _ _ _ _ _ _ E) as (Hh & Hp & Hl & Hr & Hm & Ho).
  pose proof (round_up_lt size g Hg). pose proof (round_up_ge size g Hg).
  pose proof (round_up_neq size g Hg Hmod). fold size in Ho.
  rewrite (wrap64_small (round_up size g)) in Ho by lia.
  destruct (free_mismatch obs handle device_ptr size (round_up size g) a1) as (a2 & Ef & Hf);
    [rewrite Ho1, Ho; apply lookup_insert_eq|done|rewrite wrap64_small by lia; congruence|].
  exists a2. split; [exact Ef|]. split; [|done]. by rewrite Hf, Ho1, Ho, Ho0.
Qed.
End roundtrip.

(** ** Witnesses *)

(** Two claims share a buffer that also has a copy on GPU 1. *)
Definition shared_driver : Demo.driver :=
  let s := (rpc (NodeStageWeight Demo.env (Demo.request "c2" "m" (4 * MiB)))
              (Demo.staged "c1" "m" (4 * MiB))).2 in
  set_buffers (dict_set "m_gpu1" (staged_entry (Demo.request "" "" 0) (4 * MiB) 1 9 7 0)) s.

Lemma unstage_last_frees_witness :
  exists s',
    rpc (NodeUnstageWeight "c2") (rpc (NodeUnstageWeight "c1") shared_driver).2 = (RpcOk tt, s') /\
    dict_get "m" (ALLOCATED_BUFFERS s') = None /\
    dict_get "m_gpu1" (ALLOCATED_BUFFERS s') = None.
Proof.
  set (s := (rpc (NodeUnstageWeight "c1") shared_driver).2).
  destruct (unstage_last_frees "c2" "m" (Demo.staged_info 0 s "m") 1 s) as (s' & E & _ & Hg).
  - apply (bool_decide_unpack _). vm_compute. exact I.
  - vm_compute. reflexivity.
  - vm_compute. reflexivity.
  - vm_compute. reflexivity.
  - lia.
  - exists s'. split; [exact E|]. rewrite !Hg. split; reflexivity.
Defined.

Lemma unstage_shared_keeps_witness :
  exists s', rpc (NodeUnstageWeight "c1") shared_driver = (RpcOk tt, s') /\
    bi_ref_count <$> dict_get "m" (ALLOCATED_BUFFERS s') = Some (Some 1).
Proof.
  destruct (unstage_shared_keeps "c1" "m" (Demo.staged_info 0 shared_driver "m") 2 shared_driver)
    as (s' & E & _ & Hg & _); [vm_compute; reflexivity..|].
  exists s'. split; [exact E|]. rewrite Hg. reflexivity.
Defined.

Lemma unstage_unknown_noop_witness :
  rpc (NodeUnstageWeight "c9") shared_driver = (RpcOk tt, set_context ctx_new shared_driver).
Proof. apply (unstage_unknown_noop "c9" shared_driver). reflexivity. Defined.

Lemma register_weight_spec_witness :
  rpc (NodeRegisterWeight "m_gpu1") shared_driver = (RpcOk "7", set_context ctx_new shared_driver).
Proof. exact (register_weight_spec "m_gpu1" shared_driver). Defined.

Lemma stage_status_ok_or_internal_witness :
  (rpc (NodeStageWeight Demo.env (Demo.request "c9" "m_gpu1" 0)) shared_driver).1 = RpcOk tt \/
  exists details,
    (rpc (NodeStageWeight Demo.env (Demo.request "c9" "m_gpu1" 0)) shared_driver).1 =
      RpcFailed INTERNAL details.
Proof. apply (stage_status_ok_or_internal Demo.env). Defined.

(** The allocator after the stage of [size] bytes on the fresh driver. *)
Definition demo_after (size : Z) : CudaAllocator Sim.sim :=
  (stage_allocate size 0 Demo.allocator0).2.

Lemma demo_fresh_stage size :
  size <> 0 -> stage_allocate size 0 Demo.allocator0 = (Ret (3, 0, 2 ^ 40), demo_after size) ->
  fresh_stage Demo.env (Demo.request "c1" "m" size) Demo.allocator0 (demo_after size)
    3 0 (2 ^ 40) Demo.start.
Proof.
  intros Hs E. unfold fresh_stage. split_and!; try done; simpl.
  - constructor.
  - unfold weight_size_bytes. apply Z.eqb_neq in Hs. by rewrite Hs.
Qed.

Lemma stage_unstage_restores_witness :
  exists s1 s2 a2,
    rpc (NodeStageWeight Demo.env (Demo.request "c1" "m" (4 * MiB))) Demo.start = (RpcOk tt, s1) /\
    rpc (NodeUnstageWeight "c1") s1 = (RpcOk tt, s2) /\
    ALLOCATED_BUFFERS s2 = [] /\ KNOWN_CLAIMS s2 = ∅ /\
    cuda_allocator s2 = Some a2 /\
    Sim.sim_obs (libcuda a2) = Sim.sim_obs (libcuda Demo.allocator0).
Proof.
  apply (stage_unstage_restores Demo.env Sim.sim_obs Sim.granule ltac:(done) sim_granularity
    (Demo.request "c1" "m" (4 * MiB)) Demo.allocator0 (demo_after (4 * MiB)) 3 0 (2 ^ 40) Demo.start).
  - apply demo_fresh_stage; [done|]. vm_compute. reflexivity.
  - done.
  - done.
Defined.

Lemma stage_unstage_unaligned_leaks_witness :
  exists s1 s2 a2,
    rpc (NodeStageWeight Demo.env (Demo.request "c1" "m" (3 * MiB))) Demo.start = (RpcOk tt, s1) /\
    rpc (NodeUnstageWeight "c1") s1 = (RpcOk tt, s2) /\
    ALLOCATED_BUFFERS s2 = [] /\ KNOWN_CLAIMS s2 = ∅ /\
    cuda_allocator s2 = Some a2 /\
    Sim.sim_obs (libcuda a2) =
      obs_allocate 0 (2 ^ 40) (4 * MiB) (Sim.sim_obs (libcuda Demo.allocator0)).
Proof.
  apply (stage_unstage_unaligned_leaks Demo.env Sim.sim_obs Sim.granule ltac:(done) sim_granularity
    (Demo.request "c1" "m" (3 * MiB)) Demo.allocator0 (demo_after (3 * MiB)) 3 0 (2 ^ 40) Demo.start).
  - apply demo_fresh_stage; [done|]. vm_compute. reflexivity.
  - done.
  - done.
  - done.
Defined.
