(* ===== verification/Names.v ===== *)
(** * The names of buffers and sockets (driver/main.py)

    A request stages a buffer or a shard of one; the driver derives one id from it, and from
    the id two socket paths, in the directory in which its own gRPC socket lies. When do two
    requests get the same name? *)

From S2P Require Import Prelude PyMonad PyText PyDict Cuda Allocator NodeState Stage Unstage.

(** The path of the gRPC socket, of serve(). *)
Definition GRPC_SOCKET : string := SOCKET_DIR +:+ "/wpi-grpc.sock".

(** What a request names: a buffer, or a shard of a buffer. *)
Definition staged_name (buffer_id : string) (shard_index total_shards : Z) : string * option Z :=
  (buffer_id, if is_sharded shard_index total_shards then Some shard_index else None).

(** An id whose sockets lie in the directory. *)
Definition relative (id : string) : Prop := startswith "/" id = false.

(** ** Lemmas: strings *)

(** The text before the last [c] and the text after it. *)
Lemma last_separator c a b d1 d2 :
  has_char c d1 = false -> has_char c d2 = false ->
  a +:+ String c d1 = b +:+ String c d2 -> a = b /\ d1 = d2.
Proof.
  intros H1 H2. revert b. induction a as [|x a IH]; intros [|y b] E; simpl in E; injection E.
  - done.
  - intros E' ->. exfalso. subst d1. rewrite has_char_app in H1. simpl in H1.
    rewrite Ascii.eqb_refl, orb_true_r in H1. done.
  - intros E' ->. exfalso. subst d2. rewrite has_char_app in H2. simpl in H2.
    rewrite Ascii.eqb_refl, orb_true_r in H2. done.
  - intros E' ->. destruct (IH b E') as [-> ->]. done.
Qed.

Lemma shard_id_split b i : shard_id b i = (b +:+ "__shard") +:+ String "_" (str_of_Z i).
Proof. unfold shard_id. by rewrite string_app_assoc. Qed.

Lemma shard_id_inj b1 i1 b2 i2 : shard_id b1 i1 = shard_id b2 i2 -> b1 = b2 /\ i1 = i2.
Proof.
  rewrite !shard_id_split. intros E.
  apply last_separator in E as [E1 E2]; [|by apply str_of_Z_no_char..].
  split; [by eapply string_app_inj_r|by apply str_of_Z_inj].
Qed.

Lemma app_last_char a c : a +:+ String c "" = "" -> False.
Proof. by destruct a. Qed.

(** A path in the directory. *)
Lemma join_relative id suffix :
  relative (id +:+ suffix) -> os_path_join SOCKET_DIR (id +:+ suffix) = SOCKET_DIR +:+ "/" +:+ id +:+ suffix.
Proof. unfold relative. intros E. unfold os_path_join. by rewrite E. Qed.

Lemma relative_app id suffix :
  relative id -> startswith "/" suffix = false -> relative (id +:+ suffix).
Proof. unfold relative. by destruct id. Qed.

Lemma fd_path id : relative id -> fd_sock_path id = SOCKET_DIR +:+ "/" +:+ id +:+ ".sock".
Proof. intros Hr. apply join_relative. by apply relative_app. Qed.

Lemma notify_path id : relative id -> notify_sock_path_of id = SOCKET_DIR +:+ "/" +:+ (id +:+ "_notify") +:+ ".sock".
Proof.
  intros Hr. unfold notify_sock_path_of. rewrite join_relative by (by apply relative_app).
  by rewrite (string_app_assoc id).
Qed.

Lemma dir_inj (a b : string) : SOCKET_DIR +:+ "/" +:+ a +:+ ".sock" = SOCKET_DIR +:+ "/" +:+ b +:+ ".sock" -> a = b.
Proof. unfold SOCKET_DIR. simpl. intros E. injection E as E. by eapply string_app_inj_r. Qed.

(** A suffix that a prefix cannot give. *)
Lemma notify_not_grpc id : id +:+ "_notify" <> "wpi-grpc".
Proof.
  intros E. assert (String.length id = 1)%nat as Hl.
  { apply (f_equal String.length) in E. rewrite string_length_app in E. simpl in E. lia. }
  destruct id as [|c [|]]; simpl in *; discriminate.
Qed.

(** ** Properties *)

(** Two requests get the same id exactly when they name the same buffer or the same shard
    of one buffer, or one names a shard and the other a whole buffer with the id of that
    shard. *)
Theorem effective_ids_collide b1 i1 n1 b2 i2 n2 :
  effective_buffer_id b1 i1 n1 = effective_buffer_id b2 i2 n2 <->
  staged_name b1 i1 n1 = staged_name b2 i2 n2 \/
  (is_sharded i1 n1 = true /\ staged_name b2 i2 n2 = (shard_id b1 i1, None)) \/
  (is_sharded i2 n2 = true /\ staged_name b1 i1 n1 = (shard_id b2 i2, None)).
Proof.
  unfold effective_buffer_id, staged_name.
  destruct (is_sharded i1 n1), (is_sharded i2 n2); split; intros E.
  - apply shard_id_inj in E as [-> ->]. by left.
  - by destruct E as [[= -> ->]|[[_ E]|[_ E]]].
  - right. left. by rewrite E.
  - by destruct E as [E|[[_ [= ->]]|[E _]]].
  - right. right. by rewrite E.
  - by destruct E as [E|[[E _]|[_ [= ->]]]].
  - left. by rewrite E.
  - by destruct E as [[= ->]|[[E _]|[E _]]].
Qed.

(** C33: among ids without a leading slash, the FD sockets and the notify sockets of different
    buffers differ from each other and from the gRPC socket of the driver, with two exceptions:
    the FD socket of [id_notify] is the notify socket of [id], and the FD socket of [wpi-grpc]
    is the socket of the driver. *)
Theorem socket_paths_collide a b :
  relative a -> relative b ->
  (fd_sock_path a = fd_sock_path b <-> a = b) /\
  (notify_sock_path_of a = notify_sock_path_of b <-> a = b) /\
  (fd_sock_path b = notify_sock_path_of a <-> b = a +:+ "_notify") /\
  (fd_sock_path a = GRPC_SOCKET <-> a = "wpi-grpc") /\
  notify_sock_path_of a <> GRPC_SOCKET.
Proof.
  intros Ha Hb. rewrite !fd_path, !notify_path by done.
  change GRPC_SOCKET with (SOCKET_DIR +:+ "/" +:+ "wpi-grpc" +:+ ".sock").
  split_and!; [split..|]; try (by intros ->); intros E; apply dir_inj in E; try done.
  - by eapply string_app_inj_r.
  - by apply notify_not_grpc in E.
Qed.

(** NodeTranslateAndMap answers with the FD socket of a buffer that has the name of the claim:
    after a new buffer was staged, that is the socket of this buffer only if the claim is named
    like the buffer. *)
Theorem translate_names_the_claim {W C : Type} `{CudaApi W} `{GrpcContext C} `{!GrpcLaws C} (env : Env)
    request a a' fd handle device_ptr (s : Driver W C) :
  let id := stage_effective_id request in
  let claim := st_claim_id request in
  relative id -> relative claim ->
  fresh_stage env request a a' fd handle device_ptr s ->
  exists s' path, rpc (NodeStageWeight env request) s = (RpcOk tt, s') /\
    PassFdServer (fd_sock_path id) id ∈ threads s' /\
    rpc (NodeTranslateAndMap claim) s' = (RpcOk path, set_context ctx_new s') /\
    (path = fd_sock_path id <-> claim = id).
Proof.
  intros id claim Hid Hcl (_ & _ & Hnew & Hdir & Hsrc & Ha & Hal).
  destruct (stage_new_run env request a a' fd handle device_ptr s) as (s' & E & _ & _ & _ & Ht);
    [by apply Hnew; left|done..|].
  exists s', (fd_sock_path claim). split; [done|]. split.
  - rewrite Ht. apply elem_of_app. right. apply elem_of_cons. by left.
  - split; [unfold rpc; simpl; by rewrite law_new_status|].
    rewrite !fd_path by done. split; [apply dir_inj|by intros ->].
Qed.

(** ** Witnesses *)

Lemma translate_names_the_claim_witness :
  exists s' path, rpc (NodeStageWeight Demo.env (Demo.request "c1" "m" (4 * MiB))) Demo.start = (RpcOk tt, s') /\
    PassFdServer (fd_sock_path "m") "m" ∈ threads s' /\
    rpc (NodeTranslateAndMap "c1") s' = (RpcOk path, set_context ctx_new s') /\
    (path = fd_sock_path "m" <-> "c1" = "m").
Proof.
  apply (translate_names_the_claim Demo.env (Demo.request "c1" "m" (4 * MiB)) Demo.allocator0
    (demo_after (4 * MiB)) 3 0 (2 ^ 40) Demo.start); [reflexivity..|].
  apply demo_fresh_stage; [done|]. vm_compute. reflexivity.
Defined.

Lemma socket_paths_collide_witness :
  fd_sock_path "m_notify" = notify_sock_path_of "m" /\ fd_sock_path "wpi-grpc" = GRPC_SOCKET.
Proof.
  split.
  - apply (socket_paths_collide "m" "m_notify"); reflexivity.
  - apply (socket_paths_collide "wpi-grpc" "m"); reflexivity.
Defined.
