(* ===== verification/FdServer.v ===== *)
(** * pass_fd_server and notify_server (driver/main.py)

    One thread per staged buffer hands its file descriptor to the clients of a UNIX
    socket, after copying the buffer to another GPU when the client asks for one; one
    thread per buffer collects the sockets of consumers that wait for notifications.
    An accept loop runs over the sequence of the connections it accepts. *)

From S2P Require Import Prelude PyMonad PyText PyDict Cuda Allocator NodeState Stage Unstage.

(** ** Metadata *)

(** What the text [GPU=n] asks for; 0 for any other text. *)
Definition parse_target_gpu (data : string) : Z :=
  if startswith "GPU=" data then
    match int_of_str (nth 1 (split "=" data) "") with
    | Some n => n
    | None => 0
    end
  else 0.

(** The entry of a relocated copy. *)
Definition relocated_entry (size_bytes target_gpu fd handle device_ptr : Z) : BufferInfo :=
  {| bi_device_ptr := device_ptr;
     bi_size_bytes := size_bytes;
     bi_handle := handle;
     bi_fd := fd;
     bi_gpu_id := target_gpu;
     bi_notify_sockets := [];
     bi_ref_count := None;
     bi_source_path := None;
     bi_shard_index := None;
     bi_total_shards := None;
     bi_parent_buffer := None;
     bi_notify_sock_path := None |}.

Section servers.
Context {W C : Type} `{CudaApi W} `{GrpcContext C} (env : Env).
#[local] Abbreviation state := (Driver W C).

(** [conn.recv(1024).decode('utf-8').strip()]. *)
Definition read_metadata (conn : nat) : py state string :=
  data ← sock_recv conn 1024 ;
  text ← decode_utf8 data ;
  mret (strip text).

(** [get_or_create_context] and [cuCtxSetCurrent] of a GPU. *)
Definition switch_context (gpu : Z) : py (CudaAllocator W) unit :=
  ctx ← get_or_create_context gpu ;
  _ ← cuda_call (cuCtxSetCurrent ctx) ;
  mret tt.

(** [dst_arr[:] = src_arr[:]] over [n] bytes. *)
Definition memcpy_device_to_device (dst src n : Z) : py state unit :=
  if memcpy_ok env dst n then
    with_allocator (py_modify (fun a =>
      let w := libcuda a in
      set_libcuda (cuda_set_memory
        (vram_write dst (vram_read src (Z.to_nat n) (cuda_memory w)) (cuda_memory w)) w) a))
  else py_raise ExceptionK "cudaErrorIllegalAddress: an illegal memory access was encountered".

(** The [try] block of a relocation; the result is the new descriptor. *)
Definition relocate (buffer_id : string) (info : BufferInfo) (target_gpu : Z) : py state Z :=
  let size_bytes := bi_size_bytes info in
  r ← with_allocator (allocate_and_export size_bytes target_gpu) ;
  let '(new_fd, new_handle, new_dptr) := r in
  (if CUPY_AVAILABLE env then
     with_allocator (switch_context (bi_gpu_id info)) ;;
     with_allocator (switch_context target_gpu) ;;
     memcpy_device_to_device new_dptr (bi_device_ptr info) (size_bytes / 2 * 2)
   else py_raise ExceptionK "CuPy not available for D2D copy.") ;;
  put_buffer (relocate_key buffer_id target_gpu)
    (relocated_entry size_bytes target_gpu new_fd new_handle new_dptr) ;;
  mret new_fd.

(** The descriptor to send; [None] after a failed relocation, which was answered. *)
Definition choose_fd (conn : nat) (buffer_id : string) (info : BufferInfo) (target_gpu : Z) :
    py state (option Z) :=
  if negb (target_gpu =? bi_gpu_id info) then
    cached ← buffer_known (relocate_key buffer_id target_gpu) ;
    if (cached : bool) then
      b ← get_buffer (relocate_key buffer_id target_gpu) ; mret (Some (bi_fd b))
    else
      py_except (new_fd ← relocate buffer_id info target_gpu ; mret (Some new_fd))
        is_Exception
        (fun _ => sock_sendall conn (line "ERROR_RELOCATION_FAILED") ;;
                  sock_close conn ;; mret None)
  else mret (Some (bi_fd info)).

(** One accepted connection, inside the [try] of the loop. *)
Definition serve_fd_client_body (buffer_id : string) (conn : nat) : py state unit :=
  data ← read_metadata conn ;
  let target_gpu := parse_target_gpu data in
  staged ← buffer_known buffer_id ;
  if negb staged then sock_close conn
  else
    info ← get_buffer buffer_id ;
    fd_to_send ← choose_fd conn buffer_id info target_gpu ;
    match fd_to_send with
    | None => mret tt
    | Some fd => sock_sendmsg conn (line "OK") [fd] ;; sock_close conn
    end.

Definition serve_fd_client (buffer_id : string) (conn : nat) : py state unit :=
  try: serve_fd_client_body buffer_id conn except: is_Exception as _ => mret tt.

(** [if os.path.exists(p): os.remove(p)]. *)
Definition remove_socket (sock_path : string) : py state unit :=
  exists_ ← py_get (fun s => bool_decide (sock_path ∈ files s)) ;
  py_when exists_ (fs_do env FsRemove sock_path (fun fs => fs ∖ {[sock_path]})).

(** [server.bind(p)], [os.chmod(p, 0o777)]. *)
Definition bind_socket (sock_path : string) : py state unit :=
  taken ← py_get (fun s => bool_decide (sock_path ∈ files s)) ;
  py_when taken (py_raise OSError "[Errno 98] Address already in use") ;;
  fs_do env FsBind sock_path (fun fs => {[sock_path]} ∪ fs) ;;
  fs_do env FsChmod sock_path id.

(** An error before the loop ends the thread. *)
Definition pass_fd_server (sock_path buffer_id : string) (accepted : list nat) : py state unit :=
  remove_socket sock_path ;;
  bind_socket sock_path ;;
  py_for accepted (serve_fd_client buffer_id).

(** One accepted consumer of the notify server. *)
Definition serve_notify_client (buffer_id : string) (conn : nat) : py state unit :=
  staged ← buffer_known buffer_id ;
  if (staged : bool) then
    info ← get_buffer buffer_id ;
    put_buffer buffer_id (set_notify_sockets (bi_notify_sockets info ++ [conn]) info)
  else sock_close conn.

(** An error of [os.remove] is passed over; one of [bind] or [os.chmod] ends the thread,
    and so does one of the loop. *)
Definition notify_server (sock_path buffer_id : string) (accepted : list nat) : py state unit :=
  py_except (remove_socket sock_path) is_OSError (fun _ => mret tt) ;;
  bound ← py_except (bind_socket sock_path ;; mret true) is_OSError (fun _ => mret false) ;
  py_when bound
    (py_except (py_for accepted (serve_notify_client buffer_id)) is_Exception (fun _ => mret tt)).
End servers.

(** The line a client of the FD socket sends. *)
Definition gpu_metadata (gpu_id : Z) : string := line ("GPU=" +:+ str_of_Z gpu_id).

(** ** Lemmas: metadata *)

Lemma strip_line s :
  s <> "" -> str_forall (fun c => negb (is_space c)) s = true -> strip (line s) = s.
Proof.
  intros Hne Hs. unfold strip, line. destruct s as [|c s]; [done|].
  assert (lstrip (String c s +:+ String NL "") = String c s +:+ String NL "") as ->.
  { simpl in *. apply andb_true_iff in Hs as [Hc%negb_true_iff _]. by rewrite Hc. }
  rewrite rstrip_snoc_space by done. by apply rstrip_none.
Qed.

(** Both sides agree on the request. *)
Lemma parse_gpu_metadata n : parse_target_gpu (strip (gpu_metadata n)) = n.
Proof.
  unfold gpu_metadata. rewrite strip_line; [|done|].
  - unfold parse_target_gpu. rewrite startswith_app.
    change ("GPU=" +:+ str_of_Z n) with ("GPU" +:+ String "=" (str_of_Z n)).
    rewrite split_pair; [|done|by apply str_of_Z_no_char]. simpl. by rewrite int_of_str_of_Z.
  - rewrite str_forall_app. by rewrite str_of_Z_not_space.
Qed.

Lemma gpu_metadata_utf8 n : valid_utf8 (gpu_metadata n) = true.
Proof.
  apply valid_utf8_ascii. unfold gpu_metadata, line. rewrite !str_forall_app.
  by rewrite str_of_Z_ascii.
Qed.

(** ** Lemmas: one client *)

Section lemmas.
Context {W C : Type} `{CudaApi W} `{GrpcContext C} (env : Env).
Implicit Types (s : Driver W C) (c : Conn).

(** A client that sent one short line, and has room for any answer. *)
Definition client_sent (data : string) (c : Conn) : Prop :=
  inbox c = [data] /\ (String.length data <= 1024)%nat /\ conn_alive c = true /\
  has_room (line "ERROR_RELOCATION_FAILED") c = true.

(** The connection once the client got [out] and the descriptors. *)
Definition answered (out : string) (fds : list Z) (c : Conn) : Conn :=
  mk_Conn [] (eof c) (spend out c) (outbox c +:+ out) (passed_fds c ++ fds) true.

Lemma read_metadata_run conn data c s :
  conns s !! conn = Some c -> client_sent data c -> valid_utf8 data = true ->
  read_metadata conn s =
    (Ret (strip data),
     set_conns (<[conn := mk_Conn [] (eof c) (room c) (outbox c) (passed_fds c) (closed c)]>) s).
Proof.
  intros Hc (Hin & Hlen & _) Hv. unfold read_metadata, sock_recv, on_conn.
  rewrite bind_unfold, Hc. unfold conn_recv. rewrite Hin.
  rewrite bool_decide_eq_true_2 by done. rewrite bind_unfold. unfold decode_utf8.
  rewrite str_take_all by done. by rewrite Hv.
Qed.

Lemma set_conns_twice f f' s : set_conns f (set_conns f' s) = set_conns (fun m => f (f' m)) s.
Proof. done. Qed.

Lemma answer_run conn data out fds c m s :
  client_sent data c -> blen out <= blen (line "ERROR_RELOCATION_FAILED") ->
  conns s = <[conn := mk_Conn [] (eof c) (room c) (outbox c) (passed_fds c) (closed c)]> m ->
  (sock_sendmsg conn out fds ;; sock_close conn) s =
    (Ret tt, set_conns (fun _ => <[conn := answered out fds c]> m) s).
Proof.
  intros (Hin & Hlen & Ha & Hroom) Hout Hc. unfold sock_sendmsg, on_conn.
  rewrite bind_unfold, Hc, lookup_insert_eq. rewrite conn_send_run.
  2: { unfold has_room in *. simpl. destruct (room c); [|done]. zify_bools. lia. }
  change (conn_alive (mk_Conn [] (eof c) (room c) (outbox c) (passed_fds c) (closed c))) with (conn_alive c).
  rewrite Ha. unfold sock_close, py_modify. rewrite set_conns_twice. unfold set_conns. simpl. do 2 f_equal.
  rewrite Hc. apply map_eq. intros j. destruct (decide (conn = j)) as [->|Hne].
  - by rewrite lookup_alter_eq, !lookup_insert_eq.
  - by rewrite lookup_alter_ne, !lookup_insert_ne.
Qed.

(** The state after the metadata was read. *)
Definition after_read conn c s : Driver W C :=
  set_conns (<[conn := mk_Conn [] (eof c) (room c) (outbox c) (passed_fds c) (closed c)]>) s.

(** A turn, once the descriptor to send is chosen. *)
Lemma serve_fd_client_run id n conn c b fd s s1 :
  conns s !! conn = Some c -> client_sent (gpu_metadata n) c ->
  dict_get id (ALLOCATED_BUFFERS s) = Some b ->
  choose_fd env conn id b n (after_read conn c s) = (Ret (Some fd), s1) ->
  conns s1 = conns (after_read conn c s) ->
  serve_fd_client env id conn s =
    (Ret tt, set_conns (fun _ => <[conn := answered (line "OK") [fd] c]> (conns s)) s1).
Proof.
  intros Hc Hsent Hb Hfd Hs1. unfold serve_fd_client, py_except, serve_fd_client_body.
  rewrite bind_unfold, (read_metadata_run conn (gpu_metadata n) c) by auto using gpu_metadata_utf8.
  rewrite parse_gpu_metadata. fold (after_read conn c s).
  rewrite bind_unfold. simpl. rewrite (proj2 (dict_mem_true _ _)) by eauto. simpl.
  rewrite bind_unfold, (get_buffer_run _ b) by done.
  rewrite bind_unfold, Hfd. cbv beta iota.
  by rewrite (answer_run conn (gpu_metadata n) (line "OK") [fd] c (conns s)) by done.
Qed.

(** A copy that is recorded already is used again. *)
Lemma choose_fd_cached conn id b b' n s :
  n <> bi_gpu_id b -> dict_get (relocate_key id n) (ALLOCATED_BUFFERS s) = Some b' ->
  choose_fd env conn id b n s = (Ret (Some (bi_fd b')), s).
Proof.
  intros Hn%Z.eqb_neq Hb. unfold choose_fd. rewrite Hn. simpl. rewrite bind_unfold. simpl.
  rewrite (proj2 (dict_mem_true _ _)) by eauto. by rewrite bind_unfold, (get_buffer_run _ b').
Qed.

Lemma choose_fd_new conn id b n fd s s1 :
  n <> bi_gpu_id b -> dict_get (relocate_key id n) (ALLOCATED_BUFFERS s) = None ->
  relocate env id b n s = (Ret fd, s1) ->
  choose_fd env conn id b n s = (Ret (Some fd), s1).
Proof.
  intros Hn%Z.eqb_neq Hb Hr. unfold choose_fd. rewrite Hn. simpl. rewrite bind_unfold. simpl.
  rewrite (proj2 (dict_mem_false _ _)) by done. unfold py_except. by rewrite bind_unfold, Hr.
Qed.
End lemmas.

(** ** Lemmas: relocation *)

Section relocation.
Context {W C : Type} `{CudaApi W} `{GrpcContext C} (obs : W -> cuda_obs) `{!CudaLaws W obs}.
Context (env : Env).
Implicit Types (s : Driver W C) (a : CudaAllocator W).

(** Switching to a known context only makes calls that return. *)
Lemma switch_context_run gpu a :
  has_context gpu a ->
  exists w, switch_context gpu a = (Ret tt, set_libcuda w a) /\ obs w = obs (libcuda a).
Proof.
  intros [ctx Hctx]. unfold switch_context. rewrite bind_unfold.
  unfold get_or_create_context. rewrite bind_unfold. cbn [py_get]. rewrite Hctx. simpl.
  rewrite bind_unfold. unfold cuda_call. pose proof (law_ctx_set ctx (libcuda a)) as Hs.
  destruct (cuCtxSetCurrent ctx (libcuda a)) as [st w]. by eexists.
Qed.

Lemma copy_run dst src n a s :
  cuda_allocator s = Some a -> memcpy_ok env dst n = true ->
  memcpy_device_to_device env dst src n s =
    (Ret tt, set_allocator (Some (set_libcuda
      (cuda_set_memory (vram_write dst (vram_read src (Z.to_nat n) (cuda_memory (libcuda a)))
         (cuda_memory (libcuda a))) (libcuda a)) a)) s).
Proof.
  intros Ha Hok. unfold memcpy_device_to_device. rewrite Hok.
  by erewrite with_allocator_run by (done || reflexivity).
Qed.

Lemma allocate_has_context size d a r a' :
  allocate_and_export size d a = (Ret r, a') -> has_context d a'.
Proof.
  unfold allocate_and_export, allocate_prepare. intros E.
  rewrite bind_assoc in E. apply bind_ret_inv in E as (ctx & a1 & E1 & E).
  apply get_or_create_has_context in E1.
  match type of E with ?m _ = _ => assert (preserves (has_context d) m) as Hp end.
  { pose proof (preserves_call_context (W:=W) d). pose proof (preserves_call_out_context (W:=W) d).
    pose proof (preserves_checked_context (W:=W) d).
    pose proof (preserves_checked_out_context (W:=W) d).
    unfold allocate_commit, align_size. preserves_tac. }
  specialize (Hp a1 E1). by rewrite E in Hp.
Qed.

(** A relocation that succeeds: the entry of the copy, and equal contents. *)
Lemma relocate_run id b n fd h p a a' s :
  let bytes := bi_size_bytes b / 2 * 2 in
  cuda_allocator s = Some a -> has_context (bi_gpu_id b) a ->
  CUPY_AVAILABLE env = true -> memcpy_ok env p bytes = true ->
  0 <= bytes -> p + bytes <= bi_device_ptr b \/ bi_device_ptr b + bytes <= p ->
  allocate_and_export (bi_size_bytes b) n a = (Ret (fd, h, p), a') ->
  exists a2,
    relocate env id b n s =
      (Ret fd, set_buffers (dict_set (relocate_key id n) (relocated_entry (bi_size_bytes b) n fd h p))
                 (set_allocator (Some a2) s)) /\
    obs (libcuda a2) = obs (libcuda a') /\
    vram_read p (Z.to_nat bytes) (cuda_memory (libcuda a2)) =
      vram_read (bi_device_ptr b) (Z.to_nat bytes) (cuda_memory (libcuda a2)).
Proof.
  intros bytes Ha Hctx Hcupy Hok Hpos Hdis Halloc.
  pose proof (allocate_has_context _ _ _ _ _ Halloc) as Hn.
  pose proof (preserves_allocate_context (bi_gpu_id b) (bi_size_bytes b) n a Hctx) as Hc.
  rewrite Halloc in Hc. simpl in Hc.
  destruct (switch_context_run (bi_gpu_id b) a' Hc) as (w1 & E1 & O1).
  destruct (switch_context_run n (set_libcuda w1 a') Hn) as (w2 & E2 & O2).
  unfold relocate. rewrite bind_unfold. erewrite with_allocator_run by (apply Ha || apply Halloc).
  rewrite Hcupy, !bind_unfold. erewrite with_allocator_run by (reflexivity || apply E1).
  rewrite bind_unfold. erewrite with_allocator_run by (reflexivity || apply E2).
  erewrite copy_run by (reflexivity || apply Hok). cbn [put_buffer]. simpl.
  eexists. split; [reflexivity|]. split.
  - simpl. rewrite law_memory_obs. simpl in O2. congruence.
  - simpl. rewrite (law_memory_set (obs:=obs)). fold bytes.
    rewrite vram_read_write by (rewrite ?vram_read_length; lia).
    rewrite vram_read_write_other by (rewrite vram_read_length; lia).
    rewrite Z.sub_diag. simpl. rewrite drop_0. apply take_ge. by rewrite vram_read_length.
Qed.

(** Without cupy the copy cannot be made after the allocation was. *)
Lemma relocate_no_cupy id b n r a a' s :
  cuda_allocator s = Some a -> CUPY_AVAILABLE env = false ->
  allocate_and_export (bi_size_bytes b) n a = (Ret r, a') ->
  relocate env id b n s =
    (Raise (mk_exn ExceptionK "CuPy not available for D2D copy."), set_allocator (Some a') s).
Proof.
  intros Ha Hcupy Halloc. unfold relocate. rewrite bind_unfold.
  erewrite with_allocator_run by (apply Ha || apply Halloc). destruct r as [[fd h] p].
  rewrite Hcupy. by rewrite bind_unfold.
Qed.
End relocation.

(** ** Lemmas: any client *)

(** What the first [recv] gets, and the connection after it. *)
Definition first_read (c : Conn) : string :=
  match inbox c with chunk :: _ => str_take 1024 chunk | [] => "" end.

Definition after_recv (c : Conn) : Conn := (conn_recv 1024 c).2.

(** A [recv] returns, and no answer of the server has to wait. *)
Definition served_at_once (c : Conn) : Prop :=
  (inbox c <> [] \/ eof c = true) /\ has_room (line "ERROR_RELOCATION_FAILED") c = true.

(** The connection after an answer and [close]. *)
Definition after_answer (out : string) (fds : list Z) (c : Conn) : Conn :=
  conn_close (sent_on out fds (after_recv c)).

(** What becomes of a client of the server of [id], when the buffers are [d] at the end:
    text that is no UTF-8 is dropped with the connection left open, and so is a client that
    is gone; a client of a buffer that is not staged is hung up on; every other one gets
    OK with the descriptor of the buffer, or of its copy on the GPU that it asked for, or
    hears that there is no such copy. *)
Definition fd_turn (d : dict BufferInfo) (id : string) (c c' : Conn) : Prop :=
  if negb (valid_utf8 (first_read c)) then c' = after_recv c
  else
    let n := parse_target_gpu (strip (first_read c)) in
    match dict_get id d with
    | None => c' = conn_close (after_recv c)
    | Some b =>
        if conn_alive c then
          (exists fd, c' = after_answer (line "OK") [fd] c /\
             (if n =? bi_gpu_id b then fd = bi_fd b
              else exists copy, dict_get (relocate_key id n) d = Some copy /\ bi_fd copy = fd)) \/
          (n <> bi_gpu_id b /\ c' = after_answer (line "ERROR_RELOCATION_FAILED") [] c)
        else c' = after_recv c
    end.

(** The entry of [id] is the same, and every entry is still there. *)
Definition grows (id : string) (d d' : dict BufferInfo) : Prop :=
  dict_get id d' = dict_get id d /\ forall k b, dict_get k d = Some b -> dict_get k d' = Some b.

Lemma fd_turn_grows id d d' c c' : grows id d d' -> fd_turn d id c c' -> fd_turn d' id c c'.
Proof.
  intros [Hid Hk]. unfold fd_turn. rewrite Hid. destruct (negb _); [done|].
  destruct (dict_get id d) as [b|]; [|done]. destruct (conn_alive c); [|done].
  intros [(fd & -> & Hfd)|]; [left|by right]. exists fd. split; [done|].
  destruct (_ =? _); [done|]. destruct Hfd as (copy & Hc & Hf). eauto.
Qed.

Section turns.
Context {W C : Type} `{CudaApi W} `{GrpcContext C} (env : Env).
#[local] Abbreviation state := (Driver W C).
Implicit Types (s : state) (c : Conn).

(** The sockets and the buffers are those of [m] and [d]. *)
Definition at_tables (m : gmap nat Conn) (d : dict BufferInfo) s : Prop :=
  conns s = m /\ ALLOCATED_BUFFERS s = d.

#[local] Instance at_tables_allocator m d : AllocatorFrame (W:=W) (C:=C) (at_tables m d).
Proof. by intros o s. Qed.

(** What follows the reading of the metadata never waits. *)
Lemma keeps_with_allocator_any {A} (m : py (CudaAllocator W) A) :
  keeps (fun _ => True) m -> keeps (fun _ : state => True) (with_allocator m).
Proof.
  intros Hm s Hs. unfold with_allocator. destruct (cuda_allocator s) as [a|]; [|done].
  specialize (Hm a I). by destruct (m a) as [[x|e|] a'].
Qed.

Lemma keeps_any_modify f : keeps (fun _ : state => True) (py_modify f).
Proof. done. Qed.

Lemma keeps_switch_context gpu : keeps (fun _ => True) (switch_context (W:=W) gpu).
Proof. unfold switch_context. keeps_tac. Qed.

#[local] Hint Resolve keeps_with_allocator_any keeps_any_modify keeps_switch_context : wpi.

Lemma keeps_relocate id b n : keeps (fun _ : state => True) (relocate env id b n).
Proof. unfold relocate, put_buffer, memcpy_device_to_device. keeps_tac. by apply keeps_with_allocator_any. Qed.

(** A relocation changes the sockets in no case, and the buffers only when it succeeds. *)
Lemma relocate_cases id b n s :
  exists r s', relocate env id b n s = (r, s') /\ conns s' = conns s /\
    match r with
    | Ret fd => exists copy, bi_fd copy = fd /\
        ALLOCATED_BUFFERS s' = dict_set (relocate_key id n) copy (ALLOCATED_BUFFERS s)
    | Raise _ => ALLOCATED_BUFFERS s' = ALLOCATED_BUFFERS s
    | Stuck => False
    end.
Proof.
  pose proof (keeps_not_stuck _ s (keeps_relocate id b n)) as Hns.
  assert (at_tables (conns s) (ALLOCATED_BUFFERS s) s) as Hs by done.
  unfold relocate in *. rewrite bind_unfold in *.
  pose proof (preserves_with_allocator (at_tables (conns s) (ALLOCATED_BUFFERS s))
    (allocate_and_export (bi_size_bytes b) n) s Hs) as Hs1.
  destruct (with_allocator _ s) as [[[[fd h] p]|e|] s1]; simpl in Hs1; destruct Hs1 as [Hc1 Hb1];
    [|by eexists _, _|done].
  rewrite bind_unfold in *.
  match goal with |- context [match ?m s1 with _ => _ end] =>
    assert (preserves (at_tables (conns s) (ALLOCATED_BUFFERS s)) m) as Hm by
      (unfold memcpy_device_to_device; preserves_tac);
    specialize (Hm s1 (conj Hc1 Hb1)); destruct (m s1) as [[[]|e|] s2] end;
    simpl in Hm; destruct Hm as [Hc2 Hb2]; [|by eexists _, _|done].
  eexists _, _. split; [reflexivity|]. simpl. split; [done|]. eexists. split; [|by rewrite Hb2]. done.
Qed.

Lemma any_send_run i b fds c s :
  conns s !! i = Some c -> has_room b c = true ->
  on_conn i (conn_send b fds) s =
    (if conn_alive c then Ret tt else Raise (mk_exn OSError (send_error c)),
     set_conns (<[i := if conn_alive c then sent_on b fds c else c]>) s).
Proof. intros Hc Hr. unfold on_conn. rewrite Hc, conn_send_run by done. by destruct (conn_alive c). Qed.

Lemma after_recv_room b c : has_room b (after_recv c) = has_room b c.
Proof. unfold after_recv, conn_recv. by destruct (inbox c). Qed.

Lemma after_recv_alive c : conn_alive (after_recv c) = conn_alive c.
Proof. unfold after_recv, conn_recv. by destruct (inbox c). Qed.

(** The connection of a client that gets [out] unless it is gone. *)
Definition answered_or_gone (out : string) (fds : list Z) (c : Conn) : Conn :=
  if conn_alive c then after_answer out fds c else after_recv c.

Lemma answer_any i out fds c m s :
  conns s = <[i := after_recv c]> m -> has_room (line "ERROR_RELOCATION_FAILED") c = true ->
  blen out <= blen (line "ERROR_RELOCATION_FAILED") ->
  (on_conn i (conn_send out fds) ;; sock_close i) s =
    (if conn_alive c then Ret tt else Raise (mk_exn OSError (send_error (after_recv c))),
     set_conns (fun _ => <[i := answered_or_gone out fds c]> m) s).
Proof.
  intros Hc Hr Ho. rewrite bind_unfold, (any_send_run i out fds (after_recv c)).
  2: { by rewrite Hc, lookup_insert_eq. }
  2: { rewrite after_recv_room. unfold has_room in *. destruct (room c); [|done]. zify_bools. lia. }
  rewrite after_recv_alive. unfold answered_or_gone. destruct (conn_alive c).
  - unfold sock_close, py_modify. f_equal. unfold set_conns. simpl. f_equal. rewrite Hc. apply map_eq. intros j.
    destruct (decide (i = j)) as [->|].
    + by rewrite lookup_alter_eq, !lookup_insert_eq.
    + by rewrite lookup_alter_ne, !lookup_insert_ne.
  - simpl. f_equal. unfold set_conns. simpl. f_equal. rewrite Hc. apply insert_insert_eq.
Qed.

Lemma recv_run i c s :
  conns s !! i = Some c -> inbox c <> [] \/ eof c = true ->
  read_metadata i s =
    (if valid_utf8 (first_read c) then Ret (strip (first_read c))
     else Raise (mk_exn UnicodeDecodeError "'utf-8' codec can't decode bytes"),
     set_conns (<[i := after_recv c]>) s).
Proof.
  intros Hc Hr. unfold read_metadata, sock_recv, on_conn, first_read, after_recv, conn_recv.
  rewrite bind_unfold, Hc. destruct (inbox c) as [|chunk rest].
  - destruct Hr as [|Hr]; [done|]. rewrite Hr, bind_unfold. unfold decode_utf8. done.
  - rewrite bind_unfold. unfold decode_utf8. by destruct (valid_utf8 _).
Qed.

Lemma relocate_key_ne id n : relocate_key id n <> id.
Proof. intros E. pose proof (startswith_relocate_key id n) as Hp. by rewrite E, gpu_prefix_not_self in Hp. Qed.

Lemma grows_refl id d : grows id d d.
Proof. done. Qed.

Lemma grows_relocated id n copy d :
  dict_get (relocate_key id n) d = None -> grows id d (dict_set (relocate_key id n) copy d).
Proof.
  intros Hn. split; [apply dict_get_set_ne, relocate_key_ne|]. intros k b Hk.
  rewrite dict_get_set_ne; [done|]. intros <-. congruence.
Qed.

(** The descriptor that a client of GPU [n] gets. *)
Definition fd_for (d : dict BufferInfo) (id : string) (b : BufferInfo) (n fd : Z) : Prop :=
  if n =? bi_gpu_id b then fd = bi_fd b
  else exists copy, dict_get (relocate_key id n) d = Some copy /\ bi_fd copy = fd.

(** The choice of the descriptor: one, or the end of the turn. *)
Lemma choose_fd_cases id i b n c m s :
  dict_get id (ALLOCATED_BUFFERS s) = Some b -> conns s = <[i := after_recv c]> m ->
  has_room (line "ERROR_RELOCATION_FAILED") c = true ->
  exists r s', choose_fd env i id b n s = (r, s') /\ grows id (ALLOCATED_BUFFERS s) (ALLOCATED_BUFFERS s') /\
    match r with
    | Ret (Some fd) => conns s' = conns s /\ fd_for (ALLOCATED_BUFFERS s') id b n fd
    | Ret None => n <> bi_gpu_id b /\ conn_alive c = true /\
        conns s' = <[i := after_answer (line "ERROR_RELOCATION_FAILED") [] c]> m
    | Raise _ => conn_alive c = false /\ conns s' = <[i := after_recv c]> m
    | Stuck => False
    end.
Proof.
  intros Hb Hc Hroom. unfold choose_fd, fd_for. destruct (n =? bi_gpu_id b) eqn:En; [by eexists _, _|].
  apply Z.eqb_neq in En. cbn [negb]. rewrite bind_unfold. unfold buffer_known at 1, py_get.
  destruct (dict_get (relocate_key id n) (ALLOCATED_BUFFERS s)) as [copy|] eqn:Ek.
  { rewrite (proj2 (dict_mem_true _ _)) by eauto. rewrite bind_unfold, (get_buffer_run _ copy) by done.
    eexists _, _. split; [reflexivity|]. eauto using grows_refl. }
  rewrite (proj2 (dict_mem_false _ _)) by done. unfold py_except. rewrite bind_unfold.
  destruct (relocate_cases id b n s) as (r & s1 & -> & Hc1 & Hr). destruct r as [fd|e|]; [| |done].
  { destruct Hr as (copy & Hf & Hd). eexists _, _. split; [reflexivity|]. rewrite Hd.
    split; [by apply grows_relocated|]. split; [done|]. exists copy. by rewrite dict_get_set_eq. }
  cbn [is_Exception]. unfold is_Exception. unfold sock_sendall.
  match goal with |- context [mbind (fun _ => mbind ?f ?b0) ?a0] =>
    pose proof (bind_assoc a0 (fun _ => b0) f) as Hassoc end.
  rewrite <- bind_assoc, bind_unfold, (answer_any i _ [] c m s1); [|by rewrite Hc1|done|done].
  unfold answered_or_gone. destruct (conn_alive c) eqn:Ea; eexists _, _; (split; [reflexivity|]); simpl;
    rewrite Hr; auto using grows_refl.
Qed.

(** The turn of a client, whatever it sent. *)
Lemma fd_turn_run id i c s :
  conns s !! i = Some c -> served_at_once c ->
  exists s' c', serve_fd_client env id i s = (Ret tt, s') /\ conns s' = <[i := c']> (conns s) /\
    grows id (ALLOCATED_BUFFERS s) (ALLOCATED_BUFFERS s') /\ fd_turn (ALLOCATED_BUFFERS s') id c c'.
Proof.
  intros Hc [Hr Hroom]. unfold serve_fd_client, py_except, serve_fd_client_body, fd_turn.
  rewrite bind_unfold, (recv_run i c) by done. destruct (valid_utf8 (first_read c)); [|by eexists _, _].
  cbn [negb]. set (n := parse_target_gpu _). set (s1 := set_conns _ s).
  rewrite bind_unfold. unfold buffer_known, py_get.
  change (ALLOCATED_BUFFERS s1) with (ALLOCATED_BUFFERS s).
  destruct (dict_get id (ALLOCATED_BUFFERS s)) as [b|] eqn:Hb.
  2: { rewrite (proj2 (dict_mem_false _ _)) by done. simpl. eexists _, (conn_close (after_recv c)).
       split; [done|]. simpl. rewrite Hb. split; [|done]. apply map_eq. intros j.
       destruct (decide (i = j)) as [->|].
       - by rewrite lookup_alter_eq, !lookup_insert_eq.
       - by rewrite lookup_alter_ne, !lookup_insert_ne. }
  rewrite (proj2 (dict_mem_true _ _)) by eauto. cbn [negb].
  rewrite bind_unfold, (get_buffer_run _ b) by done. rewrite bind_unfold.
  destruct (choose_fd_cases id i b n c (conns s) s1 Hb eq_refl Hroom) as (r & s2 & -> & Hg & Hr2).
  change (ALLOCATED_BUFFERS s1) with (ALLOCATED_BUFFERS s) in Hg.
  destruct r as [[fd|]|e|]; [| | |done].
  - destruct Hr2 as [Hc2 Hfd]. unfold sock_sendmsg. rewrite (answer_any i _ [fd] c (conns s) s2 Hc2 Hroom) by done.
    unfold answered_or_gone. destruct (conn_alive c); eexists _, _; (split; [reflexivity|]); simpl;
      (split; [reflexivity|]); (split; [exact Hg|]); rewrite (proj1 Hg), Hb; [|done]. left. by exists fd.
  - destruct Hr2 as (Hn & Ha & Hc2). eexists _, _. split; [reflexivity|]. split; [exact Hc2|].
    split; [exact Hg|]. rewrite (proj1 Hg), Hb, Ha. by right.
  - destruct Hr2 as (Ha & Hc2). eexists _, _. split; [reflexivity|]. split; [exact Hc2|].
    split; [exact Hg|]. by rewrite (proj1 Hg), Hb, Ha.
Qed.
End turns.

(** ** Properties *)

Section properties.
Context {W C : Type} `{CudaApi W} `{GrpcContext C} (obs : W -> cuda_obs) `{!CudaLaws W obs}.
Context (env : Env).
Implicit Types (s : Driver W C) (c : Conn).

(** A client that asks for the GPU the buffer is on, with the line the client library
    sends, gets OK and the descriptor of the buffer, and nothing else changes. *)
Theorem fd_client_same_gpu id b conn c s :
  conns s !! conn = Some c -> client_sent (gpu_metadata (bi_gpu_id b)) c ->
  dict_get id (ALLOCATED_BUFFERS s) = Some b ->
  serve_fd_client env id conn s =
    (Ret tt, set_conns (<[conn := answered (line "OK") [bi_fd b] c]>) s).
Proof.
  intros Hc Hsent Hb. erewrite serve_fd_client_run; [|done..| |done].
  - done.
  - unfold choose_fd. by rewrite Z.eqb_refl.
Qed.

(** C19: the first client that asks for another GPU gets the descriptor of a new copy,
    whose contents equal those of the buffer; the copy is recorded under its relocation
    key, and a second client with the same request gets the same descriptor without any
    allocation or copy: the contents are not refreshed. *)
Theorem fd_client_relocation_cached id b n fd h p conn conn' c c' a a' s :
  let bytes := bi_size_bytes b / 2 * 2 in
  conn <> conn' ->
  conns s !! conn = Some c -> client_sent (gpu_metadata n) c ->
  conns s !! conn' = Some c' -> client_sent (gpu_metadata n) c' ->
  dict_get id (ALLOCATED_BUFFERS s) = Some b -> n <> bi_gpu_id b ->
  dict_get (relocate_key id n) (ALLOCATED_BUFFERS s) = None ->
  cuda_allocator s = Some a -> has_context (bi_gpu_id b) a ->
  CUPY_AVAILABLE env = true -> memcpy_ok env p bytes = true ->
  0 <= bytes -> p + bytes <= bi_device_ptr b \/ bi_device_ptr b + bytes <= p ->
  allocate_and_export (bi_size_bytes b) n a = (Ret (fd, h, p), a') ->
  exists s1 a1,
    serve_fd_client env id conn s = (Ret tt, s1) /\
    conns s1 !! conn = Some (answered (line "OK") [fd] c) /\
    dict_get (relocate_key id n) (ALLOCATED_BUFFERS s1) =
      Some (relocated_entry (bi_size_bytes b) n fd h p) /\
    dict_get id (ALLOCATED_BUFFERS s1) = Some b /\
    cuda_allocator s1 = Some a1 /\
    vram_read p (Z.to_nat bytes) (cuda_memory (libcuda a1)) =
      vram_read (bi_device_ptr b) (Z.to_nat bytes) (cuda_memory (libcuda a1)) /\
    serve_fd_client env id conn' s1 =
      (Ret tt, set_conns (<[conn' := answered (line "OK") [fd] c']>) s1).
Proof.
  intros bytes Hne Hc Hsent Hc' Hsent' Hb Hn Hnew Ha Hctx Hcupy Hok Hpos Hdis Halloc.
  destruct (relocate_run obs env id b n fd h p a a' (after_read conn c s))
    as (a1 & Er & _ & Hv); [done..|].
  assert (relocate_key id n <> id) as Hid.
  { intros E. pose proof (startswith_relocate_key id n) as Hp. by rewrite E, gpu_prefix_not_self in Hp. }
  eexists _, a1. split.
  { eapply serve_fd_client_run; [done..| |].
    - by apply choose_fd_new.
    - done. }
  simpl. split_and!; try done.
  - by rewrite lookup_insert_eq.
  - apply dict_get_set_eq.
  - by rewrite dict_get_set_ne.
  - match goal with |- serve_fd_client _ _ _ ?X = _ =>
      rewrite (serve_fd_client_run env id n conn' c' b fd X (after_read conn' c' X)) end.
    + done.
    + simpl. by rewrite lookup_insert_ne.
    + done.
    + simpl. by rewrite dict_get_set_ne.
    + apply (choose_fd_cached env conn' id b (relocated_entry (bi_size_bytes b) n fd h p)); [done|].
      simpl. apply dict_get_set_eq.
    + done.
Qed.

(** Without cupy a relocation fails after its allocation: the client is told so, but
    the new allocation is recorded nowhere and is never given back. *)
Theorem fd_client_relocation_leaks id b n fd h p conn c a a' g s :
  0 < g -> (forall p f w, (cuMemGetAllocationGranularity p f w).1 = (0, g)) ->
  0 <= bi_size_bytes b -> bi_size_bytes b + g <= 2 ^ 64 ->
  conns s !! conn = Some c -> client_sent (gpu_metadata n) c ->
  dict_get id (ALLOCATED_BUFFERS s) = Some b -> n <> bi_gpu_id b ->
  dict_get (relocate_key id n) (ALLOCATED_BUFFERS s) = None ->
  cuda_allocator s = Some a -> CUPY_AVAILABLE env = false ->
  allocate_and_export (bi_size_bytes b) n a = (Ret (fd, h, p), a') ->
  exists s',
    serve_fd_client env id conn s = (Ret tt, s') /\
    conns s' !! conn = Some (answered (line "ERROR_RELOCATION_FAILED") [] c) /\
    ALLOCATED_BUFFERS s' = ALLOCATED_BUFFERS s /\
    cuda_allocator s' = Some a' /\
    obs (libcuda a') = obs_allocate h p (round_up (bi_size_bytes b) g) (obs (libcuda a)).
Proof using CudaLaws0.
  intros Hg Hgran Hs Hb64 Hc Hsent Hb Hn%Z.eqb_neq Hnew Ha Hcupy Halloc.
  pose proof (allocate_inv obs g Hgran _ _ _ _ _ _ _ Halloc) as (_&_&_&_&_&Ho).
  pose proof (round_up_lt (bi_size_bytes b) g Hg). pose proof (round_up_ge (bi_size_bytes b) g Hg).
  rewrite wrap64_small in Ho by lia.
  exists (set_conns (fun _ => <[conn := answered (line "ERROR_RELOCATION_FAILED") [] c]> (conns s))
           (set_allocator (Some a') (after_read conn c s))).
  split; [|simpl; by rewrite lookup_insert_eq].
  unfold serve_fd_client, py_except, serve_fd_client_body.
  rewrite bind_unfold, (read_metadata_run conn (gpu_metadata n) c) by auto using gpu_metadata_utf8.
  rewrite parse_gpu_metadata. fold (after_read conn c s).
  rewrite bind_unfold. simpl. rewrite (proj2 (dict_mem_true _ _)) by eauto. simpl.
  rewrite bind_unfold, (get_buffer_run _ b) by done. rewrite bind_unfold.
  unfold choose_fd. rewrite Hn. simpl. rewrite bind_unfold. simpl.
  rewrite (proj2 (dict_mem_false _ _)) by done. unfold py_except.
  rewrite bind_unfold, (relocate_no_cupy env id b n (fd, h, p) a a') by done. simpl.
  pose proof (answer_run conn (gpu_metadata n) (line "ERROR_RELOCATION_FAILED") [] c (conns s)
    (set_allocator (Some a') (after_read conn c s)) Hsent (Z.le_refl _) eq_refl) as E.
  rewrite bind_unfold in E. rewrite bind_unfold. unfold sock_sendall. unfold sock_sendmsg in E.
  destruct (on_conn conn _ _) as [[[]|e|] s1]; [|done|done].
  rewrite bind_unfold, E. done.
Qed.

End properties.

Section loop.
Context {W C : Type} `{CudaApi W} `{GrpcContext C} (env : Env).
Implicit Types (s : Driver W C) (c : Conn).

Lemma bind_socket_run p s :
  (forall k, fs_error env k p = None) ->
  (remove_socket env p ;; bind_socket env p) s = (Ret tt, set_files (fun fs => {[p]} ∪ (fs ∖ {[p]})) s).
Proof.
  intros Hfs. assert (forall k f (t : Driver W C), fs_do env k p f t = (Ret tt, set_files f t)) as Hdo.
  { intros k f t. unfold fs_do. by rewrite Hfs. }
  assert (exists t, remove_socket env p s = (Ret tt, t) /\ t = set_files (fun fs => fs ∖ {[p]}) s) as (t & E & ->).
  { unfold remove_socket. rewrite bind_unfold. unfold py_get.
    destruct (bool_decide (p ∈ files s)) eqn:E; unfold py_when; [rewrite Hdo; by eexists|].
    eexists. split; [reflexivity|]. apply bool_decide_eq_false in E. destruct s. unfold set_files. simpl in *.
    f_equal. set_solver. }
  rewrite bind_unfold, E. unfold bind_socket. rewrite bind_unfold. unfold py_get, py_when. simpl.
  rewrite bool_decide_eq_false_2 by set_solver. rewrite bind_unfold. cbn [mret py_ret].
  by rewrite bind_unfold, Hdo, Hdo.
Qed.

(** The turns of all the clients. *)
Lemma fd_turns_run id l s :
  NoDup l -> (forall j, j ∈ l -> exists c, conns s !! j = Some c /\ served_at_once c) ->
  exists s', py_for l (serve_fd_client env id) s = (Ret tt, s') /\
    grows id (ALLOCATED_BUFFERS s) (ALLOCATED_BUFFERS s') /\
    (forall j c, j ∈ l -> conns s !! j = Some c ->
       exists c', conns s' !! j = Some c' /\ fd_turn (ALLOCATED_BUFFERS s') id c c') /\
    (forall j, j ∉ l -> conns s' !! j = conns s !! j).
Proof.
  intros Hl. revert s. induction Hl as [|i l Hi Hl IH]; intros s Hs; simpl.
  - exists s. split_and!; [done|apply grows_refl|set_solver|done].
  - destruct (Hs i) as (c & Hc & Hat); [set_solver|].
    destruct (fd_turn_run env id i c s Hc Hat) as (s1 & c' & E1 & Hc1 & [Hg1 Hg1'] & Ht1).
    destruct (IH s1) as (s2 & E2 & [Hg2 Hg2'] & Ht2 & Ho2).
    { intros j Hj. rewrite Hc1, lookup_insert_ne by set_solver. apply Hs. set_solver. }
    exists s2. rewrite bind_unfold, E1. split; [done|]. split; [split; [congruence|auto]|]. split.
    + intros j cj Hj Hcj. apply elem_of_cons in Hj as [->|Hj].
      * rewrite Ho2, Hc1, lookup_insert_eq by done. exists c'. split; [done|].
        assert (cj = c) as -> by congruence. by eapply fd_turn_grows.
      * apply Ht2; [done|]. rewrite Hc1, lookup_insert_ne by set_solver. done.
    + intros j Hj. rewrite Ho2, Hc1, lookup_insert_ne by set_solver. done.
Qed.

(** C27: whatever the clients of an FD server send, malformed metadata, unknown GPUs and
    broken connections included, its thread serves all of them, as long as its socket can
    be bound, each client sends something or hangs up, and has room for an answer. A client
    whose text is no UTF-8 gets no answer and its connection is left open; every other one
    is answered as [fd_turn] says, on its own connection: with the descriptor of the buffer
    or of its copy on the GPU that the client named, with the failure of that copy, or, when
    the buffer is not staged, by hanging up. The entry of the buffer does not change. *)
Theorem fd_server_survives sock_path id accepted s :
  NoDup accepted ->
  (forall j, j ∈ accepted -> exists c, conns s !! j = Some c /\ served_at_once c) ->
  (forall k, fs_error env k sock_path = None) ->
  exists s', pass_fd_server env sock_path id accepted s = (Ret tt, s') /\
    dict_get id (ALLOCATED_BUFFERS s') = dict_get id (ALLOCATED_BUFFERS s) /\
    (forall k b, dict_get k (ALLOCATED_BUFFERS s) = Some b -> dict_get k (ALLOCATED_BUFFERS s') = Some b) /\
    (forall j c, j ∈ accepted -> conns s !! j = Some c ->
       exists c', conns s' !! j = Some c' /\ fd_turn (ALLOCATED_BUFFERS s') id c c') /\
    (forall j, j ∉ accepted -> conns s' !! j = conns s !! j).
Proof.
  intros Hnd Hs Hfs.
  destruct (fd_turns_run id accepted (set_files (fun fs => {[sock_path]} ∪ (fs ∖ {[sock_path]})) s) Hnd Hs)
    as (s' & E & [Hg Hg'] & Ht & Ho).
  exists s'. split; [|by split_and!]. unfold pass_fd_server.
  by rewrite <- bind_assoc, bind_unfold, bind_socket_run, E.
Qed.

(** When the socket cannot be bound, the thread ends before it accepts anybody. *)
Theorem fd_server_unbound sock_path id accepted e s :
  sock_path ∉ files s -> fs_error env FsBind sock_path = Some e ->
  pass_fd_server env sock_path id accepted s = (Raise e, s).
Proof.
  intros Hn Hb. unfold pass_fd_server, remove_socket, bind_socket, fs_do.
  rewrite bind_unfold, bind_unfold. unfold py_get. rewrite bool_decide_eq_false_2 by done. simpl.
  rewrite bind_unfold, bind_unfold. simpl. rewrite bool_decide_eq_false_2 by done. simpl.
  rewrite bind_unfold. simpl. by rewrite Hb.
Qed.

Lemma silent_client_run id conn c later s :
  conns s !! conn = Some c -> inbox c = [] -> eof c = false ->
  py_for (conn :: later) (serve_fd_client env id) s = (Stuck, s).
Proof.
  intros Hc Hin Heof. simpl. rewrite bind_unfold.
  assert (serve_fd_client env id conn s = (Stuck, s)) as ->; [|done].
  unfold serve_fd_client, py_except, serve_fd_client_body, read_metadata, sock_recv, on_conn.
  rewrite bind_unfold, bind_unfold, Hc. unfold conn_recv. rewrite Hin, Heof.
  unfold set_conns. rewrite insert_id by done. by destruct s.
Qed.

(** A client that connects and sends nothing holds the thread for ever: the clients
    that connect after it are not served, and nothing changes. *)
Theorem fd_server_silent_client id conn c later s :
  conns s !! conn = Some c -> inbox c = [] -> eof c = false ->
  py_for (conn :: later) (serve_fd_client env id) s = (Stuck, s).
Proof. apply silent_client_run. Qed.
End loop.

(** ** Witnesses *)

Module FdDemo.

Definition client (data : string) : Conn := mk_Conn [data] false (Some 4096) "" [] false.
Definition silent : Conn := mk_Conn [] false (Some 4096) "" [] false.

(** A buffer of 4 MiB on GPU 0, and four clients. *)
Definition s0 : Demo.driver :=
  set_conns (fun _ => {[ 1%nat := client (gpu_metadata 0); 2%nat := client (gpu_metadata 1);
                         3%nat := client (gpu_metadata 1); 4%nat := silent ]})
    (Demo.staged "c1" "m" (4 * MiB)).

Definition info : BufferInfo := Demo.staged_info 0 s0 "m".

Definition a0 : CudaAllocator Sim.sim := default Demo.allocator0 (cuda_allocator s0).

Definition a1 : CudaAllocator Sim.sim := (allocate_and_export (4 * MiB) 1 a0).2.

Definition no_cupy : Env :=
  {| CUPY_AVAILABLE := false; getDeviceCount := None; fs_error _ _ := None;
     source_exists _ := false; safe_open _ := None; memcpy_ok _ _ := true;
     nccl_result _ := None; nccl_unique_id := "" |}.
End FdDemo.

Lemma client_sent_gpu n :
  (String.length (gpu_metadata n) <= 1024)%nat -> client_sent (gpu_metadata n) (FdDemo.client (gpu_metadata n)).
Proof. intros Hn. by repeat split. Qed.

Lemma fd_client_same_gpu_witness :
  serve_fd_client Demo.env "m" 1 FdDemo.s0 =
    (Ret tt, set_conns (<[1%nat := answered (line "OK") [3] (FdDemo.client (gpu_metadata 0))]>) FdDemo.s0).
Proof.
  apply (fd_client_same_gpu Demo.env "m" FdDemo.info).
  - reflexivity.
  - apply (client_sent_gpu 0). apply Nat.leb_le. reflexivity.
  - vm_compute. reflexivity.
Defined.

Lemma fd_client_relocation_cached_witness :
  exists s1 a1,
    serve_fd_client Demo.env "m" 2 FdDemo.s0 = (Ret tt, s1) /\
    cuda_allocator s1 = Some a1 /\
    serve_fd_client Demo.env "m" 3 s1 =
      (Ret tt, set_conns (<[3%nat := answered (line "OK") [4] (FdDemo.client (gpu_metadata 1))]>) s1).
Proof.
  destruct (fd_client_relocation_cached Sim.sim_obs Demo.env "m" FdDemo.info 1 4 1 (2 ^ 41) 2 3
    (FdDemo.client (gpu_metadata 1)) (FdDemo.client (gpu_metadata 1)) FdDemo.a0 FdDemo.a1 FdDemo.s0)
    as (s1 & a1 & H1 & _ & _ & _ & H5 & _ & H7);
    [done|reflexivity|apply (client_sent_gpu 1), Nat.leb_le; reflexivity|reflexivity
    |apply (client_sent_gpu 1), Nat.leb_le; reflexivity|vm_compute; reflexivity|done
    |vm_compute; reflexivity|vm_compute; reflexivity| |done|done|done| |vm_compute; reflexivity|].
  - vm_compute. eexists. reflexivity.
  - right. vm_compute. discriminate.
  - exists s1, a1. split; [exact H1|]. split; [exact H5|exact H7].
Defined.

Lemma fd_client_relocation_leaks_witness :
  exists s', serve_fd_client FdDemo.no_cupy "m" 2 FdDemo.s0 = (Ret tt, s') /\
    ALLOCATED_BUFFERS s' = ALLOCATED_BUFFERS FdDemo.s0 /\
    Sim.sim_obs (libcuda FdDemo.a1) =
      obs_allocate 1 (2 ^ 41) (4 * MiB) (Sim.sim_obs (libcuda FdDemo.a0)).
Proof.
  destruct (fd_client_relocation_leaks Sim.sim_obs FdDemo.no_cupy "m" FdDemo.info 1 4 1 (2 ^ 41) 2
    (FdDemo.client (gpu_metadata 1)) FdDemo.a0 FdDemo.a1 Sim.granule FdDemo.s0)
    as (s' & H1 & _ & H3 & _ & H5);
    [done|exact sim_granularity|done|done|reflexivity
    |apply (client_sent_gpu 1), Nat.leb_le; reflexivity|vm_compute; reflexivity|done
    |vm_compute; reflexivity|vm_compute; reflexivity|done|vm_compute; reflexivity|].
  exists s'. split; [exact H1|]. split; [exact H3|exact H5].
Defined.

Lemma fd_server_survives_witness :
  exists s', pass_fd_server FdDemo.no_cupy "/run/wpi/sockets/m.sock" "m" [3; 1; 2]%nat FdDemo.s0 = (Ret tt, s') /\
    exists c', conns s' !! 1%nat = Some c' /\
      fd_turn (ALLOCATED_BUFFERS s') "m" (FdDemo.client (gpu_metadata 0)) c'.
Proof.
  destruct (fd_server_survives FdDemo.no_cupy "/run/wpi/sockets/m.sock" "m" [3; 1; 2]%nat FdDemo.s0)
    as (s' & E & _ & _ & Ht & _).
  - apply (bool_decide_unpack _). reflexivity.
  - intros j Hj. rewrite !elem_of_cons in Hj.
    destruct Hj as [->|[->|[->|Hj]]]; [..|by apply not_elem_of_nil in Hj];
      eexists; (split; [reflexivity|split; [left; discriminate|reflexivity]]).
  - intros k. reflexivity.
  - exists s'. split; [exact E|]. apply (Ht 1%nat); [|reflexivity].
    apply elem_of_cons. right. apply elem_of_cons. by left.
Defined.

Lemma fd_server_unbound_witness :
  let env := {| CUPY_AVAILABLE := false; getDeviceCount := None;
                fs_error k _ := match k with FsBind => Some (mk_exn OSError "AF_UNIX path too long") | _ => None end;
                source_exists _ := false; safe_open _ := None; memcpy_ok _ _ := true;
                nccl_result _ := None; nccl_unique_id := "" |} in
  pass_fd_server env "/run/wpi/sockets/m.sock" "m" [1]%nat FdDemo.s0 =
    (Raise (mk_exn OSError "AF_UNIX path too long"), FdDemo.s0).
Proof.
  intros env. apply (fd_server_unbound env).
  - apply (bool_decide_unpack _). vm_compute. exact I.
  - reflexivity.
Defined.

Lemma fd_server_silent_client_witness :
  py_for [4; 1; 2]%nat (serve_fd_client Demo.env "m") FdDemo.s0 = (Stuck, FdDemo.s0).
Proof. apply (fd_server_silent_client Demo.env "m" 4 FdDemo.silent [1; 2]%nat); reflexivity. Defined.
