(* ===== verification/Notify.v ===== *)
(** * Notifications to local consumers (driver/main.py)

    [send_pre_update_signal], and the loop that both ends of a propagation run after a
    transfer: every consumer socket of the buffer gets the message, and the sockets on
    which the send failed are dropped from the list. *)

From S2P Require Import Prelude PyMonad PyText PyDict Cuda Allocator NodeState Stage.

(** [l.remove(x)] after [x in l]: the first occurrence goes. *)
Fixpoint remove_first (x : nat) (l : list nat) : list nat :=
  match l with
  | [] => []
  | y :: l' => if decide (x = y) then l' else y :: remove_first x l'
  end.

Section notify.
Context {W C : Type} `{CudaApi W} `{GrpcContext C}.
#[local] Abbreviation state := (Driver W C).

(** The loop with its list [broken_sockets]. *)
Definition notify_each (notify_sockets : list nat) (msg : string) : py state (list nat) :=
  py_fold notify_sockets [] (fun broken_sockets s =>
    py_except (sock_sendall s msg ;; mret broken_sockets) is_Exception
      (fun _ => mret (broken_sockets ++ [s]))).

(** [if s in notify_sockets: notify_sockets.remove(s)], on the list of the entry. *)
Definition drop_socket (buffer_id : string) (s : nat) : py state unit :=
  info ← get_buffer buffer_id ;
  py_when (bool_decide (s ∈ bi_notify_sockets info))
    (put_buffer buffer_id (set_notify_sockets (remove_first s (bi_notify_sockets info)) info)).

Definition notify_consumers (buffer_id : string) (msg : string) : py state unit :=
  info ← get_buffer buffer_id ;
  broken_sockets ← notify_each (bi_notify_sockets info) msg ;
  py_for broken_sockets (drop_socket buffer_id).

Definition send_pre_update_signal (buffer_id : string) : py state unit :=
  staged ← buffer_known buffer_id ;
  if (staged : bool) then notify_consumers buffer_id (line "PRE_UPDATE") else mret tt.
End notify.

(** ** Lemmas *)

Definition sock_alive (m : gmap nat Conn) (i : nat) : bool :=
  match m !! i with Some c => conn_alive c | None => false end.

(** The peer of the socket has room for [msg]. *)
Definition sock_room (msg : string) (m : gmap nat Conn) (i : nat) : bool :=
  match m !! i with Some c => has_room msg c | None => true end.

(** One more message in the outbox of a live socket. *)
Definition deliver (msg : string) (c : Conn) : Conn :=
  if conn_alive c then
    mk_Conn (inbox c) (eof c) (spend msg c) (outbox c +:+ msg) (passed_fds c) (closed c)
  else c.

(** Every socket of the list gets the message. *)
Definition deliver_all (msg : string) (l : list nat) (m : gmap nat Conn) : gmap nat Conn :=
  foldl (fun m i => alter (deliver msg) i m) m l.

Lemma deliver_alive msg c : conn_alive (deliver msg c) = conn_alive c.
Proof.
  unfold deliver. destruct (conn_alive c) eqn:E; [|done]. unfold conn_alive, spend in *. simpl.
  by destruct (room c), (closed c).
Qed.

Lemma blen_app a b : blen (a +:+ b) = blen a + blen b.
Proof. unfold blen. rewrite string_length_app. lia. Qed.

Lemma spend_app msg msg' c : spend (msg +:+ msg') c = (fun n => n - blen msg') <$> spend msg c.
Proof. unfold spend. destruct (room c); [|done]. simpl. f_equal. rewrite blen_app. lia. Qed.

(** Two messages, one after the other. *)
Lemma deliver_deliver msg msg' c : deliver msg' (deliver msg c) = deliver (msg +:+ msg') c.
Proof.
  unfold deliver at 1 3. rewrite deliver_alive. unfold deliver. destruct (conn_alive c); [|done].
  simpl. by rewrite spend_app, string_app_assoc.
Qed.

Lemma has_room_app msg msg' c : has_room (msg +:+ msg') c = true -> has_room msg c = true.
Proof. unfold has_room. destruct (room c); [|done]. rewrite blen_app. unfold blen. intros. zify_bools. lia. Qed.

(** Room for two messages is room for the second one after the first one. *)
Lemma has_room_deliver msg msg' c :
  has_room (msg +:+ msg') c = true -> has_room msg' (deliver msg c) = true.
Proof.
  unfold deliver. destruct (conn_alive c).
  - unfold has_room, spend. simpl. destruct (room c); [|done]. simpl. rewrite blen_app. intros. zify_bools. lia.
  - unfold has_room. destruct (room c); [|done]. rewrite blen_app. unfold blen. intros. zify_bools. lia.
Qed.

Lemma deliver_all_lookup msg l m j :
  NoDup l ->
  deliver_all msg l m !! j = if bool_decide (j ∈ l) then deliver msg <$> m !! j else m !! j.
Proof.
  intros Hl. revert m. induction Hl as [|i l Hi Hl IH]; intros m; [done|]. simpl.
  change (foldl _ ?x l) with (deliver_all msg l x). rewrite IH.
  destruct (decide (i = j)) as [->|Hne].
  - rewrite lookup_alter_eq. rewrite bool_decide_eq_false_2 by done.
    by rewrite bool_decide_eq_true_2 by set_solver.
  - rewrite lookup_alter_ne by done.
    assert (j ∈ i :: l <-> j ∈ l) as Hiff by set_solver. by rewrite (bool_decide_ext _ _ Hiff).
Qed.

Lemma sock_alive_deliver msg i m j : sock_alive (alter (deliver msg) i m) j = sock_alive m j.
Proof.
  unfold sock_alive. destruct (decide (i = j)) as [->|Hne].
  - rewrite lookup_alter_eq. destruct (m !! j); simpl; [apply deliver_alive|done].
  - by rewrite lookup_alter_ne.
Qed.

Lemma remove_first_elem x y l : y ∈ remove_first x l -> y ∈ l.
Proof. induction l; simpl; [done|]. case_decide; set_solver. Qed.

Lemma remove_first_filter x l :
  NoDup l -> remove_first x l = filter (fun y => y <> x) l.
Proof.
  induction 1 as [|y l Hy Hl IH]; simpl; [done|]. rewrite filter_cons.
  destruct (decide (x = y)) as [->|Hne].
  - rewrite decide_False by naive_solver. symmetry. apply filter_all_eq.
    apply Forall_forall. intros z Hz ->. done.
  - rewrite decide_True by done. by rewrite IH.
Qed.

Section lemmas.
Context {W C : Type} `{CudaApi W} `{GrpcContext C}.
Implicit Types (s : Driver W C).

Lemma set_conns_id s : set_conns (fun _ => conns s) s = s.
Proof. by destruct s. Qed.

Lemma sendall_run i msg s :
  sock_room msg (conns s) i = true ->
  sock_sendall i msg s =
    if sock_alive (conns s) i then (Ret tt, set_conns (alter (deliver msg) i) s)
    else (Raise (mk_exn OSError (match conns s !! i with
            Some c => send_error c | None => "[Errno 9] Bad file descriptor" end)), s).
Proof.
  unfold sock_room, sock_sendall, on_conn, sock_alive. destruct (conns s !! i) as [c|] eqn:Ec; [|done].
  intros Hr. rewrite conn_send_run by done. destruct (conn_alive c) eqn:Ea.
  - f_equal. unfold set_conns. f_equal. apply map_eq. intros j.
    destruct (decide (i = j)) as [->|Hne].
    + rewrite lookup_insert_eq, lookup_alter_eq, Ec. simpl. unfold deliver, sent_on.
      by rewrite Ea, app_nil_r.
    + by rewrite lookup_insert_ne, lookup_alter_ne.
  - f_equal. unfold set_conns. rewrite insert_id by done. by destruct s.
Qed.

Lemma sock_room_deliver msg msg' i m j : i <> j -> sock_room msg (alter (deliver msg') i m) j = sock_room msg m j.
Proof. intros Hne. unfold sock_room. by rewrite lookup_alter_ne. Qed.

Lemma notify_each_run l msg s broken :
  NoDup l -> (forall i, i ∈ l -> sock_room msg (conns s) i = true) ->
  py_fold l broken (fun broken_sockets i =>
    py_except (sock_sendall i msg ;; mret broken_sockets) is_Exception
      (fun _ => mret (broken_sockets ++ [i]))) s =
  (Ret (broken ++ filter (fun i => sock_alive (conns s) i = false) l),
   set_conns (deliver_all msg l) s).
Proof.
  intros Hl. revert s broken. induction Hl as [|i l Hi Hl IH]; intros s broken Hroom; simpl.
  - rewrite app_nil_r. by destruct s.
  - rewrite bind_unfold. unfold py_except at 1. rewrite bind_unfold, sendall_run by (apply Hroom; set_solver).
    rewrite filter_cons. destruct (sock_alive (conns s) i) eqn:Ei.
    + cbn [mret py_ret]. rewrite IH.
      2: { intros j Hj. simpl. rewrite sock_room_deliver by set_solver. apply Hroom. set_solver. }
      simpl. f_equal.
      f_equal. f_equal. apply list_filter_iff. intros j. by rewrite sock_alive_deliver.
    + unfold is_Exception. cbn [mret py_ret]. rewrite IH, (decide_True _ _ eq_refl) by (intros; apply Hroom; set_solver).
      rewrite <- app_assoc. simpl. f_equal. unfold set_conns. simpl. f_equal.
      f_equal. apply map_eq. intros j. destruct (decide (i = j)) as [->|Hne].
      * rewrite lookup_alter_eq. unfold sock_alive in Ei. destruct (conns s !! j) as [c|]; [|done].
        simpl. unfold deliver. by rewrite Ei.
      * by rewrite lookup_alter_ne.
Qed.

(** The list of a live entry loses the sockets of [broken]. *)
Lemma drop_sockets_run id broken b s :
  dict_get id (ALLOCATED_BUFFERS s) = Some b -> NoDup (bi_notify_sockets b) ->
  exists s', py_for broken (drop_socket id) s = (Ret tt, s') /\
    dict_get id (ALLOCATED_BUFFERS s') =
      Some (set_notify_sockets (filter (fun i => i ∉ broken) (bi_notify_sockets b)) b) /\
    (forall k, k <> id -> dict_get k (ALLOCATED_BUFFERS s') = dict_get k (ALLOCATED_BUFFERS s)) /\
    dict_keys (ALLOCATED_BUFFERS s') = dict_keys (ALLOCATED_BUFFERS s) /\
    s' = set_buffers (fun _ => ALLOCATED_BUFFERS s') s.
Proof.
  revert b s. induction broken as [|i broken IH]; intros b s Hb Hnd.
  - exists s. split; [done|]. rewrite filter_all_eq by (apply Forall_forall; set_solver).
    destruct b, s; simpl in *. done.
  - simpl. rewrite bind_unfold.
    assert (exists s1, drop_socket id i s = (Ret tt, s1) /\
      dict_get id (ALLOCATED_BUFFERS s1) =
        Some (set_notify_sockets (filter (fun j => j <> i) (bi_notify_sockets b)) b) /\
      (forall k, k <> id -> dict_get k (ALLOCATED_BUFFERS s1) = dict_get k (ALLOCATED_BUFFERS s)) /\
      dict_keys (ALLOCATED_BUFFERS s1) = dict_keys (ALLOCATED_BUFFERS s) /\
      s1 = set_buffers (fun _ => ALLOCATED_BUFFERS s1) s) as (s1 & E1 & Hb1 & Ho1 & Hk1 & Hs1).
    { unfold drop_socket. rewrite bind_unfold, (get_buffer_run _ b) by done.
      destruct (bool_decide (i ∈ bi_notify_sockets b)) eqn:Ei; simpl.
      - eexists. split; [reflexivity|]. simpl. split_and!; try done.
        + by rewrite dict_get_set_eq, remove_first_filter.
        + intros k Hk. by rewrite dict_get_set_ne.
        + apply dict_keys_set_old. eauto.
      - apply bool_decide_eq_false in Ei. exists s. split; [done|].
        rewrite filter_all_eq by (apply Forall_forall; intros j Hj ->; done).
        destruct b, s; simpl in *. done. }
    rewrite E1. destruct (IH _ s1 Hb1) as (s2 & E2 & Hb2 & Ho2 & Hk2 & Hs2).
    { simpl. by apply NoDup_filter. }
    exists s2. split; [done|]. split; [|split; [|split]].
    + rewrite Hb2. f_equal. simpl. unfold set_notify_sockets. simpl. f_equal.
      rewrite list_filter_filter. apply list_filter_iff. intros j. set_solver.
    + intros k Hk. by rewrite Ho2, Ho1.
    + congruence.
    + rewrite Hs2, Hs1. done.
Qed.

Lemma filter_not_broken (P : nat -> bool) (l : list nat) :
  filter (fun i => i ∉ filter (fun i => P i = false) l) l = filter (fun i => P i = true) l.
Proof.
  assert (forall l', l' ⊆ l -> filter (fun i => i ∉ filter (fun i => P i = false) l) l' =
    filter (fun i => P i = true) l') as Hgo; [|by apply Hgo].
  induction l' as [|i l' IH]; intros Hl; [done|]. rewrite !filter_cons, IH by set_solver.
  assert (i ∉ filter (fun i => P i = false) l <-> P i = true) as Hiff.
  { rewrite list_elem_of_filter. assert (i ∈ l) by set_solver. destruct (P i); naive_solver. }
  by rewrite (decide_ext _ _ _ _ Hiff).
Qed.

(** One notification of a staged buffer, run. *)
Lemma notify_consumers_run id msg b s :
  dict_get id (ALLOCATED_BUFFERS s) = Some b -> NoDup (bi_notify_sockets b) ->
  (forall i, i ∈ bi_notify_sockets b -> sock_room msg (conns s) i = true) ->
  exists d,
    notify_consumers id msg s =
      (Ret tt, set_buffers (fun _ => d) (set_conns (deliver_all msg (bi_notify_sockets b)) s)) /\
    dict_get id d =
      Some (set_notify_sockets
              (filter (fun i => sock_alive (conns s) i = true) (bi_notify_sockets b)) b) /\
    (forall k, k <> id -> dict_get k d = dict_get k (ALLOCATED_BUFFERS s)) /\
    dict_keys d = dict_keys (ALLOCATED_BUFFERS s).
Proof.
  intros Hb Hnd Hroom. unfold notify_consumers. rewrite bind_unfold, (get_buffer_run _ b) by done.
  rewrite bind_unfold. unfold notify_each. rewrite notify_each_run by done. simpl.
  destruct (drop_sockets_run id
    (filter (fun i => sock_alive (conns s) i = false) (bi_notify_sockets b)) b
    (set_conns (deliver_all msg (bi_notify_sockets b)) s) Hb Hnd) as (s' & E & Hb' & Ho & Hk & Hs').
  exists (ALLOCATED_BUFFERS s'). rewrite E, Hb', filter_not_broken. split_and!; try done.
  by rewrite Hs' at 1.
Qed.
End lemmas.

(** ** Properties *)

Section properties.
Context {W C : Type} `{CudaApi W} `{GrpcContext C}.
Implicit Types (s : Driver W C).

(** C20: the signal before an update reaches every live consumer of the buffer exactly
    once, drops exactly the consumers whose socket is broken, never raises, and touches
    neither the other sockets nor the other buffers, as long as each consumer has room for
    the line. *)
Theorem pre_update_spec id b s :
  dict_get id (ALLOCATED_BUFFERS s) = Some b -> NoDup (bi_notify_sockets b) ->
  (forall i, i ∈ bi_notify_sockets b -> sock_room (line "PRE_UPDATE") (conns s) i = true) ->
  exists s',
    send_pre_update_signal id s = (Ret tt, s') /\
    (forall i c, conns s !! i = Some c ->
       conns s' !! i = Some
         (if bool_decide (i ∈ bi_notify_sockets b) && conn_alive c then
            mk_Conn (inbox c) (eof c) (spend (line "PRE_UPDATE") c) (outbox c +:+ line "PRE_UPDATE")
              (passed_fds c) (closed c)
          else c)) /\
    dict_get id (ALLOCATED_BUFFERS s') =
      Some (set_notify_sockets
              (filter (fun i => sock_alive (conns s) i = true) (bi_notify_sockets b)) b) /\
    (forall k, k <> id -> dict_get k (ALLOCATED_BUFFERS s') = dict_get k (ALLOCATED_BUFFERS s)) /\
    cuda_allocator s' = cuda_allocator s.
Proof.
  intros Hb Hnd Hroom. destruct (notify_consumers_run id (line "PRE_UPDATE") b s Hb Hnd Hroom)
    as (d & E & Hd & Ho & _).
  eexists. split.
  - unfold send_pre_update_signal. rewrite bind_unfold. simpl.
    rewrite (proj2 (dict_mem_true _ _)) by eauto. exact E.
  - simpl. split_and!; try done. intros i c Hc. rewrite deliver_all_lookup, Hc by done.
    unfold deliver. case_bool_decide; simpl; [|done]. by destruct (conn_alive c).
Qed.

(** A consumer that does not read stops every notification of its buffer: once its socket
    is full, the signal waits for it, and the consumers behind it hear nothing. *)
Theorem full_consumer_blocks id b l1 i l2 c s :
  dict_get id (ALLOCATED_BUFFERS s) = Some b -> bi_notify_sockets b = l1 ++ i :: l2 ->
  NoDup (bi_notify_sockets b) ->
  (forall j, j ∈ l1 -> sock_room (line "PRE_UPDATE") (conns s) j = true) ->
  conns s !! i = Some c -> conn_alive c = true -> has_room (line "PRE_UPDATE") c = false ->
  exists s', send_pre_update_signal id s = (Stuck, s') /\
    forall j, j ∈ l2 -> conns s' !! j = conns s !! j.
Proof.
  intros Hb Hl Hnd Hroom Hc Ha Hfull. rewrite Hl in Hnd. apply NoDup_app in Hnd as (Hnd1 & Hdis & Hnd2).
  inversion Hnd2 as [|?? Hi2 Hnd2']; subst.
  exists (set_conns (fun _ => <[i := (conn_send (line "PRE_UPDATE") [] c).2]>
    (deliver_all (line "PRE_UPDATE") l1 (conns s))) s). split.
  - unfold send_pre_update_signal, notify_consumers, notify_each. rewrite bind_unfold. simpl.
    rewrite (proj2 (dict_mem_true _ _)) by eauto.
    rewrite bind_unfold, (get_buffer_run _ b), bind_unfold, Hl, fold_app, bind_unfold by done.
    rewrite notify_each_run by done. simpl. rewrite bind_unfold. unfold py_except at 1.
    rewrite bind_unfold. unfold sock_sendall, on_conn. simpl.
    rewrite deliver_all_lookup, bool_decide_eq_false_2, Hc by (done || set_solver).
    unfold conn_alive in Ha. apply andb_true_iff in Ha as [Hr%bool_decide_eq_true Hcl%negb_true_iff].
    unfold has_room in Hfull. unfold conn_send. rewrite Hcl. destruct (room c) as [n|]; [|by destruct Hr].
    rewrite Hfull. done.
  - intros j Hj. simpl. rewrite lookup_insert_ne by set_solver.
    rewrite deliver_all_lookup, bool_decide_eq_false_2 by (done || set_solver). done.
Qed.
End properties.

(** ** Witnesses *)

Module NotifyDemo.

Definition consumer (room : option Z) : Conn := mk_Conn [] false room "" [] false.

(** A buffer with one live and one broken consumer. *)
Definition s0 : Demo.driver :=
  set_buffers (dict_alter (set_notify_sockets [1%nat; 2%nat]) "m")
    (set_conns (fun _ => {[ 1%nat := consumer (Some 4096); 2%nat := consumer None ]})
       (Demo.staged "c1" "m" (4 * MiB))).

Definition info : BufferInfo := Demo.staged_info 0 s0 "m".
End NotifyDemo.

Lemma demo_rooms i :
  i ∈ bi_notify_sockets NotifyDemo.info -> sock_room (line "PRE_UPDATE") (conns NotifyDemo.s0) i = true.
Proof.
  assert (bi_notify_sockets NotifyDemo.info = [1; 2]%nat) as -> by (vm_compute; reflexivity).
  rewrite !elem_of_cons. intros [->|[->|Hi]]; [vm_compute; reflexivity..|by apply not_elem_of_nil in Hi].
Qed.

Lemma full_consumer_blocks_witness :
  let s := set_conns (<[1%nat := NotifyDemo.consumer (Some 10)]>) NotifyDemo.s0 in
  exists s', send_pre_update_signal "m" s = (Stuck, s').
Proof.
  intros s. destruct (full_consumer_blocks "m" NotifyDemo.info [] 1 [2]%nat (NotifyDemo.consumer (Some 10)) s)
    as (s' & E & _).
  - vm_compute. reflexivity.
  - vm_compute. reflexivity.
  - apply (bool_decide_unpack _). vm_compute. exact I.
  - intros j Hj. by apply not_elem_of_nil in Hj.
  - reflexivity.
  - reflexivity.
  - reflexivity.
  - exists s'. exact E.
Defined.

Lemma pre_update_spec_witness :
  exists s', send_pre_update_signal "m" NotifyDemo.s0 = (Ret tt, s') /\
    outbox <$> conns s' !! 1%nat = Some (line "PRE_UPDATE") /\
    bi_notify_sockets <$> dict_get "m" (ALLOCATED_BUFFERS s') = Some [1%nat].
Proof.
  destruct (pre_update_spec "m" NotifyDemo.info NotifyDemo.s0) as (s' & E & Hc & Hd & _).
  - vm_compute. reflexivity.
  - apply (bool_decide_unpack _). vm_compute. exact I.
  - exact demo_rooms.
  - exists s'. split; [exact E|]. rewrite Hd, (Hc 1%nat (NotifyDemo.consumer (Some 4096))) by reflexivity.
    split; reflexivity.
Defined.
