(* ===== verification/Target.v ===== *)
(** * handle_target_connection (driver/main.py)

    The receiving end of a propagation: it reads the five lines and the NCCL id that the
    source sends, signals the consumers of the buffer, acknowledges, joins the
    communicator and receives, and signals again. *)

From S2P Require Import Prelude PyMonad PyText PyDict Cuda Allocator NodeState Stage Notify.

(** What the header of a request says, and the bytes that followed it. *)
Record Handshake : Type := mk_Handshake {
  hs_buffer_id : string;
  hs_world_size : Z;
  hs_rank : Z;
  hs_mode : Z;
  hs_scatter_offset : Z;
  hs_scatter_length : Z;
  hs_rest : string
}.

(** [parts[i]]. *)
Definition part {S} (parts : list string) (i : nat) : py S string :=
  py_some (parts !! i) IndexError "list index out of range".

(** [int(parts[i].decode('utf-8'))]. *)
Definition int_part {S} (parts : list string) (i : nat) : py S Z :=
  p ← part parts i ;
  text ← decode_utf8 p ;
  py_int text.

(** The scatter line [offset,length]. *)
Definition parse_scatter_meta {S} (meta : string) : py S (Z * Z) :=
  let meta_parts := split "," meta in
  o ← part meta_parts 0 ;
  scatter_offset ← py_int o ;
  l ← part meta_parts 1 ;
  scatter_length ← py_int l ;
  mret (scatter_offset, scatter_length).

Definition parse_handshake {S} (buf : string) : py S Handshake :=
  let parts := split_max NL 5 buf in
  b ← part parts 0 ;
  buffer_id ← decode_utf8 b ;
  world_size ← int_part parts 1 ;
  rank ← int_part parts 2 ;
  mode ← (if (4 <? length parts)%nat then int_part parts 3 else mret 0) ;
  meta ← (if (mode =? 1) && (5 <? length parts)%nat then
            m ← part parts 4 ;
            text ← decode_utf8 m ;
            parse_scatter_meta text
          else mret (0, 0)) ;
  mret (mk_Handshake buffer_id world_size rank mode meta.1 meta.2 (default "" (last parts))).

(** The call with which a target receives. *)
Definition receive_op (hs : Handshake) (info : BufferInfo) : nccl_op :=
  if (hs_mode hs =? 1) && (0 <? hs_scatter_length hs) then
    NcclRecv (bi_device_ptr info + hs_scatter_offset hs) (hs_scatter_length hs / 2) 0
  else NcclBcast (bi_device_ptr info) (bi_size_bytes info / 2) 0.

Section target.
Context {W C : Type} `{CudaApi W} `{GrpcContext C} (env : Env).
#[local] Abbreviation state := (Driver W C).

(** A call on the communicator. *)
Definition nccl_call (op : nccl_op) : py state unit :=
  py_modify (add_nccl op) ;;
  match nccl_result env op with
  | None => mret tt
  | Some msg => py_raise RuntimeError msg
  end.

(** [while b"\n" not in buf], at most [fuel] times. *)
Fixpoint read_header (fuel : nat) (conn : nat) (buf : string) : py state string :=
  if has_char NL buf then mret buf
  else
    match fuel with
    | O => py_stuck
    | S fuel' =>
        chunk ← sock_recv conn 1024 ;
        if bool_decide (chunk = "") then mret buf
        else read_header fuel' conn (buf +:+ chunk)
    end.

(** [while len(nccl_id_bytes) < 128], at most [fuel] times. *)
Fixpoint read_nccl_id (fuel : nat) (conn : nat) (nccl_id_bytes : string) : py state string :=
  if (String.length nccl_id_bytes <? 128)%nat then
    match fuel with
    | O => py_stuck
    | S fuel' =>
        chunk ← sock_recv conn (128 - String.length nccl_id_bytes) ;
        read_nccl_id fuel' conn (nccl_id_bytes +:+ chunk)
    end
  else mret nccl_id_bytes.

(** What follows the request: check, signal, acknowledge, receive, signal. *)
Definition serve_handshake (conn : nat) (hs : Handshake) (nccl_id : string) : py state unit :=
  let buffer_id := hs_buffer_id hs in
  staged ← buffer_known buffer_id ;
  if negb staged then sock_sendall conn (line "ERROR") ;; sock_close conn
  else
    info ← get_buffer buffer_id ;
    send_pre_update_signal buffer_id ;;
    sock_sendall conn (line "OK") ;;
    allocator ← py_get cuda_allocator ;
    if CUPY_AVAILABLE env && bool_decide (is_Some allocator) then
      nccl_call (NcclInit (hs_world_size hs) nccl_id (hs_rank hs)) ;;
      nccl_call (receive_op hs info) ;;
      notify_consumers buffer_id (line "READY")
    else mret tt.

Definition target_body (fuel conn : nat) : py state unit :=
  buf ← read_header fuel conn "" ;
  if bool_decide (buf = "") then sock_close conn
  else
    hs ← parse_handshake buf ;
    nccl_id ← read_nccl_id fuel conn (hs_rest hs) ;
    serve_handshake conn hs nccl_id.

Definition handle_target_connection (fuel conn : nat) : py state unit :=
  try: (try: target_body fuel conn except: is_Exception as _ => mret tt) finally: sock_close conn.
End target.

(** ** The request as the source writes it *)

Definition handshake_header (buffer_id : string) (world_size rank mode : Z) (scatter_meta : string)
    : string :=
  line buffer_id +:+ line (str_of_Z world_size) +:+ line (str_of_Z rank) +:+
  line (str_of_Z mode) +:+ line scatter_meta.

Definition handshake_message (buffer_id : string) (world_size rank mode : Z)
    (scatter_meta nccl_id : string) : string :=
  handshake_header buffer_id world_size rank mode scatter_meta +:+ nccl_id.

Definition scatter_meta_of (offset_bytes length_bytes : Z) : string :=
  str_of_Z offset_bytes +:+ "," +:+ str_of_Z length_bytes.

(** ** Lemmas: parsing what was written *)

Lemma line_app s t : line s +:+ t = s +:+ String NL t.
Proof. unfold line. by rewrite string_app_assoc. Qed.

Lemma has_char_header id ws rank mode meta : has_char NL (handshake_header id ws rank mode meta) = true.
Proof.
  unfold handshake_header. rewrite line_app, has_char_app. simpl. by rewrite orb_true_r.
Qed.

Lemma scatter_meta_no_NL o l : has_char NL (scatter_meta_of o l) = false.
Proof.
  unfold scatter_meta_of. rewrite !has_char_app, !str_of_Z_no_NL. done.
Qed.

Lemma split_header id ws rank mode meta rest :
  has_char NL id = false -> has_char NL meta = false ->
  split_max NL 5 (handshake_header id ws rank mode meta +:+ rest) =
    [id; str_of_Z ws; str_of_Z rank; str_of_Z mode; meta; rest].
Proof.
  intros Hid Hmeta. unfold handshake_header. rewrite !string_app_assoc, !line_app.
  rewrite !split_max_cons by (done || apply str_of_Z_no_NL). by rewrite split_max_0.
Qed.

Section parse.
Context {S : Type}.

Lemma int_part_run parts i z (s : S) :
  parts !! i = Some (str_of_Z z) -> int_part parts i s = (Ret z, s).
Proof.
  intros E. unfold int_part, part. rewrite bind_unfold, E. simpl.
  unfold decode_utf8. rewrite valid_utf8_str_of_Z. rewrite bind_unfold. simpl.
  unfold py_int. by rewrite int_of_str_of_Z.
Qed.

Lemma parse_scatter_meta_run o l (s : S) :
  parse_scatter_meta (scatter_meta_of o l) s = (Ret (o, l), s).
Proof.
  unfold parse_scatter_meta, scatter_meta_of.
  change (str_of_Z o +:+ "," +:+ str_of_Z l) with (str_of_Z o +:+ String "," (str_of_Z l)).
  rewrite split_pair by apply str_of_Z_no_comma. unfold part, py_int.
  rewrite bind_unfold. simpl. rewrite bind_unfold, int_of_str_of_Z. simpl.
  rewrite bind_unfold. simpl. rewrite bind_unfold, int_of_str_of_Z. done.
Qed.

Lemma valid_utf8_scatter_meta o l : valid_utf8 (scatter_meta_of o l) = true.
Proof.
  apply valid_utf8_ascii. unfold scatter_meta_of. rewrite !str_forall_app, !str_of_Z_ascii. done.
Qed.

(** The fields come back as they were written; the scatter line is only read in
    SCATTER mode. *)
Lemma parse_handshake_run id ws rank mode o l rest (s : S) :
  has_char NL id = false -> valid_utf8 id = true ->
  parse_handshake (handshake_header id ws rank mode (scatter_meta_of o l) +:+ rest) s =
    (Ret (mk_Handshake id ws rank mode (if mode =? 1 then o else 0) (if mode =? 1 then l else 0) rest), s).
Proof.
  intros Hid Hv. unfold parse_handshake.
  rewrite split_header by (done || apply scatter_meta_no_NL).
  rewrite bind_unfold. simpl. rewrite bind_unfold. unfold decode_utf8 at 1. rewrite Hv. simpl.
  rewrite bind_unfold, (int_part_run _ 1 ws) by done.
  rewrite bind_unfold, (int_part_run _ 2 rank) by done.
  rewrite bind_unfold, (int_part_run _ 3 mode) by done. rewrite bind_unfold.
  destruct (mode =? 1); simpl; [|done].
  rewrite bind_unfold. simpl. rewrite bind_unfold. unfold decode_utf8.
  rewrite valid_utf8_scatter_meta. simpl. by rewrite parse_scatter_meta_run.
Qed.

(** One line is not a header. *)
Lemma parse_handshake_short id (s : S) :
  has_char NL id = false -> valid_utf8 id = true ->
  exists e, parse_handshake (line id) s = (Raise e, s).
Proof.
  intros Hid Hv. unfold parse_handshake.
  rewrite <- (string_app_nil_r (line id)), line_app, split_max_cons by done.
  rewrite bind_unfold. simpl. rewrite bind_unfold. unfold decode_utf8 at 1. rewrite Hv. simpl.
  rewrite bind_unfold. unfold int_part at 1, part. rewrite bind_unfold. simpl. by eexists.
Qed.
End parse.

(** ** Lemmas: reading the request *)

Section reading.
Context {W C : Type} `{CudaApi W} `{GrpcContext C} (env : Env).
Implicit Types (s : Driver W C) (c : Conn).

(** A connection with other chunks still to read. *)
Definition with_inbox (chunks : list string) (c : Conn) : Conn :=
  mk_Conn chunks (eof c) (room c) (outbox c) (passed_fds c) (closed c).

Definition bytes_of (chunks : list string) : string := foldr String.append "" chunks.

Definition set_conn (conn : nat) (c : Conn) s : Driver W C := set_conns (<[conn := c]>) s.

Lemma set_conn_twice conn c c' s : set_conn conn c (set_conn conn c' s) = set_conn conn c s.
Proof. unfold set_conn, set_conns. simpl. f_equal. apply insert_insert_eq. Qed.

Lemma set_conn_id conn c s : conns s !! conn = Some c -> set_conn conn c s = s.
Proof. intros Hc. unfold set_conn, set_conns. rewrite insert_id by done. by destruct s. Qed.

Lemma recv_chunk n conn c chunk rest s :
  conns s !! conn = Some c -> inbox c = chunk :: rest -> (String.length chunk <= n)%nat ->
  sock_recv conn n s = (Ret chunk, set_conn conn (with_inbox rest c) s).
Proof.
  intros Hc Hin Hn. unfold sock_recv, on_conn. rewrite Hc. unfold conn_recv. rewrite Hin.
  rewrite bool_decide_eq_true_2 by done. by rewrite str_take_all.
Qed.

Lemma read_header_run fuel conn c first rest s :
  conns s !! conn = Some c -> inbox c = first :: rest ->
  (String.length first <= 1024)%nat -> has_char NL first = true -> (0 < fuel)%nat ->
  read_header fuel conn "" s = (Ret first, set_conn conn (with_inbox rest c) s).
Proof.
  intros Hc Hin Hlen Hnl Hf. destruct fuel as [|fuel]; [lia|]. simpl.
  rewrite bind_unfold, (recv_chunk _ _ c first rest) by done.
  rewrite bool_decide_eq_false_2 by (intros ->; done). simpl.
  destruct fuel; simpl; by rewrite Hnl.
Qed.

(** The 128 bytes of the id, in any chunks. *)
Lemma read_nccl_id_run fuel conn c got s :
  conns s !! conn = Some c ->
  Forall (fun chunk => chunk <> "") (inbox c) ->
  (length (inbox c) <= fuel)%nat ->
  String.length (got +:+ bytes_of (inbox c)) = 128%nat ->
  read_nccl_id fuel conn got s =
    (Ret (got +:+ bytes_of (inbox c)), set_conn conn (with_inbox [] c) s).
Proof.
  remember (inbox c) as chunks eqn:Ein. symmetry in Ein. revert fuel c got s Ein.
  induction chunks as [|chunk chunks IH]; intros fuel c got s Ein Hc Hne Hf Hlen.
  - simpl in *. rewrite string_app_nil_r in *. replace (with_inbox [] c) with c.
    2: { unfold with_inbox. rewrite <- Ein. by destruct c. }
    rewrite set_conn_id by done. destruct fuel; simpl; by rewrite Hlen.
  - inversion Hne; subst. simpl in Hf, Hlen. destruct fuel as [|fuel]; [lia|]. simpl.
    rewrite !string_length_app in Hlen.
    assert (0 < String.length chunk)%nat by (destruct chunk; simpl; [done|lia]).
    rewrite (proj2 (Nat.ltb_lt _ _)) by lia.
    rewrite bind_unfold, (recv_chunk _ _ c chunk chunks) by (done || lia).
    rewrite (IH fuel (with_inbox chunks c)); [|done|simpl; apply lookup_insert_eq|done|lia|].
    + rewrite set_conn_twice, string_app_assoc. done.
    + rewrite !string_length_app. lia.
Qed.

(** At end of file the loop for the id never ends. *)
Lemma read_nccl_id_eof fuel conn c got s :
  conns s !! conn = Some c -> inbox c = [] -> eof c = true ->
  (String.length got < 128)%nat ->
  read_nccl_id fuel conn got s = (Stuck, s).
Proof.
  intros Hc Hin Heof Hgot. revert s Hc. induction fuel as [|fuel IH]; intros s Hc; simpl;
    rewrite (proj2 (Nat.ltb_lt _ _)) by done; [done|].
  rewrite bind_unfold. unfold sock_recv, on_conn. rewrite Hc. unfold conn_recv. rewrite Hin, Heof.
  rewrite string_app_nil_r. change (set_conns (<[conn:=c]>) s) with (set_conn conn c s).
  rewrite set_conn_id by done. by apply IH.
Qed.
End reading.

(** ** Lemmas: serving a request *)

Section serving.
Context {W C : Type} `{CudaApi W} `{GrpcContext C} (env : Env).
Implicit Types (s : Driver W C) (c : Conn).

Lemma nccl_call_run op s :
  nccl_result env op = None -> nccl_call env op s = (Ret tt, add_nccl op s).
Proof. intros Hr. unfold nccl_call. by rewrite bind_unfold, Hr. Qed.

(** The sockets after a successful transfer, from the sockets before. *)
Definition served_conns (conn : nat) (consumers : list nat) (m : gmap nat Conn) : gmap nat Conn :=
  deliver_all (line "READY") (filter (fun i => sock_alive m i = true) consumers)
    (alter (deliver (line "OK")) conn (deliver_all (line "PRE_UPDATE") consumers m)).

Lemma sock_alive_deliver_all msg l m j : sock_alive (deliver_all msg l m) j = sock_alive m j.
Proof.
  revert m. induction l as [|i l IH]; intros m; [done|].
  change (deliver_all msg (i :: l) m) with (deliver_all msg l (alter (deliver msg) i m)).
  by rewrite IH, sock_alive_deliver.
Qed.

Lemma sock_room_app msg msg' m i : sock_room (msg +:+ msg') m i = true -> sock_room msg m i = true.
Proof. unfold sock_room. destruct (m !! i); [apply has_room_app|done]. Qed.

(** Room for two messages is room for the second one after the first one. *)
Lemma sock_room_deliver_all msg msg' l m i :
  NoDup l -> i ∈ l -> sock_room (msg +:+ msg') m i = true ->
  sock_room msg' (deliver_all msg l m) i = true.
Proof.
  intros Hnd Hi. unfold sock_room. rewrite deliver_all_lookup, bool_decide_eq_true_2 by done.
  destruct (m !! i); [|done]. simpl. apply has_room_deliver.
Qed.

Lemma has_room_le msg msg' c : blen msg' <= blen msg -> has_room msg c = true -> has_room msg' c = true.
Proof. unfold has_room. destruct (room c); [|done]. intros. zify_bools. lia. Qed.

Lemma serve_handshake_run conn hs nccl_id b a s :
  let consumers := bi_notify_sockets b in
  dict_get (hs_buffer_id hs) (ALLOCATED_BUFFERS s) = Some b -> NoDup consumers ->
  sock_alive (conns s) conn = true -> sock_room (line "OK") (conns s) conn = true ->
  conn ∉ consumers ->
  (forall i, i ∈ consumers -> sock_room (line "PRE_UPDATE" +:+ line "READY") (conns s) i = true) ->
  CUPY_AVAILABLE env = true -> cuda_allocator s = Some a ->
  nccl_result env (NcclInit (hs_world_size hs) nccl_id (hs_rank hs)) = None ->
  nccl_result env (receive_op hs b) = None ->
  exists d,
    serve_handshake env conn hs nccl_id s =
      (Ret tt,
       set_buffers (fun _ => d) (set_conns (fun _ => served_conns conn consumers (conns s))
         (add_nccl (receive_op hs b)
           (add_nccl (NcclInit (hs_world_size hs) nccl_id (hs_rank hs)) s)))) /\
    dict_keys d = dict_keys (ALLOCATED_BUFFERS s) /\
    (forall k, k <> hs_buffer_id hs -> dict_get k d = dict_get k (ALLOCATED_BUFFERS s)).
Proof.
  intros consumers Hb Hnd Halive Hok Hconn Hroom Hcupy Ha Hi Hr.
  destruct (notify_consumers_run (hs_buffer_id hs) (line "PRE_UPDATE") b s Hb Hnd)
    as (d1 & E1 & Hd1 & Ho1 & Hk1); [intros i Hin; by apply (sock_room_app _ (line "READY")), Hroom|]. fold consumers in E1, Hd1.
  set (s1 := set_conns (alter (deliver (line "OK")) conn)
               (set_buffers (fun _ => d1) (set_conns (deliver_all (line "PRE_UPDATE") consumers) s))).
  set (s2 := add_nccl (receive_op hs b)
               (add_nccl (NcclInit (hs_world_size hs) nccl_id (hs_rank hs)) s1)).
  destruct (notify_consumers_run (hs_buffer_id hs) (line "READY")
    (set_notify_sockets (filter (fun i => sock_alive (conns s) i = true) consumers) b) s2)
    as (d2 & E2 & _ & Ho2 & Hk2); [done|by apply NoDup_filter| |].
  { intros i [_ Hin]%list_elem_of_filter. simpl. assert (conn <> i) by (intros ->; done).
    rewrite sock_room_deliver by done. apply sock_room_deliver_all; [done..|by apply Hroom]. }
  exists d2. split; [|split; [by rewrite Hk2|intros k Hk; by rewrite Ho2, <- Ho1]].
  unfold serve_handshake. rewrite bind_unfold. simpl.
  rewrite (proj2 (dict_mem_true _ _)) by eauto. simpl.
  rewrite bind_unfold, (get_buffer_run _ b) by done. rewrite bind_unfold.
  unfold send_pre_update_signal at 1. rewrite bind_unfold. simpl.
  rewrite (proj2 (dict_mem_true _ _)) by eauto. rewrite E1.
  rewrite bind_unfold, sendall_run.
  2: { simpl. unfold sock_room. rewrite deliver_all_lookup, bool_decide_eq_false_2 by done. exact Hok. }
  simpl. rewrite sock_alive_deliver_all, Halive. fold s1. rewrite bind_unfold. simpl. rewrite Ha, Hcupy. simpl.
  rewrite bind_unfold, nccl_call_run by done. rewrite bind_unfold, nccl_call_run by done.
  fold s2. rewrite E2. done.
Qed.

Lemma served_conns_consumer conn consumers m i c :
  NoDup consumers -> i ∈ consumers -> i <> conn -> m !! i = Some c -> conn_alive c = true ->
  served_conns conn consumers m !! i =
    Some (deliver (line "PRE_UPDATE" +:+ line "READY") c).
Proof.
  intros Hnd Hi Hne Hm Halive. unfold served_conns.
  rewrite deliver_all_lookup by (by apply NoDup_filter).
  rewrite bool_decide_eq_true_2.
  2: { apply list_elem_of_filter. unfold sock_alive. by rewrite Hm. }
  rewrite lookup_alter_ne by done. rewrite deliver_all_lookup, bool_decide_eq_true_2, Hm by done.
  simpl. by rewrite deliver_deliver.
Qed.

Lemma served_conns_source conn consumers m c :
  NoDup consumers -> conn ∉ consumers -> m !! conn = Some c -> conn_alive c = true ->
  served_conns conn consumers m !! conn =
    Some (mk_Conn (inbox c) (eof c) (spend (line "OK") c) (outbox c +:+ line "OK") (passed_fds c) (closed c)).
Proof.
  intros Hnd Hi Hm Halive. unfold served_conns.
  rewrite deliver_all_lookup by (by apply NoDup_filter).
  rewrite bool_decide_eq_false_2 by (intros ?%list_elem_of_filter; naive_solver).
  rewrite lookup_alter_eq. rewrite deliver_all_lookup, bool_decide_eq_false_2, Hm by done.
  simpl. unfold deliver. by rewrite Halive.
Qed.

(** The source's request, arrived with its header in the first chunk. *)
Definition request_arrived (id : string) (ws rank mode o l : Z) (nccl_id : string) (c : Conn) : Prop :=
  exists p chunks,
    inbox c = (handshake_header id ws rank mode (scatter_meta_of o l) +:+ p) :: chunks /\
    (String.length (handshake_header id ws rank mode (scatter_meta_of o l) +:+ p) <= 1024)%nat /\
    Forall (fun chunk => chunk <> "") chunks /\
    p +:+ bytes_of chunks = nccl_id.

(** The parsed request. *)
Definition parsed (id : string) (ws rank mode o l : Z) (rest : string) : Handshake :=
  mk_Handshake id ws rank mode (if mode =? 1 then o else 0) (if mode =? 1 then l else 0) rest.

Lemma target_body_run fuel conn c id ws rank mode o l nccl_id s :
  conns s !! conn = Some c ->
  request_arrived id ws rank mode o l nccl_id c ->
  has_char NL id = false -> valid_utf8 id = true -> String.length nccl_id = 128%nat ->
  (length (inbox c) <= fuel)%nat ->
  exists rest, target_body env fuel conn s =
    serve_handshake env conn (parsed id ws rank mode o l rest) nccl_id
      (set_conn conn (with_inbox [] c) s).
Proof.
  intros Hc (p & chunks & Hin & Hlen & Hne & Hp) Hid Hv Hn Hf. exists p.
  unfold target_body. rewrite Hin in Hf. simpl in Hf.
  rewrite bind_unfold, (read_header_run fuel conn c _ chunks) by
    (done || lia || (rewrite has_char_app, has_char_header; done)).
  rewrite bool_decide_eq_false_2.
  2: { intros E. assert (has_char NL "" = true) as Hd; [|done]. rewrite <- E.
       by rewrite has_char_app, has_char_header. }
  rewrite bind_unfold, parse_handshake_run by done. rewrite bind_unfold.
  change (hs_rest (mk_Handshake id ws rank mode _ _ p)) with p.
  rewrite (read_nccl_id_run _ _ (with_inbox chunks c)); [|simpl; apply lookup_insert_eq|done|simpl; lia|].
  - rewrite set_conn_twice. simpl. by rewrite Hp.
  - simpl. by rewrite Hp.
Qed.
End serving.

(** ** Lemmas: what a connection leaves alone *)

Section leaves.
Context {W C : Type} `{CudaApi W} `{GrpcContext C} (env : Env).
#[local] Abbreviation state := (Driver W C).

(** [takes P Q m]: whatever the outcome of [m], it leads from [P] to [Q]. *)
Definition takes {A} (P Q : state -> Prop) (m : py state A) : Prop := forall s, P s -> Q (m s).2.

Lemma takes_bind {A B} (P Q R : state -> Prop) (m : py state A) (k : A -> py state B) :
  (forall s, Q s -> R s) -> takes P Q m -> (forall a, takes Q R (k a)) -> takes P R (m ≫= k).
Proof.
  intros HQ Hm Hk s Hs. rewrite bind_unfold. specialize (Hm s Hs).
  destruct (m s) as [[a|e|] s']; simpl in *; [by apply Hk|by apply HQ..].
Qed.

Lemma preserves_bind_takes {A B} (P R : state -> Prop) (m : py state A) (k : A -> py state B) :
  (forall s, P s -> R s) -> preserves P m -> (forall a, takes P R (k a)) -> takes P R (m ≫= k).
Proof. intros HP Hm. by apply (takes_bind P P). Qed.

(** An invariant with a credit: each notification takes one. *)
Context (I : nat -> state -> Prop) (conn : nat).
Hypothesis Hless : forall k s, I (S k) s -> I k s.
Hypothesis Hconn : forall k A (f : Conn -> outcome A * Conn), preserves (I k) (on_conn conn f).
Hypothesis Hclose : forall k, preserves (I k) (sock_close conn).
Hypothesis Hnccl : forall k op s, I k s -> I k (add_nccl op s).
Hypothesis Hnotify : forall k id msg, blen msg <= 11 -> takes (I (S k)) (I k) (notify_consumers id msg).
#[local] Hint Extern 1 (preserves _ (on_conn _ _)) => apply Hconn : wpi.
#[local] Hint Extern 1 (preserves _ (sock_close _)) => apply Hclose : wpi.

Lemma preserves_header k fuel buf : preserves (I k) (read_header fuel conn buf).
Proof. revert buf. unfold read_header, sock_recv. induction fuel as [|n IH]; intros buf; simpl; preserves_tac. Qed.

Lemma preserves_nccl_id k fuel buf : preserves (I k) (read_nccl_id fuel conn buf).
Proof. revert buf. unfold read_nccl_id, sock_recv. induction fuel as [|n IH]; intros buf; simpl; preserves_tac. Qed.

Lemma preserves_parse k buf : preserves (I k) (parse_handshake (S:=state) buf).
Proof. unfold parse_handshake, part, int_part, parse_scatter_meta, part, decode_utf8, py_int. preserves_tac. Qed.

Lemma preserves_nccl k op : preserves (I k) (nccl_call env op).
Proof. unfold nccl_call. preserves_tac. apply preserves_modify; intros; by apply Hnccl. Qed.

(** The answer to a request: at most two notifications. *)
Lemma takes_serve hs nccl_id k : takes (I (S (S k))) (I k) (serve_handshake env conn hs nccl_id).
Proof.
  assert (forall s, I (S (S k)) s -> I k s) as Hless2 by auto.
  unfold serve_handshake. apply preserves_bind_takes; [done|unfold buffer_known; preserves_tac|]. intros staged.
  destruct (negb staged).
  { intros s Hs. apply Hless2. revert s Hs. change (preserves (I (S (S k)))
      (sock_sendall conn (line "ERROR") ;; sock_close conn)). unfold sock_sendall. preserves_tac. }
  apply preserves_bind_takes; [done|unfold get_buffer; preserves_tac|]. intros info.
  apply (takes_bind _ (I (S k))); [apply Hless| |].
  { unfold send_pre_update_signal. apply preserves_bind_takes; [apply Hless|unfold buffer_known; preserves_tac|].
    intros [|]; [by apply Hnotify|]. intros s Hs. by apply Hless. }
  intros _. apply preserves_bind_takes; [apply Hless|unfold sock_sendall; preserves_tac|]. intros _.
  apply preserves_bind_takes; [apply Hless|preserves_tac|]. intros o.
  destruct (_ && _); [|intros s Hs; by apply Hless].
  do 2 (apply preserves_bind_takes; [apply Hless|apply preserves_nccl|]; intros _). by apply Hnotify.
Qed.

(** The thread of a connection. *)
Lemma takes_target fuel k : takes (I (S (S k))) (I k) (handle_target_connection env fuel conn).
Proof.
  assert (forall s, I (S (S k)) s -> I k s) as Hless2 by auto.
  assert (takes (I (S (S k))) (I k) (target_body env fuel conn)) as Hbody.
  { unfold target_body. apply preserves_bind_takes; [done|apply preserves_header|]. intros buf.
    case_bool_decide; [intros s Hs; apply Hless2; by apply Hclose|].
    apply preserves_bind_takes; [done|apply preserves_parse|]. intros hs.
    apply preserves_bind_takes; [done|apply preserves_nccl_id|]. intros id. apply takes_serve. }
  intros s Hs. specialize (Hbody s Hs). unfold handle_target_connection, py_finally, py_except.
  destruct (target_body env fuel conn s) as [[a|e|] s']; simpl in *; [by apply Hclose| |done].
  destruct (is_Exception e); by apply (Hclose k s').
Qed.
End leaves.

(** The thread of a connection keeps an invariant that says nothing of its socket. *)
Lemma preserves_target {W C : Type} `{CudaApi W} `{GrpcContext C} (env : Env) (I : Driver W C -> Prop) conn :
  (forall A (f : Conn -> outcome A * Conn), preserves I (on_conn conn f)) ->
  preserves I (sock_close conn) -> (forall op s, I s -> I (add_nccl op s)) ->
  (forall id msg, preserves I (notify_consumers id msg)) ->
  forall fuel, preserves I (handle_target_connection env fuel conn).
Proof.
  intros Hc Hcl Hn Hno fuel. refine (takes_target env (fun _ => I) conn _ _ _ _ _ fuel 0); try done.
  intros _ id msg _. apply Hno.
Qed.

(** ** Properties *)

Section properties.
Context {W C : Type} `{CudaApi W} `{GrpcContext C} (env : Env).
Implicit Types (s : Driver W C) (c : Conn).

(** A target with an open connection [c], on which a request for the staged buffer [b]
    can be read in [fuel] rounds and served to the end; the source and the consumers have
    room for the lines that they get. *)
Record ready_target (fuel conn : nat) (c : Conn) (id nccl_id : string) (b : BufferInfo)
    (a : CudaAllocator W) s : Prop := {
  rt_conn : conns s !! conn = Some c;
  rt_alive : conn_alive c = true;
  rt_room : has_room (line "ERROR") c = true;
  rt_line : has_char NL id = false;
  rt_utf8 : valid_utf8 id = true;
  rt_nccl_id : String.length nccl_id = 128%nat;
  rt_fuel : (length (inbox c) <= fuel)%nat;
  rt_staged : dict_get id (ALLOCATED_BUFFERS s) = Some b;
  rt_consumers : NoDup (bi_notify_sockets b);
  rt_rooms : forall i, i ∈ bi_notify_sockets b ->
    sock_room (line "PRE_UPDATE" +:+ line "READY") (conns s) i = true;
  rt_source : conn ∉ bi_notify_sockets b;
  rt_cupy : CUPY_AVAILABLE env = true;
  rt_allocator : cuda_allocator s = Some a;
  rt_nccl : forall op, nccl_result env op = None
}.

(** A request that is served to the end, run. *)
Lemma target_served fuel conn c id ws rank mode o l nccl_id b a s :
  ready_target fuel conn c id nccl_id b a s ->
  request_arrived id ws rank mode o l nccl_id c ->
  let op := if (mode =? 1) && (0 <? l) then NcclRecv (bi_device_ptr b + o) (l / 2) 0
            else NcclBcast (bi_device_ptr b) (bi_size_bytes b / 2) 0 in
  exists s',
    handle_target_connection env fuel conn s = (Ret tt, s') /\
    nccl_log s' = nccl_log s ++ [NcclInit ws nccl_id rank; op] /\
    conns s' !! conn = Some (mk_Conn [] (eof c) (spend (line "OK") c) (outbox c +:+ line "OK") (passed_fds c) true) /\
    (forall i ci, i ∈ bi_notify_sockets b -> conns s !! i = Some ci -> conn_alive ci = true ->
       outbox <$> conns s' !! i = Some (outbox ci +:+ line "PRE_UPDATE" +:+ line "READY")) /\
    (forall k, k <> id -> dict_get k (ALLOCATED_BUFFERS s') = dict_get k (ALLOCATED_BUFFERS s)).
Proof.
  intros [Hc Halive Hrm Hid Hv Hn Hf Hb Hnd Hrooms Hconn Hcupy Ha Hnccl] Hreq op.
  destruct (target_body_run env fuel conn c id ws rank mode o l nccl_id s) as (rest & E); [done..|].
  set (s1 := set_conn conn (with_inbox [] c) s) in *.
  assert (conns s1 !! conn = Some (with_inbox [] c)) as Hc1 by (simpl; apply lookup_insert_eq).
  destruct (serve_handshake_run env conn (parsed id ws rank mode o l rest) nccl_id b a s1)
    as (d & Es & Hk & Ho); [done|done|unfold sock_alive; by rewrite Hc1| |done| |done|done|done|done|].
  { unfold sock_room. rewrite Hc1. by apply (has_room_le (line "ERROR")). }
  { intros i Hi. simpl. unfold sock_room. assert (conn <> i) by (intros ->; done).
    rewrite lookup_insert_ne by done. by apply Hrooms. }
  assert (receive_op (parsed id ws rank mode o l rest) b = op) as Hop.
  { unfold receive_op, op. simpl. by destruct (mode =? 1). }
  eexists. split; [|split; [|split; [|split]]].
  - unfold handle_target_connection, py_finally, py_except. rewrite E, Es. reflexivity.
  - simpl. rewrite Hop. by rewrite <- app_assoc.
  - simpl. rewrite lookup_alter_eq.
    by rewrite (served_conns_source _ _ _ (with_inbox [] c)).
  - intros i ci Hi Hci Hal. simpl. assert (i <> conn) by (intros ->; done).
    rewrite lookup_alter_ne by done.
    rewrite (served_conns_consumer conn _ _ i ci); try done.
    + simpl. unfold deliver. by rewrite Hal.
    + simpl. by rewrite lookup_insert_ne.
  - intros k Hk'. by apply Ho.
Qed.

(** A request whose communicator cannot be joined: the consumers got PRE_UPDATE, the source
    its OK, and that is all. *)
Lemma target_join_fails fuel conn c id ws rank mode o l nccl_id b a msg s :
  conns s !! conn = Some c -> conn_alive c = true -> has_room (line "OK") c = true ->
  request_arrived id ws rank mode o l nccl_id c ->
  has_char NL id = false -> valid_utf8 id = true -> String.length nccl_id = 128%nat ->
  (length (inbox c) <= fuel)%nat ->
  (forall i, i ∈ bi_notify_sockets b -> sock_room (line "PRE_UPDATE") (conns s) i = true) ->
  dict_get id (ALLOCATED_BUFFERS s) = Some b -> NoDup (bi_notify_sockets b) ->
  conn ∉ bi_notify_sockets b -> CUPY_AVAILABLE env = true -> cuda_allocator s = Some a ->
  nccl_result env (NcclInit ws nccl_id rank) = Some msg ->
  exists s',
    handle_target_connection env fuel conn s = (Ret tt, s') /\
    nccl_log s' = nccl_log s ++ [NcclInit ws nccl_id rank] /\
    (forall i ci, i ∈ bi_notify_sockets b -> conns s !! i = Some ci -> conn_alive ci = true ->
       outbox <$> conns s' !! i = Some (outbox ci +:+ line "PRE_UPDATE")).
Proof.
  intros Hc Halive Hrm Hreq Hid Hv Hn Hf Hrooms Hb Hnd Hconn Hcupy Ha Hnccl.
  destruct (target_body_run env fuel conn c id ws rank mode o l nccl_id s) as (rest & E); [done..|].
  set (s1 := set_conn conn (with_inbox [] c) s) in *.
  destruct (notify_consumers_run id (line "PRE_UPDATE") b s1) as (d & E1 & Hd & _ & Hk); [done..| |].
  { intros i Hi. unfold sock_room, s1. simpl. assert (conn <> i) by (intros ->; done).
    rewrite lookup_insert_ne by done. by apply Hrooms. }
  set (L := bi_notify_sockets b) in *.
  set (s2 := set_buffers (fun _ => d) (set_conns (deliver_all (line "PRE_UPDATE") L) s1)) in *.
  assert (sock_alive (conns s2) conn = true) as Hal2.
  { unfold s2. simpl. rewrite sock_alive_deliver_all. unfold sock_alive. by rewrite lookup_insert_eq. }
  eexists. split; [|split].
  - unfold handle_target_connection, py_finally, py_except. rewrite E.
    unfold serve_handshake. simpl hs_buffer_id. rewrite bind_unfold. simpl buffer_known.
    unfold buffer_known, py_get. simpl. rewrite (proj2 (dict_mem_true _ _)) by eauto. simpl.
    rewrite bind_unfold, (get_buffer_run _ b) by done. rewrite bind_unfold.
    unfold send_pre_update_signal. rewrite bind_unfold. simpl.
    rewrite (proj2 (dict_mem_true _ _)) by eauto. rewrite E1. fold s2.
    rewrite bind_unfold, sendall_run, Hal2.
    2: { unfold sock_room, s2. simpl.
         by rewrite deliver_all_lookup, bool_decide_eq_false_2, lookup_insert_eq by done. } rewrite bind_unfold. simpl. rewrite Ha, Hcupy. simpl.
    rewrite bind_unfold. unfold nccl_call at 1. rewrite bind_unfold. simpl. rewrite Hnccl. reflexivity.
  - done.
  - intros i ci Hi Hci Hal. simpl. assert (i <> conn) by (intros ->; done).
    rewrite !lookup_alter_ne by done. unfold s2. simpl. rewrite deliver_all_lookup by done.
    rewrite bool_decide_eq_true_2 by done. rewrite lookup_insert_ne, Hci by done. simpl.
    unfold deliver. by rewrite Hal.
Qed.

(** C10: a target that receives a source's request for a staged buffer, the header in the
    first chunk and the id in chunks of any size, joins the communicator with the rank and
    the id of the request, makes the receiving call of its mode, acknowledges with OK,
    gives each live consumer PRE_UPDATE before and READY after, and hangs up. *)
Theorem target_serves_request fuel conn c id ws rank mode o l nccl_id b a s :
  ready_target fuel conn c id nccl_id b a s ->
  request_arrived id ws rank mode o l nccl_id c ->
  let op := if (mode =? 1) && (0 <? l) then NcclRecv (bi_device_ptr b + o) (l / 2) 0
            else NcclBcast (bi_device_ptr b) (bi_size_bytes b / 2) 0 in
  exists s',
    handle_target_connection env fuel conn s = (Ret tt, s') /\
    nccl_log s' = nccl_log s ++ [NcclInit ws nccl_id rank; op] /\
    conns s' !! conn = Some (mk_Conn [] (eof c) (spend (line "OK") c) (outbox c +:+ line "OK") (passed_fds c) true) /\
    (forall i ci, i ∈ bi_notify_sockets b -> conns s !! i = Some ci -> conn_alive ci = true ->
       outbox <$> conns s' !! i = Some (outbox ci +:+ line "PRE_UPDATE" +:+ line "READY")) /\
    (forall k, k <> id -> dict_get k (ALLOCATED_BUFFERS s') = dict_get k (ALLOCATED_BUFFERS s)).
Proof. intros. by eapply target_served. Qed.

(** A target that does not hold the buffer answers ERROR and hangs up; no
    communicator is joined and no buffer changes. *)
Theorem target_rejects_unknown fuel conn c id ws rank mode o l nccl_id s :
  conns s !! conn = Some c -> conn_alive c = true -> has_room (line "ERROR") c = true ->
  request_arrived id ws rank mode o l nccl_id c ->
  has_char NL id = false -> valid_utf8 id = true -> String.length nccl_id = 128%nat ->
  (length (inbox c) <= fuel)%nat ->
  dict_get id (ALLOCATED_BUFFERS s) = None ->
  exists s',
    handle_target_connection env fuel conn s = (Ret tt, s') /\
    nccl_log s' = nccl_log s /\ ALLOCATED_BUFFERS s' = ALLOCATED_BUFFERS s /\
    conns s' !! conn =
      Some (mk_Conn [] (eof c) (spend (line "ERROR") c) (outbox c +:+ line "ERROR") (passed_fds c) true).
Proof.
  intros Hc Halive Hrm Hreq Hid Hv Hn Hf Hb.
  destruct (target_body_run env fuel conn c id ws rank mode o l nccl_id s) as (rest & E); [done..|].
  set (s1 := set_conn conn (with_inbox [] c) s) in *.
  assert (conns s1 !! conn = Some (with_inbox [] c)) as Hc1 by (simpl; apply lookup_insert_eq).
  eexists. split; [|split; [|split]].
  - unfold handle_target_connection, py_finally, py_except. rewrite E.
    unfold serve_handshake. rewrite bind_unfold. simpl.
    rewrite (proj2 (dict_mem_false _ _)) by done. simpl. rewrite bind_unfold, sendall_run.
    2: { unfold sock_room. by rewrite Hc1. }
    unfold sock_alive. rewrite Hc1. unfold conn_alive in *. simpl. rewrite Halive. reflexivity.
  - done.
  - done.
  - simpl. rewrite !lookup_alter_eq, lookup_insert_eq. simpl. unfold deliver, conn_alive in *. simpl.
    by rewrite Halive.
Qed.

(** C38: when the header is split after its first line, the target takes the line for the
    whole header: it fails on the missing fields and hangs up without an answer, whatever
    arrives later. *)
Theorem target_split_header_fails fuel conn c id later s :
  conns s !! conn = Some c -> inbox c = line id :: later ->
  has_char NL id = false -> valid_utf8 id = true -> (String.length id < 1024)%nat -> (0 < fuel)%nat ->
  handle_target_connection env fuel conn s =
    (Ret tt, set_conn conn (conn_close (with_inbox later c)) s).
Proof.
  intros Hc Hin Hid Hv Hlen Hf.
  assert (has_char NL (line id) = true) as Hnl.
  { unfold line. rewrite has_char_app. simpl. apply orb_true_r. }
  unfold handle_target_connection, py_finally, py_except, target_body.
  rewrite bind_unfold, (read_header_run fuel conn c (line id) later); [|done|done| |done|done].
  2: { unfold line. rewrite string_length_app. simpl. lia. }
  rewrite bool_decide_eq_false_2 by (intros E; by rewrite E in Hnl).
  rewrite bind_unfold. destruct (parse_handshake_short id (set_conn conn (with_inbox later c) s))
    as [e ->]; [done|done|]. unfold is_Exception. cbn [mret py_ret].
  unfold sock_close, py_modify. f_equal. unfold set_conn, set_conns. simpl. f_equal.
  apply map_eq. intros j. destruct (decide (conn = j)) as [->|Hne].
  - by rewrite lookup_alter_eq, !lookup_insert_eq.
  - by rewrite lookup_alter_ne, !lookup_insert_ne.
Qed.

(** C39: when the source hangs up before the 128 bytes of the id are complete, the target
    never returns: reads at end of file add nothing to the id, for any number of rounds. *)
Theorem target_short_id_never_returns fuel conn c id ws rank mode o l p s :
  conns s !! conn = Some c ->
  inbox c = [handshake_header id ws rank mode (scatter_meta_of o l) +:+ p] -> eof c = true ->
  (String.length (handshake_header id ws rank mode (scatter_meta_of o l) +:+ p) <= 1024)%nat ->
  has_char NL id = false -> valid_utf8 id = true -> (String.length p < 128)%nat ->
  (handle_target_connection env fuel conn s).1 = Stuck.
Proof.
  intros Hc Hin Heof Hlen Hid Hv Hp.
  unfold handle_target_connection, py_finally, py_except, target_body.
  destruct fuel as [|fuel]; [by rewrite bind_unfold|].
  rewrite bind_unfold, (read_header_run _ conn c _ []) by
    (done || lia || (rewrite has_char_app, has_char_header; done)).
  rewrite bool_decide_eq_false_2.
  2: { intros E. assert (has_char NL "" = true) as Hd; [|done]. rewrite <- E.
       by rewrite has_char_app, has_char_header. }
  rewrite bind_unfold, parse_handshake_run by done. rewrite bind_unfold.
  rewrite (read_nccl_id_eof _ _ (with_inbox [] c)); [done|simpl; apply lookup_insert_eq|done..].
Qed.
End properties.

(** ** Witnesses *)

Module TargetDemo.

(** A connection whose bytes arrive in the given chunks. *)
Definition peer (chunks : list string) (hung_up : bool) : Conn := mk_Conn chunks hung_up (Some 4096) "" [] false.

(** The request in two chunks: the header with 28 bytes of the id, then 100 bytes. *)
Definition chunks (id : string) (ws rank mode o l : Z) : list string :=
  [handshake_header id ws rank mode (scatter_meta_of o l) +:+ str_take 28 Demo.nccl_id;
   str_drop 28 Demo.nccl_id].

(** A target that holds "m" with a consumer on socket 5; the source is on socket 1. *)
Definition state (source : Conn) : Demo.driver :=
  set_buffers (dict_alter (set_notify_sockets [5%nat]) "m")
    (set_conns (fun _ => {[ 1%nat := source; 5%nat := mk_Conn [] false (Some 4096) "" [] false ]})
       (Demo.staged "c1" "m" (4 * MiB))).

Definition info (t : Demo.driver) (id : string) : BufferInfo := Demo.staged_info 0 t id.

Definition served : Demo.driver := state (peer (chunks "m" 3 2 1 4096 8192) false).

Definition allocator (t : Demo.driver) : CudaAllocator Sim.sim := default Demo.allocator0 (cuda_allocator t).
End TargetDemo.

Lemma demo_arrived id ws rank mode o l :
  (String.length (handshake_header id ws rank mode (scatter_meta_of o l)) <= 900)%nat ->
  request_arrived id ws rank mode o l Demo.nccl_id
    (TargetDemo.peer (TargetDemo.chunks id ws rank mode o l) false).
Proof.
  intros Hlen. exists (str_take 28 Demo.nccl_id), [str_drop 28 Demo.nccl_id]. split_and!; try done.
  - rewrite string_length_app.
    assert (String.length (str_take 28 Demo.nccl_id) = 28%nat) as -> by reflexivity. lia.
  - repeat constructor. done.
Qed.

Lemma demo_served_consumers i : i ∈ bi_notify_sockets (TargetDemo.info TargetDemo.served "m") -> i = 5%nat.
Proof.
  assert (bi_notify_sockets (TargetDemo.info TargetDemo.served "m") = [5%nat]) as -> by (vm_compute; reflexivity).
  apply list_elem_of_singleton.
Qed.

(** A request for "m" on socket 1 can be served, whatever other sockets there are. *)
Lemma demo_ready_target (f : gmap nat Conn -> gmap nat Conn) c :
  conn_alive c = true -> (length (inbox c) <= 2)%nat ->
  f (conns TargetDemo.served) !! 1%nat = Some c ->
  room c = Some 4096 ->
  (forall i, i ∈ bi_notify_sockets (TargetDemo.info TargetDemo.served "m") ->
     f (conns TargetDemo.served) !! i = conns TargetDemo.served !! i) ->
  ready_target Demo.env 2 1 c "m" Demo.nccl_id (TargetDemo.info TargetDemo.served "m")
    (TargetDemo.allocator TargetDemo.served) (set_conns f TargetDemo.served).
Proof.
  intros Ha Hl Hc Hr Hf. split; try reflexivity; try done.
  - unfold has_room. by rewrite Hr.
  - apply (bool_decide_unpack _). vm_compute. exact I.
  - intros i Hi. unfold sock_room.
    change (conns (set_conns f TargetDemo.served)) with (f (conns TargetDemo.served)). rewrite (Hf i Hi).
    by apply demo_served_consumers in Hi as ->.
  - apply (bool_decide_unpack _). vm_compute. exact I.
Qed.

Lemma target_serves_request_witness :
  exists s',
    handle_target_connection Demo.env 2 1 TargetDemo.served = (Ret tt, s') /\
    nccl_log s' = [NcclInit 3 Demo.nccl_id 2; NcclRecv (2 ^ 40 + 4096) 4096 0] /\
    outbox <$> conns s' !! 5%nat = Some (line "PRE_UPDATE" +:+ line "READY").
Proof.
  destruct (target_serves_request Demo.env 2 1
    (TargetDemo.peer (TargetDemo.chunks "m" 3 2 1 4096 8192) false) "m" 3 2 1 4096 8192 Demo.nccl_id
    (TargetDemo.info TargetDemo.served "m") (TargetDemo.allocator TargetDemo.served) TargetDemo.served)
    as (s' & H1 & H2 & _ & H4 & _).
  - apply (demo_ready_target id); [reflexivity|by apply Nat.leb_le|reflexivity..].
  - apply demo_arrived, Nat.leb_le. reflexivity.
  - exists s'. split; [exact H1|]. split; [exact H2|].
    apply (H4 5%nat (mk_Conn [] false (Some 4096) "" [] false)); [|reflexivity|reflexivity].
    apply (bool_decide_unpack _). vm_compute. exact I.
Defined.

Lemma target_rejects_unknown_witness :
  exists s',
    handle_target_connection Demo.env 2 1
      (TargetDemo.state (TargetDemo.peer (TargetDemo.chunks "x" 3 2 1 4096 8192) false)) = (Ret tt, s') /\
    outbox <$> conns s' !! 1%nat = Some (line "ERROR").
Proof.
  destruct (target_rejects_unknown Demo.env 2 1
    (TargetDemo.peer (TargetDemo.chunks "x" 3 2 1 4096 8192) false) "x" 3 2 1 4096 8192 Demo.nccl_id
    (TargetDemo.state (TargetDemo.peer (TargetDemo.chunks "x" 3 2 1 4096 8192) false)))
    as (s' & H1 & _ & _ & H4).
  - reflexivity.
  - reflexivity.
  - reflexivity.
  - apply demo_arrived, Nat.leb_le. reflexivity.
  - reflexivity.
  - reflexivity.
  - reflexivity.
  - simpl. lia.
  - vm_compute. reflexivity.
  - exists s'. split; [exact H1|]. rewrite H4. reflexivity.
Defined.

Lemma target_split_header_fails_witness :
  let c := TargetDemo.peer [line "m"; line "3" +:+ line "2"] false in
  handle_target_connection Demo.env 2 1 (TargetDemo.state c) =
    (Ret tt, set_conn 1 (conn_close (with_inbox [line "3" +:+ line "2"] c)) (TargetDemo.state c)).
Proof.
  apply (target_split_header_fails Demo.env 2 1 _ "m" [line "3" +:+ line "2"]);
    [reflexivity..|simpl; lia|lia].
Defined.

Lemma target_short_id_never_returns_witness :
  (handle_target_connection Demo.env 1000 1
     (TargetDemo.state (TargetDemo.peer [handshake_header "m" 3 2 0 (scatter_meta_of 0 0) +:+ "abc"] true))).1
    = Stuck.
Proof.
  apply (target_short_id_never_returns Demo.env 1000 1
    (TargetDemo.peer [handshake_header "m" 3 2 0 (scatter_meta_of 0 0) +:+ "abc"] true) "m" 3 2 0 0 0 "abc");
    try reflexivity.
  - apply Nat.leb_le. reflexivity.
  - simpl. lia.
Defined.
