(* ===== verification/Propagate.v ===== *)
(** * NodePropagate (driver/main.py)

    The sending end of a propagation: the source contacts every target over TCP, hands
    out ranks and the NCCL id, joins as rank 0, broadcasts the buffer or sends byte
    ranges of it, and notifies its own consumers. *)

From S2P Require Import Prelude PyMonad PyText PyDict Cuda Allocator NodeState Stage Notify Target.

Record ShardAssignment : Type := {
  target_node_id : string;
  shard_index : Z;
  offset_bytes : Z;
  length_bytes : Z;
  target_gpu_id : Z
}.

Record NodePropagateRequest : Type := {
  pr_buffer_id : string;
  target_node_ids : list string;
  pr_mode : Z;
  shard_assignments : list ShardAssignment
}.

(** SCATTER mode with assignments. *)
Definition use_assignments (request : NodePropagateRequest) : bool :=
  (pr_mode request =? 1) && negb (bool_decide (shard_assignments request = [])).

(** [request.buffer_id.split("__shard_")[0]], and the shard of the assignment. *)
Definition assigned_buffer_id (request : NodePropagateRequest) (a : ShardAssignment) : string :=
  let base_buffer_id := before_first "__shard_" (pr_buffer_id request) in
  if 0 <=? shard_index a then shard_id base_buffer_id (shard_index a) else pr_buffer_id request.

(** [enumerate], counting ranks from 1. *)
Definition ranked {A} (l : list A) : list (Z * A) := imap (fun i a => (Z.of_nat i + 1, a)) l.

Definition world_size_of (request : NodePropagateRequest) : Z :=
  if use_assignments request then Z.of_nat (length (shard_assignments request)) + 1
  else Z.of_nat (length (target_node_ids request)) + 1.

Section propagate.
Context {W C : Type} `{CudaApi W} `{GrpcContext C} (env : Env).
(** What a connection attempt to port 50052 of a node finds, by rank: a peer and the
    bytes it will send, or nobody. *)
Context (dial : Z -> string -> option Conn).
#[local] Abbreviation state := (Driver W C).

Definition sock_connect (rank : Z) (ip : string) : py state nat := fun s =>
  match dial rank ip with
  | Some c => let j := fresh (dom (conns s)) in (Ret j, set_conns (<[j := c]>) s)
  | None => (Raise (mk_exn OSError "[Errno 111] Connection refused"), s)
  end.

(** One target: connect, send the request, wait for the acknowledgement. *)
Definition contact (rank : Z) (target_ip msg : string) : py state nat :=
  s ← sock_connect rank target_ip ;
  sock_sendall s msg ;;
  resp ← sock_recv s 1024 ;
  if contains "OK" resp then mret s
  else py_raise ExceptionK
    ("Target node " +:+ target_ip +:+ " rejected NCCL preparation: " +:+ bytes_repr resp).

(** The loop over the shard assignments. *)
Definition contact_assignments (request : NodePropagateRequest) (nccl_id_bytes : string)
    : py state (list nat) :=
  let assignments := shard_assignments request in
  let world_size := Z.of_nat (length assignments) + 1 in
  py_fold (ranked assignments) [] (fun sockets ra =>
    let rank := ra.1 in
    let a := ra.2 in
    let scatter_meta := scatter_meta_of (offset_bytes a) (length_bytes a) in
    s ← contact rank (target_node_id a)
          (handshake_message (assigned_buffer_id request a) world_size rank (pr_mode request)
             scatter_meta nccl_id_bytes) ;
    mret (sockets ++ [s])).

(** The loop over the target nodes. *)
Definition contact_targets (request : NodePropagateRequest) (nccl_id_bytes : string)
    : py state (list nat) :=
  let target_ips := target_node_ids request in
  let world_size := Z.of_nat (length target_ips) + 1 in
  py_fold (ranked target_ips) [] (fun sockets ri =>
    let rank := ri.1 in
    let target_ip := ri.2 in
    s ← contact rank target_ip
          (handshake_message (pr_buffer_id request) world_size rank (pr_mode request)
             "0,0" nccl_id_bytes) ;
    mret (sockets ++ [s])).

(** The call for one assignment. *)
Definition send_op (info : BufferInfo) (ra : Z * ShardAssignment) : nccl_op :=
  NcclSend (bi_device_ptr info + offset_bytes ra.2) (length_bytes ra.2 / 2) ra.1.

(** The calls on the communicator after it was created. *)
Definition transfer_ops (request : NodePropagateRequest) (info : BufferInfo) : list nccl_op :=
  if use_assignments request then send_op info <$> ranked (shard_assignments request)
  else [NcclBcast (bi_device_ptr info) (bi_size_bytes info / 2) 0].

Definition propagate_body (request : NodePropagateRequest) : py state unit :=
  let buffer_id := pr_buffer_id request in
  staged ← buffer_known buffer_id ;
  py_when (negb staged)
    (py_raise ExceptionK ("Buffer " +:+ buffer_id +:+ " not found in local tracking.")) ;;
  py_when (negb (CUPY_AVAILABLE env))
    (py_raise ExceptionK "cupy is not available. Cannot perform NCCL transfer.") ;;
  info ← get_buffer buffer_id ;
  send_pre_update_signal buffer_id ;;
  let nccl_id_bytes := nccl_unique_id env in
  sockets ← (if use_assignments request then contact_assignments request nccl_id_bytes
             else contact_targets request nccl_id_bytes) ;
  nccl_call env (NcclInit (world_size_of request) nccl_id_bytes 0) ;;
  py_for (transfer_ops request info) (nccl_call env) ;;
  py_for sockets sock_close ;;
  notify_consumers buffer_id (line "READY").

Definition NodePropagate (request : NodePropagateRequest) : py state unit :=
  try: propagate_body request except: is_Exception as e => abort INTERNAL (exn_str e).
End propagate.

(** ** Lemmas: contacting the targets *)

Section contact.
Context {W C : Type} `{CudaApi W} `{GrpcContext C} (env : Env).
Context (dial : Z -> string -> option Conn).
Implicit Types (s : Driver W C) (c : Conn).

(** The target of a rank is reachable, has room for the request [msg], and answers with
    [reply]. *)
Definition answers (reply : string) (rank : Z) (ip msg : string) : Prop :=
  exists c rest, dial rank ip = Some c /\ conn_alive c = true /\ has_room msg c = true /\
    outbox c = "" /\ inbox c = reply :: rest /\ (String.length reply <= 1024)%nat.

(** A socket on which [msg] was sent, and which is still open. *)
Definition open_with (msg : string) (c : Conn) : Prop := outbox c = msg /\ closed c = false.

(** The sockets [js] are new in [m'] and carry the messages; nothing else changed. *)
Definition opened (js : list nat) (msgs : list string) (m m' : gmap nat Conn) : Prop :=
  NoDup js /\
  Forall2 (fun j msg => m !! j = None /\ exists c, m' !! j = Some c /\ open_with msg c) js msgs /\
  (forall k, k ∉ js -> m' !! k = m !! k).

Lemma contact_run rank ip msg reply s :
  answers reply rank ip msg ->
  exists j c,
    conns s !! j = None /\ open_with msg c /\
    contact dial rank ip msg s =
      (if contains "OK" reply then Ret j
       else Raise (mk_exn ExceptionK
         ("Target node " +:+ ip +:+ " rejected NCCL preparation: " +:+ bytes_repr reply)),
       set_conn j c s).
Proof.
  intros (c & rest & Hd & Halive & Hrm & Hout & Hin & Hlen).
  set (j := fresh (dom (conns s))).
  exists j, (with_inbox rest (deliver msg c)). split; [|split].
  - apply not_elem_of_dom, is_fresh.
  - unfold open_with, deliver. rewrite Halive. simpl. rewrite Hout. split; [done|].
    unfold conn_alive in Halive. by apply andb_true_iff in Halive as [_ ?%negb_true_iff].
  - unfold contact. rewrite bind_unfold. unfold sock_connect. rewrite Hd. fold j.
    rewrite bind_unfold, sendall_run by (unfold sock_room; simpl; by rewrite lookup_insert_eq).
    unfold sock_alive. simpl. rewrite lookup_insert_eq, Halive.
    rewrite bind_unfold.
    rewrite (recv_chunk _ _ (deliver msg c) reply rest);
      [|simpl; by rewrite lookup_alter_eq, lookup_insert_eq|unfold deliver; by rewrite Halive|done].
    assert (set_conn j (with_inbox rest (deliver msg c))
      (set_conns (alter (deliver msg) j) (set_conns <[j:=c]> s)) =
      set_conn j (with_inbox rest (deliver msg c)) s) as ->.
    { unfold set_conn, set_conns. simpl. f_equal. apply map_eq. intros k.
      destruct (decide (j = k)) as [->|Hne]; [by rewrite !lookup_insert_eq|].
      by rewrite !lookup_insert_ne, lookup_alter_ne, lookup_insert_ne. }
    by destruct (contains "OK" reply).
Qed.

(** A loop of contacts, all accepted: one new socket per target, in order. *)
Lemma contact_loop_run {A} (l : list A) (rank : A -> Z) (ip msg : A -> string) (sockets : list nat) s :
  (forall x, x ∈ l -> exists reply, answers reply (rank x) (ip x) (msg x) /\ contains "OK" reply = true) ->
  exists js m,
    py_fold l sockets (fun acc x => j ← contact dial (rank x) (ip x) (msg x) ; mret (acc ++ [j])) s =
      (Ret (sockets ++ js), set_conns (fun _ => m) s) /\
    opened js (msg <$> l) (conns s) m.
Proof.
  revert sockets s. induction l as [|x l IH]; intros sockets s Hall.
  - exists [], (conns s). simpl. rewrite app_nil_r, set_conns_id. split; [done|].
    split; [constructor|]. split; [constructor|done].
  - destruct (Hall x) as (reply & Hans & Hok); [set_solver|].
    destruct (contact_run _ _ (msg x) _ s Hans) as (j & c & Hj & Hopen & E).
    rewrite Hok in E. simpl. rewrite bind_unfold, bind_unfold, E. cbn [mret py_ret].
    destruct (IH (sockets ++ [j]) (set_conn j c s)) as (js & m & E2 & Hnd & Hf & Hk).
    { intros y Hy. apply Hall. set_solver. }
    exists (j :: js), m. rewrite E2, <- app_assoc. split; [done|].
    assert (j ∉ js) as Hjjs.
    { intros Hin. apply list_elem_of_lookup in Hin as [i Hi].
      destruct (Forall2_lookup_l _ _ _ _ _ Hf Hi) as (y & _ & Hn & _).
      simpl in Hn. by rewrite lookup_insert_eq in Hn. }
    split; [by constructor|]. split.
    + constructor.
      * split; [done|]. exists c. split; [|done]. rewrite Hk by done. simpl. apply lookup_insert_eq.
      * eapply Forall2_impl; [exact Hf|]. intros k y [Hn Hc]. split; [|done].
        simpl in Hn. destruct (decide (j = k)) as [->|Hne]; [by rewrite lookup_insert_eq in Hn|].
        by rewrite lookup_insert_ne in Hn.
    + intros k Hk'. rewrite Hk by set_solver. simpl. rewrite lookup_insert_ne; [done|set_solver].
Qed.

(** The loop stops at the first target that refuses; the sockets opened before stay open. *)
Lemma contact_loop_reject {A} (l1 : list A) x l2 (rank : A -> Z) (ip msg : A -> string) reply s :
  (forall y, y ∈ l1 -> exists r, answers r (rank y) (ip y) (msg y) /\ contains "OK" r = true) ->
  answers reply (rank x) (ip x) (msg x) -> contains "OK" reply = false ->
  exists js m,
    py_fold (l1 ++ x :: l2) [] (fun acc y => j ← contact dial (rank y) (ip y) (msg y) ; mret (acc ++ [j])) s =
      (Raise (mk_exn ExceptionK
         ("Target node " +:+ ip x +:+ " rejected NCCL preparation: " +:+ bytes_repr reply)),
       set_conns (fun _ => m) s) /\
    opened js (msg <$> (l1 ++ [x])) (conns s) m.
Proof.
  intros Hall Hans Hno.
  destruct (contact_loop_run l1 rank ip msg [] s Hall) as (js & m & E & Hnd & Hf & Hk).
  rewrite fold_app, bind_unfold, E. simpl.
  destruct (contact_run _ _ (msg x) _ (set_conns (fun _ => m) s) Hans) as (j & c & Hj & Hopen & E2).
  rewrite Hno in E2. rewrite bind_unfold, bind_unfold, E2. simpl in Hj.
  exists (js ++ [j]), (<[j := c]> m). split; [done|].
  assert (j ∉ js) as Hjjs.
  { intros Hin. apply list_elem_of_lookup in Hin as [i Hi].
    destruct (Forall2_lookup_l _ _ _ _ _ Hf Hi) as (y & _ & _ & c' & Hc' & _). congruence. }
  split; [|split].
  - apply NoDup_app. split; [done|]. split; [set_solver|]. apply NoDup_singleton.
  - rewrite fmap_app. apply Forall2_app.
    + apply Forall2_same_length_lookup_2; [by eapply Forall2_length|].
      intros i k y Hi Hy. destruct (Forall2_lookup_lr _ _ _ _ _ _ Hf Hi Hy) as (Hn & c' & Hc' & Ho).
      split; [done|]. exists c'. split; [|done]. rewrite lookup_insert_ne; [done|].
      intros ->. apply Hjjs. by eapply list_elem_of_lookup_2.
    + constructor; [|constructor]. split; [|exists c; by rewrite lookup_insert_eq].
      rewrite <- Hk by done. done.
  - intros k Hk'. rewrite lookup_insert_ne by set_solver. apply Hk. set_solver.
Qed.
End contact.

(** ** Lemmas: the handler *)

(** A rank, a node and the message for it. *)
Definition wire_requests (request : NodePropagateRequest) (nccl_id : string)
    : list (Z * string * string) :=
  if use_assignments request then
    (fun ra => (ra.1, target_node_id ra.2,
       handshake_message (assigned_buffer_id request ra.2) (world_size_of request) ra.1
         (pr_mode request) (scatter_meta_of (offset_bytes ra.2) (length_bytes ra.2)) nccl_id))
    <$> ranked (shard_assignments request)
  else
    (fun ri => (ri.1, ri.2,
       handshake_message (pr_buffer_id request) (world_size_of request) ri.1
         (pr_mode request) (scatter_meta_of 0 0) nccl_id))
    <$> ranked (target_node_ids request).

Section handler.
Context {W C : Type} `{CudaApi W} `{GrpcContext C} (env : Env).
Context (dial : Z -> string -> option Conn).
Implicit Types (s : Driver W C) (c : Conn) (request : NodePropagateRequest).

(** Every target of the request takes it and answers with OK. *)
Definition all_accept request : Prop :=
  forall r, r ∈ wire_requests request (nccl_unique_id env) ->
    exists reply, answers dial reply r.1.1 r.1.2 r.2 /\ contains "OK" reply = true.

(** The contact loop of the mode. *)
Definition contact_all request : py (Driver W C) (list nat) :=
  if use_assignments request then contact_assignments dial request (nccl_unique_id env)
  else contact_targets dial request (nccl_unique_id env).

Lemma contact_all_run request s :
  all_accept request ->
  exists js m, contact_all request s = (Ret js, set_conns (fun _ => m) s) /\
    opened js (snd <$> wire_requests request (nccl_unique_id env)) (conns s) m.
Proof.
  unfold all_accept, contact_all, wire_requests, contact_assignments, contact_targets, world_size_of.
  destruct (use_assignments request); intros Hall.
  - destruct (contact_loop_run dial (ranked (shard_assignments request)) (fun ra => ra.1)
      (fun ra => target_node_id ra.2)
      (fun ra => handshake_message (assigned_buffer_id request ra.2)
         (Z.of_nat (length (shard_assignments request)) + 1) ra.1 (pr_mode request)
         (scatter_meta_of (offset_bytes ra.2) (length_bytes ra.2)) (nccl_unique_id env)) [] s)
      as (js & m & E & Ho).
    { intros ra Hra. destruct (Hall _ (list_elem_of_fmap_2 _ _ _ Hra)) as (reply & ? & ?). eauto. }
    exists js, m. split; [exact E|]. by rewrite <- list_fmap_compose.
  - destruct (contact_loop_run dial (ranked (target_node_ids request)) (fun ri => ri.1)
      (fun ri => ri.2)
      (fun ri => handshake_message (pr_buffer_id request)
         (Z.of_nat (length (target_node_ids request)) + 1) ri.1 (pr_mode request)
         (scatter_meta_of 0 0) (nccl_unique_id env)) [] s)
      as (js & m & E & Ho).
    { intros ri Hri. destruct (Hall _ (list_elem_of_fmap_2 _ _ _ Hri)) as (reply & ? & ?). eauto. }
    exists js, m. split; [exact E|]. by rewrite <- list_fmap_compose.
Qed.

(** Closing the sockets of a list. *)
Definition close_all (js : list nat) (m : gmap nat Conn) : gmap nat Conn :=
  foldl (fun m j => alter conn_close j m) m js.

Lemma close_all_run js s :
  py_for js sock_close s = (Ret tt, set_conns (close_all js) s).
Proof.
  revert s. induction js as [|j js IH]; intros s; simpl; [by destruct s|].
  rewrite bind_unfold. simpl. by rewrite IH.
Qed.

Lemma close_all_lookup js m k :
  NoDup js -> close_all js m !! k = if bool_decide (k ∈ js) then conn_close <$> m !! k else m !! k.
Proof.
  intros Hjs. revert m. induction Hjs as [|j js Hj Hjs IH]; intros m; [done|]. simpl.
  change (foldl _ ?x js) with (close_all js x). rewrite IH.
  destruct (decide (j = k)) as [->|Hne].
  - rewrite lookup_alter_eq, bool_decide_eq_false_2 by done.
    by rewrite bool_decide_eq_true_2 by set_solver.
  - rewrite lookup_alter_ne by done.
    assert (k ∈ j :: js <-> k ∈ js) as Hiff by set_solver. by rewrite (bool_decide_ext _ _ Hiff).
Qed.

Lemma nccl_calls_run ops s :
  (forall op, nccl_result env op = None) ->
  exists s', py_for ops (nccl_call env) s = (Ret tt, s') /\
    nccl_log s' = nccl_log s ++ ops /\
    s' = mk_Driver (ALLOCATED_BUFFERS s) (KNOWN_CLAIMS s) (cuda_allocator s) (files s) (threads s)
           (conns s) (closed_fds s) (nccl_log s ++ ops) (rpc_context s).
Proof.
  intros Hr. revert s. induction ops as [|op ops IH]; intros s; simpl.
  - exists s. rewrite app_nil_r. by destruct s.
  - rewrite bind_unfold, nccl_call_run by done. destruct (IH (add_nccl op s)) as (s' & E & Hl & Hs').
    exists s'. rewrite E. simpl in *. rewrite Hl, Hs', <- app_assoc. done.
Qed.

(** The handler up to the end of the contact loop. *)
Lemma propagate_prefix request b s :
  dict_get (pr_buffer_id request) (ALLOCATED_BUFFERS s) = Some b ->
  NoDup (bi_notify_sockets b) ->
  (forall i, i ∈ bi_notify_sockets b -> sock_room (line "PRE_UPDATE") (conns s) i = true) ->
  CUPY_AVAILABLE env = true ->
  exists d,
    dict_get (pr_buffer_id request) d =
      Some (set_notify_sockets
        (filter (fun i => sock_alive (conns s) i = true) (bi_notify_sockets b)) b) /\
    (forall k, k <> pr_buffer_id request -> dict_get k d = dict_get k (ALLOCATED_BUFFERS s)) /\
    propagate_body env dial request s =
      (sockets ← contact_all request ;
       nccl_call env (NcclInit (world_size_of request) (nccl_unique_id env) 0) ;;
       py_for (transfer_ops request b) (nccl_call env) ;;
       py_for sockets sock_close ;;
       notify_consumers (pr_buffer_id request) (line "READY"))
      (set_buffers (fun _ => d)
        (set_conns (deliver_all (line "PRE_UPDATE") (bi_notify_sockets b)) s)).
Proof.
  intros Hb Hnd Hroom Hcupy.
  destruct (notify_consumers_run (pr_buffer_id request) (line "PRE_UPDATE") b s Hb Hnd Hroom)
    as (d & E & Hd & Ho & _).
  exists d. split; [done|]. split; [done|]. unfold propagate_body.
  rewrite bind_unfold. simpl. rewrite (proj2 (dict_mem_true _ _)) by eauto. simpl.
  rewrite bind_unfold. simpl. rewrite Hcupy. simpl. rewrite bind_unfold. simpl.
  rewrite bind_unfold, (get_buffer_run _ b) by done. rewrite bind_unfold.
  unfold send_pre_update_signal at 1. rewrite bind_unfold. simpl.
  rewrite (proj2 (dict_mem_true _ _)) by eauto. rewrite E. done.
Qed.
End handler.

(** The requests that were sent over new sockets, after these were closed. *)
Lemma opened_then_closed js (rs : list (Z * string * string)) (m0 m1 m mf : gmap nat Conn) :
  Forall2 (fun j msg => m1 !! j = None /\
             exists c, m !! j = Some c /\ outbox c = msg /\ closed c = false) js (snd <$> rs) ->
  (forall j, j ∈ js -> m1 !! j = None -> m0 !! j = None) ->
  (forall j c, j ∈ js -> m !! j = Some c -> mf !! j = Some (conn_close c)) ->
  Forall2 (fun j r => m0 !! j = None /\
             exists c, mf !! j = Some c /\ outbox c = r.2 /\ closed c = true) js rs.
Proof.
  intros Hf%Forall2_fmap_r H0 Hfin.
  apply Forall2_same_length_lookup_2; [by eapply Forall2_length|].
  intros n j r Hj Hr. destruct (Forall2_lookup_lr _ _ _ _ _ _ Hf Hj Hr) as (Hn & c & Hc & Hout & Hcl).
  assert (j ∈ js) as Hjin by (by eapply list_elem_of_lookup_2). eauto 10.
Qed.

(** A consumer that got the signal before the update and the one after it. *)
Lemma delivered_twice msg msg' L js m0 m i ci :
  NoDup L -> NoDup js -> i ∈ L -> i ∉ js ->
  (forall k, k ∉ js -> m !! k = deliver_all msg L m0 !! k) ->
  m0 !! i = Some ci -> conn_alive ci = true ->
  outbox <$> deliver_all msg' (filter (fun i => sock_alive m0 i = true) L) (close_all js m) !! i =
    Some (outbox ci +:+ msg +:+ msg').
Proof.
  intros Hnd Hjs Hi Hj Hk Hci Hal. rewrite deliver_all_lookup by (by apply NoDup_filter).
  rewrite bool_decide_eq_true_2.
  2: { apply list_elem_of_filter. split; [|done]. unfold sock_alive. by rewrite Hci. }
  rewrite close_all_lookup, bool_decide_eq_false_2 by done.
  rewrite Hk, deliver_all_lookup, bool_decide_eq_true_2, Hci by done.
  simpl. rewrite deliver_deliver. unfold deliver. by rewrite Hal.
Qed.

Lemma wire_requests_length request nccl_id :
  Z.of_nat (length (wire_requests request nccl_id)) + 1 = world_size_of request.
Proof.
  unfold wire_requests, world_size_of, ranked.
  destruct (use_assignments request); by rewrite length_fmap, length_imap.
Qed.

Lemma transfer_ops_eq request b :
  transfer_ops request b =
    if use_assignments request then
      imap (fun i a => NcclSend (bi_device_ptr b + offset_bytes a) (length_bytes a / 2)
                         (Z.of_nat i + 1)) (shard_assignments request)
    else [NcclBcast (bi_device_ptr b) (bi_size_bytes b / 2) 0].
Proof.
  unfold transfer_ops, ranked. destruct (use_assignments request); [|done].
  by rewrite fmap_imap.
Qed.

(** ** Properties *)

Section properties.
Context {W C : Type} `{CudaApi W} `{GrpcContext C} `{!GrpcLaws C} (env : Env).
Context (dial : Z -> string -> option Conn).
Implicit Types (s : Driver W C) (c : Conn) (request : NodePropagateRequest).

(** The sockets of the consumers are in the table, with room for the two lines of an
    update. *)
Definition consumers_known (b : BufferInfo) s : Prop :=
  NoDup (bi_notify_sockets b) /\ forall i, i ∈ bi_notify_sockets b ->
    exists c, conns s !! i = Some c /\ has_room (line "PRE_UPDATE" +:+ line "READY") c = true.

Lemma consumers_room b s i :
  consumers_known b s -> i ∈ bi_notify_sockets b ->
  sock_room (line "PRE_UPDATE" +:+ line "READY") (conns s) i = true.
Proof. intros [_ Hk] Hi. destruct (Hk i Hi) as (c & Hc & Hr). unfold sock_room. by rewrite Hc. Qed.

(** A propagation whose targets accept, run. *)
Lemma propagate_run request b s :
  dict_get (pr_buffer_id request) (ALLOCATED_BUFFERS s) = Some b -> consumers_known b s ->
  CUPY_AVAILABLE env = true -> (forall op, nccl_result env op = None) ->
  all_accept env dial request ->
  exists s' js,
    rpc (NodePropagate env dial request) s = (RpcOk tt, s') /\
    nccl_log s' = nccl_log s ++
      NcclInit (Z.of_nat (length (wire_requests request (nccl_unique_id env))) + 1)
          (nccl_unique_id env) 0 ::
        (if use_assignments request then
           imap (fun i a => NcclSend (bi_device_ptr b + offset_bytes a) (length_bytes a / 2)
                              (Z.of_nat i + 1)) (shard_assignments request)
         else [NcclBcast (bi_device_ptr b) (bi_size_bytes b / 2) 0]) /\
    NoDup js /\
    Forall2 (fun j r => conns s !! j = None /\
               exists c, conns s' !! j = Some c /\ outbox c = r.2 /\ closed c = true)
      js (wire_requests request (nccl_unique_id env)) /\
    (forall i ci, i ∈ bi_notify_sockets b -> conns s !! i = Some ci -> conn_alive ci = true ->
       outbox <$> conns s' !! i = Some (outbox ci +:+ line "PRE_UPDATE" +:+ line "READY")) /\
    (forall k, k <> pr_buffer_id request ->
       dict_get k (ALLOCATED_BUFFERS s') = dict_get k (ALLOCATED_BUFFERS s)).
Proof.
  intros Hb Hkn Hcupy Hnccl Hall. pose proof (consumers_room b s) as Hroom. destruct Hkn as [Hnd Hin].
  specialize (fun i => Hroom i (conj Hnd Hin)). set (L := bi_notify_sockets b) in *.
  set (s0 := set_context ctx_new s).
  destruct (propagate_prefix env dial request b s0 Hb Hnd) as (d & Hd & Ho & E);
    [intros i Hi; by apply (sock_room_app _ (line "READY")), Hroom|done|].
  fold L in E, Hd.
  set (s1 := set_buffers (fun _ => d) (set_conns (deliver_all (line "PRE_UPDATE") L) s0)) in *.
  destruct (contact_all_run env dial request s1 Hall) as (js & m & Ec & Hjs & Hf & Hk).
  assert (forall i, i ∈ L -> i ∉ js) as HLjs.
  { intros i Hi Hj. apply list_elem_of_lookup in Hj as [n Hn].
    destruct (Forall2_lookup_l _ _ _ _ _ Hf Hn) as (msg & _ & Hnone & _).
    unfold s1 in Hnone. simpl in Hnone. rewrite deliver_all_lookup in Hnone by done.
    destruct (Hin i Hi) as (ci & Hci & _). rewrite Hci in Hnone. by case_bool_decide. }
  destruct (nccl_calls_run env (NcclInit (world_size_of request) (nccl_unique_id env) 0
    :: transfer_ops request b) (set_conns (fun _ => m) s1) Hnccl) as (s2 & En & Hl & Hs2).
  set (s3 := set_conns (close_all js) s2).
  destruct (notify_consumers_run (pr_buffer_id request) (line "READY")
    (set_notify_sockets (filter (fun i => sock_alive (conns s0) i = true) L) b) s3)
    as (d2 & E2 & _ & Ho2 & _).
  { unfold s3. by rewrite Hs2. } { by apply NoDup_filter. }
  { intros i [_ Hi]%list_elem_of_filter. unfold s3, sock_room. rewrite Hs2. simpl.
    rewrite close_all_lookup, bool_decide_eq_false_2, Hk by auto.
    by apply (sock_room_deliver_all _ _ L (conns s)), Hroom. }
  set (L' := filter (fun i => sock_alive (conns s0) i = true) L) in *.
  assert (conns s2 = m) as Hc2 by (by rewrite Hs2).
  exists (set_buffers (fun _ => d2) (set_conns (deliver_all (line "READY") L') s3)), js.
  split; [|split; [|split; [|split; [|split]]]].
  - unfold rpc, NodePropagate, py_except. fold s0. rewrite E, bind_unfold, Ec.
    cbn [py_for] in En. rewrite bind_unfold in En. rewrite bind_unfold.
    destruct (nccl_call env (NcclInit _ _ _) _) as [[[]|e|] s2']; [|done..].
    rewrite bind_unfold, En, bind_unfold, close_all_run. fold s3. rewrite E2. simpl.
    unfold s3. rewrite Hs2. simpl. by rewrite law_new_status.
  - simpl. by rewrite Hl, wire_requests_length, transfer_ops_eq.
  - done.
  - eapply opened_then_closed; [exact Hf|..].
    + intros j Hj Hn. unfold s1 in Hn. simpl in Hn. rewrite deliver_all_lookup in Hn by done.
      case_bool_decide; [|done]. by destruct (conns s !! j).
    + intros j c Hj Hc. simpl. rewrite deliver_all_lookup by (by apply NoDup_filter).
      rewrite bool_decide_eq_false_2 by (intros [_ Hi]%list_elem_of_filter; by apply (HLjs j)).
      by rewrite Hc2, close_all_lookup, bool_decide_eq_true_2, Hc.
  - intros i ci Hi Hci Hal. cbn [conns set_buffers set_conns]. unfold s3. simpl conns. rewrite Hc2.
    apply (delivered_twice (line "PRE_UPDATE") (line "READY") L js (conns s) m i ci); auto.
  - intros k Hk'. simpl. rewrite Ho2 by done. unfold s3. rewrite Hs2. simpl. by apply Ho.
Qed.

(** C5: when every target answers OK, a propagation sends each target exactly the request
    of its rank over a socket of its own and closes it, joins as rank 0 of all, makes the
    calls of its mode in the order of the ranks, and gives each live local consumer
    PRE_UPDATE before and READY after. *)
Theorem propagate_success request b s :
  dict_get (pr_buffer_id request) (ALLOCATED_BUFFERS s) = Some b -> consumers_known b s ->
  CUPY_AVAILABLE env = true -> (forall op, nccl_result env op = None) ->
  all_accept env dial request ->
  exists s' js,
    rpc (NodePropagate env dial request) s = (RpcOk tt, s') /\
    nccl_log s' = nccl_log s ++
      NcclInit (Z.of_nat (length (wire_requests request (nccl_unique_id env))) + 1)
          (nccl_unique_id env) 0 ::
        (if use_assignments request then
           imap (fun i a => NcclSend (bi_device_ptr b + offset_bytes a) (length_bytes a / 2)
                              (Z.of_nat i + 1)) (shard_assignments request)
         else [NcclBcast (bi_device_ptr b) (bi_size_bytes b / 2) 0]) /\
    NoDup js /\
    Forall2 (fun j r => conns s !! j = None /\
               exists c, conns s' !! j = Some c /\ outbox c = r.2 /\ closed c = true)
      js (wire_requests request (nccl_unique_id env)) /\
    (forall i ci, i ∈ bi_notify_sockets b -> conns s !! i = Some ci -> conn_alive ci = true ->
       outbox <$> conns s' !! i = Some (outbox ci +:+ line "PRE_UPDATE" +:+ line "READY")) /\
    (forall k, k <> pr_buffer_id request ->
       dict_get k (ALLOCATED_BUFFERS s') = dict_get k (ALLOCATED_BUFFERS s)).
Proof. apply propagate_run. Qed.

(** When the targets of the first ranks accept and the next one refuses, the client
    sees INTERNAL with the refusal; the communicator is never created, and the sockets to
    the targets that already answered OK, and now wait in NCCL, are left open. The local
    consumers got PRE_UPDATE and no READY. *)
Theorem propagate_rejection_strands request l1 a l2 reply b s :
  dict_get (pr_buffer_id request) (ALLOCATED_BUFFERS s) = Some b -> consumers_known b s ->
  CUPY_AVAILABLE env = true ->
  use_assignments request = true ->
  ranked (shard_assignments request) = l1 ++ a :: l2 ->
  let msg ra := handshake_message (assigned_buffer_id request ra.2)
    (Z.of_nat (length (shard_assignments request)) + 1) ra.1 (pr_mode request)
    (scatter_meta_of (offset_bytes ra.2) (length_bytes ra.2)) (nccl_unique_id env) in
  (forall x, x ∈ l1 ->
     exists r, answers dial r x.1 (target_node_id x.2) (msg x) /\ contains "OK" r = true) ->
  answers dial reply a.1 (target_node_id a.2) (msg a) -> contains "OK" reply = false ->
  exists s' js,
    rpc (NodePropagate env dial request) s =
      (RpcFailed INTERNAL ("Target node " +:+ target_node_id a.2 +:+ " rejected NCCL preparation: "
                           +:+ bytes_repr reply), s') /\
    nccl_log s' = nccl_log s /\
    length js = S (length l1) /\
    (forall j, j ∈ js -> conns s !! j = None /\ exists c, conns s' !! j = Some c /\ closed c = false) /\
    (forall i ci, i ∈ bi_notify_sockets b -> conns s !! i = Some ci -> conn_alive ci = true ->
       outbox <$> conns s' !! i = Some (outbox ci +:+ line "PRE_UPDATE")).
Proof.
  intros Hb Hkn Hcupy Huse Hsplit msg Hacc Hans Hno. pose proof (consumers_room b s) as Hroom.
  destruct Hkn as [Hnd Hin]. specialize (fun i => Hroom i (conj Hnd Hin)). set (L := bi_notify_sockets b) in *.
  set (s0 := set_context ctx_new s).
  destruct (propagate_prefix env dial request b s0 Hb Hnd) as (d & Hd & Ho & E);
    [intros i Hi; by apply (sock_room_app _ (line "READY")), Hroom|done|].
  fold L in E, Hd.
  set (s1 := set_buffers (fun _ => d) (set_conns (deliver_all (line "PRE_UPDATE") L) s0)) in *.
  destruct (contact_loop_reject dial l1 a l2 (fun ra => ra.1) (fun ra => target_node_id ra.2)
      msg reply s1 Hacc Hans Hno) as (js & m & Ec & Hjs & Hf & Hk).
  assert (forall j, j ∈ js -> conns s !! j = None /\ exists c, m !! j = Some c /\ closed c = false) as Hj.
  { intros j Hj. apply list_elem_of_lookup in Hj as [n Hn].
    destruct (Forall2_lookup_l _ _ _ _ _ Hf Hn) as (msg' & _ & Hnone & c & Hc & _ & Hcl).
    split; [|by eauto]. unfold s1 in Hnone. simpl in Hnone.
    rewrite deliver_all_lookup in Hnone by done.
    case_bool_decide; [|done]. by destruct (conns s !! j). }
  rewrite <- Hsplit in Ec.
  eexists _, js. split; [|split; [|split; [|split]]].
  - unfold rpc, NodePropagate, py_except. fold s0. rewrite E, bind_unfold.
    unfold contact_all. rewrite Huse.
    replace (contact_assignments _ _ _ s1) with
      (Raise (A:=list nat) (mk_exn ExceptionK ("Target node " +:+ target_node_id a.2
         +:+ " rejected NCCL preparation: " +:+ bytes_repr reply)), set_conns (fun _ => m) s1)
      by (symmetry; exact Ec).
    unfold is_Exception.
    rewrite abort_run. simpl. rewrite law_abort_status. reflexivity.
  - done.
  - apply Forall2_length in Hf. rewrite length_fmap, length_app in Hf. simpl in Hf. lia.
  - exact Hj.
  - intros i ci Hi Hci Hal. simpl. rewrite Hk.
    + unfold s1. simpl. rewrite deliver_all_lookup, bool_decide_eq_true_2, Hci by done. simpl.
      unfold deliver. by rewrite Hal.
    + intros Hi'. destruct (Hj i Hi') as [Hn _]. congruence.
Qed.
End properties.

(** ** Both ends together *)

(** A call of the source and a call of the target of a rank that meet: a broadcast from
    rank 0 of as many elements, or a send to the rank and a receive from rank 0. *)
Definition calls_meet (rank : Z) (src dst : nccl_op) : Prop :=
  match src, dst with
  | NcclBcast _ n 0, NcclBcast _ n' 0 => n = n'
  | NcclSend _ n r, NcclRecv _ n' 0 => n = n' /\ r = rank
  | _, _ => False
  end.

(** The address of a call. *)
Definition op_ptr (op : nccl_op) : option Z :=
  match op with
  | NcclInit _ _ _ => None
  | NcclBcast p _ _ | NcclSend p _ _ | NcclRecv p _ _ => Some p
  end.

(** The buffer, the rank and the range the request of position [i] names. *)
Definition target_fields (request : NodePropagateRequest) (i : nat) : option (string * Z * Z) :=
  if use_assignments request then
    (fun a => (assigned_buffer_id request a, offset_bytes a, length_bytes a)) <$>
      shard_assignments request !! i
  else (fun _ => (pr_buffer_id request, 0, 0)) <$> target_node_ids request !! i.

Lemma ranked_lookup {A} (l : list A) i : ranked l !! i = pair (Z.of_nat i + 1) <$> l !! i.
Proof. unfold ranked. rewrite list_lookup_imap. by destruct (l !! i). Qed.

Lemma wire_request_lookup request nccl_id i id o l :
  target_fields request i = Some (id, o, l) ->
  snd <$> wire_requests request nccl_id !! i =
    Some (handshake_message id (world_size_of request) (Z.of_nat i + 1) (pr_mode request)
            (scatter_meta_of o l) nccl_id).
Proof.
  unfold target_fields, wire_requests. destruct (use_assignments request);
    rewrite list_lookup_fmap, ranked_lookup.
  - by destruct (shard_assignments request !! i) as [a|]; intros [= <- <- <-].
  - by destruct (target_node_ids request !! i) as [a|]; intros [= <- <- <-].
Qed.

(** The number of line feeds. *)
Fixpoint lines_in (s : string) : nat :=
  match s with
  | "" => 0
  | String a s' => (if Ascii.eqb a NL then 1 else 0) + lines_in s'
  end.

Lemma lines_in_app a b : lines_in (a +:+ b) = (lines_in a + lines_in b)%nat.
Proof. induction a as [|x a IH]; [done|]. simpl. rewrite IH. lia. Qed.

Lemma lines_in_none s : has_char NL s = false -> lines_in s = 0%nat.
Proof. induction s as [|x s IH]; [done|]. simpl. intros [-> Hs]%orb_false_iff. by apply IH. Qed.

Lemma lines_in_line s : has_char NL s = false -> lines_in (line s) = 1%nat.
Proof. intros Hs. unfold line. by rewrite lines_in_app, lines_in_none. Qed.

Lemma lines_in_header id ws rank mode o l :
  has_char NL id = false -> lines_in (handshake_header id ws rank mode (scatter_meta_of o l)) = 5%nat.
Proof.
  intros Hid. unfold handshake_header.
  by rewrite !lines_in_app, !lines_in_line by (apply str_of_Z_no_NL || apply scatter_meta_no_NL || done).
Qed.

(** A text that has all the line feeds of [line h] starts with it. *)
Lemma prefix_of_lines h first rest x :
  first +:+ rest = line h +:+ x -> (lines_in (line h) <= lines_in first)%nat ->
  exists p, first = line h +:+ p.
Proof.
  revert first. induction h as [|a h IH]; intros first E Hn.
  - destruct first as [|y first]; [simpl in Hn; lia|]. injection E as -> _. by exists first.
  - destruct first as [|y first].
    + exfalso. unfold line in Hn. rewrite lines_in_app in Hn. simpl in Hn. lia.
    + injection E as -> E. destruct (IH first E) as [p ->]; [|by exists p].
      unfold line in *. simpl in Hn |- *. lia.
Qed.

(** The first chunk holds the five lines of the header, and no chunk is empty. *)
Definition header_first (c : Conn) : Prop :=
  exists first chunks, inbox c = first :: chunks /\ (5 <= lines_in first)%nat /\
    (String.length first <= 1024)%nat /\ Forall (fun chunk => chunk <> "") chunks.

(** The bytes of a request that arrive with the header in the first chunk. *)
Lemma header_first_arrived id ws rank mode o l nccl_id c :
  has_char NL id = false -> header_first c ->
  bytes_of (inbox c) = handshake_message id ws rank mode (scatter_meta_of o l) nccl_id ->
  request_arrived id ws rank mode o l nccl_id c.
Proof.
  intros Hid (first & chunks & Hin & Hn & Hlen & Hne) Hb. rewrite Hin in Hb.
  unfold handshake_message in Hb. simpl in Hb.
  set (h := handshake_header id ws rank mode (scatter_meta_of o l)) in *.
  assert (h = line (line id +:+ line (str_of_Z ws) +:+ line (str_of_Z rank) +:+
            line (str_of_Z mode) +:+ scatter_meta_of o l)) as Hh.
  { unfold h, handshake_header, line. by rewrite !string_app_assoc. }
  destruct (prefix_of_lines (line id +:+ line (str_of_Z ws) +:+ line (str_of_Z rank) +:+
    line (str_of_Z mode) +:+ scatter_meta_of o l) first (bytes_of chunks) nccl_id) as [p ->].
  { by rewrite <- Hh. }
  { rewrite <- Hh. unfold h. by rewrite lines_in_header. }
  rewrite <- Hh in *. exists p, chunks. split_and!; try done.
  rewrite string_app_assoc in Hb. clear -Hb. induction h as [|x h IH]; simpl; [done|].
  injection Hb as Hb. by apply IH.
Qed.

(** A target at position [i] that reads what the request for this position says. *)
Lemma wire_arrived request i id o l nccl_id c :
  target_fields request i = Some (id, o, l) -> has_char NL id = false ->
  Some (bytes_of (inbox c)) = snd <$> wire_requests request nccl_id !! i ->
  header_first c ->
  request_arrived id (world_size_of request) (Z.of_nat i + 1) (pr_mode request) o l nccl_id c.
Proof.
  intros Hf Hid Hwire Hh. rewrite (wire_request_lookup _ _ _ _ _ _ Hf) in Hwire.
  injection Hwire as Hwire. by apply header_first_arrived.
Qed.

Section both.
Context {W C : Type} `{CudaApi W} `{GrpcContext C} `{!GrpcLaws C} (env : Env).
Implicit Types (s t : Driver W C) (c : Conn) (request : NodePropagateRequest).

(** C6: a propagation whose targets accept opens one socket per target and sends the
    request of the position over it, and a target that reads what was sent over the socket
    of position i, with the header in the first
    chunk, joins the communicator of the source under rank i + 1 and makes the call that
    meets a call of the source: in BROADCAST mode its one broadcast, when both buffers have
    as many float16 elements; in SCATTER mode the send of the assignment, when it is not
    empty. The two calls address the range of the assignment, each in its own buffer. *)
Theorem propagate_ends_meet dial request b s :
  dict_get (pr_buffer_id request) (ALLOCATED_BUFFERS s) = Some b -> consumers_known b s ->
  CUPY_AVAILABLE env = true -> (forall op, nccl_result env op = None) ->
  all_accept env dial request ->
  exists s' js ops,
    rpc (NodePropagate env dial request) s = (RpcOk tt, s') /\
    nccl_log s' = nccl_log s ++ NcclInit (Z.of_nat (length js) + 1) (nccl_unique_id env) 0 :: ops /\
    NoDup js /\
    forall i id o l, target_fields request i = Some (id, o, l) ->
      exists j cj, js !! i = Some j /\ conns s !! j = None /\ conns s' !! j = Some cj /\
        outbox cj = handshake_message id (Z.of_nat (length js) + 1) (Z.of_nat i + 1)
          (pr_mode request) (scatter_meta_of o l) (nccl_unique_id env) /\
        forall fuel conn c tb a t,
          (if use_assignments request then 0 < l
           else bi_size_bytes tb / 2 = bi_size_bytes b / 2) ->
          ready_target env fuel conn c id (nccl_unique_id env) tb a t ->
          bytes_of (inbox c) = outbox cj -> header_first c ->
          exists t' src dst,
            handle_target_connection env fuel conn t = (Ret tt, t') /\
            nccl_log t' = nccl_log t ++
              [NcclInit (Z.of_nat (length js) + 1) (nccl_unique_id env) (Z.of_nat i + 1); dst] /\
            ops !! (if use_assignments request then i else 0%nat) = Some src /\
            calls_meet (Z.of_nat i + 1) src dst /\
            op_ptr src = Some (bi_device_ptr b + o) /\ op_ptr dst = Some (bi_device_ptr tb + o).
Proof.
  intros Hb Hkn Hcupy Hnccl Hall.
  destruct (propagate_run env dial request b s Hb Hkn Hcupy Hnccl Hall)
    as (s' & js & E & Hl & Hnd & Hf & _).
  rewrite <- transfer_ops_eq in Hl. rewrite <- (Forall2_length _ _ _ Hf) in Hl.
  exists s', js, (transfer_ops request b). split; [done|]. split; [done|]. split; [done|].
  intros i id o l Hfld.
  pose proof (wire_request_lookup _ (nccl_unique_id env) _ _ _ _ Hfld) as Hw.
  destruct (wire_requests request _ !! i) as [r|] eqn:Er; [|done].
  destruct (Forall2_lookup_r _ _ _ _ _ Hf Er) as (j & Hj & Hn & cj & Hcj & Hout & _).
  rewrite (Forall2_length _ _ _ Hf), wire_requests_length.
  injection Hw as Hw. rewrite Hw in Hout.
  exists j, cj. split_and!; [done..|]. intros fuel conn c tb a t Hsize Ht Hbytes Hh.
  rewrite Hout in Hbytes. apply header_first_arrived in Hbytes; [|by eapply rt_line|done].
  destruct (target_served env fuel conn c id _ _ _ o l (nccl_unique_id env) tb a t Ht Hbytes)
    as (t' & Et & Hlt & _).
  exists t'. clear -Hfld Hsize Et Hlt. unfold transfer_ops, target_fields in *.
  destruct (use_assignments request) eqn:Huse.
  - rewrite list_lookup_fmap, ranked_lookup.
    destruct (shard_assignments request !! i) as [sa|]; [|done]. injection Hfld as <- <- <-.
    eexists _, _. split; [done|]. split; [exact Hlt|]. split; [reflexivity|].
    unfold use_assignments in Huse. apply andb_true_iff in Huse as [-> _].
    simpl. rewrite (proj2 (Z.ltb_lt _ _)) by done. done.
  - assert (o = 0 /\ l = 0) as [-> ->] by (destruct (target_node_ids request !! i); naive_solver).
    eexists _, _. split; [done|]. split; [exact Hlt|]. split; [reflexivity|].
    rewrite andb_false_r. simpl. rewrite !Z.add_0_r. done.
Qed.

(** An empty assignment makes the two ends disagree: the source sends nothing to the
    rank, while the target that gets its request takes part in a broadcast of its whole
    buffer, which no call of the source meets. *)
Theorem propagate_empty_assignment fuel request b i sa conn c tb a t :
  use_assignments request = true -> shard_assignments request !! i = Some sa ->
  length_bytes sa = 0 ->
  ready_target env fuel conn c (assigned_buffer_id request sa) (nccl_unique_id env) tb a t ->
  Some (bytes_of (inbox c)) = snd <$> wire_requests request (nccl_unique_id env) !! i ->
  header_first c ->
  let src := NcclSend (bi_device_ptr b + offset_bytes sa) 0 (Z.of_nat i + 1) in
  let dst := NcclBcast (bi_device_ptr tb) (bi_size_bytes tb / 2) 0 in
  transfer_ops request b !! i = Some src /\
  (exists t', handle_target_connection env fuel conn t = (Ret tt, t') /\
     nccl_log t' = nccl_log t ++
       [NcclInit (world_size_of request) (nccl_unique_id env) (Z.of_nat i + 1); dst]) /\
  forall src', src' ∈ transfer_ops request b -> ~ calls_meet (Z.of_nat i + 1) src' dst.
Proof.
  intros Huse Hsa Hz Ht Hwire Harr src dst.
  assert (target_fields request i = Some (assigned_buffer_id request sa, offset_bytes sa, 0)) as Hf.
  { unfold target_fields. by rewrite Huse, Hsa, <- Hz. }
  split; [|split].
  - unfold transfer_ops. rewrite Huse, list_lookup_fmap, ranked_lookup, Hsa.
    simpl. unfold send_op. simpl. by rewrite Hz.
  - destruct (target_served env fuel conn c (assigned_buffer_id request sa) (world_size_of request)
      (Z.of_nat i + 1) (pr_mode request) (offset_bytes sa) 0 (nccl_unique_id env) tb a t)
      as (t' & E & Hl & _); [done|eapply wire_arrived; [done|by eapply rt_line|done..]|].
    exists t'. split; [done|]. by rewrite andb_false_r in Hl.
  - unfold transfer_ops. rewrite Huse. intros src' (ra & -> & _)%list_elem_of_fmap. simpl. tauto.
Qed.

(** C37: a target whose buffer has the size of its shard receives behind the end of the
    buffer, for every shard that does not start within the first [length] bytes: the offset
    of the assignment, which counts in the source's buffer, is added to the address of the
    target's buffer. *)
Theorem scatter_receives_out_of_bounds fuel request i sa conn c tb a t :
  use_assignments request = true -> shard_assignments request !! i = Some sa ->
  ready_target env fuel conn c (assigned_buffer_id request sa) (nccl_unique_id env) tb a t ->
  Some (bytes_of (inbox c)) = snd <$> wire_requests request (nccl_unique_id env) !! i ->
  header_first c ->
  bi_size_bytes tb = length_bytes sa -> 0 < length_bytes sa <= offset_bytes sa ->
  exists t' p n,
    handle_target_connection env fuel conn t = (Ret tt, t') /\
    nccl_log t' = nccl_log t ++
      [NcclInit (world_size_of request) (nccl_unique_id env) (Z.of_nat i + 1); NcclRecv p n 0] /\
    bi_device_ptr tb + bi_size_bytes tb <= p.
Proof.
  intros Huse Hsa Ht Hwire Harr Hs [Hl Ho].
  assert (target_fields request i =
    Some (assigned_buffer_id request sa, offset_bytes sa, length_bytes sa)) as Hf.
  { unfold target_fields. by rewrite Huse, Hsa. }
  destruct (target_served env fuel conn c (assigned_buffer_id request sa) (world_size_of request)
    (Z.of_nat i + 1) (pr_mode request) (offset_bytes sa) (length_bytes sa) (nccl_unique_id env) tb a t)
    as (t' & E & Hlog & _); [done|eapply wire_arrived; [done|by eapply rt_line|done..]|].
  exists t'. eexists _, _. split; [done|]. unfold use_assignments in Huse.
  apply andb_true_iff in Huse as [Hm _]. rewrite Hm, (proj2 (Z.ltb_lt _ _)) in Hlog by done.
  split; [exact Hlog|lia].
Qed.
End both.

(** ** Witnesses *)

Module PropagateDemo.

(** Two halves of "m" for two nodes. *)
Definition assignments : list ShardAssignment :=
  [{| target_node_id := "10.0.0.1"; shard_index := 0; offset_bytes := 0;
      length_bytes := 2 * MiB; target_gpu_id := 0 |};
   {| target_node_id := "10.0.0.2"; shard_index := 1; offset_bytes := 2 * MiB;
      length_bytes := 2 * MiB; target_gpu_id := 0 |}].

Definition scatter : NodePropagateRequest :=
  {| pr_buffer_id := "m"; target_node_ids := ["10.0.0.1"; "10.0.0.2"]; pr_mode := 1;
     shard_assignments := assignments |}.

(** The first node accepts, every other one refuses. *)
Definition some_refuse (rank : Z) (ip : string) : option Conn :=
  Some (mk_Conn [if rank =? 1 then line "OK" else line "ERROR"] false (Some 4096) "" [] false).

Definition all_ok (rank : Z) (ip : string) : option Conn :=
  Some (mk_Conn [line "OK"] false (Some 4096) "" [] false).

(** "m" with one consumer on socket 5. *)
Definition s0 : Demo.driver :=
  set_buffers (dict_alter (set_notify_sockets [5%nat]) "m")
    (set_conns (fun _ => {[ 5%nat := mk_Conn [] false (Some 4096) "" [] false ]})
       (Demo.staged "c1" "m" (4 * MiB))).

Definition info : BufferInfo := Demo.staged_info 0 s0 "m".
End PropagateDemo.

Lemma demo_consumers_known : consumers_known PropagateDemo.info PropagateDemo.s0.
Proof.
  assert (bi_notify_sockets PropagateDemo.info = [5%nat]) as E by (vm_compute; reflexivity).
  split; rewrite E; [apply NoDup_singleton|].
  intros i ->%list_elem_of_singleton. eexists. split; [reflexivity|reflexivity].
Qed.

Lemma demo_answers (msg req : string) (ok : Z -> string -> option Conn) rank ip :
  ok rank ip = Some (mk_Conn [msg] false (Some 4096) "" [] false) -> (String.length msg <= 1024)%nat ->
  (blen req <=? 4096) = true -> answers ok msg rank ip req.
Proof. intros E Hl Hr. eexists _, []. split; [exact E|]. done. Qed.

Lemma demo_all_accept request :
  forallb (fun r : Z * string * string => blen r.2 <=? 4096) (wire_requests request Demo.nccl_id) = true ->
  all_accept Demo.env PropagateDemo.all_ok request.
Proof.
  intros Hall r Hr. exists (line "OK"). split; [|reflexivity]. apply demo_answers; [reflexivity|simpl; lia|].
  rewrite forallb_forall in Hall. by apply Hall, list_elem_of_In.
Qed.

Lemma propagate_success_witness :
  exists s' (js : list nat),
    rpc (NodePropagate Demo.env PropagateDemo.all_ok PropagateDemo.scatter) PropagateDemo.s0 =
      (RpcOk tt, s') /\
    nccl_log s' = [NcclInit 3 Demo.nccl_id 0; NcclSend (2 ^ 40) MiB 1;
                   NcclSend (2 ^ 40 + 2 * MiB) MiB 2] /\
    NoDup js /\
    outbox <$> conns s' !! 5%nat = Some (line "PRE_UPDATE" +:+ line "READY").
Proof.
  destruct (propagate_success Demo.env PropagateDemo.all_ok PropagateDemo.scatter PropagateDemo.info
    PropagateDemo.s0) as (s' & js & H1 & H2 & H3 & _ & H5 & _).
  - vm_compute. reflexivity.
  - apply demo_consumers_known.
  - reflexivity.
  - reflexivity.
  - apply demo_all_accept. vm_compute. reflexivity.
  - exists s', js. split; [exact H1|]. split; [exact H2|]. split; [exact H3|].
    apply (H5 5%nat (mk_Conn [] false (Some 4096) "" [] false)); [|reflexivity|reflexivity].
    apply (bool_decide_unpack _). vm_compute. exact I.
Defined.

Lemma propagate_rejection_strands_witness :
  exists s' (js : list nat),
    rpc (NodePropagate Demo.env PropagateDemo.some_refuse PropagateDemo.scatter) PropagateDemo.s0 =
      (RpcFailed INTERNAL "Target node 10.0.0.2 rejected NCCL preparation: b'ERROR\n'", s') /\
    nccl_log s' = [] /\ length js = 2%nat.
Proof.
  destruct (propagate_rejection_strands Demo.env PropagateDemo.some_refuse PropagateDemo.scatter
    [(1, default (Build_ShardAssignment "" 0 0 0 0) (PropagateDemo.assignments !! 0%nat))]
    (2, default (Build_ShardAssignment "" 0 0 0 0) (PropagateDemo.assignments !! 1%nat)) [] (line "ERROR")
    PropagateDemo.info PropagateDemo.s0) as (s' & js & H1 & H2 & H3 & _).
  - vm_compute. reflexivity.
  - apply demo_consumers_known.
  - reflexivity.
  - reflexivity.
  - reflexivity.
  - intros x ->%list_elem_of_singleton. exists (line "OK"). split; [|reflexivity].
    apply demo_answers; [reflexivity|simpl; lia|vm_compute; reflexivity].
  - apply demo_answers; [reflexivity|simpl; lia|vm_compute; reflexivity].
  - reflexivity.
  - exists s', js. split; [exact H1|]. split; [exact H2|exact H3].
Defined.

(** The target on which [id] is staged, about to read the request of rank 2 of 3. *)
Lemma demo_ready id c t :
  conns t !! 1%nat = Some c -> conn_alive c = true -> room c = Some 4096 ->
  conns t !! 5%nat = Some (mk_Conn [] false (Some 4096) "" [] false) ->
  has_char NL id = false -> valid_utf8 id = true -> (length (inbox c) <= 2)%nat ->
  dict_get id (ALLOCATED_BUFFERS t) = Some (TargetDemo.info t id) ->
  bi_notify_sockets (TargetDemo.info t id) = [5%nat] ->
  cuda_allocator t = Some (TargetDemo.allocator t) ->
  ready_target Demo.env 2 1 c id Demo.nccl_id (TargetDemo.info t id) (TargetDemo.allocator t) t.
Proof.
  intros Hc Hal Hr H5 Hid Hv Hlen Hb Hn Ha. split; try done; [unfold has_room; by rewrite Hr|..]; rewrite Hn.
  - apply NoDup_singleton.
  - intros i ->%list_elem_of_singleton. unfold sock_room. by rewrite H5.
  - by rewrite list_elem_of_singleton.
Qed.

(** The second half of "m", sent to the second node: the target of rank 2 reads it. *)
Lemma propagate_ends_meet_witness :
  let t := TargetDemo.state (TargetDemo.peer (TargetDemo.chunks "m__shard_1" 3 2 1 (2 * MiB) (2 * MiB)) false) in
  let t1 := set_buffers (fun d => dict_set "m__shard_1" (TargetDemo.info t "m") d) t in
  exists s' t' src dst,
    rpc (NodePropagate Demo.env PropagateDemo.all_ok PropagateDemo.scatter) PropagateDemo.s0 =
      (RpcOk tt, s') /\
    handle_target_connection Demo.env 2 1 t1 = (Ret tt, t') /\
    nccl_log t' = [NcclInit 3 Demo.nccl_id 2; dst] /\
    calls_meet 2 src dst /\ op_ptr src = Some (2 ^ 40 + 2 * MiB).
Proof.
  intros t t1.
  destruct (propagate_ends_meet Demo.env PropagateDemo.all_ok PropagateDemo.scatter PropagateDemo.info
    PropagateDemo.s0) as (s' & js & ops & H1 & H2 & _ & H4).
  - vm_compute. reflexivity.
  - apply demo_consumers_known.
  - reflexivity.
  - reflexivity.
  - apply demo_all_accept. vm_compute. reflexivity.
  - assert (length js = 2%nat) as Hjs.
    { assert (exists z, nccl_log s' = NcclInit 3 Demo.nccl_id 0 :: z) as [z Hz].
      { apply (f_equal (fun r => nccl_log r.2)) in H1. eexists. simpl snd in H1. rewrite <- H1.
        vm_compute. reflexivity. }
      assert (nccl_log PropagateDemo.s0 = []) as E0 by (vm_compute; reflexivity).
      rewrite Hz, E0 in H2. injection H2 as H2 _. lia. }
    destruct (H4 1%nat "m__shard_1" (2 * MiB) (2 * MiB) eq_refl) as (j & cj & _ & _ & _ & Hout & Hmeet).
    rewrite Hjs in Hout.
    destruct (Hmeet 2%nat 1%nat
      (TargetDemo.peer (TargetDemo.chunks "m__shard_1" 3 2 1 (2 * MiB) (2 * MiB)) false)
      (TargetDemo.info t1 "m__shard_1") (TargetDemo.allocator t1) t1) as (t' & src & dst & E & Hl & _ & Hm & Hp & _).
    + reflexivity.
    + apply demo_ready; vm_compute; reflexivity || auto.
    + rewrite Hout. reflexivity.
    + eexists _, _. split; [reflexivity|].
      split; [apply Nat.leb_le; vm_compute; reflexivity|].
      split; [apply Nat.leb_le; vm_compute; reflexivity|repeat constructor; discriminate].
    + rewrite Hjs in Hl. exists s', t', src, dst. split; [exact H1|]. split; [exact E|].
      split; [exact Hl|]. split; [exact Hm|exact Hp].
Defined.

Lemma propagate_empty_assignment_witness :
  let sa := {| target_node_id := "10.0.0.1"; shard_index := -1; offset_bytes := 0; length_bytes := 0;
               target_gpu_id := 0 |} in
  let request := {| pr_buffer_id := "m"; target_node_ids := []; pr_mode := 1;
                    shard_assignments := [sa] |} in
  let t := TargetDemo.state (TargetDemo.peer (TargetDemo.chunks "m" 2 1 1 0 0) false) in
  exists t' ptr,
    handle_target_connection Demo.env 2 1 t = (Ret tt, t') /\
    nccl_log t' = [NcclInit 2 Demo.nccl_id 1; NcclBcast ptr (2 * MiB) 0] /\
    transfer_ops request (TargetDemo.info t "m") = [NcclSend (2 ^ 40) 0 1].
Proof.
  intros sa request t.
  destruct (propagate_empty_assignment Demo.env 2 request (TargetDemo.info t "m") 0 sa 1
    (TargetDemo.peer (TargetDemo.chunks "m" 2 1 1 0 0) false) (TargetDemo.info t "m")
    (TargetDemo.allocator t) t) as (_ & (t' & H1 & H2) & _).
  - reflexivity.
  - reflexivity.
  - reflexivity.
  - apply demo_ready; vm_compute; reflexivity || auto.
  - reflexivity.
  - eexists _, _. split; [reflexivity|]. split; [apply Nat.leb_le; vm_compute; reflexivity|].
    split; [apply Nat.leb_le; vm_compute; reflexivity|repeat constructor; discriminate].
  - exists t'. eexists. split; [exact H1|]. split; [exact H2|vm_compute; reflexivity].
Defined.

Lemma scatter_receives_out_of_bounds_witness :
  let sa := {| target_node_id := "10.0.0.1"; shard_index := -1; offset_bytes := 4 * MiB;
               length_bytes := 4 * MiB; target_gpu_id := 0 |} in
  let t := TargetDemo.state (TargetDemo.peer (TargetDemo.chunks "m" 2 1 1 (4 * MiB) (4 * MiB)) false) in
  exists t' p n,
    handle_target_connection Demo.env 2 1 t = (Ret tt, t') /\
    nccl_log t' = [NcclInit 2 Demo.nccl_id 1; NcclRecv p n 0] /\ 2 ^ 40 + 4 * MiB <= p.
Proof.
  intros sa t.
  apply (scatter_receives_out_of_bounds Demo.env 2
    {| pr_buffer_id := "m"; target_node_ids := []; pr_mode := 1; shard_assignments := [sa] |} 0 sa 1
    (TargetDemo.peer (TargetDemo.chunks "m" 2 1 1 (4 * MiB) (4 * MiB)) false)
    (TargetDemo.info t "m") (TargetDemo.allocator t) t).
  - reflexivity.
  - reflexivity.
  - apply demo_ready; vm_compute; reflexivity || auto.
  - reflexivity.
  - eexists _, _. split; [reflexivity|]. split; [apply Nat.leb_le; vm_compute; reflexivity|].
    split; [apply Nat.leb_le; vm_compute; reflexivity|repeat constructor; discriminate].
  - vm_compute. reflexivity.
  - split; [reflexivity|done].
Defined.
