(* ===== verification/Rpc.v ===== *)
(** * gRPC: messages, channels, servers

    The messages of proto/wpi.proto as types, what the protobuf runtime does with them
    ([Protobuf], a parameter with its round-trip law), what the gRPC runtime keeps of the
    handlers that are added to a server ([ServerApi], [ServerLaws]), and a call from a
    stub to a handler. The generated modules, one per copy, are in DriverGrpc, ClientGrpc
    and PluginGrpc. *)

From S2P Require Import Prelude PyMonad PyText PyDict Cuda Allocator NodeState Stage Unstage.
From S2P Require Import Propagate.

(** ** Messages *)

Module wpi__pb2.

(** The message classes of the module [wpi_pb2]. *)
Inductive message : Type :=
  | GetPluginInfoRequest | GetPluginInfoResponse
  | GetPluginCapabilitiesRequest | GetPluginCapabilitiesResponse
  | CreateWeightBufferRequest | CreateWeightBufferResponse
  | AuthorizeTransferRequest | AuthorizeTransferResponse
  | QueryTopologyRequest | QueryTopologyResponse
  | NodeRegisterWeightRequest | NodeRegisterWeightResponse
  | NodeStageWeightRequest | NodeStageWeightResponse
  | NodeUnstageWeightRequest | NodeUnstageWeightResponse
  | NodePropagateRequest | NodePropagateResponse
  | NodeTranslateAndMapRequest | NodeTranslateAndMapResponse.

#[global] Instance message_eq_dec : EqDecision message.
Proof. solve_decision. Defined.
End wpi__pb2.

(** Requests that name a buffer and a size: CreateWeightBuffer, NodeRegisterWeight. *)
Record BufferRequest : Type := { rq_buffer_id : string; rq_size_bytes : Z }.

Record AuthorizeTransferRequest : Type := { at_buffer_id : string; at_target_node_id : string }.

(** The fields of a message; a message with one field is that field, and the layout
    descriptors, which no part of the program fills in or reads, are left out. *)
Definition payload (m : wpi__pb2.message) : Type :=
  match m with
  | wpi__pb2.GetPluginInfoResponse => PluginInfo
  | wpi__pb2.GetPluginCapabilitiesResponse => list Capability
  | wpi__pb2.CreateWeightBufferRequest | wpi__pb2.NodeRegisterWeightRequest => BufferRequest
  | wpi__pb2.AuthorizeTransferRequest => AuthorizeTransferRequest
  | wpi__pb2.AuthorizeTransferResponse
  | wpi__pb2.QueryTopologyRequest | wpi__pb2.QueryTopologyResponse
  | wpi__pb2.NodeRegisterWeightResponse
  | wpi__pb2.NodeUnstageWeightRequest
  | wpi__pb2.NodeTranslateAndMapRequest | wpi__pb2.NodeTranslateAndMapResponse => string
  | wpi__pb2.NodeStageWeightRequest => NodeStageWeightRequest
  | wpi__pb2.NodePropagateRequest => NodePropagateRequest
  | wpi__pb2.GetPluginInfoRequest | wpi__pb2.GetPluginCapabilitiesRequest
  | wpi__pb2.CreateWeightBufferResponse | wpi__pb2.NodeStageWeightResponse
  | wpi__pb2.NodeUnstageWeightResponse | wpi__pb2.NodePropagateResponse => unit
  end.

(** A message object: its class and its fields. *)
Definition value : Type := {m : wpi__pb2.message & payload m}.

(** The fields of [v] as those of a [m]. *)
Definition as_message (m : wpi__pb2.message) (v : value) : option (payload m) :=
  match decide (projT1 v = m) with
  | left E => Some (eq_rect _ payload (projT2 v) _ E)
  | right _ => None
  end.

Lemma as_message_self m (x : payload m) : as_message m (existT m x) = Some x.
Proof.
  unfold as_message. simpl. destruct (decide (m = m)) as [E|]; [|done].
  by rewrite (proof_irrel E eq_refl).
Qed.

(** *** The values that a field holds *)

Definition uint64 (z : Z) : bool := (0 <=? z) && (z <? 2 ^ 64).
Definition int32 (z : Z) : bool := (- 2 ^ 31 <=? z) && (z <? 2 ^ 31).

Definition assignment_ok (a : ShardAssignment) : bool :=
  valid_utf8 (target_node_id a) && int32 (shard_index a) && uint64 (offset_bytes a) &&
  uint64 (length_bytes a) && int32 (target_gpu_id a).

(** Strings are UTF-8, integers have the width of their field. *)
Definition msg_ok (m : wpi__pb2.message) : payload m -> bool :=
  match m with
  | wpi__pb2.GetPluginInfoResponse => fun p => valid_utf8 (pi_name p) && valid_utf8 (pi_vendor_version p)
  | wpi__pb2.CreateWeightBufferRequest | wpi__pb2.NodeRegisterWeightRequest =>
      fun r => valid_utf8 (rq_buffer_id r) && uint64 (rq_size_bytes r)
  | wpi__pb2.AuthorizeTransferRequest =>
      fun r => valid_utf8 (at_buffer_id r) && valid_utf8 (at_target_node_id r)
  | wpi__pb2.QueryTopologyRequest | wpi__pb2.QueryTopologyResponse
  | wpi__pb2.NodeRegisterWeightResponse
  | wpi__pb2.NodeUnstageWeightRequest
  | wpi__pb2.NodeTranslateAndMapRequest | wpi__pb2.NodeTranslateAndMapResponse => valid_utf8
  | wpi__pb2.NodeStageWeightRequest => fun r =>
      valid_utf8 (st_claim_id r) && valid_utf8 (st_buffer_id r) && valid_utf8 (st_source_path r) &&
      uint64 (st_size_bytes r) && int32 (st_shard_index r) && int32 (st_total_shards r)
  | wpi__pb2.NodePropagateRequest => fun r =>
      valid_utf8 (pr_buffer_id r) && forallb valid_utf8 (target_node_ids r) && int32 (pr_mode r) &&
      forallb assignment_ok (shard_assignments r)
  | _ => fun _ => true
  end.

(** ** The runtimes *)

(** Encoding and decoding of a message, of which the program relies on the round trip. *)
Class Protobuf (Wire : Type) : Type := {
  encode (m : wpi__pb2.message) : payload m -> Wire;
  decode (m : wpi__pb2.message) : Wire -> option (payload m)
}.

Class ProtobufLaws (Wire : Type) `{Protobuf Wire} : Prop := {
  law_decode_encode m (x : payload m) : msg_ok m x = true -> decode m (encode m x) = Some x
}.

Section codec.
Context {Wire : Type} `{Protobuf Wire}.

(** [<message>.SerializeToString], called with any object, and [<message>.FromString]. *)
Definition SerializeToString (m : wpi__pb2.message) (v : value) : option Wire :=
  encode m <$> as_message m v.

Definition FromString (m : wpi__pb2.message) (w : Wire) : option value :=
  existT m <$> decode m w.

Lemma codec_roundtrip `{!ProtobufLaws Wire} m (x : payload m) :
  msg_ok m x = true -> SerializeToString m (existT m x) ≫= FromString m = Some (existT m x).
Proof.
  intros Hx. unfold SerializeToString, FromString. rewrite as_message_self. simpl.
  by rewrite law_decode_encode.
Qed.
End codec.

(** What [channel.unary_unary] makes of a channel. *)
Record Multicallable (Wire Ch : Type) : Type := mk_Multicallable {
  mc_channel : Ch;
  mc_path : string;
  request_serializer : value -> option Wire;
  response_deserializer : Wire -> option value;
  mc_registered_method : bool
}.
Arguments mk_Multicallable {Wire Ch}.
Arguments mc_channel {Wire Ch}.
Arguments mc_path {Wire Ch}.
Arguments request_serializer {Wire Ch}.
Arguments response_deserializer {Wire Ch}.
Arguments mc_registered_method {Wire Ch}.

Definition unary_unary {Wire Ch : Type} (channel : Ch) (path : string)
    (ser : value -> option Wire) (deser : Wire -> option value) (registered : bool) :
    Multicallable Wire Ch := mk_Multicallable channel path ser deser registered.

(** A method of a servicer. *)
Definition method (S : Type) : Type := value -> py S value.

(** What [grpc.unary_unary_rpc_method_handler] makes of one. *)
Record MethodHandler (S Wire : Type) : Type := mk_MethodHandler {
  behaviour : method S;
  request_deserializer : Wire -> option value;
  response_serializer : value -> option Wire
}.
Arguments mk_MethodHandler {S Wire}.
Arguments behaviour {S Wire}.
Arguments request_deserializer {S Wire}.
Arguments response_serializer {S Wire}.

Definition unary_unary_rpc_method_handler {S Wire : Type} (f : method S)
    (deser : Wire -> option value) (ser : value -> option Wire) : MethodHandler S Wire :=
  mk_MethodHandler f deser ser.

Definition method_handlers_generic_handler {H : Type} (service : string) (hs : dict H) :
    string * dict H := (service, hs).

(** What [grpc.experimental.unary_unary] is called with, in the order of its parameters;
    [Obj] stands for the objects of the grpc library that are only passed along. *)
Record OneShot (Wire Obj : Type) : Type := experimental_unary_unary {
  os_request : value;
  os_target : string;
  os_path : string;
  os_request_serializer : value -> option Wire;
  os_response_deserializer : Wire -> option value;
  os_options : list Obj;
  os_channel_credentials : option Obj;
  os_insecure : bool;
  os_call_credentials : option Obj;
  os_compression : option Obj;
  os_wait_for_ready : option bool;
  os_timeout : option Obj;
  os_metadata : option Obj;
  os_registered_method : bool
}.
Arguments experimental_unary_unary {Wire Obj}.

(** A server keeps the handlers that are added to it, and finds one for a path. *)
Class ServerApi (Srv H : Type) : Type := {
  grpc_server : Srv;
  add_generic_rpc_handlers : list (string * dict H) -> Srv -> Srv;
  add_registered_method_handlers : string -> dict H -> Srv -> Srv;
  handler_of : Srv -> string -> option H
}.

(** The path of a method of a service. *)
Definition qualified (service name : string) : string := "/" +:+ service +:+ "/" +:+ name.

(** The two calls that a generated module makes serve the methods of the dictionary,
    and change nothing for the other paths. *)
Class ServerLaws (Srv H : Type) `{ServerApi Srv H} : Prop := {
  law_server_empty path : handler_of (H:=H) grpc_server path = None;
  law_server_added service hs name h srv :
    handler_of (H:=H) srv (qualified service name) = None -> dict_get name hs = Some h ->
    handler_of (add_registered_method_handlers service hs
      (add_generic_rpc_handlers [(service, hs)] srv)) (qualified service name) = Some h;
  law_server_others service hs path srv :
    (forall name, is_Some (dict_get name hs) -> path <> qualified service name) ->
    handler_of (add_registered_method_handlers service hs
      (add_generic_rpc_handlers [(service, hs)] srv)) path = handler_of (H:=H) srv path
}.

(** The attribute [name] of an object, given as the dictionary of its attributes. *)
Definition getattr {S A : Type} (attributes : dict A) (name : string) : py S A :=
  py_some (dict_get name attributes) AttributeError ("object has no attribute '" +:+ name +:+ "'").

(** The attributes of an instance of a class that defines [own] and inherits from one
    with the attributes [base]. *)
Definition inherit {A : Type} (base own : dict A) : dict A :=
  foldl (fun d kv => dict_set kv.1 kv.2 d) base own.

(** ** A call *)

Section call.
Context {W C Wire Srv Ch : Type} `{CudaApi W} `{GrpcContext C} `{Protobuf Wire}.
#[local] Abbreviation state := (Driver W C).
Context `{!ServerApi Srv (MethodHandler state Wire)}.

(** The server's side: the handler of the path runs on the decoded request. *)
Definition handle (srv : Srv) (path : string) (w : Wire) (s : state) : rpc_result Wire * state :=
  match handler_of srv path with
  | None => (RpcFailed UNIMPLEMENTED "Method not found!", s)
  | Some h =>
      match request_deserializer h w with
      | None => (RpcFailed INTERNAL "Exception deserializing request!", s)
      | Some v =>
          match rpc (behaviour h v) s with
          | (RpcOk r, s') =>
              (match response_serializer h r with
               | Some w' => RpcOk w'
               | None => RpcFailed INTERNAL "Failed to serialize response!"
               end, s')
          | (RpcFailed code details, s') => (RpcFailed code details, s')
          | (RpcPending, s') => (RpcPending, s')
          end
      end
  end.

(** The call of a stub's attribute, on a channel that leads to [srv]. *)
Definition call (srv : Srv) (mc : Multicallable Wire Ch) (request : value) (s : state) :
    rpc_result value * state :=
  match request_serializer mc request with
  | None => (RpcFailed INTERNAL "Exception serializing request!", s)
  | Some w =>
      match handle srv (mc_path mc) w s with
      | (RpcOk w', s') =>
          (match response_deserializer mc w' with
           | Some v => RpcOk v
           | None => RpcFailed INTERNAL "Exception deserializing response!"
           end, s')
      | (RpcFailed code details, s') => (RpcFailed code details, s')
      | (RpcPending, s') => (RpcPending, s')
      end
  end.

(** A method written for the fields of one message and building another one; on an
    object of another class it fails at the first field. *)
Definition method_of (m m' : wpi__pb2.message) (f : payload m -> py state (payload m')) : method state :=
  fun v =>
    match as_message m v with
    | Some x => y ← f x ; mret (existT m' y)
    | None => py_raise AttributeError "message has no such field"
    end.

Definition rpc_map {A B} (g : A -> B) (r : rpc_result A) : rpc_result B :=
  match r with
  | RpcOk a => RpcOk (g a)
  | RpcFailed code details => RpcFailed code details
  | RpcPending => RpcPending
  end.

Lemma rpc_bind_ret {A B} (f : py state A) (g : A -> B) s :
  rpc (y ← f ; mret (g y)) s = (rpc_map g (rpc f s).1, (rpc f s).2).
Proof.
  unfold rpc. rewrite bind_unfold. destruct (f (set_context ctx_new s)) as [[a|e|] s']; simpl.
  - by destruct (ctx_status _) as [[]|].
  - by destruct (ctx_status _) as [[]|].
  - done.
Qed.

(** A call whose two ends agree on the messages is the run of the method. *)
Lemma call_typed `{!ProtobufLaws Wire} (srv : Srv) (ch : Ch) path m m' f reg (x : payload m) s :
  handler_of srv path = Some (mk_MethodHandler (method_of m m' f) (FromString m) (SerializeToString m')) ->
  msg_ok m x = true ->
  (forall y s', rpc (f x) s = (RpcOk y, s') -> msg_ok m' y = true) ->
  call srv (mk_Multicallable ch path (SerializeToString m) (FromString m') reg) (existT m x) s =
    (rpc_map (existT m') (rpc (f x) s).1, (rpc (f x) s).2).
Proof.
  intros Hh Hx Hy. unfold call, handle. simpl.
  pose proof (codec_roundtrip (Wire:=Wire) m x Hx) as Hrt.
  destruct (SerializeToString m (existT m x)) as [w|]; [|done]. simpl in Hrt.
  rewrite Hh. simpl. rewrite Hrt. unfold method_of. rewrite as_message_self, rpc_bind_ret.
  destruct (rpc (f x) s) as [[y| |] s'] eqn:E; simpl; [|done|done].
  pose proof (codec_roundtrip (Wire:=Wire) m' y (Hy _ _ eq_refl)) as Hrt'.
  destruct (SerializeToString m' (existT m' y)) as [w'|]; [|done]. simpl in Hrt'. by rewrite Hrt'.
Qed.

(** A path that no handler was added for. *)
Lemma call_unknown (srv : Srv) (mc : Multicallable Wire Ch) v s :
  handler_of srv (mc_path mc) = None -> is_Some (request_serializer mc v) ->
  call srv mc v s = (RpcFailed UNIMPLEMENTED "Method not found!", s).
Proof. intros Hh [w Hw]. unfold call, handle. by rewrite Hw, Hh. Qed.
End call.

(** ** Lemmas: paths *)

Lemma dict_get_app {V} k (d d' : dict V) :
  dict_get k (d ++ d') = match dict_get k d with Some v => Some v | None => dict_get k d' end.
Proof. induction d as [|[k' v'] d IH]; simpl; [done|]. by destruct (decide _). Qed.

Lemma qualified_inj service a b : qualified service a = qualified service b -> a = b.
Proof.
  unfold qualified. simpl. intros E. injection E as E. induction service as [|c service IH]; simpl in E.
  - by injection E.
  - injection E. auto.
Qed.

(** The handlers of a service under their paths. *)
Definition paths {H : Type} (service : string) (hs : dict H) : dict H :=
  (fun nh => (qualified service nh.1, nh.2)) <$> hs.

Lemma paths_get {H} service (hs : dict H) name :
  dict_get (qualified service name) (paths service hs) = dict_get name hs.
Proof.
  induction hs as [|[k v] hs IH]; simpl; [done|].
  rewrite IH. destruct (decide (name = k)) as [->|Hk]; [by rewrite decide_True|].
  rewrite decide_False; [done|]. intros E. by apply qualified_inj in E.
Qed.

Lemma paths_get_other {H} service (hs : dict H) path :
  (forall name, is_Some (dict_get name hs) -> path <> qualified service name) ->
  dict_get path (paths service hs) = None.
Proof.
  intros Hp. apply dict_get_None. intros Hin. apply list_elem_of_fmap in Hin as ([k v] & -> & Hin).
  apply list_elem_of_fmap in Hin as ([k' v'] & E & Hin). injection E as -> ->.
  apply (Hp k'); [|done]. apply dict_get_is_Some. apply list_elem_of_fmap. by exists (k', v').
Qed.

(** ** Concrete runtimes *)

Module GrpcSim.

(** Messages travel as they are, tagged with their class. *)
#[export] Instance tagged_protobuf : Protobuf value := {
  encode m x := existT m x;
  decode m w := as_message m w
}.

#[export] Instance tagged_protobuf_laws : ProtobufLaws value.
Proof. split. intros m x _. apply as_message_self. Qed.

(** A server is the dictionary of its paths. *)
#[export] Instance dict_server {H : Type} : ServerApi (dict H) H := {
  grpc_server := [];
  add_generic_rpc_handlers _ srv := srv;
  add_registered_method_handlers service hs srv := srv ++ paths service hs;
  handler_of srv path := dict_get path srv
}.

#[export] Instance dict_server_laws {H : Type} : ServerLaws (dict H) H.
Proof.
  split.
  - done.
  - intros service hs name h srv Hn Hg. simpl in *. by rewrite dict_get_app, Hn, paths_get.
  - intros service hs path srv Hp. simpl. rewrite dict_get_app.
    destruct (dict_get path srv); [done|]. by apply paths_get_other.
Qed.
End GrpcSim.
