(* ===== verification/ClientGrpc.v ===== *)
(** * The generated gRPC module of wpi_client (consumer/wpi_client/proto/wpi_pb2_grpc.py)

    The check made when the module is imported; for each service the stub, the base class
    of its servicers, the function that adds a servicer to a server, and the static methods
    of the experimental API. *)

From S2P Require Import Prelude PyMonad PyText PyDict Cuda Allocator NodeState Rpc.

Definition GRPC_GENERATED_VERSION : string := "1.78.1".

(** The module-level statements: [first_version_is_lower] is [None] when the function
    cannot be imported from [grpc._utilities]. *)
Definition check_version {S} (first_version_is_lower : option (string -> string -> bool))
    (GRPC_VERSION : string) : py S unit :=
  _version_not_supported ←
    (try: (lower ← py_some first_version_is_lower ImportError "cannot import name" ;
           mret (lower GRPC_VERSION GRPC_GENERATED_VERSION))
     except: is_ImportError as _ => mret true) ;
  py_when _version_not_supported
    (py_raise RuntimeError
       ("The grpc package installed is at version " +:+ GRPC_VERSION +:+ "," +:+
        " but the generated code in wpi_pb2_grpc.py depends on" +:+
        " grpcio>=" +:+ GRPC_GENERATED_VERSION +:+ "." +:+
        " Please upgrade your grpc module to grpcio>=" +:+ GRPC_GENERATED_VERSION +:+
        " or downgrade your generated code using grpcio-tools<=" +:+ GRPC_VERSION +:+ ".")).

Section generated.
Context {W C Wire Srv Ch Obj : Type} `{CudaApi W} `{GrpcContext C} `{Protobuf Wire}.
#[local] Abbreviation state := (Driver W C).
Context `{!ServerApi Srv (MethodHandler state Wire)}.

(** ** IdentityService *)

Definition IdentityServiceStub (channel : Ch) : dict (Multicallable Wire Ch) :=
  [ ("GetPluginInfo", unary_unary channel
      "/wpi.v1alpha1.IdentityService/GetPluginInfo"
      (SerializeToString wpi__pb2.GetPluginInfoRequest)
      (FromString wpi__pb2.GetPluginInfoResponse) true)
  ; ("GetPluginCapabilities", unary_unary channel
      "/wpi.v1alpha1.IdentityService/GetPluginCapabilities"
      (SerializeToString wpi__pb2.GetPluginCapabilitiesRequest)
      (FromString wpi__pb2.GetPluginCapabilitiesResponse) true) ].

Definition IdentityServiceServicer_GetPluginInfo : method state := fun _ =>
  set_code UNIMPLEMENTED ;;
  set_details "Method not implemented!" ;;
  py_raise NotImplementedError "Method not implemented!".

Definition IdentityServiceServicer_GetPluginCapabilities : method state := fun _ =>
  set_code UNIMPLEMENTED ;;
  set_details "Method not implemented!" ;;
  py_raise NotImplementedError "Method not implemented!".

Definition IdentityServiceServicer : dict (method state) :=
  [ ("GetPluginInfo", IdentityServiceServicer_GetPluginInfo)
  ; ("GetPluginCapabilities", IdentityServiceServicer_GetPluginCapabilities) ].

Definition add_IdentityServiceServicer_to_server (servicer : dict (method state)) : py Srv unit :=
  GetPluginInfo ← getattr servicer "GetPluginInfo" ;
  GetPluginCapabilities ← getattr servicer "GetPluginCapabilities" ;
  let rpc_method_handlers :=
     [ ("GetPluginInfo", unary_unary_rpc_method_handler GetPluginInfo
         (FromString wpi__pb2.GetPluginInfoRequest)
         (SerializeToString wpi__pb2.GetPluginInfoResponse))
     ; ("GetPluginCapabilities", unary_unary_rpc_method_handler GetPluginCapabilities
         (FromString wpi__pb2.GetPluginCapabilitiesRequest)
         (SerializeToString wpi__pb2.GetPluginCapabilitiesResponse)) ] in
  let generic_handler := method_handlers_generic_handler "wpi.v1alpha1.IdentityService" rpc_method_handlers in
  py_modify (add_generic_rpc_handlers [generic_handler]) ;;
  py_modify (add_registered_method_handlers "wpi.v1alpha1.IdentityService" rpc_method_handlers).

(** ** ControllerService *)

Definition ControllerServiceStub (channel : Ch) : dict (Multicallable Wire Ch) :=
  [ ("CreateWeightBuffer", unary_unary channel
      "/wpi.v1alpha1.ControllerService/CreateWeightBuffer"
      (SerializeToString wpi__pb2.CreateWeightBufferRequest)
      (FromString wpi__pb2.CreateWeightBufferResponse) true)
  ; ("AuthorizeTransfer", unary_unary channel
      "/wpi.v1alpha1.ControllerService/AuthorizeTransfer"
      (SerializeToString wpi__pb2.AuthorizeTransferRequest)
      (FromString wpi__pb2.AuthorizeTransferResponse) true)
  ; ("QueryTopology", unary_unary channel
      "/wpi.v1alpha1.ControllerService/QueryTopology"
      (SerializeToString wpi__pb2.QueryTopologyRequest)
      (FromString wpi__pb2.QueryTopologyResponse) true) ].

Definition ControllerServiceServicer_CreateWeightBuffer : method state := fun _ =>
  set_code UNIMPLEMENTED ;;
  set_details "Method not implemented!" ;;
  py_raise NotImplementedError "Method not implemented!".

Definition ControllerServiceServicer_AuthorizeTransfer : method state := fun _ =>
  set_code UNIMPLEMENTED ;;
  set_details "Method not implemented!" ;;
  py_raise NotImplementedError "Method not implemented!".

Definition ControllerServiceServicer_QueryTopology : method state := fun _ =>
  set_code UNIMPLEMENTED ;;
  set_details "Method not implemented!" ;;
  py_raise NotImplementedError "Method not implemented!".

Definition ControllerServiceServicer : dict (method state) :=
  [ ("CreateWeightBuffer", ControllerServiceServicer_CreateWeightBuffer)
  ; ("AuthorizeTransfer", ControllerServiceServicer_AuthorizeTransfer)
  ; ("QueryTopology", ControllerServiceServicer_QueryTopology) ].

Definition add_ControllerServiceServicer_to_server (servicer : dict (method state)) : py Srv unit :=
  CreateWeightBuffer ← getattr servicer "CreateWeightBuffer" ;
  AuthorizeTransfer ← getattr servicer "AuthorizeTransfer" ;
  QueryTopology ← getattr servicer "QueryTopology" ;
  let rpc_method_handlers :=
     [ ("CreateWeightBuffer", unary_unary_rpc_method_handler CreateWeightBuffer
         (FromString wpi__pb2.CreateWeightBufferRequest)
         (SerializeToString wpi__pb2.CreateWeightBufferResponse))
     ; ("AuthorizeTransfer", unary_unary_rpc_method_handler AuthorizeTransfer
         (FromString wpi__pb2.AuthorizeTransferRequest)
         (SerializeToString wpi__pb2.AuthorizeTransferResponse))
     ; ("QueryTopology", unary_unary_rpc_method_handler QueryTopology
         (FromString wpi__pb2.QueryTopologyRequest)
         (SerializeToString wpi__pb2.QueryTopologyResponse)) ] in
  let generic_handler := method_handlers_generic_handler "wpi.v1alpha1.ControllerService" rpc_method_handlers in
  py_modify (add_generic_rpc_handlers [generic_handler]) ;;
  py_modify (add_registered_method_handlers "wpi.v1alpha1.ControllerService" rpc_method_handlers).

(** ** NodeService *)

Definition NodeServiceStub (channel : Ch) : dict (Multicallable Wire Ch) :=
  [ ("NodeRegisterWeight", unary_unary channel
      "/wpi.v1alpha1.NodeService/NodeRegisterWeight"
      (SerializeToString wpi__pb2.NodeRegisterWeightRequest)
      (FromString wpi__pb2.NodeRegisterWeightResponse) true)
  ; ("NodeStageWeight", unary_unary channel
      "/wpi.v1alpha1.NodeService/NodeStageWeight"
      (SerializeToString wpi__pb2.NodeStageWeightRequest)
      (FromString wpi__pb2.NodeStageWeightResponse) true)
  ; ("NodeUnstageWeight", unary_unary channel
      "/wpi.v1alpha1.NodeService/NodeUnstageWeight"
      (SerializeToString wpi__pb2.NodeUnstageWeightRequest)
      (FromString wpi__pb2.NodeUnstageWeightResponse) true)
  ; ("NodePropagate", unary_unary channel
      "/wpi.v1alpha1.NodeService/NodePropagate"
      (SerializeToString wpi__pb2.NodePropagateRequest)
      (FromString wpi__pb2.NodePropagateResponse) true)
  ; ("NodeTranslateAndMap", unary_unary channel
      "/wpi.v1alpha1.NodeService/NodeTranslateAndMap"
      (SerializeToString wpi__pb2.NodeTranslateAndMapRequest)
      (FromString wpi__pb2.NodeTranslateAndMapResponse) true) ].

Definition NodeServiceServicer_NodeRegisterWeight : method state := fun _ =>
  set_code UNIMPLEMENTED ;;
  set_details "Method not implemented!" ;;
  py_raise NotImplementedError "Method not implemented!".

Definition NodeServiceServicer_NodeStageWeight : method state := fun _ =>
  set_code UNIMPLEMENTED ;;
  set_details "Method not implemented!" ;;
  py_raise NotImplementedError "Method not implemented!".

Definition NodeServiceServicer_NodeUnstageWeight : method state := fun _ =>
  set_code UNIMPLEMENTED ;;
  set_details "Method not implemented!" ;;
  py_raise NotImplementedError "Method not implemented!".

Definition NodeServiceServicer_NodePropagate : method state := fun _ =>
  set_code UNIMPLEMENTED ;;
  set_details "Method not implemented!" ;;
  py_raise NotImplementedError "Method not implemented!".

Definition NodeServiceServicer_NodeTranslateAndMap : method state := fun _ =>
  set_code UNIMPLEMENTED ;;
  set_details "Method not implemented!" ;;
  py_raise NotImplementedError "Method not implemented!".

Definition NodeServiceServicer : dict (method state) :=
  [ ("NodeRegisterWeight", NodeServiceServicer_NodeRegisterWeight)
  ; ("NodeStageWeight", NodeServiceServicer_NodeStageWeight)
  ; ("NodeUnstageWeight", NodeServiceServicer_NodeUnstageWeight)
  ; ("NodePropagate", NodeServiceServicer_NodePropagate)
  ; ("NodeTranslateAndMap", NodeServiceServicer_NodeTranslateAndMap) ].

Definition add_NodeServiceServicer_to_server (servicer : dict (method state)) : py Srv unit :=
  NodeRegisterWeight ← getattr servicer "NodeRegisterWeight" ;
  NodeStageWeight ← getattr servicer "NodeStageWeight" ;
  NodeUnstageWeight ← getattr servicer "NodeUnstageWeight" ;
  NodePropagate ← getattr servicer "NodePropagate" ;
  NodeTranslateAndMap ← getattr servicer "NodeTranslateAndMap" ;
  let rpc_method_handlers :=
     [ ("NodeRegisterWeight", unary_unary_rpc_method_handler NodeRegisterWeight
         (FromString wpi__pb2.NodeRegisterWeightRequest)
         (SerializeToString wpi__pb2.NodeRegisterWeightResponse))
     ; ("NodeStageWeight", unary_unary_rpc_method_handler NodeStageWeight
         (FromString wpi__pb2.NodeStageWeightRequest)
         (SerializeToString wpi__pb2.NodeStageWeightResponse))
     ; ("NodeUnstageWeight", unary_unary_rpc_method_handler NodeUnstageWeight
         (FromString wpi__pb2.NodeUnstageWeightRequest)
         (SerializeToString wpi__pb2.NodeUnstageWeightResponse))
     ; ("NodePropagate", unary_unary_rpc_method_handler NodePropagate
         (FromString wpi__pb2.NodePropagateRequest)
         (SerializeToString wpi__pb2.NodePropagateResponse))
     ; ("NodeTranslateAndMap", unary_unary_rpc_method_handler NodeTranslateAndMap
         (FromString wpi__pb2.NodeTranslateAndMapRequest)
         (SerializeToString wpi__pb2.NodeTranslateAndMapResponse)) ] in
  let generic_handler := method_handlers_generic_handler "wpi.v1alpha1.NodeService" rpc_method_handlers in
  py_modify (add_generic_rpc_handlers [generic_handler]) ;;
  py_modify (add_registered_method_handlers "wpi.v1alpha1.NodeService" rpc_method_handlers).

(** ** The experimental API *)

Section experimental.
Variables (request : value) (target : string) (options : list Obj)
  (channel_credentials call_credentials : option Obj) (insecure : bool)
  (compression : option Obj) (wait_for_ready : option bool) (timeout metadata : option Obj).

Definition IdentityService_GetPluginInfo : OneShot Wire Obj :=
  experimental_unary_unary request target
    "/wpi.v1alpha1.IdentityService/GetPluginInfo"
    (SerializeToString wpi__pb2.GetPluginInfoRequest)
    (FromString wpi__pb2.GetPluginInfoResponse)
    options channel_credentials insecure call_credentials compression wait_for_ready timeout metadata true.

Definition IdentityService_GetPluginCapabilities : OneShot Wire Obj :=
  experimental_unary_unary request target
    "/wpi.v1alpha1.IdentityService/GetPluginCapabilities"
    (SerializeToString wpi__pb2.GetPluginCapabilitiesRequest)
    (FromString wpi__pb2.GetPluginCapabilitiesResponse)
    options channel_credentials insecure call_credentials compression wait_for_ready timeout metadata true.

Definition ControllerService_CreateWeightBuffer : OneShot Wire Obj :=
  experimental_unary_unary request target
    "/wpi.v1alpha1.ControllerService/CreateWeightBuffer"
    (SerializeToString wpi__pb2.CreateWeightBufferRequest)
    (FromString wpi__pb2.CreateWeightBufferResponse)
    options channel_credentials insecure call_credentials compression wait_for_ready timeout metadata true.

Definition ControllerService_AuthorizeTransfer : OneShot Wire Obj :=
  experimental_unary_unary request target
    "/wpi.v1alpha1.ControllerService/AuthorizeTransfer"
    (SerializeToString wpi__pb2.AuthorizeTransferRequest)
    (FromString wpi__pb2.AuthorizeTransferResponse)
    options channel_credentials insecure call_credentials compression wait_for_ready timeout metadata true.

Definition ControllerService_QueryTopology : OneShot Wire Obj :=
  experimental_unary_unary request target
    "/wpi.v1alpha1.ControllerService/QueryTopology"
    (SerializeToString wpi__pb2.QueryTopologyRequest)
    (FromString wpi__pb2.QueryTopologyResponse)
    options channel_credentials insecure call_credentials compression wait_for_ready timeout metadata true.

Definition NodeService_NodeRegisterWeight : OneShot Wire Obj :=
  experimental_unary_unary request target
    "/wpi.v1alpha1.NodeService/NodeRegisterWeight"
    (SerializeToString wpi__pb2.NodeRegisterWeightRequest)
    (FromString wpi__pb2.NodeRegisterWeightResponse)
    options channel_credentials insecure call_credentials compression wait_for_ready timeout metadata true.

Definition NodeService_NodeStageWeight : OneShot Wire Obj :=
  experimental_unary_unary request target
    "/wpi.v1alpha1.NodeService/NodeStageWeight"
    (SerializeToString wpi__pb2.NodeStageWeightRequest)
    (FromString wpi__pb2.NodeStageWeightResponse)
    options channel_credentials insecure call_credentials compression wait_for_ready timeout metadata true.

Definition NodeService_NodeUnstageWeight : OneShot Wire Obj :=
  experimental_unary_unary request target
    "/wpi.v1alpha1.NodeService/NodeUnstageWeight"
    (SerializeToString wpi__pb2.NodeUnstageWeightRequest)
    (FromString wpi__pb2.NodeUnstageWeightResponse)
    options channel_credentials insecure call_credentials compression wait_for_ready timeout metadata true.

Definition NodeService_NodePropagate : OneShot Wire Obj :=
  experimental_unary_unary request target
    "/wpi.v1alpha1.NodeService/NodePropagate"
    (SerializeToString wpi__pb2.NodePropagateRequest)
    (FromString wpi__pb2.NodePropagateResponse)
    options channel_credentials insecure call_credentials compression wait_for_ready timeout metadata true.

Definition NodeService_NodeTranslateAndMap : OneShot Wire Obj :=
  experimental_unary_unary request target
    "/wpi.v1alpha1.NodeService/NodeTranslateAndMap"
    (SerializeToString wpi__pb2.NodeTranslateAndMapRequest)
    (FromString wpi__pb2.NodeTranslateAndMapResponse)
    options channel_credentials insecure call_credentials compression wait_for_ready timeout metadata true.

End experimental.
End generated.
