(* ===== verification/Serve.v ===== *)
(** * The driver as a server (driver/main.py)

    The two servicer classes on the handlers, serve(), which registers them and starts
    the gRPC server, and start_nccl_target_server(), which gives each connection of a
    source a thread that runs handle_target_connection. *)

From S2P Require Import Prelude PyMonad PyText PyDict Cuda Allocator NodeState Stage Unstage.
From S2P Require Import FdServer Notify Target Propagate Rpc DriverGrpc ClientGrpc PluginGrpc.

(** ** Servicers *)

Section services.
Context {W C : Type} `{CudaApi W} `{GrpcContext C} (env : Env) (dial : Z -> string -> option Conn).
#[local] Abbreviation state := (Driver W C).

(** The methods of class NodeService, on the fields of their requests. *)
Definition NodeService_methods : dict (method state) :=
  [ ("NodeStageWeight", method_of wpi__pb2.NodeStageWeightRequest wpi__pb2.NodeStageWeightResponse
       (NodeStageWeight env))
  ; ("NodeUnstageWeight", method_of wpi__pb2.NodeUnstageWeightRequest wpi__pb2.NodeUnstageWeightResponse
       NodeUnstageWeight)
  ; ("NodeRegisterWeight", method_of wpi__pb2.NodeRegisterWeightRequest wpi__pb2.NodeRegisterWeightResponse
       (fun request => NodeRegisterWeight (rq_buffer_id request)))
  ; ("NodePropagate", method_of wpi__pb2.NodePropagateRequest wpi__pb2.NodePropagateResponse
       (NodePropagate env dial))
  ; ("NodeTranslateAndMap", method_of wpi__pb2.NodeTranslateAndMapRequest
       wpi__pb2.NodeTranslateAndMapResponse NodeTranslateAndMap) ].

(** [class NodeService(wpi_pb2_grpc.NodeServiceServicer)]. *)
Definition NodeService : dict (method state) :=
  inherit DriverGrpc.NodeServiceServicer NodeService_methods.

Definition IdentityService_methods : dict (method state) :=
  [ ("GetPluginInfo", method_of wpi__pb2.GetPluginInfoRequest wpi__pb2.GetPluginInfoResponse
       (fun _ => mret GetPluginInfo))
  ; ("GetPluginCapabilities", method_of wpi__pb2.GetPluginCapabilitiesRequest
       wpi__pb2.GetPluginCapabilitiesResponse (fun _ => mret GetPluginCapabilities)) ].

(** [class IdentityService(wpi_pb2_grpc.IdentityServiceServicer)]. *)
Definition IdentityService : dict (method state) :=
  inherit DriverGrpc.IdentityServiceServicer IdentityService_methods.
End services.

(** ** serve *)

(** The machine as far as serve() needs it: which addresses can be bound, and whether the
    mode of the socket file can be changed. *)
Record ServeEnv : Type := { can_bind : string -> bool; can_chmod : string -> bool }.

(** The process: the state of the driver, the gRPC server with its ports, whether it was
    started, and the files whose mode was set. *)
Record Process (W C Srv : Type) : Type := mk_Process {
  driver : Driver W C;
  server : Srv;
  ports : list string;
  started : bool;
  chmods : list (string * Z)
}.
Arguments mk_Process {W C Srv}.
Arguments driver {W C Srv}.
Arguments server {W C Srv}.
Arguments ports {W C Srv}.
Arguments started {W C Srv}.
Arguments chmods {W C Srv}.

Section serve.
Context {W C Wire Srv : Type} `{CudaApi W} `{GrpcContext C} `{Protobuf Wire}.
Context `{!ServerApi Srv (MethodHandler (Driver W C) Wire)}.
Context (senv : ServeEnv) (env : Env) (dial : Z -> string -> option Conn).
#[local] Abbreviation process := (Process W C Srv).

Definition on_driver {A} (m : py (Driver W C) A) : py process A :=
  py_zoom driver (fun d p => mk_Process d (server p) (ports p) (started p) (chmods p)) m.

Definition on_server {A} (m : py Srv A) : py process A :=
  py_zoom server (fun srv p => mk_Process (driver p) srv (ports p) (started p) (chmods p)) m.

(** [server.add_insecure_port(address)]. *)
Definition add_insecure_port (address : string) : py process unit :=
  if can_bind senv address then
    py_modify (fun p => mk_Process (driver p) (server p) (ports p ++ [address]) (started p) (chmods p))
  else py_raise RuntimeError
    ("Failed to bind to address " +:+ address +:+
     "; set GRPC_VERBOSITY=debug environment variable to see detailed error message.").

Definition start : py process unit :=
  py_modify (fun p => mk_Process (driver p) (server p) (ports p) true (chmods p)).

Definition os_chmod (path : string) (mode : Z) : py process unit :=
  if can_chmod senv path then
    py_modify (fun p => mk_Process (driver p) (server p) (ports p) (started p) (chmods p ++ [(path, mode)]))
  else py_raise OSError "[Errno 1] Operation not permitted".

Definition serve : py process unit :=
  on_driver (py_modify (add_thread NcclTargetServer)) ;;
  on_server (py_modify (fun _ => grpc_server)) ;;
  on_server (DriverGrpc.add_NodeServiceServicer_to_server (NodeService env dial)) ;;
  on_server (DriverGrpc.add_IdentityServiceServicer_to_server IdentityService) ;;
  add_insecure_port "[::]:50051" ;;
  add_insecure_port "unix:///run/wpi/sockets/wpi-grpc.sock" ;;
  start ;;
  (try: os_chmod "/run/wpi/sockets/wpi-grpc.sock" 511
   except: is_Exception as _ => mret tt) ;;
  (** [server.wait_for_termination()] *)
  py_stuck.
End serve.

(** ** start_nccl_target_server *)

(** A turn of the accept loop: a connection with a thread for it, a connection for which
    no thread can be started, or an error of [accept]. *)
Inductive accept_event : Type :=
  | Accepted (conn : nat)
  | NoThread (conn : nat)
  | AcceptFails (e : exn).

Section target_server.
Context {W C : Type} `{CudaApi W} `{GrpcContext C} (env : Env).
#[local] Abbreviation state := (Driver W C).

(** [server.accept()], and the thread for the connection. *)
Definition accept_target (ev : accept_event) : py state unit :=
  match ev with
  | Accepted conn => py_modify (add_thread (TargetConnection conn))
  | NoThread _ => py_raise RuntimeError "can't start new thread"
  | AcceptFails e => py_reraise e
  end.

(** The socket calls before the loop fail with [bind] (the port is in use), or not; the
    loop runs over the turns that happened so far. *)
Definition start_nccl_target_server (bind : option exn) (events : list accept_event) : py state unit :=
  match bind with
  | Some e => py_reraise e
  | None =>
      py_for events (fun ev =>
        try: accept_target ev except: is_Exception as _ => mret tt)
  end.

(** The connections that got a thread. *)
Definition accepted_conns (events : list accept_event) : list nat :=
  omap (fun ev => match ev with Accepted conn => Some conn | _ => None end) events.

(** The threads of the connections, run in some order; a thread that never ends leaves
    what it did so far and does not hold up the others. *)
Definition run_targets (fuel : nat) (order : list nat) (s : state) : state :=
  foldl (fun s conn => (handle_target_connection env fuel conn s).2) s order.
End target_server.

(** ** What the server promises *)

(** A method of the driver: its service and name, its messages, and the handler. *)
Record served_method (S : Type) : Type := mk_served {
  sm_service : string;
  sm_name : string;
  sm_request : wpi__pb2.message;
  sm_response : wpi__pb2.message;
  sm_run : payload sm_request -> py S (payload sm_response)
}.
Arguments mk_served {S}.
Arguments sm_service {S}.
Arguments sm_name {S}.
Arguments sm_request {S}.
Arguments sm_response {S}.
Arguments sm_run {S}.

Definition NODE : string := "wpi.v1alpha1.NodeService".
Definition IDENTITY : string := "wpi.v1alpha1.IdentityService".
Definition CONTROLLER : string := "wpi.v1alpha1.ControllerService".

Section spec.
Context {W C : Type} `{CudaApi W} `{GrpcContext C} (env : Env) (dial : Z -> string -> option Conn).

Definition driver_methods : list (served_method (Driver W C)) :=
  [ mk_served NODE "NodeRegisterWeight" wpi__pb2.NodeRegisterWeightRequest
      wpi__pb2.NodeRegisterWeightResponse (fun r => NodeRegisterWeight (rq_buffer_id r))
  ; mk_served NODE "NodeStageWeight" wpi__pb2.NodeStageWeightRequest
      wpi__pb2.NodeStageWeightResponse (NodeStageWeight env)
  ; mk_served NODE "NodeUnstageWeight" wpi__pb2.NodeUnstageWeightRequest
      wpi__pb2.NodeUnstageWeightResponse NodeUnstageWeight
  ; mk_served NODE "NodePropagate" wpi__pb2.NodePropagateRequest
      wpi__pb2.NodePropagateResponse (NodePropagate env dial)
  ; mk_served NODE "NodeTranslateAndMap" wpi__pb2.NodeTranslateAndMapRequest
      wpi__pb2.NodeTranslateAndMapResponse NodeTranslateAndMap
  ; mk_served IDENTITY "GetPluginInfo" wpi__pb2.GetPluginInfoRequest
      wpi__pb2.GetPluginInfoResponse (fun _ => mret GetPluginInfo)
  ; mk_served IDENTITY "GetPluginCapabilities" wpi__pb2.GetPluginCapabilitiesRequest
      wpi__pb2.GetPluginCapabilitiesResponse (fun _ => mret GetPluginCapabilities) ].
End spec.

(** The stubs that the three copies of the generated module make of a channel. *)
Definition stubs {Wire Ch : Type} `{Protobuf Wire} (ch : Ch) : list (dict (dict (Multicallable Wire Ch))) :=
  [ [ (NODE, DriverGrpc.NodeServiceStub ch); (IDENTITY, DriverGrpc.IdentityServiceStub ch);
      (CONTROLLER, DriverGrpc.ControllerServiceStub ch) ]
  ; [ (NODE, ClientGrpc.NodeServiceStub ch); (IDENTITY, ClientGrpc.IdentityServiceStub ch);
      (CONTROLLER, ClientGrpc.ControllerServiceStub ch) ]
  ; [ (NODE, PluginGrpc.NodeServiceStub ch); (IDENTITY, PluginGrpc.IdentityServiceStub ch);
      (CONTROLLER, PluginGrpc.ControllerServiceStub ch) ] ].

(** ** Lemmas: registration *)

Section registration.
Context {W C Wire Srv Ch : Type} `{CudaApi W} `{GrpcContext C} `{Protobuf Wire}.
Context `{!ServerApi Srv (MethodHandler (Driver W C) Wire)} `{!ServerLaws Srv (MethodHandler (Driver W C) Wire)}.
Context (env : Env) (dial : Z -> string -> option Conn).
#[local] Abbreviation state := (Driver W C).
#[local] Abbreviation handler := (MethodHandler state Wire).

Definition handler_for (sm : served_method state) : handler :=
  mk_MethodHandler (method_of (sm_request sm) (sm_response sm) (sm_run sm))
    (FromString (sm_request sm)) (SerializeToString (sm_response sm)).

(** The dictionary of the handlers of a service. *)
Definition handlers_of (service : string) (l : list (served_method state)) : dict handler :=
  (fun sm => (sm_name sm, handler_for sm)) <$> filter (fun sm => sm_service sm = service) l.

Definition with_service (service : string) (hs : dict handler) (srv : Srv) : Srv :=
  add_registered_method_handlers service hs (add_generic_rpc_handlers [(service, hs)] srv).

(** The server that serve() starts. *)
Definition driver_server : Srv :=
  with_service IDENTITY (handlers_of IDENTITY (driver_methods env dial))
    (with_service NODE (handlers_of NODE (driver_methods env dial)) grpc_server).

Lemma add_node_run srv :
  DriverGrpc.add_NodeServiceServicer_to_server (NodeService env dial) srv =
    (Ret tt, with_service NODE (handlers_of NODE (driver_methods env dial)) srv).
Proof. reflexivity. Qed.

Lemma add_identity_run srv :
  DriverGrpc.add_IdentityServiceServicer_to_server IdentityService srv =
    (Ret tt, with_service IDENTITY (handlers_of IDENTITY (driver_methods env dial)) srv).
Proof. reflexivity. Qed.

Lemma node_not_identity a b : qualified NODE a <> qualified IDENTITY b.
Proof. unfold qualified. simpl. discriminate. Qed.

(** Every method of the driver has its handler, under its path. *)
Lemma driver_server_handlers sm :
  sm ∈ driver_methods env dial ->
  handler_of driver_server (qualified (sm_service sm) (sm_name sm)) = Some (handler_for sm).
Proof.
  intros Hin. unfold driver_server, with_service.
  repeat (apply elem_of_cons in Hin as [->|Hin]); [| | | | | | |by apply elem_of_nil in Hin].
  1-5: rewrite law_server_others by (intros; apply node_not_identity);
       by apply law_server_added; [apply law_server_empty|].
  all: apply law_server_added; [|done].
  all: rewrite law_server_others by (intros ? _ E; by apply (eq_sym) in E; apply node_not_identity in E).
  all: apply law_server_empty.
Qed.

(** No other service has a path. *)
Lemma driver_server_controller name : handler_of driver_server (qualified CONTROLLER name) = None.
Proof.
  unfold driver_server, with_service.
  do 2 (rewrite law_server_others by (intros; unfold qualified; simpl; discriminate)).
  apply law_server_empty.
Qed.

(** The stubs of the three copies use the paths and the messages of the methods. *)
Lemma stubs_agree (ch : Ch) st sm :
  st ∈ stubs (Wire:=Wire) ch -> sm ∈ driver_methods env dial ->
  exists stub, dict_get (sm_service sm) st = Some stub /\
    dict_get (sm_name sm) stub = Some (mk_Multicallable ch (qualified (sm_service sm) (sm_name sm))
      (SerializeToString (sm_request sm)) (FromString (sm_response sm)) true).
Proof.
  intros Hst Hsm.
  repeat (apply elem_of_cons in Hst as [->|Hst]); try (by apply elem_of_nil in Hst).
  all: repeat (apply elem_of_cons in Hsm as [->|Hsm]); try (by apply elem_of_nil in Hsm).
  all: eexists; split; reflexivity.
Qed.
End registration.

Section typed.
Context {W C : Type} `{CudaApi W} `{GrpcContext C} (env : Env) (dial : Z -> string -> option Conn).

Lemma rpc_ok_inv {A} (f : py (Driver W C) A) s a s' :
  rpc f s = (RpcOk a, s') -> exists s1, f (set_context ctx_new s) = (Ret a, s1).
Proof.
  unfold rpc. destruct (f _) as [[b|e|] s1]; simpl; [|intros E; by destruct (ctx_status _) as [[]|]|done].
  destruct (ctx_status _) as [[]|]; intros E; simplify_eq. by eexists.
Qed.

Lemma path_utf8 claim_id : valid_utf8 claim_id = true ->
  valid_utf8 (os_path_join SOCKET_DIR (claim_id +:+ ".sock")) = true.
Proof.
  intros Hc. assert (valid_utf8 (claim_id +:+ ".sock") = true) as Hs.
  { by apply valid_utf8_app. }
  unfold os_path_join. destruct (startswith _ _); [done|]. exact Hs.
Qed.

(** A handler that returns builds a message that can be sent. *)
Lemma responses_ok sm (x : payload (sm_request sm)) s y s' :
  sm ∈ driver_methods env dial -> msg_ok (sm_request sm) x = true ->
  rpc (sm_run sm x) s = (RpcOk y, s') -> msg_ok (sm_response sm) y = true.
Proof.
  intros Hin Hx Hr. apply rpc_ok_inv in Hr as [s1 Hr].
  repeat (apply elem_of_cons in Hin as [E|Hin]; [subst sm|]); try (by apply elem_of_nil in Hin);
    try reflexivity; simpl in *.
  - unfold NodeRegisterWeight in Hr. ret_inv Hr. injection Hr as <- _. apply valid_utf8_str_of_Z.
  - injection Hr as <- _. by apply path_utf8.
  - by injection Hr as <- _.
Qed.
End typed.

(** ** Lemmas: threads of other connections *)

Section frames.
Context {W C : Type} `{CudaApi W} `{GrpcContext C} (env : Env).
#[local] Abbreviation state := (Driver W C).
Implicit Types (s : state).

(** Every buffer lists its consumers once; no consumer is one of the sockets [J], and each
    has room for [k] lines of a notification. *)
Definition roomy (J : list nat) (k : nat) s : Prop :=
  forall id b, dict_get id (ALLOCATED_BUFFERS s) = Some b ->
    NoDup (bi_notify_sockets b) /\
    forall i, i ∈ bi_notify_sockets b -> (i ∉ J) /\
      forall c n, conns s !! i = Some c -> room c = Some n -> Z.of_nat k * blen (line "PRE_UPDATE") <= n.

(** What the other connections leave alone: the socket [i], the allocator, the calls made
    so far, the addresses and the sizes of the buffers. *)
Definition alike (i : nat) s s' : Prop :=
  conns s' !! i = conns s !! i /\ cuda_allocator s' = cuda_allocator s /\
  (exists l, nccl_log s' = nccl_log s ++ l) /\
  forall id b, dict_get id (ALLOCATED_BUFFERS s) = Some b ->
    exists b', dict_get id (ALLOCATED_BUFFERS s') = Some b' /\
      bi_device_ptr b' = bi_device_ptr b /\ bi_size_bytes b' = bi_size_bytes b.

(** The calls are in the log, one after the other. *)
Definition logged (ops : list nccl_op) s : Prop := exists l1 l2, nccl_log s = l1 ++ ops ++ l2.

Lemma alike_refl i s : alike i s s.
Proof. split_and!; try done; [exists []; by rewrite app_nil_r|eauto]. Qed.

Lemma alike_trans i s1 s2 s3 : alike i s1 s2 -> alike i s2 s3 -> alike i s1 s3.
Proof.
  intros (Hc & Ha & [l Hl] & Hb) (Hc' & Ha' & [l' Hl'] & Hb'). split_and!; [congruence..| |].
  - exists (l ++ l'). by rewrite Hl', Hl, app_assoc.
  - intros id b Hid. destruct (Hb id b Hid) as (b1 & Hg1 & ? & ?).
    destruct (Hb' id b1 Hg1) as (b2 & Hg2 & ? & ?). exists b2. split_and!; congruence.
Qed.

Lemma roomy_less J k s : roomy J (S k) s -> roomy J k s.
Proof.
  intros Hr id b Hb. destruct (Hr id b Hb) as [Hnd Hi]. split; [done|]. intros i Hin.
  destruct (Hi i Hin) as [HJ Hn]. split; [done|]. intros c n Hc Hrm. specialize (Hn c n Hc Hrm). unfold blen in *. lia.
Qed.

Lemma roomy_room J k s id b msg i :
  roomy J (S k) s -> dict_get id (ALLOCATED_BUFFERS s) = Some b -> i ∈ bi_notify_sockets b ->
  blen msg <= Z.of_nat (S k) * blen (line "PRE_UPDATE") -> sock_room msg (conns s) i = true.
Proof.
  intros Hr Hb Hi Hlen. destruct (Hr id b Hb) as [_ Hn]. destruct (Hn i Hi) as [_ Hc].
  unfold sock_room, has_room. destruct (conns s !! i) as [c|]; [|done]. destruct (room c) as [n|] eqn:En; [|done].
  specialize (Hc c n eq_refl En). zify_bools. lia.
Qed.

(** A notification takes the room of a line. *)
Lemma notified J i k id msg s :
  i ∈ J -> blen msg <= 11 -> roomy J (S k) s ->
  roomy J k (notify_consumers id msg s).2 /\ alike i s (notify_consumers id msg s).2.
Proof.
  intros Hi Hmsg Hr. destruct (dict_get id (ALLOCATED_BUFFERS s)) as [b|] eqn:Hb.
  2: { unfold notify_consumers, get_buffer. rewrite !bind_unfold. simpl. rewrite Hb.
       split; [by apply roomy_less|apply alike_refl]. }
  destruct (Hr id b Hb) as [Hnd Hcons].
  destruct (notify_consumers_run id msg b s Hb Hnd) as (d & -> & Hd & Ho & _).
  { intros j Hj. eapply roomy_room; [done..|]. change (blen (line "PRE_UPDATE")) with 11. lia. }
  assert (forall id' b', dict_get id' d = Some b' -> exists b0, dict_get id' (ALLOCATED_BUFFERS s) = Some b0 /\
    bi_notify_sockets b' ⊆ bi_notify_sockets b0 /\ NoDup (bi_notify_sockets b')) as Hsub.
  { intros id' b' Hb'. destruct (decide (id' = id)) as [->|Hne].
    - rewrite Hd in Hb'. injection Hb' as <-. exists b. split; [done|]. simpl.
      split; [|by apply NoDup_filter]. intros j [_ Hj]%list_elem_of_filter. done.
    - rewrite Ho in Hb' by done. exists b'. split; [done|]. split; [done|]. by apply (Hr id' b'). }
  split.
  - intros id' b' Hb'. simpl in Hb'. destruct (Hsub id' b' Hb') as (b0 & Hb0 & Hin & Hnd').
    split; [done|]. intros j Hj. destruct (Hr id' b0 Hb0) as [_ Hc]. destruct (Hc j (Hin j Hj)) as [HJ Hn].
    split; [done|]. intros c n. simpl. rewrite deliver_all_lookup by done.
    change (blen (line "PRE_UPDATE")) with 11 in *.
    case_bool_decide; destruct (conns s !! j) as [c0|]; simpl; intros [= <-] Hrm.
    + unfold deliver in Hrm. destruct (conn_alive c0).
      * simpl in Hrm. unfold spend in Hrm. destruct (room c0) as [n0|] eqn:En; [|done]. injection Hrm as <-.
        specialize (Hn c0 n0 eq_refl En). lia.
      * specialize (Hn c0 n eq_refl Hrm). lia.
    + specialize (Hn c0 n eq_refl Hrm). lia.
  - split_and!; try done.
    + simpl. rewrite deliver_all_lookup, bool_decide_eq_false_2; [done| |done].
      intros Hin. by apply (Hcons i Hin).
    + exists []. by rewrite app_nil_r.
    + intros id' b' Hb'. simpl. destruct (decide (id' = id)) as [->|Hne].
      * rewrite Hb in Hb'. injection Hb' as <-. eexists. split; [exact Hd|]. done.
      * rewrite Ho by done. eauto.
Qed.

(** A change of a socket in [J] keeps the rooms. *)
Lemma roomy_conns J k f s :
  (forall i, i ∉ J -> f (conns s) !! i = conns s !! i) -> roomy J k s -> roomy J k (set_conns f s).
Proof.
  intros Hf Hr id b Hb. destruct (Hr id b Hb) as [Hnd Hi]. split; [done|]. intros i Hin.
  destruct (Hi i Hin) as [HJ Hn]. split; [done|]. intros c n. simpl. rewrite Hf by done. apply Hn.
Qed.

Lemma alike_conns i f s : f (conns s) !! i = conns s !! i -> alike i s (set_conns f s).
Proof. intros Hf. split_and!; try done; [exists []; by rewrite app_nil_r|eauto]. Qed.

(** The thread of a connection [j] in [J]: it uses the room of two lines, and leaves the
    other connections alone. *)
Lemma thread_run J i j fuel k s :
  i ∈ J -> j ∈ J -> roomy J (S (S k)) s ->
  let s' := (handle_target_connection env fuel j s).2 in
  roomy J k s' /\ (j <> i -> alike i s s').
Proof.
  intros Hi Hj Hr.
  refine (takes_target env (fun k s' => roomy J k s' /\ (j <> i -> alike i s s')) j _ _ _ _ _ fuel k s _).
  - intros k' s' [HI1 HI2]. split; [by apply roomy_less|done].
  - intros k' A f s' [HI1 HI2]. unfold on_conn. destruct (conns s' !! j) as [c|]; [|done].
    destruct (f c) as [r c']. split.
    + apply roomy_conns; [|done]. intros i' Hi'. rewrite lookup_insert_ne; [done|by intros ->].
    + intros Hne. eapply alike_trans; [by apply HI2|]. apply alike_conns. by rewrite lookup_insert_ne.
  - intros k' s' [HI1 HI2]. split.
    + apply roomy_conns; [|done]. intros i' Hi'. rewrite lookup_alter_ne; [done|by intros ->].
    + intros Hne. eapply alike_trans; [by apply HI2|]. apply alike_conns. by rewrite lookup_alter_ne.
  - intros k' op s' [HI1 HI2]. split; [exact HI1|]. intros Hne. eapply alike_trans; [by apply HI2|].
    split_and!; try done; [by exists [op]|eauto].
  - intros k' id msg Hmsg s' [HI1 HI2]. destruct (notified J i k' id msg s' Hi Hmsg HI1) as [HI3 HI4].
    split; [done|]. intros Hne. eapply alike_trans; [by apply HI2|done].
  - split; [done|]. intros _. apply alike_refl.
Qed.

(** Threads of other connections, one after the other. *)
Lemma threads_run J i fuel order k s :
  i ∈ J -> order ⊆ J -> i ∉ order -> roomy J (2 * length order + k) s ->
  roomy J k (run_targets env fuel order s) /\ alike i s (run_targets env fuel order s).
Proof.
  intros Hi. revert s. induction order as [|j order IH]; intros s Hsub Hno Hr.
  - split; [exact Hr|apply alike_refl].
  - simpl length in Hr. replace (2 * S (length order) + k)%nat with (S (S (2 * length order + k))) in Hr by lia.
    destruct (thread_run J i j fuel _ s Hi ltac:(set_solver) Hr) as [HI1 HI2].
    destruct (IH (handle_target_connection env fuel j s).2 ltac:(set_solver) ltac:(set_solver) HI1) as [HI3 HI4].
    split; [exact HI3|]. eapply alike_trans; [apply HI2; set_solver|exact HI4].
Qed.
End frames.

(** A call through a stub of any copy, on the server of the driver. *)
Lemma stub_call {W C Wire Srv Ch : Type} `{CudaApi W} `{GrpcContext C}
    `{Protobuf Wire} `{!ProtobufLaws Wire}
    `{!ServerApi Srv (MethodHandler (Driver W C) Wire)} `{!ServerLaws Srv (MethodHandler (Driver W C) Wire)}
    (env : Env) (dial : Z -> string -> option Conn) (ch : Ch) st sm :
  st ∈ stubs (Wire:=Wire) ch -> sm ∈ driver_methods (W:=W) (C:=C) env dial ->
  exists stub mc, dict_get (sm_service sm) st = Some stub /\ dict_get (sm_name sm) stub = Some mc /\
    forall x s, msg_ok (sm_request sm) x = true ->
      call (driver_server env dial : Srv) mc (existT (sm_request sm) x) s =
        (rpc_map (existT (sm_response sm)) (rpc (sm_run sm x) s).1, (rpc (sm_run sm x) s).2).
Proof.
  intros Hin Hsm.
  destruct (stubs_agree (Wire:=Wire) env dial ch st sm Hin Hsm) as (stub & Estub & Emc).
  exists stub. eexists. split; [done|]. split; [exact Emc|]. intros x s Hx.
  apply call_typed; [by apply driver_server_handlers|done|].
  intros y s' Hr. by eapply responses_ok.
Qed.

(** The accept loop adds the threads and nothing else. *)
Lemma accept_run {W C : Type} events (s : Driver W C) :
  exists s', start_nccl_target_server None events s = (Ret tt, s') /\
    threads s' = threads s ++ (TargetConnection <$> accepted_conns events) /\
    s' = mk_Driver (ALLOCATED_BUFFERS s) (KNOWN_CLAIMS s) (cuda_allocator s) (files s) (threads s')
           (conns s) (closed_fds s) (nccl_log s) (rpc_context s).
Proof.
  revert s. unfold start_nccl_target_server. induction events as [|ev events IH]; intros s.
  - exists s. split; [done|]. split; [by rewrite app_nil_r|by destruct s].
  - cbn [py_for]. rewrite bind_unfold. destruct ev as [conn|conn|e]; simpl.
    + destruct (IH (add_thread (TargetConnection conn) s)) as (s' & -> & Ht & Hs').
      exists s'. split; [done|]. split; [by rewrite Ht; simpl; rewrite <- app_assoc|exact Hs'].
    + apply IH.
    + apply IH.
Qed.

(** ** Properties *)

Section properties.
Context {W C Wire Srv Ch : Type} `{CudaApi W} `{GrpcContext C} `{!GrpcLaws C}.
Context `{Protobuf Wire} `{!ProtobufLaws Wire}.
Context `{!ServerApi Srv (MethodHandler (Driver W C) Wire)} `{!ServerLaws Srv (MethodHandler (Driver W C) Wire)}.
Context (senv : ServeEnv) (env : Env) (dial : Z -> string -> option Conn).
Implicit Types (s : Driver W C) (p : Process W C Srv) (ch : Ch).

(** C8: when both addresses can be bound, serve() starts the target server's thread and
    the gRPC server and then waits for ever; from then on a call of any method of the
    driver, from a stub of any of the three copies of the generated module, with a request
    that can be sent, is the run of the handler of that method on the request: the client
    gets the status or the response of the handler, and never an error of encoding,
    decoding or dispatch. *)
Theorem serve_answers p ch :
  (forall address, can_bind senv address = true) ->
  exists p',
    serve senv env dial p = (Stuck, p') /\ started p' = true /\
    ports p' = ports p ++ ["[::]:50051"; "unix:///run/wpi/sockets/wpi-grpc.sock"] /\
    driver p' = add_thread NcclTargetServer (driver p) /\
    forall st sm, st ∈ stubs (Wire:=Wire) ch -> sm ∈ driver_methods env dial ->
      exists stub mc, dict_get (sm_service sm) st = Some stub /\ dict_get (sm_name sm) stub = Some mc /\
        forall x s, msg_ok (sm_request sm) x = true ->
          call (server p') mc (existT (sm_request sm) x) s =
            (rpc_map (existT (sm_response sm)) (rpc (sm_run sm x) s).1, (rpc (sm_run sm x) s).2).
Proof.
  intros Hbind.
  assert (exists p', serve senv env dial p = (Stuck, p') /\ started p' = true /\
    ports p' = ports p ++ ["[::]:50051"; "unix:///run/wpi/sockets/wpi-grpc.sock"] /\
    driver p' = add_thread NcclTargetServer (driver p) /\ server p' = driver_server env dial)
    as (p' & E & Hst & Hp & Hd & Hsrv).
  { unfold serve. do 2 (rewrite bind_unfold; simpl).
    rewrite bind_unfold. unfold on_server, py_zoom at 1. rewrite (add_node_run env dial). cbn [server].
    rewrite bind_unfold. unfold py_zoom at 1. rewrite (add_identity_run env dial). cbn [server].
    unfold add_insecure_port. rewrite !Hbind. do 3 (rewrite bind_unfold; simpl).
    rewrite bind_unfold. unfold os_chmod, py_except. rewrite <- app_assoc.
    destruct (can_chmod senv _); eexists; by repeat split. }
  exists p'. split_and!; try done. intros st sm Hin Hsm. rewrite Hsrv. by apply (stub_call env dial ch).
Qed.

(** The driver serves no ControllerService: a call of any of its methods, from any
    copy of the stubs, ends with UNIMPLEMENTED and leaves the driver as it was. *)
Theorem controller_not_served ch st stub name mc x s :
  st ∈ stubs (Wire:=Wire) ch -> dict_get CONTROLLER st = Some stub -> dict_get name stub = Some mc ->
  is_Some (request_serializer mc x) ->
  call (driver_server env dial : Srv) mc x s = (RpcFailed UNIMPLEMENTED "Method not found!", s).
Proof.
  intros Hst Hstub Hmc Hx. apply call_unknown; [|done].
  assert (mc_path mc = qualified CONTROLLER name) as ->; [|apply driver_server_controller].
  repeat (apply elem_of_cons in Hst as [->|Hst]); try (by apply elem_of_nil in Hst).
  all: simpl in Hstub; injection Hstub as <-; simpl in Hmc;
    repeat case_decide; by simplify_eq.
Qed.

End properties.

Section liveness.
Context {W C : Type} `{CudaApi W} `{GrpcContext C} (env : Env).
Implicit Types (s : Driver W C).

(** C7: every connection that the target server accepts gets a thread, whatever errors
    come in between; and a well-formed request on one of them is served in every order in
    which the threads run, and whatever the peers on the other connections send: the
    communicator is joined, the receiving call is made, the source gets its OK. The
    consumers have room for the two lines that each connection can give them, and are not
    themselves connections of the target server. *)
Theorem target_server_serves fuel events conn c id ws rank mode o l nccl_id b a order s :
  ready_target env fuel conn c id nccl_id b a s ->
  request_arrived id ws rank mode o l nccl_id c ->
  roomy (accepted_conns events) (2 * length (accepted_conns events)) s ->
  NoDup (accepted_conns events) -> conn ∈ accepted_conns events ->
  order ≡ₚ accepted_conns events ->
  let op := if (mode =? 1) && (0 <? l) then NcclRecv (bi_device_ptr b + o) (l / 2) 0
            else NcclBcast (bi_device_ptr b) (bi_size_bytes b / 2) 0 in
  exists s1,
    start_nccl_target_server None events s = (Ret tt, s1) /\
    threads s1 = threads s ++ (TargetConnection <$> accepted_conns events) /\
    conns (run_targets env fuel order s1) !! conn =
      Some (mk_Conn [] (eof c) (spend (line "OK") c) (outbox c +:+ line "OK") (passed_fds c) true) /\
    logged [NcclInit ws nccl_id rank; op] (run_targets env fuel order s1).
Proof.
  intros Hready Hreq Hroomy Hnd Hin Hperm op. set (J := accepted_conns events) in *.
  destruct (accept_run events s) as (s1 & E & Hth & Hs1). exists s1. split; [done|]. split; [done|].
  assert (NoDup order) as Hnd' by (by rewrite Hperm).
  assert (order ⊆ J) as Hsub by (intros j; by rewrite Hperm).
  rewrite <- (Permutation_length Hperm) in Hroomy.
  assert (conn ∈ order) as Hin' by (by rewrite Hperm).
  apply list_elem_of_split in Hin' as (l1 & l2 & ->).
  apply NoDup_app in Hnd' as (_ & Hd1 & Hnd2). apply NoDup_cons in Hnd2 as [Hd2 _].
  assert (conn ∉ l1) as Hd1' by (intros Hc; apply (Hd1 _ Hc); set_solver).
  destruct Hready as [Hc Halive Hrm Hid Hv Hn Hf Hb Hndb Hrooms Hconn Hcupy Ha Hnccl].
  destruct (threads_run env J conn fuel l1 (S (S (2 * length l2 + 0))) s1 Hin) as [Hr1 (Hc1 & Ha1 & _ & Hb1)];
    [set_solver|done| |].
  { rewrite length_app in Hroomy. simpl in Hroomy. rewrite Hs1.
    replace (2 * length l1 + S (S (2 * length l2 + 0)))%nat with (2 * (length l1 + S (length l2)))%nat by lia.
    exact Hroomy. }
  rewrite Hs1 in Hc1, Ha1, Hb1. simpl in Hc1, Ha1, Hb1. rewrite <- Hs1 in Hc1, Ha1, Hb1.
  destruct (Hb1 id b Hb) as (b1 & Hid1 & Hp1 & Hz1). destruct (Hr1 id b1 Hid1) as [Hndb1 Hcb1].
  destruct (target_served env fuel conn c id ws rank mode o l nccl_id b1 a
    (run_targets env fuel l1 s1)) as (s2 & E2 & Hlog & Hc2 & _); [|done|].
  { split; try done; [by rewrite Hc1| | |by rewrite Ha1].
    - intros i Hi. eapply roomy_room; [exact Hr1|done|done|].
      change (blen (line "PRE_UPDATE" +:+ line "READY")) with 17. change (blen (line "PRE_UPDATE")) with 11. lia.
    - intros Hi. by apply (Hcb1 conn Hi). }
  unfold run_targets. rewrite foldl_app. fold (run_targets env fuel l1 s1). simpl. rewrite E2. simpl.
  fold (run_targets env fuel l2 s2).
  rewrite Hp1, Hz1 in Hlog. fold op in Hlog.
  pose proof (thread_run env J conn conn fuel _ _ Hin Hin Hr1) as [Hr2 _]. rewrite E2 in Hr2.
  destruct (threads_run env J conn fuel l2 0 s2 Hin) as [_ (Hc3 & _ & [l3 Hl3] & _)]; [set_solver|done..|].
  split; [by rewrite Hc3|]. eexists _, l3. rewrite Hl3, Hlog, <- app_assoc. reflexivity.
Qed.
End liveness.

(** ** Witnesses *)

Import GrpcSim.

Module ServeDemo.

#[local] Abbreviation context := (option (status_code * string)).
#[local] Abbreviation Srv := (dict (MethodHandler (Driver Sim.sim context) value)).

Definition senv : ServeEnv := {| can_bind _ := true; can_chmod _ := false |}.

(** A process with the module-level state [d]. *)
Definition process (d : Demo.driver) : Process Sim.sim context Srv := mk_Process d [] [] false [].

Definition nobody (rank : Z) (ip : string) : option Conn := None.

Definition staged : Demo.driver := Demo.staged "c1" "m" (4 * MiB).

(** The attribute NodeRegisterWeight of the stub of wpi_client. *)
Definition register : Multicallable value unit :=
  unary_unary tt (qualified NODE "NodeRegisterWeight")
    (SerializeToString wpi__pb2.NodeRegisterWeightRequest)
    (FromString wpi__pb2.NodeRegisterWeightResponse) true.

Definition create : Multicallable value unit :=
  unary_unary tt (qualified CONTROLLER "CreateWeightBuffer")
    (SerializeToString wpi__pb2.CreateWeightBufferRequest)
    (FromString wpi__pb2.CreateWeightBufferResponse) true.

(** A source on socket 1, and on socket 7 a peer that sends nonsense and hangs up. *)
Definition crowd : Demo.driver :=
  set_conns (<[7%nat := TargetDemo.peer [line "hello"] true]>) TargetDemo.served.

Definition events : list accept_event :=
  [Accepted 7; AcceptFails (mk_exn OSError "[Errno 24] Too many open files"); Accepted 1; NoThread 9].
End ServeDemo.

Lemma serve_answers_witness :
  exists p', serve ServeDemo.senv Demo.env ServeDemo.nobody (ServeDemo.process ServeDemo.staged) = (Stuck, p') /\
    (call (server p') ServeDemo.register
       (existT wpi__pb2.NodeRegisterWeightRequest {| rq_buffer_id := "m"; rq_size_bytes := 0 |})
       ServeDemo.staged).1 = RpcOk (existT wpi__pb2.NodeRegisterWeightResponse "0").
Proof.
  destruct (serve_answers ServeDemo.senv Demo.env ServeDemo.nobody (ServeDemo.process ServeDemo.staged) tt)
    as (p' & H1 & _ & _ & _ & H2); [done|].
  exists p'. split; [exact H1|].
  destruct (H2 [ (NODE, ClientGrpc.NodeServiceStub tt); (IDENTITY, ClientGrpc.IdentityServiceStub tt);
      (CONTROLLER, ClientGrpc.ControllerServiceStub tt) ]
    (mk_served NODE "NodeRegisterWeight" wpi__pb2.NodeRegisterWeightRequest
      wpi__pb2.NodeRegisterWeightResponse (fun r => NodeRegisterWeight (rq_buffer_id r))))
    as (stub & mc & E1 & E2 & H3).
  - apply elem_of_cons. right. apply elem_of_cons. by left.
  - apply elem_of_cons. by left.
  - simpl in E1. injection E1 as <-. simpl in E2. injection E2 as <-.
    unfold ServeDemo.register. simpl in H3. erewrite H3 by reflexivity. vm_compute. reflexivity.
Defined.

Lemma controller_not_served_witness :
  call (driver_server Demo.env ServeDemo.nobody : dict (MethodHandler Demo.driver value)) ServeDemo.create
    (existT wpi__pb2.CreateWeightBufferRequest {| rq_buffer_id := "m"; rq_size_bytes := 0 |})
    ServeDemo.staged = (RpcFailed UNIMPLEMENTED "Method not found!", ServeDemo.staged).
Proof.
  apply (controller_not_served Demo.env ServeDemo.nobody tt
    [ (NODE, PluginGrpc.NodeServiceStub tt); (IDENTITY, PluginGrpc.IdentityServiceStub tt);
      (CONTROLLER, PluginGrpc.ControllerServiceStub tt) ]
    (PluginGrpc.ControllerServiceStub tt) "CreateWeightBuffer").
  - do 2 (apply elem_of_cons; right). apply elem_of_cons. by left.
  - reflexivity.
  - reflexivity.
  - by eexists.
Defined.

Lemma demo_consumers : bi_notify_sockets (TargetDemo.info TargetDemo.served "m") = [5%nat].
Proof. vm_compute. reflexivity. Qed.

Lemma target_server_serves_witness :
  exists s1, start_nccl_target_server None ServeDemo.events ServeDemo.crowd = (Ret tt, s1) /\
    outbox <$> conns (run_targets Demo.env 2 [1%nat; 7%nat] s1) !! 1%nat = Some (line "OK").
Proof.
  destruct (target_server_serves Demo.env 2 ServeDemo.events 1
    (TargetDemo.peer (TargetDemo.chunks "m" 3 2 1 4096 8192) false) "m" 3 2 1 4096 8192 Demo.nccl_id
    (TargetDemo.info TargetDemo.served "m") (TargetDemo.allocator TargetDemo.served) [1%nat; 7%nat]
    ServeDemo.crowd) as (s1 & H1 & _ & H3 & _).
  - apply demo_ready_target; [reflexivity|by apply Nat.leb_le|reflexivity..|].
    intros i. rewrite demo_consumers. intros ->%list_elem_of_singleton. reflexivity.
  - apply demo_arrived, Nat.leb_le. reflexivity.
  - intros k b Hk.
    assert (ALLOCATED_BUFFERS ServeDemo.crowd = [("m", TargetDemo.info TargetDemo.served "m")]) as E
      by (vm_compute; reflexivity).
    rewrite E in Hk. simpl in Hk. destruct (decide (k = "m")); [|done]. injection Hk as <-.
    rewrite demo_consumers. split; [apply NoDup_singleton|]. intros i ->%list_elem_of_singleton.
    split; [by apply (bool_decide_unpack _); vm_compute|]. intros c n [= <-] [= <-]. vm_compute. discriminate.
  - apply (bool_decide_unpack _). reflexivity.
  - apply (bool_decide_unpack _). reflexivity.
  - apply perm_swap.
  - exists s1. split; [exact H1|]. by rewrite H3.
Defined.
