(* ===== verification/Generated.v ===== *)
(** * What the generated gRPC modules promise (wpi_pb2_grpc.py, three copies)

    The ten methods of the protocol, with their messages; every copy of the generated module
    has, for each of them, the attribute of a stub, the static method of the experimental
    API, the base method of the servicer, and the line that adds it to a server. *)

From S2P Require Import Prelude PyMonad PyText PyDict Cuda Allocator NodeState Stage Unstage.
From S2P Require Import Propagate Rpc DriverGrpc ClientGrpc PluginGrpc Serve.

(** A method of proto/wpi.proto. *)
Record rpc_method : Type := mk_rpc {
  rm_service : string;
  rm_name : string;
  rm_request : wpi__pb2.message;
  rm_response : wpi__pb2.message
}.

Definition rpc_methods : list rpc_method :=
  [ mk_rpc IDENTITY "GetPluginInfo" wpi__pb2.GetPluginInfoRequest wpi__pb2.GetPluginInfoResponse
  ; mk_rpc IDENTITY "GetPluginCapabilities" wpi__pb2.GetPluginCapabilitiesRequest wpi__pb2.GetPluginCapabilitiesResponse
  ; mk_rpc CONTROLLER "CreateWeightBuffer" wpi__pb2.CreateWeightBufferRequest wpi__pb2.CreateWeightBufferResponse
  ; mk_rpc CONTROLLER "AuthorizeTransfer" wpi__pb2.AuthorizeTransferRequest wpi__pb2.AuthorizeTransferResponse
  ; mk_rpc CONTROLLER "QueryTopology" wpi__pb2.QueryTopologyRequest wpi__pb2.QueryTopologyResponse
  ; mk_rpc NODE "NodeRegisterWeight" wpi__pb2.NodeRegisterWeightRequest wpi__pb2.NodeRegisterWeightResponse
  ; mk_rpc NODE "NodeStageWeight" wpi__pb2.NodeStageWeightRequest wpi__pb2.NodeStageWeightResponse
  ; mk_rpc NODE "NodeUnstageWeight" wpi__pb2.NodeUnstageWeightRequest wpi__pb2.NodeUnstageWeightResponse
  ; mk_rpc NODE "NodePropagate" wpi__pb2.NodePropagateRequest wpi__pb2.NodePropagateResponse
  ; mk_rpc NODE "NodeTranslateAndMap" wpi__pb2.NodeTranslateAndMapRequest wpi__pb2.NodeTranslateAndMapResponse ].

(** The experimental API of the three copies, on the arguments of one call. *)
Section experimental.
Context {Wire Obj : Type} `{Protobuf Wire}.
Variables (request : value) (target : string) (options : list Obj)
  (channel_credentials call_credentials : option Obj) (insecure : bool)
  (compression : option Obj) (wait_for_ready : option bool) (timeout metadata : option Obj).

#[local] Abbreviation on f := (f request target options channel_credentials call_credentials insecure
  compression wait_for_ready timeout metadata) (only parsing).

Definition experimental_apis : list (dict (dict (OneShot Wire Obj))) :=
  [ [ (IDENTITY,
        [ ("GetPluginInfo", on DriverGrpc.IdentityService_GetPluginInfo)
        ; ("GetPluginCapabilities", on DriverGrpc.IdentityService_GetPluginCapabilities) ])
      ; (CONTROLLER,
        [ ("CreateWeightBuffer", on DriverGrpc.ControllerService_CreateWeightBuffer)
        ; ("AuthorizeTransfer", on DriverGrpc.ControllerService_AuthorizeTransfer)
        ; ("QueryTopology", on DriverGrpc.ControllerService_QueryTopology) ])
      ; (NODE,
        [ ("NodeRegisterWeight", on DriverGrpc.NodeService_NodeRegisterWeight)
        ; ("NodeStageWeight", on DriverGrpc.NodeService_NodeStageWeight)
        ; ("NodeUnstageWeight", on DriverGrpc.NodeService_NodeUnstageWeight)
        ; ("NodePropagate", on DriverGrpc.NodeService_NodePropagate)
        ; ("NodeTranslateAndMap", on DriverGrpc.NodeService_NodeTranslateAndMap) ]) ]
  ; [ (IDENTITY,
        [ ("GetPluginInfo", on ClientGrpc.IdentityService_GetPluginInfo)
        ; ("GetPluginCapabilities", on ClientGrpc.IdentityService_GetPluginCapabilities) ])
      ; (CONTROLLER,
        [ ("CreateWeightBuffer", on ClientGrpc.ControllerService_CreateWeightBuffer)
        ; ("AuthorizeTransfer", on ClientGrpc.ControllerService_AuthorizeTransfer)
        ; ("QueryTopology", on ClientGrpc.ControllerService_QueryTopology) ])
      ; (NODE,
        [ ("NodeRegisterWeight", on ClientGrpc.NodeService_NodeRegisterWeight)
        ; ("NodeStageWeight", on ClientGrpc.NodeService_NodeStageWeight)
        ; ("NodeUnstageWeight", on ClientGrpc.NodeService_NodeUnstageWeight)
        ; ("NodePropagate", on ClientGrpc.NodeService_NodePropagate)
        ; ("NodeTranslateAndMap", on ClientGrpc.NodeService_NodeTranslateAndMap) ]) ]
  ; [ (IDENTITY,
        [ ("GetPluginInfo", on PluginGrpc.IdentityService_GetPluginInfo)
        ; ("GetPluginCapabilities", on PluginGrpc.IdentityService_GetPluginCapabilities) ])
      ; (CONTROLLER,
        [ ("CreateWeightBuffer", on PluginGrpc.ControllerService_CreateWeightBuffer)
        ; ("AuthorizeTransfer", on PluginGrpc.ControllerService_AuthorizeTransfer)
        ; ("QueryTopology", on PluginGrpc.ControllerService_QueryTopology) ])
      ; (NODE,
        [ ("NodeRegisterWeight", on PluginGrpc.NodeService_NodeRegisterWeight)
        ; ("NodeStageWeight", on PluginGrpc.NodeService_NodeStageWeight)
        ; ("NodeUnstageWeight", on PluginGrpc.NodeService_NodeUnstageWeight)
        ; ("NodePropagate", on PluginGrpc.NodeService_NodePropagate)
        ; ("NodeTranslateAndMap", on PluginGrpc.NodeService_NodeTranslateAndMap) ]) ] ].
End experimental.

(** A server with the base servicers alone, added by each copy. *)
Section base.
Context {W C Wire Srv : Type} `{CudaApi W} `{GrpcContext C} `{Protobuf Wire}.
Context `{!ServerApi Srv (MethodHandler (Driver W C) Wire)}.

Definition base_servers : list (py Srv unit) :=
  [ DriverGrpc.add_IdentityServiceServicer_to_server DriverGrpc.IdentityServiceServicer ;;
    DriverGrpc.add_ControllerServiceServicer_to_server DriverGrpc.ControllerServiceServicer ;;
    DriverGrpc.add_NodeServiceServicer_to_server DriverGrpc.NodeServiceServicer
  ; ClientGrpc.add_IdentityServiceServicer_to_server ClientGrpc.IdentityServiceServicer ;;
    ClientGrpc.add_ControllerServiceServicer_to_server ClientGrpc.ControllerServiceServicer ;;
    ClientGrpc.add_NodeServiceServicer_to_server ClientGrpc.NodeServiceServicer
  ; PluginGrpc.add_IdentityServiceServicer_to_server PluginGrpc.IdentityServiceServicer ;;
    PluginGrpc.add_ControllerServiceServicer_to_server PluginGrpc.ControllerServiceServicer ;;
    PluginGrpc.add_NodeServiceServicer_to_server PluginGrpc.NodeServiceServicer ].

(** The method of a base servicer. *)
Definition unimplemented : method (Driver W C) := fun _ =>
  set_code UNIMPLEMENTED ;;
  set_details "Method not implemented!" ;;
  py_raise NotImplementedError "Method not implemented!".

Definition base_handlers (service : string) : dict (MethodHandler (Driver W C) Wire) :=
  (fun rm => (rm_name rm, mk_MethodHandler unimplemented (FromString (rm_request rm))
     (SerializeToString (rm_response rm)))) <$>
  filter (fun rm => rm_service rm = service) rpc_methods.

Lemma base_servers_run build srv :
  build ∈ base_servers ->
  build srv = (Ret tt, with_service NODE (base_handlers NODE)
    (with_service CONTROLLER (base_handlers CONTROLLER)
       (with_service IDENTITY (base_handlers IDENTITY) srv))).
Proof.
  intros Hin. repeat (apply elem_of_cons in Hin as [->|Hin]); try reflexivity.
  by apply elem_of_nil in Hin.
Qed.

Context `{!ServerLaws Srv (MethodHandler (Driver W C) Wire)}.

(** The paths of two services differ. *)
Lemma service_paths a b na nb :
  a ∈ [IDENTITY; CONTROLLER; NODE] -> b ∈ [IDENTITY; CONTROLLER; NODE] -> a <> b ->
  qualified a na <> qualified b nb.
Proof.
  intros Ha Hb Hne.
  repeat (apply elem_of_cons in Ha as [->|Ha]); try (by apply elem_of_nil in Ha);
  repeat (apply elem_of_cons in Hb as [->|Hb]); try (by apply elem_of_nil in Hb);
  solve [by destruct Hne | unfold qualified; simpl; discriminate].
Qed.

Lemma base_server_handlers build rm :
  build ∈ base_servers -> rm ∈ rpc_methods ->
  exists srv, build grpc_server = (Ret tt, srv) /\
    handler_of srv (qualified (rm_service rm) (rm_name rm)) =
      Some (mk_MethodHandler unimplemented (FromString (rm_request rm)) (SerializeToString (rm_response rm))).
Proof.
  intros Hb Hin. eexists. split; [by apply base_servers_run|]. unfold with_service.
  repeat (apply elem_of_cons in Hin as [->|Hin]); try (by apply elem_of_nil in Hin); cbn [rm_service rm_name].
  all: repeat first
    [ rewrite law_server_empty
    | rewrite law_server_others by (intros; apply service_paths; [set_solver|set_solver|discriminate])
    | erewrite law_server_added; [| |reflexivity]
    | reflexivity ].
Qed.
End base.

(** ** Lemmas: the check at import *)

(** What a copy needs of the grpc package: the comparison, and a version that is not lower
    than the one the copy was generated for. *)
Definition importable (lower : option (string -> string -> bool)) (version generated : string) : Prop :=
  exists f, lower = Some f /\ f version generated = false.

(** The copies are imported exactly then; wpi_client was generated for an older version than
    the driver and the plugin. *)
Lemma check_version_run {S} (lower : option (string -> string -> bool)) version (s : S) :
  ((DriverGrpc.check_version lower version s).1 = Ret tt <->
     importable lower version DriverGrpc.GRPC_GENERATED_VERSION) /\
  ((ClientGrpc.check_version lower version s).1 = Ret tt <->
     importable lower version ClientGrpc.GRPC_GENERATED_VERSION) /\
  PluginGrpc.check_version lower version s = DriverGrpc.check_version lower version s /\
  (DriverGrpc.check_version lower version s).2 = s.
Proof.
  unfold importable, DriverGrpc.check_version, ClientGrpc.check_version, PluginGrpc.check_version,
    py_except, mbind, py_bind.
  destruct lower as [f|]; simpl; [|split_and!; try done; by split; [|intros (f & ? & _)]].
  split_and!; [| |done|by destruct (f version _)].
  all: destruct (f version _) eqn:Ef; simpl; split; try done; [by intros (g & [= <-] & ?); congruence|eauto].
Qed.

(** ** Properties *)

Section agree.
Context {Wire Ch Obj : Type} `{Protobuf Wire}.
Variables (request : value) (target : string) (options : list Obj)
  (channel_credentials call_credentials : option Obj) (insecure : bool)
  (compression : option Obj) (wait_for_ready : option bool) (timeout metadata : option Obj).

(** In every copy of the generated module, each of the ten methods of the protocol has its
    stub attribute and its experimental static method, and both make the call of that method:
    the path of the method, the serializer of its request, the deserializer of its response,
    and, in the experimental API, each argument of the caller in its place. *)
Lemma generated_modules_agree (ch : Ch) i st api rm :
  stubs (Wire:=Wire) ch !! i = Some st ->
  experimental_apis request target options channel_credentials call_credentials insecure compression
    wait_for_ready timeout metadata !! i = Some api ->
  rm ∈ rpc_methods ->
  exists stub static,
    dict_get (rm_service rm) st = Some stub /\ dict_get (rm_service rm) api = Some static /\
    dict_get (rm_name rm) stub = Some (mk_Multicallable ch (qualified (rm_service rm) (rm_name rm))
      (SerializeToString (rm_request rm)) (FromString (rm_response rm)) true) /\
    dict_get (rm_name rm) static = Some (experimental_unary_unary request target
      (qualified (rm_service rm) (rm_name rm)) (SerializeToString (rm_request rm))
      (FromString (rm_response rm)) options channel_credentials insecure call_credentials compression
      wait_for_ready timeout metadata true).
Proof.
  intros Hst Hapi Hin.
  destruct i as [|[|[|i]]]; simpl in Hst, Hapi; simplify_eq.
  all: repeat (apply elem_of_cons in Hin as [->|Hin]); try (by apply elem_of_nil in Hin).
  all: do 2 eexists; split_and!; reflexivity.
Qed.
End agree.

Section base_calls.
Context {W C Wire Srv Ch : Type} `{CudaApi W} `{GrpcContext C} `{!GrpcLaws C}.
Context `{Protobuf Wire} `{!ProtobufLaws Wire}.
Context `{!ServerApi Srv (MethodHandler (Driver W C) Wire)} `{!ServerLaws Srv (MethodHandler (Driver W C) Wire)}.

(** A server on which a copy of the generated module registers its base servicers answers
    every method of the protocol with UNIMPLEMENTED, and changes nothing. *)
Theorem base_servicers_unimplemented build rm (ch : Ch) x (s : Driver W C) :
  build ∈ base_servers (Wire:=Wire) (Srv:=Srv) -> rm ∈ rpc_methods ->
  msg_ok (rm_request rm) x = true ->
  exists srv c', build grpc_server = (Ret tt, srv) /\
    call srv (mk_Multicallable ch (qualified (rm_service rm) (rm_name rm))
        (SerializeToString (rm_request rm)) (FromString (rm_response rm)) true)
      (existT (rm_request rm) x) s =
    (RpcFailed UNIMPLEMENTED "Method not implemented!", set_context c' s).
Proof.
  intros Hb Hin Hx. destruct (base_server_handlers build rm Hb Hin) as (srv & E & Hh).
  exists srv, (ctx_set_details "Method not implemented!" (ctx_set_code UNIMPLEMENTED ctx_new)).
  split; [done|]. unfold call, handle. simpl.
  pose proof (codec_roundtrip (Wire:=Wire) _ x Hx) as Hrt.
  destruct (SerializeToString _ _) as [w|]; [|done]. simpl in Hrt. rewrite Hh. simpl. rewrite Hrt.
  unfold rpc, unimplemented. simpl. rewrite law_set_status. by destruct s.
Qed.
End base_calls.

(** ** Witnesses *)

Import GrpcSim.

Lemma base_servicers_unimplemented_witness :
  exists (srv : dict (MethodHandler Demo.driver value)) c',
    call srv (mk_Multicallable tt (qualified NODE "NodeUnstageWeight")
        (SerializeToString wpi__pb2.NodeUnstageWeightRequest)
        (FromString wpi__pb2.NodeUnstageWeightResponse) true)
      (existT wpi__pb2.NodeUnstageWeightRequest "c1") Demo.start =
    (RpcFailed UNIMPLEMENTED "Method not implemented!", set_context c' Demo.start).
Proof.
  destruct (base_servicers_unimplemented
    (DriverGrpc.add_IdentityServiceServicer_to_server DriverGrpc.IdentityServiceServicer ;;
     DriverGrpc.add_ControllerServiceServicer_to_server DriverGrpc.ControllerServiceServicer ;;
     DriverGrpc.add_NodeServiceServicer_to_server DriverGrpc.NodeServiceServicer)
    (mk_rpc NODE "NodeUnstageWeight" wpi__pb2.NodeUnstageWeightRequest wpi__pb2.NodeUnstageWeightResponse)
    tt "c1" Demo.start) as (srv & c' & _ & E).
  - apply elem_of_cons. by left.
  - by do 7 (apply elem_of_cons; right); apply elem_of_cons; left.
  - reflexivity.
  - by exists srv, c'.
Defined.
