(* ===== verification/Files.v ===== *)
(** * The files of the driver, and the programs that look for one
    (driver/verify_driver.py, consumer/consumer.py)

    Whatever the driver does, the files it creates are its socket directory with its missing
    parents, and sockets in it. The script that checks a driver and the file consumer wait for another file. *)

From S2P Require Import Prelude PyMonad PyText PyDict Cuda Allocator NodeState Stage Unstage.
From S2P Require Import FdServer Notify Target Propagate Rpc DriverGrpc ClientGrpc PluginGrpc Serve.

(** ** The driver, one activity after the other *)

Inductive activity : Type :=
  | ActStage (request : NodeStageWeightRequest)
  | ActUnstage (claim_id : string)
  | ActRegister (buffer_id : string)
  | ActPropagate (dial : Z -> string -> option Conn) (request : NodePropagateRequest)
  | ActPassFd (buffer_id : string) (accepted : list nat)
  | ActNotify (buffer_id : string) (accepted : list nat)
  | ActTarget (fuel conn : nat)
  | ActPeers (f : gmap nat Conn -> gmap nat Conn).

Section driver.
Context {W C : Type} `{CudaApi W} `{GrpcContext C} (env : Env).
#[local] Abbreviation state := (Driver W C).
Implicit Types (s : state).

(** The state after a handler or a thread of the driver ran, or the peers moved. *)
Definition run_activity (a : activity) s : state :=
  match a with
  | ActStage request => (rpc (NodeStageWeight env request) s).2
  | ActUnstage claim_id => (rpc (NodeUnstageWeight claim_id) s).2
  | ActRegister buffer_id => (rpc (NodeRegisterWeight buffer_id) s).2
  | ActPropagate dial request => (rpc (NodePropagate env dial request) s).2
  | ActPassFd id accepted => (pass_fd_server env (fd_sock_path id) id accepted s).2
  | ActNotify id accepted => (notify_server env (notify_sock_path_of id) id accepted s).2
  | ActTarget fuel conn => (handle_target_connection env fuel conn s).2
  | ActPeers f => set_conns f s
  end.

(** ** Lemmas: what is created *)

(** A file that is no socket of the driver, nor the directory of the sockets or one of the
    parents of this directory. *)
Definition foreign (path : string) : Prop :=
  (path ∉ SOCKET_DIR :: SOCKET_DIR_PARENTS) /\ (forall id, path <> fd_sock_path id) /\ (forall id, path <> notify_sock_path_of id).

Definition missing (path : string) s : Prop := path ∉ files s.

Context (path : string) (Hpath : foreign path).
#[local] Abbreviation kept := (preserves (missing path)).

Lemma missing_modify (f : state -> state) : (forall s, files (f s) = files s) -> kept (py_modify f).
Proof. intros Hf. apply preserves_modify. unfold missing. intros s. by rewrite Hf. Qed.

#[export] Instance missing_allocator : AllocatorFrame (W:=W) (C:=C) (missing path).
Proof. by intros o s. Qed.

#[export] Instance missing_context : ContextFrame (W:=W) (missing path).
Proof. by intros c s. Qed.

#[export] Instance missing_conns : ConnsFrame (W:=W) (C:=C) (missing path).
Proof. by intros f s. Qed.

Lemma missing_connect dial rank ip : kept (sock_connect (W:=W) (C:=C) dial rank ip).
Proof. intros s Hs. unfold sock_connect. by destruct (dial rank ip). Qed.

(** A call on the file system that does not create the file. *)
Lemma missing_fs k p f :
  (forall fs, path ∉ fs -> path ∉ f fs) -> kept (fs_do (W:=W) (C:=C) env k p f).
Proof.
  intros Hf. unfold fs_do. destruct (fs_error env k p); [apply preserves_reraise|].
  apply preserves_modify. intros s. apply Hf.
Qed.

Lemma missing_created k p : p <> path -> kept (fs_do (W:=W) (C:=C) env k p (fun fs => {[p]} ∪ fs)).
Proof. intros Hp. apply missing_fs. intros fs Hfs. set_solver. Qed.

Lemma missing_removed k p : kept (fs_do (W:=W) (C:=C) env k p (fun fs => fs ∖ {[p]})).
Proof. apply missing_fs. intros fs Hfs. set_solver. Qed.

Lemma missing_chmod k p : kept (fs_do (W:=W) (C:=C) env k p id).
Proof. by apply missing_fs. Qed.

#[local] Hint Extern 1 (preserves (missing _) (py_modify _)) => apply missing_modify; reflexivity : wpi.
#[local] Hint Resolve missing_connect missing_removed missing_chmod : wpi.

Lemma missing_bind p : p <> path -> kept (bind_socket (W:=W) (C:=C) env p).
Proof. intros Hp. pose proof (fun k => missing_created k p Hp). unfold bind_socket. preserves_tac. Qed.

Lemma missing_remove p : kept (remove_socket (W:=W) (C:=C) env p).
Proof. unfold remove_socket. preserves_tac. Qed.
#[local] Hint Resolve missing_remove : wpi.

Lemma missing_makedirs p parents :
  path ∉ p :: parents -> kept (os_makedirs (W:=W) (C:=C) env p parents).
Proof.
  revert p. induction parents as [|q parents IH]; intros p [Hp Hps]%not_elem_of_cons; simpl;
    pose proof (fun k => missing_created k p (not_eq_sym Hp)); preserves_tac.
Qed.

Lemma missing_stage request : kept (NodeStageWeight (W:=W) (C:=C) env request).
Proof.
  destruct Hpath as (Hd & _). pose proof (missing_makedirs SOCKET_DIR SOCKET_DIR_PARENTS Hd).
  assert (kept (prepare_socket_dir (W:=W) (C:=C) env)) by (unfold prepare_socket_dir; preserves_tac).
  unfold NodeStageWeight, stage_body, stage_new, add_reference, load_source, load_tensors,
    memcpy_host_to_device, start_servers, buffer_known, get_buffer, put_buffer.
  preserves_tac.
Qed.

Lemma missing_unstage claim_id : kept (NodeUnstageWeight (W:=W) (C:=C) claim_id).
Proof.
  unfold NodeUnstageWeight, unstage_body, drop_reference, free_all, free_item, os_close, buffer_known,
    get_buffer, put_buffer. preserves_tac.
Qed.

Lemma missing_register id : kept (NodeRegisterWeight (W:=W) (C:=C) id).
Proof. unfold NodeRegisterWeight, buffer_known, get_buffer. preserves_tac. Qed.

Lemma missing_notify id msg : kept (notify_consumers (W:=W) (C:=C) id msg).
Proof.
  unfold notify_consumers, notify_each, drop_socket, sock_sendall, get_buffer, put_buffer. preserves_tac.
Qed.

Lemma missing_pre_update id : kept (send_pre_update_signal (W:=W) (C:=C) id).
Proof. unfold send_pre_update_signal, buffer_known. pose proof missing_notify. preserves_tac. Qed.

Lemma missing_nccl op : kept (nccl_call (W:=W) (C:=C) env op).
Proof. unfold nccl_call. preserves_tac. Qed.

#[local] Hint Resolve missing_notify missing_pre_update missing_nccl : wpi.

Lemma missing_propagate dial request : kept (NodePropagate (W:=W) (C:=C) env dial request).
Proof.
  unfold NodePropagate, propagate_body, contact_assignments, contact_targets, contact, sock_sendall,
    sock_recv, buffer_known, get_buffer. preserves_tac.
Qed.

Lemma missing_target fuel i : kept (handle_target_connection (W:=W) (C:=C) env fuel i).
Proof. apply preserves_target; auto with wpi. Qed.

Lemma missing_pass_fd id accepted : kept (pass_fd_server (W:=W) (C:=C) env (fd_sock_path id) id accepted).
Proof.
  destruct Hpath as (_ & Hf & _). pose proof (missing_bind (fd_sock_path id) (not_eq_sym (Hf id))).
  unfold pass_fd_server, serve_fd_client, serve_fd_client_body, read_metadata, sock_recv, decode_utf8,
    choose_fd, relocate, memcpy_device_to_device, sock_sendmsg, sock_sendall, buffer_known, get_buffer,
    put_buffer.
  preserves_tac.
Qed.

Lemma missing_notify_server id accepted :
  kept (notify_server (W:=W) (C:=C) env (notify_sock_path_of id) id accepted).
Proof.
  destruct Hpath as (_ & _ & Hf). pose proof (missing_bind _ (not_eq_sym (Hf id))).
  unfold notify_server, serve_notify_client, buffer_known, get_buffer, put_buffer. preserves_tac.
Qed.

Lemma missing_activity a s : missing path s -> missing path (run_activity a s).
Proof.
  intros Hs. destruct a; simpl.
  - by apply preserves_rpc; [apply _|apply missing_stage|].
  - by apply preserves_rpc; [apply _|apply missing_unstage|].
  - by apply preserves_rpc; [apply _|apply missing_register|].
  - by apply preserves_rpc; [apply _|apply missing_propagate|].
  - by apply missing_pass_fd.
  - by apply missing_notify_server.
  - by apply missing_target.
  - exact Hs.
Qed.
End driver.

Lemma join_suffix (id suffix : string) :
  exists a, os_path_join SOCKET_DIR (id +:+ suffix) = a +:+ suffix.
Proof.
  unfold os_path_join. destruct (startswith _ _); [by exists id|].
  exists (SOCKET_DIR +:+ "/" +:+ id). by rewrite !string_app_assoc.
Qed.

(** The last character of a text. *)
Fixpoint last_char (s : string) : option ascii :=
  match s with
  | EmptyString => None
  | String c s' => match last_char s' with Some d => Some d | None => Some c end
  end.

Lemma last_char_app a b c : last_char b = Some c -> last_char (a +:+ b) = Some c.
Proof. intros Hb. induction a as [|x a IH]; [done|]. simpl. by rewrite IH. Qed.

(** The sockets end in [.sock]. *)
Lemma foreign_path path : path ∉ SOCKET_DIR :: SOCKET_DIR_PARENTS -> last_char path <> Some "k"%char -> foreign path.
Proof.
  intros Hd Hl. split; [done|].
  split; intros id ->; apply Hl; unfold fd_sock_path, notify_sock_path_of;
    match goal with |- context [os_path_join _ (_ +:+ ?s)] => destruct (join_suffix id s) as [a ->] end;
    by apply last_char_app.
Qed.

(** ** consumer.py *)

Definition FILE_PATH : string := "/dev/wpi/weights/layer82".

(** What the program sees of the file: at which polls it is there, and its bytes once it is
    opened ([None] when it cannot be opened for reading and writing). *)
Record FileEnv : Type := { file_at : nat -> bool; file_bytes : option (list Z) }.

(** The log of a consumption: the number of elements and the first ten, as 16-bit words. *)
Record FileConsumer : Type := mk_FileConsumer {
  waited : nat;
  consumed : option (nat * list Z);
  error : option string
}.

Section consumer.
Context (env : FileEnv).

(** [np.frombuffer(mm, dtype=np.float16)]. *)
Fixpoint float16_words (bytes : list Z) : list Z :=
  match bytes with
  | lo :: hi :: rest => (lo + 256 * hi) :: float16_words rest
  | _ => []
  end.

Fixpoint wait_for_file (fuel : nat) : py FileConsumer unit :=
  found ← py_get (fun c => file_at env (waited c)) ;
  if (found : bool) then mret tt
  else
    match fuel with
    | O => py_stuck
    | S n => py_modify (fun c => mk_FileConsumer (S (waited c)) (consumed c) (error c)) ;; wait_for_file n
    end.

Definition consume_file : py FileConsumer unit :=
  mm ← py_some (file_bytes env) OSError "[Errno 13] Permission denied: '/dev/wpi/weights/layer82'" ;
  py_when (bool_decide (mm = [])) (py_raise ValueError "cannot mmap an empty file") ;;
  py_when (negb (Nat.even (length mm)))
    (py_raise ValueError "buffer size must be a multiple of element size") ;;
  let weights := float16_words mm in
  py_modify (fun c => mk_FileConsumer (waited c) (Some (length weights, take 10 weights)) (error c)) ;;
  (** [while True: time.sleep(60)] *)
  py_stuck.

Definition consume_weights (fuel : nat) : py FileConsumer unit :=
  wait_for_file fuel ;;
  (try: consume_file
   except: is_Exception as e =>
     py_modify (fun c => mk_FileConsumer (waited c) (consumed c) (Some (exn_str e)))).
End consumer.

(** ** verify_driver.py *)

(** What the script prints. *)
Inductive verdict : Type :=
  | GrpcError (code : status_code) (details : string)
  | FileMissing
  | SizeMatches
  | SizeMismatch (size : Z).

Section verify.
Context {W C Wire Srv Ch : Type} `{CudaApi W} `{GrpcContext C} `{Protobuf Wire}.
Context `{!ServerApi Srv (MethodHandler (Driver W C) Wire)}.
Implicit Types (s : Driver W C).

Definition verify_request : NodeStageWeightRequest :=
  {| st_claim_id := "test-claim-id"; st_buffer_id := "test-buffer-id"; st_source_path := "";
     st_size_bytes := 0; st_shard_index := 0; st_total_shards := 0 |}.

(** The call, on a channel that leads to [srv], and the look at the file; nothing is printed
    when the call does not end. *)
Definition test_stage_weight (srv : Srv) (ch : Ch) (getsize : string -> Z) s : option verdict * Driver W C :=
  match dict_get "NodeStageWeight" (DriverGrpc.NodeServiceStub (Wire:=Wire) ch) with
  | None => (None, s)
  | Some stub =>
      match call srv stub (existT wpi__pb2.NodeStageWeightRequest verify_request) s with
      | (RpcOk _, s') =>
          (Some (if bool_decide (FILE_PATH ∈ files s') then
                   let size := getsize FILE_PATH in
                   if size =? 2 * 1024 * 1024 * 1024 then SizeMatches else SizeMismatch size
                 else FileMissing), s')
      | (RpcFailed code details, s') => (Some (GrpcError code details), s')
      | (RpcPending, s') => (None, s')
      end
  end.
End verify.

(** ** Lemmas: the consumer *)

(** The file is never there. *)
Lemma wait_for_file_absent env fuel c :
  (forall t, file_at env t = false) -> exists c', wait_for_file env fuel c = (Stuck, c') /\ consumed c' = consumed c.
Proof.
  intros Hf. revert c. induction fuel as [|n IH]; intros c; simpl; rewrite bind_unfold; simpl; rewrite Hf.
  - by exists c.
  - rewrite bind_unfold. simpl. apply (IH (mk_FileConsumer (S (waited c)) (consumed c) (error c))).
Qed.

(** The file appears after [k] polls. *)
Lemma wait_for_file_found env k fuel c :
  (forall t, (waited c <= t < waited c + k)%nat -> file_at env t = false) ->
  file_at env (waited c + k)%nat = true -> (k <= fuel)%nat ->
  wait_for_file env fuel c = (Ret tt, mk_FileConsumer (waited c + k)%nat (consumed c) (error c)).
Proof.
  revert fuel c. induction k as [|k IH]; intros fuel c Hno Hyes Hle.
  - rewrite Nat.add_0_r in *. destruct fuel; simpl; rewrite bind_unfold; simpl; rewrite Hyes; by destruct c.
  - destruct fuel as [|fuel]; [lia|]. simpl. rewrite bind_unfold. simpl. rewrite Hno by lia.
    rewrite bind_unfold. simpl. rewrite IH; [simpl; f_equal; f_equal; lia| | |lia]; simpl.
    + intros t Ht. apply Hno. lia.
    + by replace (S (waited c + k)) with (waited c + S k)%nat by lia.
Qed.

(** A file with a whole number of elements is consumed. *)
Lemma file_consumed env k fuel bytes :
  (forall t, (t < k)%nat -> file_at env t = false) -> file_at env k = true -> (k <= fuel)%nat ->
  file_bytes env = Some bytes -> bytes <> [] -> Nat.even (length bytes) = true ->
  consume_weights env fuel (mk_FileConsumer 0 None None) =
    (Stuck, mk_FileConsumer k (Some (length (float16_words bytes), take 10 (float16_words bytes))) None).
Proof.
  intros Hno Hyes Hle Hb Hne Hev. unfold consume_weights. rewrite bind_unfold.
  rewrite (wait_for_file_found env k) by (simpl; auto with lia). simpl.
  unfold consume_file. rewrite Hb. unfold py_except. rewrite !bind_unfold. simpl.
  rewrite bool_decide_eq_false_2 by done. rewrite bind_unfold. simpl. rewrite Hev. by rewrite bind_unfold.
Qed.

(** ** Properties *)

Section properties.
Context {W C Wire Srv Ch : Type} `{CudaApi W} `{GrpcContext C} `{!GrpcLaws C} `{Protobuf Wire} `{!ProtobufLaws Wire}.
Context `{!ServerApi Srv (MethodHandler (Driver W C) Wire)} `{!ServerLaws Srv (MethodHandler (Driver W C) Wire)}.
Context (env : Env).
Implicit Types (s : Driver W C).

(** The states of the driver between its activities. *)
Definition after (acts : list activity) s : Driver W C := foldl (fun s a => run_activity env a s) s acts.

Lemma missing_after path acts s : foreign path -> missing path s -> missing path (after acts s).
Proof.
  intros Hp. revert s. induction acts as [|a acts IH]; intros s Hs; [done|].
  apply IH. by apply missing_activity.
Qed.

(** C28: the driver creates no file but its socket directory, the missing parents of the
    directory, and the sockets of buffers, whatever it is asked to do; so the file consumer waits for ever for the file of weights on a machine
    where only the driver could create it, and never reads anything. *)
Theorem driver_creates_sockets_only s :
  (forall path acts, foreign path -> path ∉ files s -> path ∉ files (after acts s)) /\
  (FILE_PATH ∉ files s -> forall (acts : nat -> activity) fenv fuel,
     (forall t, file_at fenv t = bool_decide (FILE_PATH ∈ files (after (acts <$> seq 0 t) s))) ->
     exists c, consume_weights fenv fuel (mk_FileConsumer 0 None None) = (Stuck, c) /\ consumed c = None).
Proof.
  split; [intros path acts; apply missing_after|]. intros Hs acts fenv fuel Hf.
  destruct (wait_for_file_absent fenv fuel (mk_FileConsumer 0 None None)) as (c & E & Hc).
  - intros t. rewrite Hf. apply bool_decide_eq_false_2. apply missing_after; [|done].
    by apply foreign_path; [apply (bool_decide_unpack _); vm_compute|].
  - exists c. unfold consume_weights. rewrite bind_unfold, E. by split.
Qed.

(** The script that verifies a driver cannot succeed with this one: the stage call fails
    with INTERNAL, or the file it looks for is missing. *)
Theorem verify_driver_finds_no_file dial (ch : Ch) getsize s :
  FILE_PATH ∉ files s ->
  exists v, (test_stage_weight (driver_server env dial : Srv) ch getsize s).1 = Some v /\
    (v = FileMissing \/ exists details, v = GrpcError INTERNAL details).
Proof.
  intros Hs. unfold test_stage_weight.
  destruct (stub_call (Srv:=Srv) env dial ch _
    (mk_served NODE "NodeStageWeight" wpi__pb2.NodeStageWeightRequest wpi__pb2.NodeStageWeightResponse
       (NodeStageWeight env)) (list_elem_of_lookup_2 (stubs ch) 0 _ eq_refl)) as (stub & mc & Es & Em & Hc).
  { apply elem_of_cons. right. apply elem_of_cons. by left. }
  simpl in Es. injection Es as <-. cbn [sm_name] in Em. rewrite Em.
  cbn [sm_request sm_run sm_response] in Hc. rewrite Hc by reflexivity. cbn [payload].
  pose proof (preserves_rpc (missing FILE_PATH) (NodeStageWeight env verify_request) s
    (missing_stage env FILE_PATH (foreign_path FILE_PATH ltac:(by apply (bool_decide_unpack _); vm_compute) ltac:(done)) verify_request) Hs) as Hm.
  destruct (stage_status_cases env verify_request s) as [E|[details E]];
    destruct (rpc (NodeStageWeight env verify_request) s) as [r s']; simpl in *; subst r; simpl.
  - eexists. split; [done|]. left. by rewrite bool_decide_eq_false_2.
  - eexists. split; [done|]. right. by exists details.
Qed.
End properties.

(** ** Witnesses *)

Import GrpcSim.

(** A driver that stages "m", starts its servers and serves a consumer. *)
Definition file_demo (t : nat) : activity :=
  match t with
  | 0%nat => ActStage (Demo.request "c1" "m" (4 * MiB))
  | 1%nat => ActPassFd "m" []
  | 2%nat => ActNotify "m" [5%nat]
  | _ => ActUnstage "c1"
  end.

Lemma driver_creates_sockets_only_witness :
  FILE_PATH ∉ files (after Demo.env (file_demo <$> seq 0 3) Demo.start) /\
  exists c, consume_weights
      {| file_at t := bool_decide (FILE_PATH ∈ files (after Demo.env (file_demo <$> seq 0 t) Demo.start));
         file_bytes := None |} 100 (mk_FileConsumer 0 None None) = (Stuck, c) /\ consumed c = None.
Proof.
  assert (FILE_PATH ∉ files Demo.start) as Hs by (by apply not_elem_of_empty).
  destruct (driver_creates_sockets_only Demo.env Demo.start) as [Hp Hc]. split.
  - apply Hp; [|exact Hs]. apply foreign_path; [|done]. apply (bool_decide_unpack _). vm_compute. exact I.
  - by apply (Hc Hs file_demo).
Defined.

Lemma verify_driver_finds_no_file_witness :
  exists v,
    (test_stage_weight (driver_server Demo.env ServeDemo.nobody : dict (MethodHandler Demo.driver value))
       tt (fun _ => 0) Demo.start).1 = Some v /\
    (v = FileMissing \/ exists details, v = GrpcError INTERNAL details).
Proof.
  apply (verify_driver_finds_no_file (Srv:=dict (MethodHandler Demo.driver value)) Demo.env
    ServeDemo.nobody tt (fun _ => 0) Demo.start). by apply not_elem_of_empty.
Defined.
