(* ===== verification/Lifecycle.v ===== *)
(** * Claims and buffers over time

    The requests and connections that a driver serves, as steps of a transition system with
    their replies, and the registry it implements: a count per staged buffer and the buffer
    of each registered claim. In an orderly history the registry is a store: for every
    staged buffer, the set of the claims that hold it; claims whose stage failed without
    leaving a buffer are kept apart. Three theorems show what happens outside of the order:
    ids that start with another id followed by [_gpu], a holding claim that is staged again,
    and a refused claim that is unstaged while its buffer is held by others. *)

From S2P Require Import Prelude PyMonad PyText PyDict Cuda Allocator NodeState Stage Unstage.
From S2P Require Import FdServer Notify Target Propagate.

(** ** The abstract store *)

Abbreviation store := (gmap string (gset string)).

Definition store_stage (claim id : string) (A : store) : store :=
  <[id := {[claim]} ∪ default ∅ (A !! id)]> A.

(** The claim goes, and the buffer with its last claim. *)
Definition store_unstage (claim id : string) (A : store) : store :=
  let X := default ∅ (A !! id) ∖ {[claim]} in
  if decide (X = ∅) then delete id A else <[id := X]> A.

(** ** What the driver records *)

Section view.
Context {W C : Type} `{CudaApi W} `{GrpcContext C}.
Implicit Types (s : Driver W C) (A : store).

(** The reference count under a key; relocated copies have none. *)
Definition ref_view (d : dict BufferInfo) (k : string) : option Z := dict_get k d ≫= bi_ref_count.

(** The driver implements the store. *)
Record implements (s : Driver W C) (A : store) : Prop := {
  impl_wf : dict_wf (ALLOCATED_BUFFERS s);
  impl_refs id : ref_view (ALLOCATED_BUFFERS s) id = (fun X => Z.of_nat (size X)) <$> A !! id;
  impl_nonempty id X : A !! id = Some X -> X <> ∅;
  impl_claims claim id :
    KNOWN_CLAIMS s !! claim = Some id <-> exists X, A !! id = Some X /\ claim ∈ X
}.

(** The references and the claims are those of [K] and [V]. *)
Definition frame (K : gmap string string) (V : string -> option Z) s : Prop :=
  dict_wf (ALLOCATED_BUFFERS s) /\ KNOWN_CLAIMS s = K /\
  forall k, ref_view (ALLOCATED_BUFFERS s) k = V k.

Lemma frame_self s : dict_wf (ALLOCATED_BUFFERS s) ->
  frame (KNOWN_CLAIMS s) (ref_view (ALLOCATED_BUFFERS s)) s.
Proof. done. Qed.

Lemma implements_frame s s' A :
  implements s A -> frame (KNOWN_CLAIMS s) (ref_view (ALLOCATED_BUFFERS s)) s' -> implements s' A.
Proof.
  intros [Hwf Hr Hne Hc] (Hwf' & Hk & Hv). split; [done| |done|].
  - intros id. by rewrite Hv.
  - intros claim id. by rewrite Hk.
Qed.

Lemma ref_view_set_eq k b d : ref_view (dict_set k b d) k = bi_ref_count b.
Proof. unfold ref_view. by rewrite dict_get_set_eq. Qed.

Lemma ref_view_set_ne k k' b d : k <> k' -> ref_view (dict_set k b d) k' = ref_view d k'.
Proof. intros Hk. unfold ref_view. by rewrite dict_get_set_ne. Qed.

Lemma ref_view_set_same k b d :
  bi_ref_count b = ref_view d k -> forall k', ref_view (dict_set k b d) k' = ref_view d k'.
Proof.
  intros Hb k'. destruct (decide (k = k')) as [->|Hk]; [by rewrite ref_view_set_eq|].
  by apply ref_view_set_ne.
Qed.
End view.

(** ** Code that keeps the references and the claims *)

Section frames.
Context {W C : Type} `{CudaApi W} `{GrpcContext C} (env : Env).
Context (K : gmap string string) (V : string -> option Z).
#[local] Abbreviation state := (Driver W C).
#[local] Abbreviation framed := (preserves (frame K V)).

Lemma frame_modify (f : state -> state) :
  (forall s, ALLOCATED_BUFFERS (f s) = ALLOCATED_BUFFERS s /\ KNOWN_CLAIMS (f s) = KNOWN_CLAIMS s) ->
  framed (py_modify f).
Proof.
  intros Hf. apply preserves_modify. intros s (Hwf & Hk & Hv). destruct (Hf s) as [E1 E2].
  unfold frame. by rewrite E1, E2.
Qed.

#[export] Instance frame_allocator : AllocatorFrame (W:=W) (C:=C) (frame K V).
Proof. by intros o s. Qed.

#[export] Instance frame_context : ContextFrame (W:=W) (C:=C) (frame K V).
Proof. by intros c s. Qed.

#[export] Instance frame_files : FilesFrame (W:=W) (C:=C) (frame K V).
Proof. by intros f s. Qed.

#[export] Instance frame_conns : ConnsFrame (W:=W) (C:=C) (frame K V).
Proof. by intros f s. Qed.

Lemma frame_nccl_call op : framed (nccl_call (W:=W) (C:=C) env op).
Proof. unfold nccl_call. preserves_tac. by apply frame_modify. Qed.

Lemma frame_get_buffer k : framed (get_buffer (W:=W) (C:=C) k).
Proof. unfold get_buffer. preserves_tac. Qed.

(** An update of an entry that keeps its reference count. *)
Lemma frame_update k (f : BufferInfo -> BufferInfo) :
  (forall b, bi_ref_count (f b) = bi_ref_count b) ->
  framed (b ← get_buffer k ; put_buffer (W:=W) (C:=C) k (f b)).
Proof.
  intros Hf s (Hwf & Hk & Hv). rewrite bind_unfold. unfold get_buffer. rewrite bind_unfold. simpl.
  destruct (dict_get k (ALLOCATED_BUFFERS s)) as [b|] eqn:Eb; simpl; [|done].
  split; [simpl; auto with wpi|]. split; [done|]. intros k'. simpl.
  rewrite ref_view_set_same; [apply Hv|]. unfold ref_view. by rewrite Eb, Hf.
Qed.

#[local] Hint Resolve frame_nccl_call frame_get_buffer : wpi.

Lemma frame_drop_socket id i : framed (drop_socket (W:=W) (C:=C) id i).
Proof.
  intros s Hs. pose proof (frame_update id (fun info => if bool_decide (i ∈ bi_notify_sockets info)
    then set_notify_sockets (remove_first i (bi_notify_sockets info)) info else info)) as Hu.
  unfold drop_socket. rewrite bind_unfold. unfold get_buffer in *. rewrite bind_unfold. simpl.
  destruct (dict_get id (ALLOCATED_BUFFERS s)) as [b|] eqn:Eb; simpl; [|done].
  destruct (bool_decide (i ∈ bi_notify_sockets b)) eqn:Ei; simpl; [|done].
  assert (forall b0 : bool, forall b' b1, bi_ref_count (if b0 then set_notify_sockets b1 b' else b') = bi_ref_count b') as Hif by (by intros []).
  specialize (Hu (fun b' => Hif _ b' _) s Hs).
  rewrite bind_unfold, bind_unfold in Hu. simpl in Hu. rewrite Eb in Hu. simpl in Hu.
  by rewrite Ei in Hu.
Qed.

Lemma frame_notify_consumers id msg : framed (notify_consumers (W:=W) (C:=C) id msg).
Proof.
  unfold notify_consumers, notify_each, sock_sendall. pose proof (frame_drop_socket id). preserves_tac.
Qed.

Lemma frame_pre_update id : framed (send_pre_update_signal (W:=W) (C:=C) id).
Proof.
  unfold send_pre_update_signal, buffer_known.
  pose proof (frame_notify_consumers id (line "PRE_UPDATE")). preserves_tac.
Qed.

#[local] Hint Resolve frame_notify_consumers frame_pre_update : wpi.

Lemma frame_notify_client id i : framed (serve_notify_client (W:=W) (C:=C) id i).
Proof.
  unfold serve_notify_client, buffer_known. apply preserves_bind; [apply preserves_get|].
  intros [|]; [|auto with wpi].
  by apply (frame_update id (fun info => set_notify_sockets (bi_notify_sockets info ++ [i]) info)).
Qed.

(** A relocated copy has no reference count, and is put where there was no entry. *)
Lemma frame_relocate id info n :
  V (relocate_key id n) = None -> framed (relocate (W:=W) (C:=C) env id info n).
Proof.
  intros Hn. unfold relocate, memcpy_device_to_device. preserves_tac.
  apply preserves_modify. intros s (Hwf & Hk & Hv). split; [simpl; auto with wpi|].
  split; [done|]. intros k'. simpl. rewrite ref_view_set_same; [apply Hv|]. by rewrite Hv, Hn.
Qed.

Lemma frame_choose_fd i id info n : framed (choose_fd (W:=W) (C:=C) env i id info n).
Proof.
  intros s Hs. unfold choose_fd. destruct (negb _); [|done]. rewrite bind_unfold. simpl.
  destruct (dict_mem _ _) eqn:Em.
  - match goal with |- frame K V (?m s).2 => cut (framed m); [intros Hm; by apply Hm|] end.
    preserves_tac.
  - match goal with |- frame K V (?m s).2 => cut (framed m); [intros Hm; by apply Hm|] end.
    apply dict_mem_false in Em. destruct Hs as (_ & _ & Hv).
    assert (framed (relocate (W:=W) (C:=C) env id info n)) as Hr.
    { apply frame_relocate. rewrite <- Hv. unfold ref_view. by rewrite Em. }
    unfold sock_sendall. preserves_tac.
Qed.

Lemma frame_fd_client id i : framed (serve_fd_client (W:=W) (C:=C) env id i).
Proof.
  pose proof (frame_choose_fd i id).
  unfold serve_fd_client, serve_fd_client_body, read_metadata, sock_recv, decode_utf8, sock_sendmsg,
    buffer_known.
  preserves_tac.
Qed.

Lemma frame_target fuel i : framed (handle_target_connection (W:=W) (C:=C) env fuel i).
Proof. apply preserves_target; auto with wpi. Qed.

Lemma frame_propagate dial request : framed (NodePropagate (W:=W) (C:=C) env dial request).
Proof.
  assert (forall rank ip msg, framed (contact (W:=W) (C:=C) dial rank ip msg)) as H1.
  { intros. unfold contact, sock_sendall, sock_recv. preserves_tac.
    intros s Hs. unfold sock_connect. by destruct (dial rank ip). }
  unfold NodePropagate, propagate_body, contact_assignments, contact_targets, buffer_known.
  preserves_tac.
Qed.
End frames.

(** ** Staging, seen from the references *)

Section staging.
Context {W C : Type} `{CudaApi W} `{GrpcContext C} `{!GrpcLaws C} (env : Env).
Implicit Types (s : Driver W C) (request : NodeStageWeightRequest).

(** The references after one more of [id]. *)
Definition bump (id : string) (V : string -> option Z) (k : string) : option Z :=
  if decide (k = id) then Some (default 0 (V id) + 1) else V k.

Lemma frame_load_source K V path p : preserves (frame (W:=W) (C:=C) K V) (load_source env path p).
Proof.
  unfold load_source, load_tensors, memcpy_host_to_device.
  preserves_tac.
Qed.

Lemma frame_start_servers K V id : preserves (frame (W:=W) (C:=C) K V) (start_servers id).
Proof.
  assert (forall t, preserves (frame (W:=W) (C:=C) K V) (py_modify (add_thread t))) as Ht.
  { intros t. by apply frame_modify. }
  unfold start_servers. apply preserves_bind; [done|]. intros _.
  intros s Hs. rewrite <- bind_assoc.
  match goal with |- frame K V (?m s).2 => cut (preserves (frame K V) m); [intros Hm; by apply Hm|] end.
  apply preserves_bind; [|intros _; done].
  by apply (frame_update K V id (set_notify_sock_path (notify_sock_path_of id))).
Qed.

(** A put of an entry with a count. *)
Lemma frame_put K V k b n s :
  frame (W:=W) (C:=C) K V s -> bi_ref_count b = Some n ->
  default 0 (V k) + 1 = n ->
  frame K (bump k V) (set_buffers (dict_set k b) s).
Proof.
  intros (Hwf & Hk & Hv) Hb Hn. split; [simpl; auto with wpi|]. split; [done|].
  intros k'. unfold bump. simpl. case_decide as Hd; [subst k'|].
  - by rewrite ref_view_set_eq, Hn.
  - by rewrite ref_view_set_ne.
Qed.

(** What a stage of a buffer without an entry does to the references, whatever goes wrong:
    one more for the id once the entry is made, none before. *)
Lemma stage_new_frame K V request s :
  let id := stage_effective_id request in
  let r := stage_new env request s in
  frame K V s -> dict_get id (ALLOCATED_BUFFERS s) = None ->
  (frame K (bump id V) r.2 /\ (r.1 = Ret tt \/ st_source_path request <> "")) \/
  (frame K V r.2 /\ r.1 <> Ret tt).
Proof.
  intros id r Hs Hnew. subst r. unfold stage_new. rewrite bind_unfold.
  pose proof (preserves_prepare_socket_dir env (frame K V) s Hs) as Hs1.
  assert (V id = None) as HV.
  { destruct Hs as (_ & _ & Hv). rewrite <- Hv. unfold ref_view. by rewrite Hnew. }
  destruct (prepare_socket_dir env s) as [[[]|e|] s1]; [|by right..].
  rewrite bind_unfold. simpl. destruct (cuda_allocator s1) as [a|].
  2: { right. rewrite abort_run. simpl. by split; [apply frame_context|]. }
  rewrite bind_unfold.
  match goal with |- context [with_allocator ?m s1] =>
    pose proof (preserves_with_allocator (frame K V) m s1 Hs1) as Hs3;
    destruct (with_allocator m s1) as [[[[fd handle] ptr]|e|] s3]; [|by right..] end.
  left. rewrite bind_unfold. simpl. set (s4 := set_buffers _ s3).
  assert (frame K (bump id V) s4) as Hs4.
  { apply (frame_put _ _ _ _ 1); [exact Hs3|done|by rewrite HV]. }
  rewrite bind_unfold.
  pose proof (frame_load_source _ _ (st_source_path request) ptr s4 Hs4) as Hs5.
  assert (st_source_path request = "" -> load_source env (st_source_path request) ptr s4 = (Ret tt, s4)) as Hempty.
  { intros ->. done. }
  destruct (load_source env (st_source_path request) ptr s4) as [[[]|e|] s5] eqn:El.
  2-3: split; [exact Hs5|right; intros Hp; by specialize (Hempty Hp)].
  simpl in Hs5. pose proof (frame_start_servers _ _ id s5 Hs5) as Hs6. fold id. split; [exact Hs6|].
  left. destruct (dict_get id (ALLOCATED_BUFFERS s5)) as [b|] eqn:Eb.
  - by rewrite (start_servers_run id b).
  - destruct Hs5 as (_ & _ & Hv). specialize (Hv id). unfold ref_view, bump in Hv.
    by rewrite Eb, decide_True in Hv.
Qed.

(** The whole handler: the claim is registered in any case; either the buffer has one more
    reference, and the reply is OK unless a new buffer could not be loaded, or it has no
    reference and the call failed. *)
Lemma stage_frame request s :
  let id := stage_effective_id request in
  let K := <[st_claim_id request := id]> (KNOWN_CLAIMS s) in
  let V := ref_view (ALLOCATED_BUFFERS s) in
  let r := rpc (NodeStageWeight env request) s in
  dict_wf (ALLOCATED_BUFFERS s) ->
  (frame K (bump id V) r.2 /\ (r.1 = RpcOk tt \/ V id = None /\ st_source_path request <> "")) \/
  (frame K V r.2 /\ V id = None /\ r.1 <> RpcOk tt).
Proof.
  intros id K V r Hwf. subst r.
  pose proof (keeps_stage_body env request (set_context ctx_new s) law_new_status) as Hkeep.
  set (s0 := set_claims (<[st_claim_id request := id]>) (set_context ctx_new s)).
  assert (frame K V s0) as Hs0 by done.
  assert ((frame K (bump id V) (stage_body env request (set_context ctx_new s)).2 /\
      ((stage_body env request (set_context ctx_new s)).1 = Ret tt \/ V id = None /\ st_source_path request <> "")) \/
    (frame K V (stage_body env request (set_context ctx_new s)).2 /\ V id = None /\
      (stage_body env request (set_context ctx_new s)).1 <> Ret tt)) as Hbody.
  { unfold stage_body. rewrite bind_unfold. simpl. rewrite bind_unfold. simpl. fold id. fold s0.
    destruct (dict_mem id (ALLOCATED_BUFFERS s)) eqn:Em.
    - apply dict_mem_true in Em as [b Hb]. unfold add_reference.
      rewrite bind_unfold, (get_buffer_run _ b), bind_unfold by done.
      assert (V id = bi_ref_count b) as HV by (unfold V, ref_view; by rewrite Hb).
      destruct (bi_ref_count b) as [m|]; simpl; [|by right].
      left. split; [|by left]. apply (frame_put _ _ _ _ (m + 1)); [done|done|by rewrite HV].
    - apply dict_mem_false in Em.
      assert (V id = None) as HV by (unfold V, ref_view; by rewrite Em).
      destruct (stage_new_frame K V request s0 Hs0 Em) as [[Hf Hr]|[Hf Hr]];
        [left; split; [done|]|right; by split].
      destruct Hr as [Hr|Hr]; [by left|by right]. }
  unfold rpc, NodeStageWeight, py_except.
  destruct (stage_body env request (set_context ctx_new s)) as [[[]|e|] s1]; simpl in Hkeep, Hbody; [| |done].
  - unfold no_status in Hkeep. rewrite Hkeep. simpl. destruct Hbody as [[Hf _]|(_ & _ & Hr)]; [|done].
    left. by split; [|left].
  - unfold is_Exception. rewrite abort_run. simpl. rewrite law_abort_status. simpl.
    destruct Hbody as [[Hf [Hr|Hr]]|(Hf & HV & _)]; [done| |].
    + left. split; [by apply frame_context|by right].
    + right. split; [by apply frame_context|by split].
Qed.
End staging.

(** ** The driver as a transition system *)

Inductive event : Type :=
  | EvStage (request : NodeStageWeightRequest)
  | EvUnstage (claim : string)
  | EvFdClient (buffer_id : string) (conn : nat)
  | EvNotifyClient (buffer_id : string) (conn : nat)
  | EvTarget (fuel conn : nat)
  | EvPropagate (dial : Z -> string -> option Conn) (request : NodePropagateRequest)
  | EvPeers (f : gmap nat Conn -> gmap nat Conn).

(** Events that concern neither references nor claims. *)
Definition traffic (ev : event) : bool :=
  match ev with EvStage _ | EvUnstage _ => false | _ => true end.

(** ** The registry that the driver implements

    A count per staged buffer, and the buffer of each registered claim. *)

Record registry : Type := mk_registry { refs : gmap string Z; regs : gmap string string }.

(** The counts without the buffer and whatever is taken for its copies. *)
Definition free_with (id : string) (m : gmap string Z) : gmap string Z :=
  filter (fun kv => ~ (kv.1 = id \/ startswith (gpu_prefix id) kv.1 = true)) m.

Definition failed (reply : rpc_result unit) : Prop := exists details, reply = RpcFailed INTERNAL details.

Inductive registry_step : registry -> event -> option (rpc_result unit) -> registry -> Prop :=
  (** The stage leaves the buffer staged; it can only fail by not loading a new buffer. *)
  | reg_granted R request reply :
      let id := stage_effective_id request in
      (reply = RpcOk tt \/ refs R !! id = None /\ st_source_path request <> "" /\ failed reply) ->
      registry_step R (EvStage request) (Some reply)
        (mk_registry (<[id := default 0 (refs R !! id) + 1]> (refs R))
           (<[st_claim_id request := id]> (regs R)))
  (** The stage leaves no buffer, but a registered claim. *)
  | reg_refused R request reply :
      let id := stage_effective_id request in
      refs R !! id = None -> failed reply ->
      registry_step R (EvStage request) (Some reply)
        (mk_registry (refs R) (<[st_claim_id request := id]> (regs R)))
  | reg_unstage_last R claim id n :
      regs R !! claim = Some id -> refs R !! id = Some n -> n <= 1 ->
      registry_step R (EvUnstage claim) (Some (RpcOk tt))
        (mk_registry (free_with id (refs R)) (delete claim (regs R)))
  | reg_unstage_shared R claim id n :
      regs R !! claim = Some id -> refs R !! id = Some n -> 1 < n ->
      registry_step R (EvUnstage claim) (Some (RpcOk tt))
        (mk_registry (<[id := n - 1]> (refs R)) (delete claim (regs R)))
  | reg_unstage_refused R claim id reply :
      regs R !! claim = Some id -> refs R !! id = None -> reply = RpcOk tt \/ failed reply ->
      registry_step R (EvUnstage claim) (Some reply) (mk_registry (refs R) (delete claim (regs R)))
  | reg_unstage_unknown R claim :
      regs R !! claim = None -> registry_step R (EvUnstage claim) (Some (RpcOk tt)) R
  | reg_traffic R ev : traffic ev = true -> registry_step R ev None R.

Section system.
Context {W C : Type} `{CudaApi W} `{GrpcContext C} `{!GrpcLaws C} (env : Env).
Implicit Types (s : Driver W C) (A : store) (R : registry).

(** One request with its reply, or one connection, or bytes and connections that arrive. *)
Inductive step : Driver W C -> event -> option (rpc_result unit) -> Driver W C -> Prop :=
  | step_stage s request :
      step s (EvStage request) (Some (rpc (NodeStageWeight env request) s).1)
        (rpc (NodeStageWeight env request) s).2
  | step_unstage s claim :
      step s (EvUnstage claim) (Some (rpc (NodeUnstageWeight claim) s).1)
        (rpc (NodeUnstageWeight claim) s).2
  | step_fd s id conn : step s (EvFdClient id conn) None (serve_fd_client env id conn s).2
  | step_notify s id conn : step s (EvNotifyClient id conn) None (serve_notify_client id conn s).2
  | step_target s fuel conn :
      step s (EvTarget fuel conn) None (handle_target_connection env fuel conn s).2
  | step_propagate s dial request :
      step s (EvPropagate dial request) None (rpc (NodePropagate env dial request) s).2
  | step_peers s f : step s (EvPeers f) None (set_conns f s).

(** The driver holds what the registry says. *)
Record tracks s R : Prop := {
  tr_wf : dict_wf (ALLOCATED_BUFFERS s);
  tr_refs k : ref_view (ALLOCATED_BUFFERS s) k = refs R !! k;
  tr_regs : KNOWN_CLAIMS s = regs R
}.

Lemma tracks_frame s' R K V :
  frame K V s' -> K = regs R -> (forall k, V k = refs R !! k) -> tracks s' R.
Proof. intros (Hwf & Hk & Hv) -> HV. split; [done| |done]. intros k. by rewrite Hv. Qed.

(** Traffic leaves references and claims alone. *)
Lemma traffic_frame s ev reply s' :
  traffic ev = true -> step s ev reply s' -> dict_wf (ALLOCATED_BUFFERS s) ->
  reply = None /\ frame (KNOWN_CLAIMS s) (ref_view (ALLOCATED_BUFFERS s)) s'.
Proof.
  intros Ht Hstep Hwf. pose proof (frame_self s Hwf) as Hs.
  destruct Hstep; try done; split; try done.
  - by apply frame_fd_client.
  - by apply frame_notify_client.
  - by apply frame_target.
  - by apply preserves_rpc, Hs; [apply _|apply frame_propagate].
Qed.

Lemma stage_failed request s :
  (rpc (NodeStageWeight env request) s).1 <> RpcOk tt -> failed (rpc (NodeStageWeight env request) s).1.
Proof. intros Hne. by destruct (stage_status_cases env request s) as [E|E]. Qed.

Lemma tracks_stage s R request :
  tracks s R ->
  exists R', registry_step R (EvStage request) (Some (rpc (NodeStageWeight env request) s).1) R' /\
    tracks (rpc (NodeStageWeight env request) s).2 R'.
Proof.
  intros [Hwf Hr Hk]. set (id := stage_effective_id request).
  destruct (stage_frame env request s Hwf) as [[Hf Hrep]|(Hf & HV & Hrep)]; fold id in Hf.
  - eexists. split; [apply reg_granted|eapply tracks_frame; [exact Hf|simpl; by rewrite Hk|]].
    + destruct (decide (ref_view (ALLOCATED_BUFFERS s) id = None /\ st_source_path request <> "")) as [[H1 H2]|Hno].
      * destruct (stage_status_cases env request s) as [E|E]; [by left|].
        right. split_and!; [by rewrite <- Hr|done|done].
      * left. destruct Hrep as [Hrep|Hrep]; [done|]. by destruct Hno.
    + intros k. simpl. unfold bump. fold id. rewrite !Hr. destruct (decide (k = id)) as [->|Hne].
      * by rewrite lookup_insert_eq.
      * by rewrite lookup_insert_ne.
  - eexists. split; [apply reg_refused|eapply tracks_frame; [exact Hf|simpl; by rewrite Hk|exact Hr]].
    + by rewrite <- Hr.
    + by apply stage_failed.
Qed.

(** The references after an unstage of a registered claim. *)
Lemma unstage_refs claim id n s :
  dict_wf (ALLOCATED_BUFFERS s) -> KNOWN_CLAIMS s !! claim = Some id ->
  ref_view (ALLOCATED_BUFFERS s) id = Some n ->
  let s' := (rpc (NodeUnstageWeight claim) s).2 in
  (rpc (NodeUnstageWeight claim) s).1 = RpcOk tt /\
  dict_wf (ALLOCATED_BUFFERS s') /\ KNOWN_CLAIMS s' = delete claim (KNOWN_CLAIMS s) /\
  forall k, ref_view (ALLOCATED_BUFFERS s') k =
    if n <=? 1 then
      (if decide (k = id \/ startswith (gpu_prefix id) k = true) then None
       else ref_view (ALLOCATED_BUFFERS s) k)
    else if decide (k = id) then Some (n - 1) else ref_view (ALLOCATED_BUFFERS s) k.
Proof.
  intros Hwf Hc Hr s'. unfold ref_view in Hr.
  destruct (dict_get id (ALLOCATED_BUFFERS s)) as [b|] eqn:Hb; [|done]. simpl in Hr.
  destruct (n <=? 1) eqn:En; zify_bools.
  - destruct (unstage_last_run claim id b n s) as (s1 & E & Hk & Hwf' & Hg); try done.
    unfold s'. rewrite E. split_and!; try done. intros k. unfold ref_view. simpl. rewrite Hg.
    by case_bool_decide; case_decide.
  - destruct (unstage_shared_run claim id b n s) as (s1 & E & Hk & Hwf' & Hg & Ho & _); try done.
    unfold s'. rewrite E. split_and!; try done; [by auto|]. intros k. unfold ref_view. simpl.
    destruct (decide (k = id)) as [->|Hk']; [by rewrite Hg|]. by rewrite Ho.
Qed.

(** An unstage of a claim whose buffer has no reference only forgets the claim. *)
Lemma unstage_refused_run claim id s :
  KNOWN_CLAIMS s !! claim = Some id -> ref_view (ALLOCATED_BUFFERS s) id = None ->
  let r := rpc (NodeUnstageWeight claim) s in
  (r.1 = RpcOk tt \/ failed r.1) /\ KNOWN_CLAIMS r.2 = delete claim (KNOWN_CLAIMS s) /\
  ALLOCATED_BUFFERS r.2 = ALLOCATED_BUFFERS s.
Proof.
  intros Hc Hr. unfold ref_view in Hr. destruct (dict_get id (ALLOCATED_BUFFERS s)) as [b|] eqn:Hb.
  - simpl in Hr. unfold rpc, NodeUnstageWeight, py_except.
    rewrite (unstage_body_known claim id b) by done. unfold drop_reference.
    rewrite bind_unfold, (get_buffer_run _ b), bind_unfold, Hr by done. simpl.
    unfold is_Exception. rewrite abort_run. simpl. rewrite law_abort_status. simpl.
    split_and!; [right; by eexists|done|done].
  - intros r. unfold r, NodeUnstageWeight.
    rewrite (rpc_except_ret (unstage_body claim) tt s (set_claims (delete claim) (set_context ctx_new s)));
      [split_and!; by auto| |done].
    unfold unstage_body. rewrite bind_unfold. simpl. rewrite Hc, bind_unfold. simpl. rewrite bind_unfold. simpl.
    by rewrite (proj2 (dict_mem_false _ _)).
Qed.

Lemma unstage_unknown_run claim s :
  KNOWN_CLAIMS s !! claim = None ->
  rpc (NodeUnstageWeight claim) s = (RpcOk tt, set_context ctx_new s).
Proof.
  intros Hc. apply rpc_except_ret; [|done]. unfold unstage_body. rewrite bind_unfold. simpl. by rewrite Hc.
Qed.

Lemma tracks_unstage s R claim :
  tracks s R ->
  exists R', registry_step R (EvUnstage claim) (Some (rpc (NodeUnstageWeight claim) s).1) R' /\
    tracks (rpc (NodeUnstageWeight claim) s).2 R'.
Proof.
  intros [Hwf Hr Hk]. destruct (KNOWN_CLAIMS s !! claim) as [id|] eqn:Hc.
  2: { rewrite unstage_unknown_run by done. exists R. split; [|by split]. apply reg_unstage_unknown. by rewrite <- Hk. }
  assert (regs R !! claim = Some id) as Hc' by (by rewrite <- Hk).
  destruct (ref_view (ALLOCATED_BUFFERS s) id) as [n|] eqn:Hn.
  - destruct (unstage_refs claim id n s Hwf Hc Hn) as (-> & Hwf' & Hk' & Hv). rewrite Hr in Hn.
    destruct (n <=? 1) eqn:En; zify_bools.
    + eexists. split; [by eapply reg_unstage_last|]. split; [done| |simpl; by rewrite Hk', Hk].
      intros k. rewrite Hv, Hr. simpl. unfold free_with. rewrite map_lookup_filter.
      destruct (refs R !! k); simpl; repeat case_decide; try done; case_guard; naive_solver.
    + eexists. split; [by eapply reg_unstage_shared|]. split; [done| |simpl; by rewrite Hk', Hk].
      intros k. rewrite Hv. simpl. destruct (decide (k = id)) as [->|Hne].
      * by rewrite lookup_insert_eq.
      * by rewrite lookup_insert_ne.
  - destruct (unstage_refused_run claim id s Hc Hn) as (Hrep & Hk' & Hb').
    eexists. split; [eapply reg_unstage_refused; [exact Hc'|by rewrite <- Hr|exact Hrep]|].
    split; simpl; [by rewrite Hb'|intros k; by rewrite Hb'|by rewrite Hk', Hk].
Qed.

Lemma tracks_step s R ev reply s' :
  tracks s R -> step s ev reply s' ->
  exists R', registry_step R ev reply R' /\ tracks s' R'.
Proof.
  intros HR Hstep. destruct (traffic ev) eqn:Ht.
  - pose proof HR as [Hwf Hr Hk]. destruct (traffic_frame s ev reply s' Ht Hstep Hwf) as [-> Hf].
    exists R. split; [by constructor|]. eapply tracks_frame; [exact Hf|done|done].
  - destruct Hstep; try done; [by apply tracks_stage|by apply tracks_unstage].
Qed.

(** ** Who holds what

    Outside of the failures the registry is a set of holders per buffer. The history of a
    driver says which claims hold a buffer, and which ones a failed stage left registered
    without one. *)

(** The driver implements the store with the holders [A], beside the refused claims [F]. *)
Record accounts s A (F : gmap string string) : Prop := {
  acc_wf : dict_wf (ALLOCATED_BUFFERS s);
  acc_refs id : ref_view (ALLOCATED_BUFFERS s) id = (fun X => Z.of_nat (size X)) <$> A !! id;
  acc_nonempty id X : A !! id = Some X -> X <> ∅;
  acc_claims claim id :
    KNOWN_CLAIMS s !! claim = Some id <-> (exists X, A !! id = Some X /\ claim ∈ X) \/ F !! claim = Some id;
  acc_refused claim id : F !! claim = Some id -> forall id' X, A !! id' = Some X -> claim ∉ X
}.

Lemma implements_accounts s A : implements s A <-> accounts s A ∅.
Proof.
  split; intros [Hwf Hr Hne Hc]; split; try done.
  - intros claim id. rewrite Hc, lookup_empty. split; [by left|by intros [?|?]].
  - intros claim id. rewrite Hc, lookup_empty. split; [by intros [?|?]|by left].
Qed.

(** A claim that holds nothing. *)
Definition idle (claim : string) A : Prop := forall id X, A !! id = Some X -> claim ∉ X.

Lemma size_claim_gone (X : gset string) claim :
  claim ∈ X -> Z.of_nat (size (X ∖ {[claim]})) = Z.of_nat (size X) - 1.
Proof.
  intros Hc. rewrite size_difference by set_solver. rewrite size_singleton.
  assert (size X <> 0%nat); [|lia]. intros E%size_empty_inv. set_solver.
Qed.

Lemma store_stage_lookup claim id A k :
  store_stage claim id A !! k =
    if decide (k = id) then Some ({[claim]} ∪ default ∅ (A !! id)) else A !! k.
Proof.
  unfold store_stage. destruct (decide (k = id)) as [->|Hne]; [by rewrite lookup_insert_eq|by rewrite lookup_insert_ne].
Qed.

Lemma store_unstage_lookup claim id A X k :
  A !! id = Some X ->
  store_unstage claim id A !! k =
    if decide (k = id) then (if decide (X ∖ {[claim]} = ∅) then None else Some (X ∖ {[claim]})) else A !! k.
Proof.
  intros HX. unfold store_unstage. rewrite HX. cbn [default from_option Datatypes.id].
  destruct (decide (X ∖ {[claim]} = ∅)); destruct (decide (k = id)) as [->|];
    rewrite ?lookup_delete_eq, ?lookup_insert_eq, ?lookup_delete_ne, ?lookup_insert_ne by done; done.
Qed.

(** A stage that leaves the buffer staged. *)
Lemma accounts_granted s s' claim id A F :
  accounts s A F -> idle claim A ->
  frame (<[claim := id]> (KNOWN_CLAIMS s)) (bump id (ref_view (ALLOCATED_BUFFERS s))) s' ->
  accounts s' (store_stage claim id A) (delete claim F).
Proof.
  intros [Hwf Hr Hne Hc HF] Hidle (Hwf' & Hk & Hv).
  assert (claim ∉ default ∅ (A !! id)) as Hnot.
  { destruct (A !! id) as [X|] eqn:EX; [by apply (Hidle id X)|]. apply not_elem_of_empty. }
  split; [done| | | |].
  - intros k. rewrite Hv, store_stage_lookup. unfold bump. destruct (decide (k = id)) as [->|Hk']; [|done].
    rewrite Hr. simpl. f_equal. rewrite size_union, size_singleton by set_solver.
    destruct (A !! id) as [X|]; [simpl; lia|].
    cbn [default from_option Datatypes.id]. by rewrite size_empty.
  - intros k X. rewrite store_stage_lookup. case_decide; [|apply Hne]. intros [= <-]. set_solver.
  - intros c k. rewrite Hk, store_stage_lookup. destruct (decide (c = claim)) as [->|Hcc].
    + rewrite lookup_insert_eq, lookup_delete_eq. split.
      * intros [= <-]. left. rewrite decide_True by done. eexists. split; [done|]. set_solver.
      * intros [(X & HX & Hin)|?]; [|done]. case_decide as Hd; [by rewrite Hd|]. by apply (Hidle k X) in HX.
    + rewrite lookup_insert_ne, lookup_delete_ne, Hc by done. case_decide as Hd; [subst k|done].
      split; (intros [(X & HX & Hin)|?]; [left|by right]).
      * rewrite HX. eexists. split; [done|]. simpl. set_solver.
      * injection HX as <-. destruct (A !! id) as [X'|]; simpl in Hin; [|set_solver].
        exists X'. split; [done|]. set_solver.
  - intros c k Hck k' X. apply lookup_delete_Some in Hck as [Hne' Hck]. rewrite store_stage_lookup.
    case_decide; [|by eapply HF]. intros [= <-]. apply not_elem_of_union. split; [set_solver|].
    destruct (A !! id) as [X'|] eqn:EX; [by eapply HF|]. apply not_elem_of_empty.
Qed.

(** A stage that leaves no buffer. *)
Lemma accounts_refused s s' claim id A F :
  accounts s A F -> idle claim A ->
  frame (<[claim := id]> (KNOWN_CLAIMS s)) (ref_view (ALLOCATED_BUFFERS s)) s' ->
  accounts s' A (<[claim := id]> F).
Proof.
  intros [Hwf Hr Hne Hc HF] Hidle (Hwf' & Hk & Hv). split; [done| |done| |].
  - intros k. by rewrite Hv.
  - intros c k. rewrite Hk. destruct (decide (c = claim)) as [->|Hcc].
    + rewrite !lookup_insert_eq. split; [by right|]. intros [(X & HX & Hin)|?]; [by apply Hidle in HX|done].
    + by rewrite !lookup_insert_ne.
  - intros c k Hck k' X HX. destruct (decide (c = claim)) as [->|Hcc]; [by eapply Hidle|].
    rewrite lookup_insert_ne in Hck by done. by eapply HF.
Qed.

(** An unstage of a claim that holds the buffer [id]. *)
Lemma accounts_unstage s claim id X A F :
  (forall k, k <> id -> is_Some (A !! k) -> startswith (gpu_prefix id) k = false) ->
  accounts s A F -> A !! id = Some X -> claim ∈ X ->
  accounts (rpc (NodeUnstageWeight claim) s).2 (store_unstage claim id A) F.
Proof.
  intros Hnp [Hwf Hr Hne Hc HF] HX Hin.
  assert (KNOWN_CLAIMS s !! claim = Some id) as Hk by (apply Hc; eauto).
  assert (ref_view (ALLOCATED_BUFFERS s) id = Some (Z.of_nat (size X))) as Hrid by (by rewrite Hr, HX).
  destruct (unstage_refs claim id _ s Hwf Hk Hrid) as (_ & Hwf' & Hk' & Hv).
  pose proof (size_claim_gone X claim Hin) as Hsz.
  assert (X ∖ {[claim]} = ∅ <-> Z.of_nat (size X) <= 1) as Hemp.
  { split.
    - intros E. rewrite E, size_empty in Hsz. lia.
    - intros Hle. apply leibniz_equiv, size_empty_inv. lia. }
  assert (F !! claim = None) as HFc.
  { apply eq_None_not_Some. intros [k HFk]. by apply (HF _ _ HFk id X). }
  split; [done| | | |].
  - intros k. rewrite Hv, (store_unstage_lookup _ _ _ X) by done.
    destruct (Z.of_nat (size X) <=? 1) eqn:E; zify_bools.
    + case_decide as Hd.
      * destruct (decide (k = id)) as [->|Hki]; [by rewrite decide_True by (by apply Hemp)|].
        destruct Hd as [Hd|Hd]; [done|]. destruct (A !! k) as [Y|] eqn:EY; [|done].
        rewrite Hnp in Hd by (done || by rewrite EY). done.
      * rewrite decide_False by (intros ->; apply Hd; by left). apply Hr.
    + destruct (decide (k = id)) as [->|Hki]; [|apply Hr].
      rewrite decide_False by (rewrite Hemp; lia). simpl. by rewrite Hsz.
  - intros k Y. rewrite (store_unstage_lookup _ _ _ X) by done. case_decide; [|apply Hne].
    case_decide; [done|]. by intros [= <-].
  - intros c k. rewrite Hk', (store_unstage_lookup _ _ _ X) by done. destruct (decide (c = claim)) as [->|Hcc].
    + rewrite lookup_delete_eq. split; [done|]. intros [(Y & HY & HcY)|?]; [|congruence].
      case_decide as Hki; [case_decide; [done|]; injection HY as <-; set_solver|].
      assert (KNOWN_CLAIMS s !! claim = Some k) by (apply Hc; eauto). congruence.
    + rewrite lookup_delete_ne, Hc by done. case_decide as Hki; [subst k; rewrite HX|done].
      split; (intros [(Y & HY & HcY)|?]; [left|by right]).
      * injection HY as <-. rewrite decide_False by set_solver. eexists. split; [done|]. set_solver.
      * case_decide; [done|]. injection HY as <-. eexists. split; [done|]. set_solver.
  - intros c k Hck k' Y. rewrite (store_unstage_lookup _ _ _ X) by done. case_decide.
    + case_decide; [done|]. intros [= <-]. apply not_elem_of_difference. left. by eapply HF.
    + by eapply HF.
Qed.

(** An unstage of a claim that holds nothing, and whose buffer nobody holds. *)
Lemma accounts_unstage_idle s claim A F :
  accounts s A F -> idle claim A -> (forall id, F !! claim = Some id -> A !! id = None) ->
  accounts (rpc (NodeUnstageWeight claim) s).2 A (delete claim F).
Proof.
  intros [Hwf Hr Hne Hc HF] Hidle Hfree. destruct (KNOWN_CLAIMS s !! claim) as [id|] eqn:Hk.
  - assert (F !! claim = Some id) as HFc.
    { apply Hc in Hk as [(X & HX & Hin)|?]; [|done]. by apply Hidle in HX. }
    assert (ref_view (ALLOCATED_BUFFERS s) id = None) as Hn by (by rewrite Hr, (Hfree id HFc)).
    destruct (unstage_refused_run claim id s Hk Hn) as (_ & Hk' & Hb'). split; try rewrite Hb'; try done.
    + intros c k. rewrite Hk'. destruct (decide (c = claim)) as [->|Hcc].
      * rewrite !lookup_delete_eq. split; [done|]. intros [(X & HX & Hin)|?]; [by apply Hidle in HX|done].
      * by rewrite !lookup_delete_ne.
    + intros c k Hck. apply lookup_delete_Some in Hck as [_ Hck]. by eapply HF.
  - rewrite unstage_unknown_run by done. assert (F !! claim = None) as HFc.
    { apply eq_None_not_Some. intros [k HFk]. assert (KNOWN_CLAIMS s !! claim = Some k) by (apply Hc; by right). congruence. }
    rewrite delete_id by done. by split.
Qed.

(** The ids of buffers in use. *)
Context (ids : string -> Prop).

(** No id starts with another id followed by [_gpu]. *)
Definition prefix_free : Prop :=
  forall id id', ids id -> ids id' -> startswith (gpu_prefix id) id' = false.

Definition within A : Prop := forall id, is_Some (A !! id) -> ids id.

(** The stage left the buffer staged: it replied OK, or it failed after the allocation. *)
Definition left_staged (reply : option (rpc_result unit)) (id : string) s' : bool :=
  match reply with
  | Some (RpcOk _) => true
  | _ => bool_decide (is_Some (ref_view (ALLOCATED_BUFFERS s') id))
  end.

(** The states of a driver that started empty, with the claims that hold a buffer and the
    refused ones. Stages may fail, and be tried again; a claim that holds a buffer is not
    staged again, and a refused one is not unstaged while its buffer is held by others. *)
Inductive orderly : Driver W C -> store -> gmap string string -> Prop :=
  | orderly_start s : ALLOCATED_BUFFERS s = [] -> KNOWN_CLAIMS s = ∅ -> orderly s ∅ ∅
  | orderly_stage s A F request reply s' :
      let claim := st_claim_id request in
      let id := stage_effective_id request in
      orderly s A F -> ids id -> idle claim A -> step s (EvStage request) reply s' ->
      orderly s' (if left_staged reply id s' then store_stage claim id A else A)
        (if left_staged reply id s' then delete claim F else <[claim := id]> F)
  | orderly_unstage s A F claim id X reply s' :
      orderly s A F -> A !! id = Some X -> claim ∈ X -> step s (EvUnstage claim) reply s' ->
      orderly s' (store_unstage claim id A) F
  | orderly_unstage_idle s A F claim reply s' :
      orderly s A F -> idle claim A -> (forall id, F !! claim = Some id -> A !! id = None) ->
      step s (EvUnstage claim) reply s' -> orderly s' A (delete claim F)
  | orderly_traffic s A F ev reply s' :
      orderly s A F -> traffic ev = true -> step s ev reply s' -> orderly s' A F.

Lemma accounts_start s : ALLOCATED_BUFFERS s = [] -> KNOWN_CLAIMS s = ∅ -> accounts s ∅ ∅.
Proof.
  intros Hb Hk. split.
  - rewrite Hb. constructor.
  - intros id. by rewrite Hb, lookup_empty.
  - intros id X. by rewrite lookup_empty.
  - intros claim k. rewrite Hk, !lookup_empty. split; [done|]. by intros [(X & HX & _)|?].
  - intros claim k. by rewrite lookup_empty.
Qed.

Lemma accounts_stage s request A F :
  let claim := st_claim_id request in
  let id := stage_effective_id request in
  let r := rpc (NodeStageWeight env request) s in
  accounts s A F -> idle claim A ->
  accounts r.2 (if left_staged (Some r.1) id r.2 then store_stage claim id A else A)
    (if left_staged (Some r.1) id r.2 then delete claim F else <[claim := id]> F).
Proof.
  intros claim id r HA Hidle. pose proof (acc_wf _ _ _ HA) as Hwf.
  destruct (stage_frame env request s Hwf) as [[Hf Hrep]|(Hf & HV & Hrep)];
    fold claim id in Hf; fold r in Hf, Hrep.
  - assert (left_staged (Some r.1) id r.2 = true) as ->.
    { unfold left_staged. destruct r.1; [done| |]; apply bool_decide_eq_true_2;
        destruct Hf as (_ & _ & Hv); rewrite Hv; unfold bump; by rewrite decide_True. }
    by eapply accounts_granted.
  - assert (left_staged (Some r.1) id r.2 = false) as ->.
    { unfold left_staged. destruct r.1 as [[]| |]; [done| |]; apply bool_decide_eq_false_2;
        destruct Hf as (_ & _ & Hv); fold id in HV; rewrite Hv, HV; by intros []. }
    by eapply accounts_refused.
Qed.

Lemma orderly_accounts s A F : prefix_free -> orderly s A F -> accounts s A F /\ within A.
Proof.
  intros Hpf Ho. induction Ho as [s Hb Hk|s A F request reply s' claim id _ [HA Hw] Hid Hidle Hstep
    |s A F claim id X reply s' _ [HA Hw] HX Hin Hstep|s A F claim reply s' _ [HA Hw] Hidle Hfree Hstep
    |s A F ev reply s' _ [HA Hw] Ht Hstep].
  - split; [by apply accounts_start|]. intros id [X HX]. by rewrite lookup_empty in HX.
  - inversion Hstep; subst. split; [by apply accounts_stage|]. case_match; [|done].
    intros k. rewrite store_stage_lookup. case_decide as Hd; [by rewrite Hd|apply Hw].
  - inversion Hstep; subst. split.
    + eapply accounts_unstage; [|done..]. intros k _ HkA. apply Hpf; apply Hw; [by rewrite HX|done].
    + intros k. rewrite (store_unstage_lookup _ _ _ X) by done. case_decide as Hd; [|apply Hw].
      intros _. rewrite Hd. apply Hw. by rewrite HX.
  - inversion Hstep; subst. split; [by apply accounts_unstage_idle|done].
  - split; [|done]. destruct HA as [Hwf Hr Hne Hc HF].
    destruct (traffic_frame s ev reply s' Ht Hstep Hwf) as [_ (Hwf' & Hk & Hv)].
    split; [done| |done| |done]; [intros k; by rewrite Hv|intros c k; by rewrite Hk].
Qed.

(** ** Properties *)

(** C1: forward simulation: every request and every connection that the driver serves, in
    any state and with any outcome, is a step of the registry it implements. A stage
    registers its claim in any case, and counts one more reference of the buffer, also when
    a new buffer could not be loaded; when it fails earlier it counts none. An unstage
    forgets the claim and drops one reference, and with the last one the buffer and every
    id that starts with its own and [_gpu]. Serving FD clients, consumers, targets and
    propagations changes neither counts nor claims. *)
Theorem lifecycle_refines s R ev reply s' :
  tracks s R -> step s ev reply s' ->
  exists R', registry_step R ev reply R' /\ tracks s' R'.
Proof. apply tracks_step. Qed.

(** C2: in every state of an orderly history, with failed stages and retries in it, the
    buffer of a registered claim is staged, with as many references as it has holders and
    at least one, unless the stage of the claim failed without leaving a buffer; and a
    staged buffer is held by a registered claim. No buffer is freed under a claim that
    holds it, and none outlives its holders. A history is orderly when a claim that holds a
    buffer is not staged again, a refused claim is not unstaged while others hold its
    buffer, and no id in use continues another one with [_gpu]; what happens otherwise is
    shown by [restage_inflates], [failed_claim_frees_buffer] and
    [unstage_frees_other_buffer]. *)
Theorem lifecycle_safe s A F :
  prefix_free -> orderly s A F ->
  (forall claim id, KNOWN_CLAIMS s !! claim = Some id -> F !! claim = Some id \/
     exists b X, dict_get id (ALLOCATED_BUFFERS s) = Some b /\ A !! id = Some X /\ claim ∈ X /\
       bi_ref_count b = Some (Z.of_nat (size X)) /\ 0 < Z.of_nat (size X)) /\
  (forall id b n, dict_get id (ALLOCATED_BUFFERS s) = Some b -> bi_ref_count b = Some n ->
     exists claim X, A !! id = Some X /\ claim ∈ X /\ n = Z.of_nat (size X) /\
       KNOWN_CLAIMS s !! claim = Some id).
Proof.
  intros Hpf Ho. destruct (orderly_accounts s A F Hpf Ho) as [[Hwf Hr Hne Hc HF] _]. split.
  - intros claim id [(X & HX & Hin)|HFc]%Hc; [right|by left]. specialize (Hr id). rewrite HX in Hr.
    unfold ref_view in Hr. destruct (dict_get id (ALLOCATED_BUFFERS s)) as [b|]; [|done]. simpl in Hr.
    exists b, X. split_and!; try done. pose proof (size_claim_gone X claim Hin). lia.
  - intros id b n Hb Hn. specialize (Hr id). unfold ref_view in Hr. rewrite Hb in Hr. simpl in Hr.
    rewrite Hn in Hr. destruct (A !! id) as [X|] eqn:HX; [|done]. injection Hr as ->.
    destruct (set_choose_L X) as [claim Hclaim]; [by eapply Hne|].
    exists claim, X. split_and!; try done. apply Hc. eauto.
Qed.

End system.

(** *** Outside of the discipline *)

Section outside.
Context {W C : Type} `{CudaApi W} `{GrpcContext C} `{!GrpcLaws C} (env : Env).
Implicit Types (s : Driver W C) (A : store).

(** C23: a claim whose stage found no memory stays registered, so that unstaging it, as
    the clean-up of the failure, frees the buffer that another claim has staged meanwhile:
    the other claim is registered and its buffer is gone. *)
Theorem failed_claim_frees_buffer request request' e a a1 a2 r s :
  let claim := st_claim_id request in
  let claim' := st_claim_id request' in
  let id := stage_effective_id request in
  let alloc q := stage_allocate (weight_size_bytes (st_size_bytes q))
    (stage_gpu_id env (stage_sharded q) (st_shard_index q)) in
  dict_wf (ALLOCATED_BUFFERS s) -> dict_get id (ALLOCATED_BUFFERS s) = None ->
  socket_dir_permitted env = true -> cuda_allocator s = Some a ->
  alloc request a = (Raise e, a1) ->
  stage_effective_id request' = id -> claim <> claim' -> st_source_path request' = "" ->
  alloc request' a1 = (Ret r, a2) ->
  exists s1 s2 s3 details,
    rpc (NodeStageWeight env request) s = (RpcFailed INTERNAL details, s1) /\
    rpc (NodeStageWeight env request') s1 = (RpcOk tt, s2) /\
    KNOWN_CLAIMS s2 !! claim = Some id /\ KNOWN_CLAIMS s2 !! claim' = Some id /\
    ref_view (ALLOCATED_BUFFERS s2) id = Some 1 /\
    rpc (NodeUnstageWeight claim) s2 = (RpcOk tt, s3) /\
    KNOWN_CLAIMS s3 !! claim' = Some id /\ dict_get id (ALLOCATED_BUFFERS s3) = None.
Proof.
  intros claim claim' id alloc Hwf Hnew Hdir Ha Hfail Hid Hne Hsrc Halloc.
  assert (exists s1 details, rpc (NodeStageWeight env request) s = (RpcFailed INTERNAL details, s1) /\
    ALLOCATED_BUFFERS s1 = ALLOCATED_BUFFERS s /\ KNOWN_CLAIMS s1 = <[claim := id]> (KNOWN_CLAIMS s) /\
    cuda_allocator s1 = Some a1) as (s1 & details & E1 & Hb1 & Hk1 & Ha1).
  { unfold rpc, NodeStageWeight, py_except, stage_body. rewrite bind_unfold. simpl. rewrite bind_unfold. simpl.
    fold id. rewrite (proj2 (dict_mem_false _ _) Hnew). unfold stage_new.
    rewrite bind_unfold, prepare_socket_dir_run by done. rewrite bind_unfold. simpl. rewrite Ha.
    rewrite bind_unfold. erewrite with_allocator_run by (try apply Ha; apply Hfail).
    unfold is_Exception. rewrite abort_run. simpl. rewrite law_abort_status. simpl.
    eexists _, _. split_and!; reflexivity. }
  destruct r as [[fd handle] ptr].
  destruct (stage_new_run env request' a1 a2 fd handle ptr s1) as (s2 & E2 & Hb2 & Hk2 & _);
    [by rewrite Hid, Hb1|done..|].
  set (b := set_notify_sock_path _ _) in Hb2. rewrite Hid in Hb2, Hk2. fold claim' in Hk2.
  assert (dict_get id (ALLOCATED_BUFFERS s2) = Some b) as Hg2 by (rewrite Hb2; apply dict_get_set_eq).
  assert (KNOWN_CLAIMS s2 !! claim = Some id) as Hc2.
  { rewrite Hk2, Hk1, lookup_insert_ne by done. apply lookup_insert_eq. }
  assert (KNOWN_CLAIMS s2 !! claim' = Some id) as Hc2' by (rewrite Hk2; apply lookup_insert_eq).
  destruct (unstage_last_run claim id b 1 s2) as (s3 & E3 & Hk3 & _ & Hg3); try done.
  { rewrite Hb2, Hb1. auto with wpi. }
  exists s1, s2, s3, details. split_and!; try done.
  - unfold ref_view. by rewrite Hg2.
  - by rewrite Hk3, lookup_delete_ne.
  - rewrite Hg3. by rewrite bool_decide_eq_true_2 by (by left).
Qed.

(** C36: a buffer whose id is another one's followed by [_gpu] and anything is freed with
    that other buffer, while its own claim is still registered: the driver implements no
    store any more. *)
Theorem unstage_frees_other_buffer claim claim' id suffix b b' s :
  let id' := id +:+ "_gpu" +:+ suffix in
  dict_wf (ALLOCATED_BUFFERS s) ->
  KNOWN_CLAIMS s !! claim = Some id -> KNOWN_CLAIMS s !! claim' = Some id' ->
  dict_get id (ALLOCATED_BUFFERS s) = Some b -> bi_ref_count b = Some 1 ->
  dict_get id' (ALLOCATED_BUFFERS s) = Some b' ->
  exists s', rpc (NodeUnstageWeight claim) s = (RpcOk tt, s') /\
    KNOWN_CLAIMS s' !! claim' = Some id' /\ dict_get id' (ALLOCATED_BUFFERS s') = None /\
    forall A, ~ implements s' A.
Proof.
  intros id' Hwf Hc Hc' Hb Hn Hb'.
  destruct (unstage_last_run claim id b 1 s) as (s' & E & Hk & _ & Hg); [done..|].
  assert (startswith (gpu_prefix id) id' = true) as Hp.
  { apply startswith_spec. exists suffix. unfold gpu_prefix, id'. by rewrite string_app_assoc. }
  assert (id <> id') as Hne by (intros E'; rewrite <- E', gpu_prefix_not_self in Hp; done).
  assert (KNOWN_CLAIMS s' !! claim' = Some id') as Hk'.
  { rewrite Hk, lookup_delete_ne; [done|]. intros ->. congruence. }
  assert (dict_get id' (ALLOCATED_BUFFERS s') = None) as Hg'.
  { rewrite Hg. by rewrite bool_decide_eq_true_2 by eauto. }
  exists s'. split_and!; [done|done|done|].
  intros A [_ Hr _ Hcl]. apply Hcl in Hk' as (X & HX & _). specialize (Hr id').
  unfold ref_view in Hr. by rewrite Hg', HX in Hr.
Qed.

(** The holders of a buffer are the claims that name it. *)
Lemma implements_holders s A id X claim :
  implements s A -> A !! id = Some X -> claim ∈ X <-> KNOWN_CLAIMS s !! claim = Some id.
Proof.
  intros [_ _ _ Hc] HX. rewrite Hc. split; [eauto|]. intros (X' & HX' & Hin). congruence.
Qed.

(** Staging a registered claim again, as a retry does, adds a reference that no
    unstage removes: after the claim is unstaged the buffer has as many references as
    before the retry, one more than it has claims, and the driver implements no store. *)
Theorem restage_inflates request A s :
  let claim := st_claim_id request in
  let id := stage_effective_id request in
  implements s A -> KNOWN_CLAIMS s !! claim = Some id ->
  exists s1 s2 n,
    rpc (NodeStageWeight env request) s = (RpcOk tt, s1) /\
    rpc (NodeUnstageWeight claim) s1 = (RpcOk tt, s2) /\
    KNOWN_CLAIMS s2 = delete claim (KNOWN_CLAIMS s) /\
    0 < n /\ ref_view (ALLOCATED_BUFFERS s) id = Some n /\
    ref_view (ALLOCATED_BUFFERS s2) id = Some n /\
    forall A', ~ implements s2 A'.
Proof.
  intros claim id Himp Hc.
  assert (exists X, A !! id = Some X /\ claim ∈ X) as (X & HX & Hin) by (by apply Himp).
  pose proof (impl_refs s A Himp id) as Hr. rewrite HX in Hr. unfold ref_view in Hr.
  destruct (dict_get id (ALLOCATED_BUFFERS s)) as [b|] eqn:Hb; [|done]. simpl in Hr.
  set (n := Z.of_nat (size X)) in *. pose proof (size_claim_gone X claim Hin) as Hsz.
  set (s1 := set_buffers (dict_set id (set_ref_count (n + 1) b))
    (set_claims <[claim := id]> (set_context ctx_new s))).
  destruct (unstage_shared_run claim id (set_ref_count (n + 1) b) (n + 1) s1)
    as (s2 & E2 & Hk2 & _ & Hg2 & _);
    [apply lookup_insert_eq|apply dict_get_set_eq|done|lia|].
  assert (KNOWN_CLAIMS s2 = delete claim (KNOWN_CLAIMS s)) as Hk.
  { rewrite Hk2. simpl. by rewrite delete_insert_eq. }
  assert (ref_view (ALLOCATED_BUFFERS s2) id = Some n) as Hv.
  { unfold ref_view. rewrite Hg2. simpl. f_equal. lia. }
  exists s1, s2, n. split_and!; [|done|done|lia|unfold ref_view; by rewrite Hb|done|].
  - unfold rpc. rewrite (stage_known_run env request b n) by done. simpl. by rewrite law_new_status.
  - intros A' Himp'. pose proof (impl_refs s2 A' Himp' id) as Hr'. rewrite Hv in Hr'.
    destruct (A' !! id) as [X'|] eqn:HX'; [|done]. injection Hr' as Hr'.
    assert (X' = X ∖ {[claim]}) as ->; [|lia]. apply set_eq. intros c.
    rewrite (implements_holders s2 A' id X' c), Hk, lookup_delete_Some by done.
    rewrite <- (implements_holders s A id X c) by done. set_solver.
Qed.
End outside.

(** ** Witnesses *)

Definition demo_ids (k : string) : Prop := k = "m" \/ k = "n".

Lemma demo_prefix_free : prefix_free demo_ids.
Proof. intros id id' [->| ->] [->| ->]; reflexivity. Qed.

Lemma demo_tracks : tracks Demo.start (mk_registry ∅ ∅).
Proof. split; [apply NoDup_nil_2|intros k; reflexivity|reflexivity]. Qed.

(** A driver on a machine without any free device memory refuses "c1", and is asked again. *)
Lemma demo_step request :
  step Demo.env Demo.start (EvStage request) (Some (rpc (NodeStageWeight Demo.env request) Demo.start).1)
    (rpc (NodeStageWeight Demo.env request) Demo.start).2.
Proof. constructor. Qed.

Lemma lifecycle_refines_witness :
  exists R', registry_step (mk_registry ∅ ∅) (EvStage (Demo.request "c1" "m" (4 * MiB))) (Some (RpcOk tt)) R' /\
    tracks (Demo.staged "c1" "m" (4 * MiB)) R'.
Proof.
  destruct (lifecycle_refines Demo.env Demo.start (mk_registry ∅ ∅) _ _ _ demo_tracks
    (demo_step (Demo.request "c1" "m" (4 * MiB)))) as (R' & H1 & H2).
  exists R'. split; [exact H1|exact H2].
Defined.

Module LifecycleDemo.
(** Two claims, for "m" and for "m_gpu_cache". *)
Definition s0 : Demo.driver :=
  (rpc (NodeStageWeight Demo.env (Demo.request "c2" "m_gpu_cache" (4 * MiB)))
     (Demo.staged "c1" "m" (4 * MiB))).2.

(** A request for more memory than there is. *)
Definition huge : NodeStageWeightRequest := Demo.request "c0" "m" (2 ^ 63).

Definition request : NodeStageWeightRequest := Demo.request "c1" "m" (4 * MiB).

(** The driver after the failed stage of "c0", and after that of "c1". *)
Definition s1 : Demo.driver := (rpc (NodeStageWeight Demo.env huge) Demo.start).2.
Definition s2 : Demo.driver := (rpc (NodeStageWeight Demo.env request) s1).2.
End LifecycleDemo.

(** The failed stage leaves a refused claim, the other one holds the buffer. *)
Lemma demo_orderly :
  orderly Demo.env demo_ids LifecycleDemo.s2 (store_stage "c1" "m" ∅) (delete "c1" (<["c0" := "m"]> ∅)).
Proof.
  assert (orderly Demo.env demo_ids LifecycleDemo.s1 ∅ (<["c0" := "m"]> ∅)) as H1.
  { assert (left_staged (Some (rpc (NodeStageWeight Demo.env LifecycleDemo.huge) Demo.start).1) "m"
      LifecycleDemo.s1 = false) as E by (vm_compute; reflexivity).
    pose proof (orderly_stage Demo.env demo_ids Demo.start ∅ ∅ LifecycleDemo.huge _ _
      (orderly_start Demo.env demo_ids Demo.start eq_refl eq_refl) (or_introl eq_refl)
      ltac:(intros k X HX; by rewrite lookup_empty in HX) (demo_step LifecycleDemo.huge)) as Ho.
    cbv zeta in Ho. change (stage_effective_id LifecycleDemo.huge) with "m" in Ho.
    change (st_claim_id LifecycleDemo.huge) with "c0" in Ho.
    change ((rpc (NodeStageWeight Demo.env LifecycleDemo.huge) Demo.start).2) with LifecycleDemo.s1 in Ho.
    by rewrite E in Ho. }
  assert (left_staged (Some (rpc (NodeStageWeight Demo.env LifecycleDemo.request) LifecycleDemo.s1).1) "m"
    LifecycleDemo.s2 = true) as E by (vm_compute; reflexivity).
  pose proof (orderly_stage Demo.env demo_ids LifecycleDemo.s1 ∅ _ LifecycleDemo.request _ _ H1
    (or_introl eq_refl) ltac:(intros k X HX; by rewrite lookup_empty in HX)
    (step_stage Demo.env LifecycleDemo.s1 LifecycleDemo.request)) as Ho.
  cbv zeta in Ho. change (stage_effective_id LifecycleDemo.request) with "m" in Ho.
  change (st_claim_id LifecycleDemo.request) with "c1" in Ho.
  change ((rpc (NodeStageWeight Demo.env LifecycleDemo.request) LifecycleDemo.s1).2) with LifecycleDemo.s2 in Ho.
  by rewrite E in Ho.
Qed.

Lemma lifecycle_safe_witness :
  exists b, dict_get "m" (ALLOCATED_BUFFERS LifecycleDemo.s2) = Some b /\ bi_ref_count b = Some 1.
Proof.
  destruct (proj1 (lifecycle_safe Demo.env demo_ids LifecycleDemo.s2 _ _ demo_prefix_free demo_orderly)
    "c1" "m") as [E|(b & X & H1 & H2 & _ & H4 & _)].
  - vm_compute. reflexivity.
  - rewrite lookup_delete_eq in E. discriminate E.
  - exists b. split; [exact H1|]. rewrite H4. do 2 f_equal.
    unfold store_stage in H2. rewrite lookup_insert_eq in H2. injection H2 as <-. vm_compute. reflexivity.
Defined.

Definition demo_alloc (q : NodeStageWeightRequest) : py (CudaAllocator Sim.sim) (Z * Z * Z) :=
  stage_allocate (weight_size_bytes (st_size_bytes q))
    (stage_gpu_id Demo.env (stage_sharded q) (st_shard_index q)).

Lemma demo_alloc_fails : exists e, (demo_alloc LifecycleDemo.huge Demo.allocator0).1 = Raise e.
Proof. eexists. vm_compute. reflexivity. Qed.

Lemma demo_alloc_again :
  exists r, (demo_alloc LifecycleDemo.request (demo_alloc LifecycleDemo.huge Demo.allocator0).2).1 = Ret r.
Proof. eexists. vm_compute. reflexivity. Qed.

Lemma failed_claim_frees_buffer_witness :
  exists s1 s2 s3 d, rpc (NodeStageWeight Demo.env LifecycleDemo.huge) Demo.start = (RpcFailed INTERNAL d, s1) /\
    rpc (NodeStageWeight Demo.env LifecycleDemo.request) s1 = (RpcOk tt, s2) /\
    rpc (NodeUnstageWeight "c0") s2 = (RpcOk tt, s3) /\
    KNOWN_CLAIMS s3 !! "c1" = Some "m" /\ dict_get "m" (ALLOCATED_BUFFERS s3) = None.
Proof.
  destruct demo_alloc_fails as [e E1]. destruct demo_alloc_again as [r E2].
  destruct (failed_claim_frees_buffer Demo.env LifecycleDemo.huge LifecycleDemo.request e Demo.allocator0
    (demo_alloc LifecycleDemo.huge Demo.allocator0).2
    (demo_alloc LifecycleDemo.request (demo_alloc LifecycleDemo.huge Demo.allocator0).2).2
    r Demo.start) as (s1 & s2 & s3 & d & H1 & H2 & _ & _ & _ & H3 & H4 & H5).
  - apply NoDup_nil_2.
  - reflexivity.
  - vm_compute. reflexivity.
  - reflexivity.
  - rewrite <- E1. apply surjective_pairing.
  - reflexivity.
  - discriminate.
  - reflexivity.
  - rewrite <- E2. apply surjective_pairing.
  - exists s1, s2, s3, d. split; [exact H1|]. split; [exact H2|]. split; [exact H3|]. split; [exact H4|exact H5].
Defined.

Lemma unstage_frees_other_buffer_witness :
  exists s', rpc (NodeUnstageWeight "c1") LifecycleDemo.s0 = (RpcOk tt, s') /\
    KNOWN_CLAIMS s' !! "c2" = Some "m_gpu_cache" /\
    dict_get "m_gpu_cache" (ALLOCATED_BUFFERS s') = None /\
    forall A, ~ implements s' A.
Proof.
  apply (unstage_frees_other_buffer "c1" "c2" "m" "_cache"
    (Demo.staged_info 0 LifecycleDemo.s0 "m") (Demo.staged_info 0 LifecycleDemo.s0 "m_gpu_cache")
    LifecycleDemo.s0).
  - apply (bool_decide_unpack _). vm_compute. exact I.
  - vm_compute. reflexivity.
  - vm_compute. reflexivity.
  - vm_compute. reflexivity.
  - vm_compute. reflexivity.
  - vm_compute. reflexivity.
Defined.

Lemma demo_staged_implements : implements (Demo.staged "c1" "m" (4 * MiB)) (store_stage "c1" "m" ∅).
Proof.
  apply implements_accounts.
  pose proof (accounts_stage Demo.env Demo.start (Demo.request "c1" "m" (4 * MiB)) ∅ ∅
    (accounts_start Demo.start eq_refl eq_refl)
    ltac:(intros k X HX; by rewrite lookup_empty in HX)) as Ha.
  cbv zeta in Ha. assert (left_staged (Some (rpc (NodeStageWeight Demo.env (Demo.request "c1" "m" (4 * MiB))) Demo.start).1)
    "m" (Demo.staged "c1" "m" (4 * MiB)) = true) as E by (vm_compute; reflexivity).
  change (stage_effective_id (Demo.request "c1" "m" (4 * MiB))) with "m" in Ha.
  change (st_claim_id (Demo.request "c1" "m" (4 * MiB))) with "c1" in Ha.
  change ((rpc (NodeStageWeight Demo.env (Demo.request "c1" "m" (4 * MiB))) Demo.start).2)
    with (Demo.staged "c1" "m" (4 * MiB)) in Ha.
  rewrite E, delete_empty in Ha. exact Ha.
Qed.

Lemma restage_inflates_witness :
  exists s1 s2,
    rpc (NodeStageWeight Demo.env (Demo.request "c1" "m" (4 * MiB))) (Demo.staged "c1" "m" (4 * MiB)) =
      (RpcOk tt, s1) /\
    rpc (NodeUnstageWeight "c1") s1 = (RpcOk tt, s2) /\
    ref_view (ALLOCATED_BUFFERS s2) "m" = Some 1.
Proof.
  destruct (restage_inflates Demo.env (Demo.request "c1" "m" (4 * MiB)) (store_stage "c1" "m" ∅)
    (Demo.staged "c1" "m" (4 * MiB))) as (s1 & s2 & n & H1 & H2 & _ & _ & H5 & H6 & _).
  - exact demo_staged_implements.
  - vm_compute. reflexivity.
  - exists s1, s2. split; [exact H1|]. split; [exact H2|].
    rewrite <- H5 in H6. refine (eq_trans H6 _). vm_compute. reflexivity.
Defined.
