(* ===== verification/Client.v ===== *)
(** * WPIClient (consumer/wpi_client/client.py)

    The library of a consumer: gRPC calls to the driver, reception of a descriptor over
    the FD socket, the import of the CUDA memory behind it, and the wait for a READY
    notification. The program is parameterised by the line it sends to the FD server,
    the only place where the two copies of the library differ. *)

From S2P Require Import Prelude PyMonad PyText PyDict Cuda Allocator NodeState Stage FdServer.
From S2P Require Import Propagate.

(** ** More of the CUDA driver API *)

Class CudaContextApi (W : Type) : Type := {
  cuCtxGetCurrent : W -> Z * Z * W;
  cuDevicePrimaryCtxRetain : Z -> W -> Z * Z * W;
  cuCtxPushCurrent : Z -> W -> Z * W;
  cuCtxPopCurrent : W -> Z * Z * W;
  (** The file behind the descriptor, if there is one, and the type of the handle. *)
  cuMemImportFromShareableHandle : option Z -> Z -> W -> Z * Z * W
}.

(** Documented behaviour: a stack of contexts per thread, which the other calls leave
    alone; a query of the current context, which can fail, before [cuInit] for one; and an
    import that creates no allocation: [imports] tells the file that an imported handle
    stands for. *)
Class CudaContextLaws (W : Type) `{CudaApi W} `{CudaContextApi W} (obs : W -> cuda_obs)
    (stack : W -> list Z) (imports : W -> gmap Z Z) : Prop := {
  law_get_current w :
    ((cuCtxGetCurrent w).1.1 = 0 -> (cuCtxGetCurrent w).1.2 = default 0 (head (stack w))) /\
    stack (cuCtxGetCurrent w).2 = stack w /\ obs (cuCtxGetCurrent w).2 = obs w;
  law_retain d w :
    stack (cuDevicePrimaryCtxRetain d w).2 = stack w /\ obs (cuDevicePrimaryCtxRetain d w).2 = obs w;
  law_push c w st w' :
    cuCtxPushCurrent c w = (st, w') ->
    stack w' = (if st =? 0 then c :: stack w else stack w) /\ obs w' = obs w;
  law_pop w :
    obs (cuCtxPopCurrent w).2 = obs w /\
    match stack w with
    | [] => (cuCtxPopCurrent w).1.1 <> 0 /\ stack (cuCtxPopCurrent w).2 = []
    | c :: rest => (cuCtxPopCurrent w).1 = (0, c) /\ stack (cuCtxPopCurrent w).2 = rest
    end;
  law_import file k w :
    stack (cuMemImportFromShareableHandle file k w).2 = stack w /\
    obs (cuMemImportFromShareableHandle file k w).2 = obs w;
  law_import_file file k w h w' :
    cuMemImportFromShareableHandle file k w = (0, h, w') ->
    exists f, file = Some f /\ imports w' = <[h := f]> (imports w);
  law_get_current_imports w : imports (cuCtxGetCurrent w).2 = imports w;
  law_pop_imports w : imports (cuCtxPopCurrent w).2 = imports w;
  law_reserve_imports sz al h f w : imports (cuMemAddressReserve sz al h f w).2 = imports w;
  law_map_imports p sz o h f w : imports (cuMemMap p sz o h f w).2 = imports w;
  law_access_imports p sz d n w : imports (cuMemSetAccess p sz d n w).2 = imports w;
  law_init_stack f w : stack (cuInit f w).2 = stack w /\ obs (cuInit f w).2 = obs w;
  law_device_stack d w : stack (cuDeviceGet d w).2 = stack w;
  law_gran_stack p f w : stack (cuMemGetAllocationGranularity p f w).2 = stack w;
  law_reserve_stack sz al h f w : stack (cuMemAddressReserve sz al h f w).2 = stack w;
  law_map_stack p sz o h f w : stack (cuMemMap p sz o h f w).2 = stack w;
  law_access_stack p sz d n w : stack (cuMemSetAccess p sz d n w).2 = stack w
}.

(** ** Messages *)

Definition SOL_SOCKET : Z := 1.
Definition SCM_RIGHTS : Z := 1.

(** A control message of [recvmsg]. *)
Record cmsg : Type := { cmsg_level : Z; cmsg_type : Z; cmsg_data : list Z }.

(** [array.array("i", fds)] as bytes, little-endian. *)
Definition bytes_of_int (z : Z) : list Z :=
  [z mod 256; z / 2 ^ 8 mod 256; z / 2 ^ 16 mod 256; z / 2 ^ 24 mod 256].

Definition int_of_bytes (a b c d : Z) : Z :=
  let n := a + 2 ^ 8 * b + 2 ^ 16 * c + 2 ^ 24 * d in
  if n <? 2 ^ 31 then n else n - 2 ^ 32.

(** [fds.frombytes(data[: len(data) - len(data) % 4])]: the tail is cut. *)
Fixpoint ints_of_bytes (data : list Z) : list Z :=
  match data with
  | a :: b :: c :: d :: rest => int_of_bytes a b c d :: ints_of_bytes rest
  | _ => []
  end.

(** The messages in flight to a socket that carry files, each with its files: descriptors
    are numbers of a process, what travels are the files behind them. *)
Abbreviation rights := (list (list Z)).

(** The messages that [recvmsg] delivers with room for one descriptor: the first one in the
    queue, whose first file gets a number of the receiver; the other files are lost. *)
Definition deliver_rights (new_fd : gmap Z Z -> Z) (queue : rights) (table : gmap Z Z)
    : list cmsg * rights * gmap Z Z :=
  match queue with
  | (file :: _) :: rest =>
      ([{| cmsg_level := SOL_SOCKET; cmsg_type := SCM_RIGHTS; cmsg_data := bytes_of_int (new_fd table) |}],
       rest, <[new_fd table := file]> table)
  | [] :: rest => ([], rest, table)
  | [] => ([], [], table)
  end.

Inductive rpc_call : Type :=
  | CallStage (request : NodeStageWeightRequest)
  | CallPropagate (request : NodePropagateRequest)
  | CallUnstage (claim_id : string).

(** [__cuda_array_interface__] of a raw pointer. *)
Record RawCUDATensor : Type := mk_RawCUDATensor {
  raw_shape : list Z; raw_typestr : string; raw_data : Z * bool; raw_version : Z
}.

Definition RawCUDATensor_init (ptr nbytes : Z) : RawCUDATensor :=
  mk_RawCUDATensor [nbytes] "|u1" (ptr, false) 3.

(** ** State *)

(** The machine around a client. *)
Record ClientEnv : Type := {
  environ : string -> option string;
  (** [os.path.exists] after so many seconds of sleep. *)
  path_exists : string -> Z -> bool;
  (** A [connect] after so many seconds: the connection, with the files the peer will
      send; [None] when it is refused. *)
  connect_to : string -> Z -> option (Conn * rights);
  (** The number that the kernel gives a new descriptor of the process. *)
  new_fd : gmap Z Z -> Z;
  (** [ctypes.CDLL] finds the library. *)
  cdll : string -> bool;
  (** The driver's answer to a call. *)
  answer : rpc_call -> rpc_result unit
}.

Record WPIClient (W : Type) : Type := mk_WPIClient {
  socket_dir : string;
  driver_host : string;
  driver_port : Z;
  (** Where [_grpc_channel] and [_grpc_stub] lead; both are [None] or neither. *)
  grpc_target : option string;
  notify_socket : option nat;
  libcuda_loaded : bool;
  cuda_ctx : option Z;
  cuda_device : option Z;
  (** [getattr(self, "pushed_context", False)]. *)
  pushed_context : bool;
  cuda : W;
  socks : gmap nat Conn;
  control : gmap nat rights;
  (** The descriptors of the process that it received, with their files. *)
  fd_table : gmap Z Z;
  next_sock : nat;
  clock : Z;
  calls : list (string * rpc_call)
}.
Arguments mk_WPIClient {W}.
Arguments socket_dir {W}.
Arguments driver_host {W}.
Arguments driver_port {W}.
Arguments grpc_target {W}.
Arguments notify_socket {W}.
Arguments libcuda_loaded {W}.
Arguments cuda_ctx {W}.
Arguments cuda_device {W}.
Arguments pushed_context {W}.
Arguments cuda {W}.
Arguments socks {W}.
Arguments control {W}.
Arguments fd_table {W}.
Arguments next_sock {W}.
Arguments clock {W}.
Arguments calls {W}.

(** [WPIClient(socket_dir, driver_host, driver_port)] in a process whose CUDA state is [w]. *)
Definition WPIClient_init {W} (dir host : string) (port : Z) (w : W) : WPIClient W :=
  mk_WPIClient dir host port None None false None None false w ∅ ∅ ∅ 0 0 [].

(** [wrap_as_buffer]: the tensor over a raw pointer, as its address and its length. *)
Definition wrap_as_buffer (device_ptr size_bytes : Z) : Z * Z :=
  let raw := RawCUDATensor_init device_ptr size_bytes in
  ((raw_data raw).1, nth 0 (raw_shape raw) 0).

Section client.
Context {W : Type} `{CudaApi W} `{CudaContextApi W} (env : ClientEnv).
#[local] Abbreviation state := (WPIClient W).

(** Updates of the attributes. *)
Definition set_grpc (t : option string) (s : state) : state :=
  mk_WPIClient (socket_dir s) (driver_host s) (driver_port s) t (notify_socket s)
    (libcuda_loaded s) (cuda_ctx s) (cuda_device s) (pushed_context s) (cuda s) (socks s)
    (control s) (fd_table s) (next_sock s) (clock s) (calls s).

Definition set_notify (n : option nat) (s : state) : state :=
  mk_WPIClient (socket_dir s) (driver_host s) (driver_port s) (grpc_target s) n
    (libcuda_loaded s) (cuda_ctx s) (cuda_device s) (pushed_context s) (cuda s) (socks s)
    (control s) (fd_table s) (next_sock s) (clock s) (calls s).

Definition set_cuda_fields (l : bool) (c d : option Z) (p : bool) (s : state) : state :=
  mk_WPIClient (socket_dir s) (driver_host s) (driver_port s) (grpc_target s) (notify_socket s)
    l c d p (cuda s) (socks s) (control s) (fd_table s) (next_sock s) (clock s) (calls s).

Definition set_cuda (w : W) (s : state) : state :=
  mk_WPIClient (socket_dir s) (driver_host s) (driver_port s) (grpc_target s) (notify_socket s)
    (libcuda_loaded s) (cuda_ctx s) (cuda_device s) (pushed_context s) w (socks s)
    (control s) (fd_table s) (next_sock s) (clock s) (calls s).

Definition set_socks (f : gmap nat Conn -> gmap nat Conn) (s : state) : state :=
  mk_WPIClient (socket_dir s) (driver_host s) (driver_port s) (grpc_target s) (notify_socket s)
    (libcuda_loaded s) (cuda_ctx s) (cuda_device s) (pushed_context s) (cuda s) (f (socks s))
    (control s) (fd_table s) (next_sock s) (clock s) (calls s).

Definition set_fd_table (t : gmap Z Z) (s : state) : state :=
  mk_WPIClient (socket_dir s) (driver_host s) (driver_port s) (grpc_target s) (notify_socket s)
    (libcuda_loaded s) (cuda_ctx s) (cuda_device s) (pushed_context s) (cuda s) (socks s)
    (control s) t (next_sock s) (clock s) (calls s).

Definition set_control (f : gmap nat rights -> gmap nat rights) (s : state) : state :=
  mk_WPIClient (socket_dir s) (driver_host s) (driver_port s) (grpc_target s) (notify_socket s)
    (libcuda_loaded s) (cuda_ctx s) (cuda_device s) (pushed_context s) (cuda s) (socks s)
    (f (control s)) (fd_table s) (next_sock s) (clock s) (calls s).

Definition tick (s : state) : state :=
  mk_WPIClient (socket_dir s) (driver_host s) (driver_port s) (grpc_target s) (notify_socket s)
    (libcuda_loaded s) (cuda_ctx s) (cuda_device s) (pushed_context s) (cuda s) (socks s)
    (control s) (fd_table s) (next_sock s) (clock s + 1) (calls s).

Definition take_sock (s : state) : state :=
  mk_WPIClient (socket_dir s) (driver_host s) (driver_port s) (grpc_target s) (notify_socket s)
    (libcuda_loaded s) (cuda_ctx s) (cuda_device s) (pushed_context s) (cuda s) (socks s)
    (control s) (fd_table s) (S (next_sock s)) (clock s) (calls s).

Definition log_call (c : string * rpc_call) (s : state) : state :=
  mk_WPIClient (socket_dir s) (driver_host s) (driver_port s) (grpc_target s) (notify_socket s)
    (libcuda_loaded s) (cuda_ctx s) (cuda_device s) (pushed_context s) (cuda s) (socks s)
    (control s) (fd_table s) (next_sock s) (clock s) (calls s ++ [c]).

(** *** gRPC *)

(** The address the channel is opened to. *)
Definition choose_target (s : state) : string :=
  match environ env "WPI_DRIVER_ADDRESS" with
  | Some (String _ _ as driver_address) => driver_address
  | _ =>
      let unix_socket_path := os_path_join (socket_dir s) "wpi-grpc.sock" in
      let socket_exists := path_exists env unix_socket_path (clock s) in
      let force_unix := bool_decide (default "0" (environ env "WPI_FORCE_UNIX_SOCKET") = "1") in
      if socket_exists || force_unix then "unix://" +:+ unix_socket_path
      else driver_host s +:+ ":" +:+ str_of_Z (driver_port s)
  end.

Definition get_grpc_stub : py state string :=
  stub ← py_get grpc_target ;
  match stub with
  | Some target => mret target
  | None =>
      target ← py_get choose_target ;
      py_modify (set_grpc (Some target)) ;;
      mret target
  end.

(** A call of the stub: its status is OK, or a [grpc.RpcError] is raised. *)
Definition invoke (target : string) (c : rpc_call) : py state (option (status_code * string)) :=
  py_modify (log_call (target, c)) ;;
  match answer env c with
  | RpcOk _ => mret None
  | RpcFailed code details => mret (Some (code, details))
  | RpcPending => py_stuck
  end.

Definition raise_status (r : option (status_code * string)) : py state unit :=
  match r with
  | None => mret tt
  | Some (_, details) => py_raise RpcError details
  end.

(** The statuses that [stage_weight] only logs. *)
Definition tolerated (code : status_code) : bool :=
  bool_decide (code = INVALID_ARGUMENT) || bool_decide (code = INTERNAL).

Definition stage_weight (buffer_id : string) (size_bytes : Z) (claim_id source_path : string)
    (shard_index total_shards : Z) : py state unit :=
  stub ← get_grpc_stub ;
  r ← invoke stub (CallStage
        {| st_claim_id := claim_id; st_buffer_id := buffer_id; st_source_path := source_path;
           st_size_bytes := size_bytes; st_shard_index := shard_index;
           st_total_shards := total_shards |}) ;
  match r with
  | Some (code, _) => if tolerated code then mret tt else raise_status r
  | None => mret tt
  end.

Definition propagate (buffer_id : string) (nodes : list string) (mode : Z)
    (assignments : list ShardAssignment) : py state unit :=
  stub ← get_grpc_stub ;
  r ← invoke stub (CallPropagate
        {| pr_buffer_id := buffer_id; target_node_ids := nodes; pr_mode := mode;
           shard_assignments := assignments |}) ;
  raise_status r.

Definition unstage_weight (claim_id : string) : py state unit :=
  stub ← get_grpc_stub ;
  r ← invoke stub (CallUnstage claim_id) ;
  raise_status r.

(** *** CUDA *)

(** A call with a status, and one with an out parameter, on the process's driver. *)
Definition cu_call (f : W -> Z * W) : py state Z := fun s =>
  let '(st, w) := f (cuda s) in (Ret st, set_cuda w s).

Definition cu_call_out (f : W -> Z * Z * W) : py state (Z * Z) := fun s =>
  let '(st, v, w) := f (cuda s) in (Ret (st, if st =? 0 then v else 0), set_cuda w s).

(** [if err != 0: raise RuntimeError(f"... failed with error code {err}")]. *)
Definition cu_checked (what : string) (f : W -> Z * W) : py state unit :=
  err ← cu_call f ;
  py_when (negb (err =? 0))
    (py_raise RuntimeError (what +:+ " failed with error code " +:+ str_of_Z err)).

Definition cu_checked_out (what : string) (f : W -> Z * Z * W) : py state Z :=
  r ← cu_call_out f ;
  py_when (negb (r.1 =? 0))
    (py_raise RuntimeError (what +:+ " failed with error code " +:+ str_of_Z r.1)) ;;
  mret r.2.

Definition libcuda_search_paths : list string :=
  ["/usr/local/nvidia/lib64/libcuda.so.1"; "/usr/lib/x86_64-linux-gnu/libcuda.so.1";
   "/usr/local/cuda/compat/lib/libcuda.so.1"; "libcuda.so.1"].

Definition find_libcuda : py state unit :=
  if bool_decide (Exists (fun path => cdll env path = true) libcuda_search_paths) then mret tt
  else py_raise RuntimeError "Could not find libcuda.so.1.".

Definition set_loaded (s : state) : state :=
  set_cuda_fields true (cuda_ctx s) (cuda_device s) (pushed_context s) s.
Definition set_device (d : Z) (s : state) : state :=
  set_cuda_fields (libcuda_loaded s) (cuda_ctx s) (Some d) (pushed_context s) s.
Definition set_ctx (c : Z) (s : state) : state :=
  set_cuda_fields (libcuda_loaded s) (Some c) (cuda_device s) (pushed_context s) s.
Definition set_pushed (b : bool) (s : state) : state :=
  set_cuda_fields (libcuda_loaded s) (cuda_ctx s) (cuda_device s) b s.

(** [_init_cuda_context] after its first test. *)
Definition init_cuda_context_fresh (device_id : Z) : py state unit :=
  find_libcuda ;;
  py_modify set_loaded ;;
  _ ← cu_call_out cuCtxGetCurrent ;
  cu_checked "cuInit" (cuInit 0) ;;
  device ← cu_checked_out ("cuDeviceGet(" +:+ str_of_Z device_id +:+ ")") (cuDeviceGet device_id) ;
  py_modify (set_device device) ;;
  ctx ← cu_checked_out ("cuDevicePrimaryCtxRetain(" +:+ str_of_Z device_id +:+ ")")
          (cuDevicePrimaryCtxRetain device) ;
  current_ctx ← cu_call_out cuCtxGetCurrent ;
  py_modify (set_pushed false) ;;
  py_when (negb (current_ctx.2 =? ctx))
    (cu_checked "cuCtxPushCurrent" (cuCtxPushCurrent ctx) ;; py_modify (set_pushed true)) ;;
  py_modify (set_ctx ctx) ;;
  _ ← cu_call_out cuCtxGetCurrent ;
  mret tt.

Definition init_cuda_context (device_id : Z) : py state unit :=
  loaded ← py_get libcuda_loaded ;
  if (loaded : bool) then mret tt else init_cuda_context_fresh device_id.

(** The granularity, with its default, and the size to map. *)
Definition client_granularity (device : Z) : py state Z :=
  r ← cu_call_out (cuMemGetAllocationGranularity (allocation_prop device) CU_MEM_ALLOC_GRANULARITY_MINIMUM) ;
  mret (if negb (r.1 =? 0) then 2 * 1024 * 1024 else r.2).

Definition aligned_size_of (size_bytes gran : Z) : Z :=
  if negb (size_bytes mod gran =? 0) then (size_bytes / gran + 1) * gran else size_bytes.

(** Import, reserve, map, set access. *)
Definition map_handle (fd device gran aligned_size : Z) : py state Z :=
  file ← py_get (fun s => fd_table s !! wrap64 fd) ;
  handle ← cu_checked_out "cuMemImportFromShareableHandle"
    (cuMemImportFromShareableHandle file CU_MEM_HANDLE_TYPE_POSIX_FILE_DESCRIPTOR) ;
  device_ptr ← cu_checked_out "cuMemAddressReserve"
    (cuMemAddressReserve (wrap64 aligned_size) (wrap64 gran) 0 0) ;
  _ ← cu_call_out cuCtxGetCurrent ;
  cu_checked "cuMemMap" (cuMemMap device_ptr (wrap64 aligned_size) 0 handle 0) ;;
  cu_checked "cuMemSetAccess" (cuMemSetAccess device_ptr (wrap64 aligned_size) (access_desc device) 1) ;;
  mret device_ptr.

(** Pop the context, if [_init_cuda_context] pushed one. *)
Definition pop_context : py state unit :=
  pushed ← py_get pushed_context ;
  py_when pushed (_ ← cu_checked_out "cuCtxPopCurrent" cuCtxPopCurrent ; mret tt).

Definition import_cuda_memory (fd size_bytes device_id : Z) : py state Z :=
  init_cuda_context device_id ;;
  odev ← py_get cuda_device ;
  device ← py_some odev AttributeError "'NoneType' object has no attribute 'value'" ;
  gran ← client_granularity device ;
  py_when (gran =? 0) (py_raise ZeroDivisionError "integer modulo by zero") ;;
  device_ptr ← map_handle fd device gran (aligned_size_of size_bytes gran) ;
  pop_context ;;
  mret device_ptr.

(** *** Sockets *)

(** [WPIClient._effective_buffer_id]. *)
Definition client_buffer_id (buffer_id : string) (shard_index total_shards : Z) : string :=
  if (0 <=? shard_index) && (0 <? total_shards)
  then buffer_id +:+ "__shard_" +:+ str_of_Z shard_index
  else buffer_id.

Definition exists_now (path : string) : py state bool := py_get (fun s => path_exists env path (clock s)).

(** [while not os.path.exists(path) and waited < max_wait: time.sleep(1)]. *)
Fixpoint wait_for_path (max_wait : nat) (path : string) : py state unit :=
  found ← exists_now path ;
  if (found : bool) then mret tt
  else
    match max_wait with
    | O => mret tt
    | S n => py_modify tick ;; wait_for_path n path
    end.

(** [socket.socket(AF_UNIX, SOCK_STREAM)]: a number, connected to nothing yet. *)
Definition new_socket : py state nat :=
  i ← py_get next_sock ;
  py_modify take_sock ;;
  mret i.

Definition try_connect (i : nat) (path : string) : py state unit := fun s =>
  match connect_to env path (clock s) with
  | Some (c, anc) => (Ret tt, set_control (<[i := anc]>) (set_socks (<[i := c]>) s))
  | None => (Raise (mk_exn OSError "[Errno 111] Connection refused"), s)
  end.

(** The retry loop: [retries] more attempts after this one. *)
Fixpoint connect_retry (retries : nat) (i : nat) (path : string) : py state unit :=
  py_except (try_connect i path) is_OSError
    (fun e =>
       match retries with
       | O => py_reraise e
       | S n => py_modify tick ;; connect_retry n i path
       end).

Definition on_sock {A} (i : nat) (f : Conn -> outcome A * Conn) : py state A := fun s =>
  match socks s !! i with
  | Some c => let '(r, c') := f c in (r, set_socks (<[i := c']>) s)
  | None => (Raise (mk_exn OSError "[Errno 107] Transport endpoint is not connected"), s)
  end.

(** The control messages of a [recvmsg]; a descriptor is installed. *)
Definition take_rights (i : nat) : py state (list cmsg) := fun s =>
  let '(anc, rest, table) := deliver_rights (new_fd env) (default [] (control s !! i)) (fd_table s) in
  (Ret anc, set_fd_table table (set_control (<[i := rest]>) s)).

(** [recvmsg(64, CMSG_LEN(4))]: data and control messages. *)
Definition recvmsg (i : nat) : py state (string * list cmsg) :=
  msg ← on_sock i (conn_recv 64) ;
  anc ← take_rights i ;
  mret (msg, anc).

(** The loop over [ancdata]; [fds] starts with one pre-allocated slot. *)
Fixpoint first_fd {S} (ancdata : list cmsg) : py S (option Z) :=
  match ancdata with
  | [] => mret None
  | m :: rest =>
      if (cmsg_level m =? SOL_SOCKET) && (cmsg_type m =? SCM_RIGHTS) then
        let fds := 0 :: ints_of_bytes (cmsg_data m) in
        fd ← py_some (fds !! 1%nat) IndexError "array index out of range" ;
        mret (Some fd)
      else first_fd rest
  end.

(** The line sent to the FD server, per copy of the library. *)
Context (metadata : Z -> string).

Definition receive_fd (buffer_id : string) (gpu_id shard_index total_shards : Z) : py state Z :=
  let effective_id := client_buffer_id buffer_id shard_index total_shards in
  sock_path ← py_get (fun s => os_path_join (socket_dir s) (effective_id +:+ ".sock")) ;
  wait_for_path 60 sock_path ;;
  found ← exists_now sock_path ;
  py_when (negb found)
    (py_raise TimeoutError ("WPI FD socket " +:+ sock_path +:+ " not found after 60s")) ;;
  client ← new_socket ;
  connect_retry 29 client sock_path ;;
  on_sock client (conn_send (metadata gpu_id) []) ;;
  m ← recvmsg client ;
  fd ← first_fd m.2 ;
  py_modify (set_socks (alter conn_close client)) ;;
  match fd with
  | None => py_raise RuntimeError ("WPI: Failed to receive FD from " +:+ sock_path)
  | Some fd => mret fd
  end.

Definition connect_notify_socket (buffer_id : string) (timeout : nat) (shard_index total_shards : Z)
    : py state unit :=
  let effective_id := client_buffer_id buffer_id shard_index total_shards in
  notify_path ← py_get (fun s => os_path_join (socket_dir s) (effective_id +:+ "_notify.sock")) ;
  wait_for_path timeout notify_path ;;
  found ← exists_now notify_path ;
  py_when (negb found)
    (py_raise TimeoutError ("WPI notify socket " +:+ notify_path +:+ " not found")) ;;
  i ← new_socket ;
  py_modify (set_notify (Some i)) ;;
  connect_retry 29 i notify_path.

(** A [recv] with a timeout: a silent peer makes it raise. *)
Definition recv_timeout (n : nat) (c : Conn) : outcome string * Conn :=
  match conn_recv n c with
  | (Stuck, c') => (Raise (mk_exn TimeoutError "timed out"), c')
  | r => r
  end.

(** [None] when the data held no READY: a warning is logged, nothing is raised. *)
Definition wait_for_ready : py state (option unit) :=
  sock ← py_get notify_socket ;
  match sock with
  | None => py_raise RuntimeError
      "WPI: Notify socket not connected. Call connect_notify_socket() first."
  | Some i =>
      py_except
        (data ← on_sock i (recv_timeout 1024) ;
         mret (if contains "READY" data then Some tt else None))
        (fun e => bool_decide (exn_kind_of e = TimeoutError))
        (fun _ => py_raise TimeoutError "WPI: Did not receive READY notification")
  end.

Definition close : py state unit :=
  sock ← py_get notify_socket ;
  match sock with
  | None => mret tt
  | Some i => py_modify (set_socks (alter conn_close i)) ;; py_modify (set_notify None)
  end ;;
  py_modify (set_grpc None).
End client.

(** ** Lemmas: calls of the CUDA driver *)

Section cuda_lemmas.
Context {W : Type} `{CudaApi W} `{CudaContextApi W} (obs : W -> cuda_obs) (stack : W -> list Z)
  (imports : W -> gmap Z Z).
Context `{!CudaLaws W obs} `{!CudaContextLaws W obs stack imports}.
Context (env : ClientEnv).
Implicit Types (s : WPIClient W) (w : W).

Lemma cu_call_out_ret f s r s' :
  cu_call_out f s = (Ret r, s') ->
  exists v w', f (cuda s) = (r.1, v, w') /\ s' = set_cuda w' s /\ (r.1 = 0 -> r.2 = v).
Proof.
  unfold cu_call_out. destruct (f (cuda s)) as [[st v] w'] eqn:E. intros [= <- <-]. simpl.
  exists v, w'. split_and!; try done. by intros ->.
Qed.

Lemma cu_checked_ret what f s a s' :
  cu_checked what f s = (Ret a, s') -> exists w', f (cuda s) = (0, w') /\ s' = set_cuda w' s.
Proof.
  unfold cu_checked, cu_call. rewrite bind_unfold. destruct (f (cuda s)) as [st w'].
  destruct (st =? 0) eqn:E; simpl; intros [=]; subst. apply Z.eqb_eq in E as ->. eauto.
Qed.

Lemma cu_checked_out_ret what f s v s' :
  cu_checked_out what f s = (Ret v, s') ->
  exists w', f (cuda s) = (0, v, w') /\ s' = set_cuda w' s.
Proof.
  unfold cu_checked_out. intros E. apply bind_ret_inv in E as (r & s1 & E1 & E).
  apply cu_call_out_ret in E1 as (v' & w' & Ef & -> & Hv).
  destruct (r.1 =? 0) eqn:Er; rewrite bind_unfold in E; simpl in E; [|done].
  apply Z.eqb_eq in Er. injection E as <- <-. rewrite Er in Ef. rewrite (Hv Er) in *. eauto.
Qed.

(** The driver's allocations and the context stack. *)
Definition looks (o : cuda_obs) (st : list Z) (w : W) : Prop := obs w = o /\ stack w = st.

Definition quiet {A} (f : W -> A * W) : Prop := forall w, looks (obs w) (stack w) (f w).2.

Lemma quiet_get : quiet cuCtxGetCurrent.
Proof. intros w. destruct (law_get_current w) as (_ & ? & ?). done. Qed.
Lemma quiet_init f : quiet (cuInit f).
Proof. intros w. destruct (law_init_stack f w). done. Qed.
Lemma quiet_device d : quiet (cuDeviceGet d).
Proof. intros w. split; [apply law_device_get|apply law_device_stack]. Qed.
Lemma quiet_retain d : quiet (cuDevicePrimaryCtxRetain d).
Proof. intros w. destruct (law_retain d w). done. Qed.
Lemma quiet_granularity p f : quiet (cuMemGetAllocationGranularity p f).
Proof. intros w. split; [apply law_granularity|apply law_gran_stack]. Qed.
Lemma quiet_import fd k : quiet (cuMemImportFromShareableHandle fd k).
Proof. intros w. destruct (law_import fd k w). done. Qed.
Lemma quiet_access p sz d n : quiet (cuMemSetAccess p sz d n).
Proof. intros w. split; [apply law_access|apply law_access_stack]. Qed.

Lemma quiet_call_out f s r s' :
  quiet f -> cu_call_out f s = (Ret r, s') ->
  exists w', s' = set_cuda w' s /\ looks (obs (cuda s)) (stack (cuda s)) w'.
Proof.
  intros Hq E. apply cu_call_out_ret in E as (v & w' & Ef & -> & _).
  specialize (Hq (cuda s)). rewrite Ef in Hq. eauto.
Qed.

Lemma quiet_checked what f s a s' :
  quiet f -> cu_checked what f s = (Ret a, s') ->
  exists w', s' = set_cuda w' s /\ looks (obs (cuda s)) (stack (cuda s)) w'.
Proof.
  intros Hq E. apply cu_checked_ret in E as (w' & Ef & ->).
  specialize (Hq (cuda s)). rewrite Ef in Hq. eauto.
Qed.

Lemma quiet_checked_out what f s v s' :
  quiet f -> cu_checked_out what f s = (Ret v, s') ->
  exists w', s' = set_cuda w' s /\ looks (obs (cuda s)) (stack (cuda s)) w'.
Proof.
  intros Hq E. apply cu_checked_out_ret in E as (w' & Ef & ->).
  specialize (Hq (cuda s)). rewrite Ef in Hq. eauto.
Qed.

(** After the first initialisation the stack is as before, or one context higher, which
    [pushed_context] tells. *)
Lemma init_fresh_ret dev s s' :
  init_cuda_context_fresh env dev s = (Ret tt, s') ->
  obs (cuda s') = obs (cuda s) /\ libcuda_loaded s' = true /\ is_Some (cuda_device s') /\
  fd_table s' = fd_table s /\
  exists ctx, stack (cuda s') = (if pushed_context s' then ctx :: stack (cuda s) else stack (cuda s)).
Proof.
  unfold init_cuda_context_fresh. intros E.
  apply bind_ret_inv in E as ([] & s0 & E0 & E).
  assert (s0 = s) as ->.
  { unfold find_libcuda in E0. destruct (bool_decide _); [by injection E0|done]. }
  apply bind_ret_inv in E as ([] & s1 & E1 & E). injection E1 as <-.
  apply bind_ret_inv in E as (r & s2 & E2 & E).
  apply quiet_call_out in E2 as (w2 & -> & Ho2 & Hs2); [|apply quiet_get].
  apply bind_ret_inv in E as ([] & s3 & E3 & E).
  apply quiet_checked in E3 as (w3 & -> & Ho3 & Hs3); [|apply quiet_init].
  apply bind_ret_inv in E as (device & s4 & E4 & E).
  apply quiet_checked_out in E4 as (w4 & -> & Ho4 & Hs4); [|apply quiet_device].
  apply bind_ret_inv in E as ([] & s5 & E5 & E). injection E5 as <-.
  apply bind_ret_inv in E as (ctx & s6 & E6 & E).
  apply quiet_checked_out in E6 as (w6 & -> & Ho6 & Hs6); [|apply quiet_retain].
  apply bind_ret_inv in E as (cur & s7 & E7 & E).
  apply quiet_call_out in E7 as (w7 & -> & Ho7 & Hs7); [|apply quiet_get].
  apply bind_ret_inv in E as ([] & s8 & E8 & E). injection E8 as <-.
  apply bind_ret_inv in E as ([] & s9 & E9 & E).
  apply bind_ret_inv in E as ([] & s10 & E10 & E). injection E10 as <-.
  apply bind_ret_inv in E as (r' & s11 & E11 & E). injection E as <-.
  apply quiet_call_out in E11 as (w11 & -> & Ho11 & Hs11); [|apply quiet_get].
  simpl in *. destruct (negb (cur.2 =? ctx)); simpl in E9.
  - apply bind_ret_inv in E9 as ([] & s12 & E12 & E9). injection E9 as <-.
    apply cu_checked_ret in E12 as (w12 & E12 & ->).
    apply (law_push (obs:=obs) (stack:=stack) (imports:=imports)) in E12 as [Hs12 Ho12]. simpl in *.
    split; [congruence|]. split; [done|]. split; [eauto|]. split; [done|]. exists ctx. congruence.
  - injection E9 as <-. simpl in *.
    split; [congruence|]. split; [done|]. split; [eauto|]. split; [done|]. exists ctx. congruence.
Qed.

(** The mapping: a reservation and a mapping of the aligned size at a new address, of a
    handle that stands for the file behind the descriptor. *)
Lemma map_handle_ret fd device gran size s p s' :
  map_handle fd device gran size s = (Ret p, s') ->
  exists handle file w', s' = set_cuda w' s /\ stack w' = stack (cuda s) /\
    0 <= p < 2 ^ 64 /\ mapped (obs (cuda s)) !! p = None /\
    obs w' = obs_set_mapped (<[p := (wrap64 size, handle)]>)
      (obs_set_reservations (<[p := wrap64 size]>) (obs (cuda s))) /\
    fd_table s !! wrap64 fd = Some file /\ imports w' = <[handle := file]> (imports (cuda s)).
Proof.
  unfold map_handle. intros E.
  apply bind_ret_inv in E as (ofile & s0 & E0 & E). injection E0 as <- <-.
  apply bind_ret_inv in E as (handle & s1 & E1 & E). pose proof E1 as Ei.
  apply cu_checked_out_ret in Ei as (w1' & Ei & Es1).
  apply (law_import_file (obs:=obs) (stack:=stack) (imports:=imports)) in Ei as (file & Hfile & Hi1).
  apply quiet_checked_out in E1 as (w1 & -> & Ho1 & Hs1); [|apply quiet_import].
  apply (f_equal cuda) in Es1. simpl in Es1. subst w1'.
  apply bind_ret_inv in E as (ptr & s2 & E2 & E).
  apply cu_checked_out_ret in E2 as (w2 & E2 & ->). simpl in E2.
  pose proof (law_reserve_stack (obs:=obs) (stack:=stack) (imports:=imports) (wrap64 size) (wrap64 gran) 0 0 w1) as Hs2.
  pose proof (law_reserve_imports (obs:=obs) (stack:=stack) (imports:=imports) (wrap64 size) (wrap64 gran) 0 0 w1) as Hi2.
  rewrite E2 in Hs2, Hi2. simpl in Hs2, Hi2.
  apply law_reserve in E2. simpl in E2. destruct E2 as (Hp & _ & Hm & Ho2).
  apply bind_ret_inv in E as (r & s3 & E3 & E). apply cu_call_out_ret in E3 as (v3 & w3 & E3 & -> & _).
  destruct (law_get_current (obs:=obs) (stack:=stack) (imports:=imports) w2) as (_ & Hs3 & Ho3).
  pose proof (law_get_current_imports (obs:=obs) (stack:=stack) (imports:=imports) w2) as Hi3.
  simpl in E3. rewrite E3 in Hs3, Ho3, Hi3. simpl in Hs3, Ho3, Hi3.
  apply bind_ret_inv in E as ([] & s4 & E4 & E).
  apply cu_checked_ret in E4 as (w4 & E4 & ->). simpl in *.
  pose proof (law_map_stack (obs:=obs) (stack:=stack) (imports:=imports) ptr (wrap64 size) 0 handle 0 w3) as Hs4.
  pose proof (law_map_imports (obs:=obs) (stack:=stack) (imports:=imports) ptr (wrap64 size) 0 handle 0 w3) as Hi4.
  rewrite E4 in Hs4, Hi4. simpl in Hs4, Hi4. apply law_map in E4. simpl in E4.
  apply bind_ret_inv in E as ([] & s5 & E5 & E). injection E as <- <-.
  apply cu_checked_ret in E5 as (w5 & E5 & ->). simpl in E5.
  destruct (quiet_access ptr (wrap64 size) (access_desc device) 1 w4) as [Ho5 Hs5].
  pose proof (law_access_imports (obs:=obs) (stack:=stack) (imports:=imports) ptr (wrap64 size)
    (access_desc device) 1 w4) as Hi5.
  rewrite E5 in Ho5, Hs5, Hi5. simpl in *.
  exists handle, file, w5. split; [done|]. split; [congruence|]. split; [done|].
  split; [congruence|]. split; [rewrite Ho5, E4, Ho3, Ho2, Ho1; done|]. split; [done|]. congruence.
Qed.

Lemma client_granularity_ret g device s x s' :
  (forall p f w, (cuMemGetAllocationGranularity p f w).1 = (0, g)) ->
  client_granularity device s = (Ret x, s') ->
  x = g /\ exists w', s' = set_cuda w' s /\ looks (obs (cuda s)) (stack (cuda s)) w'.
Proof.
  intros Hg E. unfold client_granularity in E. apply bind_ret_inv in E as (r & s1 & E1 & E).
  injection E as <- <-. pose proof (quiet_call_out _ _ _ _ (quiet_granularity _ _) E1) as Hq.
  apply cu_call_out_ret in E1 as (v & w' & Ef & -> & Hv).
  pose proof (Hg (allocation_prop device) CU_MEM_ALLOC_GRANULARITY_MINIMUM (cuda s)) as Hg'.
  rewrite Ef in Hg'. injection Hg' as Hr Hvg. rewrite Hr. simpl. split; [|done].
  rewrite (Hv Hr). done.
Qed.

(** The import after the context is initialised. *)
Lemma import_ret g fd size dev s p s' :
  (forall p f w, (cuMemGetAllocationGranularity p f w).1 = (0, g)) ->
  import_cuda_memory env fd size dev s = (Ret p, s') ->
  exists s1 handle file w2,
    init_cuda_context env dev s = (Ret tt, s1) /\
    stack w2 = stack (cuda s1) /\ mapped (obs (cuda s1)) !! p = None /\
    obs w2 = obs_set_mapped (<[p := (wrap64 (round_up size g), handle)]>)
      (obs_set_reservations (<[p := wrap64 (round_up size g)]>) (obs (cuda s1))) /\
    fd_table s1 !! wrap64 fd = Some file /\ imports w2 !! handle = Some file /\
    pop_context (set_cuda w2 s1) = (Ret tt, s').
Proof.
  intros Hg E. unfold import_cuda_memory in E.
  apply bind_ret_inv in E as ([] & s1 & E1 & E).
  apply bind_ret_inv in E as (odev & s2 & E2 & E). injection E2 as <- <-.
  apply bind_ret_inv in E as (device & s3 & E3 & E).
  assert (s3 = s1) as -> by (unfold py_some in E3; destruct (cuda_device s1); [by injection E3|done]).
  apply bind_ret_inv in E as (gran & s4 & E4 & E).
  apply (client_granularity_ret g) in E4 as [-> (w4 & -> & Ho4 & Hs4)]; [|done].
  apply bind_ret_inv in E as ([] & s5 & E5 & E).
  assert (s5 = set_cuda w4 s1) as -> by (destruct (g =? 0); [done|by injection E5 as <-]).
  apply bind_ret_inv in E as (ptr & s6 & E6 & E).
  apply map_handle_ret in E6 as (handle & file & w6 & -> & Hs6 & _ & Hm & Ho6 & Hf & Hi). simpl in *.
  apply bind_ret_inv in E as ([] & s7 & E7 & E). injection E as <- <-.
  exists s1, handle, file, w6. split; [done|]. split; [congruence|]. split; [congruence|].
  split; [rewrite Ho6, Ho4; done|]. split; [done|]. split; [rewrite Hi; apply lookup_insert_eq|done].
Qed.

Lemma pop_context_ret s s' :
  pop_context s = (Ret tt, s') ->
  obs (cuda s') = obs (cuda s) /\ pushed_context s' = pushed_context s /\
  libcuda_loaded s' = libcuda_loaded s /\ cuda_device s' = cuda_device s /\
  imports (cuda s') = imports (cuda s) /\
  stack (cuda s) = (if pushed_context s then default 0 (head (stack (cuda s))) :: stack (cuda s')
                    else stack (cuda s')).
Proof.
  unfold pop_context. intros E. rewrite bind_unfold in E. simpl in E.
  destruct (pushed_context s) eqn:Ep; simpl in E.
  - apply bind_ret_inv in E as (c & s1 & E1 & E). injection E as <-.
    apply cu_checked_out_ret in E1 as (w' & Ef & ->).
    destruct (law_pop (obs:=obs) (stack:=stack) (imports:=imports) (cuda s)) as [Ho Hs].
    pose proof (law_pop_imports (obs:=obs) (stack:=stack) (imports:=imports) (cuda s)) as Hi.
    rewrite Ef in *. simpl in *.
    destruct (stack (cuda s)) as [|c0 rest]; [by destruct Hs|]. destruct Hs as [[= <-] Hs].
    simpl. split_and!; try done. by rewrite Hs.
  - injection E as <-. done.
Qed.
End cuda_lemmas.

(** ** Lemmas: waiting and connecting *)

Section waiting.
Context {W : Type} (env : ClientEnv).
Implicit Types (s : WPIClient W).

(** The state [n] seconds later. *)
Definition later (n : nat) s : WPIClient W := Nat.iter n tick s.

Lemma later_clock n s : clock (later n s) = clock s + Z.of_nat n.
Proof. induction n; simpl; lia. Qed.

Lemma later_S n s : later n (tick s) = later (S n) s.
Proof. induction n; simpl in *; congruence. Qed.

(** The path appears after [n] seconds. *)
Lemma wait_for_path_run max n path s :
  (n <= max)%nat ->
  (forall i, (i < n)%nat -> path_exists env path (clock s + Z.of_nat i) = false) ->
  path_exists env path (clock s + Z.of_nat n) = true ->
  wait_for_path env max path s = (Ret tt, later n s).
Proof.
  revert max s. induction n as [|n IH]; intros max s Hmax Hno Hyes.
  - destruct max; simpl; rewrite bind_unfold; simpl; rewrite Z.add_0_r in Hyes; by rewrite Hyes.
  - destruct max as [|max]; [lia|]. simpl. rewrite bind_unfold. simpl.
    specialize (Hno 0%nat) as H0. rewrite Z.add_0_r in H0. rewrite H0 by lia.
    rewrite bind_unfold. simpl. rewrite (IH max (tick s)); [by rewrite later_S|lia| |].
    + intros i Hi. rewrite <- (Hno (S i)) by lia. f_equal. simpl. lia.
    + rewrite <- Hyes. f_equal. simpl. lia.
Qed.

(** The path does not appear. *)
Lemma wait_for_path_timeout max path s :
  (forall i, (i <= max)%nat -> path_exists env path (clock s + Z.of_nat i) = false) ->
  wait_for_path env max path s = (Ret tt, later max s).
Proof.
  revert s. induction max as [|max IH]; intros s Hno; simpl; rewrite bind_unfold; simpl;
    specialize (Hno 0%nat) as H0; rewrite Z.add_0_r in H0; rewrite H0 by lia; [done|].
  rewrite bind_unfold. simpl. rewrite IH; [by rewrite later_S|].
  intros i Hi. rewrite <- (Hno (S i)) by lia. f_equal. simpl. lia.
Qed.

(** The connection is accepted after [n] refusals. *)
Lemma connect_retry_run retries n i path c anc s :
  (n <= retries)%nat ->
  (forall k, (k < n)%nat -> connect_to env path (clock s + Z.of_nat k) = None) ->
  connect_to env path (clock s + Z.of_nat n) = Some (c, anc) ->
  connect_retry env retries i path s =
    (Ret tt, set_control (<[i := anc]>) (set_socks (<[i := c]>) (later n s))).
Proof.
  revert retries s. induction n as [|n IH]; intros retries s Hr Hno Hyes.
  - rewrite Z.add_0_r in Hyes. destruct retries; simpl; unfold py_except, try_connect; by rewrite Hyes.
  - destruct retries as [|retries]; [lia|]. simpl. unfold py_except, try_connect at 1.
    specialize (Hno 0%nat) as H0. rewrite Z.add_0_r in H0. rewrite H0 by lia.
    change (is_OSError _) with true. cbv iota. rewrite bind_unfold. simpl.
    rewrite (IH retries (tick s)); [by rewrite later_S|lia| |].
    + intros k Hk. rewrite <- (Hno (S k)) by lia. f_equal. simpl. lia.
    + rewrite <- Hyes. f_equal. simpl. lia.
Qed.

(** A wait takes the first chunk there is. *)
Lemma wait_for_ready_run chunk rest i c s :
  notify_socket s = Some i -> socks s !! i = Some c -> inbox c = chunk :: rest ->
  (String.length chunk <= 1024)%nat ->
  wait_for_ready s =
    (Ret (if contains "READY" chunk then Some tt else None),
     set_socks (<[i := mk_Conn rest (eof c) (room c) (outbox c) (passed_fds c) (closed c)]>) s).
Proof.
  intros Hi Hc Hin Hlen. unfold wait_for_ready. rewrite bind_unfold. simpl. rewrite Hi.
  unfold py_except. rewrite bind_unfold. unfold on_sock. rewrite Hc.
  unfold recv_timeout, conn_recv. rewrite Hin. rewrite bool_decide_eq_true_2 by done.
  by rewrite str_take_all.
Qed.
End waiting.

#[global] Arguments wait_for_path : simpl never.
#[global] Arguments connect_retry : simpl never.

(** The descriptors of the driver that stand for allocations, with their files: a file is
    named by the handle of the allocation. *)
Definition descriptors {Wd C} (exported : Wd -> gmap Z Z) (t : Driver Wd C) : gmap Z Z :=
  match cuda_allocator t with Some a => exported (libcuda a) | None => ∅ end.

(** What a client, with room for [n] bytes to send, receives of a connection that the driver
    answered: the bytes, and the files behind the descriptors that were passed. *)
Definition client_end (n : Z) (table : gmap Z Z) (driver_side : Conn) : Conn * rights :=
  (mk_Conn [outbox driver_side] true (Some n) "" [] false,
   (fun fd => omap (table !!.) [fd]) <$> passed_fds driver_side).

(** A descriptor survives the control message. *)
Lemma int_of_bytes_of_int fd :
  0 <= fd < 2 ^ 31 ->
  int_of_bytes (fd mod 256) (fd / 2 ^ 8 mod 256) (fd / 2 ^ 16 mod 256) (fd / 2 ^ 24 mod 256) = fd.
Proof.
  intros Hfd. unfold int_of_bytes.
  assert (fd mod 256 + 2 ^ 8 * (fd / 2 ^ 8 mod 256) + 2 ^ 16 * (fd / 2 ^ 16 mod 256)
          + 2 ^ 24 * (fd / 2 ^ 24 mod 256) = fd) as ->.
  { change 256 with (2 ^ 8).
    rewrite (Z.mod_small (fd / 2 ^ 24)) by (split; [apply Z.div_pos|apply Z.div_lt_upper_bound]; lia).
    pose proof (Z.div_mod fd (2 ^ 8)) as E1. pose proof (Z.div_mod (fd / 2 ^ 8) (2 ^ 8)) as E2.
    pose proof (Z.div_mod (fd / 2 ^ 16) (2 ^ 8)) as E3.
    rewrite Z.div_div in E2 by lia. rewrite Z.div_div in E3 by lia.
    change (2 ^ 8 * 2 ^ 8) with (2 ^ 16) in E2. change (2 ^ 16 * 2 ^ 8) with (2 ^ 24) in E3. lia. }
  by rewrite (proj2 (Z.ltb_lt _ _)) by lia.
Qed.

(** Both sides compute the same id and the same paths. *)
Lemma client_buffer_id_agrees id i n : client_buffer_id id i n = effective_buffer_id id i n.
Proof. done. Qed.

(** ** Properties *)

Section properties.
Context {W Wd C : Type} `{CudaApi W} `{CudaContextApi W} `{CudaApi Wd} `{GrpcContext C} `{!GrpcLaws C}.
Context (obs : W -> cuda_obs) (stack : W -> list Z) (imports : W -> gmap Z Z).
Context (obsd : Wd -> cuda_obs) (exported : Wd -> gmap Z Z).
Context `{!CudaLaws W obs} `{!CudaContextLaws W obs stack imports}.
Context `{!CudaLaws Wd obsd} `{!CudaExports Wd exported}.
Implicit Types (s : WPIClient W) (t : Driver Wd C).

(** The exchange with the FD server, run: the client gets a number of its own for the file
    behind the descriptor [fd] that the server chose. *)
Lemma receive_fd_run (env : ClientEnv) (denv : Env) metadata id i n gpu_id wanted b fd file conn dc t t1
    path k j room s :
  let eid := effective_buffer_id id i n in
  path = os_path_join (socket_dir s) (eid +:+ ".sock") ->
  (k <= 60)%nat -> (j <= 29)%nat ->
  (forall m, (m < k)%nat -> path_exists env path (clock s + Z.of_nat m) = false) ->
  path_exists env path (clock s + Z.of_nat k) = true ->
  (forall m, (m < j)%nat -> connect_to env path (clock s + Z.of_nat k + Z.of_nat m) = None) ->
  metadata gpu_id = gpu_metadata wanted -> blen (gpu_metadata wanted) <= room ->
  dict_get eid (ALLOCATED_BUFFERS t) = Some b ->
  choose_fd denv conn eid b wanted (after_read conn dc t) = (Ret (Some fd), t1) ->
  conns t1 = conns (after_read conn dc t) ->
  descriptors exported t1 !! fd = Some file ->
  0 <= new_fd env (fd_table s) < 2 ^ 31 ->
  conns t !! conn = Some dc -> client_sent (gpu_metadata wanted) dc ->
  outbox dc = "" -> passed_fds dc = [] ->
  (forall t' dc', serve_fd_client denv eid conn t = (Ret tt, t') -> conns t' !! conn = Some dc' ->
     connect_to env path (clock s + Z.of_nat k + Z.of_nat j) =
       Some (client_end room (descriptors exported t') dc')) ->
  exists s',
    receive_fd env metadata id gpu_id i n s = (Ret (new_fd env (fd_table s)), s') /\
    fd_table s' = <[new_fd env (fd_table s) := file]> (fd_table s) /\
    clock s' = clock s + Z.of_nat (k + j) /\
    outbox <$> socks s' !! next_sock s = Some (gpu_metadata wanted) /\
    closed <$> socks s' !! next_sock s = Some true.
Proof.
  intros eid Hpath Hk Hj Hno Hyes Hrefused Hmeta Hroom Hb Hchoose Ht1 Hfile Hfd Hdc Hsent Hout Hfds Hlink.
  pose proof (serve_fd_client_run denv eid wanted conn dc b fd t t1 Hdc Hsent Hb Hchoose Ht1) as Eserve.
  specialize (Hlink _ _ Eserve (lookup_insert_eq _ _ _)).
  change (descriptors exported (set_conns _ t1)) with (descriptors exported t1) in Hlink.
  unfold answered, client_end in Hlink. simpl in Hlink. rewrite Hout, Hfds in Hlink. simpl in Hlink.
  rewrite Hfile in Hlink.
  assert (fd_table (later k s) = fd_table s) as Htab by (clear; induction k; simpl; congruence).
  assert (forall q, fd_table (later q (take_sock (later k s))) = fd_table s) as Htab'
    by (intros q; rewrite <- Htab; clear; induction q; simpl; congruence).
  unfold receive_fd. rewrite bind_unfold. simpl. rewrite client_buffer_id_agrees. fold eid.
  rewrite <- Hpath. rewrite bind_unfold, (wait_for_path_run env 60 k) by done.
  rewrite bind_unfold. simpl. rewrite later_clock, Hyes. rewrite bind_unfold. simpl.
  rewrite bind_unfold. simpl. rewrite bind_unfold.
  set (i0 := next_sock (later k s)).
  erewrite (connect_retry_run env 29 j) by
    (simpl; rewrite ?later_clock; first [done | apply Hlink | intros; by apply Hrefused]).
  rewrite bind_unfold. unfold on_sock at 1. simpl. rewrite lookup_insert_eq. unfold conn_send. simpl.
  rewrite Hmeta, (proj2 (Z.leb_le _ _)) by done.
  rewrite bind_unfold. unfold recvmsg. rewrite bind_unfold. unfold on_sock. simpl.
  rewrite lookup_insert_eq. simpl. rewrite bind_unfold. unfold take_rights. simpl. rewrite lookup_insert_eq. simpl.
  rewrite bind_unfold. simpl. rewrite bind_unfold. simpl.
  rewrite Htab'. rewrite int_of_bytes_of_int by done.
  assert (next_sock s = i0) as -> by (unfold i0; clear; induction k; simpl; congruence).
  eexists. split; [reflexivity|]. simpl. rewrite !lookup_alter_eq, !lookup_insert_eq. simpl.
  split; [done|]. split; [|done]. rewrite later_clock. simpl. rewrite later_clock. lia.
Qed.

(** C24: a client that asks for the GPU the buffer is on, connected to the FD server of the
    driver, gets a new descriptor, within the 60 seconds it waits for the socket and the 30
    attempts to connect: a number that its own kernel chose, which stands for the file that
    the driver's descriptor of the buffer stands for; its other descriptors are as they
    were, and the connection is closed. *)
Theorem receive_fd_delivers (env : ClientEnv) (denv : Env) id i n gpu_id b file conn dc t path k j room s :
  let eid := effective_buffer_id id i n in
  let fd := new_fd env (fd_table s) in
  path = os_path_join (socket_dir s) (eid +:+ ".sock") ->
  (k <= 60)%nat -> (j <= 29)%nat ->
  (forall m, (m < k)%nat -> path_exists env path (clock s + Z.of_nat m) = false) ->
  path_exists env path (clock s + Z.of_nat k) = true ->
  (forall m, (m < j)%nat -> connect_to env path (clock s + Z.of_nat k + Z.of_nat m) = None) ->
  blen (gpu_metadata gpu_id) <= room ->
  dict_get eid (ALLOCATED_BUFFERS t) = Some b -> bi_gpu_id b = gpu_id ->
  descriptors exported t !! bi_fd b = Some file ->
  fd_table s !! fd = None -> 0 <= fd < 2 ^ 31 ->
  conns t !! conn = Some dc -> client_sent (gpu_metadata gpu_id) dc ->
  outbox dc = "" -> passed_fds dc = [] ->
  (forall t' dc', serve_fd_client denv eid conn t = (Ret tt, t') -> conns t' !! conn = Some dc' ->
     connect_to env path (clock s + Z.of_nat k + Z.of_nat j) =
       Some (client_end room (descriptors exported t') dc')) ->
  exists s',
    receive_fd env gpu_metadata id gpu_id i n s = (Ret fd, s') /\
    fd_table s' !! fd = Some file /\
    (forall fd' f, fd_table s !! fd' = Some f -> fd_table s' !! fd' = Some f) /\
    clock s' = clock s + Z.of_nat (k + j) /\
    outbox <$> socks s' !! next_sock s = Some (gpu_metadata gpu_id) /\
    closed <$> socks s' !! next_sock s = Some true.
Proof.
  intros eid fd Hpath Hk Hj Hno Hyes Hrefused Hroom Hb Hgpu Hfile Hnew Hfd Hdc Hsent Hout Hfds Hlink.
  destruct (receive_fd_run env denv gpu_metadata id i n gpu_id gpu_id b (bi_fd b) file conn dc t
    (after_read conn dc t) path k j room s) as (s' & E & Ht & Hrest); try done.
  { unfold choose_fd. by rewrite Hgpu, Z.eqb_refl. }
  exists s'. split; [done|]. rewrite Ht. split; [apply lookup_insert_eq|]. split; [|done].
  intros fd' f Hf. rewrite lookup_insert_ne; [done|]. intros E'. fold fd in E'. congruence.
Qed.

(** C25: when driver and client see the same granularity, and the client's descriptor stands
    for the same file as the driver's, the range the client maps is a range of the driver's
    allocation, of its whole size whatever the size that was asked for, at an address that
    was not mapped; the first import leaves the context stack as it was. *)
Theorem import_maps_allocation (env : ClientEnv) g fd cfd h size d dev dptr p (a a' : CudaAllocator Wd) s s' :
  0 < g -> 0 <= size -> size + g <= 2 ^ 64 ->
  (forall q f w, (cuMemGetAllocationGranularity (W:=W) q f w).1 = (0, g)) ->
  (forall q f w, (cuMemGetAllocationGranularity (W:=Wd) q f w).1 = (0, g)) ->
  allocate_and_export size d a = (Ret (fd, h, dptr), a') ->
  0 <= cfd < 2 ^ 31 -> fd_table s !! cfd = exported (libcuda a') !! fd ->
  libcuda_loaded s = false ->
  import_cuda_memory env cfd size dev s = (Ret p, s') ->
  exists sz handle,
    live (obsd (libcuda a')) !! h = Some sz /\ size <= sz < size + g /\
    mapped (obs (cuda s)) !! p = None /\
    mapped (obs (cuda s')) = <[p := (sz, handle)]> (mapped (obs (cuda s))) /\
    imports (cuda s') !! handle = Some h /\
    stack (cuda s') = stack (cuda s).
Proof.
  intros Hg Hs Hb Hgw Hgd Halloc Hcfd Hsame Hload E.
  pose proof (allocate_exported exported _ _ _ _ _ _ _ Halloc) as Hexp. rewrite Hexp in Hsame.
  pose proof (allocate_inv obsd g Hgd _ _ _ _ _ _ _ Halloc) as (_&_&_&_&_&Ho).
  pose proof (round_up_lt size g Hg). pose proof (round_up_ge size g Hg).
  rewrite wrap64_small in Ho by lia.
  apply (import_ret obs stack imports env g) in E
    as (s1 & handle & file & w2 & E1 & Hs2 & Hm & Ho2 & Hfile & Hi2 & Epop); [|done].
  unfold init_cuda_context in E1. rewrite bind_unfold in E1. simpl in E1. rewrite Hload in E1.
  apply (init_fresh_ret obs stack imports) in E1 as (Ho1 & _ & _ & Htab & ctx & Hs1).
  apply (pop_context_ret obs stack imports) in Epop as (Ho3 & _ & _ & _ & Hi3 & Hst). simpl in *.
  rewrite wrap64_small in Ho2 by lia. rewrite wrap64_small, Htab, Hsame in Hfile by lia. injection Hfile as <-.
  exists (round_up size g), handle. split_and!; try done.
  - rewrite Ho. simpl. apply lookup_insert_eq.
  - by rewrite <- Ho1.
  - rewrite Ho3, Ho2. simpl. by rewrite Ho1.
  - by rewrite Hi3.
  - destruct (pushed_context s1); rewrite Hs2, Hs1 in Hst.
    + by injection Hst as [= <-].
    + done.
Qed.

(** The first import pushes the primary context and pops it again; a second import by
    the same client pops once more, without a push: the thread loses the context that was
    current before it used the client. *)
Theorem second_import_pops_foreign_context (env : ClientEnv) g fd size fd' size' dev dev' p p' s s1 s2 :
  (forall q f w, (cuMemGetAllocationGranularity (W:=W) q f w).1 = (0, g)) ->
  libcuda_loaded s = false ->
  import_cuda_memory env fd size dev s = (Ret p, s1) -> pushed_context s1 = true ->
  import_cuda_memory env fd' size' dev' s1 = (Ret p', s2) ->
  stack (cuda s1) = stack (cuda s) /\
  exists c, stack (cuda s) = c :: stack (cuda s2).
Proof.
  intros Hgw Hload E1 Hpush E2.
  apply (import_ret obs stack imports env g) in E1 as (t1 & h1 & f1 & w1 & Ei1 & Hst1 & _ & _ & _ & _ & Ep1); [|done].
  unfold init_cuda_context in Ei1. rewrite bind_unfold in Ei1. simpl in Ei1. rewrite Hload in Ei1.
  apply (init_fresh_ret obs stack imports) in Ei1 as (_ & Hl1 & _ & _ & ctx & Hs1).
  apply (pop_context_ret obs stack imports) in Ep1 as (_ & Hp1 & Hl & _ & _ & Hst). simpl in *.
  rewrite <- Hp1, Hpush in *. rewrite Hst1, Hs1 in Hst. simpl in Hst. injection Hst as Hst.
  apply (import_ret obs stack imports env g) in E2 as (t2 & h2 & f2 & w2 & Ei2 & Hst2 & _ & _ & _ & _ & Ep2); [|done].
  unfold init_cuda_context in Ei2. rewrite bind_unfold in Ei2. simpl in Ei2. rewrite Hl, Hl1 in Ei2.
  injection Ei2 as <-.
  apply (pop_context_ret obs stack imports) in Ep2 as (_ & _ & _ & _ & _ & Hst3). simpl in *.
  rewrite Hpush, Hst2 in Hst3. split; [done|]. rewrite Hst. eauto.
Qed.

(** With the driver of this repository, [stage_weight] never raises: every failure of
    the driver is an INTERNAL status, which the client takes for a warning, also when
    nothing was allocated. *)
Theorem stage_weight_hides_failures (env : ClientEnv) (denv : Env) id size claim path i n t s :
  (forall request, answer env (CallStage request) = (rpc (NodeStageWeight denv request) t).1) ->
  exists s', stage_weight env id size claim path i n s = (Ret tt, s').
Proof.
  intros Hans. unfold stage_weight. rewrite bind_unfold.
  assert (exists target s1, get_grpc_stub env s = (Ret target, s1)) as (target & s1 & ->).
  { unfold get_grpc_stub. rewrite bind_unfold. simpl. destruct (grpc_target s); by eexists _, _. }
  rewrite bind_unfold. unfold invoke. rewrite bind_unfold. simpl. rewrite Hans.
  match goal with |- context [NodeStageWeight denv ?r] =>
    destruct (stage_status_cases denv r t) as [-> | [details ->]] end; by eexists.
Qed.

(** A client that waits for an update whose two notifications arrive one by one
    returns at PRE_UPDATE, before the transfer, without an error; READY is still unread
    and answers the next wait. *)
Theorem wait_for_ready_returns_early i c s :
  notify_socket s = Some i -> socks s !! i = Some c ->
  inbox c = [line "PRE_UPDATE"; line "READY"] ->
  exists s1 s2,
    wait_for_ready s = (Ret None, s1) /\
    inbox <$> socks s1 !! i = Some [line "READY"] /\
    wait_for_ready s1 = (Ret (Some tt), s2).
Proof.
  intros Hi Hc Hin.
  rewrite (wait_for_ready_run (line "PRE_UPDATE") [line "READY"] i c s) by (done || (simpl; lia)).
  eexists _, _. split; [reflexivity|]. split; [simpl; by rewrite lookup_insert_eq|].
  erewrite (wait_for_ready_run (line "READY") []); [reflexivity|done|simpl; apply lookup_insert_eq|done|simpl; lia].
Qed.
End properties.

(** ** A concrete process *)

Module ClientSim.

(** The simulated driver with a stack of contexts, and whether [cuInit] was called; the
    imported handles. *)
Record csim : Type := mk_csim { base : Sim.sim; ctxs : list Z; inited : bool; imported_files : gmap Z Z }.

Definition lift (f : Sim.sim -> Z * Sim.sim) (w : csim) : Z * csim :=
  let '(st, b) := f (base w) in (st, mk_csim b (ctxs w) (inited w) (imported_files w)).

Definition lift_out (f : Sim.sim -> Z * Z * Sim.sim) (w : csim) : Z * Z * csim :=
  let '(st, v, b) := f (base w) in (st, v, mk_csim b (ctxs w) (inited w) (imported_files w)).

#[global] Instance csim_api : CudaApi csim := {
  cuInit f w := (0, mk_csim (base w) (ctxs w) true (imported_files w));
  cuDeviceGet d := lift_out (cuDeviceGet d);
  cuCtxCreate_v2 f d := lift_out (cuCtxCreate_v2 f d);
  cuCtxSetCurrent c := lift (cuCtxSetCurrent c);
  cuMemGetAllocationGranularity p f := lift_out (cuMemGetAllocationGranularity p f);
  cuMemCreate sz p f := lift_out (cuMemCreate sz p f);
  cuMemExportToShareableHandle h k f := lift_out (cuMemExportToShareableHandle h k f);
  cuMemAddressReserve sz a h f := lift_out (cuMemAddressReserve sz a h f);
  cuMemMap p sz o h f := lift (cuMemMap p sz o h f);
  cuMemSetAccess p sz d n := lift (cuMemSetAccess p sz d n);
  cuMemUnmap p sz := lift (cuMemUnmap p sz);
  cuMemAddressFree p sz := lift (cuMemAddressFree p sz);
  cuMemRelease h := lift (cuMemRelease h);
  cuda_memory w := cuda_memory (base w);
  cuda_set_memory m w := mk_csim (cuda_set_memory m (base w)) (ctxs w) (inited w) (imported_files w)
}.

#[global] Instance csim_contexts : CudaContextApi csim := {
  cuCtxGetCurrent w := if inited w then (0, default 0 (head (ctxs w)), w) else (3, 0, w);
  cuDevicePrimaryCtxRetain d w := (0, 500 + d, w);
  cuCtxPushCurrent c w := (0, mk_csim (base w) (c :: ctxs w) (inited w) (imported_files w));
  cuCtxPopCurrent w :=
    match ctxs w with
    | [] => (201, 0, w)
    | c :: rest => (0, c, mk_csim (base w) rest (inited w) (imported_files w))
    end;
  cuMemImportFromShareableHandle file _ w :=
    match file with
    | Some f => (0, 7000 + f, mk_csim (base w) (ctxs w) (inited w) (<[7000 + f := f]> (imported_files w)))
    | None => (1, 0, w)
    end
}.

Definition csim_obs (w : csim) : cuda_obs := Sim.sim_obs (base w).

(** A process in which context 42 is current, and one that has not used CUDA yet. *)
Definition process : csim := mk_csim (Sim.machine 8) [42] true ∅.
Definition cold : csim := mk_csim (Sim.machine 8) [] false ∅.

Definition client : WPIClient csim := WPIClient_init "/run/wpi/sockets" "localhost" 50051 process.

(** The client of a process, with a descriptor 17 for the file 0. *)
Definition holding (w : csim) : WPIClient csim :=
  set_fd_table {[17 := 0]} (WPIClient_init "/run/wpi/sockets" "localhost" 50051 w).

(** The driver's FD server answered a client that asked for GPU 0. *)
Definition driver_side : Conn := answered (line "OK") [3] (FdDemo.client (gpu_metadata 0)).

Definition env : ClientEnv :=
  {| environ _ := None;
     path_exists _ t := 2 <=? t;
     connect_to _ t := if t <? 3 then None else Some (client_end 4096 {[3 := 0]} driver_side);
     new_fd _ := 17;
     cdll _ := true;
     answer c := match c with
                 | CallStage request => (rpc (NodeStageWeight FdDemo.no_cupy request) Demo.start).1
                 | _ => RpcOk tt
                 end |}.

Definition waiting (chunks : list string) : WPIClient csim :=
  set_notify (Some 0%nat)
    (set_socks (fun _ => {[0%nat := mk_Conn chunks false (Some 4096) "" [] false]}) client).
End ClientSim.

Import ClientSim.

Lemma lift_fst f w : (lift f w).1 = (f (base w)).1.
Proof. unfold lift. by destruct (f (base w)). Qed.
Lemma lift_base f w : base (lift f w).2 = (f (base w)).2.
Proof. unfold lift. by destruct (f (base w)). Qed.
Lemma lift_ctxs f w : ctxs (lift f w).2 = ctxs w.
Proof. unfold lift. by destruct (f (base w)). Qed.
Lemma lift_out_base f w : base (lift_out f w).2 = (f (base w)).2.
Proof. unfold lift_out. by destruct (f (base w)) as [[??]?]. Qed.
Lemma lift_out_ctxs f w : ctxs (lift_out f w).2 = ctxs w.
Proof. unfold lift_out. by destruct (f (base w)) as [[??]?]. Qed.
Lemma lift_imports f w : imported_files (lift f w).2 = imported_files w.
Proof. unfold lift. by destruct (f (base w)). Qed.
Lemma lift_out_imports f w : imported_files (lift_out f w).2 = imported_files w.
Proof. unfold lift_out. by destruct (f (base w)) as [[??]?]. Qed.
Lemma lift_inv f w st w' : lift f w = (st, w') -> f (base w) = (st, base w').
Proof. unfold lift. by destruct (f (base w)); intros [= <- <-]. Qed.
Lemma lift_out_inv f w st v w' : lift_out f w = (st, v, w') -> f (base w) = (st, v, base w').
Proof. unfold lift_out. by destruct (f (base w)) as [[??]?]; intros [= <- <- <-]. Qed.

#[global] Instance csim_laws : CudaLaws csim csim_obs.
Proof.
  split; unfold csim_obs.
  - intros c w. cbn [csim_api cuCtxSetCurrent]. rewrite lift_base. apply law_ctx_set.
  - intros d w. cbn [csim_api cuDeviceGet]. rewrite lift_out_base. apply law_device_get.
  - intros f d w. cbn [csim_api cuCtxCreate_v2]. rewrite lift_out_base. apply law_ctx_create.
  - intros p f w. cbn [csim_api cuMemGetAllocationGranularity]. rewrite lift_out_base.
    apply law_granularity.
  - intros sz p f w st h w' E%lift_out_inv. by apply law_create in E.
  - intros h k f w. cbn [csim_api cuMemExportToShareableHandle]. rewrite lift_out_base.
    apply law_export.
  - intros sz al hint f w st p w' E%lift_out_inv. by apply law_reserve in E.
  - intros p sz off h f w st w' E%lift_inv. by apply law_map in E.
  - intros p sz d n w. cbn [csim_api cuMemSetAccess]. rewrite lift_base. apply law_access.
  - intros p sz h w Hm. cbn [csim_api cuMemUnmap]. rewrite lift_fst, lift_base.
    by apply (law_unmap_exact p sz h).
  - intros p sz w Hm. cbn [csim_api cuMemUnmap]. rewrite lift_fst, lift_base.
    by apply (law_unmap_other p sz).
  - intros p sz w Hr Hm. cbn [csim_api cuMemAddressFree]. rewrite lift_fst, lift_base.
    by apply (law_addrfree_exact p sz).
  - intros h w Hl. cbn [csim_api cuMemRelease]. rewrite lift_fst, lift_base. by apply law_release.
  - done.
  - done.
Qed.

#[global] Instance csim_context_laws : CudaContextLaws csim csim_obs ctxs imported_files.
Proof.
  split; unfold csim_obs; try done.
  - intros w. simpl. by destruct (inited w).
  - intros c w st w' [= <- <-]. done.
  - intros w. simpl. by destruct (ctxs w) as [|c l] eqn:E; simpl; rewrite ?E.
  - intros [f|] k w; done.
  - intros [f|] k w h w'; simpl; intros [= <- <-]. by exists f.
  - intros w. simpl. by destruct (inited w).
  - intros w. simpl. by destruct (ctxs w).
  - intros sz al h f w. exact (lift_out_imports (cuMemAddressReserve sz al h f) w).
  - intros p sz o h f w. exact (lift_imports (cuMemMap p sz o h f) w).
  - intros d w. exact (lift_out_ctxs (cuDeviceGet d) w).
  - intros sz al h f w. exact (lift_out_ctxs (cuMemAddressReserve sz al h f) w).
  - intros p sz o h f w. exact (lift_ctxs (cuMemMap p sz o h f) w).
Qed.

Lemma csim_granularity p f (w : csim) :
  (cuMemGetAllocationGranularity p f w).1 = (0, Sim.granule).
Proof. done. Qed.

(** ** Witnesses *)

Definition imported (w : csim) : outcome Z * WPIClient csim :=
  import_cuda_memory ClientSim.env 17 (3 * MiB) 0 (holding w).

(** What the FD server of the demo sends to the client. *)
Lemma demo_served t' dc' :
  serve_fd_client Demo.env "m" 1 FdDemo.s0 = (Ret tt, t') -> conns t' !! 1%nat = Some dc' ->
  dc' = driver_side /\ descriptors Sim.sim_exported t' = {[3 := 0]}.
Proof.
  intros E Hdc.
  assert (serve_fd_client Demo.env "m" 1 FdDemo.s0 =
    (Ret tt, set_conns (<[1%nat := driver_side]>) FdDemo.s0)) as E' by (by vm_compute).
  rewrite E' in E. injection E as <-. simpl in Hdc. rewrite lookup_insert_eq in Hdc.
  injection Hdc as <-. split; [reflexivity|]. by vm_compute.
Qed.

Lemma receive_fd_delivers_witness :
  exists s', receive_fd ClientSim.env gpu_metadata "m" 0 (-1) 0 client = (Ret 17, s') /\
    fd_table s' !! 17 = Some 0 /\ clock s' = 3.
Proof.
  destruct (receive_fd_delivers (C:=option (status_code * string)) Sim.sim_exported ClientSim.env Demo.env
    "m" (-1) 0 0 FdDemo.info 0 1 (FdDemo.client (gpu_metadata 0)) FdDemo.s0 "/run/wpi/sockets/m.sock" 2 1 4096
    client) as (s' & H1 & H2 & _ & H3 & _).
  - reflexivity.
  - lia.
  - lia.
  - intros m Hm. simpl. apply Z.leb_gt. lia.
  - reflexivity.
  - intros m Hm. simpl. destruct m; [reflexivity|lia].
  - by vm_compute.
  - vm_compute. reflexivity.
  - reflexivity.
  - vm_compute. reflexivity.
  - reflexivity.
  - vm_compute. split; [discriminate|reflexivity].
  - reflexivity.
  - apply (client_sent_gpu 0), Nat.leb_le. reflexivity.
  - reflexivity.
  - reflexivity.
  - intros t' dc' E Hdc. destruct (demo_served t' dc' E Hdc) as [-> ->]. reflexivity.
  - exists s'. split; [exact H1|]. split; [exact H2|exact H3].
Defined.

(** The import of a process that has not used CUDA yet. *)
Lemma import_maps_allocation_witness :
  exists sz handle,
    live (Sim.sim_obs (libcuda (demo_run (Sim.machine 1) (3 * MiB)).2)) !! 0 = Some sz /\
    3 * MiB <= sz < 3 * MiB + Sim.granule /\
    mapped (csim_obs (cuda (imported cold).2)) = <[2 ^ 40 := (sz, handle)]> ∅ /\
    imported_files (cuda (imported cold).2) !! handle = Some 0 /\
    ctxs (cuda (imported cold).2) = [].
Proof.
  destruct (import_maps_allocation csim_obs ctxs imported_files Sim.sim_obs Sim.sim_exported ClientSim.env
    Sim.granule 3 17 0 (3 * MiB) 0 0
    (2 ^ 40) (2 ^ 40) (demo_allocator (Sim.machine 1)) (demo_run (Sim.machine 1) (3 * MiB)).2 (holding cold)
    (imported cold).2) as (sz & handle & H1 & H2 & _ & H4 & H5 & H6).
  - reflexivity.
  - done.
  - done.
  - exact csim_granularity.
  - exact sim_granularity.
  - vm_compute. reflexivity.
  - done.
  - vm_compute. reflexivity.
  - reflexivity.
  - vm_compute. reflexivity.
  - exists sz, handle. split; [exact H1|]. split; [exact H2|]. split; [exact H4|]. split; [exact H5|exact H6].
Defined.

Lemma second_import_pops_foreign_context_witness :
  exists c, [42] = c :: ctxs (cuda (import_cuda_memory ClientSim.env 17 (2 * MiB) 0 (imported process).2).2).
Proof.
  apply (second_import_pops_foreign_context csim_obs ctxs imported_files ClientSim.env Sim.granule 17 (3 * MiB)
    17 (2 * MiB) 0 0 (2 ^ 40) (2 * 2 ^ 40) (holding process) (imported process).2 _); try (vm_compute; reflexivity).
Defined.

Lemma stage_weight_hides_failures_witness :
  exists s', stage_weight ClientSim.env "m" 0 "c1" "/missing" (-1) 0 client = (Ret tt, s').
Proof.
  apply (stage_weight_hides_failures ClientSim.env FdDemo.no_cupy "m" 0 "c1" "/missing" (-1) 0
    Demo.start client).
  reflexivity.
Defined.

Lemma wait_for_ready_returns_early_witness :
  exists s1 s2,
    wait_for_ready (waiting [line "PRE_UPDATE"; line "READY"]) = (Ret None, s1) /\
    wait_for_ready s1 = (Ret (Some tt), s2).
Proof.
  destruct (wait_for_ready_returns_early 0
    (mk_Conn [line "PRE_UPDATE"; line "READY"] false (Some 4096) "" [] false)
    (waiting [line "PRE_UPDATE"; line "READY"])) as (s1 & s2 & H1 & _ & H3); [reflexivity..|].
  exists s1, s2. split; [exact H1|exact H3].
Defined.
