(* ===== verification/PluginClient.v ===== *)
(** * The client library of the verl plugin (consumer/wpi_verl_plugin/client.py)

    A copy of consumer/wpi_client/client.py; the program of [Client] at the one line in
    which it differs: it asks the FD server for GPU 0 whatever GPU its caller names. *)

From S2P Require Import Prelude PyMonad PyText PyDict Cuda Allocator NodeState Stage FdServer.
From S2P Require Import Propagate Client.

(** [gpu_metadata = "GPU=0\n"]. *)
Definition forced_metadata (gpu_id : Z) : string := line "GPU=0".

Section plugin.
Context {W : Type} `{CudaApi W} `{CudaContextApi W} (env : ClientEnv).
#[local] Abbreviation state := (WPIClient W).

Definition plugin_client_init (dir host : string) (port : Z) (w : W) : state :=
  WPIClient_init dir host port w.

Definition plugin_get_grpc_stub : py state string := get_grpc_stub env.

Definition plugin_stage_weight (buffer_id : string) (size_bytes : Z) (claim_id source_path : string)
    (shard_index total_shards : Z) : py state unit :=
  stage_weight env buffer_id size_bytes claim_id source_path shard_index total_shards.

Definition plugin_propagate (buffer_id : string) (nodes : list string) (mode : Z)
    (assignments : list ShardAssignment) : py state unit :=
  propagate env buffer_id nodes mode assignments.

Definition plugin_unstage_weight (claim_id : string) : py state unit := unstage_weight env claim_id.

Definition plugin_buffer_id (buffer_id : string) (shard_index total_shards : Z) : string :=
  client_buffer_id buffer_id shard_index total_shards.

Definition plugin_receive_fd (buffer_id : string) (gpu_id shard_index total_shards : Z) : py state Z :=
  receive_fd env forced_metadata buffer_id gpu_id shard_index total_shards.

Definition plugin_find_libcuda : py state unit := find_libcuda env.

Definition plugin_init_cuda_context (device_id : Z) : py state unit := init_cuda_context env device_id.

Definition plugin_import_cuda_memory (fd size_bytes device_id : Z) : py state Z :=
  import_cuda_memory env fd size_bytes device_id.

Definition plugin_RawCUDATensor (ptr nbytes : Z) : RawCUDATensor := RawCUDATensor_init ptr nbytes.

Definition plugin_wrap_as_buffer (device_ptr size_bytes : Z) : Z * Z :=
  wrap_as_buffer device_ptr size_bytes.

Definition plugin_connect_notify_socket (buffer_id : string) (timeout : nat)
    (shard_index total_shards : Z) : py state unit :=
  connect_notify_socket env buffer_id timeout shard_index total_shards.

Definition plugin_wait_for_ready : py state (option unit) := wait_for_ready.

Definition plugin_close : py state unit := close.
End plugin.

(** ** Properties *)

Section properties.
Context {W Wd C : Type} `{CudaApi W} `{CudaContextApi W} `{CudaApi Wd} `{GrpcContext C}.
Context (exported : Wd -> gmap Z Z).
Implicit Types (s : WPIClient W) (t : Driver Wd C).

(** The allocation of a buffer on GPU 0: the buffer itself, or its recorded copy. *)
Definition on_gpu0 t (id : string) (b b0 : BufferInfo) : Prop :=
  (bi_gpu_id b = 0 /\ b0 = b) \/
  (bi_gpu_id b <> 0 /\ dict_get (relocate_key id 0) (ALLOCATED_BUFFERS t) = Some b0).

Lemma choose_fd_gpu0 denv conn id b b0 c t :
  on_gpu0 t id b b0 ->
  choose_fd denv conn id b 0 (after_read conn c t) = (Ret (Some (bi_fd b0)), after_read conn c t).
Proof.
  intros [[Hgpu ->]|[Hgpu Hb0]].
  - unfold choose_fd. by rewrite Hgpu.
  - by apply (choose_fd_cached denv conn id b b0 0).
Qed.

(** C26: whatever GPU the plugin asks for, also the one the buffer is staged on, it gets a
    descriptor of its own for the allocation on GPU 0, be it the buffer or its copy there,
    and the driver makes no copy for the GPU the plugin runs on. *)
Theorem plugin_receives_from_gpu0 (env : ClientEnv) (denv : Env) id i n gpu_id b b0 file conn dc t path room s :
  let eid := effective_buffer_id id i n in
  let fd := new_fd env (fd_table s) in
  path = os_path_join (socket_dir s) (eid +:+ ".sock") ->
  path_exists env path (clock s) = true ->
  dict_get eid (ALLOCATED_BUFFERS t) = Some b -> on_gpu0 t eid b b0 ->
  descriptors exported t !! bi_fd b0 = Some file ->
  0 <= fd < 2 ^ 31 -> blen (forced_metadata gpu_id) <= room ->
  conns t !! conn = Some dc -> client_sent (forced_metadata gpu_id) dc ->
  outbox dc = "" -> passed_fds dc = [] ->
  (forall t' dc', serve_fd_client denv eid conn t = (Ret tt, t') -> conns t' !! conn = Some dc' ->
     connect_to env path (clock s) = Some (client_end room (descriptors exported t') dc')) ->
  (exists s', plugin_receive_fd env id gpu_id i n s = (Ret fd, s') /\ fd_table s' !! fd = Some file) /\
  exists t', serve_fd_client denv eid conn t = (Ret tt, t') /\
    ALLOCATED_BUFFERS t' = ALLOCATED_BUFFERS t /\ cuda_allocator t' = cuda_allocator t.
Proof.
  intros eid fd Hpath Hyes Hb Hb0 Hfile Hfd Hroom Hdc Hsent Hout Hfds Hlink.
  pose proof (choose_fd_gpu0 denv conn eid b b0 dc t Hb0) as Hchoose.
  change (forced_metadata gpu_id) with (gpu_metadata 0) in Hsent, Hroom. split.
  - rewrite <- (Z.add_0_r (clock s)) in Hyes.
    edestruct (receive_fd_run exported env denv forced_metadata id i n gpu_id 0 b (bi_fd b0) file conn dc t
      (after_read conn dc t) path 0 0 room s) as (s' & Er & Ht & _);
      [exact Hpath|lia|lia|lia|exact Hyes|lia|reflexivity|exact Hroom|exact Hb|exact Hchoose|done|exact Hfile
      |exact Hfd|exact Hdc|exact Hsent|exact Hout|exact Hfds| |].
    { intros t' dc' Et Hdc'. rewrite !Z.add_0_r. by eapply Hlink. }
    exists s'. split; [exact Er|]. rewrite Ht. apply lookup_insert_eq.
  - eexists. split.
    + by apply (serve_fd_client_run denv eid 0 conn dc b (bi_fd b0) t (after_read conn dc t)).
    + done.
Qed.
End properties.

(** ** Witness *)

Module PluginDemo.
(** "m" on GPU 1, with a copy on GPU 0 behind descriptor 3. *)
Definition t0 : Demo.driver :=
  set_buffers (fun _ =>
    [("m", relocated_entry (4 * MiB) 1 9 1 (2 * 2 ^ 40)); (relocate_key "m" 0, FdDemo.info)])
    (set_conns (fun _ => {[1%nat := FdDemo.client (gpu_metadata 0)]}) FdDemo.s0).
End PluginDemo.

Lemma demo_plugin_served t' dc' :
  serve_fd_client Demo.env "m" 1 PluginDemo.t0 = (Ret tt, t') -> conns t' !! 1%nat = Some dc' ->
  dc' = ClientSim.driver_side /\ descriptors Sim.sim_exported t' = {[3 := 0]}.
Proof.
  intros E Hdc.
  assert (serve_fd_client Demo.env "m" 1 PluginDemo.t0 =
    (Ret tt, set_conns (<[1%nat := ClientSim.driver_side]>) PluginDemo.t0)) as E' by (by vm_compute).
  rewrite E' in E. injection E as <-. simpl in Hdc. rewrite lookup_insert_eq in Hdc.
  injection Hdc as <-. split; [reflexivity|]. by vm_compute.
Qed.

Lemma plugin_receives_from_gpu0_witness :
  exists s', plugin_receive_fd ClientSim.env "m" 1 (-1) 0 (later 3 ClientSim.client) = (Ret 17, s') /\
    fd_table s' !! 17 = Some 0.
Proof.
  destruct (plugin_receives_from_gpu0 (C:=option (status_code * string)) Sim.sim_exported ClientSim.env Demo.env
    "m" (-1) 0 1 (relocated_entry (4 * MiB) 1 9 1 (2 * 2 ^ 40)) FdDemo.info 0 1
    (FdDemo.client (gpu_metadata 0)) PluginDemo.t0 "/run/wpi/sockets/m.sock" 4096
    (later 3 ClientSim.client)) as [Hr _].
  - reflexivity.
  - reflexivity.
  - reflexivity.
  - right. split; [discriminate|reflexivity].
  - vm_compute. reflexivity.
  - vm_compute. split; [discriminate|reflexivity].
  - vm_compute. discriminate.
  - reflexivity.
  - apply (client_sent_gpu 0), Nat.leb_le. reflexivity.
  - reflexivity.
  - reflexivity.
  - intros t' dc' E Hdc. destruct (demo_plugin_served t' dc' E Hdc) as [-> ->]. reflexivity.
  - exact Hr.
Defined.
