(* ===== verification/Engine.v ===== *)
(** * WPICheckpointEngine (consumer/wpi_verl_plugin/engine.py)

    The checkpoint engine of a training job: the trainer packs its weights into the
    mapped buffer, publishes the table of offsets and triggers a propagation; a rollout
    worker waits for the notification, reads the table and yields views of its buffer. *)

From S2P Require Import Prelude PyMonad PyText PyDict Cuda Allocator NodeState Stage FdServer.
From S2P Require Import Propagate Client.

(** ** Data *)

Record WPIMasterMetadata : Type := { zmq_ip : string; zmq_port : Z; node_ip : string }.

(** What [prepare] returns, and [None] entries of the list of [build_topology]. *)
Inductive prepared : Type :=
  | PreparedMaster (m : WPIMasterMetadata)
  | PreparedWorker (ip : string)
  | PreparedNone.

Record Dtype : Type := { dtype_name : string; dtype_itemsize : Z }.

#[global] Instance dtype_eq_dec : EqDecision Dtype.
Proof. solve_decision. Defined.

(** [shape.numel()]. *)
Definition shape_numel (shape : list Z) : Z := foldr Z.mul 1 shape.

(** A weight: its bytes in the order of its elements. *)
Record Tensor : Type := {
  t_shape : list Z; t_dtype : Dtype; t_contiguous : bool; t_bytes : list Z
}.

Definition nbytes (t : Tensor) : Z := dtype_itemsize (t_dtype t) * shape_numel (t_shape t).

Record TensorMeta : Type := {
  meta_name : string; meta_shape : list Z; meta_dtype : Dtype; meta_offset : Z
}.

Record Metadata : Type := { bucket_meta : dict TensorMeta; total_bytes : Z }.

(** A tensor that shares the buffer's memory: where it lies, and as what. *)
Record View : Type := { view_ptr : Z; view_size : Z; view_dtype : Dtype; view_shape : list Z }.

(** What reading the view gives while the memory is [m]. *)
Definition view_bytes (m : vram) (v : View) : list Z := vram_read (view_ptr v) (Z.to_nat (view_size v)) m.

Inductive zmq_socket : Type :=
  | Pub (address : string)
  | Sub (address topic : string).

(** [s.strip(chars)] for brackets. *)
Definition is_bracket (c : ascii) : bool := Ascii.eqb c "[" || Ascii.eqb c "]".
Fixpoint lstrip_brackets (s : string) : string :=
  match s with
  | String c s' => if is_bracket c then lstrip_brackets s' else s
  | EmptyString => EmptyString
  end.
Fixpoint rstrip_brackets (s : string) : string :=
  match s with
  | String c s' =>
      match rstrip_brackets s' with
      | EmptyString => if is_bracket c then EmptyString else String c EmptyString
      | r => String c r
      end
  | EmptyString => EmptyString
  end.
Definition strip_brackets (s : string) : string := rstrip_brackets (lstrip_brackets s).

(** What the engine asks of its surroundings. *)
Record EngineEnv : Type := {
  client_env : ClientEnv;
  (** [ray.util.get_node_ip_address()]. *)
  ray_node_ip : string;
  get_free_port : string -> Z;
  is_valid_ipv6_address : string -> bool;
  (** The answer of the GCE metadata server; [None] when the query raises. *)
  gce_metadata : option string;
  (** [list(s)] of a set: its elements in some order. *)
  list_of_set : gset string -> list string
}.

Record WPICheckpointEngine (W : Type) : Type := mk_Engine {
  bucket_size : Z;
  buffer_id : string;
  claim_id : string;
  is_master : bool;
  rank : option Z;
  world_size : option Z;
  (** [vram_buffer]: address and size of the mapped buffer. *)
  vram_buffer : option (Z * Z);
  target_nodes : option (list string);
  wpi_client : WPIClient W;
  zmq : option zmq_socket;
  zmq_sent : list (string * Metadata);
  zmq_inbox : list (string * Metadata);
  staged_ : bool;
  yielded : list (string * View)
}.
Arguments mk_Engine {W}.
Arguments bucket_size {W}.
Arguments buffer_id {W}.
Arguments claim_id {W}.
Arguments is_master {W}.
Arguments rank {W}.
Arguments world_size {W}.
Arguments vram_buffer {W}.
Arguments target_nodes {W}.
Arguments wpi_client {W}.
Arguments zmq {W}.
Arguments zmq_sent {W}.
Arguments zmq_inbox {W}.
Arguments staged_ {W}.
Arguments yielded {W}.

Definition topic : string := "wpi_bucket_metadata".

Section engine.
Context {W : Type} `{CudaApi W} `{CudaContextApi W} (env : EngineEnv).
#[local] Abbreviation state := (WPICheckpointEngine W).

Definition with_client (c : WPIClient W) (s : state) : state :=
  mk_Engine (bucket_size s) (buffer_id s) (claim_id s) (is_master s) (rank s) (world_size s)
    (vram_buffer s) (target_nodes s) c (zmq s) (zmq_sent s) (zmq_inbox s) (staged_ s) (yielded s).

Definition with_group (r w : option Z) (t : option (list string)) (s : state) : state :=
  mk_Engine (bucket_size s) (buffer_id s) (claim_id s) (is_master s) r w
    (vram_buffer s) t (wpi_client s) (zmq s) (zmq_sent s) (zmq_inbox s) (staged_ s) (yielded s).

Definition with_buffer (b : option (Z * Z)) (s : state) : state :=
  mk_Engine (bucket_size s) (buffer_id s) (claim_id s) (is_master s) (rank s) (world_size s)
    b (target_nodes s) (wpi_client s) (zmq s) (zmq_sent s) (zmq_inbox s) (staged_ s) (yielded s).

Definition with_zmq (z : option zmq_socket) (s : state) : state :=
  mk_Engine (bucket_size s) (buffer_id s) (claim_id s) (is_master s) (rank s) (world_size s)
    (vram_buffer s) (target_nodes s) (wpi_client s) z (zmq_sent s) (zmq_inbox s) (staged_ s) (yielded s).

Definition with_messages (sent inbox : list (string * Metadata)) (s : state) : state :=
  mk_Engine (bucket_size s) (buffer_id s) (claim_id s) (is_master s) (rank s) (world_size s)
    (vram_buffer s) (target_nodes s) (wpi_client s) (zmq s) sent inbox (staged_ s) (yielded s).

Definition with_staged (b : bool) (s : state) : state :=
  mk_Engine (bucket_size s) (buffer_id s) (claim_id s) (is_master s) (rank s) (world_size s)
    (vram_buffer s) (target_nodes s) (wpi_client s) (zmq s) (zmq_sent s) (zmq_inbox s) b (yielded s).

Definition add_yield (nv : string * View) (s : state) : state :=
  mk_Engine (bucket_size s) (buffer_id s) (claim_id s) (is_master s) (rank s) (world_size s)
    (vram_buffer s) (target_nodes s) (wpi_client s) (zmq s) (zmq_sent s) (zmq_inbox s) (staged_ s)
    (yielded s ++ [nv]).

(** A method of [self.wpi_client]. *)
Definition on_client {A} (m : py (WPIClient W) A) : py state A := py_zoom wpi_client with_client m.

(** [f"tcp://{ip}:{port}"], with brackets around an IPv6 address. *)
Definition zmq_address (ip : string) (port : Z) : string :=
  if is_valid_ipv6_address env ip then "tcp://[" +:+ ip +:+ "]:" +:+ str_of_Z port
  else "tcp://" +:+ ip +:+ ":" +:+ str_of_Z port.

(** [self.ip] and [self.listen_port] of the master. *)
Definition master_ip : string := strip_brackets (ray_node_ip env).
Definition listen_port : Z := get_free_port env master_ip.

Definition start_zmq_server : py state unit :=
  py_modify (with_zmq (Some (Pub (zmq_address master_ip listen_port)))).

Definition connect_zmq_client (m : WPIMasterMetadata) : py state unit :=
  master ← py_get is_master ;
  py_assert (negb master) "Master process should not connect as ZMQ client." ;;
  py_modify (with_zmq (Some (Sub (zmq_address (zmq_ip m) (zmq_port m)) topic))).

(** [WPICheckpointEngine(...)]. *)
Definition engine_init (bucket_size : Z) (buffer_id claim_id socket_dir : string) (driver_port : Z)
    (is_master : bool) (w : W) : outcome unit * state :=
  (if is_master then start_zmq_server else mret tt)
    (mk_Engine bucket_size buffer_id (if bool_decide (claim_id = "") then buffer_id else claim_id)
       is_master None None None None (WPIClient_init socket_dir "localhost" driver_port w)
       None [] [] false []).

(** [os.environ.get(k, d)]. *)
Definition getenv (k d : string) : string := default d (environ (client_env env) k).

Definition prepare_node_ip : string :=
  let node_ip := strip (getenv "WPI_NODE_IP" "") in
  let node_ip :=
    if bool_decide (node_ip = "") && bool_decide (getenv "WPI_USE_GCE_METADATA" "0" = "1")
    then match gce_metadata env with Some ip => strip ip | None => "" end
    else node_ip in
  if bool_decide (node_ip = "") then strip_brackets (ray_node_ip env) else node_ip.

(** [int(os.environ.get("LOCAL_RANK", ...))]. *)
Definition prepare_gpu_id : py state Z :=
  py_int (getenv "LOCAL_RANK" (nth 0 (split "," (getenv "CUDA_VISIBLE_DEVICES" "0")) "")).

Definition prepare : py state prepared :=
  gpu_id ← prepare_gpu_id ;
  bid ← py_get buffer_id ;
  size ← py_get bucket_size ;
  claim ← py_get claim_id ;
  staged ← py_get staged_ ;
  py_when (negb staged)
    (on_client (stage_weight (client_env env) bid size claim "" (-1) 0) ;;
     py_modify (with_staged true)) ;;
  fd ← on_client (receive_fd (client_env env) gpu_metadata bid gpu_id (-1) 0) ;
  device_ptr ← on_client (import_cuda_memory (client_env env) fd size gpu_id) ;
  py_modify (with_buffer (Some (wrap_as_buffer device_ptr size))) ;;
  master ← py_get is_master ;
  py_when (negb master)
    (on_client (connect_notify_socket (client_env env) bid 60 (-1) 0)) ;;
  mret (if (master : bool) then
          PreparedMaster {| zmq_ip := master_ip; zmq_port := listen_port; node_ip := prepare_node_ip |}
        else PreparedWorker prepare_node_ip).

(** *** Topology *)

(** The arguments of [init_process_group], one list entry per process. *)
Record GroupArgs : Type := {
  ga_rank : list Z;
  ga_world_size : list Z;
  ga_master_metadata : list WPIMasterMetadata;
  ga_target_node_ids : list (option (list string))
}.

(** [m["node_ip"]] of an entry that is not [None]. *)
Definition entry_ip {S} (p : prepared) : py S (option string) :=
  match p with
  | PreparedWorker ip => mret (Some ip)
  | PreparedNone => mret None
  | PreparedMaster _ => py_raise TypeError "'WPIMasterMetadata' object is not subscriptable"
  end.

(** The set comprehension over the entries of the rollout workers. *)
Definition rollout_ips {S} (trainer_node_ip : string) (metas : list prepared) : py S (gset string) :=
  py_fold metas ∅ (fun ips p =>
    ip ← entry_ip p ;
    mret (match ip with
          | Some ip => if bool_decide (ip = trainer_node_ip) then ips else {[ip]} ∪ ips
          | None => ips
          end)).

(** [l[n:]]; a negative [n] counts from the end. *)
Definition slice_from {A} (n : Z) (l : list A) : list A :=
  if 0 <=? n then drop (Z.to_nat n) l else drop (length l - Z.to_nat (- n)) l.

(** [[x] * n]. *)
Definition list_repeat {A} (x : A) (n : Z) : list A := repeat x (Z.to_nat n).

Definition build_topology {S} (trainer_world_size rollout_world_size : Z) (metadata : list prepared)
    : py S (GroupArgs * GroupArgs) :=
  first ← py_some (head metadata) IndexError "list index out of range" ;
  master_metadata ←
    match first with
    | PreparedMaster m => mret m
    | _ => py_raise AttributeError "object has no attribute 'node_ip'"
    end ;
  let trainer_node_ip := node_ip master_metadata in
  ips ← rollout_ips trainer_node_ip (slice_from trainer_world_size metadata) ;
  let rollout_node_ips := list_of_set env ips in
  mret
    ({| ga_rank := 0 :: list_repeat (-1) (trainer_world_size - 1);
        ga_world_size := list_repeat (rollout_world_size + 1) trainer_world_size;
        ga_master_metadata := list_repeat master_metadata trainer_world_size;
        ga_target_node_ids := list_repeat (Some rollout_node_ips) trainer_world_size |},
     {| ga_rank := Z.of_nat <$> seq 1 (Z.to_nat rollout_world_size);
        ga_world_size := list_repeat (rollout_world_size + 1) rollout_world_size;
        ga_master_metadata := list_repeat master_metadata rollout_world_size;
        ga_target_node_ids := list_repeat None rollout_world_size |}).

Definition init_process_group (r w : Z) (master_metadata : WPIMasterMetadata)
    (targets : option (list string)) : py state unit :=
  py_modify (with_group (Some r) (Some w) targets) ;;
  if r <? 0 then mret tt
  else py_when (0 <? r) (connect_zmq_client master_metadata).

(** *** Weights *)

(** [self.vram_buffer[offset : offset + n].copy_(...)]: a write to device memory. *)
Definition buffer_write (ptr offset : Z) (bytes : list Z) : py state unit :=
  on_client (py_modify (fun c =>
    set_cuda (cuda_set_memory (vram_write (ptr + offset) bytes (cuda_memory (cuda c))) (cuda c)) c)).

(** One weight of the packing loop; the accumulator is the table and the offset. *)
Definition pack_weight (size ptr : Z) (acc : dict TensorMeta * Z) (nw : string * Tensor)
    : py state (dict TensorMeta * Z) :=
  let '(name, weight) := nw in
  let offset := acc.2 in
  py_assert (offset + nbytes weight <=? size) "Weight would exceed buffer size." ;;
  let table := dict_set name
    {| meta_name := name; meta_shape := t_shape weight; meta_dtype := t_dtype weight;
       meta_offset := offset |} acc.1 in
  (if t_contiguous weight then buffer_write ptr offset (t_bytes weight)
   else py_raise RuntimeError "view size is not compatible with input tensor's size and stride") ;;
  mret (table, offset + nbytes weight).

Definition send_weights (weights : list (string * Tensor)) : py state unit :=
  r ← py_get rank ;
  py_assert (match r with Some r => r <=? 0 | None => false end)
    "Only trainer workers should call send_weights." ;;
  if default 0 r <? 0 then mret tt
  else
    buf ← py_get vram_buffer ;
    ptr ← py_some buf AssertionError "VRAM buffer not initialized. Call prepare() first." ;
    targets ← py_get target_nodes ;
    nodes ← py_some targets AssertionError "Target node IDs not set. Call init_process_group() first." ;
    size ← py_get bucket_size ;
    packed ← py_fold weights (([] : dict TensorMeta), 0) (pack_weight size ptr.1) ;
    z ← py_get zmq ;
    _ ← py_some z AttributeError "'NoneType' object has no attribute 'send_string'" ;
    py_modify (fun s => with_messages
      (zmq_sent s ++ [(topic, {| bucket_meta := packed.1; total_bytes := packed.2 |})]) (zmq_inbox s) s) ;;
    bid ← py_get buffer_id ;
    on_client (propagate (client_env env) bid nodes 0 []).

(** [self.vram_buffer[offset : offset + size].view(dtype).view(shape)]: the slice is cut at
    the end of the buffer; a wider element type needs an aligned offset and a whole number
    of elements, the shape needs all of them. *)
Definition buffer_view {S} (buf : Z * Z) (m : TensorMeta) : py S View :=
  let itemsize := dtype_itemsize (meta_dtype m) in
  let size := itemsize * shape_numel (meta_shape m) in
  let got := Z.max 0 (Z.min (buf.2 - meta_offset m) size) in
  if negb (meta_offset m mod itemsize =? 0) then
    py_raise RuntimeError "self.storage_offset() must be divisible by the size of the dtype"
  else if negb (got =? size) then
    py_raise RuntimeError "shape is invalid for input of this size"
  else mret {| view_ptr := buf.1 + meta_offset m; view_size := size;
               view_dtype := meta_dtype m; view_shape := meta_shape m |}.

Definition receive_metadata : py state Metadata := fun s =>
  match zmq_inbox s with
  | [] => (Stuck, s)
  | m :: rest => (Ret m.2, with_messages (zmq_sent s) rest s)
  end.

Definition receive_weights : py state unit :=
  r ← py_get rank ;
  py_assert (match r with Some r => 0 <? r | None => false end)
    "Only rollout workers should call receive_weights." ;;
  obuf ← py_get vram_buffer ;
  buf ← py_some obuf AssertionError "VRAM buffer not initialized. Call prepare() first." ;
  _ ← on_client wait_for_ready ;
  z ← py_get zmq ;
  _ ← py_some z AttributeError "'NoneType' object has no attribute 'recv_string'" ;
  metadata ← receive_metadata ;
  py_for (bucket_meta metadata) (fun nm =>
    v ← buffer_view buf nm.2 ;
    py_modify (add_yield (nm.1, v))).

(** [finalize] frees nothing: the buffer is used again. *)
Definition finalize : py state unit := mret tt.

Definition shutdown : py state unit :=
  staged ← py_get staged_ ;
  claim ← py_get claim_id ;
  py_when staged
    (py_except (on_client (unstage_weight (client_env env) claim)) is_Exception
       (fun _ => mret tt) ;;
     py_modify (with_staged false)) ;;
  on_client close ;;
  py_modify (with_buffer None) ;;
  py_modify (with_zmq None).
End engine.

#[global] Arguments pack_weight : simpl never.
#[local] Arguments close : simpl never.
#[local] Arguments unstage_weight : simpl never.
#[local] Arguments propagate : simpl never.
#[local] Arguments wait_for_ready : simpl never.

(** ** Lemmas: packing *)

Section packing.
Context {W : Type} `{CudaApi W} `{CudaContextApi W} (obs : W -> cuda_obs) `{!CudaLaws W obs}.
Context (env : EngineEnv).
Implicit Types (s : WPICheckpointEngine W) (weights : list (string * Tensor)).

Definition total_nbytes (weights : list (string * Tensor)) : Z :=
  foldr (fun nw n => nbytes nw.2 + n) 0 weights.

(** A weight whose bytes are those of its elements, in order. *)
Definition weight_ok (nw : string * Tensor) : Prop :=
  t_contiguous nw.2 = true /\ Z.of_nat (length (t_bytes nw.2)) = nbytes nw.2 /\
  0 < dtype_itemsize (t_dtype nw.2).

(** The table of offsets from [offset] on. *)
Fixpoint table_of (offset : Z) (weights : list (string * Tensor)) : dict TensorMeta :=
  match weights with
  | [] => []
  | (name, w) :: rest =>
      (name, {| meta_name := name; meta_shape := t_shape w; meta_dtype := t_dtype w;
                meta_offset := offset |}) :: table_of (offset + nbytes w) rest
  end.

(** The memory after the copies. *)
Fixpoint packed_memory (p : Z) (weights : list (string * Tensor)) (m : vram) : vram :=
  match weights with
  | [] => m
  | nw :: rest => packed_memory (p + nbytes nw.2) rest (vram_write p (t_bytes nw.2) m)
  end.

(** The engine after the memory of its process changed. *)
Definition with_memory (m : vram) s : WPICheckpointEngine W :=
  with_client (set_cuda (cuda_set_memory m (cuda (wpi_client s))) (wpi_client s)) s.

Lemma table_of_keys offset weights : dict_keys (table_of offset weights) = weights.*1.
Proof.
  revert offset. induction weights as [|[name w] weights IH]; intros offset; [done|].
  simpl. unfold dict_keys in *. simpl. by rewrite IH.
Qed.

Lemma nbytes_nonneg nw : weight_ok nw -> 0 <= nbytes nw.2.
Proof. intros (_ & Hl & _). lia. Qed.

Lemma total_nonneg weights : Forall weight_ok weights -> 0 <= total_nbytes weights.
Proof.
  induction 1 as [|nw weights Hw _ IH]; simpl; [done|]. pose proof (nbytes_nonneg _ Hw). lia.
Qed.

Lemma packed_below p q n weights m :
  Forall weight_ok weights -> q + Z.of_nat n <= p ->
  vram_read q n (packed_memory p weights m) = vram_read q n m.
Proof.
  intros Hw. revert p m. induction Hw as [|nw weights Hnw Hw IH]; intros p m Hq; simpl; [done|].
  pose proof (nbytes_nonneg _ Hnw). rewrite IH by lia. rewrite vram_read_write_other; [done|]. by left.
Qed.

Lemma packed_slice p l1 nw l2 m :
  Forall weight_ok (l1 ++ nw :: l2) ->
  vram_read (p + total_nbytes l1) (Z.to_nat (nbytes nw.2)) (packed_memory p (l1 ++ nw :: l2) m) =
    t_bytes nw.2.
Proof.
  revert p m. induction l1 as [|nw' l1 IH]; intros p m Hw; simpl; inversion Hw; subst.
  - pose proof (nbytes_nonneg nw ltac:(done)). destruct H3 as (_ & Hl & _).
    rewrite Z.add_0_r, packed_below by (done || lia).
    rewrite vram_read_write by lia. rewrite Z.sub_diag. simpl. rewrite drop_0. apply take_ge. lia.
  - rewrite Z.add_assoc. by apply IH.
Qed.

Lemma table_of_app offset l1 l2 :
  table_of offset (l1 ++ l2) = table_of offset l1 ++ table_of (offset + total_nbytes l1) l2.
Proof.
  revert offset. induction l1 as [|[name w] l1 IH]; intros offset; simpl; [by rewrite Z.add_0_r|].
  by rewrite IH, Z.add_assoc.
Qed.

Lemma with_memory_twice m m' s : with_memory m (with_memory m' s) =
  with_client (set_cuda (cuda_set_memory m (cuda_set_memory m' (cuda (wpi_client s)))) (wpi_client s)) s.
Proof. done. Qed.

Lemma pack_weight_run size p table offset name w s :
  weight_ok (name, w) -> offset + nbytes w <= size ->
  pack_weight size p (table, offset) (name, w) s =
    (Ret (dict_set name {| meta_name := name; meta_shape := t_shape w; meta_dtype := t_dtype w;
            meta_offset := offset |} table, offset + nbytes w),
     with_memory (vram_write (p + offset) (t_bytes w) (cuda_memory (cuda (wpi_client s)))) s).
Proof.
  intros (Hc & _ & _) Hfit. simpl in Hc. unfold pack_weight. rewrite bind_unfold.
  unfold py_assert. simpl. rewrite (proj2 (Z.leb_le _ _)) by lia. cbn [mret py_ret].
  rewrite bind_unfold, Hc. done.
Qed.

(** The loop, when everything fits: table, offset, memory. *)
Lemma pack_run size p weights table offset s :
  Forall weight_ok weights -> NoDup weights.*1 ->
  (forall name, name ∈ weights.*1 -> dict_get name table = None) ->
  offset + total_nbytes weights <= size ->
  exists w,
    py_fold weights (table, offset) (pack_weight size p) s =
      (Ret (table ++ table_of offset weights, offset + total_nbytes weights),
       with_client (set_cuda w (wpi_client s)) s) /\
    cuda_memory w = packed_memory (p + offset) weights (cuda_memory (cuda (wpi_client s))).
Proof.
  intros Hw. revert table offset s.
  induction Hw as [|[name w] weights Hnw Hw IH]; intros table offset s Hnd Hfresh Hsize.
  - exists (cuda (wpi_client s)). simpl. rewrite app_nil_r, Z.add_0_r. split; [|done].
    do 2 f_equal. by destruct s as [???????? []].
  - simpl in *. inversion Hnd as [|?? Hn Hnd']; subst. destruct Hnw as (Hc & Hl & Hi). simpl in *.
    pose proof (total_nonneg _ Hw).
    rewrite bind_unfold, pack_weight_run by (done || lia).
    set (s1 := with_memory _ s).
    destruct (IH (dict_set name {| meta_name := name; meta_shape := t_shape w; meta_dtype := t_dtype w;
        meta_offset := offset |} table) (offset + nbytes w) s1) as (w2 & E & Hm).
    + done.
    + intros name' Hin. rewrite dict_get_set_ne by (intros ->; done). apply Hfresh. set_solver.
    + lia.
    + exists w2. rewrite E. rewrite dict_set_new by (apply Hfresh; set_solver).
      rewrite <- app_assoc. simpl. rewrite Z.add_assoc. split; [done|].
      rewrite Hm. unfold s1. simpl. rewrite (law_memory_set (obs:=obs)).
      by rewrite Z.add_assoc.
Qed.

(** ** Lemmas: views *)

Lemma buffer_view_run {S} (buf : Z * Z) offset shape dtype name (s : S) :
  0 < dtype_itemsize dtype -> offset mod dtype_itemsize dtype = 0 ->
  0 <= dtype_itemsize dtype * shape_numel shape ->
  offset + dtype_itemsize dtype * shape_numel shape <= buf.2 ->
  buffer_view buf {| meta_name := name; meta_shape := shape; meta_dtype := dtype; meta_offset := offset |} s =
    (Ret {| view_ptr := buf.1 + offset; view_size := dtype_itemsize dtype * shape_numel shape;
            view_dtype := dtype; view_shape := shape |}, s).
Proof.
  intros Hi Hal Hpos Hfit. unfold buffer_view. simpl. rewrite Hal. simpl.
  rewrite Z.min_r, Z.max_r by lia. by rewrite Z.eqb_refl.
Qed.

(** The views of a table, in its order. *)
Fixpoint views_of (q offset : Z) (weights : list (string * Tensor)) : list (string * View) :=
  match weights with
  | [] => []
  | (name, w) :: rest =>
      (name, {| view_ptr := q + offset; view_size := nbytes w; view_dtype := t_dtype w;
                view_shape := t_shape w |}) :: views_of q (offset + nbytes w) rest
  end.

(** Every weight starts at a multiple of the size of its elements. *)
Fixpoint aligned (offset : Z) (weights : list (string * Tensor)) : Prop :=
  match weights with
  | [] => True
  | (_, w) :: rest => offset mod dtype_itemsize (t_dtype w) = 0 /\ aligned (offset + nbytes w) rest
  end.

Lemma total_nbytes_app l1 l2 : total_nbytes (l1 ++ l2) = total_nbytes l1 + total_nbytes l2.
Proof. induction l1 as [|nw l1 IH]; simpl; [done|]. rewrite IH. lia. Qed.

(** The first weight that is not aligned. *)
Lemma misaligned_split offset weights :
  ~ aligned offset weights -> exists l1 name w l2,
    weights = l1 ++ (name, w) :: l2 /\ aligned offset l1 /\
    (offset + total_nbytes l1) mod dtype_itemsize (t_dtype w) <> 0.
Proof.
  revert offset. induction weights as [|[name w] weights IH]; intros offset Hn; simpl in Hn; [done|].
  destruct (Z.eq_dec (offset mod dtype_itemsize (t_dtype w)) 0) as [E|E].
  - destruct (IH (offset + nbytes w)) as (l1 & name' & w' & l2 & -> & Hal & Hmis); [tauto|].
    exists ((name, w) :: l1), name', w', l2. simpl. by rewrite Z.add_assoc.
  - exists [], name, w, weights. simpl. by rewrite Z.add_0_r.
Qed.

Definition with_yielded (l : list (string * View)) s : WPICheckpointEngine W :=
  mk_Engine (bucket_size s) (buffer_id s) (claim_id s) (is_master s) (rank s) (world_size s)
    (vram_buffer s) (target_nodes s) (wpi_client s) (zmq s) (zmq_sent s) (zmq_inbox s) (staged_ s) l.

Lemma yield_loop_run (buf : Z * Z) weights offset s :
  Forall weight_ok weights -> aligned offset weights -> offset + total_nbytes weights <= buf.2 ->
  py_for (table_of offset weights) (fun nm =>
    v ← buffer_view buf nm.2 ; py_modify (add_yield (nm.1, v))) s =
  (Ret tt, with_yielded (yielded s ++ views_of buf.1 offset weights) s).
Proof.
  intros Hw. revert offset s. induction Hw as [|[name w] weights Hnw Hw IH]; intros offset s Hal Hfit.
  - simpl. rewrite app_nil_r. by destruct s.
  - simpl in *. destruct Hal as [Hal Hal']. destruct Hnw as (Hc & Hl & Hi). simpl in *.
    pose proof (total_nonneg _ Hw). unfold nbytes in *.
    rewrite bind_unfold, bind_unfold, buffer_view_run by (done || lia).
    cbn [py_modify]. rewrite IH by (done || lia). f_equal. unfold with_yielded, add_yield. simpl.
    by rewrite <- app_assoc.
Qed.
End packing.

(** ** Lemmas: sending and receiving *)

(** A window of a window. *)
Lemma vram_read_window p o n N m :
  (o + n <= N)%nat -> vram_read (p + Z.of_nat o) n m = take n (drop o (vram_read p N m)).
Proof.
  intros Hn. apply list_eq_same_length with (n := n).
  - rewrite length_take, length_drop, vram_read_length. lia.
  - apply vram_read_length.
  - intros i x y Hi. rewrite vram_read_lookup by done.
    rewrite lookup_take_lt, lookup_drop, vram_read_lookup by lia. intros [= <-] [= <-]. f_equal. lia.
Qed.

Section transfer.
Context {W : Type} `{CudaApi W} `{CudaContextApi W} (obs : W -> cuda_obs) `{!CudaLaws W obs}.
Context (env : EngineEnv).
Implicit Types (s : WPICheckpointEngine W) (weights : list (string * Tensor)).

(** The memory of the process of an engine. *)
Definition engine_memory s : vram := cuda_memory (cuda (wpi_client s)).

(** A master that is ready to send. *)
Definition ready_to_send (p : Z) (nodes : list string) s : Prop :=
  rank s = Some 0 /\ vram_buffer s = Some (p, bucket_size s) /\
  target_nodes s = Some nodes /\ is_Some (zmq s).

Definition broadcast_request (id : string) (nodes : list string) : NodePropagateRequest :=
  {| pr_buffer_id := id; target_node_ids := nodes; pr_mode := 0; shard_assignments := [] |}.

Lemma propagate_call_run cenv id nodes (c : WPIClient W) :
  answer cenv (CallPropagate (broadcast_request id nodes)) = RpcOk tt ->
  exists target c', propagate cenv id nodes 0 [] c = (Ret tt, c') /\
    cuda c' = cuda c /\ calls c' = calls c ++ [(target, CallPropagate (broadcast_request id nodes))].
Proof.
  unfold broadcast_request. intros Ha. unfold propagate, get_grpc_stub. rewrite bind_unfold.
  rewrite bind_unfold. simpl. destruct (grpc_target c) as [t|]; simpl.
  - rewrite bind_unfold. unfold invoke. rewrite bind_unfold. simpl. rewrite Ha. by eexists _, _.
  - rewrite bind_unfold. unfold invoke. rewrite bind_unfold. simpl. rewrite Ha. by eexists _, _.
Qed.

Lemma send_run weights p nodes s :
  ready_to_send p nodes s ->
  Forall weight_ok weights -> NoDup weights.*1 -> total_nbytes weights <= bucket_size s ->
  answer (client_env env) (CallPropagate (broadcast_request (buffer_id s) nodes)) = RpcOk tt ->
  exists s' target,
    send_weights env weights s = (Ret tt, s') /\
    zmq_sent s' = zmq_sent s ++
      [(topic, {| bucket_meta := table_of 0 weights; total_bytes := total_nbytes weights |})] /\
    engine_memory s' = packed_memory p weights (engine_memory s) /\
    calls (wpi_client s') = calls (wpi_client s) ++
      [(target, CallPropagate (broadcast_request (buffer_id s) nodes))].
Proof.
  intros (Hr & Hbuf & Hn & [z Hz]) Hw Hnd Hfit Hans.
  destruct (pack_run obs (bucket_size s) p weights ([] : dict TensorMeta) 0 s) as (w & E & Hm); [done|done|done|done|].
  set (s1 := with_client (set_cuda w (wpi_client s)) s) in *.
  set (s2 := with_messages (zmq_sent s ++ [(topic, {| bucket_meta := table_of 0 weights;
    total_bytes := total_nbytes weights |})]) (zmq_inbox s) s1).
  destruct (propagate_call_run (client_env env) (buffer_id s) nodes (wpi_client s2) Hans)
    as (target & c' & Ep & Hc & Hcalls).
  exists (with_client c' s2), target. split; [|split; [done|split]].
  - unfold send_weights. rewrite bind_unfold. simpl. rewrite Hr. rewrite bind_unfold. simpl.
    rewrite bind_unfold. simpl. rewrite Hbuf. rewrite bind_unfold. simpl.
    rewrite bind_unfold. simpl. rewrite Hn. rewrite bind_unfold. simpl.
    rewrite bind_unfold. simpl. rewrite bind_unfold, E. rewrite bind_unfold. simpl.
    rewrite Hz. rewrite bind_unfold. simpl. rewrite bind_unfold. simpl. rewrite bind_unfold. simpl.
    unfold on_client, py_zoom. simpl. fold s2. change (wpi_client s2) with (set_cuda w (wpi_client s)) in Ep.
    by rewrite Ep.
  - unfold engine_memory. simpl. rewrite Hc. simpl. rewrite Hm. by rewrite Z.add_0_r.
  - exact Hcalls.
Qed.

(** A rollout worker with a notification and a table to read. *)
Definition ready_to_receive (q size : Z) (md : Metadata) s : Prop :=
  (exists r, rank s = Some r /\ 0 < r) /\ vram_buffer s = Some (q, size) /\ is_Some (zmq s) /\
  (exists rest, zmq_inbox s = (topic, md) :: rest) /\
  exists i c chunk rest, notify_socket (wpi_client s) = Some i /\ socks (wpi_client s) !! i = Some c /\
    inbox c = chunk :: rest /\ (String.length chunk <= 1024)%nat.

(** A wait for the first notification, then the first table: views of all its weights. *)
Lemma receive_exact weights q size r z rest i c chunk l s :
  rank s = Some r -> 0 < r -> vram_buffer s = Some (q, size) -> zmq s = Some z ->
  zmq_inbox s = (topic, {| bucket_meta := table_of 0 weights; total_bytes := total_nbytes weights |}) :: rest ->
  notify_socket (wpi_client s) = Some i -> socks (wpi_client s) !! i = Some c ->
  inbox c = chunk :: l -> (String.length chunk <= 1024)%nat ->
  Forall weight_ok weights -> aligned 0 weights -> total_nbytes weights <= size ->
  receive_weights s = (Ret tt, with_yielded (yielded s ++ views_of q 0 weights)
    (with_messages (zmq_sent s) rest (with_client
      (set_socks (<[i := mk_Conn l (eof c) (room c) (outbox c) (passed_fds c) (closed c)]>)
         (wpi_client s)) s))).
Proof.
  intros Hr Hpos Hbuf Hz Hin Hi Hc Hch Hlen Hw Hal Hfit.
  set (c' := set_socks (<[i := mk_Conn l (eof c) (room c) (outbox c) (passed_fds c) (closed c)]>)
    (wpi_client s)).
  set (s1 := with_messages (zmq_sent s) rest (with_client c' s)).
  unfold receive_weights. rewrite bind_unfold. simpl. rewrite Hr. rewrite bind_unfold.
  unfold py_assert. rewrite (proj2 (Z.ltb_lt _ _)) by done. cbn [mret py_ret].
  rewrite bind_unfold. simpl. rewrite Hbuf. rewrite bind_unfold. simpl. rewrite bind_unfold.
  unfold on_client, py_zoom.
  rewrite (wait_for_ready_run chunk l i c) by done. fold c'.
  rewrite bind_unfold. simpl. rewrite Hz. rewrite bind_unfold. simpl. rewrite bind_unfold.
  unfold receive_metadata. simpl. rewrite Hin. simpl. fold s1.
  by rewrite (yield_loop_run (q, size)).
Qed.

Lemma receive_run weights q size s :
  ready_to_receive q size {| bucket_meta := table_of 0 weights; total_bytes := total_nbytes weights |} s ->
  Forall weight_ok weights -> aligned 0 weights -> total_nbytes weights <= size ->
  exists s', receive_weights s = (Ret tt, s') /\
    yielded s' = yielded s ++ views_of q 0 weights /\ engine_memory s' = engine_memory s.
Proof.
  intros ((r & Hr & Hpos) & Hbuf & [z Hz] & (rest & Hin) & (i & c & chunk & l & Hi & Hc & Hch & Hlen))
    Hw Hal Hfit.
  eexists. split; [by eapply receive_exact|]. done.
Qed.

(** The same reading, up to the first weight that is not aligned. *)
Lemma receive_misaligned_run l1 name w l2 q size total s :
  ready_to_receive q size
    {| bucket_meta := table_of 0 (l1 ++ (name, w) :: l2); total_bytes := total |} s ->
  Forall weight_ok (l1 ++ (name, w) :: l2) -> aligned 0 l1 ->
  total_nbytes l1 mod dtype_itemsize (t_dtype w) <> 0 ->
  total_nbytes (l1 ++ (name, w) :: l2) <= size ->
  exists s', receive_weights s = (Raise (mk_exn RuntimeError
      "self.storage_offset() must be divisible by the size of the dtype"), s') /\
    yielded s' = yielded s ++ views_of q 0 l1.
Proof.
  intros ((r & Hr & Hpos) & Hbuf & [z Hz] & (rest & Hin) & (i & c & chunk & l & Hi & Hc & Hch & Hlen))
    Hw Hal Hmis Hfit.
  apply Forall_app in Hw as [Hw1 Hw2]. rewrite total_nbytes_app in Hfit.
  pose proof (total_nonneg _ Hw2).
  eexists. split.
  - unfold receive_weights. rewrite bind_unfold. simpl. rewrite Hr. rewrite bind_unfold.
    unfold py_assert. rewrite (proj2 (Z.ltb_lt _ _)) by done. cbn [mret py_ret].
    rewrite bind_unfold. simpl. rewrite Hbuf. rewrite bind_unfold. simpl. rewrite bind_unfold.
    unfold on_client, py_zoom. rewrite (wait_for_ready_run chunk l i c) by done.
    rewrite bind_unfold. simpl. rewrite Hz. rewrite bind_unfold. simpl. rewrite bind_unfold.
    unfold receive_metadata. simpl. rewrite Hin. cbn [bucket_meta snd].
    rewrite table_of_app, for_app, bind_unfold, (yield_loop_run (q, size)) by (done || simpl; lia).
    cbn [table_of py_for]. rewrite bind_unfold, bind_unfold. unfold buffer_view at 1. cbn [meta_offset meta_dtype meta_shape fst snd].
    rewrite Z.add_0_l, (proj2 (Z.eqb_neq _ _) Hmis). reflexivity.
  - done.
Qed.

(** What the views read, when the buffer holds what was packed. *)
Lemma views_read p q offset weights m m' :
  0 <= offset -> Forall weight_ok weights ->
  vram_read (q + offset) (Z.to_nat (total_nbytes weights)) m' =
    vram_read (p + offset) (Z.to_nat (total_nbytes weights)) (packed_memory (p + offset) weights m) ->
  Forall2 (fun nw nv => nv.1 = nw.1 /\ view_dtype nv.2 = t_dtype nw.2 /\
             view_shape nv.2 = t_shape nw.2 /\ view_bytes m' nv.2 = t_bytes nw.2)
    weights (views_of q offset weights).
Proof.
  intros Hoff Hw. revert offset m Hoff. induction Hw as [|[name w] weights Hnw Hw IH];
    intros offset m Hoff Heq; simpl; constructor.
  - simpl. split_and!; try done. unfold view_bytes. simpl. simpl in Heq.
    pose proof (nbytes_nonneg _ Hnw). pose proof (total_nonneg _ Hw). simpl in *.
    pose proof (packed_slice (p + offset) [] (name, w) weights m (Forall_cons_2 _ _ _ Hnw Hw)) as Hs.
    simpl in Hs. rewrite Z.add_0_r in Hs. rewrite <- Hs.
    rewrite <- (Z.add_0_r (q + offset)), <- (Z.add_0_r (p + offset)) at 1.
    change 0 with (Z.of_nat 0). rewrite !(vram_read_window _ 0 _ (Z.to_nat (nbytes w + total_nbytes weights)))
      by lia. simpl in Heq. rewrite Heq. done.
  - simpl in Heq. pose proof (nbytes_nonneg _ Hnw). pose proof (total_nonneg _ Hw). simpl in *.
    apply (IH (offset + nbytes w) (vram_write (p + offset) (t_bytes w) m)); [lia|].
    rewrite !Z.add_assoc.
    replace (nbytes w) with (Z.of_nat (Z.to_nat (nbytes w))) at 1 2 by lia.
    rewrite !(vram_read_window _ (Z.to_nat (nbytes w)) _ (Z.to_nat (nbytes w + total_nbytes weights))) by lia.
    by rewrite Heq.
Qed.
End transfer.

(** ** Lemmas: topology *)

Section topology.
Context (env : EngineEnv).

(** [list(s)] of a set has its elements, each once. *)
Definition lists_elements : Prop :=
  forall X : gset string, list_of_set env X ≡ₚ elements X.

(** The node of a rollout worker, when it is known. *)
Definition worker_ip (p : prepared) : option string :=
  match p with PreparedWorker ip => Some ip | _ => None end.

Lemma rollout_ips_run {S} trainer metas (X : gset string) (s : S) :
  (forall p, p ∈ metas -> forall m, p <> PreparedMaster m) ->
  exists Y, py_fold metas X (fun ips p =>
      ip ← entry_ip p ;
      mret (match ip with
            | Some ip => if bool_decide (ip = trainer) then ips else {[ip]} ∪ ips
            | None => ips
            end)) s = (Ret Y, s) /\
    forall ip, ip ∈ Y <-> ip ∈ X \/ (ip <> trainer /\ Some ip ∈ worker_ip <$> metas).
Proof.
  revert X. induction metas as [|p metas IH]; intros X Hm; simpl.
  - exists X. split; [done|]. set_solver.
  - destruct p as [m|ip|].
    + by destruct (Hm (PreparedMaster m) ltac:(set_solver) m).
    + rewrite bind_unfold. unfold entry_ip at 1. rewrite bind_unfold. cbn [mret py_ret].
      destruct (IH (if bool_decide (ip = trainer) then X else {[ip]} ∪ X)) as (Y & E & HY).
      { intros p Hp. apply Hm. set_solver. }
      exists Y. rewrite E. split; [done|]. intros ip'. rewrite HY. case_bool_decide; set_solver.
    + rewrite bind_unfold. unfold entry_ip at 1. rewrite bind_unfold. cbn [mret py_ret].
      destruct (IH X) as (Y & E & HY). { intros p Hp. apply Hm. set_solver. }
      exists Y. rewrite E. split; [done|]. intros ip'. rewrite HY. set_solver.
Qed.
End topology.

(** ** Properties *)

Section properties.
Context {W : Type} `{CudaApi W} `{CudaContextApi W} (obs : W -> cuda_obs) `{!CudaLaws W obs}.
Context (env : EngineEnv).
Implicit Types (s : WPICheckpointEngine W) (weights : list (string * Tensor)).

(** C11: what a trainer sends is what a rollout worker receives: when the weights fit, have
    distinct names and start at multiples of their element size, and the propagation made
    the worker's buffer equal to the trainer's, the worker yields the same names in the
    same order, with the same types and shapes, and every view reads the bytes of its
    weight. *)
Theorem weights_roundtrip weights p nodes q size s :
  ready_to_send p nodes s ->
  Forall weight_ok weights -> NoDup weights.*1 -> aligned 0 weights ->
  total_nbytes weights <= bucket_size s -> total_nbytes weights <= size ->
  answer (client_env env) (CallPropagate (broadcast_request (buffer_id s) nodes)) = RpcOk tt ->
  exists s' md,
    send_weights env weights s = (Ret tt, s') /\
    zmq_sent s' = zmq_sent s ++ [(topic, md)] /\
    forall r,
      ready_to_receive q size md r ->
      vram_read q (Z.to_nat (total_bytes md)) (engine_memory r) =
        vram_read p (Z.to_nat (total_bytes md)) (engine_memory s') ->
      exists r' views,
        receive_weights r = (Ret tt, r') /\ yielded r' = yielded r ++ views /\
        Forall2 (fun nw nv => nv.1 = nw.1 /\ view_dtype nv.2 = t_dtype nw.2 /\
                   view_shape nv.2 = t_shape nw.2 /\
                   view_bytes (engine_memory r') nv.2 = t_bytes nw.2) weights views.
Proof.
  intros Hready Hw Hnd Hal Hfit Hfit' Hans.
  destruct (send_run obs env weights p nodes s) as (s' & t & E & Hz & Hm & _); [done..|].
  eexists s', _. split; [done|]. split; [done|]. intros r Hr Heq.
  destruct (receive_run weights q size r) as (r' & Er & Hy & Hmr); [done..|].
  exists r', (views_of q 0 weights). split; [done|]. split; [done|].
  apply (views_read p q 0 weights (engine_memory s)); [done|done|].
  rewrite !Z.add_0_r, Hmr, <- Hm. exact Heq.
Qed.

(** When the weights do not fit, the trainer raises at the first one that does not;
    nothing is published and nothing is propagated. *)
Theorem send_overflow_raises weights name w rest p nodes s :
  ready_to_send p nodes s ->
  Forall weight_ok weights -> NoDup weights.*1 ->
  total_nbytes weights <= bucket_size s -> bucket_size s < total_nbytes weights + nbytes w ->
  exists s',
    send_weights env (weights ++ (name, w) :: rest) s =
      (Raise (mk_exn AssertionError "Weight would exceed buffer size."), s') /\
    zmq_sent s' = zmq_sent s /\ calls (wpi_client s') = calls (wpi_client s).
Proof.
  intros (Hr & Hbuf & Hn & [z Hz]) Hw Hnd Hfit Hover.
  destruct (pack_run obs (bucket_size s) p weights ([] : dict TensorMeta) 0 s) as (wd & E & _);
    [done|done|done|done|].
  exists (with_client (set_cuda wd (wpi_client s)) s). split; [|done].
  unfold send_weights. rewrite bind_unfold. simpl. rewrite Hr. rewrite bind_unfold. simpl.
  rewrite bind_unfold. simpl. rewrite Hbuf. rewrite bind_unfold. simpl.
  rewrite bind_unfold. simpl. rewrite Hn. rewrite bind_unfold. simpl.
  rewrite bind_unfold. simpl. rewrite bind_unfold, fold_app, bind_unfold, E. simpl.
  rewrite bind_unfold. unfold pack_weight. rewrite bind_unfold. unfold py_assert. simpl.
  by rewrite (proj2 (Z.leb_gt _ _)) by lia.
Qed.

(** C40: the offsets are not aligned: when some weight of a list starts at an offset that is
    not a multiple of its element size, the trainer sends the list without an error, and
    every worker that reads it raises at the first such weight, having yielded views of
    exactly the weights before it. *)
Theorem receive_misaligned_raises weights p nodes q size s :
  ready_to_send p nodes s ->
  Forall weight_ok weights -> NoDup weights.*1 -> ~ aligned 0 weights ->
  total_nbytes weights <= bucket_size s -> total_nbytes weights <= size ->
  answer (client_env env) (CallPropagate (broadcast_request (buffer_id s) nodes)) = RpcOk tt ->
  exists s' md l1 name w l2,
    weights = l1 ++ (name, w) :: l2 /\ aligned 0 l1 /\
    total_nbytes l1 mod dtype_itemsize (t_dtype w) <> 0 /\
    send_weights env weights s = (Ret tt, s') /\
    zmq_sent s' = zmq_sent s ++ [(topic, md)] /\
    forall r : WPICheckpointEngine W, ready_to_receive q size md r ->
      exists r',
        receive_weights r = (Raise (mk_exn RuntimeError
          "self.storage_offset() must be divisible by the size of the dtype"), r') /\
        yielded r' = yielded r ++ views_of q 0 l1.
Proof.
  intros Hready Hw Hnd Hmis Hfit Hfit' Hans.
  destruct (send_run obs env weights p nodes s) as (s' & t & E & Hz & _); [done..|].
  destruct (misaligned_split 0 weights Hmis) as (l1 & name & w & l2 & -> & Hal & Hoff).
  exists s', {| bucket_meta := table_of 0 (l1 ++ (name, w) :: l2);
                total_bytes := total_nbytes (l1 ++ (name, w) :: l2) |}, l1, name, w, l2.
  split_and!; try done. intros r Hr.
  by eapply receive_misaligned_run.
Qed.

(** C30: shutdown releases the claim once, drops the buffer, the sockets and the channel,
    never raises, and a second shutdown changes nothing. *)
Theorem shutdown_idempotent s :
  staged_ s = true -> answer (client_env env) (CallUnstage (claim_id s)) <> RpcPending ->
  exists s' target,
    shutdown env s = (Ret tt, s') /\
    calls (wpi_client s') = calls (wpi_client s) ++ [(target, CallUnstage (claim_id s))] /\
    staged_ s' = false /\ vram_buffer s' = None /\ zmq s' = None /\
    notify_socket (wpi_client s') = None /\ grpc_target (wpi_client s') = None /\
    shutdown env s' = (Ret tt, s').
Proof.
  intros Hst Hans.
  assert (exists target e c', (unstage_weight (client_env env) (claim_id s) (wpi_client s) = (Ret tt, c') \/
    unstage_weight (client_env env) (claim_id s) (wpi_client s) = (Raise e, c')) /\
    calls c' = calls (wpi_client s) ++ [(target, CallUnstage (claim_id s))])
    as (target & e & c' & Hun & Hcalls).
  { unfold unstage_weight, get_grpc_stub.
    rewrite !bind_unfold. simpl.
    destruct (grpc_target (wpi_client s)) as [t|]; simpl; rewrite bind_unfold; unfold invoke;
      rewrite bind_unfold; simpl;
      destruct (answer _ _) as [[]|code details|] eqn:Ea; try done.
    all: try (eexists _, (mk_exn RpcError ""), _; split; [left; reflexivity|reflexivity]).
    all: eexists _, (mk_exn RpcError details), _; split; [right; reflexivity|reflexivity]. }
  assert (exists c2, close c' = (Ret tt, c2) /\ calls c2 = calls c' /\
    notify_socket c2 = None /\ grpc_target c2 = None /\ close c2 = (Ret tt, c2))
    as (c2 & Hcl & Hcalls2 & Hn2 & Hg2 & Hcl2).
  { unfold close. rewrite bind_unfold. simpl.
    destruct (notify_socket c') as [i|] eqn:Ei; simpl;
      (eexists; split; [reflexivity|split_and!; try done];
       rewrite bind_unfold; simpl; by rewrite ?Ei). }
  eexists (with_zmq None (with_buffer None (with_client c2 (with_staged false (with_client c' s))))), target.
  split; [|split; [simpl; by rewrite Hcalls2|split_and!; try done]].
  - unfold shutdown. rewrite bind_unfold. simpl. rewrite Hst. rewrite bind_unfold. simpl.
    rewrite bind_unfold, bind_unfold. unfold py_except, on_client, py_zoom. simpl.
    destruct Hun as [-> | ->]; simpl; rewrite bind_unfold; simpl; by rewrite Hcl.
  - unfold shutdown. rewrite bind_unfold. simpl. rewrite bind_unfold. simpl. rewrite bind_unfold. simpl.
    rewrite bind_unfold. unfold on_client, py_zoom. simpl. rewrite Hcl2. done.
Qed.

(** C13: the topology of a job: every list has one entry per process; the trainer's first
    process has rank 0, its others -1, the rollout workers have the ranks from 1 to their
    number; the world size of every process is the number of workers plus one, the master's
    metadata is in every entry; the trainer processes, and no worker, get the targets: the
    nodes of the workers other than the master's own, each once. *)
Theorem topology_complete trainer_n rollout_n m metas {S} (st : S) :
  lists_elements env ->
  0 < trainer_n -> 0 <= rollout_n -> head metas = Some (PreparedMaster m) ->
  (forall p, p ∈ drop (Z.to_nat trainer_n) metas -> forall m', p <> PreparedMaster m') ->
  exists ta ra targets,
    build_topology env trainer_n rollout_n metas st = (Ret (ta, ra), st) /\
    ga_rank ta = 0 :: repeat (-1) (Z.to_nat (trainer_n - 1)) /\
    Z.of_nat (length (ga_rank ra)) = rollout_n /\
    (forall i, 0 <= i < rollout_n -> ga_rank ra !! Z.to_nat i = Some (i + 1)) /\
    ga_world_size ta = repeat (rollout_n + 1) (Z.to_nat trainer_n) /\
    ga_world_size ra = repeat (rollout_n + 1) (Z.to_nat rollout_n) /\
    ga_master_metadata ta = repeat m (Z.to_nat trainer_n) /\
    ga_master_metadata ra = repeat m (Z.to_nat rollout_n) /\
    ga_target_node_ids ta = repeat (Some targets) (Z.to_nat trainer_n) /\
    ga_target_node_ids ra = repeat None (Z.to_nat rollout_n) /\
    NoDup targets /\
    (forall ip, ip ∈ targets <->
       ip <> node_ip m /\ PreparedWorker ip ∈ drop (Z.to_nat trainer_n) metas).
Proof.
  intros Hlist Ht Hr Hhead Hm. unfold build_topology. rewrite bind_unfold, Hhead. cbn [py_some mret py_ret].
  rewrite bind_unfold. cbn [mret py_ret]. rewrite bind_unfold. unfold slice_from, rollout_ips. rewrite (proj2 (Z.leb_le 0 trainer_n)) by lia.
  destruct (rollout_ips_run (node_ip m) (drop (Z.to_nat trainer_n) metas) ∅ st Hm) as (Y & -> & HY).
  eexists _, _, (list_of_set env Y). split; [reflexivity|]. simpl.
  split_and!; try done.
  - rewrite length_fmap, length_seq. lia.
  - intros i Hi. rewrite list_lookup_fmap, seq_lookup_rank by lia. simpl. f_equal. lia.
  - rewrite (Hlist Y). apply NoDup_elements.
  - intros ip. rewrite (Hlist Y), elem_of_elements, HY.
    assert (Some ip ∈ worker_ip <$> drop (Z.to_nat trainer_n) metas <->
            PreparedWorker ip ∈ drop (Z.to_nat trainer_n) metas) as ->.
    { rewrite list_elem_of_fmap. split.
      - intros (p & E & Hp). destruct p; naive_solver.
      - intros Hp. by exists (PreparedWorker ip). }
    set_solver.
Qed.
End properties.

(** ** Witnesses *)

Module EngineDemo.

Definition cenv : ClientEnv :=
  {| environ _ := None; path_exists _ _ := true; connect_to _ _ := None; new_fd _ := 17;
     cdll _ := true; answer _ := RpcOk tt |}.

Definition env : EngineEnv :=
  {| client_env := cenv; ray_node_ip := "10.0.0.1"; get_free_port _ := 5555;
     is_valid_ipv6_address _ := false; gce_metadata := None;
     list_of_set := elements |}.

Definition float16 : Dtype := {| dtype_name := "torch.float16"; dtype_itemsize := 2 |}.
Definition int8 : Dtype := {| dtype_name := "torch.int8"; dtype_itemsize := 1 |}.

(** Tensors of a row of elements. *)
Definition halves (bytes : list Z) : Tensor :=
  {| t_shape := [Z.of_nat (length bytes) / 2]; t_dtype := float16; t_contiguous := true; t_bytes := bytes |}.
Definition octets (bytes : list Z) : Tensor :=
  {| t_shape := [Z.of_nat (length bytes)]; t_dtype := int8; t_contiguous := true; t_bytes := bytes |}.

Definition weights : list (string * Tensor) := [("w", halves [1; 2; 3; 4]); ("b", halves [5; 6])].

Definition engine : WPICheckpointEngine ClientSim.csim :=
  mk_Engine 16 "m" "m" true None None (Some (4096, 16)) None ClientSim.client None [] [] true [].

(** A weight of bytes of an odd length before one of wider elements. *)
Definition crooked : list (string * Tensor) :=
  [("q", octets [7; 8; 9]); ("w", halves [1; 2]); ("b", halves [5; 6])].

(** A rollout worker that was notified and has a table to read. *)
Definition worker (md : Metadata) : WPICheckpointEngine ClientSim.csim :=
  mk_Engine 16 "m" "m" false (Some 1) (Some 2) (Some (8192, 16)) None
    (set_notify (Some 0%nat)
       (set_socks (fun _ => {[0%nat := mk_Conn [line "READY"] false (Some 4096) "" [] false]})
          ClientSim.client))
    (Some (Sub "tcp://10.0.0.1:5555" topic)) [] [(topic, md)] true [].

(** The master with one target. *)
Definition master : WPICheckpointEngine ClientSim.csim :=
  with_zmq (Some (Pub "tcp://10.0.0.1:5555")) (with_group (Some 0) (Some 2) (Some ["10.0.0.2"]) engine).
End EngineDemo.

Lemma demo_ready_to_send : ready_to_send 4096 ["10.0.0.2"] EngineDemo.master.
Proof. repeat split. by eexists. Qed.

Lemma demo_ready_to_receive md : ready_to_receive 8192 16 md (EngineDemo.worker md).
Proof.
  split; [by exists 1|]. split; [done|]. split; [by eexists|]. split; [by eexists|].
  eexists 0%nat, _, _, _. split; [done|]. split; [reflexivity|]. split; [done|simpl; lia].
Qed.

Lemma demo_weights_ok : Forall weight_ok EngineDemo.weights.
Proof. repeat (apply Forall_cons_2; [by repeat split|]). by apply Forall_nil_2. Qed.

Lemma weights_roundtrip_witness :
  exists s' md, send_weights EngineDemo.env EngineDemo.weights EngineDemo.master = (Ret tt, s') /\
    zmq_sent s' = [(topic, md)].
Proof.
  destruct (weights_roundtrip ClientSim.csim_obs EngineDemo.env EngineDemo.weights 4096 ["10.0.0.2"] 8192 16
    EngineDemo.master) as (s' & md & H1 & H2 & _).
  - exact demo_ready_to_send.
  - exact demo_weights_ok.
  - apply (bool_decide_unpack _). reflexivity.
  - by repeat split.
  - done.
  - done.
  - reflexivity.
  - exists s', md. split; [exact H1|exact H2].
Defined.

Lemma send_overflow_raises_witness :
  exists s',
    send_weights EngineDemo.env (EngineDemo.weights ++ [("big", EngineDemo.octets (repeat 0 11))])
      EngineDemo.master = (Raise (mk_exn AssertionError "Weight would exceed buffer size."), s') /\
    zmq_sent s' = [].
Proof.
  destruct (send_overflow_raises ClientSim.csim_obs EngineDemo.env EngineDemo.weights "big"
    (EngineDemo.octets (repeat 0 11)) [] 4096 ["10.0.0.2"] EngineDemo.master) as (s' & H1 & H2 & _).
  - exact demo_ready_to_send.
  - exact demo_weights_ok.
  - apply (bool_decide_unpack _). reflexivity.
  - done.
  - reflexivity.
  - exists s'. split; [exact H1|exact H2].
Defined.

Lemma receive_misaligned_raises_witness :
  exists s' md r',
    send_weights EngineDemo.env EngineDemo.crooked EngineDemo.master = (Ret tt, s') /\
    zmq_sent s' = [(topic, md)] /\
    receive_weights (EngineDemo.worker md) = (Raise (mk_exn RuntimeError
      "self.storage_offset() must be divisible by the size of the dtype"), r') /\
    (yielded r').*1 = ["q"].
Proof.
  destruct (receive_misaligned_raises ClientSim.csim_obs EngineDemo.env EngineDemo.crooked 4096 ["10.0.0.2"]
    8192 16 EngineDemo.master) as (s' & md & l1 & name & w & l2 & Hsplit & Hal & Hmis & H1 & H2 & H3).
  - exact demo_ready_to_send.
  - repeat (apply Forall_cons_2; [by repeat split|]). by apply Forall_nil_2.
  - apply (bool_decide_unpack _). reflexivity.
  - intros (_ & Ha & _). discriminate Ha.
  - done.
  - done.
  - reflexivity.
  - destruct (H3 (EngineDemo.worker md)) as (r' & H4 & H5); [by apply demo_ready_to_receive|].
    exists s', md, r'. split_and!; [exact H1|exact H2|exact H4|]. rewrite H5.
    destruct l1 as [|[n1 w1] [|[n2 w2] l1]]; unfold EngineDemo.crooked in Hsplit; simplify_eq/=.
    + reflexivity.
    + destruct Hal as (_ & Ha & _). discriminate Ha.
Defined.

Lemma shutdown_idempotent_witness :
  exists s', shutdown EngineDemo.env EngineDemo.master = (Ret tt, s') /\
    shutdown EngineDemo.env s' = (Ret tt, s').
Proof.
  destruct (shutdown_idempotent EngineDemo.env EngineDemo.master)
    as (s' & target & H1 & _ & _ & _ & _ & _ & _ & H8).
  - reflexivity.
  - discriminate.
  - exists s'. split; [exact H1|exact H8].
Defined.

Lemma topology_complete_witness :
  exists ta ra targets,
    build_topology EngineDemo.env 2 2
      [PreparedMaster {| zmq_ip := "10.0.0.1"; zmq_port := 5555; node_ip := "10.0.0.1" |};
       PreparedNone; PreparedWorker "10.0.0.1"; PreparedWorker "10.0.0.2"] tt = (Ret (ta, ra), tt) /\
    ga_world_size ta = [3; 3] /\ ga_target_node_ids ta = [Some targets; Some targets] /\
    "10.0.0.2" ∈ targets.
Proof.
  destruct (topology_complete ClientSim.csim_obs EngineDemo.env 2 2
    {| zmq_ip := "10.0.0.1"; zmq_port := 5555; node_ip := "10.0.0.1" |}
    [PreparedMaster {| zmq_ip := "10.0.0.1"; zmq_port := 5555; node_ip := "10.0.0.1" |};
     PreparedNone; PreparedWorker "10.0.0.1"; PreparedWorker "10.0.0.2"] tt)
    as (ta & ra & targets & H1 & _ & _ & _ & H5 & _ & _ & _ & H9 & _ & _ & H12).
  - intros X. reflexivity.
  - done.
  - done.
  - reflexivity.
  - simpl. intros p Hp m' ->. rewrite !elem_of_cons in Hp.
    destruct Hp as [Hp|[Hp|Hp]]; [discriminate..|by apply not_elem_of_nil in Hp].
  - exists ta, ra, targets. split; [exact H1|]. split; [exact H5|]. split; [exact H9|]. apply H12. split; [discriminate|].
    simpl. rewrite !elem_of_cons. right. by left.
Defined.
