(* ===== verification/Consumer.v ===== *)
(** * The stand-alone consumer (consumer/consumer_pytorch.py)

    A program that waits for a socket of the driver, receives a descriptor over it, maps
    the memory behind it and keeps the mapping. It does not use the client library. *)

From S2P Require Import Prelude PyMonad PyText PyDict Cuda Allocator NodeState Stage Unstage.
From S2P Require Import FdServer Client.

(** ** State *)

Record ConsumerEnv : Type := {
  (** [os.listdir(SOCKET_DIR)] after so many polls; [None] while it does not exist. *)
  socket_listing : nat -> option (list string);
  (** What a [connect] to a path finds; [None] when it raises. *)
  consumer_connect : string -> option (Conn * rights);
  (** The number that the kernel gives a new descriptor. *)
  consumer_new_fd : gmap Z Z -> Z;
  torch_importable : bool;
  libcuda_found : bool
}.

Record Consumer (W : Type) : Type := mk_Consumer {
  polls : nat;
  gpu : W;
  sock : option (Conn * rights);
  (** The received descriptors, with their files. *)
  fds : gmap Z Z;
  (** The tensor over the mapped range: address and length in bytes. *)
  weights : option (Z * Z)
}.
Arguments mk_Consumer {W}.
Arguments polls {W}.
Arguments gpu {W}.
Arguments sock {W}.
Arguments fds {W}.
Arguments weights {W}.

(** The size the consumer maps. *)
Definition CONSUMER_SIZE : Z := 10 * 1024 * 1024 * 1024.

(** [f.endswith(suffix)]. *)
Definition endswith (suffix f : string) : bool :=
  (String.length suffix <=? String.length f)%nat &&
  bool_decide (str_drop (String.length f - String.length suffix) f = suffix).

Section consumer.
Context {W : Type} `{CudaApi W} `{CudaContextApi W} (env : ConsumerEnv).
#[local] Abbreviation state := (Consumer W).

Definition poll_again (s : state) : state := mk_Consumer (S (polls s)) (gpu s) (sock s) (fds s) (weights s).
Definition set_gpu (w : W) (s : state) : state := mk_Consumer (polls s) w (sock s) (fds s) (weights s).
Definition set_sock (c : option (Conn * rights)) (s : state) : state :=
  mk_Consumer (polls s) (gpu s) c (fds s) (weights s).
Definition set_fds (t : gmap Z Z) (s : state) : state :=
  mk_Consumer (polls s) (gpu s) (sock s) t (weights s).
Definition set_weights (t : Z * Z) (s : state) : state :=
  mk_Consumer (polls s) (gpu s) (sock s) (fds s) (Some t).

(** The first entry of the directory that ends in [.sock]. *)
Definition get_socket_path : py state (option string) :=
  listing ← py_get (fun s => socket_listing env (polls s)) ;
  mret (match listing with
        | Some files =>
            match filter (fun f => endswith ".sock" f = true) files with
            | f :: _ => Some (os_path_join SOCKET_DIR f)
            | [] => None
            end
        | None => None
        end).

(** [while not sock_path], at most [fuel] sleeps. *)
Fixpoint wait_for_socket (fuel : nat) : py state string :=
  sock_path ← get_socket_path ;
  match sock_path with
  | Some path => mret path
  | None =>
      match fuel with
      | O => py_stuck
      | S fuel' => py_modify poll_again ;; wait_for_socket fuel'
      end
  end.

Definition consumer_dial (path : string) : py state unit := fun s =>
  match consumer_connect env path with
  | Some c => (Ret tt, set_sock (Some c) s)
  | None => (Raise (mk_exn OSError "[Errno 111] Connection refused"), s)
  end.

(** [receive_fd(sock)]: one byte of data and the control messages; a descriptor is
    installed. *)
Definition consumer_receive_fd : py state (option Z) := fun s =>
  match sock s with
  | None => (Raise (mk_exn OSError "[Errno 107] Transport endpoint is not connected"), s)
  | Some (c, anc) =>
      match conn_recv 1 c with
      | (Ret _, c') =>
          let '(msgs, rest, table) := deliver_rights (consumer_new_fd env) anc (fds s) in
          first_fd msgs (set_fds table (set_sock (Some (c', rest)) s))
      | (Raise e, c') => (Raise e, set_sock (Some (c', anc)) s)
      | (Stuck, c') => (Stuck, set_sock (Some (c', anc)) s)
      end
  end.

Definition consumer_hang_up : py state unit :=
  py_modify (fun s => set_sock ((fun ca => (conn_close ca.1, ca.2)) <$> sock s) s).

(** A call that must return 0, and one with an out parameter. *)
Definition gpu_checked (msg : string) (f : W -> Z * W) : py state unit := fun s =>
  let '(st, w) := f (gpu s) in
  ((if st =? 0 then Ret tt else Raise (mk_exn ExceptionK msg)), set_gpu w s).

Definition gpu_checked_out (msg : string) (f : W -> Z * Z * W) : py state Z := fun s =>
  let '(st, v, w) := f (gpu s) in
  ((if st =? 0 then Ret v else Raise (mk_exn ExceptionK msg)), set_gpu w s).

Definition consumer_init_cuda : py state Z :=
  py_when (negb (libcuda_found env))
    (py_raise OSError "/usr/local/nvidia/lib64/libcuda.so.1: cannot open shared object file") ;;
  gpu_checked "cuInit failed" (cuInit 0) ;;
  device ← gpu_checked_out "cuDeviceGet failed" (cuDeviceGet 0) ;
  _ ← gpu_checked_out "cuCtxCreate failed" (cuCtxCreate_v2 0 device) ;
  mret device.

(** Import, map, wrap, and keep the process alive: [while True: time.sleep(60)]. *)
Definition consumer_map (fd device : Z) : py state unit :=
  file ← py_get (fun s => fds s !! wrap64 fd) ;
  handle ← gpu_checked_out "cuMemImportFromShareableHandle failed"
    (cuMemImportFromShareableHandle file CU_MEM_HANDLE_TYPE_POSIX_FILE_DESCRIPTOR) ;
  device_ptr ← gpu_checked_out "cuMemAddressReserve failed"
    (cuMemAddressReserve CONSUMER_SIZE 0 0 0) ;
  gpu_checked "cuMemMap failed" (cuMemMap device_ptr CONSUMER_SIZE 0 handle 0) ;;
  gpu_checked "cuMemSetAccess failed"
    (cuMemSetAccess device_ptr CONSUMER_SIZE (access_desc device) 1) ;;
  py_modify (set_weights (wrap_as_buffer device_ptr CONSUMER_SIZE)) ;;
  py_stuck.

Definition consume_connected (sock_path : string) : py state unit :=
  py_when (negb (torch_importable env)) (py_raise ImportError "No module named 'torch'") ;;
  consumer_dial sock_path ;;
  fd ← consumer_receive_fd ;
  consumer_hang_up ;;
  match fd with
  | None => mret tt
  | Some fd =>
      device ← py_except (d ← consumer_init_cuda ; mret (Some d)) is_Exception (fun _ => mret None) ;
      match device with
      | None => mret tt
      | Some device => try: consumer_map fd device except: is_Exception as _ => mret tt
      end
  end.

Definition consume_weights (fuel : nat) : py state unit :=
  sock_path ← wait_for_socket fuel ;
  try: consume_connected sock_path except: is_Exception as _ => mret tt.
End consumer.

(** ** Lemmas *)

Section lemmas.
Context {W : Type} `{CudaApi W} `{CudaContextApi W} (env : ConsumerEnv).
Implicit Types (s : Consumer W).

(** The directory shows its first socket [f] after [k] more polls. *)
Definition appears (k : nat) (f : string) s : Prop :=
  (forall m, (m < k)%nat ->
     match socket_listing env (m + polls s) with
     | Some files => filter (fun f => endswith ".sock" f = true) files = []
     | None => True
     end) /\
  exists files rest, socket_listing env (k + polls s) = Some files /\
    filter (fun f => endswith ".sock" f = true) files = f :: rest.

Lemma wait_for_socket_run k f fuel s :
  appears k f s -> (k <= fuel)%nat ->
  wait_for_socket env fuel s = (Ret (os_path_join SOCKET_DIR f), Nat.iter k poll_again s).
Proof.
  revert fuel s. induction k as [|k IH]; intros fuel s [Hno (files & rest & Hl & Hf)] Hk.
  - destruct fuel; simpl; unfold get_socket_path; rewrite bind_unfold, bind_unfold; simpl;
      simpl in Hl; by rewrite Hl, Hf.
  - destruct fuel as [|fuel]; [lia|]. simpl. unfold get_socket_path.
    rewrite bind_unfold, bind_unfold. simpl. pose proof (Hno 0%nat ltac:(lia)) as H00. simpl in H00.
    assert (wait_for_socket env fuel (poll_again s) =
      (Ret (os_path_join SOCKET_DIR f), Nat.iter k poll_again (poll_again s))) as E.
    { apply IH; [|lia]. split.
      - intros m Hm. specialize (Hno (S m) ltac:(lia)). simpl in *. by rewrite Nat.add_succ_r.
      - exists files, rest. simpl in *. by rewrite Nat.add_succ_r. }
    rewrite <- Nat.iter_succ_r in E. simpl in E.
    destruct (socket_listing env (polls s)) as [l|]; [rewrite H00|]; rewrite bind_unfold; exact E.
Qed.

Lemma polls_gpu k s : gpu (Nat.iter k poll_again s) = gpu s.
Proof. induction k; simpl; congruence. Qed.
Lemma polls_weights k s : weights (Nat.iter k poll_again s) = weights s.
Proof. induction k; simpl; congruence. Qed.

(** A socket on which something can be read, without a descriptor. *)
Lemma consume_no_fd path c s :
  torch_importable env = true -> consumer_connect env path = Some (c, []) ->
  fst (conn_recv 1 c) <> Stuck ->
  exists s', consume_connected env path s = (Ret tt, s') /\ weights s' = weights s /\ gpu s' = gpu s.
Proof.
  intros Ht Hc Hr. unfold consume_connected. rewrite bind_unfold, Ht. simpl.
  rewrite bind_unfold. unfold consumer_dial. rewrite Hc. rewrite bind_unfold.
  unfold consumer_receive_fd. simpl. unfold conn_recv in *.
  destruct (inbox c) as [|chunk l]; [destruct (eof c); [|done]|]; simpl; rewrite bind_unfold; by eexists.
Qed.
End lemmas.

(** ** Properties *)

Section properties.
Context {W Wd C : Type} `{CudaApi W} `{CudaContextApi W} `{CudaApi Wd} `{GrpcContext C}.
Implicit Types (s : Consumer W) (t : Driver Wd C).

(** C29: the consumer and the FD server of the driver wait for each other: the server
    first reads which GPU the client wants, and this consumer sends nothing and waits for
    the descriptor. Neither ever goes on, and the clients behind it are not served. *)
Theorem consumer_deadlocks (env : ConsumerEnv) (denv : Env) id conn dc later k f fuel s t :
  appears env k f s -> (k <= fuel)%nat -> torch_importable env = true ->
  conns t !! conn = Some dc -> inbox dc = [] -> eof dc = false ->
  consumer_connect env (os_path_join SOCKET_DIR f) =
    Some (mk_Conn [] false (Some 4096) "" [] false, []) ->
  (exists s' c, consume_weights env fuel s = (Stuck, s') /\
     sock s' = Some (c, []) /\ outbox c = "" /\ weights s' = weights s) /\
  py_for (conn :: later) (serve_fd_client denv id) t = (Stuck, t).
Proof.
  intros Ha Hk Ht Hdc Hin Heof Hc. split.
  - eexists _, (mk_Conn [] false (Some 4096) "" [] false). split_and!.
    + unfold consume_weights. rewrite bind_unfold, (wait_for_socket_run env k f) by done.
      unfold py_except, consume_connected. rewrite bind_unfold, Ht. simpl.
      rewrite bind_unfold. unfold consumer_dial. rewrite Hc. rewrite bind_unfold. reflexivity.
    + done.
    + done.
    + simpl. apply polls_weights.
  - by apply silent_client_run with dc.
Qed.

(** The consumer takes the first socket the directory shows. When that is the notify
    socket of a buffer, it takes the first byte of the notification for the answer of an
    FD server and ends without mapping anything. *)
Theorem consumer_takes_notify_socket (env : ConsumerEnv) id msg room table k fuel s :
  appears env k (id +:+ "_notify.sock") s -> (k <= fuel)%nat -> torch_importable env = true ->
  consumer_connect env (notify_sock_path_of id) =
    Some (client_end room table (mk_Conn [] false None msg [] false)) ->
  exists s', consume_weights env fuel s = (Ret tt, s') /\
    weights s' = weights s /\ gpu s' = gpu s.
Proof.
  intros Ha Hk Ht Hc. unfold consume_weights. rewrite bind_unfold, (wait_for_socket_run env k _) by done.
  destruct (consume_no_fd env (notify_sock_path_of id) (mk_Conn [msg] true (Some room) "" [] false)
    (Nat.iter k poll_again s)) as (s' & E & Hw & Hg); [done|done|done|].
  unfold py_except. change (os_path_join SOCKET_DIR (id +:+ "_notify.sock")) with (notify_sock_path_of id).
  rewrite E. exists s'. split; [done|]. by rewrite Hw, Hg, polls_weights, polls_gpu.
Qed.
End properties.

(** ** Witnesses *)

Module ConsumerDemo.

(** The directory appears after one poll. *)
Definition listing (names : list string) (n : nat) : option (list string) :=
  if (1 <=? n)%nat then Some names else None.

Definition env (names : list string) (c : option (Conn * rights)) : ConsumerEnv :=
  {| socket_listing := listing names; consumer_connect _ := c; consumer_new_fd _ := 5; torch_importable := true;
     libcuda_found := true |}.

Definition start : Consumer ClientSim.csim := mk_Consumer 0 ClientSim.process None ∅ None.

(** What a driver that did not wait would send. *)
Definition mapped_end : outcome unit * Consumer ClientSim.csim :=
  consume_weights (env ["m.sock"] (Some (client_end 4096 {[3 := 0]} (answered (line "OK") [3] FdDemo.silent)))) 1 start.
End ConsumerDemo.

Example consumer_maps_ten_gib :
  ConsumerDemo.mapped_end.1 = Stuck /\
  weights ConsumerDemo.mapped_end.2 = Some (2 ^ 40, CONSUMER_SIZE).
Proof. vm_compute. split; reflexivity. Qed.

Lemma demo_appears names c f rest :
  filter (fun f => endswith ".sock" f = true) names = f :: rest ->
  appears (ConsumerDemo.env names c) 1 f ConsumerDemo.start.
Proof.
  intros Hf. split.
  - intros m Hm. assert (m = 0%nat) as -> by lia. exact I.
  - exists names, rest. by split.
Qed.

Lemma consumer_deadlocks_witness :
  (exists s', consume_weights (ConsumerDemo.env ["m.sock"; "m_notify.sock"]
      (Some (mk_Conn [] false (Some 4096) "" [] false, []))) 3 ConsumerDemo.start = (Stuck, s')) /\
  py_for [4%nat; 1%nat] (serve_fd_client Demo.env "m") FdDemo.s0 = (Stuck, FdDemo.s0).
Proof.
  destruct (consumer_deadlocks
    (ConsumerDemo.env ["m.sock"; "m_notify.sock"] (Some (mk_Conn [] false (Some 4096) "" [] false, [])))
    Demo.env "m" 4 FdDemo.silent [1%nat] 1 "m.sock" 3 ConsumerDemo.start FdDemo.s0)
    as [(s' & c & H1 & _) H2].
  - eapply demo_appears. reflexivity.
  - lia.
  - reflexivity.
  - reflexivity.
  - reflexivity.
  - reflexivity.
  - reflexivity.
  - split; [exists s'; exact H1|exact H2].
Defined.

Lemma consumer_takes_notify_socket_witness :
  exists s', consume_weights (ConsumerDemo.env ["a_notify.sock"; "m.sock"]
      (Some (client_end 4096 ∅ (mk_Conn [] false None (line "READY") [] false)))) 3 ConsumerDemo.start = (Ret tt, s') /\
    weights s' = None.
Proof.
  destruct (consumer_takes_notify_socket
    (ConsumerDemo.env ["a_notify.sock"; "m.sock"]
      (Some (client_end 4096 ∅ (mk_Conn [] false None (line "READY") [] false))))
    "a" (line "READY") 4096 ∅ 1 3 ConsumerDemo.start) as (s' & H1 & H2 & _).
  - eapply demo_appears. reflexivity.
  - lia.
  - reflexivity.
  - reflexivity.
  - exists s'. split; [exact H1|exact H2].
Defined.
