(* ===== verification/Steps.v ===== *)
(** * A worker over the steps of a training job (consumer/wpi_verl_plugin/engine.py, client.py)

    The worker calls receive_weights again and again. Around it, in any order: the trainer's
    tables arrive, bytes of notifications arrive on the socket and join those that were not
    read yet, the driver writes parts of a transfer into the buffer, and the thread of the
    worker gets to run until it has to wait again. A call waits at two places, for bytes on
    the socket and for a table; [wake] runs the code of the engine from one wait to the next.
    What does the worker read? [observe] answers without the engine. *)

From S2P Require Import Prelude PyMonad PyText PyDict Cuda Allocator NodeState Stage FdServer.
From S2P Require Import Target Propagate Client Engine.

(** ** What happens around the worker *)

Inductive event : Type :=
  (** the table of a list of weights arrives *)
  | Published (weights : list (string * Tensor))
  (** bytes arrive on the notification socket *)
  | Arrived (bytes : string)
  (** the driver writes to device memory *)
  | Wrote (p : Z) (bytes : list Z)
  (** the thread of the worker runs until it waits *)
  | Runs.

Definition table_for (weights : list (string * Tensor)) : Metadata :=
  {| bucket_meta := table_of 0 weights; total_bytes := total_nbytes weights |}.

Section steps.
Context {W : Type} `{CudaApi W} `{CudaContextApi W}.
Implicit Types (R : WPICheckpointEngine W) (weights : list (string * Tensor)).

(** The worker; whether its call got its notification and waits for the table; what it has
    read, one entry per finished call of receive_weights: the names, with the bytes of the
    views when they were yielded. *)
Record job : Type := mk_job {
  worker : WPICheckpointEngine W;
  in_call : bool;
  readings : list (list (string * list Z))
}.

(** A stream socket joins what was not read yet. *)
Definition join_unread (pending : list string) (bytes : string) : list string :=
  let all := bytes_of pending +:+ bytes in if bool_decide (all = "") then [] else [all].

Definition arrive (i : nat) (bytes : string) R : WPICheckpointEngine W :=
  with_client (set_socks (alter (fun c => mk_Conn (join_unread (inbox c) bytes) (eof c) (room c) (outbox c)
    (passed_fds c) (closed c)) i) (wpi_client R)) R.

(** receive_weights after its notification. *)
Definition receive_rest (buf : Z * Z) : py (WPICheckpointEngine W) unit :=
  z ← py_get zmq ;
  _ ← py_some z AttributeError "'NoneType' object has no attribute 'recv_string'" ;
  metadata ← receive_metadata ;
  py_for (bucket_meta metadata) (fun nm =>
    v ← buffer_view buf nm.2 ;
    py_modify (add_yield (nm.1, v))).

(** What the views of a call show when it ends. *)
Definition finished (j : job) R : job :=
  mk_job R false (readings j ++
    [(fun nv => (nv.1, view_bytes (engine_memory R) nv.2)) <$> drop (length (yielded (worker j))) (yielded R)]).

(** The thread runs until it waits; [None] when a call fails. Without bytes to read it waits
    at the socket; once it got some, it waits, if at all, for the table. *)
Definition wake (i : nat) (j : job) : option job :=
  let R := worker j in
  if in_call j then
    match zmq_inbox R, vram_buffer R with
    | [], _ => Some j
    | _, None => None
    | _, Some buf =>
        match receive_rest buf R with
        | (Ret _, R') => Some (finished j R')
        | _ => None
        end
    end
  else
    match conn_recv 1024 <$> socks (wpi_client R) !! i with
    | Some (Stuck, _) => Some j
    | _ =>
        match receive_weights R with
        | (Ret _, R') => Some (finished j R')
        | (Stuck, R') => Some (mk_job R' true (readings j))
        | _ => None
        end
    end.

Definition happen (i : nat) (ev : event) (j : job) : option job :=
  let R := worker j in
  match ev with
  | Published weights => Some (mk_job
      (with_messages (zmq_sent R) (zmq_inbox R ++ [(topic, table_for weights)]) R) (in_call j) (readings j))
  | Arrived bytes => Some (mk_job (arrive i bytes R) (in_call j) (readings j))
  | Wrote p bytes => Some (mk_job (with_memory (vram_write p bytes (engine_memory R)) R) (in_call j) (readings j))
  | Runs => wake i j
  end.

Definition run_events (i : nat) (evs : list event) (j : job) : option job :=
  foldl (fun oj ev => j ← oj ; happen i ev j) (Some j) evs.
End steps.

#[global] Arguments job : clear implicits.

(** ** What it reads *)

(** The bytes that a view of each weight shows. *)
Definition snapshot (q : Z) (weights : list (string * Tensor)) (m : vram) : list (string * list Z) :=
  (fun nv => (nv.1, view_bytes m nv.2)) <$> views_of q 0 weights.

(** The worker, seen from outside: the bytes it has not read, whether its call got some, the
    tables it has not read, the device memory, and the readings. *)
Record watch : Type := mk_watch {
  unread : string;
  noticed : bool;
  tables : list (list (string * Tensor));
  memory : vram;
  seen : list (list (string * list Z))
}.

(** A notification, whichever it is, lets the call go on. *)
Definition ahead (o : watch) : bool := noticed o || negb (bool_decide (unread o = "")).

(** With a table too it reads the buffer as it is. *)
Definition look (q : Z) (o : watch) : watch :=
  if ahead o then
    let rest := if noticed o then unread o else str_drop 1024 (unread o) in
    match tables o with
    | [] => mk_watch rest true [] (memory o) (seen o)
    | weights :: later =>
        mk_watch rest false later (memory o) (seen o ++ [snapshot q weights (memory o)])
    end
  else o.

Definition observe (q : Z) (o : watch) (ev : event) : watch :=
  match ev with
  | Published weights => mk_watch (unread o) (noticed o) (tables o ++ [weights]) (memory o) (seen o)
  | Arrived bytes => mk_watch (unread o +:+ bytes) (noticed o) (tables o) (memory o) (seen o)
  | Wrote p bytes => mk_watch (unread o) (noticed o) (tables o) (vram_write p bytes (memory o)) (seen o)
  | Runs => look q o
  end.

Definition observed (q : Z) (evs : list event) (m : vram) : watch :=
  foldl (observe q) (mk_watch "" false [] m []) evs.

(** What a worker should read. *)
Definition reading (weights : list (string * Tensor)) : list (string * list Z) :=
  (fun nw => (nw.1, t_bytes nw.2)) <$> weights.

(** The memory holds the weights from [q] on. *)
Definition holds (q : Z) (weights : list (string * Tensor)) (m : vram) : Prop := exists m0,
  vram_read q (Z.to_nat (total_nbytes weights)) m =
    vram_read q (Z.to_nat (total_nbytes weights)) (packed_memory q weights m0).

(** Names, shapes and types: what a table tells of its weights. *)
Definition layout (weights : list (string * Tensor)) : list (string * (list Z * Dtype)) :=
  (fun nw => (nw.1, (t_shape nw.2, t_dtype nw.2))) <$> weights.

(** A table that the worker can read. *)
Definition readable (size : Z) (weights : list (string * Tensor)) : Prop :=
  Forall weight_ok weights /\ aligned 0 weights /\ total_nbytes weights <= size.

Definition event_readable (size : Z) (ev : event) : Prop :=
  match ev with Published weights => readable size weights | _ => True end.

(** ** Lemmas *)

Lemma views_of_layout w w' q offset : layout w = layout w' -> views_of q offset w = views_of q offset w'.
Proof.
  revert w' offset. induction w as [|[n t] w IH]; intros [|[n' t'] w'] offset E; simplify_eq/=; [done|].
  match goal with E1 : t_shape t = _, E2 : t_dtype t = _ |- _ =>
    assert (nbytes t = nbytes t') as En by (unfold nbytes; by rewrite E1, E2); rewrite E1, E2 end.
  by rewrite En, (IH w').
Qed.

(** A buffer that holds weights of the same layout shows those. *)
Lemma snapshot_reading q w w' m :
  layout w = layout w' -> holds q w' m -> Forall weight_ok w' -> snapshot q w m = reading w'.
Proof.
  intros Hl [m0 Hm] Hw. unfold snapshot, reading. rewrite (views_of_layout _ _ q 0 Hl).
  pose proof (views_read q q 0 w' m0 m ltac:(lia) Hw) as Hv.
  rewrite !Z.add_0_r in Hv. specialize (Hv Hm). clear Hm Hw Hl.
  induction Hv as [|nw nv ws vs (E1 & _ & _ & E2) _ IH]; [done|].
  rewrite !fmap_cons, E1, E2. by f_equal.
Qed.

Section refinement.
Context {W : Type} `{CudaApi W} `{CudaContextApi W} (obs : W -> cuda_obs) `{!CudaLaws W obs}.
Implicit Types (R : WPICheckpointEngine W) (j : job W) (o : watch).

(** The chunks of a socket with unread bytes. *)
Definition chunks (bytes : string) : list string := join_unread [] bytes.

Lemma chunks_join u b : join_unread (chunks u) b = chunks (u +:+ b).
Proof.
  unfold chunks, join_unread. cbn [bytes_of foldr String.append].
  destruct (decide (u = "")) as [->|Hu]; [done|].
  rewrite (bool_decide_eq_false_2 (u = "")) by done. simpl. by rewrite string_app_nil_r.
Qed.

Lemma conn_recv_chunks n u c :
  inbox c = chunks u -> u <> "" ->
  conn_recv n c = (Ret (str_take n u),
    mk_Conn (chunks (str_drop n u)) (eof c) (room c) (outbox c) (passed_fds c) (closed c)).
Proof.
  intros Hin Hu. unfold conn_recv. rewrite Hin. unfold chunks, join_unread. simpl.
  rewrite (bool_decide_eq_false_2 (u = "")) by done.
  assert (String.length (str_drop n u) = (String.length u - n)%nat) as Hl by apply str_drop_length.
  do 2 f_equal. case_bool_decide as E1; case_bool_decide as E2; [done| |by rewrite E2 in Hl; simpl in Hl; lia|done].
  destruct E2. destruct (str_drop n u); [done|simpl in Hl; lia].
Qed.

(** A worker between two steps of its thread, and what is known of it from outside. *)
Record follows (q size : Z) (i : nat) j o : Prop := {
  fo_rank : exists r, rank (worker j) = Some r /\ 0 < r;
  fo_buffer : vram_buffer (worker j) = Some (q, size);
  fo_zmq : is_Some (zmq (worker j));
  fo_socket : notify_socket (wpi_client (worker j)) = Some i;
  fo_conn : exists c, socks (wpi_client (worker j)) !! i = Some c /\
    inbox c = chunks (unread o) /\ eof c = false;
  fo_tables : zmq_inbox (worker j) = (fun w => (topic, table_for w)) <$> tables o;
  fo_call : in_call j = noticed o;
  fo_memory : engine_memory (worker j) = memory o;
  fo_seen : readings j = seen o;
  fo_readable : Forall (readable size) (tables o)
}.

(** The wait at the socket, for any number of unread bytes. *)
Lemma wait_for_ready_chunks u i c (s : WPIClient W) :
  notify_socket s = Some i -> socks s !! i = Some c -> inbox c = chunks u -> u <> "" ->
  exists r c', wait_for_ready s = (Ret r, set_socks (<[i := c']>) s) /\
    inbox c' = chunks (str_drop 1024 u) /\ eof c' = eof c.
Proof.
  intros Hi Hc Hin Hu. unfold wait_for_ready. rewrite bind_unfold. simpl. rewrite Hi.
  unfold py_except. rewrite bind_unfold. unfold on_sock. rewrite Hc.
  unfold recv_timeout. rewrite (conn_recv_chunks 1024 u c Hin Hu). by eexists _, _.
Qed.

(** The call up to its second wait. *)
Lemma receive_weights_split u i c r q size R :
  rank R = Some r -> 0 < r -> vram_buffer R = Some (q, size) ->
  notify_socket (wpi_client R) = Some i -> socks (wpi_client R) !! i = Some c ->
  inbox c = chunks u -> u <> "" ->
  exists c', (inbox c' = chunks (str_drop 1024 u) /\ eof c' = eof c) /\
    receive_weights R = receive_rest (q, size) (with_client (set_socks (<[i := c']>) (wpi_client R)) R).
Proof.
  intros Hr Hpos Hbuf Hi Hc Hin Hu.
  destruct (wait_for_ready_chunks u i c (wpi_client R)) as (x & c' & E & Hc'); [done..|].
  exists c'. split; [done|]. unfold receive_weights. rewrite bind_unfold. simpl. rewrite Hr. rewrite bind_unfold.
  unfold py_assert. rewrite (proj2 (Z.ltb_lt _ _)) by done. cbn [mret py_ret].
  rewrite bind_unfold. simpl. rewrite Hbuf. rewrite bind_unfold. simpl. rewrite bind_unfold.
  unfold on_client, py_zoom. by rewrite E.
Qed.

(** Without a table it waits, with one it yields the views. *)
Lemma receive_rest_waits buf R :
  is_Some (zmq R) -> zmq_inbox R = [] -> receive_rest buf R = (Stuck, R).
Proof.
  intros [z Hz] Hin. unfold receive_rest. rewrite bind_unfold. simpl. rewrite Hz.
  rewrite bind_unfold. simpl. rewrite bind_unfold. unfold receive_metadata. by rewrite Hin.
Qed.

Lemma receive_rest_reads weights q size rest R :
  is_Some (zmq R) -> zmq_inbox R = (topic, table_for weights) :: rest -> readable size weights ->
  receive_rest (q, size) R =
    (Ret tt, with_yielded (yielded R ++ views_of q 0 weights) (with_messages (zmq_sent R) rest R)).
Proof.
  intros [z Hz] Hin (Hw & Hal & Hfit). unfold receive_rest. rewrite bind_unfold. simpl. rewrite Hz.
  rewrite bind_unfold. simpl. rewrite bind_unfold. unfold receive_metadata. rewrite Hin. simpl.
  by rewrite (yield_loop_run (q, size)).
Qed.

(** A call that ends, from its second wait. *)
Lemma follows_finished q size i j o R w later rest :
  follows q size i (mk_job R true (readings j)) (mk_watch rest true (w :: later) (memory o) (seen o)) ->
  yielded R = yielded (worker j) -> readings j = seen o ->
  exists R', receive_rest (q, size) R = (Ret tt, R') /\
    follows q size i (finished j R')
      (mk_watch rest false later (memory o) (seen o ++ [snapshot q w (memory o)])).
Proof.
  intros [Hr Hb Hz Hi Hc Ht _ Hm _ Hf] Hy Hs. simpl in *. apply Forall_cons in Hf as [Hw Hf].
  eexists. split; [by apply (receive_rest_reads w)|].
  constructor; simpl; try done. rewrite Hs, Hy, drop_app_length. unfold engine_memory in *. simpl. by rewrite Hm.
Qed.

Lemma wake_follows q size i j o :
  follows q size i j o -> exists j', wake i j = Some j' /\ follows q size i j' (look q o).
Proof.
  intros Hf. pose proof Hf as [(r & Hr & Hpos) Hb Hz Hi (c & Hc & Hin & Heof) Ht Hcall Hm Hs Hread].
  destruct j as [R ic rd]. destruct o as [u nt ts m sn]. simpl in *. subst ic m sn.
  unfold wake, look, ahead. simpl. rewrite Hb. destruct nt; simpl.
  - destruct ts as [|w later]; simpl in Ht; rewrite Ht; [by eexists|].
    destruct (follows_finished q size i (mk_job R true rd) (mk_watch u true (w :: later) (engine_memory R) rd)
      R w later u Hf eq_refl eq_refl) as (R' & -> & Hf'). by eexists.
  - rewrite Hc. simpl.
    destruct (decide (u = "")) as [->|Hu].
    { unfold conn_recv. rewrite Hin, Heof. by eexists. }
    rewrite (conn_recv_chunks 1024 u c Hin Hu), bool_decide_eq_false_2 by done. simpl.
    destruct (receive_weights_split u i c r q size R) as (c' & [Hc' He'] & ->); [done..|].
    set (R1 := with_client _ R).
    assert (follows q size i (mk_job R1 true rd) (mk_watch (str_drop 1024 u) true ts (engine_memory R) rd)) as Hf1.
    { constructor; simpl; try done; [by exists r|]. exists c'. rewrite lookup_insert_eq, He'. by split. }
    destruct ts as [|w later].
    + rewrite receive_rest_waits by done. by eexists.
    + destruct (follows_finished q size i (mk_job R false rd) (mk_watch u false (w :: later) (engine_memory R) rd)
        R1 w later (str_drop 1024 u) Hf1 eq_refl eq_refl) as (R' & -> & Hf'). by eexists.
Qed.

Lemma happen_follows q size i ev j o :
  follows q size i j o -> event_readable size ev ->
  exists j', happen i ev j = Some j' /\ follows q size i j' (observe q o ev).
Proof.
  intros Hf Hev. destruct ev as [w|b|p b|]; [| | |by apply wake_follows];
    (eexists; split; [reflexivity|]); destruct Hf as [Hr Hb Hz Hi (c & Hc & Hin & Heof) Ht Hcall Hm Hs Hread];
    constructor; simpl; try done.
  - by exists c.
  - by rewrite Ht, fmap_app.
  - apply Forall_app. split; [done|]. by constructor.
  - eexists. rewrite lookup_alter_eq, Hc. simpl. split; [done|]. simpl. by rewrite Hin, chunks_join.
  - by exists c.
  - unfold engine_memory at 1. simpl. rewrite (law_memory_set (obs:=obs)). by rewrite Hm.
Qed.

Lemma events_follow q size i evs : forall j o,
  follows q size i j o -> Forall (event_readable size) evs ->
  exists j', run_events i evs j = Some j' /\ follows q size i j' (foldl (observe q) o evs).
Proof.
  unfold run_events. induction evs as [|ev evs IH]; intros j o Hf Hev; [by exists j|].
  apply Forall_cons in Hev as [He Hev].
  destruct (happen_follows q size i ev j o Hf He) as (j1 & E & Hf1). simpl. rewrite E. by apply IH.
Qed.

(** Readings are never changed. *)
Lemma seen_grows q evs o : seen o `prefix_of` seen (foldl (observe q) o evs).
Proof.
  revert o. induction evs as [|ev evs IH]; intros o; [done|]. simpl. etransitivity; [|apply IH].
  destruct ev; simpl; try done. unfold look. destruct (ahead o); [|done].
  destruct (tables o); simpl; [done|by eexists].
Qed.
End refinement.

(** ** Properties *)

Section properties.
Context {W : Type} `{CudaApi W} `{CudaContextApi W} (obs : W -> cuda_obs) `{!CudaLaws W obs}.
Implicit Types (R : WPICheckpointEngine W).

End properties.

(** ** Witness *)

Module StepsDemo.

(** Weights of one layout. *)
Definition version (n : Z) : list (string * Tensor) :=
  [("w", EngineDemo.halves [n; n; n; n]); ("b", EngineDemo.octets [n])].

(** A worker that waits, with the weights of version 0 in its buffer. *)
Definition worker : WPICheckpointEngine ClientSim.csim :=
  with_memory (packed_memory 8192 (version 0) (fun _ => 0))
    (mk_Engine 16 "m" "m" false (Some 1) (Some 2) (Some (8192, 16)) None
       (ClientSim.waiting []) (Some (Sub "tcp://10.0.0.1:5555" topic)) [] [] true []).

(** Three steps: the table of the first comes before its transfer, that of the second after,
    and the thread runs only when the third is complete. *)
Definition steps : list event :=
  [Runs; Published (version 1); Arrived (line "PRE_UPDATE"); Runs;
     Wrote 8192 [1; 1]; Wrote 8194 [1; 1; 1]; Arrived (line "READY"); Runs;
   Arrived (line "PRE_UPDATE"); Wrote 8192 [2; 2; 2; 2; 2]; Published (version 2); Runs; Arrived (line "READY");
   Published (version 3); Wrote 8194 [3; 3; 3]; Arrived (line "PRE_UP"); Wrote 8192 [3; 3];
     Arrived (line "DATE" +:+ line "READY"); Runs].
End StepsDemo.

Lemma version_ok n : readable 16 (StepsDemo.version n).
Proof.
  split; [repeat constructor|]. split; [by repeat split|]. unfold total_nbytes. simpl. done.
Qed.

