(* ===== verification/Cluster.v ===== *)
(** * A trainer, its driver, and the drivers and workers of the other nodes

    The parts together: the engine of the trainer calls the driver of its node through the
    stub of wpi_client, which engine.py imports, the driver contacts the drivers of the target
    nodes, and the workers there read what arrived. What connects two parts is stated on
    their observables: the answer of a call is the run of the handler ([answered_by]), the
    bytes that a target reads are those that the source's run left on the socket to it, two
    NCCL calls that meet move the data ([nccl_delivers]). *)

From S2P Require Import Prelude PyMonad PyText PyDict Cuda Allocator NodeState Stage Unstage.
From S2P Require Import FdServer Notify Target Propagate Client Engine.
From S2P Require Import Rpc DriverGrpc ClientGrpc Serve.

(** ** Calls of a client *)

Section answers.
Context {W C Wire Srv Ch : Type} `{CudaApi W} `{GrpcContext C} `{Protobuf Wire}.
Context `{!ServerApi Srv (MethodHandler (Driver W C) Wire)}.

(** The attribute of the stub that a call of the client uses, and its argument. *)
Definition stub_attribute (c : rpc_call) : string * value :=
  match c with
  | CallStage r => ("NodeStageWeight", existT wpi__pb2.NodeStageWeightRequest r)
  | CallPropagate r => ("NodePropagate", existT wpi__pb2.NodePropagateRequest r)
  | CallUnstage claim => ("NodeUnstageWeight", existT wpi__pb2.NodeUnstageWeightRequest claim)
  end.

(** The answer of a server in the state [s] to a call through the stub of wpi_client. *)
Definition answered_by (srv : Srv) (ch : Ch) (s : Driver W C) (c : rpc_call) : rpc_result unit :=
  let '(name, request) := stub_attribute c in
  match dict_get name (ClientGrpc.NodeServiceStub ch) with
  | Some mc => rpc_map (fun _ => tt) (call srv mc request s).1
  | None => RpcFailed UNKNOWN "object has no such attribute"
  end.

(** The handler behind a call. *)
Definition handler_of_call (env : Env) (dial : Z -> string -> option Conn) (c : rpc_call) :
    py (Driver W C) unit :=
  match c with
  | CallStage r => NodeStageWeight env r
  | CallPropagate r => NodePropagate env dial r
  | CallUnstage claim => NodeUnstageWeight claim
  end.

(** A request that can be sent. *)
Definition call_ok (c : rpc_call) : bool :=
  match c with
  | CallStage r => msg_ok wpi__pb2.NodeStageWeightRequest r
  | CallPropagate r => msg_ok wpi__pb2.NodePropagateRequest r
  | CallUnstage claim => msg_ok wpi__pb2.NodeUnstageWeightRequest claim
  end.

Context `{!ProtobufLaws Wire} `{!ServerLaws Srv (MethodHandler (Driver W C) Wire)}.
Context (env : Env) (dial : Z -> string -> option Conn) (ch : Ch).

(** A method of the node service, called through the client's stub. *)
Lemma client_call sm (x : payload (sm_request sm)) s :
  sm ∈ driver_methods env dial -> sm_service sm = NODE -> msg_ok (sm_request sm) x = true ->
  exists mc, dict_get (sm_name sm) (ClientGrpc.NodeServiceStub (Wire:=Wire) ch) = Some mc /\
    (call (driver_server env dial : Srv) mc (existT (sm_request sm) x) s).1 =
      rpc_map (existT (sm_response sm)) (rpc (sm_run sm x) s).1.
Proof.
  intros Hsm Hn Hx.
  destruct (stub_call (Srv:=Srv) env dial ch _ sm (list_elem_of_lookup_2 (stubs ch) 1 _ eq_refl) Hsm)
    as (stub & mc & Es & Em & Hc). rewrite Hn in Es. simpl in Es. injection Es as <-.
  exists mc. split; [done|]. by rewrite Hc.
Qed.

Lemma rpc_map_unit {A} (g : unit -> A) (r : rpc_result unit) :
  rpc_map (fun _ => tt) (rpc_map g r) = r.
Proof. by destruct r as [[]| |]. Qed.

Lemma answered_by_driver s c :
  call_ok c = true ->
  answered_by (driver_server env dial : Srv) ch s c = (rpc (handler_of_call env dial c) s).1.
Proof.
  intros Hc. unfold answered_by. destruct c as [r|r|claim]; simpl in Hc.
  - destruct (client_call (mk_served NODE "NodeStageWeight" wpi__pb2.NodeStageWeightRequest
      wpi__pb2.NodeStageWeightResponse (NodeStageWeight env)) r s) as (mc & Em & E); [|done..|].
    { repeat (apply elem_of_cons; first [by left|right]). }
    simpl in *. injection Em as <-. etransitivity; [apply (f_equal (rpc_map _)), E|apply rpc_map_unit].
  - destruct (client_call (mk_served NODE "NodePropagate" wpi__pb2.NodePropagateRequest
      wpi__pb2.NodePropagateResponse (NodePropagate env dial)) r s) as (mc & Em & E); [|done..|].
    { repeat (apply elem_of_cons; first [by left|right]). }
    simpl in *. injection Em as <-. etransitivity; [apply (f_equal (rpc_map _)), E|apply rpc_map_unit].
  - destruct (client_call (mk_served NODE "NodeUnstageWeight" wpi__pb2.NodeUnstageWeightRequest
      wpi__pb2.NodeUnstageWeightResponse NodeUnstageWeight) claim s) as (mc & Em & E); [|done..|].
    { repeat (apply elem_of_cons; first [by left|right]). }
    simpl in *. injection Em as <-. etransitivity; [apply (f_equal (rpc_map _)), E|apply rpc_map_unit].
Qed.
End answers.

(** ** Transfers *)

(** The bytes that a call on a communicator sends or receives. *)
Definition op_bytes (op : nccl_op) (m : vram) : list Z :=
  match op with
  | NcclInit _ _ _ => []
  | NcclBcast ptr count _ | NcclSend ptr count _ | NcclRecv ptr count _ =>
      vram_read ptr (Z.to_nat (count * 2)) m
  end.

(** What NCCL documents: when the source, from [S] to [S'], and a target of rank [rank],
    from [T] to [T'], joined the same communicator and made calls that meet, the target's
    range holds afterwards, in its memory [mt], what the source's range held in [ms]. *)
Definition nccl_delivers {Wd C : Type} (ms mt : vram) (S S' T T' : Driver Wd C) : Prop :=
  forall ws nccl_id rank srcs src dst,
    nccl_log S' = nccl_log S ++ NcclInit ws nccl_id 0 :: srcs ->
    nccl_log T' = nccl_log T ++ [NcclInit ws nccl_id rank; dst] ->
    src ∈ srcs -> calls_meet rank src dst -> op_bytes dst mt = op_bytes src ms.

(** A broadcast that arrived, for the first bytes of the two buffers. *)
Lemma broadcast_bytes p q count count' n ms mt :
  count = count' -> Z.of_nat n <= count * 2 ->
  op_bytes (NcclBcast q count' 0) mt = op_bytes (NcclBcast p count 0) ms ->
  vram_read q n mt = vram_read p n ms.
Proof.
  intros <- Hn Hop. simpl in Hop.
  assert (forall a m, vram_read a n m = take n (vram_read a (Z.to_nat (count * 2)) m)) as Htake.
  { intros a m. rewrite <- (Z.add_0_r a) at 1. change 0 with (Z.of_nat 0).
    by rewrite (vram_read_window a 0 n (Z.to_nat (count * 2))) by lia. }
  by rewrite !Htake, Hop.
Qed.

(** ** Properties *)

Section properties.
Context {W Wd C Wire Srv Ch : Type} `{CudaApi W} `{CudaContextApi W} (obs : W -> cuda_obs) `{!CudaLaws W obs}.
Context `{CudaApi Wd} `{GrpcContext C} `{!GrpcLaws C} `{Protobuf Wire} `{!ProtobufLaws Wire}.
Context `{!ServerApi Srv (MethodHandler (Driver Wd C) Wire)} `{!ServerLaws Srv (MethodHandler (Driver Wd C) Wire)}.
Context (env : EngineEnv) (denv tenv : Env) (dial : Z -> string -> option Conn) (ch : Ch).
Implicit Types (E R : WPICheckpointEngine W) (S T : Driver Wd C).

(** The engine's calls are answered by the driver of its node, in the state [S]. *)
Definition calls_driver S : Prop :=
  forall c, answer (client_env env) c = answered_by (driver_server denv dial : Srv) ch S c.

(** C3: the weights reach the workers. A trainer calls the driver of its node through the
    client's stub, and the targets answer that driver with OK. Then send_weights returns
    and the propagation succeeds. The bytes that the driver sent over its socket of
    position i, when they arrive at the driver of node i with the header in the first chunk,
    make that driver, which holds the buffer with as many elements, answer with the OK
    that was awaited and give each of its live consumers PRE_UPDATE and READY. And a worker
    of the node that shares the buffer with its driver, and reads after the data of this
    transfer arrived, yields the trainer's weights. *)
Theorem weights_reach_workers weights p nodes b E S ms :
  let request := broadcast_request (buffer_id E) nodes in
  ready_to_send p nodes E ->
  Forall weight_ok weights -> NoDup weights.*1 -> aligned 0 weights ->
  total_nbytes weights <= bucket_size E -> total_nbytes weights <= bi_size_bytes b / 2 * 2 ->
  calls_driver S -> msg_ok wpi__pb2.NodePropagateRequest request = true ->
  dict_get (buffer_id E) (ALLOCATED_BUFFERS S) = Some b -> consumers_known b S ->
  CUPY_AVAILABLE denv = true -> (forall op, nccl_result denv op = None) ->
  all_accept denv dial request ->
  exists E' md S' js,
    send_weights env weights E = (Ret tt, E') /\ zmq_sent E' = zmq_sent E ++ [(topic, md)] /\
    rpc (NodePropagate denv dial request) S = (RpcOk tt, S') /\ NoDup js /\
    forall i ip, nodes !! i = Some ip ->
      exists j cj, js !! i = Some j /\ conns S !! j = None /\ conns S' !! j = Some cj /\
        forall fuel conn c tb a T,
          (** the driver of the node, with what was sent to it *)
          ready_target tenv fuel conn c (buffer_id E) (nccl_unique_id denv) tb a T ->
          bi_size_bytes tb / 2 = bi_size_bytes b / 2 ->
          bytes_of (inbox c) = outbox cj -> header_first c ->
          exists T', handle_target_connection tenv fuel conn T = (Ret tt, T') /\
            outbox <$> conns T' !! conn = Some (outbox c +:+ line "OK") /\
            (forall k ck, k ∈ bi_notify_sockets tb -> conns T !! k = Some ck -> conn_alive ck = true ->
               outbox <$> conns T' !! k = Some (outbox ck +:+ line "PRE_UPDATE" +:+ line "READY")) /\
            forall mt q size R,
              nccl_delivers ms mt S S' T T' ->
              (** the trainer's buffer is the driver's, the worker's that of the target *)
              vram_read (bi_device_ptr b) (Z.to_nat (total_bytes md)) ms =
                vram_read p (Z.to_nat (total_bytes md)) (engine_memory E') ->
              vram_read q (Z.to_nat (total_bytes md)) (engine_memory R) =
                vram_read (bi_device_ptr tb) (Z.to_nat (total_bytes md)) mt ->
              ready_to_receive q size md R -> total_bytes md <= size ->
              exists R' views,
                receive_weights R = (Ret tt, R') /\ yielded R' = yielded R ++ views /\
                Forall2 (fun nw nv => nv.1 = nw.1 /\ view_dtype nv.2 = t_dtype nw.2 /\
                           view_shape nv.2 = t_shape nw.2 /\
                           view_bytes (engine_memory R') nv.2 = t_bytes nw.2) weights views.
Proof.
  intros request Hready Hw Hnd Hal Hfit Hfit' Hcalls Hok Hb Hcons Hcupy Hnccl Hacc.
  destruct (propagate_run denv dial request b S) as (S' & js & Ep & Hlog & Hjs & Hf & _); [done..|].
  destruct (send_run obs env weights p nodes E) as (E' & t & Es & Hz & Hm & _); [done..| |].
  { rewrite Hcalls. etransitivity; [apply answered_by_driver; exact Hok|]. simpl. fold request. by rewrite Ep. }
  eexists E', _, S', js. split; [done|]. split; [done|]. split; [done|]. split; [done|]. intros i ip Hip.
  assert (target_fields request i = Some (buffer_id E, 0, 0)) as Hfld.
  { unfold target_fields. simpl. by rewrite Hip. }
  pose proof (wire_request_lookup _ (nccl_unique_id denv) _ _ _ _ Hfld) as Hwire.
  destruct (wire_requests request _ !! i) as [r|] eqn:Er; [|done]. injection Hwire as Hwire.
  destruct (Forall2_lookup_r _ _ _ _ _ Hf Er) as (j & Hj & Hn & cj & Hcj & Hout & _).
  exists j, cj. split_and!; [done..|]. intros fuel conn c tb a T Ht Hsize Hbytes Hh.
  rewrite Hout, Hwire in Hbytes. apply header_first_arrived in Hbytes; [|by eapply rt_line|done].
  destruct (target_served tenv fuel conn c _ _ _ _ _ _ (nccl_unique_id denv) tb a T Ht Hbytes)
    as (T' & Et & Hlt & Hc & Hcs & _).
  exists T'. split; [done|]. split; [by rewrite Hc|]. split; [exact Hcs|].
  intros mt q size R Hdel Hsrc Hdst HR Hqs. simpl in Hsrc, Hdst, Hqs.
  destruct (receive_run weights q size R) as (R' & Er' & Hy & HmR); [done..|].
  exists R', (views_of q 0 weights). split; [done|]. split; [done|].
  apply (views_read p q 0 weights (engine_memory E)); [done|done|].
  rewrite !Z.add_0_r, HmR, <- Hm, Hdst, <- Hsrc.
  apply (broadcast_bytes _ _ (bi_size_bytes b / 2) (bi_size_bytes tb / 2)); [done| |].
  { pose proof (total_nonneg _ Hw). lia. }
  rewrite wire_requests_length in Hlog. simpl in Hlog, Hlt.
  eapply Hdel; [exact Hlog|exact Hlt|by apply elem_of_cons; left|]. simpl. by rewrite Hsize.
Qed.

(** C31: a transfer that fails looks like one that succeeded. When a target cannot join the
    communicator, its consumers got PRE_UPDATE and will get no READY; a worker whose
    notification socket holds just that line, and that finds the trainer's table, returns
    nevertheless, and yields the weights of the previous step, which are still in the
    buffer, under the names of the new ones. *)
Theorem failed_transfer_yields_previous fuel conn c id ws rank_ mode o l nccl_id b a msg T j cj :
  conns T !! conn = Some c -> conn_alive c = true -> has_room (line "OK") c = true ->
  request_arrived id ws rank_ mode o l nccl_id c ->
  has_char NL id = false -> valid_utf8 id = true -> String.length nccl_id = 128%nat ->
  (length (inbox c) <= fuel)%nat ->
  (forall k, k ∈ bi_notify_sockets b -> sock_room (line "PRE_UPDATE") (conns T) k = true) ->
  dict_get id (ALLOCATED_BUFFERS T) = Some b -> NoDup (bi_notify_sockets b) ->
  conn ∉ bi_notify_sockets b -> CUPY_AVAILABLE denv = true -> cuda_allocator T = Some a ->
  nccl_result denv (NcclInit ws nccl_id rank_) = Some msg ->
  j ∈ bi_notify_sockets b -> conns T !! j = Some cj -> conn_alive cj = true -> outbox cj = "" ->
  exists T' sent, handle_target_connection denv fuel conn T = (Ret tt, T') /\
    outbox <$> conns T' !! j = Some sent /\ sent = line "PRE_UPDATE" /\
    forall previous q p m size R i rc,
      Forall weight_ok previous -> aligned 0 previous -> total_nbytes previous <= size ->
      notify_socket (wpi_client R) = Some i -> socks (wpi_client R) !! i = Some rc -> inbox rc = [sent] ->
      ready_to_receive q size
        {| bucket_meta := table_of 0 previous; total_bytes := total_nbytes previous |} R ->
      vram_read q (Z.to_nat (total_nbytes previous)) (engine_memory R) =
        vram_read p (Z.to_nat (total_nbytes previous)) (packed_memory p previous m) ->
      exists R' views,
        receive_weights R = (Ret tt, R') /\ yielded R' = yielded R ++ views /\
        Forall2 (fun nw nv => nv.1 = nw.1 /\ view_bytes (engine_memory R') nv.2 = t_bytes nw.2)
          previous views.
Proof.
  intros Hc Halive Hrm Hreq Hid Hv Hn Hf Hrooms Hb Hnd Hconn Hcupy Ha Hnccl Hj Hcj Hal Ho.
  destruct (target_join_fails denv fuel conn c id ws rank_ mode o l nccl_id b a msg T)
    as (T' & E & _ & Hout); [done..|].
  exists T', (line "PRE_UPDATE"). split; [done|]. split; [by rewrite (Hout j cj), Ho|]. split; [done|].
  intros previous q p m size R i rc Hw Hal' Hfit _ _ _ HR Hmem.
  destruct (receive_run previous q size R) as (R' & Er & Hy & HmR); [done..|].
  exists R', (views_of q 0 previous). split; [done|]. split; [done|].
  eapply Forall2_impl.
  - apply (views_read p q 0 previous m (engine_memory R')); [done|done|].
    rewrite !Z.add_0_r, HmR. exact Hmem.
  - intros x y (Hname & _ & _ & Hbytes). done.
Qed.
End properties.

(** ** Witnesses *)

Import GrpcSim.

Module ClusterDemo.

#[local] Abbreviation server := (dict (MethodHandler Demo.driver value)).

(** The driver of the trainer's node holds "m"; nobody listens there. *)
Definition source : Demo.driver := Demo.staged "c1" "m" (4 * MiB).

(** The client on that node. *)
Definition env : EngineEnv :=
  {| client_env := {| environ _ := None; path_exists _ _ := true; connect_to _ _ := None; new_fd _ := 17;
       cdll _ := true;
       answer := answered_by (driver_server Demo.env PropagateDemo.all_ok : server) tt source |};
     ray_node_ip := "10.0.0.1"; get_free_port _ := 5555;
     is_valid_ipv6_address _ := false; gce_metadata := None;
     list_of_set := elements |}.

(** The request of rank 1, in two chunks, on socket 1 of the target. *)
Definition conn : Conn := TargetDemo.peer (TargetDemo.chunks "m" 2 1 0 0 0) false.

Definition target : Demo.driver := set_conns (<[1%nat := conn]>) TargetDemo.served.

(** The trainer after send_weights. *)
Definition sent : WPICheckpointEngine ClientSim.csim :=
  (send_weights env EngineDemo.weights EngineDemo.master).2.

(** Both drivers have the buffer at address 2^40, the trainer at 4096, the worker at 8192. *)
Definition driver_memory : vram := fun a => engine_memory sent (a - 2 ^ 40 + 4096).

Definition worker : WPICheckpointEngine ClientSim.csim :=
  with_messages [] (zmq_sent sent)
    (with_memory (fun a => driver_memory (a - 8192 + 2 ^ 40))
      (mk_Engine 16 "m" "m" false (Some 1) (Some 2) (Some (8192, 16)) None
         (ClientSim.waiting [line "PRE_UPDATE"; line "READY"]) (Some (Sub "tcp://10.0.0.1:5555" topic)) [] []
         true [])).
End ClusterDemo.

(** The drivers' buffers are at the same address, and so are the data. *)
Lemma demo_delivers S S' T T' :
  nccl_log S = [] -> nccl_log T = [] ->
  nccl_log S' = [NcclInit 2 Demo.nccl_id 0; NcclBcast (2 ^ 40) (2 * MiB) 0] ->
  nccl_log T' = [NcclInit 2 Demo.nccl_id 1; NcclBcast (2 ^ 40) (2 * MiB) 0] ->
  nccl_delivers (Wd:=Sim.sim) (C:=option (status_code * string)) ClusterDemo.driver_memory
    ClusterDemo.driver_memory S S' T T'.
Proof.
  intros E1 E2 E3 E4 ws nid rank srcs src dst. rewrite E1, E2, E3, E4. simpl.
  intros [= <- <- <-] [= <- <-].
  intros ->%list_elem_of_singleton. done.
Qed.

(** The worker of the target is ready, and its buffer has the bytes of its driver's. *)
Lemma demo_worker_ready md :
  zmq_sent ClusterDemo.sent = [(topic, md)] ->
  ready_to_receive 8192 16 md ClusterDemo.worker /\ total_bytes md = 6.
Proof.
  intros Hz. split.
  - split; [exists 1; split; [reflexivity|lia]|]. split; [reflexivity|].
    split; [eexists; reflexivity|]. split; [by exists []|].
    exists 0%nat. do 3 eexists. split; [reflexivity|]. split; [reflexivity|]. split; [reflexivity|].
    by apply Nat.leb_le.
  - vm_compute in Hz. injection Hz as Hz. rewrite <- Hz. reflexivity.
Qed.

(** The source has one socket at the end, with the request for rank 1. *)
Lemma demo_only_socket j cj :
  conns (rpc (NodePropagate Demo.env PropagateDemo.all_ok (broadcast_request "m" ["10.0.0.2"]))
    ClusterDemo.source).2 !! j = Some cj ->
  outbox cj = bytes_of (inbox ClusterDemo.conn).
Proof.
  intros Hj%elem_of_map_to_list.
  assert (forallb (fun kv => String.eqb (outbox kv.2) (bytes_of (inbox ClusterDemo.conn)))
    (map_to_list (conns (rpc (NodePropagate Demo.env PropagateDemo.all_ok (broadcast_request "m" ["10.0.0.2"]))
      ClusterDemo.source).2)) = true) as Hall by (vm_compute; reflexivity).
  rewrite forallb_forall in Hall. apply list_elem_of_In in Hj.
  apply String.eqb_eq. exact (Hall (j, cj) Hj).
Qed.

Lemma weights_reach_workers_witness :
  exists R' views, receive_weights ClusterDemo.worker = (Ret tt, R') /\ yielded R' = views /\
    Forall2 (fun nw nv => nv.1 = nw.1 /\ view_bytes (engine_memory R') nv.2 = t_bytes nw.2)
      EngineDemo.weights views.
Proof.
  destruct (weights_reach_workers (Wire:=value) (Srv:=dict (MethodHandler Demo.driver value))
    ClientSim.csim_obs ClusterDemo.env Demo.env Demo.env PropagateDemo.all_ok tt
    EngineDemo.weights 4096 ["10.0.0.2"] (Demo.staged_info 0 ClusterDemo.source "m")
    EngineDemo.master ClusterDemo.source ClusterDemo.driver_memory)
    as (E' & md & S' & js & Hs & Hz & Hp & _ & Ht).
  - exact demo_ready_to_send.
  - exact demo_weights_ok.
  - apply (bool_decide_unpack _). reflexivity.
  - by repeat split.
  - done.
  - done.
  - done.
  - reflexivity.
  - vm_compute. reflexivity.
  - split; [apply NoDup_nil_2|]. intros i Hi. by apply elem_of_nil in Hi.
  - reflexivity.
  - done.
  - apply demo_all_accept. vm_compute. reflexivity.
  - destruct (Ht 0%nat "10.0.0.2" eq_refl) as (j & cj & Hj & Hn & Hcj & Hread).
    apply (f_equal snd) in Hp. cbn [snd] in Hp.
    assert (outbox cj = bytes_of (inbox ClusterDemo.conn)) as Hout.
    { rewrite <- Hp in Hcj. revert Hcj. apply demo_only_socket. }
    destruct (Hread 2%nat 1%nat ClusterDemo.conn (TargetDemo.info TargetDemo.served "m")
      (TargetDemo.allocator TargetDemo.served) ClusterDemo.target) as (T' & Hr & _ & _ & Hrecv).
    + apply demo_ready_target; [reflexivity|by apply Nat.leb_le|reflexivity..|].
      intros i ->%demo_served_consumers. reflexivity.
    + vm_compute. reflexivity.
    + by rewrite Hout.
    + eexists _, _. split; [reflexivity|]. split; [apply Nat.leb_le; vm_compute; reflexivity|].
      split; [apply Nat.leb_le; vm_compute; reflexivity|repeat constructor; discriminate].
    + assert (E' = ClusterDemo.sent) as -> by (unfold ClusterDemo.sent; by rewrite Hs).
      change (zmq_sent EngineDemo.master) with ([] : list (string * Metadata)) in Hz. rewrite app_nil_l in Hz.
      destruct (demo_worker_ready md Hz) as [Hready Htotal].
      destruct (Hrecv ClusterDemo.driver_memory 8192 16 ClusterDemo.worker) as (R' & views & Hw & Hy & HF).
      * apply demo_delivers; [reflexivity|reflexivity|..].
        -- rewrite <- Hp. vm_compute. reflexivity.
        -- apply (f_equal snd) in Hr. cbn [snd] in Hr. rewrite <- Hr. vm_compute. reflexivity.
      * apply vram_read_ext. intros i Hi. unfold ClusterDemo.driver_memory. f_equal.
        replace (bi_device_ptr _) with (2 ^ 40) by (vm_compute; reflexivity). lia.
      * apply vram_read_ext. intros i Hi. unfold engine_memory at 1. simpl.
        replace (bi_device_ptr _) with (2 ^ 40) by (vm_compute; reflexivity). f_equal. lia.
      * exact Hready.
      * by rewrite Htotal.
      * exists R', views. split; [exact Hw|]. split; [exact Hy|].
        eapply Forall2_impl; [exact HF|]. intros x y (H1 & _ & _ & H2). exact (conj H1 H2).
Defined.

(** A target on which NCCL does not start. *)
Module FailDemo.

Definition env : Env :=
  {| CUPY_AVAILABLE := true; getDeviceCount := Some 8; fs_error _ _ := None;
     source_exists _ := false; safe_open _ := None; memcpy_ok _ _ := true;
     nccl_result _ := Some "NCCL_ERROR_SYSTEM_ERROR: unhandled system error";
     nccl_unique_id := Demo.nccl_id |}.

(** The worker's buffer holds [1 .. 6], the table names two weights. *)
Definition previous : list (string * Tensor) := EngineDemo.weights.

Definition worker : WPICheckpointEngine ClientSim.csim :=
  with_messages [] [(topic, {| bucket_meta := table_of 0 previous; total_bytes := 6 |})]
    (with_memory (packed_memory 8192 previous (fun _ => 0))
      (mk_Engine 16 "m" "m" false (Some 1) (Some 2) (Some (8192, 16)) None
         (ClientSim.waiting [line "PRE_UPDATE"]) (Some (Sub "tcp://10.0.0.1:5555" topic)) [] [] true [])).
End FailDemo.

Lemma failed_transfer_yields_previous_witness :
  exists R', receive_weights FailDemo.worker = (Ret tt, R') /\
    (fun nv => (nv.1, view_bytes (engine_memory R') nv.2)) <$> yielded R' =
      [("w", [1; 2; 3; 4]); ("b", [5; 6])].
Proof.
  destruct (failed_transfer_yields_previous FailDemo.env 2 1 ClusterDemo.conn "m" 2 1 0 0 0 Demo.nccl_id
    (TargetDemo.info TargetDemo.served "m") (TargetDemo.allocator TargetDemo.served)
    "NCCL_ERROR_SYSTEM_ERROR: unhandled system error" ClusterDemo.target 5
    (mk_Conn [] false (Some 4096) "" [] false)) as (T' & sent & _ & _ & -> & Hread).
  1-3,5-7: reflexivity.
  - apply demo_arrived, Nat.leb_le. reflexivity.
  - by apply Nat.leb_le.
  - intros k ->%demo_served_consumers. reflexivity.
  - vm_compute. reflexivity.
  - apply (bool_decide_unpack _). vm_compute. exact I.
  - apply (bool_decide_unpack _). vm_compute. exact I.
  - reflexivity.
  - vm_compute. reflexivity.
  - reflexivity.
  - apply (bool_decide_unpack _). vm_compute. exact I.
  - reflexivity.
  - reflexivity.
  - reflexivity.
  - destruct (Hread FailDemo.previous 8192 8192 (fun _ => 0) 16 FailDemo.worker 0%nat
      (mk_Conn [line "PRE_UPDATE"] false (Some 4096) "" [] false)) as (R' & views & E & _ & _);
      [exact demo_weights_ok|by repeat split|done|reflexivity|reflexivity|reflexivity| |reflexivity|].
    + split; [exists 1; split; [reflexivity|lia]|]. split; [reflexivity|].
      split; [eexists; reflexivity|]. split; [by exists []|].
      exists 0%nat. do 3 eexists. split; [reflexivity|]. split; [reflexivity|]. split; [reflexivity|].
      by apply Nat.leb_le.
    + exists R'. split; [exact E|]. apply (f_equal snd) in E. cbn [snd] in E. rewrite <- E.
      vm_compute. reflexivity.
Defined.
