(* ===== verification/Workers.v ===== *)
(** * The workers of one node and their claim (consumer/wpi_verl_plugin/engine.py, driver/main.py)

    Every worker process of a node has an engine of its own, configured like those of its
    neighbours: prepare() stages the buffer and shutdown() unstages it, under the one claim
    that they share. Here the calls of the engines are run by the driver of the node. *)

From S2P Require Import Prelude PyMonad PyText PyDict Cuda Allocator NodeState Stage Unstage.
From S2P Require Import FdServer Propagate Client Engine Rpc Serve Cluster.

(** ** The calls of an engine *)

(** The request that prepare() makes. *)
Definition engine_request {W} (e : WPICheckpointEngine W) : NodeStageWeightRequest :=
  {| st_claim_id := claim_id e; st_buffer_id := buffer_id e; st_source_path := "";
     st_size_bytes := bucket_size e; st_shard_index := -1; st_total_shards := 0 |}.

(** The calls that the client of the engine has made. *)
Definition made {W} (e : WPICheckpointEngine W) : list rpc_call := (calls (wpi_client e)).*2.

Section calls.
Context {W : Type} `{CudaApi W} `{CudaContextApi W}.

(** The client has made the calls [l]. *)
Definition called (l : list rpc_call) (c : WPIClient W) : Prop := (calls c).*2 = l.

Context (cenv : ClientEnv) (l : list rpc_call).

Lemma called_modify f : (forall s, calls (f s) = calls s) -> preserves (called l) (py_modify f).
Proof. intros Hf. apply preserves_modify. unfold called. intros s Hs. by rewrite Hf. Qed.

Lemma called_cu_call (f : W -> Z * W) : preserves (called l) (cu_call f).
Proof. intros s Hs. unfold cu_call. by destruct (f _). Qed.

Lemma called_cu_call_out (f : W -> Z * Z * W) : preserves (called l) (cu_call_out f).
Proof. intros s Hs. unfold cu_call_out. by destruct (f _) as [[? ?] ?]. Qed.

Lemma called_on_sock {A} i (f : Conn -> outcome A * Conn) : preserves (called l) (on_sock i f).
Proof. intros s Hs. unfold on_sock. destruct (socks s !! i) as [c|]; [|done]. by destruct (f c). Qed.

Lemma called_try_connect i path : preserves (called l) (try_connect cenv i path).
Proof. intros s Hs. unfold try_connect. by destruct (connect_to _ _ _) as [[]|]. Qed.

Lemma called_take_rights i : preserves (called l) (take_rights (W:=W) cenv i).
Proof. intros s Hs. unfold take_rights. by destruct (deliver_rights _ _ _) as [[? ?] ?]. Qed.

#[local] Hint Extern 1 (preserves (called _) (py_modify _)) => apply called_modify; reflexivity : wpi.
#[local] Hint Resolve called_cu_call called_cu_call_out called_on_sock called_try_connect called_take_rights : wpi.

#[local] Arguments wait_for_path : simpl nomatch.
#[local] Arguments connect_retry : simpl nomatch.

Lemma called_wait n path : preserves (called l) (wait_for_path cenv n path).
Proof. induction n as [|n IH]; simpl; unfold exists_now; preserves_tac. Qed.

Lemma called_connect n i path : preserves (called l) (connect_retry cenv n i path).
Proof. induction n as [|n IH]; simpl; preserves_tac. Qed.

#[local] Hint Resolve called_wait called_connect : wpi.

Lemma called_first_fd anc : preserves (called l) (first_fd (S:=WPIClient W) anc).
Proof. induction anc as [|m anc IH]; simpl; preserves_tac. Qed.

#[local] Hint Resolve called_first_fd : wpi.

Lemma called_receive_fd metadata bid gpu i n : preserves (called l) (receive_fd cenv metadata bid gpu i n).
Proof. unfold receive_fd, exists_now, new_socket, recvmsg. preserves_tac. Qed.

Lemma called_import fd size dev : preserves (called l) (import_cuda_memory cenv fd size dev).
Proof.
  unfold import_cuda_memory, init_cuda_context, init_cuda_context_fresh, find_libcuda, client_granularity,
    map_handle, pop_context, cu_checked_out, cu_checked. preserves_tac.
Qed.

Lemma called_connect_notify bid t i n : preserves (called l) (connect_notify_socket cenv bid t i n).
Proof. unfold connect_notify_socket, exists_now, new_socket. preserves_tac. Qed.

Lemma called_close : preserves (called l) (close (W:=W)).
Proof. unfold close. preserves_tac. Qed.
End calls.

(** ** What prepare and shutdown call *)

Section engine_calls.
Context {W : Type} `{CudaApi W} `{CudaContextApi W} (env : EngineEnv).
Implicit Types (e : WPICheckpointEngine W) (c : WPIClient W).

Lemma stage_weight_calls id size claim path i n c :
  let r := CallStage {| st_claim_id := claim; st_buffer_id := id; st_source_path := path;
                        st_size_bytes := size; st_shard_index := i; st_total_shards := n |} in
  answer (client_env env) r = RpcOk tt ->
  exists c', stage_weight (client_env env) id size claim path i n c = (Ret tt, c') /\
    (calls c').*2 = (calls c).*2 ++ [r].
Proof.
  intros r Hr. unfold stage_weight, get_grpc_stub. rewrite !bind_unfold. simpl.
  destruct (grpc_target c) as [t|]; simpl; rewrite bind_unfold; unfold invoke; rewrite bind_unfold; simpl;
    fold r; rewrite Hr; (eexists; split; [reflexivity|]); simpl; by rewrite fmap_app.
Qed.

Lemma unstage_weight_calls claim c :
  answer (client_env env) (CallUnstage claim) = RpcOk tt ->
  exists c', unstage_weight (client_env env) claim c = (Ret tt, c') /\
    (calls c').*2 = (calls c).*2 ++ [CallUnstage claim].
Proof.
  intros Hr. unfold unstage_weight, get_grpc_stub. rewrite !bind_unfold. simpl.
  destruct (grpc_target c) as [t|]; simpl; rewrite bind_unfold; unfold invoke; rewrite bind_unfold; simpl;
    rewrite Hr; (eexists; split; [reflexivity|]); simpl; by rewrite fmap_app.
Qed.

(** The engine has made the calls [l], and still has its claim, and [b] says whether it
    considers it staged. *)
Definition engine_called (claim : string) (b : bool) (l : list rpc_call) e : Prop :=
  called l (wpi_client e) /\ claim_id e = claim /\ staged_ e = b.

Lemma engine_called_client {A} claim b l (m : py (WPIClient W) A) :
  preserves (called l) m -> preserves (engine_called claim b l) (on_client m).
Proof.
  intros Hm e (Hc & He). unfold on_client, py_zoom. specialize (Hm _ Hc).
  destruct (m (wpi_client e)) as [r c']. by split.
Qed.

Lemma engine_called_modify claim b l f :
  (forall e, wpi_client (f e) = wpi_client e /\ claim_id (f e) = claim_id e /\ staged_ (f e) = staged_ e) ->
  preserves (engine_called claim b l) (py_modify f).
Proof.
  intros Hf. apply preserves_modify. intros e (Hc & He & Hs). destruct (Hf e) as (E1 & E2 & E3).
  unfold engine_called. by rewrite E1, E2, E3.
Qed.

#[local] Hint Extern 1 (preserves (engine_called _ _ _) (py_modify _)) =>
  apply engine_called_modify; intros; by split_and! : wpi.
#[local] Hint Resolve engine_called_client called_receive_fd called_import called_connect_notify
  called_close : wpi.

(** prepare() of an engine that has not staged stages once, with the request of the engine;
    whatever fails afterwards, there is no other call. *)
Lemma prepare_calls e g :
  staged_ e = false -> prepare_gpu_id (W:=W) env e = (Ret g, e) ->
  answer (client_env env) (CallStage (engine_request e)) = RpcOk tt ->
  engine_called (claim_id e) true (made e ++ [CallStage (engine_request e)]) (prepare env e).2.
Proof.
  intros Hst Hg Hans. unfold prepare. rewrite bind_unfold, Hg. do 4 (rewrite bind_unfold; simpl).
  rewrite Hst. cbn [negb py_when]. rewrite bind_unfold, bind_unfold. unfold on_client at 1, py_zoom.
  destruct (stage_weight_calls (buffer_id e) (bucket_size e) (claim_id e) "" (-1) 0 (wpi_client e) Hans)
    as (c' & -> & Hc). cbn [py_modify].
  set (e1 := with_staged true (with_client c' e)).
  assert (engine_called (claim_id e) true (made e ++ [CallStage (engine_request e)]) e1) as He
    by (by split_and!).
  revert He. generalize e1. generalize (made e ++ [CallStage (engine_request e)]). intros l.
  apply (preserves_bind (engine_called (claim_id e) true l)); [eauto with wpi|intros fd].
  preserves_tac.
Qed.

(** shutdown() of an engine that has staged unstages its claim once. *)
Lemma shutdown_calls claim l e :
  engine_called claim true l e -> answer (client_env env) (CallUnstage claim) = RpcOk tt ->
  engine_called claim false (l ++ [CallUnstage claim]) (shutdown env e).2.
Proof.
  intros (Hc & Hcl & Hst) Hans. unfold shutdown. do 2 (rewrite bind_unfold; simpl).
  rewrite Hst, Hcl. cbn [py_when]. rewrite bind_unfold, bind_unfold. unfold py_except, on_client at 1, py_zoom.
  destruct (unstage_weight_calls claim (wpi_client e) Hans) as (c' & -> & Hc'). cbn [py_modify].
  set (e1 := with_staged false (with_client c' e)).
  assert (engine_called claim false (l ++ [CallUnstage claim]) e1) as He.
  { unfold called in *. split_and!; [|done|done]. unfold called. simpl. by rewrite Hc', Hc. }
  revert He. generalize e1. generalize (l ++ [CallUnstage claim]). intros l'.
  apply (preserves_bind (engine_called claim false l')); [eauto with wpi|intros []]. preserves_tac.
Qed.
End engine_calls.

(** ** The driver of the node *)

Section node.
Context {Wd C : Type} `{CudaApi Wd} `{GrpcContext C} `{!GrpcLaws C}.
Context (denv : Env) (dial : Z -> string -> option Conn).
#[local] Abbreviation driver := (Driver Wd C).
Implicit Types (s : driver) (request : NodeStageWeightRequest).

(** The driver answers calls one after the other. *)
Fixpoint serve_calls (l : list rpc_call) s : list (rpc_result unit) * driver :=
  match l with
  | [] => ([], s)
  | c :: l' =>
      let '(r, s') := rpc (handler_of_call denv dial c) s in
      let '(rs, s'') := serve_calls l' s' in (r :: rs, s'')
  end.

(** The buffer [id] has [n] references and the handle [handle]; the allocator is [a]; the
    claims are [K]. *)
Definition counted (id : string) (n handle : Z) (a : CudaAllocator Wd) (K : gmap string string) s : Prop :=
  (exists b, dict_get id (ALLOCATED_BUFFERS s) = Some b /\ bi_ref_count b = Some n /\ bi_handle b = handle) /\
  cuda_allocator s = Some a /\ KNOWN_CLAIMS s = K.

(** Each further stage under the claim counts one more reference. *)
Lemma restages_run request n k handle a K s :
  let id := stage_effective_id request in
  counted id k handle a (<[st_claim_id request := id]> K) s ->
  exists s', serve_calls (replicate n (CallStage request)) s = (replicate n (RpcOk tt), s') /\
    counted id (k + Z.of_nat n) handle a (<[st_claim_id request := id]> K) s'.
Proof.
  intros id. revert k s. induction n as [|n IH]; intros k s Hs.
  - exists s. split; [done|]. by replace (k + Z.of_nat 0) with k by lia.
  - destruct Hs as ((b & Hb & Hr & Hh) & Ha & Hk). cbn [replicate serve_calls handler_of_call].
    unfold rpc at 1. rewrite (stage_known_run denv request b k) by done. simpl. rewrite law_new_status.
    set (s1 := set_buffers _ _).
    destruct (IH (k + 1) s1) as (s' & -> & Hs').
    { split; [|split; [done|]].
      - eexists. simpl. rewrite dict_get_set_eq. by split_and!.
      - simpl. by rewrite Hk, insert_insert_eq. }
    exists s'. split; [done|]. by replace (k + Z.of_nat (S n)) with (k + 1 + Z.of_nat n) by lia.
Qed.

(** [n] unstages of a claim that is gone do nothing. *)
Lemma unstages_gone claim id n k handle a K s :
  K !! claim = None -> counted id k handle a K s ->
  exists s', serve_calls (replicate n (CallUnstage claim)) s = (replicate n (RpcOk tt), s') /\
    counted id k handle a K s'.
Proof.
  intros Hc. revert s. induction n as [|n IH]; intros s Hs; [by exists s|].
  cbn [replicate serve_calls handler_of_call]. rewrite unstage_unknown_noop by (by destruct Hs as (_ & _ & ->)).
  destruct (IH (set_context ctx_new s)) as (s' & -> & Hs'); [exact Hs|]. by exists s'.
Qed.

(** [n] stages of a new buffer under one claim, then [n] unstages of the claim. *)
Lemma shared_claim_run request a a' fd handle device_ptr n s :
  let id := stage_effective_id request in
  fresh_stage denv request a a' fd handle device_ptr s -> (0 < n)%nat ->
  exists s1 s2,
    serve_calls (replicate (S n) (CallStage request)) s = (replicate (S n) (RpcOk tt), s1) /\
    counted id (Z.of_nat (S n)) handle a' (<[st_claim_id request := id]> (KNOWN_CLAIMS s)) s1 /\
    serve_calls (replicate (S n) (CallUnstage (st_claim_id request))) s1 = (replicate (S n) (RpcOk tt), s2) /\
    counted id (Z.of_nat n) handle a' (KNOWN_CLAIMS s) s2.
Proof.
  intros id (Hc & Hwf & Hnew & Hdir & Hsrc & Ha & Hal) Hn.
  destruct (stage_new_run denv request a a' fd handle device_ptr s) as (t & Et & Hb & Hk & Hat & _);
    [by apply Hnew; left|done..|].
  destruct (restages_run request n 1 handle a' (KNOWN_CLAIMS s) t) as (s1 & E1 & Hs1).
  { split; [|by split]. eexists. rewrite Hb, dict_get_set_eq. by split_and!. }
  replace (1 + Z.of_nat n) with (Z.of_nat (S n)) in Hs1 by lia. fold id in Hs1.
  destruct Hs1 as ((b & Hb1 & Hr1 & Hh1) & Ha1 & Hk1).
  destruct (unstage_shared_run (st_claim_id request) id b (Z.of_nat (S n)) s1)
    as (u & Eu & Hku & _ & Hbu & _ & Hau); [by rewrite Hk1, lookup_insert_eq|done|done|lia|].
  assert (KNOWN_CLAIMS u = KNOWN_CLAIMS s) as Hku'.
  { rewrite Hku, Hk1. by rewrite delete_insert_eq, delete_id. }
  destruct (unstages_gone (st_claim_id request) id n (Z.of_nat n) handle a' (KNOWN_CLAIMS s) u)
    as (s2 & E2 & Hs2); [done| |].
  { split; [|by rewrite Hau]. eexists. split; [exact Hbu|]. split; [|exact Hh1]. simpl. f_equal. lia. }
  exists s1, s2. cbn [replicate serve_calls handler_of_call]. rewrite Et, E1, Eu, E2.
  split; [done|]. split; [split; [by exists b|by split]|]. by split.
Qed.
End node.

(** ** Properties *)

Section leak.
Context {W Wd C : Type} `{CudaApi W} `{CudaContextApi W} `{CudaApi Wd} `{GrpcContext C} `{!GrpcLaws C}.
Context (denv : Env) (dial : Z -> string -> option Conn).

(** A new engine of a process of the node, configured to make [request]; [LOCAL_RANK] is a
    number, and its calls succeed. *)
Record node_worker (request : NodeStageWeightRequest) (w : EngineEnv * WPICheckpointEngine W) : Prop := {
  nw_request : engine_request w.2 = request;
  nw_new : staged_ w.2 = false /\ made w.2 = [];
  nw_rank : exists g, prepare_gpu_id w.1 w.2 = (Ret g, w.2);
  nw_stage : answer (client_env w.1) (CallStage request) = RpcOk tt;
  nw_unstage : answer (client_env w.1) (CallUnstage (st_claim_id request)) = RpcOk tt
}.

Lemma node_prepared request w :
  node_worker request w -> made (prepare w.1 w.2).2 = [CallStage request].
Proof.
  intros [Hreq [Hst Hm] [g Hg] Hs _]. rewrite <-Hreq in Hs.
  destruct (prepare_calls w.1 w.2 g Hst Hg Hs) as (Hc & _). by rewrite Hm, Hreq in Hc.
Qed.

Lemma node_ended request w :
  node_worker request w ->
  let e := (shutdown w.1 (prepare w.1 w.2).2).2 in
  made e = [CallStage request; CallUnstage (st_claim_id request)] /\ staged_ e = false.
Proof.
  intros [Hreq [Hst Hm] [g Hg] Hs Hu]. rewrite <-Hreq in Hs.
  pose proof (prepare_calls w.1 w.2 g Hst Hg Hs) as Hp. rewrite Hm, Hreq in Hp.
  assert (claim_id w.2 = st_claim_id request) as Hcl by (by rewrite <-Hreq). rewrite Hcl in Hp.
  by destruct (shutdown_calls w.1 _ _ _ Hp Hu) as (Hc & _ & Hf).
Qed.

(** C32: when a node has more than one worker, the buffer of the job is leaked: every worker
    stages it under the claim they share, which counts a reference each time, and every
    worker unstages the claim on shutdown, of which only the first one counts. All calls
    succeed; in the end each engine has released its claim, no claim holds the buffer, and
    it stays allocated with one reference less than there were workers. *)
Theorem shared_claim_leaks request ws a a' fd handle device_ptr (s : Driver Wd C) :
  let id := stage_effective_id request in
  let n := length ws in
  Forall (node_worker request) ws -> (1 < length ws)%nat ->
  fresh_stage denv request a a' fd handle device_ptr s ->
  (forall claim, KNOWN_CLAIMS s !! claim <> Some id) ->
  let prepared := (fun w => (w.1, (prepare w.1 w.2).2)) <$> ws in
  let ended := (fun w => (shutdown w.1 w.2).2) <$> prepared in
  Forall (fun w => made w.2 = [CallStage request]) prepared /\
  Forall (fun e => made e = [CallStage request; CallUnstage (st_claim_id request)] /\ staged_ e = false) ended /\
  exists s1 s2 b,
    serve_calls denv dial (replicate n (CallStage request)) s = (replicate n (RpcOk tt), s1) /\
    serve_calls denv dial (replicate n (CallUnstage (st_claim_id request))) s1 =
      (replicate n (RpcOk tt), s2) /\
    dict_get id (ALLOCATED_BUFFERS s2) = Some b /\ bi_handle b = handle /\
    bi_ref_count b = Some (Z.of_nat n - 1) /\ 0 < Z.of_nat n - 1 /\
    cuda_allocator s2 = Some a' /\ (forall claim, KNOWN_CLAIMS s2 !! claim <> Some id).
Proof.
  intros id n Hws Hn Hfresh Hnone prepared ended. split; [|split].
  - apply Forall_fmap. eapply Forall_impl; [exact Hws|]. intros [env e] Hw. apply (node_prepared _ _ Hw).
  - apply Forall_fmap, Forall_fmap. eapply Forall_impl; [exact Hws|]. intros [env e] Hw.
    apply (node_ended _ _ Hw).
  - unfold n in *. destruct (length ws) as [|[|k]]; [lia..|].
    destruct (shared_claim_run denv dial request a a' fd handle device_ptr (S k) s)
      as (s1 & s2 & E1 & _ & E2 & (b & Hb & Hr & Hh) & Ha & Hk); [done|lia|].
    exists s1, s2, b. split_and!; [done..| |lia|done|by rewrite Hk].
    rewrite Hr. f_equal. lia.
Qed.
End leak.

(** ** Witness *)

Module WorkersDemo.

(** The environment of the process with the given local rank; the FD server answers. *)
Definition env (local_rank : string) : EngineEnv :=
  {| client_env :=
       {| environ k := if decide (k = "LOCAL_RANK") then Some local_rank else None;
          path_exists := path_exists ClientSim.env; connect_to := connect_to ClientSim.env;
          new_fd := new_fd ClientSim.env;
          cdll _ := true; answer _ := RpcOk tt |};
     ray_node_ip := "10.0.0.2"; get_free_port _ := 5555;
     is_valid_ipv6_address _ := false; gce_metadata := None; list_of_set := elements |}.

(** A rollout worker; its claim defaults to the buffer. *)
Definition worker : WPICheckpointEngine ClientSim.csim :=
  (engine_init (env "0") (4 * MiB) "m" "" "/run/wpi/sockets" 50051 false ClientSim.process).2.

Definition request : NodeStageWeightRequest := Demo.request "m" "m" (4 * MiB).
End WorkersDemo.

Lemma shared_claim_leaks_witness :
  exists s1 s2 b,
    serve_calls Demo.env PropagateDemo.all_ok (replicate 2 (CallStage WorkersDemo.request)) Demo.start =
      ([RpcOk tt; RpcOk tt], s1) /\
    serve_calls Demo.env PropagateDemo.all_ok (replicate 2 (CallUnstage "m")) s1 =
      ([RpcOk tt; RpcOk tt], s2) /\
    dict_get "m" (ALLOCATED_BUFFERS s2) = Some b /\ bi_ref_count b = Some 1 /\
    KNOWN_CLAIMS s2 !! "m" <> Some "m".
Proof.
  destruct (shared_claim_leaks Demo.env PropagateDemo.all_ok WorkersDemo.request
    [(WorkersDemo.env "0", WorkersDemo.worker); (WorkersDemo.env "1", WorkersDemo.worker)]
    Demo.allocator0 (demo_after (4 * MiB)) 3 0 (2 ^ 40) Demo.start)
    as (_ & _ & s1 & s2 & b & E1 & E2 & Hb & _ & Hr & _ & _ & Hk).
  - constructor; [|constructor; [|constructor]].
    + split; [reflexivity|split; reflexivity|exists 0; reflexivity|reflexivity|reflexivity].
    + split; [reflexivity|split; reflexivity|exists 1; reflexivity|reflexivity|reflexivity].
  - apply Nat.ltb_lt. reflexivity.
  - split_and!; try done. constructor.
  - discriminate.
  - exists s1, s2, b. split; [exact E1|]. split; [exact E2|]. split; [exact Hb|]. split; [exact Hr|]. apply Hk.
Defined.
