(* ===== verification/Threads.v ===== *)
(** * Handlers on the threads of the gRPC server (driver/main.py)

    The server runs handlers on ten threads, which share the dictionaries of the driver
    without a lock. A handler is here a process of atomic segments, run in any interleaving
    with others: NodeStageWeight in three segments (claim and test; allocation; record and
    servers), NodeUnstageWeight in one. The segments, one after the other, are the handler
    of [Stage]. *)

From S2P Require Import Prelude PyMonad PyText PyDict Cuda Allocator NodeState Stage Unstage.

(** ** Processes *)

Inductive proc (S A : Type) : Type :=
  | Done (r : outcome A)
  | Atomic (next : S -> proc S A) (effect : S -> S).
Arguments Done {S A}.
Arguments Atomic {S A}.

Section proc.
Context {S : Type}.

(** The process alone. *)
Fixpoint run_proc {A} (p : proc S A) (s : S) : outcome A * S :=
  match p with
  | Done r => (r, s)
  | Atomic next effect => run_proc (next s) (effect s)
  end.

(** One segment, then the rest; an exception ends the process. *)
Definition seg {A B} (m : py S B) (k : B -> proc S A) : proc S A :=
  Atomic (fun s =>
    match (m s).1 with
    | Ret b => k b
    | Raise e => Done (Raise e)
    | Stuck => Done Stuck
    end) (fun s => (m s).2).

(** [try: p except Exception as e: h e]. *)
Fixpoint proc_except {A} (p : proc S A) (h : exn -> proc S A) : proc S A :=
  match p with
  | Done (Raise e) => h e
  | Done r => Done r
  | Atomic next effect => Atomic (fun s => proc_except (next s) h) effect
  end.

Lemma run_seg {A B} (m : py S B) (k : B -> proc S A) s :
  run_proc (seg m k) s = (b ← m ; run_proc (k b)) s.
Proof. rewrite bind_unfold. simpl. by destruct (m s) as [[] ?]. Qed.

Lemma run_proc_except {A} (p : proc S A) h s :
  run_proc (proc_except p h) s = py_except (run_proc p) is_Exception (fun e => run_proc (h e)) s.
Proof.
  unfold py_except. revert s. induction p as [[a|e|]|next IH effect]; intros s; simpl; [done..|].
  apply IH.
Qed.

(** Some process makes its next segment. *)
Inductive pool_step {A} : list (proc S A) * S -> list (proc S A) * S -> Prop :=
  | pool_move l1 next effect l2 s :
      pool_step (l1 ++ Atomic next effect :: l2, s) (l1 ++ next s :: l2, effect s).

(** A run by a schedule, the list of the processes that move. *)
Definition pool_move_at {A} (i : nat) (c : list (proc S A) * S) : list (proc S A) * S :=
  match c.1 !! i with
  | Some (Atomic next effect) => (<[i := next c.2]> c.1, effect c.2)
  | _ => c
  end.

Definition pool_schedule {A} (ids : list nat) (c : list (proc S A) * S) : list (proc S A) * S :=
  fold_left (fun c i => pool_move_at i c) ids c.

Lemma pool_schedule_run {A} ids (c : list (proc S A) * S) : rtc pool_step c (pool_schedule ids c).
Proof.
  revert c. induction ids as [|i ids IH]; intros [l s]; [apply rtc_refl|]. simpl.
  assert (pool_move_at i (l, s) = (l, s) \/ pool_step (l, s) (pool_move_at i (l, s))) as [->|Hm];
    [|by apply IH|by eapply rtc_l; [|apply IH]].
  unfold pool_move_at. simpl. destruct (l !! i) as [[r|next effect]|] eqn:E; [by left| |by left].
  right. rewrite <-(take_drop_middle l i _ E) at 1.
  rewrite insert_take_drop by (by eapply lookup_lt_Some). constructor.
Qed.

(** A pool without a move is one in which every process ended. *)
Lemma pool_ended {A} (l : list (proc S A)) s :
  (forall c, ~ pool_step (l, s) c) -> Forall (fun p => exists r, p = Done r) l.
Proof.
  intros Hno. apply Forall_forall. intros [r|next effect] Hin; [eauto|].
  apply list_elem_of_split in Hin as (l1 & l2 & ->). exfalso. eapply Hno. econstructor.
Qed.

(** *** Every pool comes to an end, however its processes are interleaved *)

(** A process of the pool becomes one of its continuations, whatever the state. *)
Inductive moved {A} : list (proc S A) -> list (proc S A) -> Prop :=
  | moved_at l1 next effect l2 s :
      moved (l1 ++ Atomic next effect :: l2) (l1 ++ next s :: l2).

Lemma moved_cons {A} (p : proc S A) l : sn moved l -> sn moved (p :: l).
Proof.
  revert l. induction p as [r|next IH effect]; intros l Hl;
    induction Hl as [l Hl IHl]; constructor; intros l' Hstep; red in Hstep;
    inversion Hstep as [l1 next' effect' l2 s E1 E2]; subst;
    destruct l1 as [|p l1]; simplify_eq/=;
    try (apply IHl; unfold flip; constructor).
  apply IH. by constructor.
Qed.

Lemma moved_sn {A} (l : list (proc S A)) : sn moved l.
Proof.
  induction l as [|p l IH]; [|by apply moved_cons].
  constructor. intros l' Hstep. red in Hstep. inversion Hstep as [l1 ? ? ? ? E]. by destruct l1.
Qed.

Lemma pool_sn {A} (c : list (proc S A) * S) : sn pool_step c.
Proof.
  destruct c as [l s]. pose proof (moved_sn l) as Hl. revert s.
  induction Hl as [l _ IH]. intros s. constructor. intros c Hstep. red in Hstep.
  inversion Hstep; subst. apply IH. constructor.
Qed.
End proc.

(** ** The handlers *)

Section handlers.
Context {W C : Type} `{CudaApi W} `{GrpcContext C} (env : Env).
#[local] Abbreviation state := (Driver W C).

(** Register the claim, test for the buffer, and count a reference of a known one. *)
Definition stage_check (request : NodeStageWeightRequest) : py state bool :=
  let id := stage_effective_id request in
  py_modify (set_claims (<[st_claim_id request := id]>)) ;;
  staged ← buffer_known id ;
  if (staged : bool) then add_reference id ;; mret true else mret false.

(** Socket directory, GPU and allocation. *)
Definition stage_reserve (request : NodeStageWeightRequest) : py state (Z * Z * Z) :=
  prepare_socket_dir env ;;
  let size := weight_size_bytes (st_size_bytes request) in
  allocator ← py_get cuda_allocator ;
  match allocator with
  | None => abort UNAVAILABLE "CUDA allocator failed to initialize. Cannot allocate VRAM."
  | Some _ =>
      let gpu_id := stage_gpu_id env (stage_sharded request) (st_shard_index request) in
      with_allocator (stage_allocate size gpu_id)
  end.

(** Record, load, start the servers. *)
Definition stage_commit (request : NodeStageWeightRequest) (r : Z * Z * Z) : py state unit :=
  let id := stage_effective_id request in
  let '(fd, handle, device_ptr) := r in
  put_buffer id (staged_entry request (weight_size_bytes (st_size_bytes request))
    (stage_gpu_id env (stage_sharded request) (st_shard_index request)) fd handle device_ptr) ;;
  load_source env (st_source_path request) device_ptr ;;
  start_servers id.

(** [except Exception as e: context.abort(INTERNAL, str(e))]. *)
Definition guarded (p : proc state unit) : proc state unit :=
  proc_except p (fun e => seg (abort (A:=unit) INTERNAL (exn_str e)) (fun _ => Done (Ret tt))).

(** The process after the allocation, after the test, and from the start. *)
Definition stage_committing (request : NodeStageWeightRequest) (r : Z * Z * Z) : proc state unit :=
  seg (stage_commit request r) (fun _ => Done (Ret tt)).

Definition stage_reserving (request : NodeStageWeightRequest) : proc state unit :=
  seg (stage_reserve request) (stage_committing request).

Definition stage_proc (request : NodeStageWeightRequest) : proc state unit :=
  guarded (seg (stage_check request) (fun staged : bool =>
    if staged then Done (Ret tt) else stage_reserving request)).

Definition unstage_proc (claim_id : string) : proc state unit :=
  seg (NodeUnstageWeight claim_id) (fun _ => Done (Ret tt)).
End handlers.

(** ** Lemmas *)

Section lemmas.
Context {W C : Type} `{CudaApi W} `{GrpcContext C} (env : Env).
#[local] Abbreviation state := (Driver W C).
Implicit Types (s : state) (request : NodeStageWeightRequest).

Lemma except_ext {A} (m m' : py state A) c h h' s :
  (forall s, m s = m' s) -> (forall e s, h e s = h' e s) -> py_except m c h s = py_except m' c h' s.
Proof. intros Hm Hh. unfold py_except. rewrite Hm. destruct (m' s) as [[] ?]; try done. by case_match. Qed.

Lemma bind_ext {A B} (m : py state A) (k k' : A -> py state B) s :
  (forall a s, k a s = k' a s) -> (m ≫= k) s = (m ≫= k') s.
Proof. intros Hk. rewrite !bind_unfold. by destruct (m s) as [[] ?]. Qed.

(** The segments of NodeStageWeight, one after the other, are the handler. *)
Lemma stage_proc_run request s :
  run_proc (stage_proc env request) s = NodeStageWeight env request s.
Proof.
  unfold stage_proc, guarded. rewrite run_proc_except. unfold NodeStageWeight. apply except_ext.
  - intros s1. rewrite run_seg. unfold stage_body, stage_check.
    rewrite bind_assoc. apply bind_ext. intros _ s2. rewrite bind_assoc. apply bind_ext.
    intros [] s3.
    + rewrite bind_assoc, bind_unfold. by destruct (add_reference _ _) as [[[]| |] ?].
    + cbn [mret py_ret]. unfold stage_reserving, stage_new, stage_reserve. rewrite bind_ret_l, run_seg.
      rewrite bind_assoc. apply bind_ext. intros _ s4. rewrite bind_assoc. apply bind_ext.
      intros [a|] s5.
      * apply bind_ext. intros [[fd h] p] s6. unfold stage_committing, stage_commit. rewrite run_seg.
        rewrite bind_assoc. apply bind_ext. intros _ s7. rewrite bind_assoc. apply bind_ext.
        intros _ s8. rewrite bind_unfold. by destruct (start_servers _ _) as [[[]| |] ?].
      * rewrite bind_unfold. unfold abort. by destruct (ctx_abort _ _ _).
  - intros e s1. rewrite run_seg, bind_unfold. unfold abort. by destruct (ctx_abort _ _ _).
Qed.
End lemmas.

(** ** Lemmas: the segments *)

Section segments.
Context {W C : Type} `{CudaApi W} `{GrpcContext C} `{!GrpcLaws C} (env : Env).
#[local] Abbreviation state := (Driver W C).
Implicit Types (s : state) (request : NodeStageWeightRequest).

Lemma check_new request s :
  dict_get (stage_effective_id request) (ALLOCATED_BUFFERS s) = None ->
  stage_check request s =
    (Ret false, set_claims (<[st_claim_id request := stage_effective_id request]>) s).
Proof.
  intros Hn. unfold stage_check. rewrite bind_unfold. simpl. rewrite bind_unfold. simpl.
  by rewrite (proj2 (dict_mem_false _ _) Hn).
Qed.

Lemma reserve_run request a r a' s :
  socket_dir_permitted env = true -> cuda_allocator s = Some a ->
  stage_allocate (weight_size_bytes (st_size_bytes request))
    (stage_gpu_id env (stage_sharded request) (st_shard_index request)) a = (Ret r, a') ->
  stage_reserve env request s =
    (Ret r, set_allocator (Some a') (set_files with_socket_dir s)).
Proof.
  intros Hdir Ha Hr. unfold stage_reserve. rewrite bind_unfold, prepare_socket_dir_run by done.
  rewrite bind_unfold. simpl. rewrite Ha. by erewrite with_allocator_run by (try apply Ha; apply Hr).
Qed.

(** The entry goes in whether or not there is one already. *)
Lemma commit_run request fd handle device_ptr s :
  st_source_path request = "" ->
  let id := stage_effective_id request in
  exists s', stage_commit env request (fd, handle, device_ptr) s = (Ret tt, s') /\
    ALLOCATED_BUFFERS s' = dict_set id
      (set_notify_sock_path (notify_sock_path_of id)
         (staged_entry request (weight_size_bytes (st_size_bytes request))
            (stage_gpu_id env (stage_sharded request) (st_shard_index request)) fd handle device_ptr))
      (ALLOCATED_BUFFERS s) /\
    KNOWN_CLAIMS s' = KNOWN_CLAIMS s /\ cuda_allocator s' = cuda_allocator s.
Proof.
  intros Hsrc id. unfold stage_commit. rewrite bind_unfold. simpl. rewrite Hsrc. unfold load_source.
  simpl. rewrite bind_unfold. simpl. erewrite start_servers_run by apply dict_get_set_eq.
  eexists. split; [done|]. simpl. by rewrite dict_set_set.
Qed.

(** A guarded process makes a segment that returns. *)
Lemma guarded_step {B} l1 l2 (m : py state B) (k : B -> proc state unit) s b s' :
  m s = (Ret b, s') ->
  pool_step (l1 ++ guarded (seg m k) :: l2, s) (l1 ++ guarded (k b) :: l2, s').
Proof.
  intros E. pose proof (pool_move l1 (fun s => guarded
    (match (m s).1 with Ret b => k b | Raise e => Done (Raise e) | Stuck => Done Stuck end))
    (fun s => (m s).2) l2 s) as Hm. cbv beta in Hm. rewrite E in Hm. exact Hm.
Qed.
End segments.

(** ** Properties *)

Section race.
Context {W C : Type} `{CudaApi W} `{GrpcContext C} `{!GrpcLaws C}.
Context (obs : W -> cuda_obs) `{!CudaLaws W obs} (env : Env).
Context (g : Z) (Hg : 0 < g).
Context (Hgran : forall p f w, (cuMemGetAllocationGranularity p f w).1 = (0, g)).
Implicit Types (s : Driver W C).

(** Two allocations that succeed one after the other are both live, under two handles. *)
Lemma allocations_distinct sz1 gpu1 sz2 gpu2 (a : CudaAllocator W) fd1 h1 p1 a1 fd2 h2 p2 a2 :
  stage_allocate sz1 gpu1 a = (Ret (fd1, h1, p1), a1) ->
  stage_allocate sz2 gpu2 a1 = (Ret (fd2, h2, p2), a2) ->
  h1 <> h2 /\ is_Some (live (obs (libcuda a2)) !! h1) /\ is_Some (live (obs (libcuda a2)) !! h2).
Proof.
  intros E1 E2.
  destruct (stage_allocate_inv obs _ _ _ _ _ E1) as (_ & b1 & A1 & Ho1).
  destruct (allocate_inv obs g Hgran _ _ _ _ _ _ _ A1) as (_ & _ & _ & _ & _ & L1).
  destruct (stage_allocate_inv obs _ _ _ _ _ E2) as (_ & b2 & A2 & Ho2).
  destruct (allocate_inv obs g Hgran _ _ _ _ _ _ _ A2) as (_ & _ & Hfree & _ & _ & L2).
  assert (h1 <> h2) as Hne.
  { intros ->. rewrite Ho2, L1 in Hfree. simpl in Hfree. by rewrite lookup_insert_eq in Hfree. }
  split; [done|]. rewrite L2. simpl. rewrite lookup_insert_eq, lookup_insert_ne, Ho2, L1 by done.
  simpl. rewrite lookup_insert_eq. by split; eexists.
Qed.

(** C34: two requests that stage the same new buffer for two claims, on two threads, may
    both see it missing and both allocate it. Both succeed; the entry is that of the second
    one, with one reference; the allocation of the first one is live and nothing names it.
    Unstaging the first claim then frees the buffer under the second one. *)
Theorem concurrent_stage_leaks r1 r2 s a fd1 h1 p1 a1 fd2 h2 p2 a2 :
  let id := stage_effective_id r1 in
  stage_effective_id r2 = id -> st_claim_id r1 <> st_claim_id r2 ->
  st_source_path r1 = "" -> st_source_path r2 = "" ->
  socket_dir_permitted env = true -> dict_wf (ALLOCATED_BUFFERS s) ->
  dict_get id (ALLOCATED_BUFFERS s) = None -> cuda_allocator s = Some a ->
  stage_allocate (weight_size_bytes (st_size_bytes r1))
    (stage_gpu_id env (stage_sharded r1) (st_shard_index r1)) a = (Ret (fd1, h1, p1), a1) ->
  stage_allocate (weight_size_bytes (st_size_bytes r2))
    (stage_gpu_id env (stage_sharded r2) (st_shard_index r2)) a1 = (Ret (fd2, h2, p2), a2) ->
  exists s', rtc pool_step ([stage_proc env r1; stage_proc env r2], s)
      ([Done (Ret tt); Done (Ret tt)], s') /\
    KNOWN_CLAIMS s' !! st_claim_id r1 = Some id /\ KNOWN_CLAIMS s' !! st_claim_id r2 = Some id /\
    (exists b, dict_get id (ALLOCATED_BUFFERS s') = Some b /\
       bi_handle b = h2 /\ bi_ref_count b = Some 1) /\
    (forall k, k <> id -> dict_get k (ALLOCATED_BUFFERS s') = dict_get k (ALLOCATED_BUFFERS s)) /\
    cuda_allocator s' = Some a2 /\ h1 <> h2 /\
    is_Some (live (obs (libcuda a2)) !! h1) /\ is_Some (live (obs (libcuda a2)) !! h2) /\
    exists s'', rpc (NodeUnstageWeight (st_claim_id r1)) s' = (RpcOk tt, s'') /\
      dict_get id (ALLOCATED_BUFFERS s'') = None /\ KNOWN_CLAIMS s'' !! st_claim_id r2 = Some id.
Proof.
  intros id Hid Hclaims Hp1 Hp2 Hdir Hwf Hnew Ha E1 E2.
  set (s1 := set_claims (<[st_claim_id r1 := id]>) s).
  set (s2 := set_claims (<[st_claim_id r2 := id]>) s1).
  set (s3 := set_allocator (Some a1) (set_files with_socket_dir s2)).
  set (s4 := set_allocator (Some a2) (set_files with_socket_dir s3)).
  destruct (commit_run env r1 fd1 h1 p1 s4 Hp1) as (s5 & E5 & Hb5 & Hk5 & Ha5).
  destruct (commit_run env r2 fd2 h2 p2 s5 Hp2) as (s6 & E6 & Hb6 & Hk6 & Ha6).
  rewrite Hid in Hb6. fold id in Hb5. rewrite Hb5, dict_set_set in Hb6.
  assert (dict_wf (ALLOCATED_BUFFERS s6)) as Hwf6 by (rewrite Hb6; auto with wpi).
  assert (KNOWN_CLAIMS s6 = <[st_claim_id r2 := id]> (<[st_claim_id r1 := id]> (KNOWN_CLAIMS s))) as Hk
    by (by rewrite Hk6, Hk5).
  assert (exists b, dict_get id (ALLOCATED_BUFFERS s6) = Some b /\
    bi_handle b = h2 /\ bi_ref_count b = Some 1) as (b & Hb & Hbh & Hbr)
    by (eexists; rewrite Hb6, dict_get_set_eq; by repeat split).
  exists s6. split.
  { eapply rtc_l; [apply (guarded_step [] [stage_proc env r2] _ _ _ _ _ (check_new r1 s Hnew))|].
    eapply rtc_l; [apply (guarded_step [_] [] _ _ _ _ _ (check_new r2 s1 ltac:(by rewrite Hid)))|].
    rewrite Hid. cbn [app]. fold s2.
    eapply rtc_l; [apply (guarded_step [] [_] _ _ _ _ _ (reserve_run env r1 a _ a1 s2 Hdir Ha E1))|].
    cbn [app]. fold s3.
    eapply rtc_l; [apply (guarded_step [_] [] _ _ _ _ _ (reserve_run env r2 a1 _ a2 s3 Hdir eq_refl E2))|].
    cbn [app]. fold s4.
    eapply rtc_l; [apply (guarded_step [] [_] _ _ _ _ _ E5)|].
    eapply rtc_l; [apply (guarded_step [_] [] _ _ _ _ _ E6)|]. apply rtc_refl. }
  split; [by rewrite Hk, lookup_insert_ne, lookup_insert_eq|].
  split; [by rewrite Hk, lookup_insert_eq|].
  split; [by exists b|].
  split; [intros k Hne; by rewrite Hb6, dict_get_set_ne|].
  split; [by rewrite Ha6, Ha5|].
  destruct (allocations_distinct _ _ _ _ _ _ _ _ _ _ _ _ _ E1 E2) as (Hne & L1 & L2).
  split; [done|]. split; [done|]. split; [done|].
  destruct (unstage_last_run (st_claim_id r1) id b 1 s6) as (s7 & E7 & Hk7 & _ & Hg7);
    [done|by rewrite Hk, lookup_insert_ne, lookup_insert_eq|done..|].
  exists s7. split; [done|]. split; [by rewrite Hg7, bool_decide_eq_true_2 by auto|].
  by rewrite Hk7, lookup_delete_ne, Hk, lookup_insert_eq.
Qed.
End race.

(** ** Lemmas: threads that stage different buffers *)

Section frames.
Context {W C : Type} `{CudaApi W} `{GrpcContext C} `{!GrpcLaws C} (env : Env).
#[local] Abbreviation state := (Driver W C).
Implicit Types (s : state) (request : NodeStageWeightRequest).

(** The two dictionaries are [d] and [K]. *)
Definition dicts (d : dict BufferInfo) (K : gmap string string) s : Prop :=
  ALLOCATED_BUFFERS s = d /\ KNOWN_CLAIMS s = K.

Lemma dicts_modify d K (f : state -> state) :
  (forall s, ALLOCATED_BUFFERS (f s) = ALLOCATED_BUFFERS s /\ KNOWN_CLAIMS (f s) = KNOWN_CLAIMS s) ->
  preserves (dicts d K) (py_modify f).
Proof. intros Hf. apply preserves_modify. intros s [E1 E2]. destruct (Hf s) as [F1 F2]. split; congruence. Qed.

#[export] Instance dicts_allocator d K : AllocatorFrame (W:=W) (C:=C) (dicts d K).
Proof. by intros o s. Qed.

#[export] Instance dicts_files d K : FilesFrame (W:=W) (C:=C) (dicts d K).
Proof. by intros f s. Qed.

#[export] Instance dicts_context d K : ContextFrame (W:=W) (C:=C) (dicts d K).
Proof. by intros c s. Qed.

Lemma dicts_reserve d K request : preserves (dicts d K) (stage_reserve env request).
Proof.
  unfold stage_reserve. preserves_tac.
Qed.

Lemma dicts_load d K path p : preserves (dicts d K) (load_source (W:=W) (C:=C) env path p).
Proof. unfold load_source, load_tensors, memcpy_host_to_device. preserves_tac. Qed.

(** One reference is recorded for the buffer; the other entries and the claims are [D], [K]. *)
Definition recorded (id : string) (D : string -> option BufferInfo) (K : gmap string string) s : Prop :=
  (exists b, dict_get id (ALLOCATED_BUFFERS s) = Some b /\ bi_ref_count b = Some 1) /\
  (forall k, k <> id -> dict_get k (ALLOCATED_BUFFERS s) = D k) /\ KNOWN_CLAIMS s = K.

Lemma recorded_dicts id D K {A} (m : py state A) :
  (forall d K', preserves (dicts d K') m) -> preserves (recorded id D K) m.
Proof.
  intros Hm s Hs. destruct (Hm (ALLOCATED_BUFFERS s) (KNOWN_CLAIMS s) s) as [E1 E2]; [done|].
  unfold recorded. rewrite E1, E2. exact Hs.
Qed.

Lemma recorded_servers id D K : preserves (recorded id D K) (start_servers (W:=W) (C:=C) id).
Proof.
  intros s ((b & Hb & Hr) & Ho & Hk). rewrite (start_servers_run id b s Hb). simpl.
  split; [|split; [|done]].
  - eexists. simpl. rewrite dict_get_set_eq. split; [done|exact Hr].
  - intros k Hne. simpl. rewrite dict_get_set_ne by done. by apply Ho.
Qed.

(** The commit segment records one reference, whatever its outcome. *)
Lemma commit_records request r s :
  recorded (stage_effective_id request) (fun k => dict_get k (ALLOCATED_BUFFERS s)) (KNOWN_CLAIMS s)
    (stage_commit env request r s).2.
Proof.
  destruct r as [[fd h] p]. unfold stage_commit. rewrite bind_unfold. simpl.
  set (s1 := set_buffers _ s).
  assert (recorded (stage_effective_id request) (fun k => dict_get k (ALLOCATED_BUFFERS s))
    (KNOWN_CLAIMS s) s1) as Hs1.
  { split; [|split; [|done]]; simpl.
    - eexists. rewrite dict_get_set_eq. by split.
    - intros k Hne. by rewrite dict_get_set_ne. }
  revert Hs1. generalize s1. apply preserves_bind.
  - apply recorded_dicts. intros. apply dicts_load.
  - intros _. apply recorded_servers.
Qed.

(** *** What a thread has done *)

Definition absent request s : Prop := dict_get (stage_effective_id request) (ALLOCATED_BUFFERS s) = None.
Definition claimed request s : Prop :=
  KNOWN_CLAIMS s !! st_claim_id request = Some (stage_effective_id request).
Definition staged_once request s : Prop :=
  exists b, dict_get (stage_effective_id request) (ALLOCATED_BUFFERS s) = Some b /\ bi_ref_count b = Some 1.

Inductive thread_ok request s : proc state unit -> Prop :=
  | ok_start : absent request s -> thread_ok request s (stage_proc env request)
  | ok_reserving : absent request s -> claimed request s ->
      thread_ok request s (guarded (stage_reserving env request))
  | ok_committing r : absent request s -> claimed request s ->
      thread_ok request s (guarded (stage_committing env request r))
  | ok_failing e : claimed request s -> thread_ok request s (guarded (Done (Raise e)))
  | ok_failed r : r <> Ret tt -> claimed request s -> thread_ok request s (Done r)
  | ok_done : claimed request s -> staged_once request s -> thread_ok request s (Done (Ret tt)).

(** Another thread's buffer and claim are as before. *)
Definition elsewhere request s s' : Prop :=
  (forall k, k <> stage_effective_id request ->
     dict_get k (ALLOCATED_BUFFERS s') = dict_get k (ALLOCATED_BUFFERS s)) /\
  (forall c, c <> st_claim_id request -> KNOWN_CLAIMS s' !! c = KNOWN_CLAIMS s !! c).

Lemma elsewhere_dicts request s s' :
  ALLOCATED_BUFFERS s' = ALLOCATED_BUFFERS s -> KNOWN_CLAIMS s' = KNOWN_CLAIMS s -> elsewhere request s s'.
Proof. intros E1 E2. split; intros; by rewrite ?E1, ?E2. Qed.

(** A segment of a thread keeps the thread in order and does not touch the others. *)
Lemma thread_moves request s next effect :
  thread_ok request s (Atomic next effect) ->
  thread_ok request (effect s) (next s) /\ elsewhere request s (effect s).
Proof.
  intros Hok. remember (Atomic next effect) as p eqn:Ep. destruct Hok as [Hn|Hn Hc|r Hn Hc|e Hc|r _ _|_ _];
    [..|done|done]; injection Ep as <- <-.
  - rewrite (check_new request s Hn). split.
    + apply ok_reserving; [exact Hn|]. apply lookup_insert_eq.
    + split; [done|]. intros c Hne. simpl. by rewrite lookup_insert_ne.
  - destruct (dicts_reserve _ _ request s (conj eq_refl eq_refl)) as [Ed Ek].
    destruct (stage_reserve env request s) as [r s'] eqn:E. simpl in *.
    split; [|by apply elsewhere_dicts]. destruct r as [r|e|]; simpl.
    + apply ok_committing; unfold absent, claimed; by rewrite ?Ed, ?Ek.
    + apply ok_failing. unfold claimed. by rewrite Ek.
    + apply ok_failed; [done|]. unfold claimed. by rewrite Ek.
  - destruct (commit_records request r s) as (Hb & Ho & Hk).
    destruct (stage_commit env request r s) as [r' s'] eqn:E. simpl in *.
    split; [|split; [done|intros; by rewrite Hk]].
    assert (claimed request s') by (unfold claimed; by rewrite Hk). destruct r' as [r'|e|]; simpl.
    + by apply ok_done.
    + by apply ok_failing.
    + by apply ok_failed.
  - destruct (preserves_abort (dicts _ _) (A:=unit) INTERNAL (exn_str e) s (conj eq_refl eq_refl)) as [Ed Ek].
    destruct (raises_abort (W:=W) (A:=unit) INTERNAL (exn_str e) s) as (e' & s' & E).
    rewrite E in *. simpl in *. split; [|by apply elsewhere_dicts].
    apply ok_failed; [done|]. unfold claimed. by rewrite Ek.
Qed.

Lemma thread_ok_elsewhere r1 r2 p s s' :
  stage_effective_id r2 <> stage_effective_id r1 -> st_claim_id r2 <> st_claim_id r1 ->
  elsewhere r1 s s' -> thread_ok r2 s p -> thread_ok r2 s' p.
Proof.
  intros Hid Hc [Hb Hk] Hok.
  assert (absent r2 s -> absent r2 s') as Ha by (unfold absent; by rewrite Hb).
  assert (claimed r2 s -> claimed r2 s') as Hcl by (unfold claimed; by rewrite Hk).
  assert (staged_once r2 s -> staged_once r2 s') as Hs by (unfold staged_once; by rewrite Hb).
  destruct Hok; [apply ok_start|apply ok_reserving|apply ok_committing|apply ok_failing|
    apply ok_failed|apply ok_done]; auto.
Qed.

(** *** A pool of threads *)

(** The keys and claims of no request are as in [s0]. *)
Definition outside (rs : list NodeStageWeightRequest) s0 s : Prop :=
  (forall k, k ∉ stage_effective_id <$> rs ->
     dict_get k (ALLOCATED_BUFFERS s) = dict_get k (ALLOCATED_BUFFERS s0)) /\
  (forall c, c ∉ st_claim_id <$> rs -> KNOWN_CLAIMS s !! c = KNOWN_CLAIMS s0 !! c).

Definition pool_ok rs s0 (c : list (proc state unit) * state) : Prop :=
  Forall2 (fun r p => thread_ok r c.2 p) rs c.1 /\ outside rs s0 c.2.

Lemma threads_ok_elsewhere r rs l s s' :
  stage_effective_id r ∉ stage_effective_id <$> rs -> st_claim_id r ∉ st_claim_id <$> rs ->
  elsewhere r s s' ->
  Forall2 (fun r p => thread_ok r s p) rs l -> Forall2 (fun r p => thread_ok r s' p) rs l.
Proof.
  intros Hid Hc He. induction 1 as [|r' p rs l Hok _ IH]; [constructor|].
  rewrite fmap_cons, not_elem_of_cons in Hid, Hc. destruct Hid as [Hid1 Hid2], Hc as [Hc1 Hc2].
  constructor; [|by apply IH]. by apply (thread_ok_elsewhere r r' p s s'); [congruence..| |].
Qed.

Lemma pool_ok_step rs s0 c c' :
  NoDup (stage_effective_id <$> rs) -> NoDup (st_claim_id <$> rs) ->
  pool_step c c' -> pool_ok rs s0 c -> pool_ok rs s0 c'.
Proof.
  intros Hid Hcl Hstep [Hok [Hb Hk]]. destruct Hstep as [l1 next effect l2 s]. simpl in *.
  apply Forall2_app_inv_r in Hok as (rs1 & rs2' & Hok1 & Hok2 & ->).
  apply Forall2_cons_inv_r in Hok2 as (r & rs2 & Hr & Hok2 & ->).
  rewrite !fmap_app, !fmap_cons in *.
  apply NoDup_app in Hid as (_ & Hid1 & Hid2). apply NoDup_cons in Hid2 as [Hid2 _].
  apply NoDup_app in Hcl as (_ & Hcl1 & Hcl2). apply NoDup_cons in Hcl2 as [Hcl2 _].
  destruct (thread_moves r s next effect Hr) as [Hr' He].
  split; simpl.
  - apply Forall2_app; [|constructor; [done|]].
    + apply (threads_ok_elsewhere r rs1 l1 s); [| |done|done].
      * intros Hin. apply (Hid1 _ Hin). apply elem_of_cons. by left.
      * intros Hin. apply (Hcl1 _ Hin). apply elem_of_cons. by left.
    + by apply (threads_ok_elsewhere r rs2 l2 s).
  - destruct He as [He1 He2]. split.
    + intros k Hk'. rewrite fmap_app, fmap_cons in Hk'. rewrite He1; [by apply Hb|].
      intros ->. apply Hk', elem_of_app. right. apply elem_of_cons. by left.
    + intros k Hk'. rewrite fmap_app, fmap_cons in Hk'. rewrite He2; [by apply Hk|].
      intros ->. apply Hk', elem_of_app. right. apply elem_of_cons. by left.
Qed.
End frames.

(** *** Requests for different buffers *)

Section independent.
Context {W C : Type} `{CudaApi W} `{GrpcContext C} `{!GrpcLaws C} (env : Env).
Implicit Types (s : Driver W C) (rs : list NodeStageWeightRequest).

Lemma pool_ok_start rs s :
  Forall (fun r => absent r s) rs -> pool_ok env rs s (stage_proc env <$> rs, s).
Proof.
  intros Ha. split; [|done]. simpl. induction Ha; simpl; constructor; [by apply ok_start|done].
Qed.

Lemma pool_ok_reachable rs s c :
  NoDup (stage_effective_id <$> rs) -> NoDup (st_claim_id <$> rs) ->
  Forall (fun r => absent r s) rs ->
  rtc pool_step (stage_proc env <$> rs, s) c -> pool_ok env rs s c.
Proof.
  intros Hid Hcl Ha Hr. pose proof (pool_ok_start rs s Ha) as Hok. revert Hok.
  induction Hr as [c|c1 c2 c3 Hstep _ IH]; [done|]. intros Hok. by eapply IH, pool_ok_step.
Qed.

(** C9: threads that stage different buffers for different claims do not disturb each
    other, however their segments are interleaved: the run ends; a thread that has returned
    has its claim registered and its buffer recorded with one reference, whatever became of
    the others; a thread that failed keeps its claim; and no other entry or claim changed. *)
Theorem concurrent_stages_independent rs s :
  NoDup (stage_effective_id <$> rs) -> NoDup (st_claim_id <$> rs) ->
  Forall (fun r => dict_get (stage_effective_id r) (ALLOCATED_BUFFERS s) = None) rs ->
  sn pool_step (stage_proc env <$> rs, s) /\
  forall l s', rtc pool_step (stage_proc env <$> rs, s) (l, s') ->
    (forall i r x, rs !! i = Some r -> l !! i = Some (Done x) ->
       KNOWN_CLAIMS s' !! st_claim_id r = Some (stage_effective_id r) /\
       (x = Ret tt -> exists b, dict_get (stage_effective_id r) (ALLOCATED_BUFFERS s') = Some b /\
          bi_ref_count b = Some 1)) /\
    (forall k, k ∉ stage_effective_id <$> rs ->
       dict_get k (ALLOCATED_BUFFERS s') = dict_get k (ALLOCATED_BUFFERS s)) /\
    (forall c, c ∉ st_claim_id <$> rs -> KNOWN_CLAIMS s' !! c = KNOWN_CLAIMS s !! c).
Proof.
  intros Hid Hcl Ha. split; [apply pool_sn|]. intros l s' Hr.
  destruct (pool_ok_reachable rs s _ Hid Hcl Ha Hr) as [Hok [Hb Hk]]. simpl in *.
  split; [|by split]. intros i r x Hi Hx.
  pose proof (Forall2_lookup_lr _ _ _ _ _ _ Hok Hi Hx) as Hr'. simpl in Hr'.
  remember (Done x) as p eqn:Ep. destruct Hr'; try discriminate; injection Ep as ->; by split.
Qed.
End independent.

(** ** Witnesses *)

Lemma concurrent_stage_leaks_witness :
  exists s', rtc pool_step
      ([stage_proc Demo.env (Demo.request "c1" "m" (4 * MiB));
        stage_proc Demo.env (Demo.request "c2" "m" (4 * MiB))], Demo.start)
      ([Done (Ret tt); Done (Ret tt)], s') /\
    exists s'', rpc (NodeUnstageWeight "c1") s' = (RpcOk tt, s'') /\
      dict_get "m" (ALLOCATED_BUFFERS s'') = None /\ KNOWN_CLAIMS s'' !! "c2" = Some "m".
Proof.
  set (again := stage_allocate (4 * MiB) 0 (demo_after (4 * MiB))).
  destruct (concurrent_stage_leaks Sim.sim_obs Demo.env Sim.granule sim_granularity
    (Demo.request "c1" "m" (4 * MiB)) (Demo.request "c2" "m" (4 * MiB)) Demo.start
    Demo.allocator0 3 0 (2 ^ 40) (demo_after (4 * MiB)) 4 1 (2 ^ 41) again.2)
    as (s' & Hr & _ & _ & _ & _ & _ & _ & _ & _ & Hu).
  - reflexivity.
  - discriminate.
  - reflexivity.
  - reflexivity.
  - reflexivity.
  - apply NoDup_nil_2.
  - reflexivity.
  - reflexivity.
  - vm_compute. reflexivity.
  - vm_compute. reflexivity.
  - exists s'. split; [exact Hr|exact Hu].
Defined.

Lemma concurrent_stages_independent_witness :
  exists s', rtc pool_step
      ([stage_proc Demo.env (Demo.request "c1" "m" (4 * MiB));
        stage_proc Demo.env (Demo.request "c2" "n" (4 * MiB))], Demo.start)
      ([Done (Ret tt); Done (Ret tt)], s') /\
    KNOWN_CLAIMS s' !! "c1" = Some "m" /\ KNOWN_CLAIMS s' !! "c2" = Some "n".
Proof.
  set (rs := [Demo.request "c1" "m" (4 * MiB); Demo.request "c2" "n" (4 * MiB)]).
  set (c := pool_schedule [0; 1; 1; 0; 0; 1]%nat (stage_proc Demo.env <$> rs, Demo.start)).
  assert (c.1 = [Done (Ret tt); Done (Ret tt)]) as Hl by (vm_compute; reflexivity).
  pose proof (pool_schedule_run [0; 1; 1; 0; 0; 1]%nat (stage_proc Demo.env <$> rs, Demo.start)) as Hr.
  fold c in Hr. destruct c as [l s']. simpl in Hl. subst l. exists s'. split; [exact Hr|].
  destruct (concurrent_stages_independent Demo.env rs Demo.start) as [_ Hall].
  - apply (bool_decide_unpack _). vm_compute. exact I.
  - apply (bool_decide_unpack _). vm_compute. exact I.
  - repeat constructor.
  - destruct (Hall _ _ Hr) as [Hok _]. split.
    + apply (Hok 0%nat _ (Ret tt) eq_refl eq_refl).
    + apply (Hok 1%nat _ (Ret tt) eq_refl eq_refl).
Defined.
