(* ===== verification/Trainer.v ===== *)
(** * The example trainers (consumer/wpi_vllm/examples/trainer_http.py, trainer_ray.py)

    Each trainer sizes the buffer, initialises the workers and its own context, and then, step
    by step, pauses vLLM, sends the weights and resumes vLLM, over HTTP or over Ray. The calls
    out of the programs (requests, ray, torch, transformers, vllm) are events, whose outcomes
    the environment chooses from the events before; the state of a trainer is the list of its
    events. The sizes computed in floating point are computed here with the rounding of
    binary64. *)

From S2P Require Import Prelude PyMonad PyText.

(** ** Numbers *)

(** [n] rounded to 53 significant bits, ties to even, for [0 <= n]. *)
Definition round53 (n : Z) : Z :=
  let u := 2 ^ (Z.log2 n - 52) in
  if Z.log2 n <? 53 then n
  else let q := n / u in
       let r := n mod u in
       (if 2 * r <? u then q
        else if u <? 2 * r then q + 1
        else if Z.even q then q else q + 1) * u.

(** The binary64 number closest to 1.05 is [HEADROOM] / 2 ^ 52. *)
Definition HEADROOM : Z := 4728779608739021.

(** [int(total * 1.05)] for [0 <= total]: the integer becomes a float, the product is rounded,
    and its fraction is cut off. *)
Definition times_headroom {S} (total : Z) : py S Z :=
  let d := round53 total in
  if 2 ^ 1024 <=? d then py_raise OverflowError "int too large to convert to float"
  else let p := round53 (d * HEADROOM) in
       if 2 ^ (1024 + 52) <=? p then py_raise OverflowError "cannot convert float infinity to integer"
       else mret (p / 2 ^ 52).

Definition sum_nbytes (parameters : list Z) : Z := foldr Z.add 0 parameters.

Definition compute_buffer_size {S} (parameters : list Z) : py S Z :=
  times_headroom (sum_nbytes parameters).

(** A float of the command line, [m * 2 ^ e] when it is finite. *)
Inductive pyfloat : Type :=
  | Finite (m e : Z)
  | Infinity
  | NaN.

Definition float_positive (x : pyfloat) : bool :=
  match x with
  | Finite m _ => 0 <? m
  | Infinity => true
  | NaN => false
  end.

(** [int(x * 1024**3)] for a positive float: the product is exact unless it overflows. *)
Definition gib {S} (x : pyfloat) : py S Z :=
  match x with
  | Finite m e =>
      if 2 ^ 1024 <=? Z.shiftl m (e + 30)
      then py_raise OverflowError "cannot convert float infinity to integer"
      else mret (Z.shiftl m (e + 30))
  | Infinity => py_raise OverflowError "cannot convert float infinity to integer"
  | NaN => py_raise ValueError "cannot convert float NaN to integer"
  end.

(** [[n.strip() for n in target_nodes.split(",")]]. *)
Definition parse_nodes (target_nodes : string) : list string :=
  strip <$> split "," target_nodes.

(** ** Events *)

Inductive json : Type :=
  | JStr (s : string)
  | JInt (z : Z)
  | JBool (b : bool)
  | JObj (fields : list (string * json)).

Section trainer.
Context {Ctx Response : Type}.

Inductive SendArgs : Type :=
  | http_args (url : string) (trainer_ctx : Ctx)
  | ray_args (trainer_ctx : Ctx).

Inductive event : Type :=
  | Import (module : string)
  | LoadModel (name : string)
  | Train
  | Post (url : string) (body : option json) (params : list (string * json)) (timeout : Z)
  | RayInit
  | RayShutdown
  | GetActor (name : string)
  | Remote (method : string) (kwargs : list (string * json))
  | TrainerInit (info : json) (target_node_ids : list string)
  | SendWeights (send_args : SendArgs).

#[local] Abbreviation trace := (list event).

(** What the calls answer: an exception or a result, which may depend on the events before;
    and what [raise_for_status] and [json] raise on a response. *)
Record TrainerEnv : Type := {
  fails : trace -> event -> option exn;
  response : trace -> event -> Response;
  status_error : Response -> option exn;
  json_error : Response -> option exn;
  context_of : trace -> event -> Ctx;
  parameters : string -> list Z
}.

Record Args : Type := {
  vllm_url : string;
  target_nodes : string;
  model : string;
  buffer_size_gb : pyfloat;
  num_steps : Z;
  socket_dir : string;
  buffer_id : string
}.

(** ** The programs *)

Section programs.
Context (env : TrainerEnv) (args : Args).

Definition raise_option (o : option exn) : py trace unit :=
  match o with Some e => py_reraise e | None => mret tt end.

(** A call without a result. *)
Definition perform (e : event) : py trace unit :=
  fun tr => raise_option (fails env tr e) (tr ++ [e]).

Definition requests_post (url : string) (body : option json) (params : list (string * json))
    (timeout : Z) : py trace Response :=
  fun tr =>
    let e := Post url body params timeout in
    (perform e ;; mret (response env tr e)) tr.

Definition raise_for_status (resp : Response) : py trace unit := raise_option (status_error env resp).

Definition trainer_init (info : json) (nodes : list string) : py trace Ctx :=
  fun tr =>
    let e := TrainerInit info nodes in
    (perform e ;; mret (context_of env tr e)) tr.

Definition init_info (size : Z) : json :=
  JObj [("buffer_id", JStr (buffer_id args)); ("buffer_size_bytes", JInt size);
        ("socket_dir", JStr (socket_dir args))].

Definition WPI_ENGINE : string := "vllm.distributed.weight_transfer.wpi_engine".

(** The size of the buffer, from the command line or from the model. *)
Definition buffer_size_of : py trace Z :=
  if float_positive (buffer_size_gb args) then gib (buffer_size_gb args)
  else compute_buffer_size (parameters env (model args)).

(** *** trainer_http.py *)

(** A POST whose status is checked. *)
Definition post_checked (path : string) (body : option json) (params : list (string * json))
    (timeout : Z) : py trace Response :=
  resp ← requests_post (vllm_url args +:+ path) body params timeout ;
  raise_for_status resp ;;
  mret resp.

Definition http_step (ctx : Ctx) : py trace unit :=
  perform Train ;;
  post_checked "/pause" None [("mode", JStr "abort"); ("clear_cache", JBool true)] 60 ;;
  perform (SendWeights (http_args (vllm_url args) ctx)) ;;
  post_checked "/resume" None [] 60 ;;
  mret tt.

Definition http_main : py trace unit :=
  let nodes := parse_nodes (target_nodes args) in
  perform (Import "transformers") ;;
  perform (LoadModel (model args)) ;;
  size ← buffer_size_of ;
  resp ← post_checked "/init_weight_transfer_engine" (Some (JObj [("init_info", init_info size)])) [] 120 ;
  raise_option (json_error env resp) ;;
  perform (Import WPI_ENGINE) ;;
  ctx ← trainer_init (init_info size) nodes ;
  py_for (seq 0 (Z.to_nat (num_steps args))) (fun _ => http_step ctx).

(** *** trainer_ray.py *)

Definition ray_step (ctx : Ctx) : py trace unit :=
  perform Train ;;
  perform (Remote "pause_generation" [("mode", JStr "abort"); ("clear_cache", JBool true)]) ;;
  perform (SendWeights (ray_args ctx)) ;;
  perform (Remote "resume_generation" []).

(** The size of the buffer: the product is written out here. *)
Definition ray_buffer_size : py trace Z :=
  if float_positive (buffer_size_gb args) then gib (buffer_size_gb args)
  else times_headroom (sum_nbytes (parameters env (model args))).

Definition ray_main : py trace unit :=
  let nodes := parse_nodes (target_nodes args) in
  perform RayInit ;;
  perform (Import "transformers") ;;
  perform (LoadModel (model args)) ;;
  size ← ray_buffer_size ;
  perform (Import "vllm.entrypoints.llm") ;;
  perform (GetActor "vllm_server") ;;
  perform (Import "vllm.distributed.weight_transfer.base") ;;
  perform (Remote "init_weight_transfer_engine" [("init_info", init_info size)]) ;;
  perform (Import WPI_ENGINE) ;;
  ctx ← trainer_init (init_info size) nodes ;
  py_for (seq 0 (Z.to_nat (num_steps args))) (fun _ => ray_step ctx) ;;
  perform RayShutdown.
End programs.

(** ** Specification: what vLLM and the WPI engine see of a trainer *)

Inductive action : Type :=
  | InitWorkers (info : json)
  | InitTrainer (info : json) (target_node_ids : list string)
  | Pause
  | Send
  | Resume.

(** The actions of the HTTP trainer for the server at [url], and of the Ray trainer. *)
Definition http_action (url : string) (e : event) : option action :=
  match e with
  | Post u (Some (JObj [(_, info)])) _ _ =>
      if decide (u = url +:+ "/init_weight_transfer_engine") then Some (InitWorkers info) else None
  | Post u None _ _ =>
      if decide (u = url +:+ "/pause") then Some Pause
      else if decide (u = url +:+ "/resume") then Some Resume else None
  | TrainerInit info nodes => Some (InitTrainer info nodes)
  | SendWeights _ => Some Send
  | _ => None
  end.

Definition ray_action (e : event) : option action :=
  match e with
  | Remote m kwargs =>
      if decide (m = "pause_generation") then Some Pause
      else if decide (m = "resume_generation") then Some Resume
      else match kwargs with [(_, info)] => Some (InitWorkers info) | _ => None end
  | TrainerInit info nodes => Some (InitTrainer info nodes)
  | SendWeights _ => Some Send
  | _ => None
  end.

(** The two programs and their actions. *)
Inductive mode : Type := http | ray.

Definition trainer_main (env : TrainerEnv) (args : Args) (md : mode) : py trace unit :=
  match md with http => http_main env args | ray => ray_main env args end.

Definition trainer_action (args : Args) (md : mode) : event -> option action :=
  match md with http => http_action (vllm_url args) | ray => ray_action end.

(** [n] steps, each between a pause and a resume. *)
Fixpoint steps (n : nat) : list action :=
  match n with
  | O => []
  | S n' => [Pause; Send; Resume] ++ steps n'
  end.

Definition protocol (info : json) (nodes : list string) (n : nat) : list action :=
  [InitWorkers info; InitTrainer info nodes] ++ steps n.

Section spec.
Context (env : TrainerEnv).

(** The call after [tr] succeeds, the status of a POST included. *)
Definition answered (tr : trace) (e : event) : Prop :=
  fails env tr e = None /\
  match e with Post _ _ _ _ => status_error env (response env tr e) = None | _ => True end.

Fixpoint all_answered (tr new : trace) : Prop :=
  match new with
  | [] => True
  | e :: new' => answered tr e /\ all_answered (tr ++ [e]) new'
  end.

Lemma all_answered_app tr a b :
  all_answered tr (a ++ b) <-> all_answered tr a /\ all_answered (tr ++ a) b.
Proof.
  revert tr. induction a as [|e a IH]; intros tr; simpl; [by rewrite app_nil_r; tauto|].
  rewrite IH, <-(assoc (++)). simpl. tauto.
Qed.

Context (act : event -> option action).

(** [m] makes calls with the actions [P] and returns, or a part of them and raises, each but
    the last one a success; it does not block. *)
Definition follows {A} (m : py trace A) (P : list action) : Prop :=
  forall tr, exists good bad, (m tr).2 = tr ++ good ++ bad /\
    (length bad <= 1)%nat /\ all_answered tr good /\ omap act (good ++ bad) `prefix_of` P /\
    match (m tr).1 with
    | Ret _ => bad = [] /\ omap act good = P
    | Raise _ => True
    | Stuck => False
    end.

(** ** Lemmas: following a protocol *)

Lemma follows_ret {A} (a : A) : follows (mret a) [].
Proof. intros tr. exists [], []. simpl. rewrite app_nil_r. split_and!; try done; lia. Qed.

Lemma follows_raise_option o : follows (raise_option o) [].
Proof. intros tr. exists [], []. destruct o; simpl; rewrite app_nil_r; split_and!; try done; lia. Qed.

Lemma follows_bind {A B} (m : py trace A) (k : A -> py trace B) P Q :
  follows m P -> (forall a, follows (k a) Q) -> follows (m ≫= k) (P ++ Q).
Proof.
  intros Hm Hk tr. destruct (Hm tr) as (g1 & b1 & E1 & Hl1 & Ha1 & Hp1 & Hr1). rewrite bind_unfold.
  destruct (m tr) as [[a|e|] tr1]; simpl in *;
    [|by exists g1, b1; split_and!; [..|by apply prefix_app_r|]|done].
  destruct Hr1 as [-> <-]. rewrite app_nil_r in E1. subst tr1.
  destruct (Hk a (tr ++ g1)) as (g2 & b2 & E2 & Hl2 & Ha2 & Hp2 & Hr2).
  exists (g1 ++ g2), b2. rewrite E2, <-!(assoc (++)). split; [done|]. split; [done|].
  split; [by apply all_answered_app|]. rewrite omap_app. split; [by apply prefix_app|].
  destruct (k a _) as [[b|e|] tr2]; simpl in *; try done. destruct Hr2 as [-> <-].
  by rewrite omap_app.
Qed.

(** The first statement makes no action, or one. *)
Lemma follows_silent {A B} (m : py trace A) (k : A -> py trace B) Q :
  follows m [] -> (forall a, follows (k a) Q) -> follows (m ≫= k) Q.
Proof. apply (follows_bind m k [] Q). Qed.

Lemma follows_first {A B} (m : py trace A) (k : A -> py trace B) a Q :
  follows m [a] -> (forall r, follows (k r) Q) -> follows (m ≫= k) (a :: Q).
Proof. apply (follows_bind m k [a] Q). Qed.

Lemma follows_perform e P :
  match e with Post _ _ _ _ => False | _ => True end -> omap act [e] = P -> follows (perform env e) P.
Proof.
  intros He <- tr. unfold perform. destruct (fails env tr e) as [x|] eqn:E; simpl.
  - exists [], [e]; split_and!; try done; simpl; lia.
  - exists [e], []. split_and!; try done; simpl; [lia|]. unfold answered. by destruct e.
Qed.

Lemma follows_trainer_init info nodes P :
  omap act [TrainerInit info nodes] = P -> follows (trainer_init env info nodes) P.
Proof.
  intros HP tr. destruct (follows_perform (TrainerInit info nodes) P I HP tr) as (g & b & Hg).
  exists g, b. unfold trainer_init. rewrite bind_unfold.
  by destruct (perform _ _ _) as [[[]|?|] ?].
Qed.

Lemma follows_post args path body params timeout P :
  omap act [Post (vllm_url args +:+ path) body params timeout] = P ->
  follows (post_checked env args path body params timeout) P.
Proof.
  intros <- tr. unfold post_checked, requests_post, raise_for_status. rewrite bind_unfold.
  set (e := Post _ _ _ _). rewrite bind_unfold. unfold perform.
  destruct (fails env tr e) as [x|] eqn:E1; simpl; [exists [], [e]; split_and!; try done; simpl; lia|].
  rewrite bind_unfold. destruct (status_error env (response env tr e)) as [x|] eqn:E2; simpl.
  - exists [], [e]; split_and!; try done; simpl; lia.
  - exists [e], []; split_and!; try done; simpl; lia.
Qed.

Lemma follows_for (body : nat -> py trace unit) a n :
  (forall i, follows (body i) [Pause; Send; Resume]) -> follows (py_for (seq a n) body) (steps n).
Proof.
  intros Hb. revert a. induction n as [|n IH]; intros a; [apply follows_ret|].
  apply follows_bind; [apply Hb|]. intros _. apply IH.
Qed.
End spec.

(** ** Lemmas: the programs *)

Section main.
Context (env : TrainerEnv) (args : Args).

Lemma buffer_size_pure tr : buffer_size_of env args tr = ((buffer_size_of env args []).1, tr).
Proof.
  unfold buffer_size_of, gib, compute_buffer_size, times_headroom. by repeat case_match.
Qed.

Lemma follows_size {A} act (k : Z -> py trace A) size Q :
  (buffer_size_of env args []).1 = Ret size -> follows env act (k size) Q ->
  follows env act (buffer_size_of env args ≫= k) Q.
Proof.
  intros Hs Hk tr. rewrite bind_unfold, buffer_size_pure, Hs. apply Hk.
Qed.

Lemma path_inj (u a b : string) : u +:+ a = u +:+ b -> a = b.
Proof. induction u as [|c u IH]; [done|]. intros E. injection E. apply IH. Qed.

#[local] Abbreviation act := (http_action (vllm_url args)).

Lemma http_step_follows ctx : follows env act (http_step env args ctx) [Pause; Send; Resume].
Proof.
  unfold http_step. apply follows_silent; [by apply follows_perform|intros _].
  apply follows_first; [apply follows_post; simpl; by rewrite decide_True|intros _].
  apply follows_first; [by apply follows_perform|intros _].
  apply follows_first; [|intros _; apply follows_ret].
  apply follows_post. simpl. by rewrite decide_False, decide_True by (done || intros E; by apply path_inj in E).
Qed.

Lemma http_main_follows size :
  (buffer_size_of env args []).1 = Ret size ->
  follows env act (http_main env args)
    (protocol (init_info args size) (parse_nodes (target_nodes args)) (Z.to_nat (num_steps args))).
Proof.
  intros Hs. unfold http_main, protocol. do 2 (apply follows_silent; [by apply follows_perform|intros _]).
  apply (follows_size _ _ size); [done|].
  apply follows_first; [apply follows_post; simpl; by rewrite decide_True|intros resp].
  apply follows_silent; [apply follows_raise_option|intros _].
  apply follows_silent; [by apply follows_perform|intros _].
  apply follows_first; [by apply follows_trainer_init|intros ctx].
  apply follows_for. intros _. apply http_step_follows.
Qed.

Lemma ray_step_follows ctx : follows env ray_action (ray_step env ctx) [Pause; Send; Resume].
Proof.
  unfold ray_step. apply follows_silent; [by apply follows_perform|intros _].
  do 2 (apply follows_first; [by apply follows_perform|intros _]). by apply follows_perform.
Qed.

Lemma ray_main_follows size :
  (buffer_size_of env args []).1 = Ret size ->
  follows env ray_action (ray_main env args)
    (protocol (init_info args size) (parse_nodes (target_nodes args)) (Z.to_nat (num_steps args))).
Proof.
  intros Hs. unfold ray_main, protocol. do 3 (apply follows_silent; [by apply follows_perform|intros _]).
  apply (follows_size _ _ size); [done|].
  do 3 (apply follows_silent; [by apply follows_perform|intros _]).
  apply follows_first; [by apply follows_perform|intros _].
  apply follows_silent; [by apply follows_perform|intros _].
  apply follows_first; [by apply follows_trainer_init|intros ctx].
  rewrite <-(app_nil_r (steps _)). apply follows_bind; [|intros _; by apply follows_perform].
  apply follows_for. intros _. apply ray_step_follows.
Qed.

Lemma trainer_follows md size :
  (buffer_size_of env args []).1 = Ret size ->
  follows env (trainer_action args md) (trainer_main env args md)
    (protocol (init_info args size) (parse_nodes (target_nodes args)) (Z.to_nat (num_steps args))).
Proof. destruct md; [apply http_main_follows|apply ray_main_follows]. Qed.

(** What ends in a send, in a part of the steps, has the pause right before it. *)
Lemma steps_send_prefix n l :
  l ++ [Send] `prefix_of` steps n -> exists k, l = steps k ++ [Pause].
Proof.
  revert l. induction n as [|n IH]; intros l [z E]; [by destruct l|]. simpl in E.
  destruct l as [|a [|b [|c l]]]; simplify_eq/=; [by exists 0%nat|].
  destruct (IH l) as [k ->]; [by exists z|]. by exists (S k).
Qed.

Lemma protocol_send_prefix info nodes n l :
  l ++ [Send] `prefix_of` protocol info nodes n ->
  exists k, l = [InitWorkers info; InitTrainer info nodes] ++ steps k ++ [Pause].
Proof.
  intros [z E]. unfold protocol in E. simpl in E.
  destruct l as [|a [|b l]]; simplify_eq/=.
  destruct (steps_send_prefix n l) as [k ->]; [by exists z|]. by exists k.
Qed.

Lemma failed_send_run act (m : py trace unit) P tr e x :
  follows env act m P -> m [] = (Raise x, tr ++ [e]) -> fails env tr e <> None ->
  all_answered env [] tr /\ omap act (tr ++ [e]) `prefix_of` P.
Proof.
  intros Hm E He. destruct (Hm []) as (good & bad & Et & Hl & Ha & Hp & _). rewrite E in Et. simpl in Et.
  destruct bad as [|b [|? bad]]; simpl in Hl; [|simpl in Et; apply app_inj_tail in Et as [-> ->]; by split|lia].
  rewrite app_nil_r in *. subst good. apply all_answered_app in Ha as [_ [[Hf _] _]]. by destruct He.
Qed.

(** ** Properties *)

(** C21: both trainers keep to one protocol, whatever the calls answer: workers and trainer are
    initialised with the same buffer, and then the weights are sent [num_steps] times, each
    time between a pause and a resume. Each call is made only after the ones before it
    succeeded; a trainer that returns went through the whole protocol, one that raises went
    through a first part of it; neither blocks. *)
Theorem trainers_keep_protocol md size :
  (buffer_size_of env args []).1 = Ret size ->
  let P := protocol (init_info args size) (parse_nodes (target_nodes args))
             (Z.to_nat (num_steps args)) in
  exists r good bad, trainer_main env args md [] = (r, good ++ bad) /\
    (length bad <= 1)%nat /\ all_answered env [] good /\
    omap (trainer_action args md) (good ++ bad) `prefix_of` P /\
    match r with
    | Ret _ => bad = [] /\ omap (trainer_action args md) good = P
    | Raise _ => True
    | Stuck => False
    end.
Proof.
  intros Hs P. destruct (trainer_follows md size Hs []) as (good & bad & E & Hr).
  exists (trainer_main env args md []).1, good, bad. split; [|exact Hr]. simpl in E. rewrite <-E.
  apply surjective_pairing.
Qed.

(** A send that fails leaves vLLM paused: all calls before it succeeded, the last action
    before it is the pause, and the trainer ends with the exception, without the resume. *)
Theorem failed_send_leaves_paused md size tr args' x :
  (buffer_size_of env args []).1 = Ret size -> fails env tr (SendWeights args') <> None ->
  trainer_main env args md [] = (Raise x, tr ++ [SendWeights args']) ->
  all_answered env [] tr /\
  exists k, omap (trainer_action args md) tr =
    [InitWorkers (init_info args size); InitTrainer (init_info args size) (parse_nodes (target_nodes args))] ++
    steps k ++ [Pause].
Proof.
  intros Hs He E.
  destruct (failed_send_run _ _ _ _ _ _ (trainer_follows md size Hs) E He) as [Ha Hp].
  rewrite omap_app in Hp. split; [done|]. apply (protocol_send_prefix _ _ (Z.to_nat (num_steps args))).
  by destruct md.
Qed.
End main.
End trainer.

(** ** Lemmas: rounding *)

Section rounding.
Variable n : Z.
Hypothesis Hn : 0 < n.

(** One unit in the last place of a number of more than 53 bits. *)
Lemma round53_unit :
  53 <= Z.log2 n -> let u := 2 ^ (Z.log2 n - 52) in
  0 < u /\ u * 2 ^ 52 <= n < u * 2 ^ 53.
Proof.
  intros Hl u. destruct (Z.log2_spec n Hn) as [H1 H2].
  assert (0 < u) by (apply Z.pow_pos_nonneg; lia).
  split; [done|]. unfold u. rewrite <-!Z.pow_add_r by lia.
  replace (Z.log2 n - 52 + 52) with (Z.log2 n) by lia.
  by replace (Z.log2 n - 52 + 53) with (Z.succ (Z.log2 n)) by lia.
Qed.

(** The error is at most half a unit. *)
Lemma round53_error : 2 ^ 53 * Z.abs (round53 n - n) <= n.
Proof.
  unfold round53. destruct (Z.ltb_spec (Z.log2 n) 53) as [Hl|Hl]; [lia|].
  destruct (round53_unit Hl) as (Hu & Hb). cbv zeta in *.
  set (u := 2 ^ (Z.log2 n - 52)) in *. pose proof (Z.div_mod n u) as Hd. pose proof (Z.mod_pos_bound n u Hu).
  set (q := n / u) in *. set (r := n mod u) in *. clearbody u q r.
  assert (n = q * u + r) as -> by lia.
  destruct (Z.ltb_spec (2 * r) u); [|destruct (Z.ltb_spec u (2 * r)); [|destruct (Z.even q)]]; nia.
Qed.
(** Rounding does not go below a number of 53 bits. *)
Lemma round53_ge c : 0 <= c < 2 ^ 53 -> c * 2 ^ 52 <= n -> c * 2 ^ 52 <= round53 n.
Proof.
  intros Hc Hle. unfold round53. destruct (Z.ltb_spec (Z.log2 n) 53) as [Hl|Hl]; [done|].
  destruct (round53_unit Hl) as (Hu & Hb). cbv zeta in *.
  set (u := 2 ^ (Z.log2 n - 52)) in *.
  assert (c * 2 ^ 52 <= n / u * u).
  { destruct (Z.le_gt_cases (Z.log2 n) 104) as [Hs|Hs].
    - assert (2 ^ 52 = 2 ^ (104 - Z.log2 n) * u) as E
        by (unfold u; rewrite <-Z.pow_add_r by lia; f_equal; lia).
      rewrite E, Z.mul_assoc. apply Z.mul_le_mono_nonneg_r; [lia|].
      apply Z.div_le_lower_bound; [done|]. rewrite Z.mul_comm, <-Z.mul_assoc, <-E. lia.
    - assert (2 ^ 52 <= n / u) by (apply Z.div_le_lower_bound; lia).
      assert (2 ^ 53 <= u) by (apply Z.pow_le_mono_r; lia). nia. }
  destruct (_ <? _); [done|]. destruct (_ <? _); [|destruct (Z.even _)]; nia.
Qed.
End rounding.

Lemma round53_0 : round53 0 = 0.
Proof. done. Qed.

Lemma round53_small n : 0 <= n < 2 ^ 53 -> round53 n = n.
Proof.
  intros Hn. unfold round53. destruct (Z.ltb_spec (Z.log2 n) 53) as [|Hl]; [done|].
  destruct (Z.eq_dec n 0) as [->|]; [done|]. apply Z.log2_le_pow2 in Hl; lia.
Qed.

Lemma sum_nbytes_nonneg l : Forall (Z.le 0) l -> 0 <= sum_nbytes l.
Proof. induction 1; simpl; [done|]. unfold sum_nbytes in *. simpl. lia. Qed.

(** C22: the size computed from the model holds all its parameters, in spite of the rounding of
    the floating-point product; up to 32 TiB it is the exact 105 percent, rounded down. *)
Theorem compute_buffer_size_bounds {S} (l : list Z) (s : S) :
  Forall (Z.le 0) l -> sum_nbytes l < 2 ^ 1000 ->
  exists size, compute_buffer_size l s = (Ret size, s) /\ sum_nbytes l <= size /\
    (sum_nbytes l < 2 ^ 45 -> size = 21 * sum_nbytes l / 20).
Proof.
  intros Hl Hmax. apply sum_nbytes_nonneg in Hl. unfold compute_buffer_size, times_headroom, HEADROOM.
  set (t := sum_nbytes l) in *. clearbody t.
  destruct (Z.eq_dec t 0) as [->|Hne]; [by exists 0|].
  assert (0 < t) as Ht by lia. pose proof (round53_error t Ht) as Hd.
  assert (t < 2 ^ 45 -> round53 t = t) as Hs by (intros; apply round53_small; lia).
  set (d := round53 t) in *. clearbody d.
  assert (0 < d * 4728779608739021) as Hx by lia.
  pose proof (round53_error _ Hx) as Hp. pose proof (round53_ge _ Hx) as Hge.
  set (p := round53 (d * _)) in *. clearbody p.
  assert (2 ^ 1000 * 4 < 2 ^ 1024) as Hpow by reflexivity.
  assert (2 ^ 1024 * 2 ^ 52 = 2 ^ (1024 + 52)) as Hpow2 by reflexivity.
  set (M := 2 ^ 1000) in *. set (N := 2 ^ 1024) in *. set (N' := 2 ^ (1024 + 52)) in *. clearbody M N N'.
  destruct (Z.leb_spec N d); [lia|]. destruct (Z.leb_spec N' p); [lia|].
  eexists. split; [done|]. split.
  - apply Z.div_le_lower_bound; lia.
  - intros Hsmall. rewrite Hs in * by done. pose proof (Z.div_mod (21 * t) 20). pose proof (Z.mod_pos_bound (21 * t) 20).
    specialize (Hge (21 * t / 20)). apply Z.le_antisymm.
    + apply Z.lt_succ_r, Z.div_lt_upper_bound; lia.
    + apply Z.div_le_lower_bound; lia.
Qed.

(** ** Lemmas: the target nodes *)

(** The comma-separated list of nodes without commas and spaces is read back. *)
Lemma split_max_join sep nodes node m :
  Forall (fun a => has_char sep a = false) (node :: nodes) -> (length nodes <= m)%nat ->
  split_max sep m (String.concat (String sep "") (node :: nodes)) = node :: nodes.
Proof.
  revert node m. induction nodes as [|b nodes IH]; intros a m Hall Hm;
    inversion_clear Hall as [|? ? Ha Hnodes]; [by apply split_max_none|].
  destruct m as [|m]; simpl in Hm; [lia|].
  change (String.concat _ (a :: b :: nodes))
    with (a +:+ String sep (String.concat (String sep "") (b :: nodes))).
  rewrite split_max_cons by done. f_equal. apply IH; [done|lia].
Qed.

Lemma concat_length_ge c node nodes :
  (length nodes <= String.length (String.concat (String c "") (node :: nodes)))%nat.
Proof.
  revert node. induction nodes as [|b nodes IH]; intros a; [simpl; lia|].
  change (String.concat _ (a :: b :: nodes))
    with (a +:+ String c (String.concat (String c "") (b :: nodes))).
  rewrite string_length_app. specialize (IH b). simpl in *. lia.
Qed.

Lemma parse_nodes_join node nodes :
  Forall (fun a => str_forall (fun c => negb (is_space c)) a = true /\ has_char "," a = false)
    (node :: nodes) ->
  parse_nodes (String.concat "," (node :: nodes)) = node :: nodes.
Proof.
  intros Hall. unfold parse_nodes, split.
  rewrite split_max_join; [|eapply Forall_impl; [done|]; by intros ? []|apply concat_length_ge].
  rewrite <-(list_fmap_id (node :: nodes)) at 2. apply list_fmap_ext. intros i a Ha.
  apply strip_none. by apply (Forall_lookup_1 _ _ _ _ Hall Ha).
Qed.

(** ** Witnesses *)

Module TrainerDemo.

Definition args : Args :=
  {| vllm_url := "http://vllm:8000"; target_nodes := "10.0.0.2, 10.0.0.3"; model := "m";
     buffer_size_gb := Finite 0 0; num_steps := 2; socket_dir := "/run/wpi/sockets";
     buffer_id := "vllm-weights" |}.

Definition is_send {Ctx} (e : event (Ctx:=Ctx)) : bool :=
  match e with SendWeights _ => true | _ => false end.

Definition broken : exn := mk_exn RpcError "unavailable".

(** A model of two parameters; the [n]-th send fails. *)
Definition env (n : nat) : TrainerEnv (Ctx:=unit) (Response:=unit) :=
  {| fails tr e := if is_send e && (length (filter (fun e => is_send e = true) tr) =? n)%nat
                   then Some broken else None;
     response _ _ := tt; status_error _ := None; json_error _ := None;
     context_of _ _ := tt; parameters _ := [1000; 2000] |}.
End TrainerDemo.

Lemma trainers_keep_protocol_witness :
  exists r good bad, trainer_main (TrainerDemo.env 7) TrainerDemo.args ray [] = (r, good ++ bad) /\
    omap (trainer_action TrainerDemo.args ray) (good ++ bad) `prefix_of`
      protocol (init_info TrainerDemo.args 3150) ["10.0.0.2"; "10.0.0.3"] 2.
Proof.
  destruct (trainers_keep_protocol (TrainerDemo.env 7) TrainerDemo.args ray 3150) as
    (r & good & bad & E & _ & _ & Hp & _); [vm_compute; reflexivity|].
  by exists r, good, bad.
Defined.

Lemma failed_send_leaves_paused_witness :
  let tr := removelast (trainer_main (TrainerDemo.env 1) TrainerDemo.args http []).2 in
  all_answered (TrainerDemo.env 1) [] tr /\
  exists k, omap (trainer_action TrainerDemo.args http) tr =
    [InitWorkers (init_info TrainerDemo.args 3150);
     InitTrainer (init_info TrainerDemo.args 3150) ["10.0.0.2"; "10.0.0.3"]] ++ steps k ++ [Pause].
Proof.
  apply (failed_send_leaves_paused (TrainerDemo.env 1) TrainerDemo.args http 3150 _
    (http_args "http://vllm:8000" tt) TrainerDemo.broken).
  - vm_compute. reflexivity.
  - vm_compute. discriminate.
  - vm_compute. reflexivity.
Defined.

Lemma compute_buffer_size_bounds_witness :
  exists size, compute_buffer_size [1000; 2003] tt = (Ret size, tt) /\ 3003 <= size /\
    (3003 < 2 ^ 45 -> size = 3153).
Proof.
  apply (compute_buffer_size_bounds [1000; 2003] tt); [|reflexivity].
  repeat constructor; discriminate.
Defined.
